(* ===== verification/_CoqProject ===== *)
-Q . S2P
Prelude.v
Rust.v
Ffi.v
Util.v
Regmap.v
Mac.v
Mcu.v
Eeprom.v
Rx.v
Tx.v
Frame.v
Sta.v
Ap.v
Entry.v
Usb.v
Device.v
Runner.v
Cmd.v
Download.v
Session.v
Plan.v
Dev.v
Driver.v
Bank.v
Keys.v
Vif.v
Ops.v
Filter.v
RxPath.v
TxPath.v
Beacon.v
Work.v
Traffic.v
Efuse.v
Life.v
Assert.v
TestsRegs.v
TestsFrames.v
TestsMcu.v
Rings.v
Reception.v
Secure.v
Rates.v
