(* ===== verification/Prelude.v ===== *)
(** * MT7603U: a verification library of the driver's logic

    The repository is a Linux driver for the MediaTek MT7603U USB WiFi chip:
    a Rust crate without allocation (src/rust/src) that computes - register
    sequences, MCU command frames, transmit descriptors, 802.11 frames, and
    the parsers of received data and of the EEPROM - and a C skeleton (src/c)
    that talks to USB and to mac80211 and calls the crate through the C ABI.
    This library models the crate, its user-space runner, and the skeleton
    from plugging in to unplugging.  The specifications it is held against are
    the documents under specs/ and the comments of the code.

    ** Files and what they model

    Foundations:

    - Prelude.v: machine integers as [Z] with their width ([is_uint], [wrap],
      [shl32]), bit fields ([bits]), little-endian conversions, overwriting a
      range of a list ([splice]), and the tactics [uint], [bitfield], [masks],
      [list_len], [vm_decide].
    - Rust.v: Rust's effects.  A function returns an [outcome]: [Done],
      [Panic] (the handler of lib.rs loops for ever), or [Undefined] (an
      unsafe access out of bounds).  A function that fills an output slice is
      a [builder]: a state monad over the slice with early errors, which keeps
      the stores made before an error.  Arithmetic that Rust checks in debug
      builds takes the build [profile].

    The crate:

    - Ffi.v (ffi.rs), Util.v (util.rs), Regmap.v (regmap.rs): the structures
      shared with C, [copy_bytes], and [physical_addr_map] from register
      addresses to the addresses of vendor requests.
    - Mac.v (mac.rs), Mcu.v (mcu.rs): the register sequences; the FW_TXD
      header, the ten MCU commands, the firmware image checks.
    - Eeprom.v (eeprom.rs), Rx.v (rx.rs), Tx.v (tx.rs): the EEPROM image, the
      receive descriptor, the transmit descriptor.
    - Frame.v: 802.11 headers and information elements, shared by Sta.v
      (sta.rs: probe request, beacon parser, wireless table) and Ap.v (ap.rs:
      beacon, association frames, beacon timer).
    - Entry.v (lib.rs): every extern "C" function; pointers are optional
      regions of memory, a null pointer is [None].
    - Runner.v (bin/user_runner.rs): the user-space program.

    Bring-up (C):

    - Usb.v (regops.c): the kernel services as parameters (the record
      [kernel]: an answer may depend on everything that happened before),
      the [io] monad over traces of calls and answers, the rules [emits] by
      which a function is given its effect, and the register access of C.
    - Device.v (regops.c): what a register sequence does to the device.
    - Cmd.v (usb.c): sending a command built by the crate.
    - Download.v (usb.c): the firmware download with its response URBs,
      polling, restart and every error exit, and the hardware part of the
      probe.
    - Session.v (usb.c): the completion of response URBs, with the gate two
      sessions share.
    - Efuse.v (regops.c, mac80211.c): the eFuse reader against a model of the
      chip, and the device record registration makes.
    - Life.v (usb.c, mac80211.c): probe, registration and disconnect composed
      with the life in between.

    The driver under mac80211 (mac80211.c):

    - Dev.v: struct mt7603u_dev; Plan.v: what a function puts on the bus as a
      plan of transfers, with the two blocks every callback is made of.
    - Driver.v: channel switch, config, the receive rings, start and stop.
    - Bank.v: a register bank that remembers what is written, and the rules
      [wp] for functions that read registers back.
    - Keys.v: hardware keys and block-ack sessions.
    - Vif.v: interfaces, the receive filter, changes of the BSS, stations,
      removal.
    - Ops.v: the callback table as a machine over the device state; Filter.v:
      the receive filter over runs of that machine.
    - RxPath.v: the completion of a receive URB with its aggregated packets;
      Rings.v: which receive URBs are in flight, read off the trace;
      Reception.v: the receive completions among and inside the other entries.
    - TxPath.v: transmission and its completion, over socket buffers with
      their head and tail room.
    - Beacon.v: the beacon work item; Work.v: who schedules and cancels it.
    - Traffic.v: the entries of the driver - callbacks, transmissions,
      completions, beacon work - as a step relation, and its reachable worlds.
    - Secure.v: association, key installation and protected transmission
      together; Rates.v: a rate from mac80211 to the air and back.

    The unit tests of the crate:

    - Assert.v: tests as programs; TestsRegs.v (util.rs, regmap.rs, mac.rs,
      eeprom.rs), TestsFrames.v (rx.rs, tx.rs, sta.rs, ap.rs), TestsMcu.v
      (mcu.rs): every [#[test]] function, assertion for assertion.

    State and operations keep the names of the source.  A register sequence is
    a list of [RegWriteOp]; what it does is read off with [last_write], on the
    bus with [device_reg], in a bank with [regs].  Outputs of the crate are
    compared with independent readings: [parse_fw_txd] and [dev_step] (the boot
    ROM) for commands, [decode_txd] for descriptors, [Elements] for element
    lists, [entry_of] for the wireless table, [efuse_chip] for the eFuse.

    ** Interfaces

    - [Builds f frame] (Rust.v): a builder promises a frame - written exactly,
      the rest of the slice untouched, -ENOSPC and no store when it does not
      fit, no panic.  [Rejects f e]: it refuses its arguments before any
      store.  The frame and sequence builders of the crate are instances or
      have a lemma; [build_txwi], whose arguments can panic, has a
      specification of its own.
    - [Answers f spec] (Entry.v): the two together.  The contract of the C
      entry points is proved once, against [Answers] only.
    - [emits m P] (Usb.v): normal return, the transfers made, and the balance
      of memory and URBs, whatever the kernel answers; [performs] (Plan.v) is
      the form the callbacks use.  [Closed] (Plan.v) is the class of the
      effects that sequencing preserves.
    - [leaves m P] (Usb.v): normal return and the trace itself, where the order
      of the calls and their answers matter; [stage] (Download.v) is its form
      for the download, [clean] the runs in which no call failed.
    - [wp] (Bank.v): what a function leaves in the registers when no transfer
      fails.
    - [logs P m] (Work.v): every call a function makes is in [P]; [drives m Q r]
      (Rings.v): the receive URBs a run leaves in flight.
    - [Ieee80211] with [Ieee80211Laws] (TxPath.v): the header functions of
      the kernel and what its documentation says of them.

    ** What the theorems show

    - The whole driver: [device_life_balanced] (Life.v: from plugging in to
      unplugging everything taken is given back), [callbacks_refine_soft_state]
      (Ops.v: the driver's state is the fold of an abstract machine, no failed
      transfer changes it), [traffic_accounts] and [beacon_chain_unbroken]
      (Traffic.v: every interleaving; each frame is given back or freed once;
      the beacon work is pending exactly while beaconing is enabled, and every
      run of it that gets a template hands it over),
      [reception_safe], [reception_listens], [rings_only_started]
      (Reception.v: a receive URB in flight has its memory, a running driver
      keeps listening, and how URBs get lost or submitted twice).
    - Association and encryption: [protected_frame_finds_key],
      [second_station_displaces] (Secure.v); rates: [rate_arrives] (Rates.v).
    - Commands (Mcu.v): [command_frame_spec], [command_roundtrip].
    - Bring-up: [download_loads_image] (a refinement: the boot ROM gets exactly
      the image and only in bypass mode), [download_leaves_bypass] (the way back
      to normal mode is taken on every path), [download_resources] (balanced,
      but for the response stranded by exactly one kind of failure),
      [probe_brings_up] (Download.v), [session_answered] (Session.v),
      [mac_init_programs_device] (Device.v), [efuse_read_all_correct], [register_eeprom_identity]
      (Efuse.v).
    - Start and channel: [mac80211_start_spec], [mac80211_config_spec]
      (Driver.v).
    - Registers the callbacks leave: [set_key_programs_entry],
      [set_key_reports], [ampdu_refines_sessions] (Keys.v),
      [station_registers] (Vif.v), [receive_filter_follows] (Filter.v).
    - Reception: [parse_rx_frame_safe], [parse_rx_frame_layout] (Rx.v),
      [rx_complete_safe] (any transfer: termination and memory safety),
      [rx_complete_delivers] (every intact frame exactly once) (RxPath.v).
    - Transmission: [build_txwi_spec], [build_txwi_roundtrip],
      [txd_byte_count_exact], [tx_rx_rate_agree] (Tx.v), [mac80211_tx_spec],
      [tx_wire_decodes], [tx_complete_roundtrip] (TxPath.v), and
      [beacon_work_spec] (Beacon.v).
    - 802.11 (Sta.v, Ap.v): [parse_beacon_refines] (termination, safety and
      the function of the element list), [beacon_roundtrip],
      [hidden_ssid_channel_lost].
    - Addresses and the C ABI: [physical_addr_map_spec] (Regmap.v),
      [command_entry_contract], [parser_entries_safe] (Entry.v).
    - The runner: [runner_main_spec] (Runner.v).
    - The model against the crate's own tests: [unit_tests_pass] (TestsMcu.v), a
      check of the translation rather than a property of the driver.

    The other theorems of the files - the association frames, the windows of
    the block-ack search, the wireless-table and beacon-timer sequences, the
    register entry points - are the lemmas these rest on, or stand beside them.

    ** Bounds and fuel

    A [usize] is a [nat]: slice lengths are at most isize::MAX, so the index
    arithmetic of the crate does not overflow.  [ie_loop] (beacon elements)
    takes the frame length as fuel, [scatter_loop] (firmware chunks) the image
    length plus one and [efuse_blocks] the buffer length plus one; each turn
    consumes at least one byte, and the theorems show a normal return, never
    the out-of-fuel case.  [rx_loop] (packets of a transfer) advances by at
    least sixteen bytes: [rx_complete_safe] shows the same result for every
    fuel above a sixteenth of the transfer.  The eFuse is polled
    [EFUSE_POLLS] times per block.  The other loops are structural.

    ** What is not modelled

    - The fields of the mac80211 handle (constants for mac80211), module
      registration (core.c), log output, the callbacks with empty bodies; the
      branches for kernels before 6.0 that read a channel from another field.
    - Receive completions may interrupt every entry (Reception.v); the other
      entries are atomic with respect to each other, as a callback that runs
      while another waits is an interleaving of whole entries (Traffic.v).  The
      time transfers take is not modelled.  In the download, the answer of a
      wait is a parameter; Session.v says what completions make of it.
    - Memory reached through two pointer arguments of an entry point is taken
      to be distinct, as the [&mut] references made from them require.
    - That volatile copies are not merged by the compiler (util.rs): a
      property of code generation. *)

From Stdlib Require Export ZArith Lia.
From stdpp Require Export base decidable option list list_numbers numbers sorting gmap.

#[global] Set Default Goal Selector "!".

Declare Scope rust_scope.
Delimit Scope rust_scope with rust.
Create HintDb rust.
Create HintDb bitfield.

(** ** Machine integers

    A [w]-bit unsigned integer is a [Z] in [0, 2^w); a cast to a narrower type
    keeps the low bits, which is what Rust's [as] does. *)

Definition is_uint (w x : Z) : Prop := (0 ≤ x < 2 ^ w)%Z.
Abbreviation is_u8 := (is_uint 8).
Abbreviation is_u16 := (is_uint 16).
Abbreviation is_u32 := (is_uint 32).
Definition is_i8 (x : Z) : Prop := (-128 ≤ x ≤ 127)%Z.

#[export] Instance is_uint_dec w x : Decision (is_uint w x).
Proof. unfold is_uint. apply _. Defined.
#[export] Instance is_i8_dec x : Decision (is_i8 x).
Proof. unfold is_i8. apply _. Defined.

Definition wrap (w x : Z) : Z := (x `mod` 2 ^ w)%Z.
Abbreviation as_u8 := (wrap 8).
Abbreviation as_u16 := (wrap 16).
Abbreviation as_u32 := (wrap 32).
(** [u8 as i8]: two's complement reinterpretation. *)
Definition as_i8 (b : Z) : Z := if (b <? 128)%Z then b else (b - 256)%Z.
(** [i8::saturating_add]. *)
Definition saturating_add_i8 (a b : Z) : Z := Z.max (-128) (Z.min 127 (a + b)).
(** [u32 << n] drops the bits shifted past the width. *)
Definition shl32 (x n : Z) : Z := wrap 32 (x ≪ n)%Z.

(** A build of the crate: [Debug] checks arithmetic overflow and
    [debug_assert!]; the [release] profile of Cargo.toml, which the kernel
    module links, does neither. *)
Inductive profile := Debug | Release.
#[export] Instance profile_eq_dec : EqDecision profile.
Proof. solve_decision. Defined.

(** ** Errno values returned by the crate *)

Definition EINVAL : Z := (-22)%Z.
Definition ENOSPC : Z := (-28)%Z.

(** ** Bit fields

    [bits lo w x] is the [w]-bit field of [x] whose lowest bit is bit [lo]:
    the C or Rust expression [(x >> lo) & ((1 << w) - 1)]. *)

Definition bits (lo w x : Z) : Z := Z.land (x ≫ lo) (Z.ones w).
Notation "x '⟦' lo , w '⟧'" := (bits lo w x)
  (at level 1, lo at level 60, w at level 60) : rust_scope.

Section bits.
Local Open Scope Z_scope.
Implicit Types x y lo w n : Z.

Lemma bits_mod lo w x : 0 ≤ w → bits lo w x = (x ≫ lo) `mod` 2 ^ w.
Proof. intros. unfold bits. by rewrite Z.land_ones. Qed.

Lemma bits_div lo w x : 0 ≤ lo → 0 ≤ w → bits lo w x = (x `div` 2 ^ lo) `mod` 2 ^ w.
Proof. intros. by rewrite bits_mod, Z.shiftr_div_pow2. Qed.

Lemma bits_uint lo w x : 0 ≤ w → is_uint w (bits lo w x).
Proof. intros. rewrite bits_mod by done. apply Z.mod_pos_bound. by apply Z.pow_pos_nonneg. Qed.

Lemma bits_0 lo w : bits lo w 0 = 0.
Proof. unfold bits. by rewrite Z.shiftr_0_l. Qed.

Lemma bits_lor lo w x y : bits lo w (Z.lor x y) = Z.lor (bits lo w x) (bits lo w y).
Proof. unfold bits. by rewrite Z.shiftr_lor, Z.land_lor_distr_l. Qed.

Lemma bits_land lo w x y : bits lo w (Z.land x y) = Z.land (bits lo w x) (bits lo w y).
Proof. unfold bits. rewrite Z.shiftr_land. Z.bitwise. by destruct (Z.testbit (Z.ones w) _);
  rewrite ?andb_true_r, ?andb_false_r. Qed.

Lemma bits_ldiff lo w x y : bits lo w (Z.ldiff x y) = Z.ldiff (bits lo w x) (bits lo w y).
Proof.
  unfold bits. rewrite Z.shiftr_ldiff. apply Z.bits_inj'. intros i Hi.
  rewrite Z.land_spec, !Z.ldiff_spec, !Z.land_spec.
  by destruct (Z.testbit (x ≫ lo) i), (Z.testbit (y ≫ lo) i), (Z.testbit (Z.ones w) i).
Qed.

(** [Z.lor (Z.ldiff x m) v] is [x] with the fields under the mask [m] replaced
    by [v]: a field of the mask reads [v], the rest is kept. *)
Lemma patch_field lo w m v x :
  0 ≤ w → bits lo w m = Z.ones w → bits lo w (Z.lor (Z.ldiff x m) v) = bits lo w v.
Proof.
  intros Hw Hm. rewrite bits_lor, bits_ldiff, Hm.
  assert (Z.ldiff (bits lo w x) (Z.ones w) = 0) as ->; [|apply Z.lor_0_l].
  apply Z.bits_inj'. intros i Hi. unfold bits. rewrite Z.ldiff_spec, Z.land_spec, Z.bits_0.
  by destruct (Z.testbit (x ≫ lo) i), (Z.testbit (Z.ones w) i).
Qed.

Lemma patch_rest m v x : Z.ldiff v m = 0 → Z.ldiff (Z.lor (Z.ldiff x m) v) m = Z.ldiff x m.
Proof.
  intros Hv. apply Z.bits_inj'. intros i Hi. pose proof (f_equal (λ z, Z.testbit z i) Hv) as Hvi.
  cbn beta in Hvi. rewrite Z.ldiff_spec, Z.bits_0 in Hvi. rewrite !Z.ldiff_spec, Z.lor_spec, Z.ldiff_spec.
  by destruct (Z.testbit x i), (Z.testbit v i), (Z.testbit m i).
Qed.

(** Bits that are set anyway need not be cleared first, and clearing what is
    not set commutes. *)
Lemma patch_widen x m v : Z.lor (Z.ldiff x m) v = Z.lor (Z.ldiff x (Z.lor m v)) v.
Proof.
  apply Z.bits_inj'. intros i Hi. rewrite !Z.lor_spec, !Z.ldiff_spec, Z.lor_spec.
  by destruct (Z.testbit x i), (Z.testbit v i), (Z.testbit m i).
Qed.
Lemma patch_clear x m v c :
  Z.ldiff (Z.lor (Z.ldiff x m) v) c = Z.lor (Z.ldiff x (Z.lor m c)) (Z.ldiff v c).
Proof.
  apply Z.bits_inj'. intros i Hi. rewrite !Z.lor_spec, !Z.ldiff_spec, !Z.lor_spec, Z.ldiff_spec.
  by destruct (Z.testbit x i), (Z.testbit v i), (Z.testbit m i), (Z.testbit c i).
Qed.

(** A field at or above the shift count reads the shifted operand. *)
Lemma bits_shiftl_in lo w x n : 0 ≤ n ≤ lo → bits lo w (x ≪ n) = bits (lo - n) w x.
Proof. intros. unfold bits. f_equal. rewrite Z.shiftr_shiftl_r by lia. done. Qed.

(** A field below the shift count reads zeros. *)
Lemma bits_shiftl_out lo w x n : 0 ≤ lo → 0 ≤ w → lo + w ≤ n → bits lo w (x ≪ n) = 0.
Proof.
  intros. unfold bits. rewrite Z.shiftr_shiftl_l by lia.
  rewrite Z.land_ones, Z.shiftl_mul_pow2 by lia.
  replace (n - lo) with ((n - lo - w) + w) by lia.
  rewrite Z.pow_add_r, Z.mul_assoc by lia. apply Z_mod_mult.
Qed.

(** A field above a small operand reads zero. *)
Lemma bits_above lo w x : 0 ≤ x < 2 ^ lo → bits lo w x = 0.
Proof.
  intros Hx. unfold bits.
  destruct (decide (0 ≤ lo)); [|rewrite Z.pow_neg_r in Hx; lia].
  by rewrite Z.shiftr_div_pow2, Z.div_small by lia.
Qed.

Lemma bits_small w x : 0 ≤ w → 0 ≤ x < 2 ^ w → bits 0 w x = x.
Proof. intros. rewrite bits_div by lia. rewrite Z.div_1_r. by apply Z.mod_small. Qed.

Lemma bits_wrap lo w k x : 0 ≤ lo → 0 ≤ w → lo + w ≤ k → bits lo w (wrap k x) = bits lo w x.
Proof.
  intros. unfold bits, wrap. rewrite <-Z.land_ones by lia.
  apply Z.bits_inj'. intros i Hi.
  rewrite !Z.land_spec, !Z.shiftr_spec, Z.land_spec by done.
  destruct (decide (i < w)).
  - rewrite (Z.ones_spec_low k) by lia. by rewrite andb_true_r.
  - rewrite !(Z.ones_spec_high w) by lia. by rewrite !andb_false_r.
Qed.

Lemma bits_shl32_in lo w x n :
  0 ≤ n ≤ lo → 0 ≤ w → lo + w ≤ 32 → bits lo w (shl32 x n) = bits (lo - n) w x.
Proof. intros. unfold shl32. by rewrite bits_wrap, bits_shiftl_in by lia. Qed.

Lemma bits_shl32_out lo w x n :
  0 ≤ lo → 0 ≤ w → lo + w ≤ n → n ≤ 32 → bits lo w (shl32 x n) = 0.
Proof. intros. unfold shl32. by rewrite bits_wrap, bits_shiftl_out by lia. Qed.

Lemma testbit_bits lo w x i :
  0 ≤ i → 0 ≤ w → Z.testbit (bits lo w x) i = (i <? w) && Z.testbit x (i + lo).
Proof.
  intros. unfold bits. rewrite Z.land_spec, Z.shiftr_spec by done.
  destruct (Z.ltb_spec i w).
  - rewrite Z.ones_spec_low by lia. by rewrite andb_true_r.
  - rewrite Z.ones_spec_high by lia. by rewrite andb_false_r.
Qed.

Lemma testbit_field x k : 0 ≤ k → Z.testbit x k = (bits k 1 x =? 1).
Proof.
  intros Hk. pose proof (testbit_bits k 1 x 0 ltac:(lia) ltac:(lia)) as Ht.
  change (Z.testbit (bits k 1 x) 0 = Z.testbit x k) in Ht. rewrite <-Ht.
  pose proof (bits_uint k 1 x ltac:(lia)) as Hu. unfold is_uint in Hu. change (2 ^ 1) with 2 in Hu.
  destruct (Z.eqb_spec (bits k 1 x) 1) as [-> |]; [done|].
  by replace (bits k 1 x) with 0 by lia.
Qed.

(** Adjacent fields glue together. *)
Lemma bits_split lo w1 w2 x :
  0 ≤ lo → 0 ≤ w1 → 0 ≤ w2 →
  Z.lor (bits lo w1 x) (bits (lo + w1) w2 x ≪ w1) = bits lo (w1 + w2) x.
Proof.
  intros. apply Z.bits_inj'. intros i Hi.
  rewrite Z.lor_spec, Z.shiftl_spec, (testbit_bits lo w1), (testbit_bits lo (w1 + w2)) by lia.
  destruct (Z.ltb_spec i w1).
  - rewrite (Z.testbit_neg_r _ (i - w1)), orb_false_r by lia.
    destruct (Z.ltb_spec i (w1 + w2)); [done|lia].
  - rewrite testbit_bits by lia. replace (i - w1 + (lo + w1)) with (i + lo) by lia.
    destruct (Z.ltb_spec (i - w1) w2), (Z.ltb_spec i (w1 + w2)); done || lia.
Qed.
End bits.

Lemma land_bound x m : (0 ≤ m)%Z → (0 ≤ Z.land x m ≤ m)%Z.
Proof.
  intros Hm. split; [by apply Z.land_nonneg; right|].
  assert (m - Z.land x m = Z.ldiff m (Z.land x m))%Z as Heq.
  { apply Z.sub_nocarry_ldiff. apply Z.bits_inj'. intros i _.
    rewrite Z.ldiff_spec, Z.land_spec, Z.bits_0.
    by destruct (Z.testbit x i), (Z.testbit m i). }
  assert (0 ≤ Z.ldiff m (Z.land x m))%Z; [|lia].
  apply Z.ldiff_nonneg. by left.
Qed.

(** A decidable property of a small integer range, by enumeration. *)
Lemma range_forall (P : Z → Prop) `{!∀ x, Decision (P x)} (lo n x : Z) :
  bool_decide (Forall P (seqZ lo n)) = true → (lo ≤ x < lo + n)%Z → P x.
Proof.
  intros HF%bool_decide_eq_true Hx. rewrite Forall_forall in HF.
  apply HF, elem_of_seqZ. lia.
Qed.

(** Closure of the ranges under the bit operations; the hints build the range
    proof of a word assembled from fields. *)
Section is_uint.
Local Open Scope Z_scope.
Implicit Types w x y : Z.

Lemma is_uint_width w x : is_uint w x → 0 ≤ w.
Proof. unfold is_uint. destruct (decide (0 ≤ w)); [done|]. rewrite Z.pow_neg_r by lia. lia. Qed.

Lemma is_uint_lor w x y : is_uint w x → is_uint w y → is_uint w (Z.lor x y).
Proof.
  intros Hx Hy. pose proof (is_uint_width _ _ Hx). unfold is_uint in *.
  apply Z.bounded_iff_bits_nonneg'; [lia|apply Z.lor_nonneg; lia|]. intros i Hi.
  rewrite Z.lor_spec.
  by rewrite (proj1 (Z.bounded_iff_bits_nonneg' w x ltac:(lia) ltac:(lia)) ltac:(lia) i Hi),
    (proj1 (Z.bounded_iff_bits_nonneg' w y ltac:(lia) ltac:(lia)) ltac:(lia) i Hi).
Qed.

Lemma is_uint_land_l w x y : is_uint w x → is_uint w (Z.land x y).
Proof.
  unfold is_uint. intros Hx. rewrite Z.land_comm. pose proof (land_bound y x). lia.
Qed.

Lemma is_uint_land_r w x y : is_uint w y → is_uint w (Z.land x y).
Proof. rewrite Z.land_comm. apply is_uint_land_l. Qed.

Lemma is_uint_ldiff w x y : is_uint w x → is_uint w (Z.ldiff x y).
Proof. rewrite Z.ldiff_land. apply is_uint_land_l. Qed.

Lemma is_uint_wrap w x : 0 ≤ w → is_uint w (wrap w x).
Proof. intros. apply Z.mod_pos_bound. by apply Z.pow_pos_nonneg. Qed.

Lemma is_uint_shl32 x n : is_u32 (shl32 x n).
Proof. by apply is_uint_wrap. Qed.

Lemma is_uint_mono v w x : v ≤ w → is_uint v x → is_uint w x.
Proof.
  intros Hvw Hx. pose proof (is_uint_width _ _ Hx). unfold is_uint in *.
  pose proof (Z.pow_le_mono_r 2 v w). lia.
Qed.

Lemma is_u8_u32 x : is_u8 x → is_u32 x.
Proof. by apply is_uint_mono. Qed.
Lemma is_u16_u32 x : is_u16 x → is_u32 x.
Proof. by apply is_uint_mono. Qed.

Lemma Forall_nth_u8 l k : Forall is_u8 l → is_u8 (nth k l 0).
Proof.
  intros HF. destruct (nth_in_or_default k l 0) as [Hin | ->]; [|done].
  by apply (proj1 (List.Forall_forall _ _) HF).
Qed.

(** A byte shifted inside the word loses nothing. *)
Lemma shl32_u8 b n : is_u8 b → 0 ≤ n ≤ 24 → shl32 b n = b ≪ n.
Proof.
  intros Hb Hn. unfold shl32, wrap. apply Z.mod_small. rewrite Z.shiftl_mul_pow2 by lia.
  unfold is_uint in Hb. split; [apply Z.mul_nonneg_nonneg; [lia|apply Z.pow_nonneg; lia]|].
  apply Z.lt_le_trans with (2 ^ 8 * 2 ^ n); [apply Z.mul_lt_mono_pos_r; [apply Z.pow_pos_nonneg; lia|lia]|].
  rewrite <-Z.pow_add_r by lia. apply Z.pow_le_mono_r; lia.
Qed.

Lemma bits_u8 lo x : is_u8 (bits lo 8 x).
Proof. by apply bits_uint. Qed.
End is_uint.

#[export] Hint Resolve is_uint_lor is_uint_land_l is_uint_land_r is_uint_shl32
  is_u8_u32 is_u16_u32 bits_u8 : rust.

(** ** Tactics for widths and fields *)

Ltac is_Zlit n :=
  lazymatch n with Z0 => idtac | Zpos ?p => is_poslit p | Zneg ?p => is_poslit p end
with is_poslit p :=
  lazymatch p with xH => idtac | xO ?q => is_poslit q | xI ?q => is_poslit q end.

(** Decide a closed goal by computation. *)
Ltac vm_decide := apply (bool_decide_unpack _); vm_compute; exact I.

(** Compute literal powers of two, in the goal and the context. *)
Ltac pow2 :=
  repeat match goal with
  | |- context [Z.pow 2 ?n] => is_Zlit n;
      let v := eval vm_compute in (Z.pow 2 n) in change (Z.pow 2 n) with v
  | H : context [Z.pow 2 ?n] |- _ => is_Zlit n;
      let v := eval vm_compute in (Z.pow 2 n) in change (Z.pow 2 n) with v in H
  end.

(** Record the bounds of masks and fields that occur in the goal. *)
Ltac pose_bounds :=
  repeat match goal with
  | |- context [Z.land ?x ?m] => is_Zlit m;
      lazymatch goal with
      | _ : (0 ≤ Z.land x m ≤ m)%Z |- _ => fail
      | _ => let H := fresh in assert (H := land_bound x m); specialize (H ltac:(lia))
      end
  | |- context [bits ?lo ?w ?x] => is_Zlit w;
      lazymatch goal with
      | _ : is_uint w (bits lo w x) |- _ => fail
      | _ => assert (is_uint w (bits lo w x)) by (apply bits_uint; lia)
      end
  end.

(** Solve range side conditions of machine integers. *)
Ltac uint :=
  pose_bounds; unfold wrap, is_uint, is_i8 in *; pow2; try done; lia.

Ltac bits_step :=
  match goal with
  | |- context [bits ?lo ?w (Z.lor ?x ?y)] => rewrite (bits_lor lo w x y)
  | |- context [bits ?lo ?w (Z.shiftl ?x ?n)] =>
      first [ rewrite (bits_shiftl_in lo w x n) by lia;
              let k := eval vm_compute in (Z.sub lo n) in change (Z.sub lo n) with k
            | rewrite (bits_shiftl_out lo w x n) by lia ]
  | |- context [bits ?lo ?w (shl32 ?x ?n)] =>
      first [ rewrite (bits_shl32_in lo w x n) by lia;
              let k := eval vm_compute in (Z.sub lo n) in change (Z.sub lo n) with k
            | rewrite (bits_shl32_out lo w x n) by lia ]
  | |- context [bits ?lo ?w ?x] => is_Zlit x; is_Zlit lo; is_Zlit w;
      let v := eval vm_compute in (bits lo w x) in change (bits lo w x) with v
  | |- context [bits 0 ?w ?x] => rewrite (bits_small w x) by uint
  | |- context [bits ?lo ?w ?x] => rewrite (bits_above lo w x) by uint
  end.

(** Normalise field extractions of a word assembled with [|] and [<<]. *)
Ltac bitfield :=
  repeat (bits_step; rewrite ?Z.lor_0_l, ?Z.lor_0_r).

(** A mask of ones is a field; rewrite every literal mask so. *)
Lemma mask_bits (x m w : Z) : (0 ≤ w)%Z → m = Z.ones w → Z.land x m = bits 0 w x.
Proof. intros _ ->. unfold bits. by rewrite Z.shiftr_0_r. Qed.

Ltac masks :=
  repeat match goal with
  | |- context [Z.land ?x ?m] => is_Zlit m;
      let w := eval vm_compute in (Z.log2 (m + 1)%Z) in rewrite (mask_bits x m w) by (lia || done)
  end.

(** ** Little-endian conversions ([to_le_bytes], [from_le_bytes]) *)

Definition u16_to_le_bytes (x : Z) : list Z := [bits 0 8 x; bits 8 8 x].
Definition u32_to_le_bytes (x : Z) : list Z :=
  [bits 0 8 x; bits 8 8 x; bits 16 8 x; bits 24 8 x].
Definition u16_from_le_bytes (b0 b1 : Z) : Z := Z.lor b0 (b1 ≪ 8).
Definition u32_from_le_bytes (b0 b1 b2 b3 : Z) : Z :=
  Z.lor b0 (Z.lor (b1 ≪ 8) (Z.lor (b2 ≪ 16) (b3 ≪ 24))).

Section little_endian.
Local Open Scope Z_scope.

Lemma length_u16_to_le_bytes x : length (u16_to_le_bytes x) = 2%nat.
Proof. done. Qed.
Lemma length_u32_to_le_bytes x : length (u32_to_le_bytes x) = 4%nat.
Proof. done. Qed.

Lemma u16_from_to x : is_u16 x → u16_from_le_bytes (bits 0 8 x) (bits 8 8 x) = x.
Proof.
  intros Hx. unfold u16_from_le_bytes. rewrite (bits_split 0 8 8) by lia.
  apply bits_small; [lia|uint].
Qed.

Lemma u32_from_to x :
  is_u32 x → u32_from_le_bytes (bits 0 8 x) (bits 8 8 x) (bits 16 8 x) (bits 24 8 x) = x.
Proof.
  intros Hx. unfold u32_from_le_bytes.
  change (bits 24 8 x ≪ 24) with (bits 24 8 x ≪ (8 + 16)).
  rewrite <-Z.shiftl_shiftl, <-Z.shiftl_lor, (bits_split 16 8 8) by lia.
  change (bits 16 (8 + 8) x ≪ 16) with (bits 16 16 x ≪ (8 + 8)).
  rewrite <-Z.shiftl_shiftl by lia.
  rewrite <-Z.shiftl_lor, (bits_split 8 8 16), (bits_split 0 8 24) by lia.
  apply bits_small; [lia|uint].
Qed.

Lemma u16_to_from b0 b1 :
  is_u8 b0 → is_u8 b1 → u16_to_le_bytes (u16_from_le_bytes b0 b1) = [b0; b1].
Proof.
  intros. unfold u16_to_le_bytes, u16_from_le_bytes. by bitfield.
Qed.

Lemma u32_to_from b0 b1 b2 b3 :
  is_u8 b0 → is_u8 b1 → is_u8 b2 → is_u8 b3 →
  u32_to_le_bytes (u32_from_le_bytes b0 b1 b2 b3) = [b0; b1; b2; b3].
Proof.
  intros. unfold u32_to_le_bytes, u32_from_le_bytes. by bitfield.
Qed.

Lemma u32_from_u32 b0 b1 b2 b3 :
  is_u8 b0 → is_u8 b1 → is_u8 b2 → is_u8 b3 → is_u32 (u32_from_le_bytes b0 b1 b2 b3).
Proof.
  intros. unfold u32_from_le_bytes.
  repeat apply is_uint_lor; unfold is_uint in *; rewrite ?Z.shiftl_mul_pow2 by lia; pow2; lia.
Qed.
End little_endian.

(** ** Overwriting a range of a list

    [splice off s l] is [l] with the elements from [off] on overwritten by
    [s]; every store of the model reduces to it. *)

Section splice.
Context {A : Type}.
Implicit Types (l s a b : list A) (off i : nat).

Definition splice off s l : list A := take off l ++ s ++ drop (off + length s) l.

Lemma length_splice off s l : off + length s ≤ length l → length (splice off s l) = length l.
Proof. intros. unfold splice. rewrite !length_app, length_take, length_drop. lia. Qed.

Lemma splice_hit off s a b : off = 0 → length a = length s → splice off s (a ++ b) = s ++ b.
Proof. intros -> Hl. unfold splice. simpl. by rewrite <-Hl, drop_app_length. Qed.

Lemma splice_skip off s a b :
  length a ≤ off → splice off s (a ++ b) = a ++ splice (off - length a) s b.
Proof.
  intros. unfold splice. rewrite take_app_ge, drop_app_ge by lia.
  rewrite <-app_assoc. do 4 f_equal. lia.
Qed.

Lemma splice_all s l : length s ≤ length l → splice 0 s l = s ++ drop (length s) l.
Proof. done. Qed.

Lemma insert_splice i x l : i < length l → <[i:=x]> l = splice i [x] l.
Proof. intros. rewrite insert_take_drop by done. unfold splice. do 3 f_equal. simpl. lia. Qed.

Lemma lookup_splice off s l i :
  off + length s ≤ length l →
  splice off s l !! i = if decide (off ≤ i < off + length s) then s !! (i - off) else l !! i.
Proof.
  intros. unfold splice. case_decide as Hi.
  - rewrite lookup_app_r by (rewrite length_take; lia). rewrite length_take, Nat.min_l by lia.
    by rewrite lookup_app_l by lia.
  - destruct (decide (i < off)).
    + rewrite lookup_app_l by (rewrite length_take; lia). by rewrite lookup_take_lt.
    + rewrite !lookup_app_r by (rewrite ?length_take; lia).
      rewrite length_take, lookup_drop. f_equal. lia.
Qed.

(** A list is cut into segments of prescribed lengths and a rest. *)
Lemma segments (ns : list nat) l :
  sum_list ns ≤ length l →
  ∃ segs, l = concat segs ++ drop (sum_list ns) l ∧ Forall2 (λ n s, length s = n) ns segs.
Proof.
  revert l. induction ns as [|n ns IH]; intros l Hl; simpl in *; [by exists []|].
  destruct (IH (drop n l)) as (segs & Heq & HF); [rewrite length_drop; lia|].
  exists (take n l :: segs). simpl. rewrite <-app_assoc. split.
  - rewrite drop_drop in Heq. rewrite <-Heq. by rewrite take_drop.
  - constructor; [rewrite length_take; lia|done].
Qed.

Lemma replicate_segments (ns : list nat) (x : A) n :
  n = sum_list ns → replicate n x = concat ((λ k, replicate k x) <$> ns).
Proof.
  intros ->. induction ns as [|k ns IH]; simpl; [done|]. by rewrite replicate_add, IH.
Qed.
End splice.

Ltac list_len :=
  repeat first
    [ progress rewrite ?length_app, ?length_replicate, ?length_take, ?length_drop,
        ?length_insert, ?length_fmap, ?length_seq,
        ?length_u16_to_le_bytes, ?length_u32_to_le_bytes
    | rewrite length_splice by list_len ];
  cbn [length sum_list sum_list_with] in *; lia.

(** Resolve overwrites that line up with the segments of a buffer. *)
Ltac splice_norm :=
  repeat first [ rewrite splice_hit by list_len | rewrite splice_skip by list_len ].
