(* ===== verification/Rust.v ===== *)
(** * Rust's effects: panics, undefined behaviour, [Result] and output slices

    The functions of src/rust/src return [Result<_, i32>], write through
    [&mut] slices, and may panic (an index out of bounds, a
    [copy_from_slice] between different lengths, an overflow in a debug
    build).  This file gives these effects a small monad, with one lemma per
    primitive store that says what it does when its bounds hold, and the
    interface [Builds] by which a builder promises a frame to its callers. *)

From S2P Require Import Prelude.

(** ** Outcomes

    [Panic] is a Rust panic: with [panic = "abort"] and the panic handler of
    lib.rs, a panic in the kernel never returns.  [Undefined] is an [unsafe]
    access outside the memory the code was given. *)

Inductive outcome (A : Type) : Type :=
| Done (a : A)
| Panic
| Undefined.
Arguments Done {A} a.
Arguments Panic {A}.
Arguments Undefined {A}.

#[export] Instance outcome_ret : MRet outcome := @Done.
#[export] Instance outcome_bind : MBind outcome := λ A B f m,
  match m with Done a => f a | Panic => Panic | Undefined => Undefined end.

#[export] Instance outcome_eq_dec `{EqDecision A} : EqDecision (outcome A).
Proof. solve_decision. Defined.

(** [Result<A, i32>]. *)
Inductive result (A : Type) : Type :=
| Ok (a : A)
| Err (e : Z).
Arguments Ok {A} a.
Arguments Err {A} e.

#[export] Instance result_eq_dec `{EqDecision A} : EqDecision (result A).
Proof. solve_decision. Defined.

Lemma outcome_bind_done {A B} (x : A) (f : A → outcome B) : (Done x ≫= f) = f x.
Proof. done. Qed.

Lemma outcome_bind_inv {A B} (m : outcome A) (f : A → outcome B) y :
  (m ≫= f) = Done y → ∃ x, m = Done x ∧ f x = Done y.
Proof. destruct m; naive_solver. Qed.

(** ** Reading slices *)

Section reads.
Context {A : Type}.

(** [buf[i]] *)
Definition index (l : list A) (i : nat) : outcome A :=
  match l !! i with Some x => Done x | None => Panic end.

(** [&buf[lo..hi]] *)
Definition subslice (l : list A) (lo hi : nat) : outcome (list A) :=
  if decide (lo ≤ hi ∧ hi ≤ length l) then Done (take (hi - lo) (drop lo l)) else Panic.

(** [dst.copy_from_slice(src)], the new contents of [dst] *)
Definition copy_from_slice (dst src : list A) : outcome (list A) :=
  if decide (length dst = length src) then Done src else Panic.

Lemma index_lookup l i x : l !! i = Some x → index l i = Done x.
Proof. intros H. unfold index. by rewrite H. Qed.

Lemma index_lt l i : i < length l → ∃ x, l !! i = Some x ∧ index l i = Done x.
Proof.
  intros [x Hx]%lookup_lt_is_Some. exists x. split; [done|by apply index_lookup].
Qed.

Lemma index_nth l i d : i < length l → index l i = Done (nth i l d).
Proof. intros H. apply index_lookup. destruct (nth_lookup_or_length l i d); [done|lia]. Qed.

Lemma index_panic l i : length l ≤ i → index l i = Panic.
Proof. intros H. unfold index. by rewrite lookup_ge_None_2. Qed.

Lemma subslice_done l lo hi :
  lo ≤ hi → hi ≤ length l → subslice l lo hi = Done (take (hi - lo) (drop lo l)).
Proof. intros. unfold subslice. by rewrite decide_True. Qed.

Lemma copy_from_slice_done dst src :
  length dst = length src → copy_from_slice dst src = Done src.
Proof. intros. unfold copy_from_slice. by rewrite decide_True. Qed.
End reads.

(** ** Writing an output slice: the builder monad

    A [builder T A] is the body of a function with an [out: &mut [T]]
    parameter and result [Result<A, i32>]: it takes the contents of the slice
    and returns the result with the new contents.  An early [return Err(e)]
    keeps the stores made before it. *)

Definition builder (T A : Type) : Type := list T → outcome (result A * list T).

#[export] Instance builder_ret T : MRet (builder T) := λ A a buf, Done (Ok a, buf).
#[export] Instance builder_bind T : MBind (builder T) := λ A B f m buf,
  match m buf with
  | Done (Ok a, buf') => f a buf'
  | Done (Err e, buf') => Done (Err e, buf')
  | Panic => Panic
  | Undefined => Undefined
  end.

Section builder.
Context {T : Type}.
Implicit Types (buf d : list T).

(** [return Err(e)] *)
Definition throw {A} (e : Z) : builder T A := λ buf, Done (Err e, buf).

(** a computation that does not touch the output slice *)
Definition lift {A} (m : outcome A) : builder T A := λ buf,
  match m with Done a => Done (Ok a, buf) | Panic => Panic | Undefined => Undefined end.

(** [out.len()] *)
Definition out_len : builder T nat := λ buf, Done (Ok (length buf), buf).

(** [out[i] = v] *)
Definition out_set (i : nat) (v : T) : builder T unit := λ buf,
  if decide (i < length buf) then Done (Ok tt, <[i:=v]> buf) else Panic.

(** [core::ptr::write_volatile(out.as_mut_ptr().add(i), v)] *)
Definition out_write_volatile (i : nat) (v : T) : builder T unit := λ buf,
  if decide (i < length buf) then Done (Ok tt, <[i:=v]> buf) else Undefined.

(** [g(&mut out[lo..hi])] for a [g] given by its effect on the contents *)
Definition out_modify (lo hi : nat) (g : list T → outcome (list T)) : builder T unit := λ buf,
  if decide (lo ≤ hi ∧ hi ≤ length buf) then
    match g (take (hi - lo) (drop lo buf)) with
    | Done d => Done (Ok tt, take lo buf ++ d ++ drop hi buf)
    | Panic => Panic
    | Undefined => Undefined
    end
  else Panic.

(** [out[lo..hi].fill(v)] *)
Definition out_fill (lo hi : nat) (v : T) : builder T unit :=
  out_modify lo hi (λ d, Done (replicate (length d) v)).

(** [out[lo..hi].copy_from_slice(src)] *)
Definition out_copy (lo hi : nat) (src : list T) : builder T unit :=
  out_modify lo hi (λ d, copy_from_slice d src).

(** [for i in lo..hi { body(i) }], by the number of iterations left *)
Fixpoint for_count (n lo : nat) (body : nat → builder T unit) : builder T unit :=
  match n with
  | O => mret tt
  | S n => body lo ;; for_count n (S lo) body
  end.
Definition for_range (lo hi : nat) (body : nat → builder T unit) : builder T unit :=
  for_count (hi - lo) lo body.

(** *** What each primitive does within its bounds *)

Lemma bind_ret {A B} (a : A) (k : A → builder T B) buf : (mret a ≫= k) buf = k a buf.
Proof. done. Qed.

Lemma bind_len {B} (k : nat → builder T B) buf : (out_len ≫= k) buf = k (length buf) buf.
Proof. done. Qed.

Lemma bind_lift {A B} (m : outcome A) a (k : A → builder T B) buf :
  m = Done a → (lift m ≫= k) buf = k a buf.
Proof. by intros ->. Qed.

Lemma bind_set {B} i v (k : unit → builder T B) buf :
  i < length buf → (out_set i v ≫= k) buf = k tt (splice i [v] buf).
Proof.
  intros. unfold mbind, builder_bind, out_set.
  by rewrite decide_True, insert_splice.
Qed.

Lemma bind_write_volatile {B} i v (k : unit → builder T B) buf :
  i < length buf → (out_write_volatile i v ≫= k) buf = k tt (splice i [v] buf).
Proof.
  intros. unfold mbind, builder_bind, out_write_volatile.
  by rewrite decide_True, insert_splice.
Qed.

Lemma bind_modify {B} lo hi g d (k : unit → builder T B) buf :
  lo ≤ hi → hi ≤ length buf →
  g (take (hi - lo) (drop lo buf)) = Done d → length d = hi - lo →
  (out_modify lo hi g ≫= k) buf = k tt (splice lo d buf).
Proof.
  intros ?? Hg Hd. unfold mbind, builder_bind, out_modify.
  rewrite decide_True, Hg by done. unfold splice. do 4 f_equal. lia.
Qed.

Lemma bind_fill {B} lo hi v (k : unit → builder T B) buf :
  lo ≤ hi → hi ≤ length buf →
  (out_fill lo hi v ≫= k) buf = k tt (splice lo (replicate (hi - lo) v) buf).
Proof.
  intros. apply bind_modify; [done..| |by rewrite length_replicate].
  do 2 f_equal. rewrite length_take, length_drop. lia.
Qed.

Lemma bind_copy {B} lo hi src (k : unit → builder T B) buf :
  lo ≤ hi → hi ≤ length buf → length src = hi - lo →
  (out_copy lo hi src ≫= k) buf = k tt (splice lo src buf).
Proof.
  intros. apply bind_modify; [done..| |done].
  apply copy_from_slice_done. rewrite length_take, length_drop. lia.
Qed.

Lemma bind_assoc {A B C} (m : builder T A) (f : A → builder T B) (g : B → builder T C) buf :
  ((m ≫= f) ≫= g) buf = (m ≫= λ x, f x ≫= g) buf.
Proof. unfold mbind, builder_bind. by destruct (m buf) as [[[]]| |]. Qed.

(** A loop of volatile stores is one overwrite. *)
Lemma bind_for_volatile {B} (v : nat → T) n lo (k : unit → builder T B) buf :
  lo + n ≤ length buf →
  (for_count n lo (λ i, out_write_volatile i (v i)) ≫= k) buf
  = k tt (splice lo (v <$> seq lo n) buf).
Proof.
  revert lo buf. induction n as [|n IH]; intros lo buf Hb; simpl.
  { unfold splice; simpl. by rewrite Nat.add_0_r, take_drop. }
  rewrite bind_assoc, bind_write_volatile by lia.
  rewrite IH by (rewrite length_splice; simpl; lia). f_equal.
  apply list_eq. intros i.
  rewrite !lookup_splice; simpl; rewrite ?length_splice, ?length_fmap, ?length_seq; simpl; try lia.
  repeat case_decide; try lia; try done.
  - by replace (i - lo) with (S (i - S lo)) by lia.
  - replace (i - lo) with 0 by lia. done.
Qed.

Lemma bind_for_volatile_range {B} (v : nat → T) lo hi (k : unit → builder T B) buf :
  lo ≤ hi → hi ≤ length buf →
  (for_range lo hi (λ i, out_write_volatile i (v i)) ≫= k) buf
  = k tt (splice lo (v <$> seq lo (hi - lo)) buf).
Proof. intros. apply bind_for_volatile. lia. Qed.
End builder.

(** One step of a builder whose bounds hold. *)
Ltac build_step :=
  first
    [ rewrite bind_ret
    | rewrite bind_len
    | rewrite bind_set by list_len
    | rewrite bind_write_volatile by list_len
    | rewrite bind_fill by list_len
    | rewrite bind_copy by list_len
    | rewrite bind_for_volatile_range by list_len ].

(** ** Checked arithmetic

    [+] and [-] on [u32] panic on overflow in a debug build and wrap in the
    release build. *)

Definition overflow (p : profile) (w x : Z) : outcome Z :=
  match p with Debug => Panic | Release => Done (wrap w x) end.
Definition add_u32 (p : profile) (a b : Z) : outcome Z :=
  if (a + b <? 2 ^ 32)%Z then Done (a + b)%Z else overflow p 32 (a + b).
Definition sub_u32 (p : profile) (a b : Z) : outcome Z :=
  if (b <=? a)%Z then Done (a - b)%Z else overflow p 32 (a - b).

Lemma add_u32_done p a b : (a + b < 2 ^ 32)%Z → add_u32 p a b = Done (a + b)%Z.
Proof. intros. unfold add_u32. by destruct (Z.ltb_spec (a + b) (2 ^ 32)); [|lia]. Qed.

Lemma sub_u32_done p a b : (b ≤ a)%Z → sub_u32 p a b = Done (a - b)%Z.
Proof. intros. unfold sub_u32. by destruct (Z.leb_spec b a); [|lia]. Qed.

(** ** What a builder promises

    [Builds f frame]: called on an output slice that is long enough, [f]
    returns [Ok(frame.len())], has written exactly [frame] at the start of
    the slice and left the rest alone; on a shorter slice it returns
    [Err(-ENOSPC)] and has written nothing.  It never panics.  The C-facing
    entry points (Entry.v) are proved against this promise only. *)

Class Builds {T : Type} (f : builder T nat) (frame : list T) : Prop := {
  builds_fits buf :
    length frame ≤ length buf →
    f buf = Done (Ok (length frame), frame ++ drop (length frame) buf);
  builds_enospc buf :
    length buf < length frame → f buf = Done (Err ENOSPC, buf);
}.

(** [Rejects f e]: a guard refuses the arguments before anything is written. *)
Class Rejects {T : Type} (f : builder T nat) (e : Z) : Prop :=
  rejects buf : f buf = Done (Err e, buf).

Section builds.
Context {T : Type} (f : builder T nat) (frame : list T) `{!Builds f frame}.

Lemma builds_total buf : ∃ r buf', f buf = Done (r, buf') ∧ length buf' = length buf.
Proof.
  destruct (decide (length frame ≤ length buf)).
  - rewrite builds_fits by done. eexists _, _; split; [done|].
    rewrite length_app, length_drop. lia.
  - rewrite builds_enospc by lia. eauto.
Qed.

Lemma builds_ok_inv buf n buf' :
  f buf = Done (Ok n, buf') →
  n = length frame ∧ n ≤ length buf ∧ take n buf' = frame ∧ drop n buf' = drop n buf.
Proof.
  destruct (decide (length frame ≤ length buf)).
  - rewrite builds_fits by done. intros [= <- <-].
    by rewrite take_app_length, drop_app_length.
  - by rewrite builds_enospc by lia.
Qed.

Lemma builds_err_inv buf e buf' :
  f buf = Done (Err e, buf') → e = ENOSPC ∧ buf' = buf ∧ length buf < length frame.
Proof.
  destruct (decide (length frame ≤ length buf)).
  - by rewrite builds_fits by done.
  - rewrite builds_enospc by lia. intros [= <- <-]. split_and!; [done..|lia].
Qed.
End builds.

Lemma builds_unique {T} (f : builder T nat) fr1 fr2 : Builds f fr1 → Builds f fr2 → fr1 = fr2.
Proof.
  intros H1 H2.
  pose proof (builds_fits (Builds := H1) (fr1 ++ fr2) ltac:(list_len)) as E1.
  rewrite (builds_fits (Builds := H2)) in E1 by list_len.
  injection E1 as Hl Heq. by apply app_inj_1 in Heq as [-> _].
Qed.

(** The array assignment [out[..seq.len()].copy_from_slice(&seq)] of the
    register-sequence builders, with its size guard. *)
Lemma copy_seq_builds {T} (seq : list T) (f : builder T nat) :
  (∀ buf, f buf = (n ← out_len;
     if decide (n < length seq) then throw ENOSPC
     else out_copy 0 (length seq) seq ;; mret (length seq)) buf) →
  Builds f seq.
Proof.
  intros Hf. split; intros buf Hl; rewrite Hf, bind_len.
  - rewrite decide_False by lia. rewrite bind_copy by lia. done.
  - by rewrite decide_True by lia.
Qed.

(** ** Local arrays

    [let mut a = init; body; a]: a function fills a local array with the same
    stores, bounds checks included. *)
Definition with_array {T} (init : list T) (body : builder T unit) : outcome (list T) :=
  match body init with
  | Done (_, a) => Done a
  | Panic => Panic
  | Undefined => Undefined
  end.
