(* ===== verification/Ffi.v ===== *)
(** * C ABI types (src/rust/src/ffi.rs)

    The [repr(C)] structures shared with the C skeleton, field for field, as
    records over [Z] (integer fields) and lists (arrays), with the ranges the
    field types impose and the [Default] values. *)

From S2P Require Import Prelude.
Local Open Scope Z_scope.

Record RegWriteOp := { addr : Z; val : Z }.

Notation "a '↤' v" := {| addr := a; val := v |} (at level 70) : rust_scope.

Record EepromData := {
  mac_addr : list Z;
  tx_power_2g : list Z;
  nic_config : Z;
  country_code : list Z;
  eeprom_version : Z;
  rssi_offset_2g : Z;
  is_valid : Z;
}.

(** [b"US"] is 0x55 0x53. *)
Definition EepromData_default : EepromData := {|
  mac_addr := [0x00; 0x0C; 0x43; 0x76; 0x03; 0x01];
  tx_power_2g := replicate 14 0;
  nic_config := 0;
  country_code := [0x55; 0x53];
  eeprom_version := 0x7603;
  rssi_offset_2g := 0;
  is_valid := 0;
|}.

Record RxInfo := {
  pkt_len : Z;
  hdr_len : Z;
  rssi : Z;
  channel : Z;
  rate : Z;
  is_beacon : Z;
  is_data : Z;
  is_crc_error : Z;
}.

Definition RxInfo_default : RxInfo := {|
  pkt_len := 0; hdr_len := 0; rssi := 0; channel := 0; rate := 0;
  is_beacon := 0; is_data := 0; is_crc_error := 0;
|}.

Module TxParams.
Record t := {
  rate_idx : Z;
  pid : Z;
  queue : Z;
  hdr_len : Z;
  frm_type : Z;
  sub_type : Z;
  no_ack : Z;
  is_bm : Z;
  rate_mode : Z;
  rate_mcs : Z;
  preamble : Z;
  bw : Z;
  pkt_len : Z;
  protect_frm : Z;
}.

(** The ranges of the field types: [u8], except [pkt_len : u16]. *)
Definition wf (p : t) : Prop :=
  is_u8 (rate_idx p) ∧ is_u8 (pid p) ∧ is_u8 (queue p) ∧ is_u8 (hdr_len p) ∧
  is_u8 (frm_type p) ∧ is_u8 (sub_type p) ∧ is_u8 (no_ack p) ∧ is_u8 (is_bm p) ∧
  is_u8 (rate_mode p) ∧ is_u8 (rate_mcs p) ∧ is_u8 (preamble p) ∧ is_u8 (bw p) ∧
  is_u16 (pkt_len p) ∧ is_u8 (protect_frm p).
#[export] Instance wf_dec p : Decision (wf p).
Proof. unfold wf. apply _. Defined.
End TxParams.

Module StaBssInfo.
Record t := {
  bssid : list Z;
  ssid : list Z;
  ssid_len : Z;
  channel : Z;
  rssi : Z;
  capability : Z;
}.
Definition default : t := {|
  bssid := replicate 6 0; ssid := replicate 32 0; ssid_len := 0;
  channel := 0; rssi := 0; capability := 0;
|}.
End StaBssInfo.

#[export] Instance RegWriteOp_eq_dec : EqDecision RegWriteOp.
Proof. solve_decision. Defined.
#[export] Instance EepromData_eq_dec : EqDecision EepromData.
Proof. solve_decision. Defined.
#[export] Instance RxInfo_eq_dec : EqDecision RxInfo.
Proof. solve_decision. Defined.
#[export] Instance TxParams_eq_dec : EqDecision TxParams.t.
Proof. solve_decision. Defined.
#[export] Instance StaBssInfo_eq_dec : EqDecision StaBssInfo.t.
Proof. solve_decision. Defined.

(** A register operation whose fields are [u32]s. *)
Definition op_wf (op : RegWriteOp) : Prop := is_u32 (addr op) ∧ is_u32 (val op).
#[export] Instance op_wf_dec op : Decision (op_wf op).
Proof. unfold op_wf. apply _. Defined.

(** The register file after a sequence of writes: the last write wins. *)
Definition last_write (ops : list RegWriteOp) (a : Z) : Z :=
  match last (filter (λ op, addr op = a) ops) with Some op => val op | None => 0 end.
