(* ===== verification/Util.v ===== *)
(** * Kernel-safe copies (src/rust/src/util.rs)

    [copy_bytes] is the byte loop of volatile reads and writes that replaces
    [memcpy] inside the kernel module.  Its raw-pointer accesses are
    unchecked: a store past the destination is undefined behaviour here, not
    a panic. *)

From S2P Require Import Prelude Rust.

Section copy_bytes.
Context {T : Type}.
Implicit Types (dst src : list T).

(** iterations [i .. i + n) of the loop over [0..src.len()] *)
Fixpoint copy_bytes_loop (n i : nat) (dst src : list T) : outcome (list T) :=
  match n with
  | O => Done dst
  | S n =>
      match src !! i with
      | Some b =>
          if decide (i < length dst) then copy_bytes_loop n (S i) (<[i:=b]> dst) src
          else Undefined
      | None => Undefined
      end
  end.

Definition copy_bytes dst src : outcome (list T) := copy_bytes_loop (length src) 0 dst src.

(** [crate::util::copy_bytes(&mut out[lo..hi], src)] *)
Definition out_copy_bytes (lo hi : nat) (src : list T) : builder T unit :=
  out_modify lo hi (λ d, copy_bytes d src).

Lemma copy_bytes_loop_done n i dst src :
  i + n = length src → length src ≤ length dst →
  copy_bytes_loop n i dst src = Done (take i dst ++ drop i src ++ drop (length src) dst).
Proof.
  revert i dst. induction n as [|n IH]; intros i dst Hi Hl; simpl.
  { rewrite Nat.add_0_r in Hi. rewrite Hi, drop_all. simpl. by rewrite take_drop. }
  destruct (lookup_lt_is_Some_2 src i) as [b Hb]; [lia|].
  rewrite Hb, decide_True by lia. rewrite IH by list_len.
  rewrite drop_insert_lt by lia.
  rewrite (drop_S src b i) by done. rewrite insert_take_drop by lia.
  rewrite take_app_ge by list_len. rewrite length_take, Nat.min_l by lia.
  replace (S i - i) with 1 by lia. simpl. by rewrite <-app_assoc.
Qed.

Lemma copy_bytes_done dst src :
  length src ≤ length dst → copy_bytes dst src = Done (src ++ drop (length src) dst).
Proof. intros. unfold copy_bytes. by rewrite copy_bytes_loop_done by lia. Qed.

Lemma copy_bytes_loop_undefined n i dst src :
  i + n = length src → i ≤ length dst → length dst < length src →
  copy_bytes_loop n i dst src = Undefined.
Proof.
  revert i dst. induction n as [|n IH]; intros i dst ???; simpl; [lia|].
  destruct (lookup_lt_is_Some_2 src i) as [b ->]; [lia|].
  case_decide; [|done]. apply IH; list_len.
Qed.

Lemma bind_copy_bytes {B} lo hi src (k : unit → builder T B) buf :
  lo ≤ hi → hi ≤ length buf → length src = hi - lo →
  (out_copy_bytes lo hi src ≫= k) buf = k tt (splice lo src buf).
Proof.
  intros. apply bind_modify; [done..| |done].
  rewrite copy_bytes_done by list_len. rewrite drop_ge by list_len. by rewrite app_nil_r.
Qed.
End copy_bytes.

(** One step of a builder, copies through [copy_bytes] included. *)
Ltac build_step' := first [ build_step | rewrite bind_copy_bytes by list_len ].

(** The volatile byte loop is [memcpy], and its stated precondition is
    exactly what it needs: with [dst.len() >= src.len()] it copies [src] to
    the front of [dst], keeps the rest of [dst] and touches no memory outside
    the two slices; without it, it runs off the destination. *)
Theorem copy_bytes_spec {T} (dst src : list T) :
  copy_bytes dst src =
  if decide (length src ≤ length dst) then Done (src ++ drop (length src) dst) else Undefined.
Proof.
  case_decide; [by apply copy_bytes_done|].
  unfold copy_bytes. apply copy_bytes_loop_undefined; lia.
Qed.
