(* ===== verification/Regmap.v ===== *)
(** * Register address mapping (src/rust/src/regmap.rs)

    [physical_addr_map] turns a HIF register address into the global address
    of a USB vendor request.  The code's comparisons and overflow-checked
    additions are translated as they stand; the specification is the window
    table of specs/schemas/registers.md. *)

From S2P Require Import Prelude Rust.
Local Open Scope Z_scope.

(** ** The code *)

(** (global base, HIF segment start, segment length) *)
Definition MAC_CR_RANGES : list (Z * Z * Z) := [
  (0x60000000, 0x20000, 0x200);
  (0x60100000, 0x21000, 0x200);
  (0x60110000, 0x21200, 0x200);
  (0x60120000, 0x21400, 0x200);
  (0x60130000, 0x21600, 0x200);
  (0x60140000, 0x21800, 0x200);
  (0x60150000, 0x21a00, 0x200);
  (0x60160000, 0x21c00, 0x200);
  (0x60170000, 0x21e00, 0x200);
  (0x60180000, 0x22000, 0x1000);
  (0x60190000, 0x23000, 0x200);
  (0x601a0000, 0x23200, 0x200);
  (0x60300000, 0x24000, 0x400);
  (0x60310000, 0x24400, 0x200);
  (0x60320000, 0x28000, 0x4000);
  (0x60330000, 0x2c000, 0x200);
  (0x60400000, 0x2d000, 0x200)
].

(** The loop of [mac_cr_range_map] over the ranges that are left. *)
Fixpoint mac_cr_range_loop (p : profile) (ranges : list (Z * Z * Z)) (addr : Z) : outcome Z :=
  match ranges with
  | [] => Done addr
  | (base, seg_start, seg_len) :: rest =>
      if seg_start <=? addr then
        seg_end ← add_u32 p seg_start seg_len;
        if addr <? seg_end then off ← sub_u32 p addr seg_start; add_u32 p base off
        else mac_cr_range_loop p rest addr
      else mac_cr_range_loop p rest addr
  end.

Definition mac_cr_range_map (p : profile) (addr : Z) : outcome Z :=
  mac_cr_range_loop p MAC_CR_RANGES addr.

Definition physical_addr_map (p : profile) (addr : Z) : outcome Z :=
  if addr <? 0x2000 then add_u32 p 0x80020000 addr
  else if addr <? 0x4000 then x ← add_u32 p 0x80000000 addr; sub_u32 p x 0x2000
  else if addr <? 0x8000 then x ← add_u32 p 0x50000000 addr; sub_u32 p x 0x4000
  else if addr <? 0x10000 then x ← add_u32 p 0xa0000000 addr; sub_u32 p x 0x8000
  else if addr <? 0x20000 then x ← add_u32 p 0x60200000 addr; sub_u32 p x 0x10000
  else if addr <? 0x40000 then mac_cr_range_map p addr
  else if addr <? 0x80000 then x ← add_u32 p 0xa5000000 addr; sub_u32 p x 0x40000
  else if (0xc0000 <=? addr) && (addr <? 0xc0100) then
    x ← add_u32 p 0x800c0000 addr; sub_u32 p x 0xc0000
  else Done addr.

(** ** The specification: a table of address windows *)

(** A window maps [len] addresses from [start] to the addresses from [base]. *)
Record window := { base : Z; start : Z; len : Z }.
#[export] Instance window_eq_dec : EqDecision window.
Proof. solve_decision. Defined.

Definition in_window (w : window) (a : Z) : Prop := start w ≤ a < start w + len w.
#[export] Instance in_window_dec w a : Decision (in_window w a).
Proof. unfold in_window. apply _. Defined.

Definition of_range (r : Z * Z * Z) : window :=
  {| base := r.1.1; start := r.1.2; len := r.2 |}.

(** TOP_CFG, MCU_CFG, PDMA_CFG, PSE_CFG, WF_PHY; the MAC blocks; WTBL and the
    PSE client. *)
Definition hif_windows : list window :=
  (of_range <$> [ (0x80020000, 0x0, 0x2000); (0x80000000, 0x2000, 0x2000);
     (0x50000000, 0x4000, 0x4000); (0xa0000000, 0x8000, 0x8000);
     (0x60200000, 0x10000, 0x10000) ]) ++
  (of_range <$> MAC_CR_RANGES) ++
  (of_range <$> [ (0xa5000000, 0x40000, 0x40000); (0x800c0000, 0xc0000, 0x100) ]).

(** An address is moved with its window, or left alone outside all windows. *)
Fixpoint translate (ws : list window) (a : Z) : Z :=
  match ws with
  | [] => a
  | w :: ws => if decide (in_window w a) then base w + (a - start w) else translate ws a
  end.

(** A register the map knows. *)
Definition mapped (a : Z) : Prop := Exists (λ w, in_window w a) hif_windows.
#[export] Instance mapped_dec a : Decision (mapped a).
Proof. unfold mapped. apply _. Defined.

(** ** Lemmas *)

Definition window_ok (w : window) : Prop :=
  0 ≤ start w ∧ 0 ≤ len w ∧ start w + len w < 2 ^ 32 ∧ 0 ≤ base w ∧ base w + len w ≤ 2 ^ 32.
#[export] Instance window_ok_dec w : Decision (window_ok w).
Proof. unfold window_ok. apply _. Defined.

Lemma hif_windows_ok : Forall window_ok hif_windows.
Proof. vm_decide. Qed.

Lemma range_loop_translate p ranges a :
  is_u32 a → Forall window_ok (of_range <$> ranges) →
  mac_cr_range_loop p ranges a = Done (translate (of_range <$> ranges) a).
Proof.
  intros Ha. induction ranges as [|[[b s] l] ranges IH]; [done|].
  cbn [fmap list_fmap]. intros [Hw HF]%Forall_cons.
  unfold window_ok, of_range, is_uint in *; cbn [mac_cr_range_loop translate base start len fst snd] in *.
  unfold in_window; cbn [start len].
  destruct (Z.leb_spec s a); [|by rewrite decide_False, IH by (done || lia)].
  rewrite add_u32_done by lia. cbn [mbind outcome_bind].
  destruct (Z.ltb_spec a (s + l)); [|by rewrite decide_False, IH by (done || lia)].
  rewrite decide_True, sub_u32_done by lia. cbn [mbind outcome_bind]. by apply add_u32_done; lia.
Qed.

Lemma translate_app_skip ws1 ws2 a :
  Forall (λ w, ¬ in_window w a) ws1 → translate (ws1 ++ ws2) a = translate ws2 a.
Proof. induction 1; simpl; [done|]. by rewrite decide_False. Qed.

Lemma translate_app_none ws1 ws2 a :
  Forall (λ w, ¬ in_window w a) ws2 → translate (ws1 ++ ws2) a = translate ws1 a.
Proof.
  intros HF. induction ws1 as [|w ws1 IH]; simpl.
  - induction HF; simpl; [done|]. by rewrite decide_False.
  - case_decide; [done|apply IH].
Qed.

(** The MAC windows lie in [0x20000, 0x40000). *)
Lemma mac_windows_range a :
  a < 0x20000 ∨ 0x40000 ≤ a → Forall (λ w, ¬ in_window w a) (of_range <$> MAC_CR_RANGES).
Proof.
  intros Ha.
  assert (Forall (λ w, 0x20000 ≤ start w ∧ start w + len w ≤ 0x40000) (of_range <$> MAC_CR_RANGES))
    as HF by (vm_decide).
  eapply Forall_impl; [exact HF|]. intros w Hw. unfold in_window. simpl in Hw. lia.
Qed.

Ltac skip_window :=
  match goal with
  | |- context [decide (in_window ?w ?a)] =>
      first [ rewrite (decide_True (P := in_window w a)) by (unfold in_window; cbn; lia)
            | rewrite (decide_False (P := in_window w a)) by (unfold in_window; cbn; lia) ]
  end.

Lemma translate_unfold a :
  translate hif_windows a =
  if decide (0x20000 ≤ a < 0x40000) then translate (of_range <$> MAC_CR_RANGES) a
  else translate
    (of_range <$> [ (0x80020000, 0x0, 0x2000); (0x80000000, 0x2000, 0x2000);
       (0x50000000, 0x4000, 0x4000); (0xa0000000, 0x8000, 0x8000);
       (0x60200000, 0x10000, 0x10000); (0xa5000000, 0x40000, 0x40000);
       (0x800c0000, 0xc0000, 0x100) ]) a.
Proof.
  unfold hif_windows. case_decide.
  - rewrite translate_app_skip by (repeat constructor; unfold in_window; cbn; lia).
    apply translate_app_none. repeat constructor; unfold in_window; cbn; lia.
  - cbn [fmap list_fmap app translate].
    rewrite translate_app_skip by (apply mac_windows_range; lia).
    cbn [translate]. repeat case_decide; done.
Qed.

(** The code computes the table, with no overflow in either build. *)
Lemma physical_addr_map_translate p a :
  is_u32 a → physical_addr_map p a = Done (translate hif_windows a).
Proof.
  intros Ha. rewrite translate_unfold. unfold physical_addr_map, mac_cr_range_map, is_uint in *.
  repeat match goal with
  | |- context [(?x <? ?y)%Z] => destruct (Z.ltb_spec x y)
  | |- context [(?x <=? ?y)%Z] => destruct (Z.leb_spec x y)
  end; cbn [andb]; try lia.
  all: first
    [ rewrite decide_True by lia; apply range_loop_translate; [unfold is_uint; lia|];
      vm_decide
    | rewrite decide_False by lia; cbn [fmap list_fmap translate]; repeat skip_window; cbn;
      rewrite add_u32_done by lia; cbn [mbind outcome_bind]; rewrite ?sub_u32_done by lia;
      f_equal; lia
    | rewrite decide_False by lia; cbn [fmap list_fmap translate]; by repeat skip_window ].
Qed.

(** Distinct windows do not overlap on either side of the map. *)
Definition disjoint_windows (w1 w2 : window) : Prop :=
  (start w1 + len w1 ≤ start w2 ∨ start w2 + len w2 ≤ start w1) ∧
  (base w1 + len w1 ≤ base w2 ∨ base w2 + len w2 ≤ base w1).
#[export] Instance disjoint_windows_dec w1 w2 : Decision (disjoint_windows w1 w2).
Proof. unfold disjoint_windows. apply _. Defined.

Lemma hif_windows_disjoint :
  Forall (λ w1, Forall (λ w2, w1 = w2 ∨ disjoint_windows w1 w2) hif_windows) hif_windows.
Proof. vm_decide. Qed.

Lemma windows_apart w1 w2 :
  w1 ∈ hif_windows → w2 ∈ hif_windows → w1 = w2 ∨ disjoint_windows w1 w2.
Proof.
  intros H1 H2. pose proof hif_windows_disjoint as HF.
  rewrite Forall_forall in HF. specialize (HF w1 H1). simpl in HF.
  rewrite Forall_forall in HF. by apply HF.
Qed.

Lemma translate_window w a :
  w ∈ hif_windows → in_window w a → translate hif_windows a = base w + (a - start w).
Proof.
  assert (∀ ws, (∀ v, v ∈ ws → v ∈ hif_windows) → w ∈ ws → in_window w a →
    w ∈ hif_windows → translate ws a = base w + (a - start w)) as Hgen.
  { induction ws as [|v ws IH]; intros Hsub Hin Hw Hw'; [by apply not_elem_of_nil in Hin|].
    simpl. case_decide as Hv.
    - destruct (windows_apart w v) as [->|[? _]]; [done|apply Hsub; constructor|done|].
      unfold in_window in *; lia.
    - apply elem_of_cons in Hin as [->|Hin]; [done|]. apply IH; [|done..]. intros; apply Hsub; by constructor. }
  intros. by apply Hgen.
Qed.

Lemma translate_unmapped a : ¬ mapped a → translate hif_windows a = a.
Proof.
  unfold mapped. induction hif_windows as [|w ws IH]; intros Hm; [done|].
  rewrite Exists_cons in Hm. simpl. rewrite decide_False by tauto. apply IH. tauto.
Qed.

Lemma mapped_window a : mapped a → ∃ w, w ∈ hif_windows ∧ in_window w a.
Proof. by intros [w [? ?]]%Exists_exists; exists w. Qed.

Lemma mapped_u32 a : mapped a → is_u32 a.
Proof.
  intros (w & Hin & Hw)%mapped_window. pose proof hif_windows_ok as HF.
  rewrite Forall_forall in HF. specialize (HF w Hin).
  unfold window_ok, in_window, is_uint in *. lia.
Qed.

Lemma translate_u32 a : is_u32 a → is_u32 (translate hif_windows a).
Proof.
  intros Ha. destruct (decide (mapped a)) as [(w & Hin & Hw)%mapped_window|Hm].
  - rewrite (translate_window w) by done. pose proof hif_windows_ok as HF.
    rewrite Forall_forall in HF. specialize (HF w Hin).
    unfold window_ok, in_window, is_uint in *. lia.
  - by rewrite translate_unmapped.
Qed.

Lemma translate_inj a b :
  mapped a → mapped b → translate hif_windows a = translate hif_windows b → a = b.
Proof.
  intros (w & Hw & Ha)%mapped_window (v & Hv & Hb)%mapped_window.
  rewrite (translate_window w), (translate_window v) by done.
  destruct (windows_apart w v) as [->|[_ ?]]; [done..|lia|]. unfold in_window in *. lia.
Qed.

(** ** Properties *)

(** C38. [physical_addr_map] implements the window table of
    specs/schemas/registers.md on every [u32], in both builds and without an
    arithmetic overflow: an address inside a window is moved with that window
    (the same offset from the window's global base), an address in no window
    is returned unchanged, and the result is a [u32]. *)
Theorem physical_addr_map_spec p a :
  is_u32 a →
  (∀ w, w ∈ hif_windows → in_window w a →
     physical_addr_map p a = Done (base w + (a - start w))) ∧
  (¬ mapped a → physical_addr_map p a = Done a) ∧
  (∃ g, physical_addr_map p a = Done g ∧ is_u32 g).
Proof.
  intros Ha. rewrite physical_addr_map_translate by done. split_and!.
  - intros. by rewrite (translate_window w).
  - intros. by rewrite translate_unmapped.
  - eauto using translate_u32.
Qed.

Lemma physical_addr_map_spec_witness :
  is_u32 0x21600 ∧ physical_addr_map Release 0x21600 = Done 0x60130000.
Proof.
  split; [vm_decide|].
  apply (proj1 (physical_addr_map_spec Release 0x21600 ltac:(vm_decide)) (of_range (0x60130000, 0x21600, 0x200))).
  - vm_decide.
  - vm_decide.
Defined.

(** Two different HIF registers never share a global address: on the
    windows of the chip the map is injective, so a vendor request addressed
    with it reaches the register it was meant for. *)
Theorem physical_addr_map_inj p q a b :
  mapped a → mapped b → physical_addr_map p a = physical_addr_map q b → a = b.
Proof.
  intros Ha Hb. rewrite !physical_addr_map_translate by (by apply mapped_u32).
  intros [= Heq]. by apply translate_inj.
Qed.

Lemma physical_addr_map_inj_witness :
  mapped 0x4594 ∧ (physical_addr_map Release 0x4594 = physical_addr_map Debug 0x4594 → 0x4594 = 0x4594).
Proof.
  assert (mapped 0x4594) as Hm by (vm_decide).
  split; [exact Hm|]. exact (physical_addr_map_inj Release Debug 0x4594 0x4594 Hm Hm).
Defined.

(** The UDMA configuration register [0x50029018] is outside every window:
    routing it through the map would leave it unchanged. *)
Theorem physical_addr_map_udma p : physical_addr_map p 0x50029018 = Done 0x50029018.
Proof. by destruct p; vm_compute. Qed.
