(* ===== verification/Mac.v ===== *)
(** * MAC register sequences (src/rust/src/mac.rs)

    The builders of mac.rs do no I/O: they fill a slice with register writes
    that the C skeleton executes.  Each is a [builder RegWriteOp nat]. *)

From S2P Require Import Prelude Rust Ffi.
Local Open Scope Z_scope.

(** ** Register addresses *)

Definition TMAC_TCR : Z := 0x00021600.
Definition TMAC_CDTR : Z := 0x00021608.
Definition TMAC_RRCR : Z := 0x0002160C.
Definition TMAC_TRCR : Z := 0x00021614.
Definition ARB_SCR : Z := 0x00021480.
Definition ARB_RQCR : Z := 0x00021470.
Definition ARB_TQCR0 : Z := 0x00021500.
Definition RMAC_RFCR : Z := 0x00021800.
Definition RMAC_OMA0R0 : Z := 0x00021824.
Definition RMAC_OMA0R1 : Z := 0x00021828.
Definition RMAC_RMACDR : Z := 0x00021878.
Definition RMAC_RMCR : Z := 0x00021880.
Definition RMAC_MAXMINLEN : Z := 0x00021898.
Definition RMAC_RFCR1 : Z := 0x000218A4.
Definition AGG_AWSCR : Z := 0x00021248.
Definition AGG_AWSCR1 : Z := 0x0002124C.
Definition AGG_AALCR : Z := 0x00021250.
Definition AGG_AALCR1 : Z := 0x00021254.
Definition DMA_DCR1 : Z := 0x00021C04.
Definition DMA_RCFR0 : Z := 0x00021C70.
Definition DMA_VCFR0 : Z := 0x00021C7C.
Definition WTBL_OFF_RMVTCR : Z := 0x00023008.
Definition USB_DMA_CFG : Z := 0x00024000.
Definition FC_FRP : Z := 0x00008138.
Definition MT_TXTIME_THD_0 : Z := 0x00004500.
Definition MT_TXTIME_THD_1 : Z := 0x00004504.
Definition MT_TXTIME_THD_2 : Z := 0x00004508.
Definition MT_TXTIME_THD_3 : Z := 0x0000450C.
Definition MT_TXTIME_THD_4 : Z := 0x00004510.
Definition MT_TXTIME_THD_5 : Z := 0x00004514.
Definition MT_TXTIME_THD_6 : Z := 0x00004518.
Definition MT_TXTIME_THD_7 : Z := 0x0000451C.
Definition MT_TXTIME_THD_8 : Z := 0x00004520.
Definition MT_TXTIME_THD_9 : Z := 0x00004524.
Definition MT_TXTIME_THD_10 : Z := 0x00004528.
Definition MT_TXTIME_THD_11 : Z := 0x0000452C.
Definition MT_TXTIME_THD_12 : Z := 0x00004530.
Definition MT_TXTIME_THD_13 : Z := 0x00004534.
Definition MT_TXTIME_THD_14 : Z := 0x00004538.
Definition MT_TXTIME_THD_15 : Z := 0x0000453C.
Definition MT_PAGE_CNT_0 : Z := 0x00004540.
Definition MT_PAGE_CNT_1 : Z := 0x00004544.
Definition MT_PAGE_CNT_2 : Z := 0x00004548.
Definition MT_PAGE_CNT_3 : Z := 0x0000454C.
Definition MT_PAGE_CNT_4 : Z := 0x00004550.
Definition MT_PAGE_CNT_5 : Z := 0x00004554.
Definition MT_PAGE_CNT_7 : Z := 0x0000455C.
Definition MT_PAGE_CNT_8 : Z := 0x00004560.
Definition MT_QUEUE_PRIORITY_1 : Z := 0x00004580.
Definition MT_QUEUE_PRIORITY_2 : Z := 0x00004584.
Definition MT_SCH_REG_1 : Z := 0x00004588.
Definition MT_SCH_REG_2 : Z := 0x0000458C.
Definition SCH_REG4 : Z := 0x00004594.
Definition MT_GROUP_THD_0 : Z := 0x00004598.
Definition MT_GROUP_THD_1 : Z := 0x0000459C.
Definition MT_GROUP_THD_2 : Z := 0x000045A0.
Definition MT_BMAP_0 : Z := 0x000045B0.
Definition MT_BMAP_1 : Z := 0x000045B4.
Definition MT_HIGH_PRIORITY_1 : Z := 0x000045BC.
Definition MT_HIGH_PRIORITY_2 : Z := 0x000045C0.
Definition MT_PRIORITY_MASK : Z := 0x000045C4.
Definition MT_RSV_MAX_THD : Z := 0x000045C8.
Definition PSE_CLIENT_TX_PAD_DW2 : Z := 0x000C0040.
Definition PSE_CLIENT_TX_PAD_DW3 : Z := 0x000C0044.
Definition PSE_CLIENT_TX_PAD_DW4 : Z := 0x000C0048.
Definition PSE_CLIENT_TX_PAD_DW5 : Z := 0x000C004C.
Definition PSE_CLIENT_TX_PAD_DW6 : Z := 0x000C0050.
Definition PSE_CLIENT_RXINF : Z := 0x000C0068.
Definition RMAC_CHFREQ : Z := 0x00021890.

Local Open Scope rust_scope.

(** ** [build_mac_init_sequence] *)

(** DMA scheduler: page quotas, priorities, groups, TXTIME thresholds *)
Definition init_dma_scheduler : list RegWriteOp := [
  USB_DMA_CFG ↤ 0x00180000;
  FC_FRP ↤ 0x00004037;
  MT_HIGH_PRIORITY_1 ↤ 0x55555555;
  MT_HIGH_PRIORITY_2 ↤ 0x78555555;
  MT_QUEUE_PRIORITY_1 ↤ 0x2B1A096E;
  MT_QUEUE_PRIORITY_2 ↤ 0x785F4D3C;
  MT_PRIORITY_MASK ↤ 0xFFFFFFFF;
  MT_SCH_REG_1 ↤ 0x20000288;
  MT_SCH_REG_2 ↤ 0x0000000E;
  MT_PAGE_CNT_0 ↤ 0x0000000E;
  MT_PAGE_CNT_1 ↤ 0x0000000E;
  MT_PAGE_CNT_2 ↤ 0x0000000E;
  MT_PAGE_CNT_3 ↤ 0x0000000E;
  MT_PAGE_CNT_4 ↤ 0x0000000E;
  MT_PAGE_CNT_5 ↤ 0x00000020;
  MT_PAGE_CNT_7 ↤ 0x0000000E;
  MT_PAGE_CNT_8 ↤ 0x00000032;
  MT_RSV_MAX_THD ↤ 0x00000288;
  MT_GROUP_THD_0 ↤ 0x0000025A;
  MT_GROUP_THD_1 ↤ 0x0000000E;
  MT_BMAP_0 ↤ 0x0080FF5F;
  MT_GROUP_THD_2 ↤ 0x00000020;
  MT_BMAP_1 ↤ 0x00000020;
  MT_TXTIME_THD_0 ↤ 0x000FFFFF;
  MT_TXTIME_THD_1 ↤ 0x000FFFFF;
  MT_TXTIME_THD_2 ↤ 0x000FFFFF;
  MT_TXTIME_THD_3 ↤ 0x000FFFFF;
  MT_TXTIME_THD_4 ↤ 0x000FFFFF;
  MT_TXTIME_THD_5 ↤ 0x000FFFFF;
  MT_TXTIME_THD_6 ↤ 0x000FFFFF;
  MT_TXTIME_THD_7 ↤ 0x000FFFFF;
  MT_TXTIME_THD_8 ↤ 0x000FFFFF;
  MT_TXTIME_THD_9 ↤ 0x000FFFFF;
  MT_TXTIME_THD_10 ↤ 0x000FFFFF;
  MT_TXTIME_THD_11 ↤ 0x000FFFFF;
  MT_TXTIME_THD_12 ↤ 0x000FFFFF;
  MT_TXTIME_THD_13 ↤ 0x000FFFFF;
  MT_TXTIME_THD_14 ↤ 0x000FFFFF;
  MT_TXTIME_THD_15 ↤ 0x000FFFFF;
  SCH_REG4 ↤ 0x00000040
].
(** PSE client and short TXD template *)
Definition init_pse_client : list RegWriteOp := [
  PSE_CLIENT_RXINF ↤ 0x00000007;
  PSE_CLIENT_TX_PAD_DW2 ↤ 0x00000000;
  PSE_CLIENT_TX_PAD_DW3 ↤ 0x00000001;
  PSE_CLIENT_TX_PAD_DW4 ↤ 0x00000000;
  PSE_CLIENT_TX_PAD_DW5 ↤ 0x00000020;
  PSE_CLIENT_TX_PAD_DW6 ↤ 0x00000000
].
(** TMAC timing and arbiter start *)
Definition init_tmac_arb : list RegWriteOp := [
  TMAC_TCR ↤ 0x00040001;
  TMAC_CDTR ↤ 0x003000E7;
  TMAC_RRCR ↤ 0x00000004;
  TMAC_TRCR ↤ 0x80000000;
  ARB_SCR ↤ 0x00000000;
  ARB_TQCR0 ↤ 0xFFFFFFFF;
  ARB_RQCR ↤ 0x0000000F
].
(** RMAC receive path *)
Definition init_rmac : list RegWriteOp := [
  RMAC_RMACDR ↤ 0x40000000;
  RMAC_MAXMINLEN ↤ 0x0E019000;
  RMAC_RFCR ↤ 0x00000002;
  RMAC_RFCR1 ↤ 0x00000000;
  RMAC_RMCR ↤ 0x00F00000
].
(** aggregation limits, RX DMA routing, rate/move mode *)
Definition init_agg_dma : list RegWriteOp := [
  AGG_AWSCR ↤ 0x00000040;
  AGG_AWSCR1 ↤ 0x2A151410;
  AGG_AALCR ↤ 0x00000010;
  AGG_AALCR1 ↤ 0x15151515;
  DMA_RCFR0 ↤ 0xC0210000;
  DMA_VCFR0 ↤ 0x00002000;
  DMA_DCR1 ↤ 0x00003800;
  WTBL_OFF_RMVTCR ↤ 0x00800000;
  PSE_CLIENT_RXINF ↤ 0x00000007
].

Definition static_seq : list RegWriteOp :=
  init_dma_scheduler ++ init_pse_client ++ init_tmac_arb ++ init_rmac ++ init_agg_dma.

Definition build_mac_init_sequence : builder RegWriteOp nat :=
  n ← out_len;
  if decide (n < length static_seq)%nat then throw ENOSPC
  else out_copy 0 (length static_seq) static_seq ;; mret (length static_seq).

(** ** [build_own_mac_sequence]

    [mac : &[u8; 6]] is a list; the theorems assume its length. *)

Definition own_mac_val0 (m0 m1 m2 m3 : Z) : Z :=
  Z.lor (Z.lor (Z.lor m0 (shl32 m1 8)) (shl32 m2 16)) (shl32 m3 24).
Definition own_mac_val1 (m4 m5 : Z) : Z := Z.lor (Z.lor m4 (shl32 m5 8)) (shl32 1 16).

Definition build_own_mac_sequence (mac : list Z) : builder RegWriteOp nat :=
  n ← out_len;
  if decide (n < 2)%nat then throw ENOSPC else
  m0 ← lift (index mac 0); m1 ← lift (index mac 1);
  m2 ← lift (index mac 2); m3 ← lift (index mac 3);
  m4 ← lift (index mac 4); m5 ← lift (index mac 5);
  let val0 := own_mac_val0 m0 m1 m2 m3 in
  let val1 := own_mac_val1 m4 m5 in
  out_set 0 (RMAC_OMA0R0 ↤ val0) ;;
  out_set 1 (RMAC_OMA0R1 ↤ val1) ;;
  mret 2%nat.

(** ** [build_channel_sequence] *)

Definition channel_seq : list RegWriteOp := [
  RMAC_CHFREQ ↤ 1;
  RMAC_RMCR ↤ 0x00F00000;
  ARB_RQCR ↤ 0x0000000F;
  ARB_SCR ↤ 0x00000000
].

Definition build_channel_sequence (channel bw : Z) : builder RegWriteOp nat :=
  if negb ((1 <=? channel) && (channel <=? 14)) then throw EINVAL else
  n ← out_len;
  if decide (n < length channel_seq)%nat then throw ENOSPC
  else out_copy 0 (length channel_seq) channel_seq ;; mret (length channel_seq).

(** ** [build_rx_filter_sequence] *)

Definition rx_filter_rfcr (promisc fcs_fail : bool) : Z :=
  if promisc then (if fcs_fail then 0x00000004 else 0x00000006) else 0x001D93A2.

Definition build_rx_filter_sequence (promisc fcs_fail : bool) : builder RegWriteOp nat :=
  n ← out_len;
  if decide (n < 2)%nat then throw ENOSPC else
  out_set 0 (RMAC_RFCR ↤ rx_filter_rfcr promisc fcs_fail) ;;
  out_set 1 (RMAC_RFCR1 ↤ 0x00000000) ;;
  mret 2%nat.

(** ** [build_ba_session_sequence] *)

Definition BA_RANGE : list Z := [4; 5; 8; 10; 16; 20; 21; 42].

(** The [while idx < 7 && BA_RANGE[idx] < ba_size] loop; [todo] is [7 - idx],
    so the guard [idx < 7] is [todo <> 0]. *)
Fixpoint ba_search (todo idx : nat) (ba_size : Z) : outcome nat :=
  match todo with
  | O => Done idx
  | S todo =>
      r ← index BA_RANGE idx;
      if r <? ba_size then ba_search todo (S idx) ba_size else Done idx
  end.

(** The window index chosen for [ba_size]. *)
Definition ba_win_idx (ba_size : Z) : outcome nat :=
  idx ← ba_search 7 0 ba_size;
  if decide (0 < idx)%nat then
    r ← index BA_RANGE idx;
    if r >? ba_size then mret (idx - 1)%nat else mret idx
  else mret idx.

(** [!x] on [u32]. *)
Definition not32 (x : Z) : Z := Z.lxor x (Z.ones 32).

(** The new WTBL2 DW15 word. *)
Definition ba_dw15 (tid idx : Z) (enable : bool) (prev_dw15 : Z) : Z :=
  let shift := tid * 3 in
  let range_mask := shl32 0x7 shift in
  let ba_en_bit := shl32 1 (24 + tid) in
  let dw15 := Z.land prev_dw15 (not32 range_mask) in
  if enable then Z.lor dw15 (Z.lor ba_en_bit (shl32 (Z.land idx 0x7) shift))
  else Z.land dw15 (not32 ba_en_bit).

Definition build_ba_session_sequence
    (wcid tid ba_size : Z) (enable : bool) (prev_dw15 : Z) : builder RegWriteOp nat :=
  if 8 <=? tid then throw EINVAL else
  n ← out_len;
  if decide (n = 0)%nat then throw ENOSPC else
  idx ← lift (ba_win_idx ba_size);
  let reg := 0x00040000 + wcid * 64 + 15 * 4 in
  out_set 0 (reg ↤ ba_dw15 tid (Z.of_nat idx) enable prev_dw15) ;;
  mret 1%nat.

(** ** Builders *)

#[export] Instance mac_init_builds : Builds build_mac_init_sequence static_seq.
Proof. by apply copy_seq_builds. Qed.

Definition own_mac_ops (mac : list Z) : list RegWriteOp := [
  RMAC_OMA0R0 ↤ own_mac_val0 (nth 0 mac 0) (nth 1 mac 0) (nth 2 mac 0) (nth 3 mac 0);
  RMAC_OMA0R1 ↤ own_mac_val1 (nth 4 mac 0) (nth 5 mac 0)
].

Lemma own_mac_builds mac :
  length mac = 6%nat → Builds (build_own_mac_sequence mac) (own_mac_ops mac).
Proof.
  intros Hm. split; intros buf Hl; unfold build_own_mac_sequence; rewrite bind_len;
    cbn [own_mac_ops length] in Hl.
  - rewrite decide_False by lia.
    do 6 (erewrite bind_lift; [|apply (index_nth _ _ 0); lia]). cbv zeta.
    destruct buf as [|o0 [|o1 buf]]; [simpl in *; lia..|]. done.
  - by rewrite decide_True by lia.
Qed.

Lemma channel_builds channel bw :
  1 ≤ channel ≤ 14 → Builds (build_channel_sequence channel bw) channel_seq.
Proof.
  intros Hc. apply copy_seq_builds. intros buf. unfold build_channel_sequence.
  destruct (Z.leb_spec 1 channel), (Z.leb_spec channel 14); done || lia.
Qed.

Lemma channel_rejects channel bw :
  ¬ (1 ≤ channel ≤ 14) → Rejects (build_channel_sequence channel bw) EINVAL.
Proof.
  intros Hc buf. unfold build_channel_sequence.
  destruct (Z.leb_spec 1 channel), (Z.leb_spec channel 14); done || lia.
Qed.

Definition rx_filter_ops (promisc fcs_fail : bool) : list RegWriteOp := [
  RMAC_RFCR ↤ rx_filter_rfcr promisc fcs_fail; RMAC_RFCR1 ↤ 0
].

#[export] Instance rx_filter_builds promisc fcs_fail :
  Builds (build_rx_filter_sequence promisc fcs_fail) (rx_filter_ops promisc fcs_fail).
Proof.
  split; intros buf Hl; unfold build_rx_filter_sequence; rewrite bind_len;
    cbn [rx_filter_ops length] in Hl.
  - rewrite decide_False by lia. by destruct buf as [|o0 [|o1 buf]]; [simpl in *; lia..|].
  - by rewrite decide_True by lia.
Qed.

(** *** BlockAck window search *)

(** The window index of the vendor contract: the largest index whose range
    does not exceed [ba_size], or 0. *)
Definition ba_idx_spec (ba_size : Z) (k : nat) : Prop :=
  (k < 8)%nat ∧
  (4 ≤ ba_size → nth k BA_RANGE 0 ≤ ba_size) ∧
  (ba_size < 4 → k = 0%nat) ∧
  Forall (λ j, (k < j)%nat → ba_size < nth j BA_RANGE 0) (seq 0 8).
#[export] Instance ba_idx_spec_dec ba_size k : Decision (ba_idx_spec ba_size k).
Proof. unfold ba_idx_spec. apply _. Defined.

Definition ba_idx_ok (s : Z) : Prop :=
  match ba_win_idx s with Done k => ba_idx_spec s k | _ => False end.
#[export] Instance ba_idx_ok_dec s : Decision (ba_idx_ok s).
Proof. unfold ba_idx_ok. destruct (ba_win_idx s); apply _. Defined.

(** The search is run on each of the 256 sizes. *)
Lemma ba_win_idx_spec s : is_u8 s → ∃ k, ba_win_idx s = Done k ∧ ba_idx_spec s k.
Proof.
  intros Hs. assert (Forall ba_idx_ok (seqZ 0 256)) as HF by vm_decide.
  assert (s ∈ seqZ 0 256) as Hin by (apply elem_of_seqZ; uint).
  rewrite Forall_forall in HF. specialize (HF s Hin). unfold ba_idx_ok in HF.
  destruct (ba_win_idx s) as [k| |]; [by exists k|done..].
Qed.

(** *** BlockAck word *)

(** The window index as a total function of the size. *)
Definition ba_idx (ba_size : Z) : nat :=
  match ba_win_idx ba_size with Done k => k | _ => 0%nat end.

Definition ba_session_ops (wcid tid ba_size : Z) (enable : bool) (prev_dw15 : Z)
    : list RegWriteOp := [
  0x4003C + wcid * 64 ↤ ba_dw15 tid (Z.of_nat (ba_idx ba_size)) enable prev_dw15
].

Lemma ba_session_builds wcid tid ba_size enable prev :
  is_u8 ba_size → tid < 8 →
  Builds (build_ba_session_sequence wcid tid ba_size enable prev)
         (ba_session_ops wcid tid ba_size enable prev).
Proof.
  intros Hs Ht. destruct (ba_win_idx_spec ba_size Hs) as (k & Hk & _).
  unfold ba_session_ops, ba_idx. rewrite Hk.
  split; intros buf Hl; unfold build_ba_session_sequence; (destruct (Z.leb_spec 8 tid); [lia|]);
    rewrite bind_len.
  - destruct buf as [|o buf]; [simpl in Hl; lia|]. rewrite decide_False by done.
    erewrite bind_lift by done. cbv zeta. rewrite bind_set by list_len.
    replace (262144 + wcid * 64 + 15 * 4) with (0x4003C + wcid * 64) by lia. done.
  - destruct buf; [done|simpl in Hl; lia].
Qed.

Lemma ba_session_rejects wcid tid ba_size enable prev :
  8 ≤ tid → Rejects (build_ba_session_sequence wcid tid ba_size enable prev) EINVAL.
Proof.
  intros Ht buf. unfold build_ba_session_sequence. by rewrite (proj2 (Z.leb_le 8 tid)).
Qed.

Lemma testbit_not32 x i : 0 ≤ i < 32 → Z.testbit (not32 x) i = negb (Z.testbit x i).
Proof.
  intros. unfold not32. rewrite Z.lxor_spec, Z.ones_spec_low by lia.
  by destruct (Z.testbit x i).
Qed.

Lemma testbit_shl32 x n i :
  0 ≤ n → 0 ≤ i < 32 → Z.testbit (shl32 x n) i = Z.testbit x (i - n).
Proof.
  intros. unfold shl32, wrap. rewrite Z.mod_pow2_bits_low by lia. apply Z.shiftl_spec; lia.
Qed.

Lemma testbit_ones_lit w i : 0 ≤ w → Z.testbit (Z.ones w) i = (0 <=? i) && (i <? w).
Proof.
  intros. destruct (Z.leb_spec 0 i); [|by rewrite Z.testbit_neg_r by lia]. simpl.
  destruct (Z.ltb_spec i w); [apply Z.ones_spec_low|apply Z.ones_spec_high]; lia.
Qed.

(** What each of the 32 bits of the new word is. *)
Lemma ba_dw15_testbit tid idx enable prev i :
  0 ≤ tid < 8 → 0 ≤ i < 32 → 0 ≤ idx < 8 →
  Z.testbit (ba_dw15 tid idx enable prev) i =
  if decide (3 * tid ≤ i < 3 * tid + 3) then enable && Z.testbit idx (i - 3 * tid)
  else if decide (i = 24 + tid) then enable
  else Z.testbit prev i.
Proof.
  intros Ht Hi Hx. unfold ba_dw15.
  change 7 with (Z.ones 3). change 1 with (Z.ones 1).
  rewrite (Z.mul_comm tid 3), Z.land_ones, (Z.mod_small idx) by lia.
  assert (∀ j, 3 ≤ j → Z.testbit idx j = false) as Hhi.
  { intros j Hj. rewrite <-(Z.mod_small idx (2 ^ 3)) by lia. apply Z.mod_pow2_bits_high. lia. }
  destruct enable; repeat rewrite ?Z.lor_spec, ?Z.land_spec, ?testbit_not32, ?testbit_shl32 by lia.
  all: rewrite ?testbit_ones_lit by lia; repeat case_decide;
    repeat match goal with
    | |- context [(?x <? ?y)%Z] => destruct (Z.ltb_spec x y)
    | |- context [(?x <=? ?y)%Z] => destruct (Z.leb_spec x y)
    end; try lia; cbn [andb orb negb].
  all: rewrite ?andb_true_r, ?andb_false_r, ?orb_false_r, ?orb_true_r; try done.
  all: rewrite ?(Hhi (i - 3 * tid)) by lia; rewrite ?(Z.testbit_neg_r idx) by lia;
    rewrite ?andb_true_r, ?orb_false_r; done.
Qed.

(** The session of [tid] is replaced, the seven others are kept. *)
Lemma ba_dw15_fields tid k enable prev :
  is_u32 prev → 0 ≤ tid < 8 → 0 ≤ k < 8 →
  is_u32 (ba_dw15 tid k enable prev) ∧
  ∀ t, 0 ≤ t < 8 →
    bits (3 * t) 3 (ba_dw15 tid k enable prev) =
      (if decide (t = tid) then if enable then k else 0 else bits (3 * t) 3 prev) ∧
    Z.testbit (ba_dw15 tid k enable prev) (24 + t) =
      (if decide (t = tid) then enable else Z.testbit prev (24 + t)).
Proof.
  intros Hp Ht Hk. split; [unfold ba_dw15; destruct enable; eauto with rust|]. intros t Htt. split.
  - apply Z.bits_inj'. intros i Hi. rewrite testbit_bits by lia.
    destruct (Z.ltb_spec i 3) as [Hi3|Hi3]; cbn [andb].
    + rewrite ba_dw15_testbit by lia.
      destruct (decide (t = tid)) as [->|Hne].
      { rewrite decide_True by lia. replace (i + 3 * tid - 3 * tid) with i by lia.
        destruct enable; [done|]. by rewrite Z.bits_0. }
      rewrite decide_False, decide_False, testbit_bits by lia.
      by destruct (Z.ltb_spec i 3); [|lia].
    + symmetry. case_decide; [|rewrite testbit_bits by lia; by destruct (Z.ltb_spec i 3); [lia|]].
      destruct enable; [|apply Z.bits_0].
      rewrite <-(Z.mod_small k (2 ^ 3)) by lia. apply Z.mod_pow2_bits_high. lia.
  - rewrite ba_dw15_testbit by lia. rewrite decide_False by lia.
    repeat case_decide; lia || done.
Qed.

(** ** Properties *)

(** [build_own_mac_sequence] on every 6-byte address and every slice of
    two or more entries writes RMAC_OMA0R0 then RMAC_OMA0R1, and the hardware
    can read the address back: the four bytes of the first word and the two
    low bytes of the second are the address in order, bit 16 of the second
    (ENABLE_OWN_MAC) is set and its upper bits are clear. *)
Theorem own_mac_sequence_roundtrip mac buf :
  length mac = 6%nat → Forall is_u8 mac → (2 ≤ length buf)%nat →
  ∃ lo hi,
    build_own_mac_sequence mac buf =
      Done (Ok 2%nat, [RMAC_OMA0R0 ↤ lo; RMAC_OMA0R1 ↤ hi] ++ drop 2 buf) ∧
    is_u32 lo ∧ is_u32 hi ∧
    u32_to_le_bytes lo ++ take 2 (u32_to_le_bytes hi) = mac ∧
    bits 16 1 hi = 1 ∧ bits 17 15 hi = 0.
Proof.
  intros Hm HF Hb. destruct (own_mac_builds mac Hm) as [Hfits _].
  eexists _, _. split; [exact (Hfits buf Hb)|].
  destruct mac as [|m0 [|m1 [|m2 [|m3 [|m4 [|m5 [|]]]]]]]; try discriminate Hm.
  decompose_Forall_hyps.
  unfold own_mac_val0, own_mac_val1. cbn [nth].
  split_and!; [eauto with rust..| | |].
  - unfold u32_to_le_bytes. cbn [take app]. by bitfield.
  - by bitfield.
  - by bitfield.
Qed.

Lemma own_mac_sequence_roundtrip_witness :
  ∃ lo hi,
    build_own_mac_sequence [0x00; 0x0C; 0x43; 0x76; 0x03; 0x01] (replicate 4 (0 ↤ 0)) =
      Done (Ok 2%nat, [RMAC_OMA0R0 ↤ lo; RMAC_OMA0R1 ↤ hi] ++ replicate 2 (0 ↤ 0)) ∧
    is_u32 lo ∧ is_u32 hi ∧
    u32_to_le_bytes lo ++ take 2 (u32_to_le_bytes hi) = [0x00; 0x0C; 0x43; 0x76; 0x03; 0x01] ∧
    bits 16 1 hi = 1 ∧ bits 17 15 hi = 0.
Proof.
  apply (own_mac_sequence_roundtrip [0x00; 0x0C; 0x43; 0x76; 0x03; 0x01] (replicate 4 (0 ↤ 0))).
  - reflexivity.
  - vm_decide.
  - vm_decide.
Defined.

(** [build_channel_sequence] on every channel, bandwidth and slice: a
    channel outside 1..=14 is refused with -EINVAL whatever the slice, a valid
    channel with a slice shorter than 4 with -ENOSPC, both leaving the slice
    untouched; otherwise the four writes of the sequence are stored, the first
    of them RMAC_CHFREQ := 1 and the last clearing the TX/RX disable bits. *)
Theorem channel_sequence_spec channel bw buf :
  build_channel_sequence channel bw buf =
  Done (if decide (1 ≤ channel ≤ 14) then
          if decide (4 ≤ length buf)%nat then
            (Ok 4%nat, [RMAC_CHFREQ ↤ 1; RMAC_RMCR ↤ 0x00F00000; ARB_RQCR ↤ 0xF; ARB_SCR ↤ 0]
                       ++ drop 4 buf)
          else (Err ENOSPC, buf)
        else (Err EINVAL, buf)).
Proof.
  case_decide; [|by apply channel_rejects].
  destruct (channel_builds channel bw) as [Hf He]; [done|].
  case_decide; [by rewrite Hf|]. apply He. simpl. lia.
Qed.

(** The receive filter: bit 2 of RMAC_RFCR (RX_PROMISCUOUS_MODE) is set
    exactly in promiscuous mode, bit 1 (DROP_FCS_ERROR_FRAME) is clear exactly
    when promiscuous mode asks to keep FCS errors (so outside promiscuous mode
    corrupt frames are always dropped), RMAC_RFCR1 is cleared, and a slice
    shorter than two entries gets -ENOSPC. *)
Theorem rx_filter_sequence_spec promisc fcs_fail buf :
  ∃ rfcr,
    build_rx_filter_sequence promisc fcs_fail buf =
    Done (if decide (2 ≤ length buf)%nat
          then (Ok 2%nat, [RMAC_RFCR ↤ rfcr; RMAC_RFCR1 ↤ 0] ++ drop 2 buf)
          else (Err ENOSPC, buf)) ∧
    Z.testbit rfcr 2 = promisc ∧
    Z.testbit rfcr 1 = negb (promisc && fcs_fail).
Proof.
  exists (rx_filter_rfcr promisc fcs_fail). split; [|by destruct promisc, fcs_fail].
  destruct (rx_filter_builds promisc fcs_fail) as [Hf He].
  case_decide; [by rewrite Hf|]. apply He. simpl. lia.
Qed.

(** The BlockAck window search terminates on every size without an
    out-of-range access and picks the index the contract asks for: the largest
    index whose BA_RANGE entry does not exceed [ba_size] (0 below the smallest
    entry). *)
Theorem ba_window_search_correct s :
  is_u8 s →
  ∃ k, ba_win_idx s = Done k ∧ (k < 8)%nat ∧
    (4 ≤ s → nth k BA_RANGE 0 ≤ s) ∧ (s < 4 → k = 0%nat) ∧
    ∀ j, (k < j < 8)%nat → s < nth j BA_RANGE 0.
Proof.
  intros (k & Hk & Hlt & Hle & H0 & HF)%ba_win_idx_spec.
  exists k. split_and!; [done..|]. intros j [Hkj Hj].
  rewrite Forall_forall in HF. apply HF; [|done]. apply elem_of_seq. lia.
Qed.

Lemma ba_window_search_correct_witness :
  ∃ k, ba_win_idx 64 = Done k ∧ (k < 8)%nat ∧
    (4 ≤ 64 → nth k BA_RANGE 0 ≤ 64) ∧ (64 < 4 → k = 0%nat) ∧
    ∀ j, (k < j < 8)%nat → 64 < nth j BA_RANGE 0.
Proof. apply (ba_window_search_correct 64). vm_decide. Defined.

(** [build_ba_session_sequence] touches only the session it was asked
    for: with a valid TID it writes one word to WTBL2 DW15 of the station,
    where the 3-bit window slot of the TID holds the chosen index (0 on
    tear-down) and its enable bit says whether the session is on, while the
    slots and enable bits of the seven other TIDs keep their previous value. *)
Theorem ba_session_frame wcid tid ba_size enable prev buf :
  is_u8 ba_size → is_u32 prev → 0 ≤ tid < 8 → buf ≠ [] →
  ∃ k dw,
    build_ba_session_sequence wcid tid ba_size enable prev buf =
      Done (Ok 1%nat, (0x4003C + wcid * 64 ↤ dw) :: tail buf) ∧
    ba_win_idx ba_size = Done k ∧ is_u32 dw ∧
    ∀ t, 0 ≤ t < 8 →
      bits (3 * t) 3 dw =
        (if decide (t = tid) then if enable then Z.of_nat k else 0 else bits (3 * t) 3 prev) ∧
      Z.testbit dw (24 + t) =
        (if decide (t = tid) then enable else Z.testbit prev (24 + t)).
Proof.
  intros Hs Hp Ht Hb. destruct (ba_win_idx_spec ba_size Hs) as (k & Hk & Hlt & _).
  exists k, (ba_dw15 tid (Z.of_nat k) enable prev). split_and!; [|done| |].
  - pose proof (ba_session_builds wcid tid ba_size enable prev Hs ltac:(lia)) as [Hok _].
    destruct buf as [|o buf]; [done|]. rewrite Hok by (simpl; lia).
    unfold ba_session_ops, ba_idx. by rewrite Hk.
  - by apply ba_dw15_fields; [..|lia].
  - by apply ba_dw15_fields; [..|lia].
Qed.

Lemma ba_session_frame_witness :
  ∃ k dw,
    build_ba_session_sequence 1 0 64 true 0 [0 ↤ 0; 0 ↤ 0] =
      Done (Ok 1%nat, (0x4003C + 1 * 64 ↤ dw) :: [0 ↤ 0]) ∧
    ba_win_idx 64 = Done k ∧ is_u32 dw ∧
    ∀ t, 0 ≤ t < 8 →
      bits (3 * t) 3 dw =
        (if decide (t = 0) then if true then Z.of_nat k else 0 else bits (3 * t) 3 0) ∧
      Z.testbit dw (24 + t) = (if decide (t = 0) then true else Z.testbit 0 (24 + t)).
Proof. apply (ba_session_frame 1 0 64 true 0 [0 ↤ 0; 0 ↤ 0]); [vm_decide|vm_decide|lia|discriminate]. Defined.
