(* ===== verification/Mcu.v ===== *)
(** * MCU commands and firmware image checks (src/rust/src/mcu.rs)

    Every command of the Andes MCU is an FW_TXD header followed by a payload;
    [build_fw_txd_frame] frames it and one builder per command prepares the
    payload.  The header is 12 bytes while the firmware is downloaded and 32
    bytes once it runs. *)

From S2P Require Import Prelude Rust Util.
Local Open Scope Z_scope.

(** ** Constants *)

Definition FW_TXD_HDR_SIZE : nat := 12.
Definition USB_END_PADDING : nat := 4.
Definition MT_TARGET_ADDRESS_LEN_REQ : Z := 0x01.
Definition MT_FW_START_REQ : Z := 0x02.
Definition MT_FW_SCATTER : Z := 0xEE.
Definition MT_RESTART_DL_REQ : Z := 0xEF.
Definition EXT_CID : Z := 0xED.
Definition EXT_CMD_NA : Z := 0.
Definition EXT_CMD_RADIO_ON_OFF_CTRL : Z := 0x05.
Definition EXT_CMD_EDCA_SET : Z := 0x27.
Definition PKT_ID_CMD : Z := 0xA0.
Definition CMD_SET : Z := 1.
Definition CMD_QUERY : Z := 0.
Definition CMD_NA : Z := 3.
Definition EXT_CID_OPTION_NEED_ACK : Z := 1.
Definition EXT_CID_OPTION_NO_NEED_ACK : Z := 0.
Definition P1_Q0 : Z := 0x8000.
Definition FW_SCATTER_PQ_ID : Z := 0xC000.
Definition FW_CODE_START_ADDRESS1 : Z := 0x100000.
Definition TARGET_ADDR_LEN_NEED_RSP : Z := 0x80000000.
Definition MT_UPLOAD_FW_UNIT : nat := 4096.
Definition FW_TXD_FULL_SIZE : nat := 32.
Definition FW_SCATTER_MAX_PAYLOAD : nat := MT_UPLOAD_FW_UNIT - FW_TXD_FULL_SIZE.
Definition EXT_CMD_CHANNEL_SWITCH : Z := 0x08.
Definition EXT_CMD_SET_TX_POWER_CTRL : Z := 0x11.
Definition EXT_CMD_EFUSE_BUFFER_MODE : Z := 0x21.
Definition CMD_CH_PRIVILEGE : Z := 0x20.

(** ** [build_fw_txd_frame] *)

Definition fw_need_ack (cid set_query seq : Z) (need_rsp : bool) : bool :=
  (cid =? EXT_CID) && ((set_query =? CMD_SET) || (set_query =? CMD_QUERY))
  && need_rsp && negb (seq =? 0).

Definition build_fw_txd_frame (p : profile) (cid pq_id set_query ext_cid seq : Z)
    (need_rsp : bool) (hdr_size : nat) (payload : list Z) : builder Z nat :=
  if bool_decide (p = Debug) &&
     negb (bool_decide (hdr_size = FW_TXD_HDR_SIZE) || bool_decide (hdr_size = FW_TXD_FULL_SIZE))
  then lift Panic (* debug_assert! *)
  else
  let total_len := (length payload + hdr_size)%nat in
  n ← out_len;
  if decide (n < total_len)%nat then throw ENOSPC else
  (if decide (FW_TXD_HDR_SIZE < hdr_size)%nat
   then for_range FW_TXD_HDR_SIZE hdr_size (λ i, out_write_volatile i 0)
   else mret tt) ;;
  let len := u16_to_le_bytes (as_u16 (Z.of_nat total_len)) in
  out_set 0 (nth 0 len 0) ;;
  out_set 1 (nth 1 len 0) ;;
  let pq := u16_to_le_bytes pq_id in
  out_set 2 (nth 0 pq 0) ;;
  out_set 3 (nth 1 pq 0) ;;
  out_set 4 cid ;;
  out_set 5 PKT_ID_CMD ;;
  out_set 6 set_query ;;
  out_set 7 seq ;;
  out_set 8 0x00 ;;
  out_set 9 ext_cid ;;
  out_set 10 0x00 ;;
  let need_ack := fw_need_ack cid set_query seq need_rsp in
  out_set 11 (if need_ack then EXT_CID_OPTION_NEED_ACK else EXT_CID_OPTION_NO_NEED_ACK) ;;
  out_copy_bytes hdr_size total_len payload ;;
  mret total_len.

(** ** Download-phase commands *)

Definition addr_len_payload (address dl_len : Z) : outcome (list Z) :=
  with_array (replicate 12 0)
    (out_copy 0 4 (u32_to_le_bytes address) ;;
     out_copy 4 8 (u32_to_le_bytes dl_len) ;;
     out_copy 8 12 (u32_to_le_bytes TARGET_ADDR_LEN_NEED_RSP)).

Definition build_addr_len_req (p : profile) (address dl_len seq : Z) : builder Z nat :=
  payload ← lift (addr_len_payload address dl_len);
  build_fw_txd_frame p MT_TARGET_ADDRESS_LEN_REQ P1_Q0 CMD_NA EXT_CMD_NA seq true
    FW_TXD_HDR_SIZE payload.

Definition fw_start_payload (override_ address : Z) : outcome (list Z) :=
  with_array (replicate 8 0)
    (out_copy 0 4 (u32_to_le_bytes override_) ;;
     out_copy 4 8 (u32_to_le_bytes address)).

Definition build_fw_start_req (p : profile) (override_ address seq : Z) : builder Z nat :=
  payload ← lift (fw_start_payload override_ address);
  build_fw_txd_frame p MT_FW_START_REQ P1_Q0 CMD_NA EXT_CMD_NA seq true
    FW_TXD_HDR_SIZE payload.

Definition build_restart_dl_req (p : profile) (seq : Z) : builder Z nat :=
  build_fw_txd_frame p MT_RESTART_DL_REQ P1_Q0 CMD_NA EXT_CMD_NA seq true
    FW_TXD_HDR_SIZE [].

Definition build_fw_scatter_frame (p : profile) (chunk : list Z) : builder Z nat :=
  if decide (FW_SCATTER_MAX_PAYLOAD < length chunk)%nat then throw EINVAL else
  build_fw_txd_frame p MT_FW_SCATTER FW_SCATTER_PQ_ID CMD_NA EXT_CMD_NA 0 false
    FW_TXD_HDR_SIZE chunk.

(** ** Run-time commands *)

Definition channel_switch_payload (ctrl_ch central_ch bw tx_streams rx_streams : Z)
    : outcome (list Z) :=
  with_array (replicate 36 0)
    (out_set 0 ctrl_ch ;; out_set 1 central_ch ;; out_set 2 bw ;;
     out_set 3 tx_streams ;; out_set 4 rx_streams ;;
     out_fill 12 33 0xFF).

Definition build_channel_switch_cmd (p : profile)
    (ctrl_ch central_ch bw tx_streams rx_streams seq : Z) : builder Z nat :=
  payload ← lift (channel_switch_payload ctrl_ch central_ch bw tx_streams rx_streams);
  build_fw_txd_frame p EXT_CID P1_Q0 CMD_SET EXT_CMD_CHANNEL_SWITCH seq true
    FW_TXD_FULL_SIZE payload.

(** EEPROM offsets ([mod e2p_offsets]). *)
Definition NIC_CONFIGURE_1 : nat := 0x36.
Definition G_BAND_20_40_BW_PWR_DELTA : nat := 0x50.
Definition TX0_G_BAND_TARGET_PWR : nat := 0x58.
Definition TX0_G_BAND_CHL_PWR_DELTA_MID : nat := 0x5A.
Definition TX1_G_BAND_TARGET_PWR : nat := 0x5E.
Definition TX1_G_BAND_CHL_PWR_DELTA_MID : nat := 0x60.
Definition TX_PWR_CCK_1_2M : nat := 0xA0.
Definition STEP_NUM_NEG_7 : nat := 0xC6.

(** The [read16] closure: bytes past the image read as 0xff. *)
Definition read16 (eeprom : list Z) (addr : nat) : Z :=
  let lo := default 0xff (eeprom !! addr) in
  let hi := default 0xff (eeprom !! (addr + 1)%nat) in
  Z.lor lo (hi ≪ 8).

(** [for i in 0..9] filling aucTempCompPower, with its cursor [j]; [n] is the
    number of iterations left. *)
Fixpoint temp_comp_loop (eeprom : list Z) (n i j : nat) : builder Z unit :=
  match n with
  | O => mret tt
  | S n =>
      let v := read16 eeprom (STEP_NUM_NEG_7 + i * 2) in
      out_set j (as_u8 v) ;;
      if decide (i ≠ 8%nat) then
        out_set (j + 1) (as_u8 (v ≫ 8)) ;; temp_comp_loop eeprom n (S i) (j + 2)
      else temp_comp_loop eeprom n (S i) (j + 1)
  end.

Definition tx_power_payload (eeprom : list Z) (central_ch : Z) : outcome (list Z) :=
  let read16 := read16 eeprom in
  with_array (replicate 44 0)
    (out_set 0 central_ch ;;
     let nic_conf1 := read16 NIC_CONFIGURE_1 in
     out_set 1 (as_u8 (nic_conf1 ≫ 8)) ;;
     out_set 2 (as_u8 nic_conf1) ;;
     out_set 3 (as_u8 (read16 TX0_G_BAND_TARGET_PWR)) ;;
     out_set 4 (as_u8 (read16 TX1_G_BAND_TARGET_PWR)) ;;
     for_range 0 7 (λ i,
       let v := read16 (TX_PWR_CCK_1_2M + i * 2)%nat in
       out_set (5 + i * 2) (as_u8 v) ;;
       out_set (6 + i * 2) (as_u8 (v ≫ 8))) ;;
     out_set 19 (as_u8 (read16 G_BAND_20_40_BW_PWR_DELTA)) ;;
     out_set 20 (as_u8 (read16 TX0_G_BAND_TARGET_PWR ≫ 8)) ;;
     out_set 21 (as_u8 (read16 TX0_G_BAND_CHL_PWR_DELTA_MID)) ;;
     out_set 22 (as_u8 (read16 TX0_G_BAND_CHL_PWR_DELTA_MID ≫ 8)) ;;
     out_set 23 (as_u8 (read16 TX1_G_BAND_TARGET_PWR ≫ 8)) ;;
     out_set 24 (as_u8 (read16 TX1_G_BAND_CHL_PWR_DELTA_MID)) ;;
     out_set 25 (as_u8 (read16 TX1_G_BAND_CHL_PWR_DELTA_MID ≫ 8)) ;;
     temp_comp_loop eeprom 9 0 26).

Definition build_tx_power_ctrl_cmd (p : profile) (eeprom : list Z) (central_ch seq : Z)
    : builder Z nat :=
  payload ← lift (tx_power_payload eeprom central_ch);
  build_fw_txd_frame p EXT_CID P1_Q0 CMD_SET EXT_CMD_SET_TX_POWER_CTRL seq true
    FW_TXD_FULL_SIZE payload.

Definition EFUSE_CONTENT_BUFFER_SIZE : nat := 0xf0.
Definition EFUSE_PAYLOAD_SIZE : nat := 4 + EFUSE_CONTENT_BUFFER_SIZE * 4.

(** Reading [MaybeUninit] bytes is undefined unless all are initialised. *)
Fixpoint assume_init (l : list (option Z)) : outcome (list Z) :=
  match l with
  | [] => Done []
  | Some b :: l => r ← assume_init l; mret (b :: r)
  | None :: _ => Undefined
  end.

Definition efuse_payload : outcome (list Z) :=
  payload ← with_array (replicate EFUSE_PAYLOAD_SIZE None)
    (for_range 0 EFUSE_PAYLOAD_SIZE (λ i, out_write_volatile i (Some 0)) ;;
     out_set 0 (Some 0) ;;
     out_set 1 (Some 0));
  assume_init payload.

Definition build_efuse_buffer_mode_cmd (p : profile) (eeprom : list Z) (seq : Z)
    : builder Z nat :=
  payload_bytes ← lift efuse_payload;
  build_fw_txd_frame p EXT_CID P1_Q0 CMD_SET EXT_CMD_EFUSE_BUFFER_MODE seq true
    FW_TXD_FULL_SIZE payload_bytes.

Definition ch_privilege_payload (channel : Z) : outcome (list Z) :=
  with_array (replicate 16 0)
    (out_set 2 0 ;; out_set 3 channel ;; out_set 4 0 ;;
     out_set 5 0 ;; out_set 6 0 ;; out_set 9 0).

Definition build_ch_privilege_cmd (p : profile) (channel seq : Z) : builder Z nat :=
  payload ← lift (ch_privilege_payload channel);
  build_fw_txd_frame p CMD_CH_PRIVILEGE P1_Q0 CMD_SET EXT_CMD_NA seq false
    FW_TXD_FULL_SIZE payload.

Definition radio_payload (on : bool) : outcome (list Z) :=
  with_array (replicate 4 0) (out_set 0 (if on then 1 else 2)).

Definition build_radio_on_off_cmd (p : profile) (on : bool) (seq : Z) : builder Z nat :=
  payload ← lift (radio_payload on);
  build_fw_txd_frame p EXT_CID P1_Q0 CMD_SET EXT_CMD_RADIO_ON_OFF_CTRL seq true
    FW_TXD_FULL_SIZE payload.

Definition WMM_EDCA_AIFSN : list Z := [3; 7; 2; 2].
Definition WMM_EDCA_CWMIN : list Z := [4; 4; 3; 2].
Definition WMM_EDCA_CWMAX : list Z := [10; 10; 4; 3].
Definition WMM_EDCA_TXOP : list Z := [0; 0; 0x60; 0x2F].
Definition WMM_ACI_TO_HW_QUEUE : list nat := [1; 0; 2; 3]%nat.

(** One iteration of the access-category loop; [u16] shifts and the
    subtraction are written with their wrap-around. *)
Definition edca_ac (ac : nat) : builder Z unit :=
  hw_q ← lift (index WMM_ACI_TO_HW_QUEUE ac);
  let base := (4 + hw_q * 8)%nat in
  out_set base (as_u8 (Z.of_nat ac)) ;;
  out_set (base + 1) 0x0F ;;
  aifsn ← lift (index WMM_EDCA_AIFSN ac);
  out_set (base + 2) aifsn ;;
  cwmin ← lift (index WMM_EDCA_CWMIN ac);
  out_set (base + 3) (as_u8 (as_u8 (as_u16 (1 ≪ cwmin)) - 1)) ;;
  cwmax ← lift (index WMM_EDCA_CWMAX ac);
  let win_max := as_u16 (as_u16 (1 ≪ cwmax) - 1) in
  out_copy (base + 4) (base + 6) (u16_to_le_bytes win_max) ;;
  txop ← lift (index WMM_EDCA_TXOP ac);
  out_copy (base + 6) (base + 8) (u16_to_le_bytes txop).

Definition edca_payload : outcome (list Z) :=
  with_array (replicate (4 + 4 * 8) 0) (out_set 0 4 ;; for_range 0 4 edca_ac).

Definition build_edca_set_cmd (p : profile) (seq : Z) : builder Z nat :=
  payload ← lift edca_payload;
  build_fw_txd_frame p EXT_CID P1_Q0 CMD_SET EXT_CMD_EDCA_SET seq true
    FW_TXD_FULL_SIZE payload.

(** ** Firmware image *)

Definition fw_dl_len (p : profile) (fw_buf : list Z) : outcome (option Z) :=
  if decide (length fw_buf < 4)%nat then Done None (* checked_sub *)
  else
    let tail := drop (length fw_buf - 4) fw_buf in
    t0 ← index tail 0; t1 ← index tail 1; t2 ← index tail 2; t3 ← index tail 3;
    n ← add_u32 p (u32_from_le_bytes t0 t1 t2 t3) 4;
    mret (Some n).

Definition verify_firmware (fw_buf : list Z) : outcome (result unit) :=
  if decide (length fw_buf < 1024)%nat then Done (Err EINVAL) else
  b0 ← index fw_buf 0; b1 ← index fw_buf 1; b2 ← index fw_buf 2; b3 ← index fw_buf 3;
  if negb (b0 =? 0x46) || negb (b1 =? 0x00) || negb (b2 =? 0x01) || negb (b3 =? 0x00)
  then mret (Err EINVAL)
  else mret (Ok tt).

(** ** The frame a command promises *)

(** The 12 header bytes that carry information. *)
Definition fw_txd_header (cid pq_id set_query ext_cid seq : Z) (need_rsp : bool)
    (total_len : nat) : list Z :=
  u16_to_le_bytes (as_u16 (Z.of_nat total_len)) ++ u16_to_le_bytes pq_id ++
  [cid; PKT_ID_CMD; set_query; seq; 0; ext_cid; 0;
   if fw_need_ack cid set_query seq need_rsp
   then EXT_CID_OPTION_NEED_ACK else EXT_CID_OPTION_NO_NEED_ACK].

Definition fw_txd_frame (cid pq_id set_query ext_cid seq : Z) (need_rsp : bool)
    (hdr_size : nat) (payload : list Z) : list Z :=
  fw_txd_header cid pq_id set_query ext_cid seq need_rsp (length payload + hdr_size) ++
  replicate (hdr_size - FW_TXD_HDR_SIZE) 0 ++ payload.

Definition fw_hdr_ok (hdr_size : nat) : Prop :=
  hdr_size = FW_TXD_HDR_SIZE ∨ hdr_size = FW_TXD_FULL_SIZE.
#[export] Hint Unfold fw_hdr_ok : rust.

Lemma length_fw_txd_frame cid pq sq ext seq rsp h pl :
  fw_hdr_ok h → length (fw_txd_frame cid pq sq ext seq rsp h pl) = (length pl + h)%nat.
Proof.
  unfold fw_txd_frame, fw_txd_header, fw_hdr_ok, FW_TXD_HDR_SIZE, FW_TXD_FULL_SIZE.
  intros [-> | ->]; rewrite !length_app, length_replicate; cbn [length u16_to_le_bytes Nat.sub]; lia.
Qed.

(** A buffer that holds the frame is twelve header bytes, the header padding,
    the payload area and a rest. *)
Lemma fw_buf_segments (h n : nat) (buf : list Z) :
  (12 ≤ h)%nat → (n + h ≤ length buf)%nat →
  ∃ b0 b1 b2 b3 b4 b5 b6 b7 b8 b9 b10 b11 pad area rest,
    buf = [b0; b1; b2; b3; b4; b5; b6; b7; b8; b9; b10; b11] ++ pad ++ area ++ rest ∧
    length pad = (h - 12)%nat ∧ length area = n ∧ drop (n + h) buf = rest.
Proof.
  intros Hh Hb.
  do 12 (destruct buf as [|? buf]; [simpl in Hb; lia|]). cbn [length] in Hb.
  do 12 eexists. exists (take (h - 12) buf), (take n (drop (h - 12) buf)),
    (drop (h - 12 + n) buf). split_and!.
  - simpl. repeat f_equal. by rewrite <-drop_drop, !take_drop.
  - list_len.
  - list_len.
  - replace (n + h)%nat with (12 + (h - 12 + n))%nat by lia. done.
Qed.

Lemma fw_pad_fill (h : nat) (k : unit → builder Z nat) (hd pad rest : list Z) :
  fw_hdr_ok h → length hd = 12%nat → length pad = (h - 12)%nat →
  ((if decide (FW_TXD_HDR_SIZE < h)%nat
    then for_range FW_TXD_HDR_SIZE h (λ i, out_write_volatile i 0) else mret tt) ≫= k)
    (hd ++ pad ++ rest)
  = k tt (hd ++ replicate (h - 12) 0 ++ rest).
Proof.
  unfold fw_hdr_ok, FW_TXD_HDR_SIZE, FW_TXD_FULL_SIZE.
  intros [-> | ->] Hhd Hpad.
  - destruct pad; [done|simpl in Hpad; lia].
  - rewrite decide_True by lia.
    rewrite bind_for_volatile_range by list_len.
    rewrite splice_skip by lia. rewrite Hhd.
    by rewrite splice_hit by list_len.
Qed.

Lemma fw_txd_builds p cid pq sq ext seq rsp h pl :
  fw_hdr_ok h →
  Builds (build_fw_txd_frame p cid pq sq ext seq rsp h pl)
         (fw_txd_frame cid pq sq ext seq rsp h pl).
Proof.
  intros Hh.
  assert (Hguard : bool_decide (p = Debug) &&
    negb (bool_decide (h = FW_TXD_HDR_SIZE) || bool_decide (h = FW_TXD_FULL_SIZE)) = false).
  { by destruct Hh as [-> | ->], p. }
  assert (12 ≤ h)%nat by (destruct Hh as [-> | ->]; vm_decide).
  split; intros buf Hl; rewrite length_fw_txd_frame in * by done;
    unfold build_fw_txd_frame; rewrite Hguard, bind_len;
    [rewrite decide_False by lia|by rewrite decide_True by lia].
  destruct (fw_buf_segments h (length pl) buf) as
    (b0 & b1 & b2 & b3 & b4 & b5 & b6 & b7 & b8 & b9 & b10 & b11 & pad & area & rest &
     Heq & Hpad & Harea & ->); [lia|lia|].
  clear Hl. subst buf. rewrite fw_pad_fill by done.
  do 12 (rewrite bind_set by (simpl; lia)). cbn [app splice take drop Nat.add length].
  match goal with |- _ ?l = _ =>
    change l with (fw_txd_header cid pq sq ext seq rsp (length pl + h) ++
      replicate (h - 12) 0 ++ area ++ rest) end.
  assert (length (fw_txd_header cid pq sq ext seq rsp (length pl + h)) = 12%nat) by done.
  rewrite bind_copy_bytes by list_len.
  do 2 rewrite splice_skip by list_len. rewrite splice_hit by list_len.
  unfold fw_txd_frame. by rewrite <-!app_assoc.
Qed.

(** ** Payloads *)

(** The EEPROM byte at [k], erased flash past the end of the image. *)
Definition ee (eeprom : list Z) (k : nat) : Z := default 0xff (eeprom !! k).

Lemma ee_u8 eeprom k : Forall is_u8 eeprom → is_u8 (ee eeprom k).
Proof.
  intros HF. unfold ee. destruct (eeprom !! k) eqn:E; simpl; [|vm_decide].
  by eapply Forall_lookup_1 in E.
Qed.

Lemma wrap_bits w x : 0 ≤ w → wrap w x = bits 0 w x.
Proof. intros. by rewrite bits_mod. Qed.

Lemma read16_lo eeprom k : Forall is_u8 eeprom → as_u8 (read16 eeprom k) = ee eeprom k.
Proof.
  intros HF. change (read16 eeprom k) with (Z.lor (ee eeprom k) (ee eeprom (k + 1) ≪ 8)).
  pose proof (ee_u8 eeprom k HF). pose proof (ee_u8 eeprom (k + 1) HF).
  rewrite wrap_bits by lia. by bitfield.
Qed.

Lemma read16_hi eeprom k :
  Forall is_u8 eeprom → as_u8 (read16 eeprom k ≫ 8) = ee eeprom (k + 1).
Proof.
  intros HF. change (read16 eeprom k) with (Z.lor (ee eeprom k) (ee eeprom (k + 1) ≪ 8)).
  pose proof (ee_u8 eeprom k HF). pose proof (ee_u8 eeprom (k + 1) HF).
  rewrite wrap_bits by lia.
  replace (bits 0 8 (_ ≫ 8)) with (bits 8 8 (Z.lor (ee eeprom k) (ee eeprom (k + 1) ≪ 8)))
    by (unfold bits; by rewrite Z.shiftr_0_r).
  by bitfield.
Qed.

(** CmdSetTxPowerCtrl as the firmware reads it: the EEPROM bytes it copies. *)
Definition tx_power_bytes (eeprom : list Z) (central_ch : Z) : list Z :=
  let ee := ee eeprom in
  central_ch :: ee 0x37%nat :: ee 0x36%nat :: ee 0x58%nat :: ee 0x5E%nat ::
  (ee <$> seq 0xA0 14) ++
  [ee 0x50%nat; ee 0x59%nat; ee 0x5A%nat; ee 0x5B%nat; ee 0x5F%nat; ee 0x60%nat; ee 0x61%nat] ++
  (ee <$> seq 0xC6 17) ++ [0].

Lemma tx_power_payload_bytes eeprom central_ch :
  Forall is_u8 eeprom →
  tx_power_payload eeprom central_ch = Done (tx_power_bytes eeprom central_ch).
Proof.
  intros HF.
  cbv -[read16 as_u8 ee wrap Z.shiftr].
  by rewrite !read16_hi, !read16_lo by done.
Qed.

(** An access category's entry: index, valid bits, AIFSN, CWmin, CWmax, TXOP. *)
Definition edca_entry (ac : nat) : list Z :=
  [Z.of_nat ac; 0x0F; nth ac WMM_EDCA_AIFSN 0; 2 ^ nth ac WMM_EDCA_CWMIN 0 - 1] ++
  u16_to_le_bytes (2 ^ nth ac WMM_EDCA_CWMAX 0 - 1) ++
  u16_to_le_bytes (nth ac WMM_EDCA_TXOP 0).

(** Hardware queue order: background first, then best effort, video, voice. *)
Definition edca_bytes : list Z :=
  [4; 0; 0; 0] ++ edca_entry 1 ++ edca_entry 0 ++ edca_entry 2 ++ edca_entry 3.

Lemma edca_payload_bytes : edca_payload = Done edca_bytes.
Proof. by vm_compute. Qed.

Lemma efuse_payload_bytes : efuse_payload = Done (replicate EFUSE_PAYLOAD_SIZE 0).
Proof. by vm_compute. Qed.

(** ** Commands

    The commands the crate can build, the payload the firmware's structure for
    each prescribes, and the header fields that go with it. *)

Inductive command :=
| TargetAddressLen (address dl_len seq : Z)
| FwStart (override_ address seq : Z)
| RestartDl (seq : Z)
| FwScatter (chunk : list Z)
| ChannelSwitch (ctrl_ch central_ch bw tx_streams rx_streams seq : Z)
| TxPowerCtrl (eeprom : list Z) (central_ch seq : Z)
| EfuseBufferMode (eeprom : list Z) (seq : Z)
| ChPrivilege (channel seq : Z)
| RadioOnOff (on : bool) (seq : Z)
| EdcaSet (seq : Z).

Definition build_command (p : profile) (c : command) : builder Z nat :=
  match c with
  | TargetAddressLen address dl_len seq => build_addr_len_req p address dl_len seq
  | FwStart override_ address seq => build_fw_start_req p override_ address seq
  | RestartDl seq => build_restart_dl_req p seq
  | FwScatter chunk => build_fw_scatter_frame p chunk
  | ChannelSwitch ctrl_ch central_ch bw tx_streams rx_streams seq =>
      build_channel_switch_cmd p ctrl_ch central_ch bw tx_streams rx_streams seq
  | TxPowerCtrl eeprom central_ch seq => build_tx_power_ctrl_cmd p eeprom central_ch seq
  | EfuseBufferMode eeprom seq => build_efuse_buffer_mode_cmd p eeprom seq
  | ChPrivilege channel seq => build_ch_privilege_cmd p channel seq
  | RadioOnOff on seq => build_radio_on_off_cmd p on seq
  | EdcaSet seq => build_edca_set_cmd p seq
  end.

(** The argument types: an EEPROM image is bytes. *)
Definition command_wf (c : command) : Prop :=
  match c with TxPowerCtrl eeprom _ _ => Forall is_u8 eeprom | _ => True end.
#[export] Instance command_wf_dec c : Decision (command_wf c).
Proof. destruct c; apply _. Defined.

(** A firmware chunk that one bulk transfer can hold. *)
Definition command_fits (c : command) : Prop :=
  match c with FwScatter chunk => (length chunk ≤ FW_SCATTER_MAX_PAYLOAD)%nat | _ => True end.
#[export] Instance command_fits_dec c : Decision (command_fits c).
Proof. destruct c; apply _. Defined.

Definition command_ok (c : command) : Prop := command_wf c ∧ command_fits c.

Definition command_payload (c : command) : list Z :=
  match c with
  | TargetAddressLen address dl_len _ =>
      u32_to_le_bytes address ++ u32_to_le_bytes dl_len ++ u32_to_le_bytes 0x80000000
  | FwStart override_ address _ => u32_to_le_bytes override_ ++ u32_to_le_bytes address
  | RestartDl _ => []
  | FwScatter chunk => chunk
  | ChannelSwitch ctrl_ch central_ch bw tx_streams rx_streams _ =>
      [ctrl_ch; central_ch; bw; tx_streams; rx_streams] ++ replicate 7 0 ++
      replicate 21 0xFF ++ replicate 3 0
  | TxPowerCtrl eeprom central_ch _ => tx_power_bytes eeprom central_ch
  | EfuseBufferMode _ _ => replicate EFUSE_PAYLOAD_SIZE 0
  | ChPrivilege channel _ => replicate 3 0 ++ [channel] ++ replicate 12 0
  | RadioOnOff on _ => [if on then 1 else 2; 0; 0; 0]
  | EdcaSet _ => edca_bytes
  end.

(** [(cid, ext_cid, set_query, pq_id)] *)
Definition command_ids (c : command) : Z * Z * Z * Z :=
  match c with
  | TargetAddressLen _ _ _ => (0x01, 0, 3, 0x8000)
  | FwStart _ _ _ => (0x02, 0, 3, 0x8000)
  | RestartDl _ => (0xEF, 0, 3, 0x8000)
  | FwScatter _ => (0xEE, 0, 3, 0xC000)
  | ChannelSwitch _ _ _ _ _ _ => (0xED, 0x08, 1, 0x8000)
  | TxPowerCtrl _ _ _ => (0xED, 0x11, 1, 0x8000)
  | EfuseBufferMode _ _ => (0xED, 0x21, 1, 0x8000)
  | ChPrivilege _ _ => (0x20, 0, 1, 0x8000)
  | RadioOnOff _ _ => (0xED, 0x05, 1, 0x8000)
  | EdcaSet _ => (0xED, 0x27, 1, 0x8000)
  end.

(** The sequence number in the frame; scatter frames carry none. *)
Definition command_seq (c : command) : Z :=
  match c with
  | FwScatter _ => 0
  | TargetAddressLen _ _ seq | FwStart _ _ seq | RestartDl seq
  | ChannelSwitch _ _ _ _ _ seq | TxPowerCtrl _ _ seq | EfuseBufferMode _ seq
  | ChPrivilege _ seq | RadioOnOff _ seq | EdcaSet seq => seq
  end.

(** The download commands use the short header, the run-time ones the full. *)
Definition command_hdr (c : command) : nat :=
  match c with
  | TargetAddressLen _ _ _ | FwStart _ _ _ | RestartDl _ | FwScatter _ => 12
  | _ => 32
  end.

(** Only extended commands with a sequence number are acknowledged. *)
Definition command_acked (c : command) : bool :=
  ((command_ids c).1.1.1 =? 0xED) && negb (command_seq c =? 0).

Definition command_rsp (c : command) : bool :=
  match c with FwScatter _ | ChPrivilege _ _ => false | _ => true end.

Definition command_frame (c : command) : list Z :=
  let '(cid, ext_cid, set_query, pq_id) := command_ids c in
  fw_txd_frame cid pq_id set_query ext_cid (command_seq c) (command_rsp c)
    (command_hdr c) (command_payload c).

Lemma command_hdr_ok c : fw_hdr_ok (command_hdr c).
Proof. destruct c; [left..|right|right|right|right|right|right]; done. Qed.

Lemma length_command_frame c :
  length (command_frame c) = (length (command_payload c) + command_hdr c)%nat.
Proof.
  unfold command_frame. destruct (command_ids c) as [[[? ?] ?] ?].
  apply length_fw_txd_frame, command_hdr_ok.
Qed.

(** A command whose payload is prepared first. *)
Lemma payload_builds (m : outcome (list Z)) pl (k : list Z → builder Z nat) frame :
  m = Done pl → Builds (k pl) frame → Builds (pl ← lift m; k pl) frame.
Proof.
  intros Hm [Hf He].
  split; intros buf Hl; rewrite (bind_lift _ _ _ _ Hm); auto.
Qed.

Lemma command_builds p c : command_ok c → Builds (build_command p c) (command_frame c).
Proof.
  intros [Hwf Hfits]. destruct c; simpl in Hwf, Hfits |- *.
  - eapply payload_builds; [done|]. apply fw_txd_builds. by left.
  - eapply payload_builds; [done|]. apply fw_txd_builds. by left.
  - apply fw_txd_builds. by left.
  - unfold build_fw_scatter_frame. rewrite decide_False by lia. apply fw_txd_builds. by left.
  - eapply payload_builds; [done|]. apply fw_txd_builds. by right.
  - eapply payload_builds; [by apply tx_power_payload_bytes|]. apply fw_txd_builds. by right.
  - eapply payload_builds; [apply efuse_payload_bytes|]. apply fw_txd_builds. by right.
  - eapply payload_builds; [done|]. apply fw_txd_builds. by right.
  - eapply payload_builds; [by destruct on|]. apply fw_txd_builds. by right.
  - eapply payload_builds; [apply edca_payload_bytes|]. apply fw_txd_builds. by right.
Qed.

Lemma scatter_rejects p chunk :
  (FW_SCATTER_MAX_PAYLOAD < length chunk)%nat → Rejects (build_command p (FwScatter chunk)) EINVAL.
Proof.
  intros Hc buf. simpl. unfold build_fw_scatter_frame. by rewrite decide_True by lia.
Qed.

(** ** The receiving side

    What the firmware reads in a command frame of header size [hdr]; a frame
    whose length field disagrees with the transfer is dropped. *)

Record FwTxd := {
  txd_cid : Z; txd_ext_cid : Z; txd_set_query : Z; txd_pq_id : Z;
  txd_pkt_id : Z; txd_seq : Z; txd_ack : bool; txd_payload : list Z;
}.

Definition parse_fw_txd (hdr : nat) (l : list Z) : option FwTxd :=
  match l with
  | l0 :: l1 :: q0 :: q1 :: cid :: pkt :: sq :: seq :: _ :: ext :: _ :: ack :: _ =>
      if decide (u16_from_le_bytes l0 l1 = Z.of_nat (length l)) then
        Some {| txd_cid := cid; txd_ext_cid := ext; txd_set_query := sq;
                txd_pq_id := u16_from_le_bytes q0 q1; txd_pkt_id := pkt;
                txd_seq := seq; txd_ack := ack =? 1; txd_payload := drop hdr l |}
      else None
  | _ => None
  end.

Lemma parse_fw_txd_frame cid pq sq ext seq rsp h pl :
  fw_hdr_ok h → is_u16 pq → is_u16 (Z.of_nat (length pl + h)) →
  parse_fw_txd h (fw_txd_frame cid pq sq ext seq rsp h pl) =
  Some {| txd_cid := cid; txd_ext_cid := ext; txd_set_query := sq; txd_pq_id := pq;
          txd_pkt_id := PKT_ID_CMD; txd_seq := seq;
          txd_ack := fw_need_ack cid sq seq rsp; txd_payload := pl |}.
Proof.
  intros Hh Hpq Hlen. pose proof (length_fw_txd_frame cid pq sq ext seq rsp h pl Hh) as Hl.
  assert (Hdrop : drop h (fw_txd_frame cid pq sq ext seq rsp h pl) = pl).
  { unfold fw_txd_frame. rewrite app_assoc.
    replace h with (length (fw_txd_header cid pq sq ext seq rsp (length pl + h) ++
      replicate (h - FW_TXD_HDR_SIZE) 0)) at 1 by (by destruct Hh as [-> | ->]).
    apply drop_app_length. }
  unfold parse_fw_txd. rewrite Hdrop, Hl.
  cbn [fw_txd_frame fw_txd_header u16_to_le_bytes app].
  unfold wrap. rewrite Z.mod_small by done. rewrite !u16_from_to by done.
  rewrite decide_True by done. by destruct (fw_need_ack cid sq seq rsp).
Qed.

Lemma command_payload_max c :
  command_ok c → (length (command_payload c) ≤ FW_SCATTER_MAX_PAYLOAD)%nat.
Proof. intros [_ Hc]. destruct c; simpl in *; done || vm_decide. Qed.

Lemma command_len_u16 c :
  command_ok c → is_u16 (Z.of_nat (length (command_payload c) + command_hdr c)).
Proof.
  intros Hc%command_payload_max. change FW_SCATTER_MAX_PAYLOAD with 4064%nat in Hc.
  assert (command_hdr c ≤ 32)%nat by (destruct c; simpl; lia). uint.
Qed.

(** A frame read back by the firmware. *)
Lemma command_parses c :
  command_ok c →
  let '(cid, ext_cid, set_query, pq_id) := command_ids c in
  parse_fw_txd (command_hdr c) (command_frame c) =
  Some {| txd_cid := cid; txd_ext_cid := ext_cid; txd_set_query := set_query;
          txd_pq_id := pq_id; txd_pkt_id := 0xA0; txd_seq := command_seq c;
          txd_ack := command_acked c; txd_payload := command_payload c |}.
Proof.
  intros Hc. pose proof (command_len_u16 c Hc). pose proof (command_hdr_ok c).
  assert (is_u16 (command_ids c).2) by (destruct c; vm_decide).
  assert (command_acked c = let '(cid, _, sq, _) := command_ids c in
    fw_need_ack cid sq (command_seq c) (command_rsp c)) as Hack.
  { by destruct c; unfold command_acked, fw_need_ack; simpl; rewrite ?andb_true_r. }
  unfold command_frame. destruct (command_ids c) as [[[cid ext] sq] pq].
  rewrite Hack. by apply parse_fw_txd_frame.
Qed.

(** ** Correctness *)

(** C9. Every MCU command builder refines its wire format: on a buffer that
    holds the frame it writes exactly the FW_TXD header (reserved bytes
    cleared whatever the buffer held) and the payload, returns the length and
    leaves the rest; on a shorter buffer it returns -ENOSPC and writes
    nothing.  It never panics, in either build profile.  (The four bytes of
    end padding are added by the sender, mt7603_usb_send_cmd in Cmd.v.) *)
Theorem command_frame_spec p c buf :
  command_ok c →
  build_command p c buf =
  if decide (length (command_frame c) ≤ length buf)%nat
  then Done (Ok (length (command_frame c)),
             command_frame c ++ drop (length (command_frame c)) buf)
  else Done (Err ENOSPC, buf).
Proof.
  intros Hc%(command_builds p). case_decide.
  - by apply builds_fits.
  - apply builds_enospc. lia.
Qed.

Lemma command_frame_spec_witness :
  build_command Release (RadioOnOff true 5) (replicate 37 7) =
  Done (Ok 36%nat, [36; 0; 0; 0x80; 0xED; 0xA0; 1; 5; 0; 5; 0; 1] ++ replicate 20 0 ++
                   [1; 0; 0; 0; 7]).
Proof. apply (command_frame_spec Release (RadioOnOff true 5) (replicate 37 7)). done. Defined.

(** C28. Round trip: the firmware, reading the frame a builder produced, gets
    back the command identifiers, the sequence number and the exact payload,
    with a length field equal to the transfer length and the acknowledge
    option set exactly for extended commands with a non-zero sequence. *)
Theorem command_roundtrip p c buf n buf' :
  command_ok c →
  build_command p c buf = Done (Ok n, buf') →
  let '(cid, ext_cid, set_query, pq_id) := command_ids c in
  parse_fw_txd (command_hdr c) (take n buf') =
  Some {| txd_cid := cid; txd_ext_cid := ext_cid; txd_set_query := set_query;
          txd_pq_id := pq_id; txd_pkt_id := 0xA0; txd_seq := command_seq c;
          txd_ack := command_acked c; txd_payload := command_payload c |}.
Proof.
  intros Hc Hb.
  destruct (builds_ok_inv _ _ (Builds0 := command_builds p c Hc) _ _ _ Hb) as (_ & _ & -> & _).
  by apply command_parses.
Qed.

Lemma command_roundtrip_witness :
  parse_fw_txd 12 (take 16 ([16; 0; 0; 0xC0; 0xEE; 0xA0; 3; 0; 0; 0; 0; 0; 9; 8; 7; 6] ++ [0])) =
  Some {| txd_cid := 0xEE; txd_ext_cid := 0; txd_set_query := 3; txd_pq_id := 0xC000;
          txd_pkt_id := 0xA0; txd_seq := 0; txd_ack := false; txd_payload := [9; 8; 7; 6] |}.
Proof.
  apply (command_roundtrip Debug (FwScatter [9; 8; 7; 6]) (replicate 17 0)); [vm_decide|].
  by vm_compute.
Defined.

(** The acknowledge option byte: a frame asks the firmware for an
    acknowledgement exactly when it is an extended command, a set or a query,
    the caller wants a response and the sequence number is not 0. *)
Theorem fw_txd_need_ack p cid pq sq ext seq rsp h pl buf n buf' :
  fw_hdr_ok h →
  build_fw_txd_frame p cid pq sq ext seq rsp h pl buf = Done (Ok n, buf') →
  buf' !! 11%nat = Some EXT_CID_OPTION_NEED_ACK ↔
  cid = EXT_CID ∧ (sq = CMD_SET ∨ sq = CMD_QUERY) ∧ rsp = true ∧ seq ≠ 0.
Proof.
  intros Hh Hb.
  pose proof (fw_txd_builds p cid pq sq ext seq rsp h pl Hh) as Hbuilds.
  destruct (builds_ok_inv _ _ (Builds0 := Hbuilds) _ _ _ Hb) as (-> & Hn & Ht & _).
  rewrite <-(take_drop (length (fw_txd_frame cid pq sq ext seq rsp h pl)) buf'), Ht.
  cbn -[fw_need_ack drop fw_txd_header]. cbn -[fw_need_ack drop].
  unfold fw_need_ack.
  destruct (Z.eqb_spec cid EXT_CID), (Z.eqb_spec sq CMD_SET), (Z.eqb_spec sq CMD_QUERY),
    rsp, (Z.eqb_spec seq 0); naive_solver.
Qed.

Lemma fw_txd_need_ack_witness :
  ([36; 0; 0; 0x80; 0xED; 0xA0; 1; 5; 0; 5; 0; 1] ++ replicate 20 0 ++ [1; 0; 0; 0; 7]) !! 11%nat
    = Some EXT_CID_OPTION_NEED_ACK ↔
  EXT_CID = EXT_CID ∧ (CMD_SET = CMD_SET ∨ CMD_SET = CMD_QUERY) ∧ true = true ∧ 5 ≠ 0.
Proof.
  apply (fw_txd_need_ack Release EXT_CID P1_Q0 CMD_SET EXT_CMD_RADIO_ON_OFF_CTRL 5 true
    FW_TXD_FULL_SIZE [1; 0; 0; 0] (replicate 37 7) 36); [by right|by vm_compute].
Defined.

(** Transfer bounds and errors, for arbitrary arguments: a builder always
    returns, an accepted command fits the 4096-byte bulk unit with its end
    padding, -EINVAL is returned exactly for a firmware chunk that would not
    fit, and no error path writes the buffer. *)
Theorem command_transfer_bound p c buf :
  command_wf c →
  ∃ r buf', build_command p c buf = Done (r, buf') ∧
    (∀ n, r = Ok n → n + USB_END_PADDING ≤ MT_UPLOAD_FW_UNIT ∧ n ≤ length buf)%nat ∧
    (r = Err EINVAL ↔ ¬ command_fits c) ∧
    (∀ e, r = Err e → buf' = buf).
Proof.
  intros Hwf. destruct (decide (command_fits c)) as [Hfits|Hfits].
  - pose proof (conj Hwf Hfits : command_ok c) as Hc.
    pose proof (command_payload_max c Hc) as Hmax. pose proof (length_command_frame c).
    assert (command_hdr c = 32 ∧ length (command_payload c) ≤ 1000 ∨ command_hdr c = 12)%nat
      by (destruct c; simpl in *; (by right) || (left; split; [done|vm_decide])).
    unfold USB_END_PADDING.
    change FW_SCATTER_MAX_PAYLOAD with 4064%nat in *. change MT_UPLOAD_FW_UNIT with 4096%nat.
    pose proof (command_builds p c Hc) as [Hok Herr].
    destruct (decide (length (command_frame c) ≤ length buf)%nat) as [Hl|Hl].
    + eexists _, _. split; [by apply Hok|]. split_and!; [|by split|done].
      intros n [= <-]. lia.
    + eexists _, _. split; [apply Herr; lia|]. by split_and!.
  - destruct c; simpl in Hfits; try done.
    exists (Err EINVAL), buf. split; [apply scatter_rejects; lia|]. by split_and!.
Qed.

Lemma command_transfer_bound_witness :
  command_wf (FwScatter (replicate 4065 0)) ∧
  ∃ r buf', build_command Debug (FwScatter (replicate 4065 0)) [] = Done (r, buf') ∧
    (∀ n, r = Ok n → n + USB_END_PADDING ≤ MT_UPLOAD_FW_UNIT ∧ n ≤ length (@nil Z))%nat ∧
    (r = Err EINVAL ↔ ¬ command_fits (FwScatter (replicate 4065 0))) ∧
    (∀ e, r = Err e → buf' = []).
Proof. split; [done|]. by apply (command_transfer_bound Debug (FwScatter (replicate 4065 0)) []). Defined.

(** EDCA: the firmware reads, in the entry of the hardware queue an access
    category maps to, that category's AIFSN, window bounds 2^CWmin-1 and
    2^CWmax-1 and TXOP limit; the four categories use the four queues. *)
Theorem edca_set_entries p seq buf n buf' :
  build_edca_set_cmd p seq buf = Done (Ok n, buf') →
  n = 68%nat ∧ buf' !! 32%nat = Some 4 ∧ WMM_ACI_TO_HW_QUEUE ≡ₚ [0; 1; 2; 3]%nat ∧
  ∀ ac q, WMM_ACI_TO_HW_QUEUE !! ac = Some q →
    take 8 (drop (36 + 8 * q) buf') = edca_entry ac.
Proof.
  intros Hb.
  pose proof (command_builds p (EdcaSet seq) (conj I I)) as Hbuilds.
  destruct (builds_ok_inv _ _ (Builds0 := Hbuilds) _ _ _ Hb) as (-> & Hn & Ht & _).
  rewrite <-(take_drop (length (command_frame (EdcaSet seq))) buf'), Ht.
  split_and!; [done..|by vm_compute; solve_Permutation|].
  intros ac q Hq. do 4 (destruct ac as [|ac]; [by injection Hq as <-|]). done.
Qed.

Lemma edca_set_entries_witness :
  let buf' := command_frame (EdcaSet 0) ++ [9] in
  68%nat = 68%nat ∧ buf' !! 32%nat = Some 4 ∧ WMM_ACI_TO_HW_QUEUE ≡ₚ [0; 1; 2; 3]%nat ∧
  ∀ ac q, WMM_ACI_TO_HW_QUEUE !! ac = Some q →
    take 8 (drop (36 + 8 * q) buf') = edca_entry ac.
Proof. apply (edca_set_entries Release 0 (replicate 69 9)). by vm_compute. Defined.

(** ** Firmware image *)

Definition fw_tail_word (fw_buf : list Z) : Z :=
  match drop (length fw_buf - 4) fw_buf with
  | [t0; t1; t2; t3] => u32_from_le_bytes t0 t1 t2 t3
  | _ => 0
  end.

Lemma fw_tail_segment (fw_buf : list Z) :
  (4 ≤ length fw_buf)%nat →
  ∃ t0 t1 t2 t3, drop (length fw_buf - 4) fw_buf = [t0; t1; t2; t3].
Proof.
  intros. assert (length (drop (length fw_buf - 4) fw_buf) = 4%nat) by list_len.
  destruct (drop _ _) as [|t0 [|t1 [|t2 [|t3 [|]]]]]; simpl in *; try lia. eauto.
Qed.

Lemma fw_dl_len_decides p fw_buf :
  fw_dl_len p fw_buf =
  if decide (length fw_buf < 4)%nat then Done None
  else if decide (fw_tail_word fw_buf + 4 < 2 ^ 32) then Done (Some (fw_tail_word fw_buf + 4))
  else match p with
       | Debug => Panic
       | Release => Done (Some ((fw_tail_word fw_buf + 4) mod 2 ^ 32))
       end.
Proof.
  unfold fw_dl_len. case_decide; [done|].
  destruct (fw_tail_segment fw_buf) as (t0 & t1 & t2 & t3 & E); [lia|].
  unfold fw_tail_word. rewrite E. cbn [index lookup list_lookup mbind outcome_bind].
  unfold add_u32. case_decide as Hn; destruct (Z.ltb_spec (u32_from_le_bytes t0 t1 t2 t3 + 4) (2 ^ 32));
    first [lia | by destruct p].
Qed.

(** A release build always answers. *)
Lemma fw_dl_len_release fw_buf :
  Forall is_u8 fw_buf →
  ∃ r, fw_dl_len Release fw_buf = Done r ∧ ∀ n, r = Some n → is_u32 n.
Proof.
  intros HF. rewrite fw_dl_len_decides. case_decide as Hl; [by eexists|].
  assert (is_u32 (fw_tail_word fw_buf)) as Hw.
  { destruct (fw_tail_segment fw_buf) as (t0 & t1 & t2 & t3 & E); [lia|].
    unfold fw_tail_word. rewrite E. apply (Forall_drop _ (length fw_buf - 4)) in HF.
    rewrite E in HF. decompose_Forall_hyps. by apply u32_from_u32. }
  case_decide; (eexists; split; [done|]); intros n [= <-]; revert Hw; unfold is_uint; pow2.
  - lia.
  - intros _. apply Z.mod_pos_bound. lia.
Qed.

(** The download length is the little-endian word that ends the image,
    plus 4; an image shorter than the word has none.  The addition is not
    checked: a tail word of 2^32-4 or more panics in a debug build and wraps
    to a length below 4 in the module's release build. *)
Theorem fw_dl_len_spec p fw_buf :
  fw_dl_len p fw_buf =
  if decide (length fw_buf < 4)%nat then Done None
  else if decide (fw_tail_word fw_buf + 4 < 2 ^ 32) then Done (Some (fw_tail_word fw_buf + 4))
  else match p with
       | Debug => Panic
       | Release => Done (Some ((fw_tail_word fw_buf + 4) mod 2 ^ 32))
       end.
Proof. apply fw_dl_len_decides. Qed.

Definition fw_magic : list Z := [0x46; 0x00; 0x01; 0x00].

Lemma verify_firmware_decides fw_buf :
  verify_firmware fw_buf =
  Done (if decide (1024 ≤ length fw_buf ∧ take 4 fw_buf = fw_magic)%nat then Ok tt else Err EINVAL).
Proof.
  unfold verify_firmware. case_decide; [rewrite decide_False by lia; done|].
  destruct fw_buf as [|b0 [|b1 [|b2 [|b3 fw_buf]]]]; [simpl in *; lia..|].
  cbn [index lookup list_lookup mbind outcome_bind take firstn].
  unfold fw_magic.
  destruct (Z.eqb_spec b0 0x46), (Z.eqb_spec b1 0), (Z.eqb_spec b2 1), (Z.eqb_spec b3 0);
    case_decide; simpl in *; naive_solver lia.
Qed.

Lemma verify_firmware_total fw_buf :
  verify_firmware fw_buf = Done (Ok tt) ∨ verify_firmware fw_buf = Done (Err EINVAL).
Proof. rewrite verify_firmware_decides. case_decide; auto. Qed.

(** Image verification never reads out of bounds, always answers, and
    accepts exactly the images of at least 1024 bytes that start with the
    magic number; everything else is -EINVAL. *)
Theorem verify_firmware_spec fw_buf :
  verify_firmware fw_buf =
  Done (if decide (1024 ≤ length fw_buf ∧ take 4 fw_buf = fw_magic)%nat then Ok tt else Err EINVAL).
Proof. apply verify_firmware_decides. Qed.
