(* ===== verification/Eeprom.v ===== *)
(** * EEPROM image parsing (src/rust/src/eeprom.rs)

    [parse_eeprom] extracts the station address, the per-channel TX power and
    the RSSI calibration offset from a raw EEPROM image.  The functional
    description [eeprom_data] is what it promises for every image. *)

From S2P Require Import Prelude Rust Ffi.
Local Open Scope Z_scope.

(** Assignment to the fields of [data : EepromData]. *)
Definition set_mac_addr (d : EepromData) (m : list Z) : EepromData :=
  {| mac_addr := m; tx_power_2g := tx_power_2g d; nic_config := nic_config d;
     country_code := country_code d; eeprom_version := eeprom_version d;
     rssi_offset_2g := rssi_offset_2g d; is_valid := is_valid d |}.
Definition set_tx_power_2g (d : EepromData) (t : list Z) : EepromData :=
  {| mac_addr := mac_addr d; tx_power_2g := t; nic_config := nic_config d;
     country_code := country_code d; eeprom_version := eeprom_version d;
     rssi_offset_2g := rssi_offset_2g d; is_valid := is_valid d |}.
Definition set_rssi_offset_2g (d : EepromData) (r : Z) : EepromData :=
  {| mac_addr := mac_addr d; tx_power_2g := tx_power_2g d; nic_config := nic_config d;
     country_code := country_code d; eeprom_version := eeprom_version d;
     rssi_offset_2g := r; is_valid := is_valid d |}.
Definition set_is_valid (d : EepromData) (v : Z) : EepromData :=
  {| mac_addr := mac_addr d; tx_power_2g := tx_power_2g d; nic_config := nic_config d;
     country_code := country_code d; eeprom_version := eeprom_version d;
     rssi_offset_2g := rssi_offset_2g d; is_valid := v |}.

Definition parse_eeprom (buf : list Z) : outcome (result EepromData) :=
  if decide (length buf < 256)%nat then Done (Err EINVAL) else
  let data := EepromData_default in
  let mac_offset := 0x04%nat in
  mac_bytes ← subslice buf mac_offset (mac_offset + 6);
  let is_all_zero := forallb (λ b, b =? 0x00) mac_bytes in
  let is_all_ff := forallb (λ b, b =? 0xFF) mac_bytes in
  data ← (if is_all_zero || is_all_ff
          then mret (set_mac_addr data [0x00; 0x0C; 0x43; 0x76; 0x03; 0x01])
          else m ← copy_from_slice (mac_addr data) mac_bytes; mret (set_mac_addr data m));
  data ← (if decide (0x50 + 14 ≤ length buf)%nat then
            s ← subslice buf 0x50 (0x50 + 14);
            t ← copy_from_slice (tx_power_2g data) s;
            mret (set_tx_power_2g data t)
          else mret data);
  data ← (if decide (0x47 ≤ length buf)%nat then
            b ← index buf 0x46;
            let offset := as_i8 b in
            mret (set_rssi_offset_2g data
                    (if (-10 <=? offset) && (offset <=? 10) then offset else 0))
          else mret data);
  mret (Ok (set_is_valid data 1)).

(** ** The promise *)

Definition fallback_mac : list Z := [0x00; 0x0C; 0x43; 0x76; 0x03; 0x01].
(** An address field that was never programmed. *)
Definition blank_mac (m : list Z) : Prop := Forall (λ b, b = 0) m ∨ Forall (λ b, b = 0xFF) m.
#[export] Instance blank_mac_dec m : Decision (blank_mac m).
Proof. unfold blank_mac. apply _. Defined.

Definition eeprom_data (buf : list Z) : EepromData :=
  let mac := take 6 (drop 0x04 buf) in
  let offset := as_i8 (nth 0x46 buf 0) in
  {| mac_addr := if decide (blank_mac mac) then fallback_mac else mac;
     tx_power_2g := take 14 (drop 0x50 buf);
     nic_config := 0; country_code := [0x55; 0x53]; eeprom_version := 0x7603;
     rssi_offset_2g := if decide (-10 ≤ offset ≤ 10) then offset else 0;
     is_valid := 1 |}.

Lemma forallb_eqb_Forall (x : Z) l :
  forallb (λ b, b =? x) l = bool_decide (Forall (λ b, b = x) l).
Proof.
  induction l as [|y l IH]; simpl; [done|]. rewrite IH.
  destruct (Z.eqb_spec y x); repeat case_bool_decide; simpl;
    rewrite ?Forall_cons in *; naive_solver.
Qed.

Lemma blank_mac_test m :
  forallb (λ b, b =? 0x00) m || forallb (λ b, b =? 0xFF) m = bool_decide (blank_mac m).
Proof.
  rewrite !forallb_eqb_Forall. unfold blank_mac.
  repeat case_bool_decide; naive_solver.
Qed.

Lemma bool_decide_if {A} (P : Prop) `{Decision P} (x y : A) :
  (if bool_decide P then x else y) = if decide P then x else y.
Proof. by destruct (decide P); [rewrite bool_decide_true|rewrite bool_decide_false]. Qed.

Lemma parse_eeprom_long buf :
  (256 ≤ length buf)%nat → parse_eeprom buf = Done (Ok (eeprom_data buf)).
Proof.
  intros Hl. unfold parse_eeprom. rewrite decide_False by lia. cbv zeta.
  rewrite (subslice_done buf 4 (4 + 6)) by lia. cbn [mbind outcome_bind].
  rewrite blank_mac_test, bool_decide_if.
  rewrite (subslice_done buf 0x50), (index_nth buf 0x46 0) by lia.
  change (4 + 6 - 4)%nat with 6%nat. change (0x50 + 14 - 0x50)%nat with 14%nat.
  assert (length (take 14 (drop 0x50 buf)) = 14%nat) by list_len.
  assert (length (take 6 (drop 4 buf)) = 6%nat) by list_len.
  rewrite (copy_from_slice_done (mac_addr _)) by done. unfold eeprom_data. cbv zeta.
  destruct (decide (blank_mac _)); cbn [mbind outcome_bind mret outcome_ret];
    rewrite (decide_True (P := (0x50 + 14 ≤ length buf)%nat)) by lia; rewrite copy_from_slice_done by done;
    cbn [mbind outcome_bind mret outcome_ret]; rewrite (decide_True (P := (0x47 ≤ length buf)%nat)) by lia; cbn [mbind outcome_bind];
    destruct (Z.leb_spec (-10) (as_i8 (nth 70 buf 0))), (Z.leb_spec (as_i8 (nth 70 buf 0)) 10);
    case_decide; done || lia.
Qed.

(** Parsing an EEPROM image never reads out of bounds: an image shorter
    than 256 bytes is -EINVAL, any other yields the address at 0x04 (or the
    fallback address when it is unprogrammed), the fourteen TX powers at 0x50
    and the calibration offset at 0x46, a value outside -10..10 read as 0. *)
Theorem parse_eeprom_spec buf :
  parse_eeprom buf =
  Done (if decide (length buf < 256)%nat then Err EINVAL else Ok (eeprom_data buf)).
Proof.
  case_decide; [unfold parse_eeprom; by rewrite decide_True|].
  apply parse_eeprom_long. lia.
Qed.

(** The parsed image is usable whatever the flash held: the station address is
    six bytes and is neither all-zero nor all-ones, and the RSSI offset is at
    most 10 dB in magnitude. *)
Lemma eeprom_data_usable buf :
  (256 ≤ length buf)%nat →
  let d := eeprom_data buf in
  length (mac_addr d) = 6%nat ∧ ¬ blank_mac (mac_addr d) ∧
  -10 ≤ rssi_offset_2g d ≤ 10 ∧ is_valid d = 1.
Proof.
  intros Hl. unfold eeprom_data; cbn [mac_addr rssi_offset_2g is_valid].
  split; [|split; [|split]]; repeat case_decide; try done; try list_len; vm_decide.
Qed.
