(* ===== verification/Rx.v ===== *)
(** * Receive descriptor parsing (src/rust/src/rx.rs)

    A received frame is a 16-byte RMAC descriptor, up to four optional status
    groups in the order 4, 1, 2, 3, two bytes of alignment padding, and the
    802.11 frame.  [parse_rx_frame] finds the frame in the buffer and decodes
    what mac80211 needs of the descriptor. *)

From S2P Require Import Prelude Rust Ffi.
Local Open Scope Z_scope.

Definition RMAC_RXD_MIN_SIZE : nat := 16.

(** [(x & m) != 0] *)
Definition flag (x m : Z) : bool := negb (Z.land x m =? 0).

(** Offset of group 3 (the RX vector) *)
Definition grp3_offset (grp_vld : Z) : nat :=
  let off := RMAC_RXD_MIN_SIZE in
  let off := if flag grp_vld 0x08 then (off + 16)%nat else off in
  let off := if flag grp_vld 0x01 then (off + 16)%nat else off in
  if flag grp_vld 0x02 then (off + 8)%nat else off.

(** Length of the descriptor with its groups and padding *)
Definition rmac_info_length (grp_vld hdr_offset : Z) : nat :=
  let len := RMAC_RXD_MIN_SIZE in
  let len := if flag grp_vld 0x08 then (len + 16)%nat else len in
  let len := if flag grp_vld 0x01 then (len + 16)%nat else len in
  let len := if flag grp_vld 0x02 then (len + 8)%nat else len in
  let len := if flag grp_vld 0x04 then (len + 24)%nat else len in
  if hdr_offset =? 1 then (len + 2)%nat else len.

Definition ofdm_idx (tx_rate : Z) : Z :=
  match Z.land tx_rate 0x0f with
  | 11 => 4 | 15 => 5 | 10 => 6 | 14 => 7 | 9 => 8 | 13 => 9 | 8 => 10 | 12 => 11
  | _ => 4
  end.

(** The rate byte of [RxInfo]: bit 7 HT, bit 6 40 MHz, bit 5 short GI, and an
    MCS or legacy rate index. *)
Definition rate_encode (tx_rate tx_mode fr_mode short_gi : Z) : Z :=
  let rate_enc := 0 in
  let rate_enc := if fr_mode =? 1 then Z.lor rate_enc 0x40 else rate_enc in
  let rate_enc := if negb (short_gi =? 0) then Z.lor rate_enc 0x20 else rate_enc in
  if 2 <=? tx_mode then Z.lor rate_enc (Z.lor 0x80 (Z.land tx_rate 0x0f))
  else if tx_mode =? 1 then Z.lor rate_enc (ofdm_idx tx_rate)
  else Z.lor rate_enc (Z.land tx_rate 0x03).

(** RSSI and rate from group 3 *)
Definition rx_vector (buf : list Z) (grp3_off : nat) (rssi_offset : Z) : outcome (Z * Z) :=
  b ← index buf (grp3_off + 12);
  let ibrssi0 := as_i8 b in
  let rssi := if negb (ibrssi0 =? 0) then saturating_add_i8 ibrssi0 rssi_offset else 0 in
  v0 ← index buf grp3_off; v1 ← index buf (grp3_off + 1);
  v2 ← index buf (grp3_off + 2); v3 ← index buf (grp3_off + 3);
  let rxv1_dw0 := u32_from_le_bytes v0 v1 v2 v3 in
  let tx_rate := as_u8 (Z.land rxv1_dw0 0x7f) in
  let tx_mode := as_u8 (Z.land (rxv1_dw0 ≫ 12) 0x07) in
  let fr_mode := as_u8 (Z.land (rxv1_dw0 ≫ 15) 0x03) in
  let short_gi := as_u8 (Z.land (rxv1_dw0 ≫ 19) 0x01) in
  mret (rssi, rate_encode tx_rate tx_mode fr_mode short_gi).

(** [(is_beacon, is_data)] from the frame control byte and the beacon bits *)
Definition classify (frame_ctrl beacon_mc beacon_uc : Z) : Z * Z :=
  let frame_type := Z.land (frame_ctrl ≫ 2) 0x03 in
  let frame_subtype := Z.land (frame_ctrl ≫ 4) 0x0F in
  if ((frame_type =? 0) && (frame_subtype =? 8)) || negb (beacon_mc =? 0) || negb (beacon_uc =? 0)
  then (1, 0)
  else if frame_type =? 2 then (0, 1) else (0, 0).

(** [total_len.saturating_sub(rmac_info_len)] is subtraction on [nat]. *)
Definition parse_rx_frame (buf : list Z) (rssi_offset : Z) : outcome (result RxInfo) :=
  if decide (length buf < RMAC_RXD_MIN_SIZE)%nat then Done (Err EINVAL) else
  b0 ← index buf 0; b1 ← index buf 1;
  let rx_byte_cnt := u16_from_le_bytes b0 b1 in
  b3 ← index buf 3;
  let grp_vld := Z.land (b3 ≫ 1) 0x0F in
  let pkt_type := Z.land (b3 ≫ 5) 0x07 in
  if negb (pkt_type =? 0x02) && negb (pkt_type =? 0x03) then mret (Ok RxInfo_default) else
  b6 ← index buf 6;
  let hdr_offset := Z.land (b6 ≫ 6) 0x01 in
  let rmac_info_len := rmac_info_length grp_vld hdr_offset in
  b10 ← index buf 10;
  let fcs_err := Z.land (b10 ≫ 1) 0x01 in
  if decide (length buf < rmac_info_len)%nat then mret (Err EINVAL) else
  v ← (if flag grp_vld 0x04 then rx_vector buf (grp3_offset grp_vld) rssi_offset
       else mret (0, 0));
  let cnt := Z.to_nat rx_byte_cnt in
  let total_len := if decide (cnt ≤ length buf ∧ 0 < cnt)%nat then cnt else length buf in
  let mpdu_len := (total_len - rmac_info_len)%nat in
  b5 ← index buf 5;
  b4 ← index buf 4;
  let beacon_mc := Z.land (b4 ≫ 4) 0x01 in
  let beacon_uc := Z.land (b4 ≫ 5) 0x01 in
  c ← (if decide (2 ≤ mpdu_len)%nat then
         frame_ctrl ← index buf rmac_info_len;
         mret (classify frame_ctrl beacon_mc beacon_uc)
       else mret (0, 0));
  mret (Ok {|
    pkt_len := as_u16 (Z.of_nat mpdu_len);
    hdr_len := as_u16 (Z.of_nat rmac_info_len);
    rssi := v.1; channel := b5; rate := v.2;
    is_beacon := c.1; is_data := c.2; is_crc_error := fcs_err;
  |}).

(** ** Bits and ranges *)

Lemma flag_testbit x k : 0 ≤ k → flag x (2 ^ k) = Z.testbit x k.
Proof.
  intros Hk. unfold flag. destruct (Z.testbit x k) eqn:E.
  - apply negb_true_iff, Z.eqb_neq. intros H.
    assert (Z.testbit (Z.land x (2 ^ k)) k = true) as Ht
      by by rewrite Z.land_spec, E, Z.pow2_bits_true.
    by rewrite H, Z.bits_0 in Ht.
  - apply negb_false_iff, Z.eqb_eq, Z.bits_inj'. intros i Hi.
    rewrite Z.land_spec, Z.bits_0, Z.pow2_bits_eqb by done.
    destruct (Z.eqb_spec k i) as [->|]; [by rewrite E|apply andb_false_r].
Qed.

(** The group flags are bits 1 to 4 of byte 3. *)
Lemma grp_flag b k : 0 ≤ k < 4 → flag (bits 1 4 b) (2 ^ k) = Z.testbit b (k + 1).
Proof.
  intros. rewrite flag_testbit, testbit_bits by lia.
  by rewrite (proj2 (Z.ltb_lt k 4)) by lia.
Qed.

Lemma grp_flags b :
  flag (bits 1 4 b) 0x01 = Z.testbit b 1 ∧ flag (bits 1 4 b) 0x02 = Z.testbit b 2 ∧
  flag (bits 1 4 b) 0x04 = Z.testbit b 3 ∧ flag (bits 1 4 b) 0x08 = Z.testbit b 4.
Proof.
  split_and!; [apply (grp_flag b 0)|apply (grp_flag b 1)|apply (grp_flag b 2)|
    apply (grp_flag b 3)]; lia.
Qed.

Definition group_len (present : bool) (n : nat) : nat := if present then n else 0.

Lemma grp3_offset_sum b :
  grp3_offset (bits 1 4 b) =
  (16 + group_len (Z.testbit b 4) 16 + group_len (Z.testbit b 1) 16 +
   group_len (Z.testbit b 2) 8)%nat.
Proof.
  unfold grp3_offset, RMAC_RXD_MIN_SIZE.
  destruct (grp_flags b) as (-> & -> & _ & ->).
  by destruct (Z.testbit b 4), (Z.testbit b 1), (Z.testbit b 2).
Qed.

Lemma rmac_info_length_sum b b6 :
  rmac_info_length (bits 1 4 b) (bits 6 1 b6) =
  (grp3_offset (bits 1 4 b) + group_len (Z.testbit b 3) 24 + group_len (Z.testbit b6 6) 2)%nat.
Proof.
  pose proof (testbit_field b6 6 ltac:(lia)) as E.
  rewrite grp3_offset_sum. unfold rmac_info_length, RMAC_RXD_MIN_SIZE. rewrite <-E.
  destruct (grp_flags b) as (-> & -> & -> & ->).
  by destruct (Z.testbit b 4), (Z.testbit b 1), (Z.testbit b 2), (Z.testbit b 3), (Z.testbit b6 6).
Qed.

(** Group 3 as the driver reads it. *)
Definition vector_rssi (rssi_offset : Z) (g3 : list Z) : Z :=
  match g3 !! 12%nat with
  | Some b => if b =? 0 then 0 else saturating_add_i8 (as_i8 b) rssi_offset
  | None => 0
  end.
Definition vector_rate (g3 : list Z) : Z :=
  match g3 with
  | v0 :: v1 :: v2 :: v3 :: _ =>
      let dw := u32_from_le_bytes v0 v1 v2 v3 in
      rate_encode (bits 0 7 dw) (bits 12 3 dw) (bits 15 2 dw) (bits 19 1 dw)
  | _ => 0
  end.

Lemma wrap_field lo w x k : 0 ≤ w ≤ k → wrap k (bits lo w x) = bits lo w x.
Proof.
  intros. unfold wrap. apply Z.mod_small. apply (is_uint_mono w k); [|apply bits_uint]; lia.
Qed.

Lemma as_i8_eqb_0 b : is_u8 b → (as_i8 b =? 0) = (b =? 0).
Proof.
  unfold as_i8, is_uint. change (2 ^ 8) with 256. intros.
  destruct (Z.ltb_spec b 128); [done|].
  rewrite (proj2 (Z.eqb_neq b 0)) by lia. apply Z.eqb_neq. lia.
Qed.

Lemma rx_vector_group pre g3 post rssi_offset :
  length g3 = 24%nat → Forall is_u8 g3 →
  rx_vector (pre ++ g3 ++ post) (length pre) rssi_offset =
  Done (vector_rssi rssi_offset g3, vector_rate g3).
Proof.
  intros Hl HF.
  assert (Hi : ∀ i, (i < 24)%nat →
    index (pre ++ g3 ++ post) (length pre + i) = Done (nth i g3 0)).
  { intros i Hi. rewrite (index_nth _ _ 0) by list_len.
    rewrite app_nth2_plus. by rewrite app_nth1 by lia. }
  unfold rx_vector. rewrite (Hi 12%nat), (Hi 1%nat), (Hi 2%nat), (Hi 3%nat) by lia.
  specialize (Hi 0%nat ltac:(lia)). rewrite Nat.add_0_r in Hi. rewrite Hi.
  do 13 (destruct g3 as [|? g3]; [simpl in Hl; lia|]).
  cbn [mbind outcome_bind nth]. unfold vector_rssi, vector_rate.
  cbn [lookup list_lookup]. rewrite !Forall_cons in HF.
  rewrite as_i8_eqb_0 by tauto. unfold mret, outcome_ret. do 2 f_equal; [by destruct (_ =? 0)|].
  rewrite <-(wrap_field 0 7 _ 8), <-(wrap_field 12 3 _ 8), <-(wrap_field 15 2 _ 8),
    <-(wrap_field 19 1 _ 8) by lia.
  unfold bits. by rewrite Z.shiftr_0_r.
Qed.

(** Class of a frame: management beacon (or announced as one), data, other. *)
Definition frame_class (b4 : Z) (mpdu : list Z) : Z * Z :=
  match mpdu with
  | fc :: _ :: _ =>
      if ((bits 2 2 fc =? 0) && (bits 4 4 fc =? 8)) || Z.testbit b4 4 || Z.testbit b4 5 then (1, 0)
      else if bits 2 2 fc =? 2 then (0, 1) else (0, 0)
  | _ => (0, 0)
  end.

(** ** The rate byte *)

(** A rate index the C side can use: an MCS below 16 or an index into the
    twelve legacy rates of mac80211.c. *)
Definition rate_ok (r : Z) : Prop :=
  is_u8 r ∧ bits 0 5 r < if Z.testbit r 7 then 16 else 12.
#[export] Instance rate_ok_dec r : Decision (rate_ok r).
Proof. unfold rate_ok. apply _. Defined.

Lemma rate_encode_masks tx_rate tx_mode fr_mode short_gi :
  rate_encode tx_rate tx_mode fr_mode short_gi =
  rate_encode (Z.land tx_rate 0x0f) tx_mode fr_mode short_gi.
Proof.
  unfold rate_encode, ofdm_idx.
  rewrite <-!(Z.land_assoc tx_rate).
  change (Z.land 15 15) with 15. change (Z.land 15 3) with 3. done.
Qed.

(** The width and guard interval bits sit above the rate. *)
Lemma rate_encode_flags tx_rate tx_mode fr_mode short_gi :
  rate_encode tx_rate tx_mode fr_mode short_gi =
  Z.lor (Z.lor (if fr_mode =? 1 then 0x40 else 0) (if short_gi =? 0 then 0 else 0x20))
    (rate_encode tx_rate tx_mode 0 0).
Proof.
  unfold rate_encode. destruct (fr_mode =? 1), (short_gi =? 0); simpl negb; cbv iota;
    destruct (2 <=? tx_mode), (tx_mode =? 1); rewrite ?Z.lor_0_l, ?Z.lor_0_r; done.
Qed.

Lemma rate_encode_ok tx_rate tx_mode fr_mode short_gi :
  rate_ok (rate_encode tx_rate tx_mode fr_mode short_gi).
Proof.
  rewrite rate_encode_masks. pose proof (land_bound tx_rate 0x0f ltac:(lia)) as Hr.
  revert Hr. generalize (Z.land tx_rate 0x0f). intros r Hr. unfold rate_encode.
  destruct (fr_mode =? 1), (short_gi =? 0), (2 <=? tx_mode), (tx_mode =? 1);
    (eapply (range_forall (λ r, rate_ok _) 0 16 r); [by vm_compute|lia]).
Qed.

Lemma rx_vector_done buf off rssi_offset :
  (off + 24 ≤ length buf)%nat →
  ∃ r q, rx_vector buf off rssi_offset = Done (r, q) ∧ rate_ok q ∧
    (is_i8 rssi_offset → Forall is_u8 buf → is_i8 r).
Proof.
  intros Hl. unfold rx_vector.
  rewrite (index_nth buf (off + 12) 0), (index_nth buf off 0), (index_nth buf (off + 1) 0),
    (index_nth buf (off + 2) 0), (index_nth buf (off + 3) 0) by lia.
  cbn [mbind outcome_bind]. eexists _, _. split; [done|]. split; [apply rate_encode_ok|].
  intros. unfold saturating_add_i8, is_i8. destruct (negb _); lia.
Qed.

(** ** Correctness *)

Lemma classify_excl fc mc uc :
  let c := classify fc mc uc in c = (0, 0) ∨ c = (0, 1) ∨ c = (1, 0).
Proof. unfold classify. destruct (_ || _); [auto|]. destruct (_ =? 2); auto. Qed.

(** What [RxInfo] may hold: the C side reads [pkt_len] bytes of the transfer
    buffer at [hdr_len] and indexes its rate table. *)
Definition rx_info_ok (len : nat) (info : RxInfo) : Prop :=
  0 ≤ pkt_len info ∧ 0 ≤ hdr_len info ≤ 82 ∧ hdr_len info + pkt_len info ≤ Z.of_nat len ∧
  is_u16 (pkt_len info) ∧ is_i8 (rssi info) ∧ rate_ok (rate info) ∧
  0 ≤ is_crc_error info ≤ 1 ∧
  (is_beacon info, is_data info) ∈ [(0, 0); (0, 1); (1, 0)].
#[export] Instance rx_info_ok_dec len info : Decision (rx_info_ok len info).
Proof. unfold rx_info_ok. apply _. Defined.

Lemma rmac_info_length_bound b b6 :
  (grp3_offset (bits 1 4 b) ≤ rmac_info_length (bits 1 4 b) (bits 6 1 b6) ≤ 82)%nat ∧
  (Z.testbit b 3 = true →
   grp3_offset (bits 1 4 b) + 24 ≤ rmac_info_length (bits 1 4 b) (bits 6 1 b6))%nat.
Proof.
  rewrite rmac_info_length_sum, grp3_offset_sum. unfold group_len.
  destruct (Z.testbit b 4), (Z.testbit b 1), (Z.testbit b 2), (Z.testbit b 3), (Z.testbit b6 6);
    split; lia || done.
Qed.

Lemma as_u16_le n : 0 ≤ as_u16 (Z.of_nat n) ≤ Z.of_nat n ∧ is_u16 (as_u16 (Z.of_nat n)).
Proof.
  pose proof (is_uint_wrap 16 (Z.of_nat n) ltac:(lia)) as Hu. split; [|done].
  unfold wrap, is_uint in *. pose proof (Z.mod_le (Z.of_nat n) (2 ^ 16)). lia.
Qed.

(** The two optional reads of the parser, below the length it has checked. *)
Lemma rx_group3_done buf b b6 rssi_offset :
  Forall is_u8 buf → is_i8 rssi_offset →
  (rmac_info_length (bits 1 4 b) (bits 6 1 b6) ≤ length buf)%nat →
  ∃ v, (if flag (bits 1 4 b) 0x04
        then rx_vector buf (grp3_offset (bits 1 4 b)) rssi_offset else mret (0, 0)) = Done v ∧
    is_i8 v.1 ∧ rate_ok v.2.
Proof.
  intros HF Ho Hlen. destruct (rmac_info_length_bound b b6) as [_ Hg].
  destruct (grp_flags b) as (_ & _ & -> & _). destruct (Z.testbit b 3).
  - destruct (rx_vector_done buf (grp3_offset (bits 1 4 b)) rssi_offset)
      as (r & q & -> & ? & ?); [naive_solver lia|]. eauto.
  - eexists; split; [done|]. split; vm_decide.
Qed.

Lemma rx_class_done buf hl total mc uc :
  (total ≤ length buf)%nat →
  ∃ c, (if decide (2 ≤ total - hl)%nat
        then frame_ctrl ← index buf hl; mret (classify frame_ctrl mc uc)
        else mret (0, 0)) = Done c ∧ (c = (0, 0) ∨ c = (0, 1) ∨ c = (1, 0)).
Proof.
  intros. case_decide; [|eauto]. rewrite (index_nth buf hl 0) by lia.
  eexists; split; [done|]. apply classify_excl.
Qed.

(** A non-empty frame ends where the descriptor's byte count says. *)
Definition rx_info_ends (buf : list Z) (info : RxInfo) : Prop :=
  let cnt := u16_from_le_bytes (nth 0 buf 0) (nth 1 buf 0) in
  0 < cnt ≤ Z.of_nat (length buf) → 0 < pkt_len info → hdr_len info + pkt_len info = cnt.

Lemma u16_from_u16 b0 b1 : is_u8 b0 → is_u8 b1 → is_u16 (u16_from_le_bytes b0 b1).
Proof.
  intros. unfold u16_from_le_bytes. apply is_uint_lor; [by apply (is_uint_mono 8)|].
  unfold is_uint in *. rewrite Z.shiftl_mul_pow2 by lia. pow2. lia.
Qed.

Lemma as_u16_small n : Z.of_nat n < 2 ^ 16 → as_u16 (Z.of_nat n) = Z.of_nat n.
Proof. intros. apply Z.mod_small. lia. Qed.

Lemma parse_rx_frame_total buf rssi_offset :
  Forall is_u8 buf → is_i8 rssi_offset →
  ∃ r, parse_rx_frame buf rssi_offset = Done r ∧
    (∀ e, r = Err e → e = EINVAL) ∧
    ∀ info, r = Ok info → rx_info_ok (length buf) info ∧ rx_info_ends buf info.
Proof.
  intros HF Ho. unfold parse_rx_frame, RMAC_RXD_MIN_SIZE.
  case_decide as Hl; [eexists; split; [done|naive_solver]|].
  rewrite (index_nth buf 0 0), (index_nth buf 1 0), (index_nth buf 3 0), (index_nth buf 6 0),
    (index_nth buf 10 0), (index_nth buf 5 0), (index_nth buf 4 0) by lia.
  cbn [mbind outcome_bind]. cbv zeta.
  destruct (negb _ && negb _).
  { eexists; split; [done|]. split; [done|]. intros ? [= <-].
    split; [split_and!; simpl; try lia; vm_decide|unfold rx_info_ends; simpl; lia]. }
  change (Z.land (nth 3 buf 0 ≫ 1) 15) with (bits 1 4 (nth 3 buf 0)).
  change (Z.land (nth 6 buf 0 ≫ 6) 1) with (bits 6 1 (nth 6 buf 0)).
  change (Z.land (nth 10 buf 0 ≫ 1) 1) with (bits 1 1 (nth 10 buf 0)).
  case_decide as Hlen; [eexists; split; [done|naive_solver]|].
  destruct (rx_group3_done buf (nth 3 buf 0) (nth 6 buf 0) rssi_offset HF Ho ltac:(lia))
    as ([r q] & -> & Hr & Hq). cbn [mbind outcome_bind].
  destruct (rmac_info_length_bound (nth 3 buf 0) (nth 6 buf 0)) as [Hb _].
  set (hl := rmac_info_length _ _) in *.
  match goal with |- context [(?t - hl)%nat] => set (total := t) end.
  assert (total ≤ length buf)%nat by (unfold total; case_decide; lia).
  destruct (rx_class_done buf hl total (Z.land (nth 4 buf 0 ≫ 4) 1) (Z.land (nth 4 buf 0 ≫ 5) 1))
    as (c & -> & Hc); [done|].
  eexists; split; [done|]. split; [done|]. intros ? [= <-].
  destruct (as_u16_le hl) as [? _], (as_u16_le (total - hl)) as [? ?].
  pose proof (bits_uint 1 1 (nth 10 buf 0) ltac:(lia)) as Hcrc. unfold is_uint in Hcrc.
  change (2 ^ 1) with 2 in Hcrc.
  split.
  - destruct Hq. split_and!; simpl; try done; try lia. set_solver.
  - assert (∀ i, (i < length buf)%nat → is_u8 (nth i buf 0)) as Hb8.
    { intros i Hi. rewrite Forall_nth in HF. by apply HF. }
    pose proof (u16_from_u16 _ _ (Hb8 0%nat ltac:(lia)) (Hb8 1%nat ltac:(lia))) as Hu.
    unfold rx_info_ends, is_uint in *. simpl. intros Hcnt. unfold total.
    rewrite decide_True by lia. intros Hpos. rewrite !as_u16_small in * by lia. lia.
Qed.

(** C19. Memory safety of reception: on any buffer of bytes the parser returns
    (no index is out of bounds), its only error is -EINVAL, and the frame it
    reports lies inside the buffer: [hdr_len + pkt_len <= buf.len()], with a
    usable rate index and at most one frame class. *)
Theorem parse_rx_frame_safe buf rssi_offset :
  Forall is_u8 buf → is_i8 rssi_offset →
  ∃ r, parse_rx_frame buf rssi_offset = Done r ∧
    (∀ e, r = Err e → e = EINVAL) ∧
    ∀ info, r = Ok info → rx_info_ok (length buf) info.
Proof.
  intros HF Ho. destruct (parse_rx_frame_total buf rssi_offset HF Ho) as (r & ? & ? & Hinfo).
  exists r. split_and!; [done..|]. intros info Hr. by destruct (Hinfo info Hr).
Qed.

Lemma parse_rx_frame_safe_witness :
  Forall is_u8 (replicate 20 0x40) ∧
  ∃ r, parse_rx_frame (replicate 20 0x40) (-3) = Done r ∧
    (∀ e, r = Err e → e = EINVAL) ∧ ∀ info, r = Ok info → rx_info_ok 20 info.
Proof. split; [vm_decide|]. apply (parse_rx_frame_safe (replicate 20 0x40) (-3)); vm_decide. Defined.

Lemma bit_flag x k : 0 ≤ k → negb (bits k 1 x =? 0) = Z.testbit x k.
Proof.
  intros. change (flag (x ≫ k) (2 ^ 0) = Z.testbit x k).
  rewrite flag_testbit, Z.shiftr_spec by lia. f_equal.
Qed.

Lemma rx_class_frame hdr mpdu tail b4 :
  (if decide (2 ≤ length mpdu)%nat
   then frame_ctrl ← index (hdr ++ mpdu ++ tail) (length hdr);
        mret (classify frame_ctrl (Z.land (b4 ≫ 4) 1) (Z.land (b4 ≫ 5) 1))
   else mret (0, 0)) = Done (frame_class b4 mpdu).
Proof.
  destruct mpdu as [|fc [|? mpdu]]; [done..|]. rewrite decide_True by (simpl; lia).
  rewrite (index_nth _ _ 0) by list_len.
  replace (length hdr) with (length hdr + 0)%nat by lia. rewrite app_nth2_plus.
  cbn [mbind outcome_bind nth app]. unfold mret, outcome_ret, classify, frame_class.
  change (Z.land (b4 ≫ 4) 1) with (bits 4 1 b4). change (Z.land (b4 ≫ 5) 1) with (bits 5 1 b4).
  by rewrite !bit_flag by lia.
Qed.

Lemma rx_group3_layout b3 rxd g4 g1 g2 g3 post rssi_offset :
  length rxd = 16%nat → Forall is_u8 g3 →
  length g4 = group_len (Z.testbit b3 4) 16 → length g1 = group_len (Z.testbit b3 1) 16 →
  length g2 = group_len (Z.testbit b3 2) 8 → length g3 = group_len (Z.testbit b3 3) 24 →
  (if flag (bits 1 4 b3) 0x04
   then rx_vector (rxd ++ g4 ++ g1 ++ g2 ++ g3 ++ post) (grp3_offset (bits 1 4 b3)) rssi_offset
   else mret (0, 0)) = Done (vector_rssi rssi_offset g3, vector_rate g3).
Proof.
  intros Hr HF Hg4 Hg1 Hg2 Hg3. destruct (grp_flags b3) as (_ & _ & -> & _).
  destruct (Z.testbit b3 3); [|by destruct g3].
  replace (rxd ++ g4 ++ g1 ++ g2 ++ g3 ++ post) with ((rxd ++ g4 ++ g1 ++ g2) ++ g3 ++ post)
    by by rewrite <-!app_assoc.
  replace (grp3_offset (bits 1 4 b3)) with (length (rxd ++ g4 ++ g1 ++ g2))
    by (rewrite grp3_offset_sum; list_len).
  by apply rx_vector_group.
Qed.

(** A received frame with its descriptor: the parts the hardware writes in
    front of the 802.11 frame, as the descriptor announces them. *)
Record packet := Packet {
  p_rxd : list Z; p_g4 : list Z; p_g1 : list Z; p_g2 : list Z; p_g3 : list Z; p_pad : list Z;
  p_mpdu : list Z;
}.

Section packet.
Variable q : packet.

Definition rxd_byte (k : nat) : Z := nth k (p_rxd q) 0.
Definition packet_hdr : list Z := p_rxd q ++ p_g4 q ++ p_g1 q ++ p_g2 q ++ p_g3 q ++ p_pad q.
Definition packet_cnt : Z := u16_from_le_bytes (rxd_byte 0) (rxd_byte 1).

Definition packet_ok : Prop :=
  length (p_rxd q) = 16%nat ∧ Forall is_u8 (p_g3 q) ∧
  length (p_g4 q) = group_len (Z.testbit (rxd_byte 3) 4) 16 ∧
  length (p_g1 q) = group_len (Z.testbit (rxd_byte 3) 1) 16 ∧
  length (p_g2 q) = group_len (Z.testbit (rxd_byte 3) 2) 8 ∧
  length (p_g3 q) = group_len (Z.testbit (rxd_byte 3) 3) 24 ∧
  length (p_pad q) = group_len (Z.testbit (rxd_byte 6) 6) 2 ∧
  (bits 5 3 (rxd_byte 3) = 2 ∨ bits 5 3 (rxd_byte 3) = 3) ∧
  packet_cnt = Z.of_nat (length packet_hdr + length (p_mpdu q)) ∧ is_u16 packet_cnt.

(** What the driver learns about the packet. *)
Definition packet_info (rssi_offset : Z) : RxInfo := {|
  pkt_len := Z.of_nat (length (p_mpdu q));
  hdr_len := Z.of_nat (length packet_hdr);
  rssi := vector_rssi rssi_offset (p_g3 q);
  channel := rxd_byte 5;
  rate := vector_rate (p_g3 q);
  is_beacon := (frame_class (rxd_byte 4) (p_mpdu q)).1;
  is_data := (frame_class (rxd_byte 4) (p_mpdu q)).2;
  is_crc_error := bits 1 1 (rxd_byte 10) |}.
End packet.

#[export] Instance packet_ok_dec q : Decision (packet_ok q).
Proof. unfold packet_ok. apply _. Defined.

Lemma parse_packet q tail rssi_offset :
  packet_ok q →
  parse_rx_frame (packet_hdr q ++ p_mpdu q ++ tail) rssi_offset =
  Done (Ok (packet_info q rssi_offset)).
Proof.
  unfold packet_ok, packet_info. destruct q as [rxd g4 g1 g2 g3 pad mpdu].
  set (b := rxd_byte _). set (hdr := packet_hdr _). unfold packet_cnt. fold b. simpl.
  intros (Hlr & HF & Hg4 & Hg1 & Hg2 & Hg3 & Hpad & Htype & Hcnt & Hu16).
  assert (Hhl : rmac_info_length (bits 1 4 (b 3%nat)) (bits 6 1 (b 6%nat)) = length hdr).
  { rewrite rmac_info_length_sum, grp3_offset_sum. unfold hdr, packet_hdr. simpl. list_len. }
  pose proof (rx_group3_layout (b 3%nat) rxd g4 g1 g2 g3 (pad ++ mpdu ++ tail) rssi_offset
    Hlr HF Hg4 Hg1 Hg2 Hg3) as Hvec.
  replace (rxd ++ g4 ++ g1 ++ g2 ++ g3 ++ pad ++ mpdu ++ tail) with (hdr ++ mpdu ++ tail) in Hvec
    by (unfold hdr, packet_hdr; simpl; by rewrite <-!app_assoc).
  assert (Hidx : ∀ k, (k < 16)%nat → index (hdr ++ mpdu ++ tail) k = Done (b k)).
  { intros k Hk. unfold b, rxd_byte, hdr, packet_hdr. simpl.
    rewrite (index_nth _ _ 0) by list_len. rewrite <-!app_assoc. by rewrite app_nth1 by lia. }
  assert (16 ≤ length hdr)%nat by (unfold hdr, packet_hdr; simpl; list_len).
  unfold parse_rx_frame, RMAC_RXD_MIN_SIZE.
  rewrite decide_False by list_len.
  rewrite !Hidx by lia. cbn [mbind outcome_bind].
  change (Z.land (b 3%nat ≫ 1) 15) with (bits 1 4 (b 3%nat)).
  change (Z.land (b 3%nat ≫ 5) 7) with (bits 5 3 (b 3%nat)).
  change (Z.land (b 6%nat ≫ 6) 1) with (bits 6 1 (b 6%nat)).
  replace (negb (bits 5 3 (b 3%nat) =? 2) && negb (bits 5 3 (b 3%nat) =? 3)) with false
    by (by destruct Htype as [-> | ->]).
  cbv zeta. rewrite Hhl, decide_False, Hvec by list_len. cbn [mbind outcome_bind].
  rewrite Hcnt in *. rewrite Nat2Z.id, decide_True by list_len.
  replace (length hdr + length mpdu - length hdr)%nat with (length mpdu) by lia.
  rewrite rx_class_frame. cbn [mbind outcome_bind]. unfold mret, outcome_ret, wrap, is_uint in *.
  by rewrite !Z.mod_small by lia.
Qed.

(** C20. Reception finds the frame: for a normal packet whose groups and
    padding are the ones its descriptor announces and whose byte count ends at
    the frame, the parser reports exactly the frame's position and length, the
    RSSI and rate of group 3 (0 when there is none), the channel, the CRC bit
    and the class of the frame, whatever follows in the USB transfer. *)
Theorem parse_rx_frame_layout
    b0 b1 b2 b3 b4 b5 b6 b7 b8 b9 b10 b11 dw3 g4 g1 g2 g3 pad mpdu tail rssi_offset :
  let rxd := [b0; b1; b2; b3; b4; b5; b6; b7; b8; b9; b10; b11] ++ dw3 in
  let hdr := rxd ++ g4 ++ g1 ++ g2 ++ g3 ++ pad in
  length dw3 = 4%nat → Forall is_u8 g3 →
  length g4 = group_len (Z.testbit b3 4) 16 → length g1 = group_len (Z.testbit b3 1) 16 →
  length g2 = group_len (Z.testbit b3 2) 8 → length g3 = group_len (Z.testbit b3 3) 24 →
  length pad = group_len (Z.testbit b6 6) 2 →
  bits 5 3 b3 = 2 ∨ bits 5 3 b3 = 3 →
  u16_from_le_bytes b0 b1 = Z.of_nat (length hdr + length mpdu) →
  is_u16 (u16_from_le_bytes b0 b1) →
  parse_rx_frame (hdr ++ mpdu ++ tail) rssi_offset = Done (Ok {|
    pkt_len := Z.of_nat (length mpdu);
    hdr_len := Z.of_nat (length hdr);
    rssi := vector_rssi rssi_offset g3;
    channel := b5;
    rate := vector_rate g3;
    is_beacon := (frame_class b4 mpdu).1;
    is_data := (frame_class b4 mpdu).2;
    is_crc_error := bits 1 1 b10 |}).
Proof.
  intros rxd hdr Hdw3 HF Hg4 Hg1 Hg2 Hg3 Hpad Htype Hcnt Hu16.
  apply (parse_packet (Packet rxd g4 g1 g2 g3 pad mpdu)).
  unfold packet_ok. split_and!; try done. simpl. list_len.
Qed.

(** The unit test's frame: groups 1 to 3, an EAPOL-like data frame. *)
Lemma parse_rx_frame_layout_witness :
  let g3 := [15; 0xA0; 8; 0] ++ replicate 8 0 ++ [0x9A] ++ replicate 11 0 in
  parse_rx_frame
    ((([68; 0; 0; 0x4E; 0; 6; 0; 0; 0; 0; 0; 0] ++ replicate 4 0) ++ [] ++ replicate 16 0 ++
      replicate 8 0 ++ g3 ++ []) ++ [8; 0; 1; 2] ++ [9; 9; 9]) 2 =
  Done (Ok {| pkt_len := 4; hdr_len := 64; rssi := -100; channel := 6; rate := 0xEF;
              is_beacon := 0; is_data := 1; is_crc_error := 0 |}).
Proof.
  apply (parse_rx_frame_layout 68 0 0 0x4E 0 6 0 0 0 0 0 0 (replicate 4 0) []
    (replicate 16 0) (replicate 8 0) ([15; 0xA0; 8; 0] ++ replicate 8 0 ++ [0x9A] ++ replicate 11 0)
    [] [8; 0; 1; 2] [9; 9; 9] 2); try done; [vm_decide|by left].
Defined.
