(* ===== verification/Tx.v ===== *)
(** * Transmit descriptor construction (src/rust/src/tx.rs)

    [build_txwi] writes the 32-byte long TXD (TMAC_TXD_L) that precedes every
    transmitted frame.  [decode_txd] is the hardware's reading of it, field by
    field. *)

From S2P Require Import Prelude Rust Ffi Rx.
Local Open Scope Z_scope.

Definition TXWI_SIZE : nat := 32.
Definition P_IDX_LMAC : Z := 0.
Definition TMI_HDR_FT_NOR_80211 : Z := 0x2.
Definition TMI_FT_LONG : Z := 0x1.
Definition MT_TX_SHORT_RETRY : Z := 0x0f.
Definition TMI_DAS_FROM_MPDU : Z := 0.
Definition TMI_BSN_CFG_BY_SW : Z := 0x1.
Definition TMI_PM_BIT_CFG_BY_HW : Z := 0x0.
Definition TMI_HDR_PAD_MODE_TAIL : Z := 0.
Definition MODE_CCK : Z := 0.
Definition MODE_OFDM : Z := 1.
Definition MODE_HTMIX : Z := 2.
Definition MODE_HTGF : Z := 3.
Definition LONG_PREAMBLE : Z := 1.
Definition TMI_TX_RATE_BIT_MODE : Z := 6.
Definition TMI_TX_RATE_BIT_NSS : Z := 9.
Definition TMI_TX_RATE_BIT_STBC : Z := 11.
Definition TMI_TX_RATE_MASK_NSS : Z := 0x3.

Definition tmi_rate_map_cck_lp : list Z := [0; 1; 2; 3].
Definition tmi_rate_map_cck_sp : list Z := [5; 5; 6; 7].
Definition tmi_rate_map_ofdm : list Z := [11; 15; 10; 14; 9; 13; 8; 12].

(** The rate tables are indexed without a check. *)
Definition tx_rate_to_tmi (p : profile) (rate_mode mcs stbc nss preamble : Z) : outcome Z :=
  if rate_mode =? MODE_CCK then
    mcs_id ← (if preamble =? LONG_PREAMBLE
              then index tmi_rate_map_cck_lp (Z.to_nat mcs)
              else index tmi_rate_map_cck_sp (Z.to_nat mcs));
    mret (Z.lor (shl32 MODE_CCK TMI_TX_RATE_BIT_MODE) mcs_id)
  else if rate_mode =? MODE_OFDM then
    mcs_id ← index tmi_rate_map_ofdm (Z.to_nat mcs);
    mret (Z.lor (shl32 MODE_OFDM TMI_TX_RATE_BIT_MODE) mcs_id)
  else if (rate_mode =? MODE_HTMIX) || (rate_mode =? MODE_HTGF) then
    nss1 ← sub_u32 p nss 1;
    mret (Z.lor (Z.lor (Z.lor
      (shl32 stbc TMI_TX_RATE_BIT_STBC)
      (shl32 (Z.land nss1 TMI_TX_RATE_MASK_NSS) TMI_TX_RATE_BIT_NSS))
      (shl32 rate_mode TMI_TX_RATE_BIT_MODE)) mcs)
  else mret 0.

Definition is_ht (rate_mode : Z) : bool := (rate_mode =? MODE_HTMIX) || (rate_mode =? MODE_HTGF).

(** ** The words of the descriptor *)

Definition hdr_pad_len (hdr_len : Z) : Z := Z.land (4 - Z.land hdr_len 0x03) 0x03.

Definition txd_dw0 (params : TxParams.t) : Z :=
  let pad := hdr_pad_len (TxParams.hdr_len params) in
  Z.lor (Z.lor (TxParams.pkt_len params + pad + Z.of_nat TXWI_SIZE)
    (shl32 (Z.land (TxParams.queue params) 0x0f) 27)) (shl32 P_IDX_LMAC 31).

Definition txd_dw1 (params : TxParams.t) : Z :=
  let hdr_len := TxParams.hdr_len params in
  let hdr_pad := Z.lor (shl32 TMI_HDR_PAD_MODE_TAIL 2) (Z.land (hdr_pad_len hdr_len) 0x03) in
  Z.lor (Z.lor (Z.lor (Z.lor (Z.lor (Z.lor
    (Z.land (TxParams.pid params) 0xff)
    (shl32 (Z.land (hdr_len ≫ 1) 0x1f) 8))
    (shl32 TMI_HDR_FT_NOR_80211 13))
    (shl32 TMI_FT_LONG 15))
    (shl32 (Z.land hdr_pad 0x07) 16))
    (shl32 (Z.land (TxParams.no_ack params) 0x1) 19))
    (shl32 (Z.land (TxParams.protect_frm params) 0x1) 23).

Definition txd_dw2 (params : TxParams.t) : Z :=
  Z.lor (Z.lor (Z.lor (Z.lor
    (Z.land (TxParams.sub_type params) 0x0f)
    (shl32 (Z.land (TxParams.frm_type params) 0x03) 4))
    (shl32 (Z.land (TxParams.is_bm params) 0x1) 10))
    (shl32 1 29))
    (shl32 1 31).

Definition txd_dw3 : Z := shl32 (Z.land MT_TX_SHORT_RETRY 0x1f) 11.
Definition txd_dw5 : Z :=
  Z.lor (Z.lor (shl32 TMI_DAS_FROM_MPDU 11) (shl32 TMI_BSN_CFG_BY_SW 12))
    (shl32 TMI_PM_BIT_CFG_BY_HW 13).

Definition txd_nss (rate_mode rate_mcs : Z) : Z :=
  if is_ht rate_mode && negb (rate_mcs =? 32) then 1 + (rate_mcs ≫ 3) else 1.

Definition txd_gi (params : TxParams.t) : Z :=
  if is_ht (TxParams.rate_mode params) && negb (Z.land (TxParams.preamble params) 0x2 =? 0)
  then 1 else 0.

Definition txd_dw6 (params : TxParams.t) (tx_rate : Z) : Z :=
  let bw_field := Z.lor (shl32 1 2) (Z.land (TxParams.bw params) 0x3) in
  Z.lor (Z.lor (Z.lor (shl32 bw_field 8) (shl32 1 11))
    (shl32 (Z.land tx_rate 0x0fff) 18)) (shl32 (txd_gi params) 31).

Definition txd_tx_rate (p : profile) (params : TxParams.t) : outcome Z :=
  let rate_mode := TxParams.rate_mode params in
  let rate_mcs := TxParams.rate_mcs params in
  tx_rate_to_tmi p rate_mode rate_mcs 0 (txd_nss rate_mode rate_mcs)
    (Z.land (TxParams.preamble params) 0x1).

(** The [u32] sums cannot overflow: their terms are [u16] and small. *)
Definition build_txwi (p : profile) (params : TxParams.t) : builder Z nat :=
  n ← out_len;
  if decide (n < TXWI_SIZE)%nat then throw ENOSPC else
  if TxParams.pkt_len params + Z.of_nat TXWI_SIZE >? 0xffff then throw EINVAL else
  out_fill 0 TXWI_SIZE 0 ;;
  let hdr_len := TxParams.hdr_len params in
  if negb (Z.land hdr_len 1 =? 0) then throw EINVAL else
  tx_rate ← lift (txd_tx_rate p params);
  out_copy 0 4 (u32_to_le_bytes (txd_dw0 params)) ;;
  out_copy 4 8 (u32_to_le_bytes (txd_dw1 params)) ;;
  out_copy 8 12 (u32_to_le_bytes (txd_dw2 params)) ;;
  out_copy 12 16 (u32_to_le_bytes txd_dw3) ;;
  out_copy 20 24 (u32_to_le_bytes txd_dw5) ;;
  out_copy 24 28 (u32_to_le_bytes (txd_dw6 params tx_rate)) ;;
  mret TXWI_SIZE.

(** ** What the builder promises *)

(** The rates the tables cover. *)
Definition rate_defined (params : TxParams.t) : bool :=
  let mode := TxParams.rate_mode params in
  let mcs := TxParams.rate_mcs params in
  if mode =? MODE_CCK then mcs <? 4 else if mode =? MODE_OFDM then mcs <? 8 else true.

(** The guards: the byte count field is 16 bits and the header has even length. *)
Definition txwi_accepts (params : TxParams.t) : bool :=
  (TxParams.pkt_len params + 32 <=? 0xffff) && (Z.land (TxParams.hdr_len params) 1 =? 0).

Definition tmi_rate (params : TxParams.t) : Z :=
  default 0 (match txd_tx_rate Release params with Done r => Some r | _ => None end).

Definition txd_frame (params : TxParams.t) : list Z :=
  u32_to_le_bytes (txd_dw0 params) ++ u32_to_le_bytes (txd_dw1 params) ++
  u32_to_le_bytes (txd_dw2 params) ++ u32_to_le_bytes txd_dw3 ++ replicate 4 0 ++
  u32_to_le_bytes txd_dw5 ++ u32_to_le_bytes (txd_dw6 params (tmi_rate params)) ++
  replicate 4 0.

Lemma nss_pos mode mcs : 0 ≤ mcs → 1 ≤ txd_nss mode mcs.
Proof.
  intros. unfold txd_nss. destruct (_ && _); [|lia].
  pose proof (proj2 (Z.shiftr_nonneg mcs 3)). lia.
Qed.

Lemma index_case {A} (l : list A) i : index l i = Panic ∨ ∃ x, index l i = Done x.
Proof. unfold index. destruct (l !! i); eauto. Qed.

(** The rate is computed exactly for the rates the tables cover. *)
Lemma txd_tx_rate_done p params :
  TxParams.wf params →
  txd_tx_rate p params = if rate_defined params then Done (tmi_rate params) else Panic.
Proof.
  intros Hwf. assert (is_u8 (TxParams.rate_mcs params)) as Hm by (unfold TxParams.wf in Hwf; tauto).
  unfold is_uint in Hm.
  pose proof (nss_pos (TxParams.rate_mode params) (TxParams.rate_mcs params) ltac:(lia)).
  unfold rate_defined, tmi_rate, txd_tx_rate, tx_rate_to_tmi.
  destruct (TxParams.rate_mode params =? MODE_CCK).
  { destruct (Z.ltb_spec (TxParams.rate_mcs params) 4), (_ =? LONG_PREAMBLE);
      [rewrite (index_nth _ _ 0) by (simpl; lia); done..| |];
      by rewrite index_panic by (simpl; lia). }
  destruct (TxParams.rate_mode params =? MODE_OFDM).
  { destruct (Z.ltb_spec (TxParams.rate_mcs params) 8);
      [rewrite (index_nth _ _ 0) by (simpl; lia); done|].
    by rewrite index_panic by (simpl; lia). }
  destruct (_ || _); [|done]. by rewrite !sub_u32_done by lia.
Qed.

(** Both guards, in the order of the code. *)
Lemma build_txwi_unfold p params buf :
  TxParams.wf params → (32 ≤ length buf)%nat →
  build_txwi p params buf =
  if TxParams.pkt_len params + 32 <=? 0xffff then
    if Z.land (TxParams.hdr_len params) 1 =? 0 then
      if rate_defined params then Done (Ok TXWI_SIZE, txd_frame params ++ drop 32 buf)
      else Panic
    else Done (Err EINVAL, replicate 32 0 ++ drop 32 buf)
  else Done (Err EINVAL, buf).
Proof.
  intros Hwf Hl. unfold build_txwi, TXWI_SIZE. rewrite bind_len, decide_False by lia.
  rewrite Z.gtb_ltb. change (Z.of_nat 32) with 32.
  destruct (Z.leb_spec (TxParams.pkt_len params + 32) 0xffff), (Z.ltb_spec 0xffff (TxParams.pkt_len params + 32));
    [lia| |done|lia].
  rewrite bind_fill by lia. change (32 - 0)%nat with 32%nat.
  rewrite splice_all by list_len. rewrite length_replicate. cbv zeta.
  destruct (_ =? 0); [|done]. cbn [negb].
  unfold mbind at 1, builder_bind at 1, lift at 1. rewrite txd_tx_rate_done by done.
  destruct (rate_defined params); [|done].
  change (replicate 32 0) with (replicate 4 0 ++ replicate 4 0 ++ replicate 4 0 ++ replicate 4 0 ++
    replicate 4 0 ++ replicate 4 0 ++ replicate 4 0 ++ replicate 4 0).
  rewrite <-!app_assoc.
  do 6 (rewrite bind_copy by list_len; splice_norm).
  unfold txd_frame. by rewrite <-!app_assoc.
Qed.

Lemma txwi_builds p params :
  TxParams.wf params → txwi_accepts params = true → rate_defined params = true →
  Builds (build_txwi p params) (txd_frame params).
Proof.
  intros Hwf [Ha Hb]%andb_prop Hr. split; intros buf Hl.
  - rewrite build_txwi_unfold by done. by rewrite Ha, Hb, Hr.
  - unfold build_txwi. rewrite bind_len, decide_True; [done|]. done.
Qed.

(** ** The hardware's reading *)

Record TxdFields := {
  f_tx_byte_cnt : Z; f_eth_type_offset : Z; f_q_idx : Z; f_p_idx : Z;
  f_wlan_idx : Z; f_hdr_len : Z; f_hdr_format : Z; f_ft : Z; f_hdr_pad : Z;
  f_no_ack : Z; f_tid : Z; f_protect_frm : Z; f_own_mac : Z;
  f_sub_type : Z; f_frm_type : Z; f_bc_mc_pkt : Z; f_ba_disable : Z; f_fix_rate : Z;
  f_remain_tx_cnt : Z; f_bar_sn_ctrl : Z; f_bw : Z; f_spe_en : Z; f_tx_rate : Z; f_gi : Z;
}.

Definition txd_word (l : list Z) (k : nat) : Z :=
  u32_from_le_bytes (nth (4 * k) l 0) (nth (4 * k + 1) l 0)
    (nth (4 * k + 2) l 0) (nth (4 * k + 3) l 0).

(** Field positions of TMAC_TXD_L, from the comments of [build_txwi]. *)
Definition decode_txd (l : list Z) : TxdFields :=
  let dw := txd_word l in
  {| f_tx_byte_cnt := bits 0 16 (dw 0%nat); f_eth_type_offset := bits 16 7 (dw 0%nat);
     f_q_idx := bits 27 4 (dw 0%nat); f_p_idx := bits 31 1 (dw 0%nat);
     f_wlan_idx := bits 0 8 (dw 1%nat); f_hdr_len := 2 * bits 8 5 (dw 1%nat);
     f_hdr_format := bits 13 2 (dw 1%nat); f_ft := bits 15 1 (dw 1%nat);
     f_hdr_pad := bits 16 3 (dw 1%nat); f_no_ack := bits 19 1 (dw 1%nat);
     f_tid := bits 20 3 (dw 1%nat); f_protect_frm := bits 23 1 (dw 1%nat);
     f_own_mac := bits 26 6 (dw 1%nat);
     f_sub_type := bits 0 4 (dw 2%nat); f_frm_type := bits 4 2 (dw 2%nat);
     f_bc_mc_pkt := bits 10 1 (dw 2%nat); f_ba_disable := bits 29 1 (dw 2%nat);
     f_fix_rate := bits 31 1 (dw 2%nat);
     f_remain_tx_cnt := bits 11 5 (dw 3%nat); f_bar_sn_ctrl := bits 12 1 (dw 5%nat);
     f_bw := bits 8 3 (dw 6%nat); f_spe_en := bits 11 1 (dw 6%nat);
     f_tx_rate := bits 18 12 (dw 6%nat); f_gi := bits 31 1 (dw 6%nat) |}.

(** Header padding to a multiple of four. *)
Lemma hdr_pad_len_even h :
  is_u8 h → Z.land h 1 = 0 → hdr_pad_len h = (- h) mod 4 ∧ (hdr_pad_len h = 0 ∨ hdr_pad_len h = 2).
Proof.
  intros Hh. unfold is_uint in Hh.
  pattern h. eapply (range_forall _ 0 256); [by vm_compute|lia].
Qed.

Lemma txd_words_u32 params :
  TxParams.wf params →
  is_u32 (txd_dw0 params) ∧ is_u32 (txd_dw1 params) ∧ is_u32 (txd_dw2 params) ∧
  is_u32 (txd_dw6 params (tmi_rate params)).
Proof.
  intros Hwf. unfold TxParams.wf in Hwf.
  assert (is_u8 (hdr_pad_len (TxParams.hdr_len params))).
  { unfold hdr_pad_len. apply is_uint_land_r. vm_decide. }
  assert (is_u32 (TxParams.pkt_len params + hdr_pad_len (TxParams.hdr_len params) +
    Z.of_nat TXWI_SIZE)) by (change (Z.of_nat TXWI_SIZE) with 32; destruct_and!; uint).
  destruct_and!.
  split_and!; unfold txd_dw0, txd_dw1, txd_dw2, txd_dw6; cbv zeta; auto 20 with rust.
Qed.

Lemma txd_frame_word params k w :
  TxParams.wf params →
  [txd_dw0 params; txd_dw1 params; txd_dw2 params; txd_dw3; 0; txd_dw5;
   txd_dw6 params (tmi_rate params); 0] !! k = Some w →
  txd_word (txd_frame params) k = w.
Proof.
  intros Hwf Hk. destruct (txd_words_u32 params Hwf) as (? & ? & ? & ?).
  do 8 (destruct k as [|k]; [injection Hk as <-; by try apply u32_from_to|]). done.
Qed.

(** *** Field extraction, word by word *)

Lemma txd_dw0_fields params s :
  s = TxParams.pkt_len params + hdr_pad_len (TxParams.hdr_len params) + Z.of_nat TXWI_SIZE →
  0 ≤ s < 2 ^ 17 →
  bits 0 16 (txd_dw0 params) = s mod 2 ^ 16 ∧ bits 16 7 (txd_dw0 params) = s / 2 ^ 16 ∧
  bits 27 4 (txd_dw0 params) = bits 0 4 (TxParams.queue params) ∧ bits 31 1 (txd_dw0 params) = 0.
Proof.
  intros Hs Hb. unfold txd_dw0. cbv zeta. rewrite <-Hs. clear Hs. unfold P_IDX_LMAC.
  change (shl32 0 31) with 0. rewrite Z.lor_0_r. masks. split_and!.
  - bitfield. rewrite bits_div, Z.div_1_r by lia. done.
  - bitfield. rewrite bits_div, Z.mod_small; [done| |lia..].
    split; [apply Z.div_pos|apply Z.div_lt_upper_bound]; lia.
  - by bitfield.
  - by bitfield.
Qed.

Lemma txd_dw1_fields params :
  TxParams.wf params → TxParams.hdr_len params < 64 → Z.land (TxParams.hdr_len params) 1 = 0 →
  let dw := txd_dw1 params in
  bits 0 8 dw = TxParams.pid params ∧ 2 * bits 8 5 dw = TxParams.hdr_len params ∧
  bits 13 2 dw = 2 ∧ bits 15 1 dw = 1 ∧
  bits 16 3 dw = hdr_pad_len (TxParams.hdr_len params) ∧
  bits 19 1 dw = bits 0 1 (TxParams.no_ack params) ∧ bits 20 3 dw = 0 ∧
  bits 23 1 dw = bits 0 1 (TxParams.protect_frm params) ∧ bits 26 6 dw = 0.
Proof.
  intros Hwf Hh He. unfold TxParams.wf in Hwf.
  assert (is_uint 2 (hdr_pad_len (TxParams.hdr_len params))) as Hp.
  { unfold hdr_pad_len. apply is_uint_land_r. vm_decide. }
  assert (is_u8 (TxParams.pid params) ∧ is_u8 (TxParams.hdr_len params)) as [Hpid Hhl] by tauto.
  assert (2 * (TxParams.hdr_len params ≫ 1) = TxParams.hdr_len params) as Hhalf.
  { change 1 with (Z.ones 1) in He. rewrite Z.land_ones in He by lia.
    rewrite Z.shiftr_div_pow2 by lia. change (2 ^ 1) with 2 in *.
    rewrite (Z.div_mod (TxParams.hdr_len params) 2) at 2 by lia. lia. }
  clear Hwf. unfold txd_dw1, TMI_HDR_FT_NOR_80211, TMI_FT_LONG, TMI_HDR_PAD_MODE_TAIL.
  cbv zeta. revert Hp Hpid Hhl Hhalf.
  generalize (hdr_pad_len (TxParams.hdr_len params)), (TxParams.hdr_len params ≫ 1),
    (TxParams.pid params).
  intros pad half pid Hp Hpid Hhl Hhalf.
  change (shl32 0 2) with 0. rewrite Z.lor_0_l. masks.
  assert (is_uint 5 half) by uint.
  rewrite (bits_small 5 half), (bits_small 8 pid), (bits_small 2 pad), (bits_small 3 pad) by uint.
  split_and!; bitfield; done || lia.
Qed.

Lemma txd_dw2_fields params :
  let dw := txd_dw2 params in
  bits 0 4 dw = bits 0 4 (TxParams.sub_type params) ∧
  bits 4 2 dw = bits 0 2 (TxParams.frm_type params) ∧
  bits 10 1 dw = bits 0 1 (TxParams.is_bm params) ∧ bits 29 1 dw = 1 ∧ bits 31 1 dw = 1.
Proof. cbv zeta. unfold txd_dw2. masks. split_and!; by bitfield. Qed.

Lemma txd_dw6_fields params r :
  let dw := txd_dw6 params r in
  bits 8 3 dw = 4 + bits 0 2 (TxParams.bw params) ∧ bits 11 1 dw = 1 ∧
  bits 18 12 dw = bits 0 12 r ∧ bits 31 1 dw = txd_gi params.
Proof.
  cbv zeta. unfold txd_dw6.
  assert (is_uint 1 (txd_gi params)) by (unfold txd_gi; destruct (_ && _); vm_decide).
  revert H. generalize (txd_gi params). intros gi Hgi. masks.
  assert (Z.lor (shl32 1 2) (bits 0 2 (TxParams.bw params)) = 4 + bits 0 2 (TxParams.bw params)) as E.
  { pose proof (bits_uint 0 2 (TxParams.bw params) ltac:(lia)) as Hb. unfold is_uint in Hb.
    revert Hb. generalize (bits 0 2 (TxParams.bw params)). intros b Hb.
    pattern b. eapply (range_forall _ 0 4); [by vm_compute|lia]. }
  rewrite E. split_and!; by bitfield.
Qed.

(** An accepted descriptor, read back. *)
Lemma build_txwi_ok_inv p params buf n buf' :
  TxParams.wf params → build_txwi p params buf = Done (Ok n, buf') →
  take n buf' = txd_frame params ∧ TxParams.pkt_len params + 32 ≤ 0xffff ∧
  Z.land (TxParams.hdr_len params) 1 = 0 ∧ rate_defined params = true.
Proof.
  intros Hwf Hb. destruct (decide (length buf < 32)%nat) as [Hl|Hl].
  { unfold build_txwi in Hb. rewrite bind_len, decide_True in Hb; [done|]. done. }
  rewrite build_txwi_unfold in Hb by (done || lia).
  destruct (Z.leb_spec (TxParams.pkt_len params + 32) 0xffff); [|done].
  destruct (Z.eqb_spec (Z.land (TxParams.hdr_len params) 1) 0); [|done].
  destruct (rate_defined params); [|done]. by injection Hb as <- <-.
Qed.

(** The fields of a descriptor frame. *)
Lemma decode_txd_frame params :
  TxParams.wf params → TxParams.hdr_len params < 64 → Z.land (TxParams.hdr_len params) 1 = 0 →
  TxParams.pkt_len params + 32 ≤ 0xffff →
  let total := TxParams.pkt_len params + (- TxParams.hdr_len params) mod 4 + 32 in
  decode_txd (txd_frame params) = {|
    f_tx_byte_cnt := total mod 2 ^ 16; f_eth_type_offset := total / 2 ^ 16;
    f_q_idx := bits 0 4 (TxParams.queue params); f_p_idx := 0;
    f_wlan_idx := TxParams.pid params; f_hdr_len := TxParams.hdr_len params;
    f_hdr_format := 2; f_ft := 1; f_hdr_pad := (- TxParams.hdr_len params) mod 4;
    f_no_ack := bits 0 1 (TxParams.no_ack params); f_tid := 0;
    f_protect_frm := bits 0 1 (TxParams.protect_frm params); f_own_mac := 0;
    f_sub_type := bits 0 4 (TxParams.sub_type params);
    f_frm_type := bits 0 2 (TxParams.frm_type params);
    f_bc_mc_pkt := bits 0 1 (TxParams.is_bm params); f_ba_disable := 1; f_fix_rate := 1;
    f_remain_tx_cnt := 15; f_bar_sn_ctrl := 1;
    f_bw := 4 + bits 0 2 (TxParams.bw params); f_spe_en := 1;
    f_tx_rate := bits 0 12 (tmi_rate params); f_gi := txd_gi params |}.
Proof.
  intros Hwf Hh He Hpkt total.
  destruct (hdr_pad_len_even (TxParams.hdr_len params)) as [Hpad Hpb];
    [unfold TxParams.wf in Hwf; tauto|done|].
  assert (0 ≤ TxParams.pkt_len params) by (unfold TxParams.wf, is_uint in Hwf; lia).
  unfold decode_txd. cbv zeta.
  erewrite !(txd_frame_word _ 0), !(txd_frame_word _ 1), !(txd_frame_word _ 2),
    !(txd_frame_word _ 3), !(txd_frame_word _ 5), !(txd_frame_word _ 6) by done.
  destruct (txd_dw0_fields params total) as (-> & -> & -> & ->);
    [unfold total; by rewrite Hpad|unfold total; rewrite <-Hpad; lia|].
  destruct (txd_dw1_fields params Hwf Hh He) as (-> & -> & -> & -> & -> & -> & -> & -> & ->).
  destruct (txd_dw2_fields params) as (-> & -> & -> & -> & ->).
  destruct (txd_dw6_fields params (tmi_rate params)) as (-> & -> & -> & ->).
  by rewrite Hpad.
Qed.

(** ** Correctness *)

(** C22. The descriptor builder, on every branch: -ENOSPC on a short buffer,
    -EINVAL before any write for a frame longer than the byte count field
    allows, -EINVAL after clearing the descriptor for an odd header length, a
    panic exactly for a CCK or OFDM rate outside its table, and otherwise the
    32-byte descriptor in front of an untouched rest. *)
Theorem build_txwi_spec p params buf :
  TxParams.wf params →
  build_txwi p params buf =
  if decide (length buf < 32)%nat then Done (Err ENOSPC, buf)
  else if decide (0xffff < TxParams.pkt_len params + 32) then Done (Err EINVAL, buf)
  else if decide (Z.odd (TxParams.hdr_len params)) then
    Done (Err EINVAL, replicate 32 0 ++ drop 32 buf)
  else if rate_defined params then Done (Ok 32%nat, txd_frame params ++ drop 32 buf)
  else Panic.
Proof.
  intros Hwf. case_decide as Hl.
  { unfold build_txwi. rewrite bind_len, decide_True; [done|]. done. }
  rewrite build_txwi_unfold by (done || lia).
  case_decide; [by rewrite (proj2 (Z.leb_gt _ _)) by lia|].
  rewrite (proj2 (Z.leb_le _ _)) by lia.
  change 1 with (Z.ones 1). rewrite Z.land_ones, Zmod_odd by lia.
  by destruct (Z.odd _).
Qed.

(** The unit tests' probe request. *)
Definition probe_req_params (pkt_len hdr_len rate_mode rate_mcs : Z) : TxParams.t := {|
  TxParams.rate_idx := 0; TxParams.pid := 1; TxParams.queue := 0; TxParams.hdr_len := hdr_len;
  TxParams.frm_type := 0; TxParams.sub_type := 4; TxParams.no_ack := 1; TxParams.is_bm := 1;
  TxParams.rate_mode := rate_mode; TxParams.rate_mcs := rate_mcs; TxParams.preamble := 1;
  TxParams.bw := 0; TxParams.pkt_len := pkt_len; TxParams.protect_frm := 0 |}.

Lemma build_txwi_spec_witness :
  build_txwi Release (probe_req_params 64 24 0 4) (replicate 40 7) = Panic.
Proof. apply (build_txwi_spec Release (probe_req_params 64 24 0 4) (replicate 40 7)). vm_decide. Defined.

(** C21. Transmission round trip: the hardware, decoding the descriptor that
    was built, gets back every parameter the descriptor carries, at its width
    (rate_idx is not one of them: the builder does not read it), the fixed
    settings (long format, 802.11 header, fixed rate, no block-ack) and the
    encoded rate.  The header length survives up to 63 bytes. *)
Theorem build_txwi_roundtrip p params buf n buf' :
  TxParams.wf params → TxParams.hdr_len params < 64 →
  build_txwi p params buf = Done (Ok n, buf') →
  let total := TxParams.pkt_len params + (- TxParams.hdr_len params) mod 4 + 32 in
  decode_txd (take n buf') = {|
    f_tx_byte_cnt := total mod 2 ^ 16; f_eth_type_offset := total / 2 ^ 16;
    f_q_idx := bits 0 4 (TxParams.queue params); f_p_idx := 0;
    f_wlan_idx := TxParams.pid params; f_hdr_len := TxParams.hdr_len params;
    f_hdr_format := 2; f_ft := 1; f_hdr_pad := (- TxParams.hdr_len params) mod 4;
    f_no_ack := bits 0 1 (TxParams.no_ack params); f_tid := 0;
    f_protect_frm := bits 0 1 (TxParams.protect_frm params); f_own_mac := 0;
    f_sub_type := bits 0 4 (TxParams.sub_type params);
    f_frm_type := bits 0 2 (TxParams.frm_type params);
    f_bc_mc_pkt := bits 0 1 (TxParams.is_bm params); f_ba_disable := 1; f_fix_rate := 1;
    f_remain_tx_cnt := 15; f_bar_sn_ctrl := 1;
    f_bw := 4 + bits 0 2 (TxParams.bw params); f_spe_en := 1;
    f_tx_rate := bits 0 12 (tmi_rate params); f_gi := txd_gi params |}.
Proof.
  intros Hwf Hh Hb total.
  destruct (build_txwi_ok_inv _ _ _ _ _ Hwf Hb) as (Htake & Hpkt & He & _). rewrite Htake.
  by apply decode_txd_frame.
Qed.

Lemma build_txwi_roundtrip_witness :
  decode_txd (take 32 (txd_frame (probe_req_params 65503 26 1 0) ++ [7])) = {|
    f_tx_byte_cnt := 1; f_eth_type_offset := 1;
    f_q_idx := 0; f_p_idx := 0; f_wlan_idx := 1; f_hdr_len := 26;
    f_hdr_format := 2; f_ft := 1; f_hdr_pad := 2; f_no_ack := 1; f_tid := 0;
    f_protect_frm := 0; f_own_mac := 0; f_sub_type := 4; f_frm_type := 0;
    f_bc_mc_pkt := 1; f_ba_disable := 1; f_fix_rate := 1;
    f_remain_tx_cnt := 15; f_bar_sn_ctrl := 1; f_bw := 4; f_spe_en := 1;
    f_tx_rate := 75; f_gi := 0 |}.
Proof.
  apply (build_txwi_roundtrip Release (probe_req_params 65503 26 1 0) (replicate 33 7));
    [vm_decide|vm_decide|by vm_compute].
Defined.

(** C40. The byte count the hardware reads is the length of the transmission
    (descriptor, header padding and frame) exactly when that length fits 16
    bits; the guard of the builder leaves the padding out, so frames of 65502
    and 65503 bytes with a two-byte pad are accepted with a byte count of 0
    or 1. *)
Theorem txd_byte_count_exact p params buf n buf' :
  TxParams.wf params → TxParams.hdr_len params < 64 →
  build_txwi p params buf = Done (Ok n, buf') →
  let total := TxParams.pkt_len params + (- TxParams.hdr_len params) mod 4 + 32 in
  (f_tx_byte_cnt (decode_txd (take n buf')) = total ↔ total ≤ 0xffff) ∧
  (0xffff < total → TxParams.pkt_len params ∈ [65502; 65503] ∧
     (- TxParams.hdr_len params) mod 4 = 2 ∧
     f_tx_byte_cnt (decode_txd (take n buf')) = TxParams.pkt_len params - 65502).
Proof.
  intros Hwf Hh Hb total.
  destruct (build_txwi_ok_inv _ _ _ _ _ Hwf Hb) as (Htake & Hpkt & He & _). rewrite Htake.
  destruct (hdr_pad_len_even (TxParams.hdr_len params)) as [Hpad Hpb];
    [unfold TxParams.wf in Hwf; tauto|done|].
  assert (0 ≤ TxParams.pkt_len params) by (unfold TxParams.wf, is_uint in Hwf; lia).
  unfold decode_txd. cbn [f_tx_byte_cnt]. erewrite (txd_frame_word _ 0) by done.
  destruct (txd_dw0_fields params total) as (-> & _);
    [unfold total; by rewrite Hpad|unfold total; rewrite <-Hpad; lia|].
  assert (total = TxParams.pkt_len params + hdr_pad_len (TxParams.hdr_len params) + 32) as Ht
    by (unfold total; by rewrite Hpad).
  clearbody total. rewrite <-Hpad. pow2.
  destruct (decide (total ≤ 65535)).
  - rewrite Z.mod_small by lia. split; [done|lia].
  - assert (total mod 65536 = total - 65536) as -> by (rewrite <-(Z.mod_add _ (-1)), Z.mod_small; lia).
    rewrite !elem_of_cons. split; lia.
Qed.

Lemma txd_byte_count_exact_witness :
  let r := take 32 (txd_frame (probe_req_params 65503 26 1 0) ++ [7]) in
  (f_tx_byte_cnt (decode_txd r) = 65537 ↔ 65537 ≤ 0xffff) ∧
  (0xffff < 65537 → 65503 ∈ [65502; 65503] ∧ 2 = 2 ∧ f_tx_byte_cnt (decode_txd r) = 65503 - 65502).
Proof.
  apply (txd_byte_count_exact Release (probe_req_params 65503 26 1 0) (replicate 33 7) 32
    (txd_frame (probe_req_params 65503 26 1 0) ++ [7])); [vm_decide|vm_decide|by vm_compute].
Defined.

(** ** Rates, from transmission to reception *)

(** The rates mac80211.c asks for: its MCS 0 to 15, CCK and OFDM indices. *)
Definition rate_usable (mode mcs : Z) : bool :=
  if mode =? MODE_CCK then mcs <? 4
  else if mode =? MODE_OFDM then mcs <? 8
  else is_ht mode && (mcs <? 16).

(** The rate as the receiving driver reports it: an MCS with the HT bit, or an
    index into the legacy rates (four CCK, then eight OFDM).  There is no
    short-preamble 1 Mbit/s, it goes out as 2 Mbit/s. *)
Definition rate_report (mode mcs preamble : Z) : Z :=
  if is_ht mode then 0x80 + mcs
  else if mode =? MODE_OFDM then 4 + mcs
  else if Z.land preamble 1 =? LONG_PREAMBLE then mcs
  else Z.max 1 mcs.

(** Mode, stream count, and the report of a receiver of the 12-bit rate field. *)
Definition rate_agrees (mode mcs pre : Z) : Prop :=
  let r := tx_rate_to_tmi Release mode mcs 0 (txd_nss mode mcs) pre in
  match r with
  | Done r => is_uint 12 r ∧ bits 6 3 r = mode ∧ 1 + bits 9 2 r = txd_nss mode mcs ∧
      rate_encode (bits 0 6 r) (bits 6 3 r) 0 0 = rate_report mode mcs pre
  | _ => False
  end.
#[export] Instance rate_agrees_dec mode mcs pre : Decision (rate_agrees mode mcs pre).
Proof. unfold rate_agrees. destruct (tx_rate_to_tmi _ _ _ _ _ _); apply _. Defined.

Lemma rate_usable_agrees mode mcs pre :
  0 ≤ mode → 0 ≤ mcs → 0 ≤ pre < 2 → rate_usable mode mcs = true → rate_agrees mode mcs pre.
Proof.
  unfold rate_usable, is_ht, MODE_CCK, MODE_OFDM, MODE_HTMIX, MODE_HTGF. intros Hm Hc Hp Hr.
  assert (mode < 4 ∧ mcs < 16) as [? ?].
  { destruct (Z.eqb_spec mode 0), (Z.eqb_spec mode 1), (Z.eqb_spec mode 2), (Z.eqb_spec mode 3);
      simpl in Hr; rewrite ?Z.ltb_lt in Hr; done || lia. }
  revert Hr.
  assert (mode = 0 ∨ mode = 1 ∨ mode = 2 ∨ mode = 3) as Hmode by lia.
  assert (pre = 0 ∨ pre = 1) as Hpre by lia.
  destruct Hmode as [-> |[-> |[-> | ->]]], Hpre as [-> | ->]; pattern mcs;
    (eapply (range_forall _ 0 16); [by vm_compute|lia]).
Qed.

Lemma rate_usable_defined params :
  rate_usable (TxParams.rate_mode params) (TxParams.rate_mcs params) = true →
  rate_defined params = true.
Proof.
  unfold rate_defined, rate_usable.
  by destruct (TxParams.rate_mode params =? MODE_CCK), (TxParams.rate_mode params =? MODE_OFDM).
Qed.

(** The two directions agree on rates: for every rate mac80211 asks for,
    the rate field carries the PHY mode and the stream count, and a receiver
    running the same driver decodes it to the MCS or legacy index that was
    asked for, whatever its width and guard interval bits. *)
Theorem tx_rx_rate_agree p params fr_mode short_gi :
  TxParams.wf params →
  rate_usable (TxParams.rate_mode params) (TxParams.rate_mcs params) = true →
  ∃ r, txd_tx_rate p params = Done r ∧ is_uint 12 r ∧
    bits 6 3 r = TxParams.rate_mode params ∧
    1 + bits 9 2 r = txd_nss (TxParams.rate_mode params) (TxParams.rate_mcs params) ∧
    rate_encode (bits 0 6 r) (bits 6 3 r) fr_mode short_gi =
    Z.lor (Z.lor (if fr_mode =? 1 then 0x40 else 0) (if short_gi =? 0 then 0 else 0x20))
      (rate_report (TxParams.rate_mode params) (TxParams.rate_mcs params)
         (Z.land (TxParams.preamble params) 1)).
Proof.
  intros Hwf Hr. rewrite txd_tx_rate_done by done.
  rewrite rate_usable_defined by done.
  pose proof (land_bound (TxParams.preamble params) 1 ltac:(lia)).
  assert (0 ≤ TxParams.rate_mode params ∧ 0 ≤ TxParams.rate_mcs params) as [Hm Hc]
    by (unfold TxParams.wf, is_uint in Hwf; lia).
  pose proof (rate_usable_agrees _ _ (Z.land (TxParams.preamble params) 1)
    Hm Hc ltac:(lia) Hr) as Ha.
  unfold tmi_rate, txd_tx_rate. cbv zeta. unfold rate_agrees in Ha.
  destruct (tx_rate_to_tmi Release _ _ _ _ _) as [r| |]; [|done..]. simpl.
  destruct Ha as (Hu & Hmode & Hnss & Hrep). exists r. split_and!; [done..|].
  rewrite rate_encode_flags, Hrep. done.
Qed.

Lemma tx_rx_rate_agree_witness :
  let params := probe_req_params 64 24 1 3 in
  ∃ r, txd_tx_rate Debug params = Done r ∧ is_uint 12 r ∧ bits 6 3 r = 1 ∧ 1 + bits 9 2 r = 1 ∧
    rate_encode (bits 0 6 r) (bits 6 3 r) 1 0 = 0x40 + 7.
Proof. apply (tx_rx_rate_agree Debug (probe_req_params 64 24 1 3) 1 0); vm_decide. Defined.
