(* ===== verification/Frame.v ===== *)
(** * 802.11 management frames

    The vocabulary of management frames that the station and the access point
    share: headers, information elements, and how a body decomposes into
    elements.  Nothing here is code of the driver; the frames its builders
    write and its parsers read are stated in these terms. *)

From S2P Require Import Prelude Rust Util.
Local Open Scope Z_scope.

(** Frame control, duration 0, three addresses, sequence control 0. *)
Definition mgmt_header (fc : Z) (da sa bssid : list Z) : list Z :=
  [fc; 0; 0; 0] ++ da ++ sa ++ bssid ++ [0; 0].

Definition broadcast : list Z := replicate 6 0xFF.

(** An information element; the length octet is what the builders write. *)
Definition element (id : Z) (payload : list Z) : list Z :=
  id :: as_u8 (Z.of_nat (length payload)) :: payload.

Definition supported_rates : list Z := [0x82; 0x84; 0x8b; 0x96; 0x24; 0x30; 0x48; 0x6c].

Definition elements (es : list (Z * list Z)) : list Z :=
  concat ((λ e, element e.1 e.2) <$> es).

(** The first element of a body, if one with a payload is complete. *)
Definition next_element (l : list Z) : option (Z * list Z * list Z) :=
  match l with
  | id :: len :: l' =>
      let n := Z.to_nat len in
      if decide (n = 0 ∨ length l' < n)%nat then None
      else Some (id, take n l', drop n l')
  | _ => None
  end.

(** [Elements l es]: scanned from the front, the body [l] yields the elements
    [es]; scanning stops at an empty or incomplete element. *)
Inductive Elements : list Z → list (Z * list Z) → Prop :=
| elements_stop l : next_element l = None → Elements l []
| elements_next l id payload rest es :
    next_element l = Some (id, payload, rest) →
    Elements rest es →
    Elements l ((id, payload) :: es).

Lemma next_element_shorter l id payload rest :
  next_element l = Some (id, payload, rest) →
  (length rest + 3 ≤ length l)%nat ∧ (0 < length payload)%nat.
Proof.
  destruct l as [|i [|len l]]; try done. simpl. case_decide as Hn; [done|].
  intros [= <- <- <-]. list_len.
Qed.

Lemma Elements_det l es1 es2 : Elements l es1 → Elements l es2 → es1 = es2.
Proof.
  intros H1. revert es2. induction H1; intros es2 H2; inversion H2; simplify_eq; [done|].
  f_equal; auto.
Qed.

Lemma Elements_payload l es :
  Elements l es → Forall (λ e, 0 < length e.2)%nat es.
Proof.
  induction 1 as [|l id payload rest es Hn _ IH]; constructor; [|done].
  by apply next_element_shorter in Hn as [].
Qed.

Lemma next_element_app id payload rest :
  (0 < length payload ≤ 255)%nat →
  next_element (element id payload ++ rest) = Some (id, payload, rest).
Proof.
  intros Hp. unfold element. simpl.
  unfold wrap. rewrite Z.mod_small by lia. rewrite Nat2Z.id.
  rewrite decide_False by list_len. by rewrite take_app_length, drop_app_length.
Qed.

(** Encoded elements are scanned back. *)
Lemma Elements_app es rest es' :
  Forall (λ e, 0 < length e.2 ≤ 255)%nat es → Elements rest es' →
  Elements (elements es ++ rest) (es ++ es').
Proof.
  intros HF Hr. induction HF as [|[id payload] es Hp _ IH]; simpl; [done|].
  unfold elements in *. cbn [fmap list_fmap concat fst snd]. rewrite <-app_assoc.
  eapply elements_next; [by apply next_element_app|done].
Qed.

Lemma Elements_empty_element id rest : Elements (element id [] ++ rest) [].
Proof. by apply elements_stop. Qed.

Lemma Elements_nil : Elements [] [].
Proof. by apply elements_stop. Qed.
#[export] Hint Resolve Elements_nil : rust.

(** A builder that clears the frame area and then fills it in: [ns] are the
    lengths of the areas its stores cover. *)
Ltac build_frame ns :=
  unfold supported_rates;
  rewrite bind_fill by lia; rewrite Nat.sub_0_r, splice_all by list_len;
  rewrite length_replicate;
  match goal with |- context [drop ?n ?buf] => generalize (drop n buf) end; intro;
  rewrite (replicate_segments ns) by (simpl; lia);
  cbn [fmap list_fmap concat]; rewrite <-!app_assoc; cbv zeta;
  repeat (build_step'; splice_norm).
