(* ===== verification/Sta.v ===== *)
(** * Station mode (src/rust/src/sta.rs)

    Probe requests, the beacon parser with its information-element loop, and
    the register sequence that programs the two station entries of the
    wireless table (WTBL). *)

From S2P Require Import Prelude Rust Ffi Util Frame.
Local Open Scope Z_scope.
Local Open Scope nat_scope.

(** ** [build_probe_request] *)

Definition build_probe_request (ssid src_mac : list Z) : builder Z nat :=
  let total_len := 24 + 2 + length ssid + 10 in
  n ← out_len;
  if decide (n < total_len) then throw ENOSPC else
  out_fill 0 total_len 0%Z ;;
  out_set 0 0x40%Z ;;
  out_set 1 0x00%Z ;;
  out_fill 4 10 0xFF%Z ;;
  out_copy 10 16 src_mac ;;
  out_fill 16 22 0xFF%Z ;;
  out_set 22 0x00%Z ;;
  out_set 23 0x00%Z ;;
  let pos := 24 in
  out_set pos 0%Z ;;
  out_set (pos + 1) (as_u8 (Z.of_nat (length ssid))) ;;
  out_copy_bytes (pos + 2) (pos + 2 + length ssid) ssid ;;
  let pos := pos + (2 + length ssid) in
  out_set pos 1%Z ;;
  out_set (pos + 1) 8%Z ;;
  out_copy_bytes (pos + 2) (pos + 10) supported_rates ;;
  mret total_len.

(** ** [parse_beacon] *)

Definition set_ssid (info : StaBssInfo.t) (s : list Z) (n : Z) : StaBssInfo.t :=
  {| StaBssInfo.bssid := StaBssInfo.bssid info; StaBssInfo.ssid := s;
     StaBssInfo.ssid_len := n; StaBssInfo.channel := StaBssInfo.channel info;
     StaBssInfo.rssi := StaBssInfo.rssi info; StaBssInfo.capability := StaBssInfo.capability info |}.
Definition set_channel (info : StaBssInfo.t) (c : Z) : StaBssInfo.t :=
  {| StaBssInfo.bssid := StaBssInfo.bssid info; StaBssInfo.ssid := StaBssInfo.ssid info;
     StaBssInfo.ssid_len := StaBssInfo.ssid_len info; StaBssInfo.channel := c;
     StaBssInfo.rssi := StaBssInfo.rssi info; StaBssInfo.capability := StaBssInfo.capability info |}.

(** The two branches of the loop body on an element. *)
Definition take_element (info : StaBssInfo.t) (ie_id : Z) (ie_payload : list Z)
    : outcome StaBssInfo.t :=
  if (ie_id =? 0)%Z && (StaBssInfo.ssid_len info =? 0)%Z then
    let copy_len := length ie_payload `min` 32 in
    dst ← subslice (StaBssInfo.ssid info) 0 copy_len;
    src ← subslice ie_payload 0 copy_len;
    d ← copy_bytes dst src;
    mret (set_ssid info (d ++ drop copy_len (StaBssInfo.ssid info))
            (as_u8 (Z.of_nat copy_len)))
  else if (ie_id =? 3)%Z && bool_decide (1 ≤ length ie_payload) then
    c ← index ie_payload 0;
    mret (set_channel info c)
  else mret info.

(** The [while] loop; every turn advances [pos] by at least 3, so the length
    of the frame is enough fuel ([ie_loop_refines]). *)
Fixpoint ie_loop (fuel : nat) (frame_buf : list Z) (pos : nat) (info : StaBssInfo.t)
    : outcome StaBssInfo.t :=
  match fuel with
  | O => Undefined
  | S fuel =>
      if decide (pos + 2 ≤ length frame_buf) then
        ie_id ← index frame_buf pos;
        l ← index frame_buf (pos + 1);
        let ie_len := Z.to_nat l in
        if decide (ie_len = 0 ∨ length frame_buf < pos + 2 + ie_len) then mret info else
        ie_payload ← subslice frame_buf (pos + 2) (pos + 2 + ie_len);
        info ← take_element info ie_id ie_payload;
        ie_loop fuel frame_buf (pos + (2 + ie_len)) info
      else mret info
  end.

Definition parse_beacon (frame_buf : list Z) : outcome (result StaBssInfo.t) :=
  if decide (length frame_buf < 36) then Done (Err EINVAL) else
  b ← subslice frame_buf 16 22;
  bssid ← copy_from_slice (StaBssInfo.bssid StaBssInfo.default) b;
  c0 ← index frame_buf 34; c1 ← index frame_buf 35;
  let info := {|
    StaBssInfo.bssid := bssid; StaBssInfo.ssid := StaBssInfo.ssid StaBssInfo.default;
    StaBssInfo.ssid_len := 0; StaBssInfo.channel := 0; StaBssInfo.rssi := 0;
    StaBssInfo.capability := u16_from_le_bytes c0 c1 |} in
  info ← ie_loop (length frame_buf) frame_buf 36 info;
  mret (Ok info).

(** ** WTBL programming *)

Local Open Scope Z_scope.
Definition WTBL1_BASE : Z := 0x00028000.
Definition WTBL1_ENTRY_SIZE : Z := 0x20.
Definition WTBL1OR : Z := 0x0002A300.
Definition WTBL3_KEY_BASE : Z := 0x00042000.
Definition WTBL3_ENTRY_SIZE : Z := 0x40.

(** [(fid2, eid2, fid3, eid3, fid4, eid4)] *)
Definition wtbl_entry234 (wcid : Z) : Z * Z * Z * Z * Z * Z :=
  let PAGE_SIZE := 128 in
  let ecnt2 := PAGE_SIZE / 64 in
  let ecnt3 := PAGE_SIZE / 64 in
  let ecnt4 := PAGE_SIZE / 32 in
  let page_cnt2 := (128 + ecnt2 - 1) / ecnt2 in
  let page_cnt3 := (128 + ecnt3 - 1) / ecnt3 in
  let base_fid2 := 0 in
  let base_fid3 := base_fid2 + page_cnt2 in
  let base_fid4 := base_fid3 + page_cnt3 in
  let page_off2 := wcid / ecnt2 in
  let elem_off2 := wcid mod ecnt2 in
  let page_off3 := wcid / ecnt3 in
  let elem_off3 := wcid mod ecnt3 in
  let page_off4 := wcid / ecnt4 in
  let elem_off4 := wcid mod ecnt4 in
  let fid2 := base_fid2 + page_off2 in
  let eid2 := elem_off2 in
  let fid3 := base_fid3 + page_off3 in
  let eid3 := elem_off3 * 2 in
  let fid4 := base_fid4 + page_off4 in
  let eid4 := elem_off4 in
  (fid2, eid2, fid3, eid3, fid4, eid4).

Definition wtbl_dw3_dw4 (wcid : Z) : Z * Z :=
  let '(fid2, eid2, fid3, eid3, fid4, eid4) := wtbl_entry234 wcid in
  let dw3 := Z.lor (Z.lor (Z.lor (Z.lor (shl32 1 29) (shl32 1 28)) fid2)
    (shl32 eid2 11)) (shl32 fid4 16) in
  let dw4 := Z.lor (Z.lor fid3 (shl32 eid3 11)) (shl32 eid4 17) in
  (dw3, dw4).

Definition dw0_mcast : Z :=
  Z.lor (Z.lor (Z.lor (Z.lor (Z.lor (shl32 1 29) (shl32 1 28)) (shl32 1 22))
    (shl32 0x0E 16)) (shl32 0xFF 8)) 0xFF.
Definition dw1_mcast : Z := 0xFFFFFFFF.
Definition dw2_mcast : Z := 0x00000000.
Definition dw0_ap (b4 b5 : Z) : Z :=
  Z.lor (Z.lor (Z.lor (shl32 1 29) (shl32 1 28)) (shl32 b5 8)) b4.
Definition dw2_ap : Z :=
  Z.lor (Z.lor (Z.lor (Z.lor (shl32 1 30) (shl32 1 28)) (shl32 1 27)) (shl32 1 21)) (shl32 1 20).

Local Open Scope rust_scope.

Definition build_wtbl_sta_sequence (bssid : list Z) : builder RegWriteOp nat :=
  n ← out_len;
  if decide (n < 12)%nat then throw ENOSPC else
  let '(dw3_mcast, dw4_mcast) := wtbl_dw3_dw4 0 in
  b5 ← lift (index bssid 5); b4 ← lift (index bssid 4);
  b0 ← lift (index bssid 0); b1 ← lift (index bssid 1);
  b2 ← lift (index bssid 2); b3 ← lift (index bssid 3);
  let dw0_ap := dw0_ap b4 b5 in
  let dw1_ap := u32_from_le_bytes b0 b1 b2 b3 in
  let '(dw3_ap, dw4_ap) := wtbl_dw3_dw4 1 in
  out_set 0 (WTBL1_BASE ↤ dw0_mcast) ;;
  out_set 1 (WTBL1_BASE + 0x04 ↤ dw1_mcast) ;;
  out_set 2 (WTBL1_BASE + 0x08 ↤ dw2_mcast) ;;
  out_set 3 (WTBL1_BASE + WTBL1_ENTRY_SIZE ↤ dw0_ap) ;;
  out_set 4 (WTBL1_BASE + WTBL1_ENTRY_SIZE + 0x04 ↤ dw1_ap) ;;
  out_set 5 (WTBL1_BASE + WTBL1_ENTRY_SIZE + 0x08 ↤ dw2_ap) ;;
  out_set 6 (WTBL1OR ↤ 0x80000000) ;;
  out_set 7 (WTBL1_BASE + 0x0C ↤ dw3_mcast) ;;
  out_set 8 (WTBL1_BASE + 0x10 ↤ dw4_mcast) ;;
  out_set 9 (WTBL1_BASE + WTBL1_ENTRY_SIZE + 0x0C ↤ dw3_ap) ;;
  out_set 10 (WTBL1_BASE + WTBL1_ENTRY_SIZE + 0x10 ↤ dw4_ap) ;;
  out_set 11 (WTBL1OR ↤ 0x00000000) ;;
  mret 12%nat.

(** ** Frames built *)

Local Open Scope nat_scope.

Definition probe_request_frame (ssid src_mac : list Z) : list Z :=
  mgmt_header 0x40 broadcast src_mac broadcast ++ element 0 ssid ++ element 1 supported_rates.

Lemma probe_request_builds ssid src_mac :
  length src_mac = 6 → Builds (build_probe_request ssid src_mac) (probe_request_frame ssid src_mac).
Proof.
  intros Hm.
  assert (Hlen : length (probe_request_frame ssid src_mac) = 24 + 2 + length ssid + 10)
    by (unfold probe_request_frame, mgmt_header, element, broadcast, supported_rates; list_len).
  split; intros buf Hl; rewrite Hlen in *; unfold build_probe_request; rewrite bind_len;
    [rewrite decide_False by lia|by rewrite decide_True by lia].
  build_frame [1; 1; 2; 6; 6; 6; 1; 1; 1; 1; length ssid; 1; 1; 8].
  unfold probe_request_frame, mgmt_header, element, broadcast, supported_rates. by rewrite <-!app_assoc.
Qed.

(** ** Beacons parsed *)

Definition absorb (info : StaBssInfo.t) (e : Z * list Z) : StaBssInfo.t :=
  if decide (e.1 = 0%Z ∧ StaBssInfo.ssid_len info = 0%Z) then
    set_ssid info (take 32 e.2 ++ drop (length e.2 `min` 32) (StaBssInfo.ssid info))
      (Z.of_nat (length e.2 `min` 32))
  else if decide (e.1 = 3%Z) then set_channel info (hd 0%Z e.2)
  else info.

Lemma take_element_absorb info id payload :
  length (StaBssInfo.ssid info) = 32 → 0 < length payload →
  take_element info id payload = Done (absorb info (id, payload)).
Proof.
  intros Hs Hp. unfold take_element, absorb. cbn [fst snd].
  destruct (Z.eqb_spec id 0), (Z.eqb_spec (StaBssInfo.ssid_len info) 0); cbn [andb];
    [rewrite decide_True by done|rewrite decide_False by tauto..].
  { cbv zeta. rewrite (subslice_done (StaBssInfo.ssid info)), (subslice_done payload) by lia.
    cbn [mbind outcome_bind]. rewrite copy_bytes_done by list_len.
    cbn [mbind outcome_bind]. unfold mret, outcome_ret. do 2 f_equal.
    - rewrite !drop_0, !Nat.sub_0_r. rewrite drop_ge by list_len.
      rewrite app_nil_r. f_equal.
      destruct (decide (length payload ≤ 32)).
      + rewrite Nat.min_l by lia. by rewrite !take_ge by lia.
      + by rewrite Nat.min_r by lia.
    - unfold wrap. apply Z.mod_small. lia. }
  all: destruct (Z.eqb_spec id 3); cbn [andb];
    [rewrite bool_decide_true by lia; rewrite decide_True by done;
     destruct payload; [simpl in Hp; lia|done]
    |by rewrite decide_False].
Qed.

Lemma absorb_length info e :
  length (StaBssInfo.ssid info) = 32 → length (StaBssInfo.ssid (absorb info e)) = 32.
Proof. intros. unfold absorb. repeat case_decide; simpl; [list_len|done..]. Qed.

(** The element the loop sees at [pos]. *)
Lemma next_element_at (l : list Z) pos id len :
  pos + 2 ≤ length l → l !! pos = Some id → l !! (pos + 1) = Some len →
  next_element (drop pos l) =
  if decide (Z.to_nat len = 0 ∨ length l < pos + 2 + Z.to_nat len) then None
  else Some (id, take (Z.to_nat len) (drop (pos + 2) l), drop (pos + (2 + Z.to_nat len)) l).
Proof.
  intros Hp Hid Hlen.
  rewrite (drop_S _ id pos), (drop_S _ len (S pos)) by (done || by rewrite <-Nat.add_1_r).
  replace (S (S pos)) with (pos + 2) by lia.
  simpl. rewrite length_drop, drop_drop.
  replace (pos + 2 + Z.to_nat len) with (pos + (2 + Z.to_nat len)) by lia.
  by repeat case_decide; try done; lia.
Qed.

(** The loop is a fold over the elements of the body, and the fuel given to
    it is enough. *)
Lemma ie_loop_refines fuel frame_buf pos info :
  pos ≤ length frame_buf → length frame_buf < pos + fuel →
  length (StaBssInfo.ssid info) = 32 →
  ∃ es, Elements (drop pos frame_buf) es ∧
    ie_loop fuel frame_buf pos info = Done (foldl absorb info es).
Proof.
  revert pos info. induction fuel as [|fuel IH]; intros pos info Hpos Hf Hs; [lia|].
  cbn [ie_loop]. case_decide as Hp.
  2:{ exists []. split; [|done]. apply elements_stop.
      assert (length (drop pos frame_buf) < 2) by list_len.
      by destruct (drop pos frame_buf) as [|? [|? ?]]; [..|simpl in *; lia]. }
  destruct (index_lt frame_buf pos) as (id & Hid & ->); [lia|].
  destruct (index_lt frame_buf (pos + 1)) as (len & Hlen & ->); [lia|].
  cbn [mbind outcome_bind]. cbv zeta.
  pose proof (next_element_at frame_buf pos id len Hp Hid Hlen) as Hn.
  case_decide as Hbrk; [exists []; split; [by apply elements_stop|done]|].
  rewrite subslice_done by lia.
  replace (pos + 2 + Z.to_nat len - (pos + 2)) with (Z.to_nat len) by lia.
  cbn [mbind outcome_bind].
  rewrite take_element_absorb by list_len. cbn [mbind outcome_bind].
  destruct (IH (pos + (2 + Z.to_nat len)) (absorb info (id, take (Z.to_nat len) (drop (pos + 2) frame_buf))))
    as (es & Hes & ->); [lia|lia|by apply absorb_length|].
  eexists (_ :: es). split; [by eapply elements_next|done].
Qed.

(** What the fold computes: the first SSID element and the last DS parameter
    set, whatever lies between. *)
Definition with_id (id : Z) (es : list (Z * list Z)) : list (Z * list Z) :=
  filter (λ e, e.1 = id) es.

Lemma with_id_snoc id es e :
  with_id id (es ++ [e]) = if decide (e.1 = id) then with_id id es ++ [e] else with_id id es.
Proof.
  unfold with_id. rewrite filter_app, filter_cons, filter_nil.
  by repeat case_decide; rewrite ?app_nil_r.
Qed.

Definition beacon_info (bssid : list Z) (capability : Z) (es : list (Z * list Z))
    : StaBssInfo.t := {|
  StaBssInfo.bssid := bssid;
  StaBssInfo.ssid := match head (with_id 0 es) with
    | Some e => take 32 e.2 ++ replicate (32 - length e.2) 0%Z
    | None => replicate 32 0%Z end;
  StaBssInfo.ssid_len := match head (with_id 0 es) with
    | Some e => Z.of_nat (length e.2 `min` 32) | None => 0%Z end;
  StaBssInfo.channel := match last (with_id 3 es) with Some e => hd 0%Z e.2 | None => 0%Z end;
  StaBssInfo.rssi := 0; StaBssInfo.capability := capability |}.

Lemma fold_absorb_beacon bssid cap es :
  Forall (λ e, 0 < length e.2) es →
  foldl absorb (beacon_info bssid cap []) es = beacon_info bssid cap es.
Proof.
  induction es as [|e es IH] using rev_ind; [done|].
  intros [HF Hp]%Forall_app. apply Forall_singleton in Hp.
  rewrite foldl_app, IH by done. cbn [foldl]. clear IH.
  unfold absorb, beacon_info. cbn [StaBssInfo.ssid_len StaBssInfo.ssid].
  rewrite !with_id_snoc.
  destruct (decide (e.1 = 0%Z)) as [He0|He0].
  - rewrite !(decide_False (P := e.1 = 3%Z)) by lia.
    destruct (with_id 0 es) as [|e0 l] eqn:E; cbn [head app].
    + rewrite decide_True by done. unfold set_ssid. cbn [StaBssInfo.bssid
        StaBssInfo.ssid StaBssInfo.ssid_len StaBssInfo.channel StaBssInfo.rssi
        StaBssInfo.capability]. rewrite drop_replicate.
      by replace (32 - length e.2 `min` 32) with (32 - length e.2) by lia.
    + assert (e0 ∈ with_id 0 es) as [_ Hin]%list_elem_of_filter by (rewrite E; set_solver).
      rewrite Forall_forall in HF. apply HF in Hin.
      by repeat rewrite decide_False by lia.
  - rewrite (decide_False (P := e.1 = 0%Z ∧ _)) by tauto.
    destruct (decide (e.1 = 3%Z)); [by rewrite last_snoc|done].
Qed.

Lemma parse_beacon_elements frame_buf :
  36 ≤ length frame_buf →
  ∃ es, Elements (drop 36 frame_buf) es ∧
    parse_beacon frame_buf = Done (Ok (beacon_info (take 6 (drop 16 frame_buf))
      (u16_from_le_bytes (nth 34 frame_buf 0%Z) (nth 35 frame_buf 0%Z)) es)).
Proof.
  intros Hl. unfold parse_beacon. rewrite decide_False by lia.
  rewrite subslice_done by lia. cbn [mbind outcome_bind].
  rewrite copy_from_slice_done by (cbn [StaBssInfo.bssid StaBssInfo.default]; list_len).
  rewrite (index_nth _ 34 0%Z), (index_nth _ 35 0%Z) by lia. cbn [mbind outcome_bind].
  cbv zeta.
  set (info := {| StaBssInfo.ssid_len := 0 |}).
  destruct (ie_loop_refines (length frame_buf) frame_buf 36 info) as (es & Hes & ->); [lia..|done|].
  exists es. split; [done|]. cbn [mbind outcome_bind]. unfold mret, outcome_ret. do 2 f_equal.
  by rewrite <-fold_absorb_beacon by by eapply Elements_payload.
Qed.

(** ** Correctness *)

(** A probe request is the broadcast management frame with exactly the
    SSID and supported-rates elements, or -ENOSPC with nothing written. *)
Theorem build_probe_request_spec ssid src_mac buf :
  length src_mac = 6 →
  let frame := probe_request_frame ssid src_mac in
  build_probe_request ssid src_mac buf =
    (if decide (length frame ≤ length buf)
     then Done (Ok (length frame), frame ++ drop (length frame) buf)
     else Done (Err ENOSPC, buf)) ∧
  (1 ≤ length ssid ≤ 255 →
   Elements (drop 24 frame) [(0%Z, ssid); (1%Z, supported_rates)]).
Proof.
  intros Hm. cbv zeta. pose proof (probe_request_builds ssid src_mac Hm) as [Hok Herr].
  split; [case_decide; [by apply Hok|apply Herr; lia]|]. intros Hs.
  unfold probe_request_frame.
  rewrite drop_app_length' by (unfold mgmt_header, broadcast; list_len).
  replace (element 0 ssid ++ element 1 supported_rates)
    with (elements [(0%Z, ssid); (1%Z, supported_rates)] ++ [])
    by (unfold elements; simpl; by rewrite !app_nil_r).
  rewrite <-(app_nil_r [_; _]).
  apply Elements_app; [|apply Elements_nil]. apply Forall_cons; split; [simpl; lia|]. vm_decide.
Qed.

Lemma build_probe_request_spec_witness :
  build_probe_request [0x61%Z] [2; 0; 0; 0; 0; 1]%Z (replicate 40 7%Z) =
  Done (Ok 37, [0x40; 0; 0; 0; 255; 255; 255; 255; 255; 255; 2; 0; 0; 0; 0; 1;
                255; 255; 255; 255; 255; 255; 0; 0; 0; 1; 0x61; 1; 8;
                0x82; 0x84; 0x8b; 0x96; 0x24; 0x30; 0x48; 0x6c; 7; 7; 7]%Z).
Proof. exact (proj1 (build_probe_request_spec [0x61%Z] [2; 0; 0; 0; 0; 1]%Z (replicate 40 7%Z) eq_refl)). Defined.

(** C29. The beacon parser is total on every received frame, malformed bodies
    included: it terminates, never reads or writes out of bounds, and its
    result is a function of the elements the body decomposes into - the first
    SSID element (cut to 32 bytes), the last DS parameter set, the address
    and the capability word; a frame shorter than 36 bytes is -EINVAL. *)
Theorem parse_beacon_refines frame_buf :
  if decide (length frame_buf < 36) then parse_beacon frame_buf = Done (Err EINVAL)
  else ∃ es, Elements (drop 36 frame_buf) es ∧
    (∀ es', Elements (drop 36 frame_buf) es' → es' = es) ∧
    parse_beacon frame_buf = Done (Ok (beacon_info (take 6 (drop 16 frame_buf))
      (u16_from_le_bytes (nth 34 frame_buf 0%Z) (nth 35 frame_buf 0%Z)) es)).
Proof.
  case_decide as Hl; [unfold parse_beacon; by rewrite decide_True|].
  destruct (parse_beacon_elements frame_buf) as (es & Hes & ->); [lia|].
  exists es. split_and!; [done| |done]. intros es' Hes'. by eapply Elements_det.
Qed.

(** Whatever a transmitter puts in a beacon, the parsed SSID fits its
    32-byte field: the length the C side trusts is at most 32, the bytes past
    it are zero, and the address has six bytes. *)
Theorem parse_beacon_bounds frame_buf info :
  parse_beacon frame_buf = Done (Ok info) →
  (0 ≤ StaBssInfo.ssid_len info ≤ 32)%Z ∧ length (StaBssInfo.ssid info) = 32 ∧
  drop (Z.to_nat (StaBssInfo.ssid_len info)) (StaBssInfo.ssid info) =
    replicate (32 - Z.to_nat (StaBssInfo.ssid_len info)) 0%Z ∧
  length (StaBssInfo.bssid info) = 6.
Proof.
  intros Hp. destruct (decide (length frame_buf < 36)) as [Hl|Hl].
  { unfold parse_beacon in Hp. by rewrite decide_True in Hp. }
  destruct (parse_beacon_elements frame_buf) as (es & _ & Heq); [lia|].
  rewrite Heq in Hp. injection Hp as <-. unfold beacon_info. cbn.
  destruct (head (with_id 0 es)) as [e|]; [|by split_and!; first [done|list_len]].
  rewrite Nat2Z.id. split_and!; [lia|lia|list_len| |list_len].
  rewrite drop_app_length' by list_len. f_equal. lia.
Qed.

Lemma parse_beacon_bounds_witness :
  let info := beacon_info (replicate 6 1%Z) 257 [(0%Z, [9%Z])] in
  (0 ≤ StaBssInfo.ssid_len info ≤ 32)%Z ∧ length (StaBssInfo.ssid info) = 32 ∧
  drop (Z.to_nat (StaBssInfo.ssid_len info)) (StaBssInfo.ssid info) =
    replicate (32 - Z.to_nat (StaBssInfo.ssid_len info)) 0%Z ∧
  length (StaBssInfo.bssid info) = 6.
Proof. apply (parse_beacon_bounds (replicate 36 1 ++ [0; 1; 9; 0; 40; 1])%Z). by vm_compute. Defined.

(** ** The wireless table *)

Local Open Scope Z_scope.

Definition wtbl_sta_ops (bssid : list Z) : list RegWriteOp :=
  let b i := nth i bssid 0 in [
  WTBL1_BASE ↤ dw0_mcast;
  WTBL1_BASE + 0x04 ↤ dw1_mcast;
  WTBL1_BASE + 0x08 ↤ dw2_mcast;
  WTBL1_BASE + WTBL1_ENTRY_SIZE ↤ dw0_ap (b 4%nat) (b 5%nat);
  WTBL1_BASE + WTBL1_ENTRY_SIZE + 0x04 ↤
    u32_from_le_bytes (b 0%nat) (b 1%nat) (b 2%nat) (b 3%nat);
  WTBL1_BASE + WTBL1_ENTRY_SIZE + 0x08 ↤ dw2_ap;
  WTBL1OR ↤ 0x80000000;
  WTBL1_BASE + 0x0C ↤ (wtbl_dw3_dw4 0).1;
  WTBL1_BASE + 0x10 ↤ (wtbl_dw3_dw4 0).2;
  WTBL1_BASE + WTBL1_ENTRY_SIZE + 0x0C ↤ (wtbl_dw3_dw4 1).1;
  WTBL1_BASE + WTBL1_ENTRY_SIZE + 0x10 ↤ (wtbl_dw3_dw4 1).2;
  WTBL1OR ↤ 0 ].

Lemma wtbl_sta_builds bssid :
  length bssid = 6%nat → Builds (build_wtbl_sta_sequence bssid) (wtbl_sta_ops bssid).
Proof.
  intros Hb. split; intros buf Hl; unfold build_wtbl_sta_sequence; rewrite bind_len;
    cbn [wtbl_sta_ops length] in Hl.
  - rewrite decide_False by lia. cbv beta iota zeta delta [wtbl_dw3_dw4 wtbl_entry234].
    do 6 (erewrite bind_lift; [|apply (index_nth _ _ 0); lia]).
    do 12 (destruct buf as [|? buf]; [simpl in Hl; lia|]). done.
  - by rewrite decide_True by lia.
Qed.

(** One WTBL1 entry as the MAC reads it. *)
Record WtblEntry := {
  w_valid : bool; w_rc_a1 : bool; w_rc_a2 : bool; w_muar_idx : Z; w_addr : list Z;
  w_admitted : bool; w_psm : Z;
  w_wtbl2 : Z; w_wtbl3 : Z; w_wtbl4 : Z;
}.

(** [entry_of regs base]: the record at [base]; a cross link is the byte
    offset in packet memory of the slot that page [fid] (128 bytes) and
    element [eid] name - 64-byte elements for WTBL2, 32-byte units for WTBL3
    and WTBL4. *)
Definition entry_of (regs : Z → Z) (base : Z) : WtblEntry :=
  let dw k := regs (base + 4 * k) in
  {| w_valid := Z.testbit (dw 0) 28; w_rc_a2 := Z.testbit (dw 0) 29;
     w_rc_a1 := Z.testbit (dw 0) 22; w_muar_idx := bits 16 6 (dw 0);
     w_addr := u32_to_le_bytes (dw 1) ++ [bits 0 8 (dw 0); bits 8 8 (dw 0)];
     w_admitted := Z.testbit (dw 2) 30; w_psm := bits 28 2 (dw 3);
     w_wtbl2 := bits 0 11 (dw 3) * 128 + bits 11 5 (dw 3) * 64;
     w_wtbl3 := bits 0 11 (dw 4) * 128 + bits 11 6 (dw 4) * 32;
     w_wtbl4 := bits 16 11 (dw 3) * 128 + bits 17 6 (dw 4) * 32 |}.

(** DW3 and DW4 of the WTBL1 entries take their power-save fields only while
    WTBL1OR has PSM_W_FLAG (bit 31) set.  [psm_run] follows that flag through
    a sequence and fails on a guarded write while it is clear. *)
Definition psm_guarded (a : Z) : bool :=
  (WTBL1_BASE <=? a) && (a <? WTBL1_BASE + 128 * WTBL1_ENTRY_SIZE) &&
  bool_decide ((a - WTBL1_BASE) mod WTBL1_ENTRY_SIZE ∈ [0x0C; 0x10]).
Fixpoint psm_run (unlocked : bool) (ops : list RegWriteOp) : option bool :=
  match ops with
  | [] => Some unlocked
  | op :: ops =>
      if addr op =? WTBL1OR then psm_run (Z.testbit (val op) 31) ops
      else if psm_guarded (addr op) && negb unlocked then None
      else psm_run unlocked ops
  end.

(** Cross links: for each of the 128 stations the page and element
    numbers packed into DW3 and DW4 do not overlap and name exactly the
    station's slot in the WTBL2, WTBL3 and WTBL4 arrays, which follow each
    other in packet memory; so no two stations share a key slot. *)
Theorem wtbl_links_slots wcid regs base :
  0 ≤ wcid < 128 →
  regs (base + 4 * 3) = (wtbl_dw3_dw4 wcid).1 → regs (base + 4 * 4) = (wtbl_dw3_dw4 wcid).2 →
  let e := entry_of regs base in
  w_wtbl2 e = wcid * 64 ∧
  w_wtbl3 e = 128 * 64 + wcid * WTBL3_ENTRY_SIZE ∧
  w_wtbl4 e = 2 * 128 * 64 + wcid * 32 ∧
  w_psm e = 3.
Proof.
  intros Hw H3 H4. unfold entry_of. cbn [w_wtbl2 w_wtbl3 w_wtbl4 w_psm]. rewrite H3, H4.
  clear H3 H4. pattern wcid. eapply (range_forall _ 0 128); [by vm_compute|lia].
Qed.

Lemma wtbl_links_slots_witness :
  let regs a := if a =? 12 then (wtbl_dw3_dw4 5).1 else (wtbl_dw3_dw4 5).2 in
  let e := entry_of regs 0 in
  w_wtbl2 e = 5 * 64 ∧ w_wtbl3 e = 128 * 64 + 5 * WTBL3_ENTRY_SIZE ∧
  w_wtbl4 e = 2 * 128 * 64 + 5 * 32 ∧ w_psm e = 3.
Proof.
  by apply (wtbl_links_slots 5 (λ a, if a =? 12 then (wtbl_dw3_dw4 5).1 else (wtbl_dw3_dw4 5).2) 0).
Defined.

Lemma dw0_ap_fields b4 b5 :
  is_u8 b4 → is_u8 b5 →
  bits 28 1 (dw0_ap b4 b5) = 1 ∧ bits 29 1 (dw0_ap b4 b5) = 1 ∧ bits 22 1 (dw0_ap b4 b5) = 0 ∧
  bits 16 6 (dw0_ap b4 b5) = 0 ∧ bits 0 8 (dw0_ap b4 b5) = b4 ∧ bits 8 8 (dw0_ap b4 b5) = b5.
Proof. intros. unfold dw0_ap. split_and!; by bitfield. Qed.

(** The record at an entry whose five words are those of the sequence. *)
Lemma ap_entry (regs : Z → Z) (base b0 b1 b2 b3 b4 b5 : Z) :
  is_u8 b0 → is_u8 b1 → is_u8 b2 → is_u8 b3 → is_u8 b4 → is_u8 b5 →
  regs (base + 4 * 0) = dw0_ap b4 b5 → regs (base + 4 * 1) = u32_from_le_bytes b0 b1 b2 b3 →
  regs (base + 4 * 2) = dw2_ap → regs (base + 4 * 3) = (wtbl_dw3_dw4 1).1 →
  regs (base + 4 * 4) = (wtbl_dw3_dw4 1).2 →
  entry_of regs base =
    {| w_valid := true; w_rc_a1 := false; w_rc_a2 := true; w_muar_idx := 0;
       w_addr := [b0; b1; b2; b3; b4; b5]; w_admitted := true; w_psm := 3;
       w_wtbl2 := 64; w_wtbl3 := 0x2000 + 64; w_wtbl4 := 0x4000 + 32 |}.
Proof.
  intros ?????? E0 E1 E2 E3 E4. unfold entry_of. cbv zeta. rewrite E0, E1, E2, E3, E4, u32_to_from by done.
  destruct (dw0_ap_fields b4 b5) as (F28 & F29 & F22 & -> & -> & ->); [done..|].
  rewrite !(testbit_field (dw0_ap _ _)), F28, F29, F22 by lia. done.
Qed.

(** Association programs the wireless table: the twelve writes leave
    entry 1 valid, admitted, awake and addressed to the BSSID, and entry 0 the
    broadcast entry; the power-save words are written only while unlocked and
    the lock is closed at the end; nothing but the two entries and the lock is
    touched. *)
Theorem wtbl_sta_sequence_programs bssid buf n buf' :
  length bssid = 6%nat → Forall is_u8 bssid →
  build_wtbl_sta_sequence bssid buf = Done (Ok n, buf') →
  let ops := take n buf' in
  psm_run false ops = Some false ∧
  entry_of (last_write ops) WTBL1_BASE =
    {| w_valid := true; w_rc_a1 := true; w_rc_a2 := true; w_muar_idx := 0x0E;
       w_addr := replicate 6 0xFF; w_admitted := false; w_psm := 3;
       w_wtbl2 := 0; w_wtbl3 := 0x2000; w_wtbl4 := 0x4000 |} ∧
  entry_of (last_write ops) (WTBL1_BASE + WTBL1_ENTRY_SIZE) =
    {| w_valid := true; w_rc_a1 := false; w_rc_a2 := true; w_muar_idx := 0;
       w_addr := bssid; w_admitted := true; w_psm := 3;
       w_wtbl2 := 64; w_wtbl3 := 0x2000 + 64; w_wtbl4 := 0x4000 + 32 |} ∧
  Forall (λ op, addr op = WTBL1OR ∨ WTBL1_BASE ≤ addr op < WTBL1_BASE + 2 * WTBL1_ENTRY_SIZE) ops.
Proof.
  intros Hl HF Hb.
  destruct (builds_ok_inv _ _ (Builds0 := wtbl_sta_builds bssid Hl) _ _ _ Hb) as (_ & _ & Ht & _).
  cbv zeta. rewrite Ht. clear Hb Ht.
  do 6 (destruct bssid as [|? bssid]; [simpl in Hl; lia|]).
  destruct bssid; [|simpl in Hl; lia]. rewrite !Forall_cons in HF. destruct_and! HF.
  split_and!; [by vm_compute..|by apply ap_entry|vm_decide].
Qed.

Lemma wtbl_sta_sequence_programs_witness :
  let ops := wtbl_sta_ops [0x00; 0x11; 0x22; 0x33; 0x44; 0x55] in
  psm_run false ops = Some false ∧
  entry_of (last_write ops) WTBL1_BASE =
    {| w_valid := true; w_rc_a1 := true; w_rc_a2 := true; w_muar_idx := 0x0E;
       w_addr := replicate 6 0xFF; w_admitted := false; w_psm := 3;
       w_wtbl2 := 0; w_wtbl3 := 0x2000; w_wtbl4 := 0x4000 |} ∧
  entry_of (last_write ops) (WTBL1_BASE + WTBL1_ENTRY_SIZE) =
    {| w_valid := true; w_rc_a1 := false; w_rc_a2 := true; w_muar_idx := 0;
       w_addr := [0x00; 0x11; 0x22; 0x33; 0x44; 0x55]; w_admitted := true; w_psm := 3;
       w_wtbl2 := 64; w_wtbl3 := 0x2000 + 64; w_wtbl4 := 0x4000 + 32 |} ∧
  Forall (λ op, addr op = WTBL1OR ∨ WTBL1_BASE ≤ addr op < WTBL1_BASE + 2 * WTBL1_ENTRY_SIZE) ops.
Proof.
  apply (wtbl_sta_sequence_programs [0x00; 0x11; 0x22; 0x33; 0x44; 0x55]
    (replicate 12 (0 ↤ 0)) 12
    (wtbl_sta_ops [0x00; 0x11; 0x22; 0x33; 0x44; 0x55])); [done|vm_decide|by vm_compute].
Defined.
