(* ===== verification/Ap.v ===== *)
(** * Access point mode (src/rust/src/ap.rs)

    Beacons and association responses, the parser of association requests, and
    the register sequence that starts and stops beaconing.  Its beacons are
    read back with the station's parser (Sta.v). *)

From S2P Require Import Prelude Rust Ffi Util Frame Sta.
Local Open Scope nat_scope.
Local Open Scope rust_scope.

Definition build_beacon (ssid bssid : list Z) (channel : Z) : builder Z nat :=
  let total_len := 24 + 12 + 2 + length ssid + 10 + 3 in
  n ← out_len;
  if decide (n < total_len) then throw ENOSPC else
  out_fill 0 total_len 0%Z ;;
  out_set 0 0x80%Z ;;
  out_set 1 0x00%Z ;;
  out_fill 4 10 0xFF%Z ;;
  out_copy 10 16 bssid ;;
  out_copy 16 22 bssid ;;
  out_set 32 0x64%Z ;;
  out_set 33 0x00%Z ;;
  out_set 34 0x01%Z ;;
  out_set 35 0x00%Z ;;
  let pos := 36 in
  out_set pos 0%Z ;;
  out_set (pos + 1) (as_u8 (Z.of_nat (length ssid))) ;;
  out_copy_bytes (pos + 2) (pos + 2 + length ssid) ssid ;;
  let pos := pos + (2 + length ssid) in
  out_set pos 1%Z ;;
  out_set (pos + 1) 8%Z ;;
  out_copy_bytes (pos + 2) (pos + 10) supported_rates ;;
  let pos := pos + 10 in
  out_set pos 3%Z ;;
  out_set (pos + 1) 1%Z ;;
  out_set (pos + 2) channel ;;
  mret total_len.

Definition build_assoc_resp (sta_mac bssid : list Z) (aid status_code : Z) : builder Z nat :=
  let total_len := 24 + 6 + 10 in
  n ← out_len;
  if decide (n < total_len) then throw ENOSPC else
  out_fill 0 total_len 0%Z ;;
  out_set 0 0x10%Z ;;
  out_set 1 0x00%Z ;;
  out_copy 4 10 sta_mac ;;
  out_copy 10 16 bssid ;;
  out_copy 16 22 bssid ;;
  out_set 24 0x01%Z ;;
  out_set 25 0x00%Z ;;
  let status_bytes := u16_to_le_bytes status_code in
  out_set 26 (nth 0 status_bytes 0%Z) ;;
  out_set 27 (nth 1 status_bytes 0%Z) ;;
  let aid_val := Z.lor 0xC000 (Z.land aid 0x3FFF) in
  let aid_bytes := u16_to_le_bytes aid_val in
  out_set 28 (nth 0 aid_bytes 0%Z) ;;
  out_set 29 (nth 1 aid_bytes 0%Z) ;;
  let pos := 30 in
  out_set pos 1%Z ;;
  out_set (pos + 1) 8%Z ;;
  out_copy (pos + 2) (pos + 10) supported_rates ;;
  mret total_len.

(** [(sta_mac, capability, listen_interval)] *)
Definition parse_assoc_req (frame_buf : list Z) : outcome (result (list Z * Z * Z)) :=
  if decide (length frame_buf < 28) then Done (Err EINVAL) else
  f0 ← index frame_buf 0; f1 ← index frame_buf 1;
  let fc := u16_from_le_bytes f0 f1 in
  if negb (Z.land fc 0x00FC =? 0x0000)%Z && negb (Z.land fc 0x00FC =? 0x0020)%Z
  then mret (Err EINVAL) else
  s ← subslice frame_buf 10 16;
  sta_mac ← copy_from_slice (replicate 6 0%Z) s;
  c0 ← index frame_buf 24; c1 ← index frame_buf 25;
  l0 ← index frame_buf 26; l1 ← index frame_buf 27;
  mret (Ok (sta_mac, u16_from_le_bytes c0 c1, u16_from_le_bytes l0 l1)).

(** ** Beacon timing *)

Local Open Scope Z_scope.
Definition ARB_SCR : Z := 0x00021480.
Definition ARB_BCNQCR0 : Z := 0x00021518.
Definition ARB_BCNQCR1 : Z := 0x0002151C.
Definition LPON_T0CR : Z := 0x00024010.
Definition LPON_PISR : Z := 0x00024030.
Definition LPON_T0TPCR : Z := 0x00024034.
Definition LPON_MPTCR0 : Z := 0x0002405C.

Definition beacon_period_tu (beacon_period : Z) : Z :=
  if beacon_period =? 0 then 100 else beacon_period.

Definition bss_sync_enable_seq (period : Z) : list RegWriteOp := [
  LPON_T0TPCR ↤ Z.lor (Z.land period 0xFFFF) 0x80000000;
  LPON_MPTCR0 ↤ 0x00000099;
  LPON_PISR ↤ 0x00000050;
  LPON_T0CR ↤ 0x0000000C;
  ARB_SCR ↤ 0x00000001;
  ARB_BCNQCR0 ↤ 0x00000001
].
Definition bss_sync_disable_seq : list RegWriteOp := [
  LPON_T0TPCR ↤ 0x00000000;
  LPON_MPTCR0 ↤ 0x00000000;
  ARB_SCR ↤ 0x00000000;
  ARB_BCNQCR1 ↤ 0x00000001
].

(** [for (i, op) in seq.iter().enumerate() { out_ops[i] = *op }] *)
Fixpoint store_all (i : nat) (seq : list RegWriteOp) : builder RegWriteOp unit :=
  match seq with
  | [] => mret tt
  | op :: seq => out_set i op ;; store_all (S i) seq
  end.

Definition build_ap_bss_sync_sequence (beacon_period : Z) (enable : bool)
    : builder RegWriteOp nat :=
  if enable then
    let period := beacon_period_tu beacon_period in
    let seq := bss_sync_enable_seq period in
    n ← out_len;
    if decide (n < length seq)%nat then throw ENOSPC
    else store_all 0 seq ;; mret (length seq)
  else
    let seq := bss_sync_disable_seq in
    n ← out_len;
    if decide (n < length seq)%nat then throw ENOSPC
    else store_all 0 seq ;; mret (length seq).

(** ** Frames built *)

Local Open Scope nat_scope.

Definition beacon_frame (ssid bssid : list Z) (channel : Z) : list Z :=
  mgmt_header 0x80 broadcast bssid bssid ++
  (replicate 8 0 ++ [0x64; 0] ++ [1; 0])%Z ++
  elements [(0%Z, ssid); (1%Z, supported_rates); (3%Z, [channel])].

Definition assoc_resp_frame (sta_mac bssid : list Z) (aid status_code : Z) : list Z :=
  mgmt_header 0x10 sta_mac bssid bssid ++
  ([1; 0] ++ u16_to_le_bytes status_code ++ u16_to_le_bytes (Z.lor 0xC000 (bits 0 14 aid)))%Z ++
  element 1 supported_rates.

Lemma beacon_builds ssid bssid channel :
  length bssid = 6 → Builds (build_beacon ssid bssid channel) (beacon_frame ssid bssid channel).
Proof.
  intros Hm.
  assert (Hlen : length (beacon_frame ssid bssid channel) = 24 + 12 + 2 + length ssid + 10 + 3)
    by (unfold beacon_frame, mgmt_header, elements, element, broadcast, supported_rates;
        cbn [fmap list_fmap concat fst snd]; list_len).
  split; intros buf Hl; rewrite Hlen in *; unfold build_beacon; rewrite bind_len;
    [rewrite decide_False by lia|by rewrite decide_True by lia].
  build_frame [1; 1; 2; 6; 6; 6; 2; 8; 1; 1; 1; 1; 1; 1; length ssid; 1; 1; 8; 1; 1; 1].
  unfold beacon_frame, mgmt_header, elements, element, broadcast, supported_rates.
  cbn [fmap list_fmap concat fst snd]. by rewrite <-!app_assoc.
Qed.

Lemma assoc_resp_builds sta_mac bssid aid status_code :
  length sta_mac = 6 → length bssid = 6 →
  Builds (build_assoc_resp sta_mac bssid aid status_code)
         (assoc_resp_frame sta_mac bssid aid status_code).
Proof.
  intros Hs Hb.
  assert (Hlen : length (assoc_resp_frame sta_mac bssid aid status_code) = 24 + 6 + 10)
    by (unfold assoc_resp_frame, mgmt_header, element, supported_rates; list_len).
  split; intros buf Hl; rewrite Hlen in *; unfold build_assoc_resp; rewrite bind_len;
    [rewrite decide_False by lia|by rewrite decide_True by lia].
  build_frame [1; 1; 2; 6; 6; 6; 2; 1; 1; 1; 1; 1; 1; 1; 1; 8].
  unfold assoc_resp_frame, mgmt_header, element, supported_rates.
  rewrite (mask_bits aid 0x3FFF 14) by done. by rewrite <-!app_assoc.
Qed.

Lemma store_all_splice seq i (k : unit → builder RegWriteOp nat) buf :
  i + length seq ≤ length buf → (store_all i seq ≫= k) buf = k tt (splice i seq buf).
Proof.
  revert i buf. induction seq as [|op seq IH]; intros i buf Hl; cbn [store_all length] in *.
  { unfold splice. simpl. by rewrite Nat.add_0_r, take_drop. }
  rewrite bind_assoc, bind_set by lia. rewrite IH by list_len. f_equal.
  apply list_eq. intros j.
  rewrite !lookup_splice by (cbn [length]; list_len). cbn [length].
  repeat case_decide; try lia; try done.
  - by replace (j - i) with (S (j - S i)) by lia.
  - by replace (j - i) with 0 by lia.
Qed.

Definition bss_sync_ops (beacon_period : Z) (enable : bool) : list RegWriteOp :=
  if enable then bss_sync_enable_seq (beacon_period_tu beacon_period) else bss_sync_disable_seq.

#[export] Instance bss_sync_builds beacon_period enable :
  Builds (build_ap_bss_sync_sequence beacon_period enable) (bss_sync_ops beacon_period enable).
Proof.
  split; intros buf Hl; unfold build_ap_bss_sync_sequence, bss_sync_ops in *;
    destruct enable; cbv zeta; rewrite bind_len.
  - rewrite decide_False by lia. by rewrite store_all_splice, splice_all by lia.
  - rewrite decide_False by lia. by rewrite store_all_splice, splice_all by lia.
  - by rewrite decide_True by lia.
  - by rewrite decide_True by lia.
Qed.

(** The body of a beacon the access point sends, as a receiver scans it. *)
Lemma beacon_frame_body ssid bssid channel :
  length bssid = 6 →
  drop 36 (beacon_frame ssid bssid channel) =
    elements [(0%Z, ssid); (1%Z, supported_rates); (3%Z, [channel])] ∧
  take 6 (drop 16 (beacon_frame ssid bssid channel)) = bssid ∧
  nth 34 (beacon_frame ssid bssid channel) 0%Z = 1%Z ∧
  nth 35 (beacon_frame ssid bssid channel) 0%Z = 0%Z ∧
  36 ≤ length (beacon_frame ssid bssid channel).
Proof.
  intros Hb. do 6 (destruct bssid as [|? bssid]; [done|]). destruct bssid; [|done].
  unfold beacon_frame, mgmt_header, broadcast. cbn -[elements].
  split_and!; done || lia.
Qed.

Lemma parse_beacon_frame ssid bssid channel es :
  length bssid = 6 →
  Elements (elements [(0%Z, ssid); (1%Z, supported_rates); (3%Z, [channel])]) es →
  parse_beacon (beacon_frame ssid bssid channel) = Done (Ok (beacon_info bssid 1 es)).
Proof.
  intros Hb Hes.
  destruct (beacon_frame_body ssid bssid channel Hb) as (Hbody & Hbssid & H34 & H35 & Hlen).
  destruct (parse_beacon_elements _ Hlen) as (es' & Hes' & ->).
  rewrite Hbody in Hes'. rewrite (Elements_det _ _ _ Hes' Hes), Hbssid, H34, H35. done.
Qed.

(** ** Correctness *)

(** The access point's frame builders on every branch: the beacon and the
    association response are the stated 802.11 frames, returned with their
    length in front of an untouched rest, or -ENOSPC with nothing written. *)
Theorem ap_frame_builders_spec ssid bssid channel sta_mac aid status_code buf :
  length bssid = 6 → length sta_mac = 6 →
  let beacon := beacon_frame ssid bssid channel in
  let resp := assoc_resp_frame sta_mac bssid aid status_code in
  build_beacon ssid bssid channel buf =
    (if decide (length beacon ≤ length buf)
     then Done (Ok (length beacon), beacon ++ drop (length beacon) buf)
     else Done (Err ENOSPC, buf)) ∧
  build_assoc_resp sta_mac bssid aid status_code buf =
    (if decide (length resp ≤ length buf)
     then Done (Ok (length resp), resp ++ drop (length resp) buf)
     else Done (Err ENOSPC, buf)).
Proof.
  intros Hb Hs. cbv zeta.
  pose proof (beacon_builds ssid bssid channel Hb) as [Hok1 Herr1].
  pose proof (assoc_resp_builds sta_mac bssid aid status_code Hs Hb) as [Hok2 Herr2].
  split; case_decide; auto; [apply Herr1|apply Herr2]; lia.
Qed.

Lemma ap_frame_builders_spec_witness :
  build_assoc_resp [6; 5; 4; 3; 2; 1]%Z [1; 2; 3; 4; 5; 6]%Z 1 0 (replicate 41 9%Z) =
  Done (Ok 40, [0x10; 0; 0; 0; 6; 5; 4; 3; 2; 1; 1; 2; 3; 4; 5; 6; 1; 2; 3; 4; 5; 6; 0; 0;
                1; 0; 0; 0; 0x01; 0xC0; 1; 8; 0x82; 0x84; 0x8b; 0x96; 0x24; 0x30; 0x48; 0x6c; 9]%Z).
Proof.
  exact (proj2 (ap_frame_builders_spec [] [1; 2; 3; 4; 5; 6]%Z 1 [6; 5; 4; 3; 2; 1]%Z 1 0
    (replicate 41 9%Z) eq_refl eq_refl)).
Defined.

(** C30. Beacon round trip between the two modes: a station that receives the
    access point's beacon, with an SSID of 1 to 255 bytes, recovers the BSSID,
    the SSID (its first 32 bytes), the channel and the ESS capability. *)
Theorem beacon_roundtrip ssid bssid channel buf n buf' :
  length bssid = 6 → 1 ≤ length ssid ≤ 255 →
  build_beacon ssid bssid channel buf = Done (Ok n, buf') →
  parse_beacon (take n buf') = Done (Ok {|
    StaBssInfo.bssid := bssid;
    StaBssInfo.ssid := take 32 ssid ++ replicate (32 - length ssid) 0%Z;
    StaBssInfo.ssid_len := Z.of_nat (length ssid `min` 32);
    StaBssInfo.channel := channel; StaBssInfo.rssi := 0; StaBssInfo.capability := 1 |}).
Proof.
  intros Hb Hs Hbuild.
  destruct (builds_ok_inv _ _ (Builds0 := beacon_builds ssid bssid channel Hb) _ _ _ Hbuild)
    as (_ & _ & -> & _).
  apply (parse_beacon_frame _ _ _ [(0%Z, ssid); (1%Z, supported_rates); (3%Z, [channel])]); [done|].
  rewrite <-(app_nil_r (elements _)), <-(app_nil_r [(0%Z, _); _; _]).
  apply Elements_app; [|apply Elements_nil].
  repeat apply Forall_cons_2; try (vm_decide || done). 
Qed.

Lemma beacon_roundtrip_witness :
  parse_beacon (take 52 (beacon_frame [0x68]%Z [1; 2; 3; 4; 5; 6]%Z 11 ++ [9%Z])) = Done (Ok {|
    StaBssInfo.bssid := [1; 2; 3; 4; 5; 6]%Z;
    StaBssInfo.ssid := 0x68%Z :: replicate 31 0%Z; StaBssInfo.ssid_len := 1;
    StaBssInfo.channel := 11; StaBssInfo.rssi := 0; StaBssInfo.capability := 1 |}).
Proof.
  apply (beacon_roundtrip [0x68]%Z [1; 2; 3; 4; 5; 6]%Z 11 (replicate 53 9%Z)); [done|simpl; lia|].
  by vm_compute.
Defined.

(** A hidden network loses its channel: the element loop stops at the
    first empty element, so a beacon whose SSID is empty is parsed with
    channel 0 although the frame carries a DS parameter set. *)
Theorem hidden_ssid_channel_lost bssid channel buf n buf' :
  length bssid = 6 →
  build_beacon [] bssid channel buf = Done (Ok n, buf') →
  ∃ info, parse_beacon (take n buf') = Done (Ok info) ∧
    StaBssInfo.ssid_len info = 0%Z ∧ StaBssInfo.channel info = 0%Z ∧
    drop 48 (take n buf') = element 3 [channel].
Proof.
  intros Hb Hbuild.
  destruct (builds_ok_inv _ _ (Builds0 := beacon_builds [] bssid channel Hb) _ _ _ Hbuild)
    as (_ & _ & -> & _).
  eexists. split; [apply (parse_beacon_frame _ _ _ []); [done|apply Elements_empty_element]|].
  destruct (beacon_frame_body [] bssid channel Hb) as (Hbody & _).
  split_and!; [done..|]. change 48 with (36 + 12). by rewrite <-drop_drop, Hbody.
Qed.

Lemma hidden_ssid_channel_lost_witness :
  ∃ info, parse_beacon (take 51 (beacon_frame [] [1; 2; 3; 4; 5; 6]%Z 11)) = Done (Ok info) ∧
    StaBssInfo.ssid_len info = 0%Z ∧ StaBssInfo.channel info = 0%Z ∧
    drop 48 (take 51 (beacon_frame [] [1; 2; 3; 4; 5; 6]%Z 11)) = element 3 [11%Z].
Proof.
  apply (hidden_ssid_channel_lost [1; 2; 3; 4; 5; 6]%Z 11 (replicate 51 9%Z)); [done|by vm_compute].
Defined.

(** Type 0, subtype 0 or 2: an association or reassociation request. *)
Definition assoc_request (fc0 : Z) : Prop := bits 2 2 fc0 = 0%Z ∧ bits 4 4 fc0 ∈ [0; 2]%Z.
#[export] Instance assoc_request_dec fc0 : Decision (assoc_request fc0).
Proof. unfold assoc_request. apply _. Defined.

Lemma fc_low b0 b1 m :
  (0 ≤ m < 256)%Z → Z.land (u16_from_le_bytes b0 b1) m = Z.land b0 m.
Proof.
  intros Hm. unfold u16_from_le_bytes. rewrite Z.land_lor_distr_l.
  replace (Z.land (b1 ≪ 8) m) with 0%Z; [apply Z.lor_0_r|].
  symmetry. apply Z.bits_inj'. intros i Hi. rewrite Z.land_spec, Z.bits_0.
  destruct (decide (i < 8)%Z); [by rewrite Z.shiftl_spec_low|].
  rewrite (proj1 (Z.bounded_iff_bits_nonneg' 8 m ltac:(lia) ltac:(lia)) ltac:(lia) i) by lia.
  apply andb_false_r.
Qed.

Lemma assoc_request_test b0 b1 :
  is_u8 b0 →
  negb (Z.land (u16_from_le_bytes b0 b1) 0x00FC =? 0x0000)%Z &&
  negb (Z.land (u16_from_le_bytes b0 b1) 0x00FC =? 0x0020)%Z = bool_decide (¬ assoc_request b0).
Proof.
  intros Hb. unfold is_uint in Hb. rewrite fc_low by lia.
  pattern b0. eapply (range_forall _ 0 256); [by vm_compute|lia].
Qed.

(** Association requests, on every input: the parser never reads out of
    bounds, returns the station address, capability and listen interval of
    exactly the association and reassociation requests of at least 28 bytes,
    and -EINVAL for anything else. *)
Theorem parse_assoc_req_spec frame_buf :
  Forall is_u8 frame_buf →
  let u16 k := u16_from_le_bytes (nth k frame_buf 0%Z) (nth (k + 1) frame_buf 0%Z) in
  parse_assoc_req frame_buf =
  Done (if decide (28 ≤ length frame_buf ∧ assoc_request (nth 0 frame_buf 0%Z))
        then Ok (take 6 (drop 10 frame_buf), u16 24, u16 26)
        else Err EINVAL).
Proof.
  intros HF. cbv zeta. unfold parse_assoc_req. case_decide as Hl.
  { rewrite decide_False; [done|lia]. }
  rewrite (index_nth _ 0 0%Z), (index_nth _ 1 0%Z), (index_nth _ 24 0%Z), (index_nth _ 25 0%Z),
    (index_nth _ 26 0%Z), (index_nth _ 27 0%Z), subslice_done by lia.
  cbn [mbind outcome_bind]. cbv zeta. rewrite copy_from_slice_done by list_len.
  assert (is_u8 (nth 0 frame_buf 0%Z)) as Hb.
  { destruct frame_buf; [simpl in Hl; lia|]. by apply Forall_cons in HF as []. }
  rewrite assoc_request_test by done.
  destruct (decide (assoc_request (nth 0 frame_buf 0%Z))) as [Ha|Ha].
  - rewrite bool_decide_false by tauto. rewrite decide_True; [done|]. split; [lia|done].
  - rewrite bool_decide_true by done. rewrite decide_False; [done|tauto].
Qed.

Lemma parse_assoc_req_spec_witness :
  parse_assoc_req ([0; 0] ++ replicate 8 0 ++ [1; 2; 3; 4; 5; 6] ++ replicate 8 0 ++ [1; 4; 10; 0])%Z
  = Done (Ok ([1; 2; 3; 4; 5; 6], 1025, 10)%Z).
Proof.
  apply (parse_assoc_req_spec
    ([0; 0] ++ replicate 8 0 ++ [1; 2; 3; 4; 5; 6] ++ replicate 8 0 ++ [1; 4; 10; 0])%Z). vm_decide.
Defined.

(** Association responses reach the station they are for: the frame is
    addressed to it, carries the status code unchanged, and its AID field is
    the 14-bit association id under the two set marker bits, so stations with
    different ids below 2^14 are told different ones. *)
Theorem assoc_resp_roundtrip sta_mac bssid aid status_code buf n buf' :
  length sta_mac = 6 → length bssid = 6 → is_u16 aid → is_u16 status_code →
  build_assoc_resp sta_mac bssid aid status_code buf = Done (Ok n, buf') →
  let u16 k := u16_from_le_bytes (nth k buf' 0%Z) (nth (k + 1) buf' 0%Z) in
  take 6 (drop 4 buf') = sta_mac ∧ u16 26 = status_code ∧
  bits 0 14 (u16 28) = (aid mod 2 ^ 14)%Z ∧ bits 14 2 (u16 28) = 3%Z.
Proof.
  intros Hs Hb Ha Hst Hbuild.
  destruct (builds_ok_inv _ _ (Builds0 := assoc_resp_builds sta_mac bssid aid status_code Hs Hb)
    _ _ _ Hbuild) as (Hn & _ & Ht & _).
  cbv zeta. rewrite <-(take_drop n buf'), Ht. clear Ht Hbuild.
  do 6 (destruct sta_mac as [|? sta_mac]; [done|]). destruct sta_mac; [|done].
  do 6 (destruct bssid as [|? bssid]; [done|]). destruct bssid; [|done].
  unfold assoc_resp_frame, mgmt_header. cbn -[Z.lor bits u16_from_le_bytes Z.pow Z.modulo].
  assert (is_u16 (Z.lor 0xC000 (bits 0 14 aid))) as Hu.
  { apply is_uint_lor; [vm_decide|]. apply (is_uint_mono 14); [lia|]. by apply bits_uint. }
  rewrite !u16_from_to by done.
  split_and!; [done..| |].
  - rewrite bits_lor. change (bits 0 14 0xC000) with 0%Z. rewrite Z.lor_0_l.
    rewrite (bits_small 14 (bits 0 14 aid)) by uint. by rewrite bits_div, Z.div_1_r by lia.
  - rewrite bits_lor. change (bits 14 2 0xC000) with 3%Z.
    by rewrite (bits_above 14 2 (bits 0 14 aid)) by uint.
Qed.

Lemma assoc_resp_roundtrip_witness :
  let buf' := assoc_resp_frame [6; 5; 4; 3; 2; 1]%Z [1; 2; 3; 4; 5; 6]%Z 7 1 in
  let u16 k := u16_from_le_bytes (nth k buf' 0%Z) (nth (k + 1) buf' 0%Z) in
  take 6 (drop 4 buf') = [6; 5; 4; 3; 2; 1]%Z ∧ u16 26 = 1%Z ∧
  bits 0 14 (u16 28) = (7 mod 2 ^ 14)%Z ∧ bits 14 2 (u16 28) = 3%Z.
Proof.
  apply (assoc_resp_roundtrip [6; 5; 4; 3; 2; 1]%Z [1; 2; 3; 4; 5; 6]%Z 7 1 (replicate 40 0%Z) 40);
    [done|done|vm_decide|vm_decide|by vm_compute].
Defined.

(** Starting and stopping beaconing: the enable sequence leaves the timer
    with the requested period (100 time units for 0) and calibration on, the
    arbiter in access point mode and the beacon queue started last; the
    disable sequence clears the timer and the mode and flushes the queue, so
    that run after any sequence of writes it stops them. *)
Theorem bss_sync_sequence_effect beacon_period enable buf n buf' :
  is_u16 beacon_period →
  build_ap_bss_sync_sequence beacon_period enable buf = Done (Ok n, buf') →
  let ops := take n buf' in
  if enable then
    bits 0 16 (last_write ops LPON_T0TPCR) =
      (if decide (beacon_period = 0%Z) then 100%Z else beacon_period) ∧
    bits 16 16 (last_write ops LPON_T0TPCR) = 0x8000%Z ∧
    last_write ops ARB_SCR = 1%Z ∧ last ops = Some (ARB_BCNQCR0 ↤ 1%Z)
  else
    ∀ before : list RegWriteOp,
      let w := last_write (before ++ ops) in
      w LPON_T0TPCR = 0%Z ∧ w LPON_MPTCR0 = 0%Z ∧ w ARB_SCR = 0%Z ∧ w ARB_BCNQCR1 = 1%Z.
Proof.
  intros Hp Hb. destruct (builds_ok_inv _ _ _ _ _ Hb) as (_ & _ & Ht & _). cbv zeta. rewrite Ht.
  destruct enable; cbn [bss_sync_ops].
  - assert (last_write (bss_sync_enable_seq (beacon_period_tu beacon_period)) LPON_T0TPCR =
      Z.lor (bits 0 16 (beacon_period_tu beacon_period)) 0x80000000) as ->.
    { rewrite <-(mask_bits _ 0xFFFF 16) by done. done. }
    assert (is_u16 (beacon_period_tu beacon_period)).
    { unfold beacon_period_tu. destruct (_ =? _)%Z; [vm_decide|done]. }
    split_and!; [|by bitfield|done..]. bitfield.
    unfold beacon_period_tu. by destruct (Z.eqb_spec beacon_period 0); case_decide.
  - intros before. unfold last_write.
    split_and!; by rewrite filter_app, last_app.
Qed.

Lemma bss_sync_sequence_effect_witness :
  let ops := bss_sync_ops 0 true in
  bits 0 16 (last_write ops LPON_T0TPCR) = (if decide (0 = 0)%Z then 100%Z else 0%Z) ∧
  bits 16 16 (last_write ops LPON_T0TPCR) = 0x8000%Z ∧
  last_write ops ARB_SCR = 1%Z ∧ last ops = Some (ARB_BCNQCR0 ↤ 1%Z).
Proof.
  apply (bss_sync_sequence_effect 0 true (replicate 6 (0 ↤ 0)%Z) 6 (bss_sync_ops 0 true));
    [vm_decide|by vm_compute].
Defined.
