(* ===== verification/Entry.v ===== *)
(** * The C ABI (src/rust/src/lib.rs)

    Every exported function checks its pointers, turns (pointer, length) pairs
    into slices, calls one function of the crate and maps its [Result] to a
    status word and out-parameters.  A pointer is the memory it gives access
    to, [None] when null; a length larger than that memory makes
    [slice::from_raw_parts] undefined.  Memory reached through different
    pointer arguments is taken to be distinct, as [&mut] requires. *)

From S2P Require Import Prelude Rust Ffi Util Regmap Mac Mcu Eeprom Rx Tx Sta Ap.
Local Open Scope Z_scope.
Local Open Scope rust_scope.

(** [core::slice::from_raw_parts(p, len)] *)
Definition from_raw_parts {T} (region : list T) (len : nat) : outcome (list T) :=
  if decide (len ≤ length region)%nat then Done (take len region) else Undefined.

(** [p[i]] and [memcpy(_, p + lo, n)] in C: nothing checks the bounds. *)
Definition peek (region : list Z) (i : nat) : outcome Z :=
  match region !! i with Some x => Done x | None => Undefined end.
Definition peek_slice (region : list Z) (lo n : nat) : outcome (list Z) :=
  if decide (lo + n ≤ length region)%nat then Done (take n (drop lo region)) else Undefined.

(** The memory of the out-parameters after a call, with the status. *)
Notation builder_call T := (outcome (Z * option (list T) * option nat)).

(** The common body: null checks, [from_raw_parts_mut], the builder, and
    [*out = count; 0] or the error code. *)
Definition run_builder {T} (f : builder T nat)
    (buf : option (list T)) (max : nat) (out : option nat) : builder_call T :=
  match buf, out with
  | Some region, Some old =>
      slice ← from_raw_parts region max;
      '(r, slice') ← f slice;
      let region' := slice' ++ drop max region in
      match r with
      | Ok count => mret (0, Some region', Some count)
      | Err err => mret (err, Some region', Some old)
      end
  | _, _ => mret (EINVAL, buf, out)
  end.

(** An input pointer [p] that the function rejects when null, read as a slice
    of [len] elements after the other null checks. *)
Definition with_input {T} (p : option (list Z)) (len : nat) (f : list Z → builder T nat)
    (buf : option (list T)) (max : nat) (out : option nat) : builder_call T :=
  match p, buf, out with
  | Some m, Some _, Some _ =>
      s ← from_raw_parts m len;
      run_builder (f s) buf max out
  | _, _, _ => mret (EINVAL, buf, out)
  end.

(** The optional SSID argument: empty when null or of length 0. *)
Definition ssid_slice (ssid : option (list Z)) (ssid_len : nat) : outcome (list Z) :=
  match ssid with
  | Some m => if decide (ssid_len = 0)%nat then mret [] else from_raw_parts m ssid_len
  | None => mret []
  end.

(** A parser with one result structure. *)
Definition run_parser {A} (f : list Z → outcome (result A))
    (buf : option (list Z)) (len : nat) (out : option A) : outcome (Z * option A) :=
  match buf, out with
  | Some region, Some old =>
      slice ← from_raw_parts region len;
      r ← f slice;
      match r with
      | Ok data => mret (0, Some data)
      | Err err => mret (err, Some old)
      end
  | _, _ => mret (EINVAL, out)
  end.

Lemma peek_nth region i : (i < length region)%nat → peek region i = Done (nth i region 0).
Proof.
  intros H. unfold peek. by destruct (nth_lookup_or_length region i 0) as [-> |]; [|lia].
Qed.

Lemma peek_slice_done region lo n :
  (lo + n ≤ length region)%nat → peek_slice region lo n = Done (take n (drop lo region)).
Proof. intros. unfold peek_slice. by rewrite decide_True. Qed.

Lemma run_parser_done {A} (f : list Z → outcome (result A)) region len old r :
  (len ≤ length region)%nat → f (take len region) = Done r →
  run_parser f (Some region) len (Some old) =
  Done (match r with Ok data => (0, Some data) | Err err => (err, Some old) end).
Proof.
  intros Hl Hr. unfold run_parser, from_raw_parts. rewrite decide_True by done.
  cbn [mbind outcome_bind]. rewrite Hr. by destruct r.
Qed.

(** ** Register sequences *)

Definition mt7603_rust_map_register_addr (p : profile) (addr : Z) : outcome Z :=
  physical_addr_map p addr.

Definition mt7603_rust_get_mac_init_sequence ops_buf max_ops out_count : builder_call RegWriteOp :=
  run_builder build_mac_init_sequence ops_buf max_ops out_count.

Definition mt7603_rust_get_channel_sequence channel bw ops_buf max_ops out_count
    : builder_call RegWriteOp :=
  run_builder (build_channel_sequence channel bw) ops_buf max_ops out_count.

Definition mt7603_rust_build_own_mac_sequence mac ops_buf max_ops out_count
    : builder_call RegWriteOp :=
  with_input mac 6 build_own_mac_sequence ops_buf max_ops out_count.

Definition mt7603_rust_build_wtbl_sta_sequence bssid ops_buf max_ops out_count
    : builder_call RegWriteOp :=
  with_input bssid 6 build_wtbl_sta_sequence ops_buf max_ops out_count.

Definition mt7603_rust_build_ap_bss_sync_sequence beacon_period enable ops_buf max_ops out_count
    : builder_call RegWriteOp :=
  run_builder (build_ap_bss_sync_sequence beacon_period enable) ops_buf max_ops out_count.

Definition mt7603_rust_build_rx_filter_sequence promisc fcs_fail ops_buf max_ops out_count
    : builder_call RegWriteOp :=
  run_builder (build_rx_filter_sequence promisc fcs_fail) ops_buf max_ops out_count.

Definition mt7603_rust_build_ba_session_sequence wcid tid ba_size enable prev_dw15
    ops_buf max_ops out_count : builder_call RegWriteOp :=
  run_builder (build_ba_session_sequence wcid tid ba_size enable prev_dw15)
    ops_buf max_ops out_count.

(** ** MCU commands *)

Definition mt7603_rust_build_addr_len_req p address dl_len seq out_buf max_out_len out_written
    : builder_call Z :=
  run_builder (build_addr_len_req p address dl_len seq) out_buf max_out_len out_written.

Definition mt7603_rust_build_fw_start_req p override_flag address seq
    out_buf max_out_len out_written : builder_call Z :=
  run_builder (build_fw_start_req p override_flag address seq) out_buf max_out_len out_written.

Definition mt7603_rust_build_restart_dl_req p seq out_buf max_out_len out_written
    : builder_call Z :=
  run_builder (build_restart_dl_req p seq) out_buf max_out_len out_written.

Definition mt7603_rust_build_fw_scatter_frame p chunk chunk_len out_buf max_out_len out_written
    : builder_call Z :=
  with_input chunk chunk_len (build_fw_scatter_frame p) out_buf max_out_len out_written.

Definition mt7603_rust_build_chan_switch_cmd p ctrl_ch central_ch bw tx_streams rx_streams seq
    out_buf max_out_len out_written : builder_call Z :=
  run_builder (build_channel_switch_cmd p ctrl_ch central_ch bw tx_streams rx_streams seq)
    out_buf max_out_len out_written.

Definition mt7603_rust_build_tx_power_ctrl_cmd p eeprom eeprom_len central_ch seq
    out_buf max_out_len out_written : builder_call Z :=
  with_input eeprom eeprom_len (λ e, build_tx_power_ctrl_cmd p e central_ch seq)
    out_buf max_out_len out_written.

Definition mt7603_rust_build_efuse_buffer_mode_cmd p eeprom eeprom_len seq
    out_buf max_out_len out_written : builder_call Z :=
  with_input eeprom eeprom_len (λ e, build_efuse_buffer_mode_cmd p e seq)
    out_buf max_out_len out_written.

Definition mt7603_rust_build_radio_on_off_cmd p on seq out_buf max_out_len out_written
    : builder_call Z :=
  run_builder (build_radio_on_off_cmd p on seq) out_buf max_out_len out_written.

Definition mt7603_rust_build_edca_set_cmd p seq out_buf max_out_len out_written
    : builder_call Z :=
  run_builder (build_edca_set_cmd p seq) out_buf max_out_len out_written.

Definition mt7603_rust_build_ch_privilege_cmd p channel seq out_buf max_out_len out_written
    : builder_call Z :=
  run_builder (build_ch_privilege_cmd p channel seq) out_buf max_out_len out_written.

(** ** 802.11 frames *)

(** The SSID is resolved after the null checks of the other arguments. *)
Definition mt7603_rust_build_probe_req ssid ssid_len src_mac out_buf max_out_len out_written
    : builder_call Z :=
  match src_mac, out_buf, out_written with
  | Some m, Some _, Some _ =>
      s ← ssid_slice ssid ssid_len;
      mac ← from_raw_parts m 6;
      run_builder (build_probe_request s mac) out_buf max_out_len out_written
  | _, _, _ => mret (EINVAL, out_buf, out_written)
  end.

Definition mt7603_rust_build_beacon ssid ssid_len bssid channel out_buf max_out_len out_written
    : builder_call Z :=
  match bssid, out_buf, out_written with
  | Some m, Some _, Some _ =>
      s ← ssid_slice ssid ssid_len;
      mac ← from_raw_parts m 6;
      run_builder (build_beacon s mac channel) out_buf max_out_len out_written
  | _, _, _ => mret (EINVAL, out_buf, out_written)
  end.

Definition mt7603_rust_build_assoc_resp sta_mac bssid aid status_code
    out_buf max_out_len out_written : builder_call Z :=
  match sta_mac, bssid, out_buf, out_written with
  | Some ms, Some mb, Some _, Some _ =>
      mac_sta ← from_raw_parts ms 6;
      mac_bssid ← from_raw_parts mb 6;
      run_builder (build_assoc_resp mac_sta mac_bssid aid status_code)
        out_buf max_out_len out_written
  | _, _, _, _ => mret (EINVAL, out_buf, out_written)
  end.

(** The descriptor builder has no out-count. *)
Definition mt7603_rust_build_txwi (p : profile) (params : option TxParams.t)
    (txwi_buf : option (list Z)) (txwi_len : nat) : outcome (Z * option (list Z)) :=
  match params, txwi_buf with
  | Some params, Some region =>
      slice ← from_raw_parts region txwi_len;
      '(r, slice') ← build_txwi p params slice;
      let region' := slice' ++ drop txwi_len region in
      mret (match r with Ok _ => 0 | Err err => err end, Some region')
  | _, _ => mret (EINVAL, txwi_buf)
  end.

(** ** Parsers *)

Definition mt7603_rust_parse_eeprom buf len (out : option EepromData) :=
  run_parser parse_eeprom buf len out.

Definition mt7603_rust_parse_rx_frame data len rssi_offset (out : option RxInfo) :=
  run_parser (λ s, parse_rx_frame s rssi_offset) data len out.

Definition mt7603_rust_parse_beacon frame_buf frame_len (out_info : option StaBssInfo.t) :=
  run_parser parse_beacon frame_buf frame_len out_info.

Definition mt7603_rust_fw_dl_len (p : profile) fw_buf fw_len (out : option Z)
    : outcome (Z * option Z) :=
  match fw_buf, out with
  | Some region, Some old =>
      slice ← from_raw_parts region fw_len;
      r ← fw_dl_len p slice;
      match r with
      | Some len => mret (0, Some len)
      | None => mret (EINVAL, Some old)
      end
  | _, _ => mret (EINVAL, out)
  end.

Definition mt7603_rust_verify_firmware fw_buf fw_len : outcome Z :=
  match fw_buf with
  | Some region =>
      slice ← from_raw_parts region fw_len;
      r ← verify_firmware slice;
      mret (match r with Ok _ => 0 | Err err => err end)
  | None => mret EINVAL
  end.

(** The three out-parameters of the association parser; [out_sta_mac] is the
    memory at the pointer, of which [copy_nonoverlapping] overwrites six bytes. *)
Definition mt7603_rust_parse_assoc_req frame_buf frame_len
    (out_sta_mac : option (list Z)) (out_cap out_listen : option Z)
    : outcome (Z * option (list Z) * option Z * option Z) :=
  match frame_buf, out_sta_mac, out_cap, out_listen with
  | Some region, Some m, Some _, Some _ =>
      slice ← from_raw_parts region frame_len;
      r ← parse_assoc_req slice;
      match r with
      | Ok (sta_mac, cap, listen) =>
          m' ← copy_bytes m sta_mac;
          mret (0, Some m', Some cap, Some listen)
      | Err err => mret (err, out_sta_mac, out_cap, out_listen)
      end
  | _, _, _, _ => mret (EINVAL, out_sta_mac, out_cap, out_listen)
  end.

(** ** What an exported builder answers

    [Answers f spec] is what lib.rs needs to know of a builder: the frame it
    builds, or the error with which it refuses its arguments. *)

Class Answers {T} (f : builder T nat) (spec : result (list T)) : Prop :=
  answers : match spec with Ok frame => Builds f frame | Err e => Rejects f e end.

#[export] Instance answers_builds {T} (f : builder T nat) frame :
  Builds f frame → Answers f (Ok frame).
Proof. done. Qed.

#[export] Instance answers_rejects {T} (f : builder T nat) e : Rejects f e → Answers f (Err e).
Proof. done. Qed.

(** The outcome of a call with valid pointers: status, memory at the buffer
    pointer, and count. *)
Definition entry_result {T} (spec : result (list T)) (region : list T) (max old : nat)
    : Z * option (list T) * option nat :=
  match spec with
  | Err e => (e, Some region, Some old)
  | Ok frame =>
      if decide (max < length frame)%nat then (ENOSPC, Some region, Some old)
      else (0, Some (frame ++ drop (length frame) region), Some (length frame))
  end.

Lemma from_raw_parts_done {T} (region : list T) len :
  (len ≤ length region)%nat → from_raw_parts region len = Done (take len region).
Proof. intros. unfold from_raw_parts. by rewrite decide_True. Qed.

Section run_builder.
Context {T : Type} (f : builder T nat) (spec : result (list T)) `{!Answers f spec}.

Lemma run_builder_answers region max old :
  (max ≤ length region)%nat →
  run_builder f (Some region) max (Some old) = Done (entry_result spec region max old).
Proof.
  intros Hmax. unfold run_builder, entry_result. rewrite from_raw_parts_done by done.
  cbn [mbind outcome_bind]. destruct spec as [frame|e]; pose proof answers as Ha; simpl in Ha.
  - case_decide as Hl.
    + rewrite builds_enospc by list_len. cbn. by rewrite take_drop.
    + rewrite builds_fits by list_len. cbn. unfold mret, outcome_ret. do 4 f_equal.
      rewrite <-app_assoc. f_equal.
      rewrite <-(take_drop max region) at 3. rewrite drop_app_le by list_len. done.
  - rewrite rejects. cbn. by rewrite take_drop.
Qed.

Lemma run_builder_null buf max out :
  buf = None ∨ out = None → run_builder f buf max out = Done (EINVAL, buf, out).
Proof. intros [-> | ->]; [done|by destruct buf]. Qed.
End run_builder.

(** ** The register sequences C asks for *)

Inductive reg_request :=
| MacInit
| SetChannel (channel bw : Z)
| OwnMac (mac : list Z)
| WtblSta (bssid : list Z)
| BssSync (beacon_period : Z) (enable : bool)
| RxFilter (promisc fcs_fail : bool)
| BaSession (wcid tid ba_size : Z) (enable : bool) (prev_dw15 : Z).

Definition reg_entry (r : reg_request)
    : option (list RegWriteOp) → nat → option nat → builder_call RegWriteOp :=
  match r with
  | MacInit => mt7603_rust_get_mac_init_sequence
  | SetChannel channel bw => mt7603_rust_get_channel_sequence channel bw
  | OwnMac mac => mt7603_rust_build_own_mac_sequence (Some mac)
  | WtblSta bssid => mt7603_rust_build_wtbl_sta_sequence (Some bssid)
  | BssSync beacon_period enable => mt7603_rust_build_ap_bss_sync_sequence beacon_period enable
  | RxFilter promisc fcs_fail => mt7603_rust_build_rx_filter_sequence promisc fcs_fail
  | BaSession wcid tid ba_size enable prev_dw15 =>
      mt7603_rust_build_ba_session_sequence wcid tid ba_size enable prev_dw15
  end.

(** The arguments a caller may pass: six bytes behind a MAC pointer, [u8]s. *)
Definition reg_request_wf (r : reg_request) : Prop :=
  match r with
  | OwnMac mac | WtblSta mac => length mac = 6%nat
  | BaSession _ _ ba_size _ _ => is_u8 ba_size
  | _ => True
  end.
#[export] Instance reg_request_wf_dec r : Decision (reg_request_wf r).
Proof. destruct r; apply _. Defined.

Definition reg_request_spec (r : reg_request) : result (list RegWriteOp) :=
  match r with
  | MacInit => Ok static_seq
  | SetChannel channel _ => if decide (1 ≤ channel ≤ 14) then Ok channel_seq else Err EINVAL
  | OwnMac mac => Ok (own_mac_ops mac)
  | WtblSta bssid => Ok (wtbl_sta_ops bssid)
  | BssSync beacon_period enable => Ok (bss_sync_ops beacon_period enable)
  | RxFilter promisc fcs_fail => Ok (rx_filter_ops promisc fcs_fail)
  | BaSession wcid tid ba_size enable prev =>
      if decide (tid < 8) then Ok (ba_session_ops wcid tid ba_size enable prev) else Err EINVAL
  end.

Lemma with_input_take {T} (m : list Z) len (f : list Z → builder T nat) region max old :
  (len ≤ length m)%nat →
  with_input (Some m) len f (Some region) max (Some old) =
  run_builder (f (take len m)) (Some region) max (Some old).
Proof. intros. unfold with_input. by rewrite from_raw_parts_done by done. Qed.

Lemma with_input_all {T} (m : list Z) len (f : list Z → builder T nat) region max old :
  length m = len →
  with_input (Some m) len f (Some region) max (Some old) =
  run_builder (f m) (Some region) max (Some old).
Proof. intros <-. by rewrite with_input_take, firstn_all by done. Qed.

Lemma reg_entry_result r region max old :
  reg_request_wf r → (max ≤ length region)%nat →
  reg_entry r (Some region) max (Some old) = Done (entry_result (reg_request_spec r) region max old).
Proof.
  intros Hwf Hmax. destruct r; simpl in Hwf; cbn [reg_entry reg_request_spec].
  - by apply run_builder_answers; [apply _|].
  - apply run_builder_answers; [|done].
    case_decide; [by apply channel_builds|by apply channel_rejects].
  - unfold mt7603_rust_build_own_mac_sequence. rewrite with_input_all by done.
    apply run_builder_answers; [|done]. by apply own_mac_builds.
  - unfold mt7603_rust_build_wtbl_sta_sequence. rewrite with_input_all by done.
    apply run_builder_answers; [|done]. by apply wtbl_sta_builds.
  - by apply run_builder_answers; [apply bss_sync_builds|].
  - by apply run_builder_answers; [apply rx_filter_builds|].
  - apply run_builder_answers; [|done].
    case_decide; [by apply ba_session_builds|apply ba_session_rejects; lia].
Qed.

(** ** The MCU commands C asks for *)

Definition command_entry (p : profile) (c : command)
    : option (list Z) → nat → option nat → builder_call Z :=
  match c with
  | TargetAddressLen address dl_len seq => mt7603_rust_build_addr_len_req p address dl_len seq
  | FwStart override_ address seq => mt7603_rust_build_fw_start_req p override_ address seq
  | RestartDl seq => mt7603_rust_build_restart_dl_req p seq
  | FwScatter chunk => mt7603_rust_build_fw_scatter_frame p (Some chunk) (length chunk)
  | ChannelSwitch ctrl_ch central_ch bw tx_streams rx_streams seq =>
      mt7603_rust_build_chan_switch_cmd p ctrl_ch central_ch bw tx_streams rx_streams seq
  | TxPowerCtrl eeprom central_ch seq =>
      mt7603_rust_build_tx_power_ctrl_cmd p (Some eeprom) (length eeprom) central_ch seq
  | EfuseBufferMode eeprom seq =>
      mt7603_rust_build_efuse_buffer_mode_cmd p (Some eeprom) (length eeprom) seq
  | ChPrivilege channel seq => mt7603_rust_build_ch_privilege_cmd p channel seq
  | RadioOnOff on seq => mt7603_rust_build_radio_on_off_cmd p on seq
  | EdcaSet seq => mt7603_rust_build_edca_set_cmd p seq
  end.

Definition command_spec (c : command) : result (list Z) :=
  if decide (command_fits c) then Ok (command_frame c) else Err EINVAL.

Lemma command_answers p c : command_wf c → Answers (build_command p c) (command_spec c).
Proof.
  intros Hwf. unfold command_spec, Answers. case_decide as Hf; [by apply command_builds|].
  destruct c; simpl in Hf; try done. apply scatter_rejects. lia.
Qed.

Lemma command_entry_run p c region max old :
  command_entry p c (Some region) max (Some old) =
  run_builder (build_command p c) (Some region) max (Some old).
Proof.
  destruct c; cbn [command_entry build_command].
  4: by apply (with_input_all chunk (length chunk) (build_fw_scatter_frame p)).
  5: by apply (with_input_all eeprom (length eeprom) (λ e, build_tx_power_ctrl_cmd p e central_ch seq)).
  5: by apply (with_input_all eeprom (length eeprom) (λ e, build_efuse_buffer_mode_cmd p e seq)).
  all: reflexivity.
Qed.

(** ** Correctness *)

(** The C contract of the register builders: with valid pointers every
    one of the seven returns 0 with the sequence of its request in front of
    untouched memory and the count, or -ENOSPC when the array is too short,
    or the builder's own -EINVAL, in both cases with nothing changed; with a
    null array or count pointer it returns -EINVAL and touches nothing. *)
Theorem reg_entry_contract r region max old :
  reg_request_wf r → (max ≤ length region)%nat →
  reg_entry r (Some region) max (Some old) =
    Done (entry_result (reg_request_spec r) region max old) ∧
  ∀ buf out, buf = None ∨ out = None → reg_entry r buf max out = Done (EINVAL, buf, out).
Proof.
  intros Hwf Hmax. split; [by apply reg_entry_result|].
  intros buf out Hnull. destruct r; simpl in Hwf; cbn [reg_entry];
    try (by apply run_builder_null);
    by destruct Hnull as [-> | ->]; [|destruct buf].
Qed.

Lemma reg_entry_contract_witness :
  reg_entry (RxFilter true false) (Some (replicate 3 (0 ↤ 0))) 3 (Some 9%nat) =
    Done (0, Some [RMAC_RFCR ↤ 6; RMAC_RFCR1 ↤ 0; 0 ↤ 0], Some 2%nat) ∧
  ∀ buf out, buf = None ∨ out = None →
    reg_entry (RxFilter true false) buf 3 out = Done (EINVAL, buf, out).
Proof. apply (reg_entry_contract (RxFilter true false) (replicate 3 (0 ↤ 0)) 3 9); [done|simpl; lia]. Defined.

(** C37. The C contract of the command builders, the same for all ten: 0 with
    the command's frame and its length, -ENOSPC when the buffer is too short,
    -EINVAL for an oversized firmware chunk, nothing changed on error.  The
    driver's own buffers (128, 1088 and 4096 bytes) hold every frame it asks
    of them, so it never sees -ENOSPC. *)
Theorem command_entry_contract p c region max old :
  command_wf c → (max ≤ length region)%nat →
  command_entry p c (Some region) max (Some old) =
    Done (entry_result (command_spec c) region max old) ∧
  (command_fits c → (length (command_frame c) ≤ 4096)%nat ∧
     match c with
     | ChannelSwitch _ _ _ _ _ _ | TxPowerCtrl _ _ _ => (length (command_frame c) ≤ 128)%nat
     | EfuseBufferMode _ _ | RadioOnOff _ _ | EdcaSet _ => (length (command_frame c) ≤ 1024 + 64)%nat
     | _ => True
     end).
Proof.
  intros Hwf Hmax. split.
  - rewrite command_entry_run. apply run_builder_answers; [|done]. by apply command_answers.
  - intros Hf. pose proof (command_payload_max c (conj Hwf Hf)) as Hp.
    change FW_SCATTER_MAX_PAYLOAD with 4064%nat in Hp. rewrite !length_command_frame.
    assert (command_hdr c ≤ 32)%nat by (destruct c; simpl; lia).
    split; [lia|]. destruct c; try done; vm_decide.
Qed.

Lemma command_entry_contract_witness :
  let region := replicate 128 7 in
  command_entry Release (RadioOnOff false 3) (Some region) 128 (Some 0%nat) =
    Done (0, Some (command_frame (RadioOnOff false 3) ++ replicate 92 7), Some 36%nat) ∧
  (command_fits (RadioOnOff false 3) → (length (command_frame (RadioOnOff false 3)) ≤ 4096)%nat ∧
     (length (command_frame (RadioOnOff false 3)) ≤ 1024 + 64)%nat).
Proof. by apply (command_entry_contract Release (RadioOnOff false 3) (replicate 128 7) 128 0). Defined.

(** A parser that is total on the slice it is given. *)
Lemma run_parser_total {A} (f : list Z → outcome (result A)) region len old r :
  (len ≤ length region)%nat → f (take len region) = Done r →
  (∀ e, r = Err e → e = EINVAL) →
  ∃ st out, run_parser f (Some region) len (Some old) = Done (st, Some out) ∧
    (st = 0 ∨ st = EINVAL ∧ out = old).
Proof.
  intros Hl Hr He. unfold run_parser. rewrite from_raw_parts_done by done.
  cbn [mbind outcome_bind]. rewrite Hr. cbn [mbind outcome_bind].
  destruct r as [a|e]; eexists _, _; (split; [done|]); [by left|right]. by rewrite (He e).
Qed.

(** The parsers are safe to call on anything the air or the flash can
    hold: with valid pointers and any bytes, reception, beacon, EEPROM and
    firmware checks return 0 or -EINVAL (no panic, no access outside the
    given length), and on -EINVAL the result structure is unchanged. *)
Theorem parser_entries_safe region len rssi_offset rx0 info0 eeprom0 :
  (len ≤ length region)%nat → Forall is_u8 region → is_i8 rssi_offset →
  (∃ st out, mt7603_rust_parse_rx_frame (Some region) len rssi_offset (Some rx0) =
     Done (st, Some out) ∧ (st = 0 ∨ st = EINVAL ∧ out = rx0)) ∧
  (∃ st out, mt7603_rust_parse_beacon (Some region) len (Some info0) =
     Done (st, Some out) ∧ (st = 0 ∨ st = EINVAL ∧ out = info0)) ∧
  (∃ st out, mt7603_rust_parse_eeprom (Some region) len (Some eeprom0) =
     Done (st, Some out) ∧ (st = 0 ∨ st = EINVAL ∧ out = eeprom0)) ∧
  (∃ st, mt7603_rust_verify_firmware (Some region) len = Done st ∧ (st = 0 ∨ st = EINVAL)).
Proof.
  intros Hl HF Ho. assert (Forall is_u8 (take len region)) as HF' by by apply Forall_take.
  split_and!.
  - destruct (parse_rx_frame_total (take len region) rssi_offset HF' Ho) as (r & Hr & He & _).
    by eapply run_parser_total.
  - destruct (decide (length (take len region) < 36)%nat) as [Hs|Hs].
    + eapply (run_parser_total _ _ _ _ (Err EINVAL)); [done| |naive_solver].
      unfold parse_beacon. by rewrite decide_True.
    + destruct (parse_beacon_elements (take len region)) as (es & _ & Hr); [lia|].
      by eapply run_parser_total.
  - destruct (decide (length (take len region) < 256)%nat) as [Hs|Hs].
    + eapply (run_parser_total _ _ _ _ (Err EINVAL)); [done| |naive_solver].
      unfold parse_eeprom. by rewrite decide_True.
    + eapply run_parser_total; [done|apply parse_eeprom_long; lia|done].
  - unfold mt7603_rust_verify_firmware. rewrite from_raw_parts_done by done.
    cbn [mbind outcome_bind]. destruct (verify_firmware_total (take len region)) as [-> | ->];
      eexists; (split; [done|]); auto.
Qed.

Lemma parser_entries_safe_witness :
  let region := replicate 300 0x47 in
  (∃ st out, mt7603_rust_parse_rx_frame (Some region) 290 (-5) (Some RxInfo_default) =
     Done (st, Some out) ∧ (st = 0 ∨ st = EINVAL ∧ out = RxInfo_default)) ∧
  (∃ st out, mt7603_rust_parse_beacon (Some region) 290 (Some StaBssInfo.default) =
     Done (st, Some out) ∧ (st = 0 ∨ st = EINVAL ∧ out = StaBssInfo.default)) ∧
  (∃ st out, mt7603_rust_parse_eeprom (Some region) 290 (Some EepromData_default) =
     Done (st, Some out) ∧ (st = 0 ∨ st = EINVAL ∧ out = EepromData_default)) ∧
  (∃ st, mt7603_rust_verify_firmware (Some region) 290 = Done st ∧ (st = 0 ∨ st = EINVAL)).
Proof.
  apply (parser_entries_safe (replicate 300 0x47) 290 (-5) RxInfo_default StaBssInfo.default
    EepromData_default); [vm_decide|vm_decide|vm_decide].
Defined.

(** Transmission never stops the machine: for every rate the C side can
    ask for, and any frame and header length, the descriptor entry returns
    with 0 or -EINVAL on a 32-byte buffer - the unchecked rate tables are not
    indexed out of bounds - and nothing past the descriptor is written. *)
Theorem build_txwi_entry_safe p params region len :
  TxParams.wf params →
  rate_usable (TxParams.rate_mode params) (TxParams.rate_mcs params) = true →
  (32 ≤ len ≤ length region)%nat →
  ∃ st region', mt7603_rust_build_txwi p (Some params) (Some region) len =
    Done (st, Some region') ∧ (st = 0 ∨ st = EINVAL) ∧ drop 32 region' = drop 32 region.
Proof.
  intros Hwf Hr Hl. unfold mt7603_rust_build_txwi. rewrite from_raw_parts_done by lia.
  cbn [mbind outcome_bind]. rewrite build_txwi_unfold by (done || list_len).
  rewrite (rate_usable_defined params Hr).
  assert (Hd : ∀ s, length s = 32%nat →
    drop 32 ((s ++ drop 32 (take len region)) ++ drop len region) = drop 32 region).
  { intros s Hs. rewrite <-app_assoc, drop_app_length' by done.
    rewrite <-(take_drop len region) at 3. by rewrite drop_app_le by list_len. }
  destruct (_ <=? _); [destruct (_ =? _)|]; eexists _, _; (split; [done|]); split; auto.
  by rewrite take_drop.
Qed.

Lemma build_txwi_entry_safe_witness :
  ∃ st region', mt7603_rust_build_txwi Release (Some (probe_req_params 64 24 1 7))
      (Some (replicate 40 9)) 36 = Done (st, Some region') ∧ (st = 0 ∨ st = EINVAL) ∧
    drop 32 region' = drop 32 (replicate 40 9).
Proof.
  apply (build_txwi_entry_safe Release (probe_req_params 64 24 1 7) (replicate 40 9) 36);
    [vm_decide|done|simpl; lia].
Defined.
