(* ===== verification/Usb.v ===== *)
(** * The driver's USB primitives (src/c/regops.c, src/c/usb.c)

    The C skeleton reaches the device through a handful of kernel services.
    Each is a parameter of the model (a field of [kernel]): it answers as any
    function of everything that happened before.  A driver function is a
    computation of the [io] monad, which passes the trace of service calls
    and their answers along; [emits] is the Hoare-style rule system by which
    the components prove what a function adds to the trace, summarised as an
    [effect]: what reached the bus and the balance of the resources it took. *)

From S2P Require Import Prelude Rust Ffi Regmap Entry.
Local Open Scope Z_scope.
Local Open Scope rust_scope.

(** ** Services and traces *)

(** A vendor control request to the device (bmRequestType vendor, out). *)
Record VendorReq := { v_request : Z; v_value : Z; v_index : Z; v_data : list Z }.
#[export] Instance VendorReq_eq_dec : EqDecision VendorReq.
Proof. solve_decision. Defined.

(** Calls whose answer the driver does not look at: a standard request to an
    endpoint, the bookkeeping of the transmit URBs, the beacon work item.

    A service call with its answer: the return code of a transfer, the word
    in the buffer after a control read, the completion status of a waited-for
    URB ([None] is a timeout). *)
Inductive kernel_call :=
| ClearHalt (ep : Z)
| WaitAnchorEmpty
| KillAnchored
| CancelBeaconWork
| ScheduleBeaconWork (ms : Z)
| StopTxBa (tid : Z).

Inductive event :=
| Kmalloc (size : nat) (ok : bool)
| Kfree
| ControlIn (request value index : Z) (ret word : Z)
| ControlOut (r : VendorReq) (ret : Z)
| BulkOut (ep : Z) (data : list Z) (ret : Z)
| AllocUrb (ok : bool)
| FreeUrb
| SubmitUrb (ep : Z) (len : nat) (ret : Z)
| KillUrb (ep : Z)
| WaitUrb (eps : list Z) (status : option Z)
| Sleep
| Other (c : kernel_call).
Definition trace : Type := list event.

(** [kmalloc] gives memory with arbitrary contents. *)
Record kernel := {
  k_kmalloc : trace → nat → option (list Z);
  k_control_in : trace → Z → Z → Z → Z * Z;
  k_control_out : trace → VendorReq → Z;
  k_bulk_out : trace → Z → list Z → Z;
  k_alloc_urb : trace → bool;
  k_submit_urb : trace → Z → nat → Z;
  k_wait : trace → list Z → option Z;
}.

(** What the kernel documents: an allocation has the size asked for, the word
    read is a [u32]. *)
Record kernel_ok (K : kernel) : Prop := {
  kmalloc_size tr n m : k_kmalloc K tr n = Some m → length m = n;
  control_in_u32 tr q v i : is_u32 (k_control_in K tr q v i).2;
}.

Definition io (A : Type) : Type := trace → outcome (A * trace).
#[export] Instance io_ret : MRet io := λ A a tr, Done (a, tr).
#[export] Instance io_bind : MBind io := λ A B f m tr,
  match m tr with Done (a, tr) => f a tr | Panic => Panic | Undefined => Undefined end.

(** A call into the Rust core: no effect of its own. *)
Definition call {A} (m : outcome A) : io A := λ tr, a ← m; mret (a, tr).

(** A read of memory the call did not set. *)
Definition undefined {A} : io A := λ _, Undefined.

Section services.
Variable K : kernel.

Definition log {A} (a : A) (e : event) : io A := λ tr, Done (a, tr ++ [e]).

Definition kmalloc (n : nat) : io (option (list Z)) := λ tr,
  let m := k_kmalloc K tr n in log m (Kmalloc n (bool_decide (is_Some m))) tr.
Definition kfree : io unit := log tt Kfree.
Definition usb_control_in (request value idx : Z) : io (Z * Z) := λ tr,
  let '(ret, word) := k_control_in K tr request value idx in
  log (ret, word) (ControlIn request value idx ret word) tr.
Definition usb_control_out (r : VendorReq) : io Z := λ tr,
  let ret := k_control_out K tr r in log ret (ControlOut r ret) tr.
Definition usb_bulk_msg (ep : Z) (data : list Z) : io Z := λ tr,
  let ret := k_bulk_out K tr ep data in log ret (BulkOut ep data ret) tr.
Definition usb_alloc_urb : io bool := λ tr,
  let ok := k_alloc_urb K tr in log ok (AllocUrb ok) tr.
Definition usb_free_urb : io unit := log tt FreeUrb.
Definition usb_submit_urb (ep : Z) (len : nat) : io Z := λ tr,
  let ret := k_submit_urb K tr ep len in log ret (SubmitUrb ep len ret) tr.
Definition usb_kill_urb (ep : Z) : io unit := log tt (KillUrb ep).
Definition wait_for_completion_timeout (eps : list Z) : io (option Z) := λ tr,
  let s := k_wait K tr eps in log s (WaitUrb eps s) tr.
Definition msleep : io unit := log tt Sleep.
Definition call_kernel (c : kernel_call) : io unit := log tt (Other c).
End services.

(** ** Register access (regops.c) *)

Definition MT_VEND_REQ_READ : Z := 0x63.
Definition MT_VEND_REQ_WRITE : Z := 0x66.
Definition ENOMEM : Z := -12.

(** The request a register write makes once its address is known. *)
Definition write_req (g v : Z) : VendorReq :=
  {| v_request := MT_VEND_REQ_WRITE; v_value := g ≫ 16; v_index := Z.land g 0xffff;
     v_data := u32_to_le_bytes v |}.

Section regops.
Variable K : kernel.
Variable p : profile.

(** [val] is the word at the caller's out-parameter, returned as it is after
    the call; [addr] is already a bus address. *)
Definition mt7603_usb_cfg_read (addr val : Z) : io (Z * Z) :=
  buf ← kmalloc K 4;
  match buf with
  | None => mret (ENOMEM, val)
  | Some _ =>
      '(ret, word) ← usb_control_in K MT_VEND_REQ_READ (addr ≫ 16) (Z.land addr 0xffff);
      kfree ;;
      mret (if 0 <=? ret then (0, word) else (ret, val))
  end.

Definition mt7603_usb_read_reg (addr val : Z) : io (Z * Z) :=
  buf ← kmalloc K 4;
  match buf with
  | None => mret (ENOMEM, val)
  | Some _ =>
      mapped ← call (mt7603_rust_map_register_addr p addr);
      '(ret, word) ← usb_control_in K MT_VEND_REQ_READ (mapped ≫ 16) (Z.land mapped 0xffff);
      kfree ;;
      mret (if 0 <=? ret then (0, word) else (ret, val))
  end.

Definition mt7603_usb_cfg_write (addr val : Z) : io Z :=
  buf ← kmalloc K 4;
  match buf with
  | None => mret ENOMEM
  | Some _ =>
      ret ← usb_control_out K (write_req addr val);
      kfree ;;
      mret (if ret <? 0 then ret else 0)
  end.

Definition mt7603_usb_write_reg (addr val : Z) : io Z :=
  buf ← kmalloc K 4;
  match buf with
  | None => mret ENOMEM
  | Some _ =>
      mapped ← call (mt7603_rust_map_register_addr p addr);
      ret ← usb_control_out K (write_req mapped val);
      kfree ;;
      mret (if ret <? 0 then ret else 0)
  end.

(** The loop stops at the first error. *)
Fixpoint mt7603_execute_reg_ops (ops : list RegWriteOp) : io Z :=
  match ops with
  | [] => mret 0
  | op :: ops =>
      ret ← mt7603_usb_write_reg (addr op) (val op);
      if ret <? 0 then mret ret else mt7603_execute_reg_ops ops
  end.
End regops.

(** ** Effects

    What a run did to the world: the transfers in order, with whether the
    device got them, and how many allocations, URB objects and submissions it
    left behind. *)

Inductive wire :=
| Req (r : VendorReq) (ok : bool)
| Bulk (ep : Z) (data : list Z) (ok : bool).
#[export] Instance wire_eq_dec : EqDecision wire.
Proof. solve_decision. Defined.

Definition delivered (w : wire) : bool := match w with Req _ ok | Bulk _ _ ok => ok end.
(** The transfers the device got. *)
Definition accepted (ws : list wire) : list wire := filter (λ w, delivered w = true) ws.

Lemma accepted_app ws1 ws2 : accepted (ws1 ++ ws2) = accepted ws1 ++ accepted ws2.
Proof. apply filter_app. Qed.

Record effect := Eff { wires : list wire; mem : Z; urbs : Z; flying : Z }.

Definition quiet : effect := Eff [] 0 0 0.
Definition eff_app (e1 e2 : effect) : effect :=
  Eff (wires e1 ++ wires e2) (mem e1 + mem e2) (urbs e1 + urbs e2) (flying e1 + flying e2).
Infix "⊕" := eff_app (at level 60, right associativity) : rust_scope.

(** A submission is over when its completion was waited for, alone, or it was
    killed; a wait on several completions does not tell which one came. *)
Definition effect_of_event (e : event) : effect :=
  match e with
  | Kmalloc _ ok => Eff [] (if ok then 1 else 0) 0 0
  | Kfree => Eff [] (-1) 0 0
  | ControlIn _ _ _ _ _ | Sleep | Other _ => quiet
  | ControlOut r ret => Eff [Req r (0 <=? ret)] 0 0 0
  | BulkOut ep data ret => Eff [Bulk ep data (0 <=? ret)] 0 0 0
  | AllocUrb ok => Eff [] 0 (if ok then 1 else 0) 0
  | FreeUrb => Eff [] 0 (-1) 0
  | SubmitUrb _ _ ret => Eff [] 0 0 (if 0 <=? ret then 1 else 0)
  | KillUrb _ => Eff [] 0 0 (-1)
  | WaitUrb [_] (Some _) => Eff [] 0 0 (-1)
  | WaitUrb _ _ => quiet
  end.
Definition effect_of (tr : trace) : effect := foldr (λ e, eff_app (effect_of_event e)) quiet tr.

Lemma eff_assoc e1 e2 e3 : e1 ⊕ e2 ⊕ e3 = (e1 ⊕ e2) ⊕ e3.
Proof. unfold eff_app. simpl. by rewrite app_assoc, !Z.add_assoc. Qed.
Lemma eff_quiet_l e : quiet ⊕ e = e.
Proof. by destruct e. Qed.
Lemma eff_quiet_r e : e ⊕ quiet = e.
Proof. destruct e. unfold eff_app. simpl. by rewrite app_nil_r, !Z.add_0_r. Qed.

Lemma effect_of_app tr1 tr2 : effect_of (tr1 ++ tr2) = effect_of tr1 ⊕ effect_of tr2.
Proof.
  induction tr1 as [|e tr1 IH]; simpl; [by rewrite eff_quiet_l|]. by rewrite IH, eff_assoc.
Qed.

(** [emits m P]: from any history, [m] returns normally, and its result and
    the effect it had satisfy [P]. *)
Definition emits {A} (m : io A) (P : A → effect → Prop) : Prop :=
  ∀ tr, ∃ a new, m tr = Done (a, tr ++ new) ∧ P a (effect_of new).

Section rules.
Context {A B : Type}.
Implicit Types (P : A → effect → Prop) (Q : B → effect → Prop).

Lemma emits_ret (a : A) P : P a quiet → emits (mret a) P.
Proof. intros HP tr. exists a, []. by rewrite app_nil_r. Qed.

Lemma emits_call (m : outcome A) a P : m = Done a → P a quiet → emits (call m) P.
Proof. intros -> HP tr. exists a, []. by rewrite app_nil_r. Qed.

Lemma emits_call_eq (m : outcome A) a : m = Done a → emits (call m) (λ r e, r = a ∧ e = quiet).
Proof. intros. by eapply emits_call. Qed.

Lemma emits_weaken (m : io A) P P' : emits m P → (∀ a e, P a e → P' a e) → emits m P'.
Proof. intros Hm HP tr. destruct (Hm tr) as (a & new & -> & ?). eauto 10. Qed.

Lemma emits_bind (m : io A) (f : A → io B) P Q :
  emits m P →
  (∀ a e, P a e → emits (f a) (λ b e', Q b (e ⊕ e'))) →
  emits (m ≫= f) Q.
Proof.
  intros Hm Hf tr. destruct (Hm tr) as (a & new & Heq & HP).
  destruct (Hf a _ HP (tr ++ new)) as (b & new' & Heq' & HQ).
  exists b, (new ++ new'). unfold mbind, io_bind. rewrite Heq, Heq', effect_of_app.
  by rewrite app_assoc.
Qed.

(** A computation without effect, and a call whose answer is known. *)
Lemma emits_bind_quiet (m : io A) (f : A → io B) (P : A → Prop) Q :
  emits m (λ a e, P a ∧ e = quiet) → (∀ a, P a → emits (f a) Q) → emits (m ≫= f) Q.
Proof.
  intros Hm Hf. eapply emits_bind; [done|]. cbn beta. intros a e [Ha ->].
  intros tr. destruct (Hf a Ha tr) as (b & new & -> & HQ). exists b, new. by rewrite eff_quiet_l.
Qed.

Lemma emits_bind_call (m : outcome A) a (f : A → io B) Q :
  m = Done a → emits (f a) Q → emits (call m ≫= f) Q.
Proof.
  intros -> Hf tr. destruct (Hf tr) as (b & new & ? & ?). by exists b, new.
Qed.

Lemma emits_bind_ret (a : A) (f : A → io B) Q : emits (f a) Q → emits (mret a ≫= f) Q.
Proof. done. Qed.

Lemma emits_log (a : A) ev P : P a (effect_of_event ev) → emits (log a ev) P.
Proof. intros HP tr. exists a, [ev]. simpl. by rewrite eff_quiet_r. Qed.
End rules.

Lemma io_bind_assoc {A B C} (m : io A) (f : A → io B) (g : B → io C) P :
  emits ((m ≫= f) ≫= g) P → emits (m ≫= (λ a, f a ≫= g)) P.
Proof.
  intros Hm tr. specialize (Hm tr). unfold mbind, io_bind in *.
  by destruct (m tr) as [[a tr']| |].
Qed.

(** *** Events

    [leaves m P]: from any history, [m] returns normally, and its result and
    the events it added satisfy [P]; [emits] looks at their effect only. *)
Definition leaves {A} (m : io A) (P : A → trace → Prop) : Prop :=
  ∀ tr, ∃ a new, m tr = Done (a, tr ++ new) ∧ P a new.

Lemma emits_leaves {A} (m : io A) P : emits m P → leaves m (λ a new, P a (effect_of new)).
Proof. done. Qed.

Lemma leaves_ret {A} (a : A) (P : A → trace → Prop) : P a [] → leaves (mret a) P.
Proof. intros HP tr. exists a, []. by rewrite app_nil_r. Qed.

Lemma leaves_log {A} (a : A) ev (P : A → trace → Prop) : P a [ev] → leaves (log a ev) P.
Proof. intros HP tr. by exists a, [ev]. Qed.

Lemma leaves_weaken {A} (m : io A) (P P' : A → trace → Prop) :
  leaves m P → (∀ a new, P a new → P' a new) → leaves m P'.
Proof. intros Hm HP tr. destruct (Hm tr) as (a & new & -> & ?). eauto 10. Qed.

Lemma leaves_bind {A B} (m : io A) (f : A → io B) (P : A → trace → Prop) (Q : B → trace → Prop) :
  leaves m P → (∀ a new, P a new → leaves (f a) (λ b new', Q b (new ++ new'))) → leaves (m ≫= f) Q.
Proof.
  intros Hm Hf tr. destruct (Hm tr) as (a & new & Heq & HP).
  destruct (Hf a _ HP (tr ++ new)) as (b & new' & Heq' & HQ).
  exists b, (new ++ new'). unfold mbind, io_bind. by rewrite Heq, Heq', app_assoc.
Qed.

Lemma leaves_bind_call {A B} (m : outcome A) a (f : A → io B) (Q : B → trace → Prop) :
  m = Done a → leaves (f a) Q → leaves (call m ≫= f) Q.
Proof. intros -> Hf tr. destruct (Hf tr) as (b & new & ? & ?). by exists b, new. Qed.

Lemma leaves_assoc {A B C} (m : io A) (f : A → io B) (g : B → io C) P :
  leaves ((m ≫= f) ≫= g) P → leaves (m ≫= (λ a, f a ≫= g)) P.
Proof.
  intros Hm tr. specialize (Hm tr). unfold mbind, io_bind in *.
  by destruct (m tr) as [[a tr']| |].
Qed.

(** The kernel gave what the call asked for. *)
Definition works (e : event) : bool :=
  match e with
  | Kmalloc _ ok | AllocUrb ok => ok
  | ControlIn _ _ _ ret _ | ControlOut _ ret | BulkOut _ _ ret | SubmitUrb _ _ ret => 0 <=? ret
  | _ => true
  end.

(** [clean m P]: when every call of a run of [m] worked, its result satisfies
    [P]. *)
Definition clean {A} (m : io A) (P : A → Prop) : Prop :=
  ∀ tr a tr', m tr = Done (a, tr') → ∃ new, tr' = tr ++ new ∧ (forallb works new = true → P a).

Lemma clean_ret {A} (a : A) (P : A → Prop) : P a → clean (mret a) P.
Proof. intros HP tr ? ? [= <- <-]. exists []. by rewrite app_nil_r. Qed.

Lemma clean_call {A} (m : outcome A) : clean (call m) (λ a, m = Done a).
Proof.
  intros tr a tr' Hm. unfold call in Hm. destruct m as [b| |]; [|done..]. injection Hm as <- <-.
  exists []. by rewrite app_nil_r.
Qed.

Lemma clean_weaken {A} (m : io A) (P P' : A → Prop) : clean m P → (∀ a, P a → P' a) → clean m P'.
Proof. intros Hm HP tr a tr' Heq. destruct (Hm _ _ _ Heq) as (new & -> & ?). eauto. Qed.

Lemma clean_bind {A B} (m : io A) (f : A → io B) (P : A → Prop) (Q : B → Prop) :
  clean m P → (∀ a, clean (f a) (λ b, P a → Q b)) → clean (m ≫= f) Q.
Proof.
  intros Hm Hf tr b tr2 Heq. unfold mbind, io_bind in Heq.
  destruct (m tr) as [[a tr1]| |] eqn:E; [|done..].
  destruct (Hm _ _ _ E) as (new & -> & HP), (Hf _ _ _ _ Heq) as (new' & -> & HQ).
  exists (new ++ new'). split; [by rewrite app_assoc|]. rewrite forallb_app.
  intros [? ?]%andb_true_iff. auto.
Qed.

Lemma clean_bind_call {A B} (m : outcome A) a (f : A → io B) (Q : B → Prop) :
  m = Done a → clean (f a) Q → clean (call m ≫= f) Q.
Proof. intros -> Hf tr. apply Hf. Qed.

(** [io_bind spec] runs the first computation by its specification. *)
Ltac io_bind spec := eapply emits_bind; [apply spec|cbn beta].
Ltac io_ret := apply emits_ret; cbn beta; rewrite ?eff_quiet_r.

(** The trace of a run from an empty history. *)
Definition run_trace {A} (m : io A) : trace :=
  match m [] with Done (_, tr) => tr | _ => [] end.

(** A kernel in which everything succeeds; every word read is 3. *)
Definition good_kernel : kernel := {|
  k_kmalloc := λ _ n, Some (replicate n 0xA5);
  k_control_in := λ _ _ _ _, (4, 3);
  k_control_out := λ _ _, 4;
  k_bulk_out := λ _ _ _, 0;
  k_alloc_urb := λ _, true;
  k_submit_urb := λ _ _ _, 0;
  k_wait := λ _ _, Some 0;
|}.

Lemma good_kernel_ok : kernel_ok good_kernel.
Proof. split; [|done]. intros tr n m [= <-]. apply length_replicate. Qed.

(** *** What the services add *)

Section services_spec.
Context (K : kernel).

Lemma kmalloc_emits n :
  emits (kmalloc K n) (λ m e,
    (m = None ∧ e = quiet) ∨ (∃ c, m = Some c ∧ (kernel_ok K → length c = n) ∧ e = Eff [] 1 0 0)).
Proof.
  intros tr. unfold kmalloc. destruct (k_kmalloc K tr n) as [c|] eqn:E.
  - eexists _, [_]. split; [done|]. right. exists c.
    split_and!; [done| |done]. intros HK. by eapply kmalloc_size.
  - eexists _, [_]. split; [done|]. by left.
Qed.

Lemma kfree_emits : emits kfree (λ _ e, e = Eff [] (-1) 0 0).
Proof. by apply emits_log. Qed.

Lemma control_in_emits q v i :
  emits (usb_control_in K q v i) (λ r e, (kernel_ok K → is_u32 r.2) ∧ e = quiet).
Proof.
  intros tr. unfold usb_control_in.
  destruct (k_control_in K tr q v i) as [ret w] eqn:E. eexists _, [_].
  split; [done|]. split; [|done]. intros HK. pose proof (control_in_u32 K HK tr q v i) as Hw.
  by rewrite E in Hw.
Qed.

Lemma control_out_emits r :
  emits (usb_control_out K r) (λ ret e, e = Eff [Req r (0 <=? ret)] 0 0 0).
Proof. intros tr. eexists _, [_]. split; [done|]. simpl. by rewrite eff_quiet_r. Qed.

Lemma bulk_emits ep data :
  emits (usb_bulk_msg K ep data) (λ ret e, e = Eff [Bulk ep data (0 <=? ret)] 0 0 0).
Proof. intros tr. eexists _, [_]. split; [done|]. simpl. by rewrite eff_quiet_r. Qed.

Lemma alloc_urb_emits :
  emits (usb_alloc_urb K) (λ ok e, e = Eff [] 0 (if ok then 1 else 0) 0).
Proof. intros tr. eexists _, [_]. split; [done|]. simpl. by rewrite eff_quiet_r. Qed.

Lemma free_urb_emits : emits usb_free_urb (λ _ e, e = Eff [] 0 (-1) 0).
Proof. by apply emits_log. Qed.

Lemma submit_urb_emits ep len :
  emits (usb_submit_urb K ep len) (λ ret e, e = Eff [] 0 0 (if 0 <=? ret then 1 else 0)).
Proof. intros tr. eexists _, [_]. split; [done|]. simpl. by rewrite eff_quiet_r. Qed.

Lemma kill_urb_emits ep : emits (usb_kill_urb ep) (λ _ e, e = Eff [] 0 0 (-1)).
Proof. by apply emits_log. Qed.

Lemma wait_one_emits ep :
  emits (wait_for_completion_timeout K [ep])
    (λ s e, e = Eff [] 0 0 (match s with Some _ => -1 | None => 0 end)).
Proof.
  intros tr. eexists _, [_]. split; [done|]. simpl.
  destruct (k_wait K tr [ep]); by rewrite eff_quiet_r.
Qed.

Lemma wait_two_emits ep1 ep2 :
  emits (wait_for_completion_timeout K [ep1; ep2]) (λ _ e, e = quiet).
Proof. intros tr. eexists _, [_]. split; [done|]. simpl. by rewrite eff_quiet_r. Qed.

Lemma call_kernel_emits c : emits (call_kernel c) (λ _ e, e = quiet).
Proof. by apply emits_log. Qed.

Lemma emits_bind_kernel {B} c (f : unit → io B) Q :
  emits (f tt) Q → emits (call_kernel c ≫= f) Q.
Proof.
  intros Hf. apply (emits_bind_quiet _ _ (λ _, True)); [|by intros []].
  eapply emits_weaken; [apply call_kernel_emits|]. by intros _ e ->.
Qed.

Lemma msleep_emits : emits msleep (λ _ e, e = quiet).
Proof. by apply emits_log. Qed.
End services_spec.

Lemma clean_log {A} (a : A) ev : clean (log a ev) (λ _, works ev = true).
Proof.
  intros tr ? tr' [= <- <-]. exists [ev]. split; [done|]. cbn [forallb]. by rewrite andb_true_r.
Qed.

Lemma clean_kmalloc K n : clean (kmalloc K n) is_Some.
Proof.
  intros tr a tr' [= <- <-]. eexists. split; [done|]. cbn [forallb works].
  rewrite andb_true_r. apply bool_decide_eq_true_1.
Qed.

Lemma control_out_clean K r : clean (usb_control_out K r) (λ ret, 0 ≤ ret).
Proof.
  intros tr a tr' [= <- <-]. eexists. split; [done|]. cbn [forallb works].
  rewrite andb_true_r. apply Z.leb_le.
Qed.

(** *** Register access *)

(** A transfer that was either made, or not made and reported: the contract
    of every "send" function of the driver. *)
Definition issued (ret : Z) (w : bool → wire) (e : effect) : Prop :=
  (ret = 0 ∧ e = Eff [w true] 0 0 0) ∨
  (ret < 0 ∧ (e = quiet ∨ e = Eff [w false] 0 0 0)).

(** A read has no effect and returns the word, or an error and the old
    value. *)
Definition fetched (K : kernel) (val : Z) (r : Z * Z) (e : effect) : Prop :=
  e = quiet ∧ ((r.1 = 0 ∧ (kernel_ok K → is_u32 r.2)) ∨ (r.1 < 0 ∧ r.2 = val)).

Definition hif_write (a v : Z) : bool → wire := Req (write_req (translate hif_windows a) v).

Section regops_spec.
Context (K : kernel) (p : profile).

Lemma sent_result ret r :
  issued (if ret <? 0 then ret else 0) (Req r) (Eff [Req r (0 <=? ret)] 0 0 0).
Proof.
  destruct (Z.ltb_spec ret 0).
  - right. split; [done|]. right. by destruct (Z.leb_spec 0 ret); [lia|].
  - left. by destruct (Z.leb_spec 0 ret); [|lia].
Qed.

Lemma cfg_write_emits addr val :
  emits (mt7603_usb_cfg_write K addr val) (λ ret, issued ret (Req (write_req addr val))).
Proof.
  unfold mt7603_usb_cfg_write. io_bind kmalloc_emits.
  intros m e [[-> ->]|(c & -> & _ & ->)]; [io_ret; right; split; [done|by left]|].
  io_bind control_out_emits. intros ret e ->. io_bind kfree_emits. intros _ e ->. io_ret.
  apply sent_result.
Qed.

Lemma write_reg_emits addr val :
  is_u32 addr → emits (mt7603_usb_write_reg K p addr val) (λ ret, issued ret (hif_write addr val)).
Proof.
  intros Ha. unfold mt7603_usb_write_reg. io_bind kmalloc_emits.
  intros m e [[-> ->]|(c & -> & _ & ->)]; [io_ret; right; split; [done|by left]|].
  io_bind (emits_call_eq _ _ (physical_addr_map_translate p addr Ha)). intros a e [-> ->].
  io_bind control_out_emits. intros ret e ->. io_bind kfree_emits. intros _ e ->. io_ret.
  apply sent_result.
Qed.

Lemma fetch_result ret w val :
  (kernel_ok K → is_u32 w) →
  fetched K val (if 0 <=? ret then (0, w) else (ret, val)) quiet.
Proof.
  intros Hw. split; [done|].
  destruct (Z.leb_spec 0 ret); [by left|right]; simpl. split; [lia|done].
Qed.

Lemma cfg_read_emits addr val : emits (mt7603_usb_cfg_read K addr val) (fetched K val).
Proof.
  unfold mt7603_usb_cfg_read. io_bind kmalloc_emits.
  intros m e [[-> ->]|(c & -> & _ & ->)]; [io_ret; split; [done|by right]|].
  io_bind control_in_emits. intros [ret w] e [Hw ->]. io_bind kfree_emits. intros _ e ->. io_ret.
  by apply fetch_result.
Qed.

Lemma read_reg_emits addr val :
  is_u32 addr → emits (mt7603_usb_read_reg K p addr val) (fetched K val).
Proof.
  intros Ha. unfold mt7603_usb_read_reg. io_bind kmalloc_emits.
  intros m e [[-> ->]|(c & -> & _ & ->)]; [io_ret; split; [done|by right]|].
  io_bind (emits_call_eq _ _ (physical_addr_map_translate p addr Ha)). intros a e [-> ->].
  io_bind control_in_emits. intros [ret w] e [Hw ->]. io_bind kfree_emits. intros _ e ->. io_ret.
  by apply fetch_result.
Qed.

(** The events of a read and of a write of a register: nothing without memory
    for the buffer, else one request between the allocation and the free. *)
Definition read_events (a got word : Z) : trace :=
  let g := translate hif_windows a in
  [Kmalloc 4 true; ControlIn MT_VEND_REQ_READ (g ≫ 16) (Z.land g 0xffff) got word; Kfree].
Definition write_events (a v : Z) (t : trace) : Prop :=
  t = [Kmalloc 4 false] ∨
  ∃ got, t = [Kmalloc 4 true; ControlOut (write_req (translate hif_windows a) v) got; Kfree].

Lemma kmalloc_leaves n :
  leaves (kmalloc K n) (λ m t,
    (m = None ∧ t = [Kmalloc n false]) ∨
    (∃ c, m = Some c ∧ (kernel_ok K → length c = n) ∧ t = [Kmalloc n true])).
Proof.
  intros tr. unfold kmalloc. destruct (k_kmalloc K tr n) as [c|] eqn:E; eexists _, [_]; (split; [done|]).
  - right. exists c. split_and!; [done| |done]. intros HK. by eapply kmalloc_size.
  - by left.
Qed.

Lemma write_reg_leaves a v :
  is_u32 a → leaves (mt7603_usb_write_reg K p a v) (λ _, write_events a v).
Proof.
  intros Ha. unfold mt7603_usb_write_reg. eapply leaves_bind; [apply kmalloc_leaves|]. cbn beta.
  intros m t [[-> ->]|(c & -> & _ & ->)]; [apply leaves_ret; by left|].
  eapply leaves_bind_call; [exact (physical_addr_map_translate p a Ha)|].
  intros tr. unfold usb_control_out, kfree, log, mbind, io_bind.
  eexists _, [_; _]. split; [by rewrite <-app_assoc|]. right. by eexists.
Qed.

Lemma read_reg_leaves a val :
  is_u32 a →
  leaves (mt7603_usb_read_reg K p a val) (λ r t,
    (r = (ENOMEM, val) ∧ t = [Kmalloc 4 false]) ∨
    ∃ got word, r = (if 0 <=? got then (0, word) else (got, val)) ∧ (kernel_ok K → is_u32 word) ∧
      t = read_events a got word).
Proof.
  intros Ha. unfold mt7603_usb_read_reg. eapply leaves_bind; [apply kmalloc_leaves|]. cbn beta.
  intros m t [[-> ->]|(c & -> & _ & ->)]; [apply leaves_ret; by left|].
  eapply leaves_bind_call; [exact (physical_addr_map_translate p a Ha)|].
  intros tr. unfold usb_control_in, kfree, log, mbind, io_bind.
  destruct (k_control_in K tr _ _ _) as [got word] eqn:E. eexists _, [_; _].
  split; [by rewrite <-app_assoc|]. right. exists got, word. split; [done|]. split; [|done].
  intros HK. by pose proof (control_in_u32 K HK tr MT_VEND_REQ_READ (translate hif_windows a ≫ 16)
    (Z.land (translate hif_windows a) 0xffff)) as Hw; rewrite E in Hw.
Qed.

Lemma write_reg_clean a v : clean (mt7603_usb_write_reg K p a v) (λ ret, ret = 0).
Proof.
  eapply clean_bind; [apply clean_kmalloc|]. intros m. destruct m as [c|].
  2:{ apply clean_ret. by intros [? [=]]. }
  eapply clean_bind; [apply clean_call|]. intros g. eapply clean_bind; [apply control_out_clean|].
  intros ret. eapply clean_bind; [apply clean_log|]. intros u. apply clean_ret. intros _ Hr _ _.
  destruct (Z.ltb_spec ret 0); [lia|done].
Qed.

(** The requests of a sequence of writes. *)
Definition op_wire (op : RegWriteOp) : bool → wire := hif_write (addr op) (val op).

(** A run issues a prefix of the sequence, all of it exactly when it
    succeeds; only the last transfer can have failed. *)
Lemma execute_reg_ops_emits ops :
  Forall op_wf ops →
  emits (mt7603_execute_reg_ops K p ops) (λ ret e, ret ≤ 0 ∧ mem e = 0 ∧ urbs e = 0 ∧ flying e = 0 ∧
    if decide (ret = 0) then wires e = (λ op, op_wire op true) <$> ops
    else ∃ pre op, (pre ++ [op]) `prefix_of` ops ∧
      (wires e = (λ op, op_wire op true) <$> pre ∨
       wires e = ((λ op, op_wire op true) <$> pre) ++ [op_wire op false])).
Proof.
  induction 1 as [|op ops [Ha _] HF IH]; cbn [mt7603_execute_reg_ops].
  { io_ret. by rewrite decide_True. }
  io_bind (write_reg_emits _ (val op) Ha).
  intros ret e [[-> ->]|[Hneg He]].
  - cbn [Z.ltb Z.compare]. eapply emits_weaken; [apply IH|]. cbn beta.
    intros ret e (Hret & Hm & Hu & Hf & Hw). cbn. rewrite Hm, Hu, Hf. split_and!; [done..|].
    case_decide; [by rewrite Hw|]. destruct Hw as (pre & op' & Hpre & Hw).
    exists (op :: pre), op'. split; [by apply prefix_cons|].
    destruct Hw as [-> | ->]; [by left|by right].
  - destruct (Z.ltb_spec ret 0); [|lia]. io_ret.
    assert (mem e = 0 ∧ urbs e = 0 ∧ flying e = 0) as (-> & -> & ->) by (by destruct He as [-> | ->]).
    split_and!; [lia|done..|]. rewrite decide_False by lia. exists [], op.
    split; [by apply prefix_cons, prefix_nil|]. destruct He as [-> | ->]; [by left|by right].
Qed.

Lemma execute_reg_ops_clean ops : clean (mt7603_execute_reg_ops K p ops) (λ ret, ret = 0).
Proof.
  induction ops as [|op ops IH]; cbn [mt7603_execute_reg_ops]; [by apply clean_ret|].
  eapply clean_bind; [apply write_reg_clean|]. intros ret. destruct (Z.ltb_spec ret 0).
  - apply clean_ret. lia.
  - eapply clean_weaken; [exact IH|]. by intros.
Qed.
End regops_spec.
