(* ===== verification/Device.v ===== *)
(** * Register sequences on the device (src/c/regops.c)

    What the register sequences of the core do to the device when the C
    skeleton executes them: every register they name ends with its last
    value. *)

From S2P Require Import Prelude Rust Ffi Regmap Mac Entry Usb.
Local Open Scope Z_scope.
Local Open Scope rust_scope.

(** ** The device's registers *)

(** The global address and value of a write request. *)
Definition req_addr (r : VendorReq) : Z := Z.lor (v_value r ≪ 16) (v_index r).
Definition req_val (r : VendorReq) : Z :=
  match v_data r with [b0; b1; b2; b3] => u32_from_le_bytes b0 b1 b2 b3 | _ => 0 end.

(** A global register after a run of transfers: the last write the device got. *)
Definition device_reg (ws : list wire) (g : Z) : Z :=
  foldl (λ v w, match w with
                | Req r true => if decide (v_request r = MT_VEND_REQ_WRITE ∧ req_addr r = g)
                                then req_val r else v
                | _ => v
                end) 0 ws.

Lemma write_req_addr g v : is_u32 g → req_addr (write_req g v) = g.
Proof.
  intros Hg. unfold req_addr, write_req. cbn [v_value v_index].
  rewrite (mask_bits g 0xffff 16), Z.lor_comm by done.
  replace (g ≫ 16) with (bits (0 + 16) 16 g).
  - rewrite bits_split by lia. apply bits_small; [lia|uint].
  - rewrite bits_mod by lia. apply Z.mod_small. rewrite Z.shiftr_div_pow2 by lia.
    unfold is_uint in Hg. pow2. split; [apply Z.div_pos|apply Z.div_lt_upper_bound]; lia.
Qed.

Lemma write_req_val g v : is_u32 v → req_val (write_req g v) = v.
Proof. apply u32_from_to. Qed.

(** Requests that are not writes leave the registers alone. *)
Lemma device_reg_silent (sent : list VendorReq) g :
  Forall (λ r, v_request r ≠ MT_VEND_REQ_WRITE) sent →
  device_reg ((λ r, Req r true) <$> sent) g = 0.
Proof.
  unfold device_reg. induction 1 as [|r sent Hr HF IH]; [done|].
  cbn [fmap list_fmap foldl]. by rewrite decide_False by (by intros [? _]).
Qed.

Lemma last_write_snoc ops op a :
  last_write (ops ++ [op]) a = if decide (addr op = a) then val op else last_write ops a.
Proof.
  unfold last_write. rewrite filter_app, filter_cons, filter_nil.
  case_decide; [by rewrite last_snoc|by rewrite app_nil_r].
Qed.

(** The device sees the sequence: addresses of different registers stay
    different after mapping. *)
Lemma device_reg_ops ops a :
  Forall op_wf ops → Forall (λ op, mapped (addr op)) ops → mapped a →
  device_reg ((λ op, op_wire op true) <$> ops) (translate hif_windows a) = last_write ops a.
Proof.
  intros Hwf Hm Ha. induction ops as [|op ops IH] using rev_ind; [done|].
  apply Forall_app in Hwf as [Hwf [[Hu Hv] _]%Forall_cons].
  apply Forall_app in Hm as [Hm [Hop _]%Forall_cons].
  rewrite fmap_app. unfold device_reg in *. rewrite foldl_app, IH, last_write_snoc by done.
  cbn [fmap list_fmap foldl op_wire hif_write].
  rewrite write_req_addr, write_req_val by (done || by apply translate_u32).
  destruct (decide (addr op = a)) as [->|Hne]; [by rewrite decide_True|].
  rewrite decide_False; [done|]. intros [_ Heq]. by apply Hne, translate_inj.
Qed.

Lemma accepted_ops ops : accepted ((λ op, op_wire op true) <$> ops) = (λ op, op_wire op true) <$> ops.
Proof.
  unfold accepted. induction ops as [|op ops IH]; [done|].
  cbn [fmap list_fmap op_wire hif_write]. rewrite filter_cons_True by done. by rewrite IH.
Qed.

Lemma static_seq_mapped : Forall op_wf static_seq ∧ Forall (λ op, mapped (addr op)) static_seq.
Proof. vm_decide. Qed.

(** A run that stopped early: what the device got, and that something failed. *)
Lemma execute_reg_ops_got K p ops tr ret tr' :
  Forall op_wf ops → mt7603_execute_reg_ops K p ops tr = Done (ret, tr') →
  ∃ new got, tr' = tr ++ new ∧ got `prefix_of` ops ∧
    accepted (wires (effect_of new)) = (λ op, op_wire op true) <$> got ∧
    (ret = 0 ↔ got = ops) ∧ (forallb works new = true → got = ops).
Proof.
  intros Hwf Hrun. destruct (execute_reg_ops_clean K p ops _ _ _ Hrun) as (new' & E & Hc).
  destruct (execute_reg_ops_emits K p ops Hwf tr) as (r & new & Heq & Hret & Hmem & _ & _ & Hw).
  rewrite Hrun in Heq. injection Heq as <- ->. apply app_inv_head in E as <-. exists new. case_decide as Hr.
  - exists ops. rewrite Hw. by split_and!; [..|apply accepted_ops| |].
  - destruct Hw as (pre & op & Hpre & Hw). exists pre.
    assert (pre ≠ ops) as Hne by (intros ->; apply prefix_length in Hpre; revert Hpre; list_len).
    split_and!; [done|by eapply prefix_app_l| |done|intros Hx; by destruct (Hr (Hc Hx))].
    destruct Hw as [-> | ->]; [apply accepted_ops|].
    unfold accepted. rewrite filter_app. fold (accepted ((λ op, op_wire op true) <$> pre)).
    rewrite accepted_ops. unfold op_wire, hif_write. by rewrite filter_cons_False, filter_nil, app_nil_r.
Qed.

(** ** Correctness *)

(** Executing a register sequence: whatever the allocator and the bus
    answer, the call returns, keeps no memory, and the device got a prefix of
    the sequence, in order, each write at the mapped address; the call
    succeeds only if that is the whole sequence, and then every mapped
    register of the device holds the last value the sequence wrote to it. *)
Theorem execute_reg_ops_programs K p ops tr :
  Forall op_wf ops → Forall (λ op, mapped (addr op)) ops →
  ∃ ret new, mt7603_execute_reg_ops K p ops tr = Done (ret, tr ++ new) ∧ ret ≤ 0 ∧
    let e := effect_of new in
    mem e = 0 ∧
    ∃ got, got `prefix_of` ops ∧ accepted (wires e) = (λ op, op_wire op true) <$> got ∧
      (ret = 0 ↔ got = ops) ∧
      (ret = 0 → ∀ a, mapped a → device_reg (wires e) (translate hif_windows a) = last_write ops a).
Proof.
  intros Hwf Hm.
  destruct (execute_reg_ops_emits K p ops Hwf tr) as (ret & new & -> & Hret & Hmem & _ & _ & Hw).
  exists ret, new. cbv zeta. split_and!; [done..|]. case_decide as Hr.
  - exists ops. rewrite Hw. split_and!; [done|apply accepted_ops|done|]. intros _ a Ha.
    by apply device_reg_ops.
  - destruct Hw as (pre & op & Hpre & Hw). exists pre. split_and!; [| | |done].
    + by eapply prefix_app_l.
    + destruct Hw as [-> | ->]; [apply accepted_ops|].
      unfold accepted. rewrite filter_app. fold (accepted ((λ op, op_wire op true) <$> pre)).
      rewrite accepted_ops. unfold op_wire, hif_write. by rewrite filter_cons_False, filter_nil, app_nil_r.
    + split; [done|]. intros ->. apply prefix_length in Hpre. revert Hpre. list_len.
Qed.

(** A bus that fails the third write. *)
Definition failing_kernel : kernel := {|
  k_kmalloc := k_kmalloc good_kernel;
  k_control_in := k_control_in good_kernel;
  k_control_out := λ tr _, if decide (length (wires (effect_of tr)) = 2%nat) then -71 else 4;
  k_bulk_out := k_bulk_out good_kernel;
  k_alloc_urb := k_alloc_urb good_kernel;
  k_submit_urb := k_submit_urb good_kernel;
  k_wait := k_wait good_kernel;
|}.

Lemma execute_reg_ops_programs_witness :
  ∃ ret new, mt7603_execute_reg_ops failing_kernel Release static_seq [] = Done (ret, [] ++ new) ∧
    ret ≤ 0 ∧
    let e := effect_of new in
    mem e = 0 ∧
    ∃ got, got `prefix_of` static_seq ∧ accepted (wires e) = (λ op, op_wire op true) <$> got ∧
      (ret = 0 ↔ got = static_seq) ∧
      (ret = 0 → ∀ a, mapped a →
         device_reg (wires e) (translate hif_windows a) = last_write static_seq a).
Proof.
  apply (execute_reg_ops_programs failing_kernel Release static_seq []); vm_decide.
Defined.

(** C35. MAC initialisation, end to end: the driver's 128-element array holds
    the sequence, every address in it is a mapped register, and after an
    execution without errors each of the registers it names holds the value
    it names - no write undoes another. *)
Theorem mac_init_programs_device K p array old tr tr' :
  length array = 128%nat →
  mt7603_execute_reg_ops K p static_seq tr = Done (0, tr') →
  (∃ array', mt7603_rust_get_mac_init_sequence (Some array) 128 (Some old) =
     Done (0, Some array', Some (length static_seq)) ∧
     take (length static_seq) array' = static_seq) ∧
  ∃ new, tr' = tr ++ new ∧
    ∀ op, op ∈ static_seq →
      mapped (addr op) ∧
      device_reg (wires (effect_of new)) (translate hif_windows (addr op)) = val op.
Proof.
  intros Harr Hexec. destruct static_seq_mapped as [Hwf Hm]. split.
  - eexists. split; [|apply (take_app_length static_seq)].
    unfold mt7603_rust_get_mac_init_sequence.
    rewrite (run_builder_answers _ (Ok static_seq)) by lia. unfold entry_result.
    rewrite decide_False by (vm_compute; lia). done.
  - destruct (execute_reg_ops_emits K p static_seq Hwf tr) as (ret & new & Heq & _ & _ & _ & _ & Hw).
    rewrite Hexec in Heq. injection Heq as <- ->. rewrite decide_True in Hw by done.
    exists new. split; [done|]. rewrite Hw.
    intros op Hop. rewrite Forall_forall in Hm. split; [by apply Hm|].
    rewrite device_reg_ops by (done || (by apply Hm) || by apply static_seq_mapped).
    revert op Hop. rewrite <-(Forall_forall (λ op, last_write static_seq (addr op) = val op)).
    vm_decide.
Qed.

Lemma mac_init_programs_device_witness :
  let array := replicate 128 (0 ↤ 0) in
  let tr := run_trace (mt7603_execute_reg_ops good_kernel Release static_seq) in
  (∃ array', mt7603_rust_get_mac_init_sequence (Some array) 128 (Some 0%nat) =
     Done (0, Some array', Some (length static_seq)) ∧
     take (length static_seq) array' = static_seq) ∧
  ∃ new, tr = [] ++ new ∧
    ∀ op, op ∈ static_seq →
      mapped (addr op) ∧
      device_reg (wires (effect_of new)) (translate hif_windows (addr op)) = val op.
Proof.
  apply (mac_init_programs_device good_kernel Release (replicate 128 (0 ↤ 0)) 0 []);
    [done|by vm_compute].
Defined.
