(* ===== verification/Runner.v ===== *)
(** * The user-space runner (src/rust/src/bin/user_runner.rs)

    A program that finds the device with the rusb crate, checks the firmware
    image it was compiled with, issues the MAC initialisation sequence through
    a loop of its own, and builds a probe request, a beacon and an association
    response.  What rusb answers is a parameter; printing is left out, what is
    printed is in the report. *)

From S2P Require Import Prelude Rust Ffi Regmap Mac Mcu Sta Ap Entry Usb Device.
Local Open Scope Z_scope.
Local Open Scope rust_scope.

Definition VID : Z := 0x0e8d.
Definition PID_ALT : Z := 0x760c.
Definition PID_STD : Z := 0x7603.

(** A device of the bus: its vendor and product, if they can be read, and
    whether it can be opened. *)
Record usb_device := UsbDevice { ud_descriptor : result (Z * Z); ud_open : result unit }.

(** The errors [main] returns; those of rusb keep their number. *)
Inductive runner_error :=
| RusbError (e : Z) | FwVerifyError (e : Z) | MacInitError (e : Z)
| ProbeReqError (e : Z) | BeaconBuildError (e : Z) | AssocRespError (e : Z).

(** What a complete run prints: the product, how many requests succeeded, and
    the three frames. *)
Record report := Report {
  rp_pid : Z; rp_executed : nat; rp_probe_req : list Z; rp_beacon : list Z; rp_assoc_resp : list Z
}.

(** One iteration: request 0x63, the address as it is in the sequence. *)
Definition runner_req (op : RegWriteOp) : VendorReq :=
  {| v_request := 0x63; v_value := wrap 16 (addr op ≫ 16); v_index := wrap 16 (Z.land (addr op) 0xFFFF);
     v_data := u32_to_le_bytes (val op) |}.

Section runner.
(** [write_control] of the rusb crate: whether the transfer succeeded. *)
Variable write_control : list VendorReq → VendorReq → bool.

(** The loop over [&reg_ops[..count]]; it counts successes and goes on after
    an error. *)
Fixpoint runner_loop (ops : list RegWriteOp) (sent : list VendorReq) (ops_executed : nat)
    : nat * list VendorReq :=
  match ops with
  | [] => (ops_executed, sent)
  | op :: ops =>
      let req := runner_req op in
      let ok := write_control sent req in
      runner_loop ops (sent ++ [req]) (if ok then S ops_executed else ops_executed)
  end.

(** Step 2 and 3 of [main]: the sequence from the core, executed. *)
Definition runner_init : outcome (result (nat * list VendorReq)) :=
  '(r, reg_ops) ← build_mac_init_sequence (replicate 128 (0 ↤ 0));
  match r with
  | Ok count => mret (Ok (runner_loop (take count reg_ops) [] 0))
  | Err e => mret (Err e)
  end.

(** The loop over the devices: the product of the first one that matches,
    once it is open. *)
Fixpoint find_device (devices : list usb_device) : result (option Z) :=
  match devices with
  | [] => Ok None
  | device :: devices =>
      match ud_descriptor device with
      | Err e => Err e
      | Ok (vendor_id, product_id) =>
          if (vendor_id =? VID) && ((product_id =? PID_ALT) || (product_id =? PID_STD)) then
            match ud_open device with Err e => Err e | Ok _ => Ok (Some product_id) end
          else find_device devices
      end
  end.

(** A frame built in a zeroed buffer of 128 bytes. *)
Definition runner_build (f : builder Z nat) : outcome (result (list Z)) :=
  '(r, buf) ← f (replicate 128 0);
  mret (match r with Ok len => Ok (take len buf) | Err e => Err e end).

Definition src_mac : list Z := [0x00; 0x0c; 0x43; 0x76; 0x03; 0x01].
Definition sta_mac : list Z := [0xAA; 0xBB; 0xCC; 0xDD; 0xEE; 0xFF].
(** "firefly" and "MT7603U-AP" *)
Definition probe_ssid : list Z := [0x66; 0x69; 0x72; 0x65; 0x66; 0x6c; 0x79].
Definition beacon_ssid : list Z := [0x4d; 0x54; 0x37; 0x36; 0x30; 0x33; 0x55; 0x2d; 0x41; 0x50].

(** Steps 4 to 6, after [ops_executed] requests of [sent] succeeded. *)
Definition runner_frames (matched_pid : Z) (ops_executed : nat) : outcome (runner_error + report) :=
  probe_req ← runner_build (build_probe_request probe_ssid src_mac);
  match probe_req with Err e => mret (inl (ProbeReqError e)) | Ok probe_req =>
  beacon ← runner_build (build_beacon beacon_ssid src_mac 6);
  match beacon with Err e => mret (inl (BeaconBuildError e)) | Ok beacon =>
  assoc_resp ← runner_build (build_assoc_resp sta_mac src_mac 1 0);
  match assoc_resp with Err e => mret (inl (AssocRespError e)) | Ok assoc_resp =>
  mret (inr (Report matched_pid ops_executed probe_req beacon assoc_resp))
  end end end.

(** [Context::new] and [context.devices]. *)
Variable context : result unit.
Variable devices : result (list usb_device).

(** The requests sent and the result; [None] when there is no device. The
    result of claiming the interface is only printed. *)
Definition runner_main (fw_bytes : list Z) : outcome (list VendorReq * (runner_error + option report)) :=
  match context with Err e => mret ([], inl (RusbError e)) | Ok _ =>
  match devices with Err e => mret ([], inl (RusbError e)) | Ok devices =>
  match find_device devices with
  | Err e => mret ([], inl (RusbError e))
  | Ok None => mret ([], inr None)
  | Ok (Some matched_pid) =>
      fw ← verify_firmware fw_bytes;
      match fw with Err e => mret ([], inl (FwVerifyError e)) | Ok _ =>
      init ← runner_init;
      match init with Err e => mret ([], inl (MacInitError e)) | Ok (ops_executed, sent) =>
      frames ← runner_frames matched_pid ops_executed;
      mret (sent, match frames with inl e => inl e | inr rep => inr (Some rep) end)
      end end
  end end end.
End runner.

Lemma runner_loop_trace write_control ops sent n :
  ∃ m, runner_loop write_control ops sent n = (m, sent ++ (runner_req <$> ops)) ∧
    (m ≤ n + length ops)%nat.
Proof.
  revert sent n. induction ops as [|op ops IH]; intros sent n; simpl.
  { exists n. rewrite app_nil_r. split; [done|lia]. }
  destruct (IH (sent ++ [runner_req op])
    (if write_control sent (runner_req op) then S n else n)) as (m & -> & Hm).
  exists m. rewrite <-app_assoc. split; [done|]. destruct (write_control _ _); lia.
Qed.

Lemma runner_build_done f frame : Builds f frame → (length frame ≤ 128)%nat →
  runner_build f = Done (Ok frame).
Proof.
  intros Hf Hl. unfold runner_build. rewrite builds_fits by (rewrite length_replicate; done).
  cbn [mbind outcome_bind]. by rewrite take_app_length.
Qed.

Lemma runner_frames_done pid n :
  runner_frames pid n = Done (inr (Report pid n (probe_request_frame probe_ssid src_mac)
    (beacon_frame beacon_ssid src_mac 6) (assoc_resp_frame sta_mac src_mac 1 0))).
Proof.
  unfold runner_frames.
  rewrite (runner_build_done _ _ (probe_request_builds probe_ssid src_mac eq_refl)) by vm_decide. cbn [mbind outcome_bind].
  rewrite (runner_build_done _ _ (beacon_builds beacon_ssid src_mac 6 eq_refl)) by vm_decide. cbn [mbind outcome_bind].
  by rewrite (runner_build_done _ _ (assoc_resp_builds sta_mac src_mac 1 0 eq_refl eq_refl)) by vm_decide.
Qed.

(** The requests of the runner are reads, at addresses that are not mapped. *)
Lemma runner_reqs_read :
  Forall (λ r, v_request r = MT_VEND_REQ_READ ∧ v_request r ≠ MT_VEND_REQ_WRITE) (runner_req <$> static_seq).
Proof. vm_decide. Qed.

Lemma runner_init_done write_control :
  ∃ n, runner_init write_control = Done (Ok (n, runner_req <$> static_seq)) ∧ (n ≤ length static_seq)%nat.
Proof.
  unfold runner_init. rewrite (builds_fits (frame := static_seq)) by vm_decide.
  cbn [mbind outcome_bind]. rewrite take_app_length.
  destruct (runner_loop_trace write_control static_seq [] 0) as (m & -> & Hm). by exists m.
Qed.

(** The device the runner opens: the first one of the right identity. *)
Definition ours (d : usb_device) : Prop :=
  ∃ pid, ud_descriptor d = Ok (VID, pid) ∧ (pid = PID_ALT ∨ pid = PID_STD).

Lemma find_device_some devices pid :
  find_device devices = Ok (Some pid) →
  ∃ pre d post, devices = pre ++ d :: post ∧ Forall (λ d, ¬ ours d) pre ∧
    ud_descriptor d = Ok (VID, pid) ∧ (pid = PID_ALT ∨ pid = PID_STD) ∧ ud_open d = Ok tt.
Proof.
  induction devices as [|d devices IH]; [done|]. cbn [find_device].
  destruct (ud_descriptor d) as [[v q]|e] eqn:Ed; [|done].
  assert ((v =? VID) && ((q =? PID_ALT) || (q =? PID_STD)) = true ↔ v = VID ∧ (q = PID_ALT ∨ q = PID_STD)) as Hb
    by by rewrite andb_true_iff, orb_true_iff, !Z.eqb_eq.
  destruct (_ && _).
  - destruct (proj1 Hb eq_refl) as [-> Hq]. destruct (ud_open d) as [[]|] eqn:Eo; [|done]. intros [= <-].
    by exists [], d, devices.
  - intros Hf. destruct (IH Hf) as (pre & d' & post & -> & Hpre & Hd').
    exists (d :: pre), d', post. split; [done|]. split; [|done]. constructor; [|done].
    intros (pid' & Hp & Hor). rewrite Ed in Hp. injection Hp as -> ->.
    by discriminate (proj2 Hb (conj eq_refl Hor)).
Qed.

(** What a run does once the devices are listed. *)
Lemma runner_main_found write_control devices fw_bytes :
  ∃ sent res, runner_main write_control (Ok tt) (Ok devices) fw_bytes = Done (sent, res) ∧
    (sent = [] ∨ sent = runner_req <$> static_seq) ∧
    match find_device devices with
    | Err e => sent = [] ∧ res = inl (RusbError e)
    | Ok None => sent = [] ∧ res = inr None
    | Ok (Some pid) =>
        (∃ pre d post, devices = pre ++ d :: post ∧ Forall (λ d, ¬ ours d) pre ∧
           ud_descriptor d = Ok (VID, pid) ∧ (pid = PID_ALT ∨ pid = PID_STD) ∧ ud_open d = Ok tt) ∧
        if decide (1024 ≤ length fw_bytes ∧ take 4 fw_bytes = fw_magic)%nat then
          sent = runner_req <$> static_seq ∧
          ∃ executed, (executed ≤ length sent)%nat ∧
            res = inr (Some (Report pid executed (probe_request_frame probe_ssid src_mac)
              (beacon_frame beacon_ssid src_mac 6) (assoc_resp_frame sta_mac src_mac 1 0)))
        else sent = [] ∧ res = inl (FwVerifyError EINVAL)
    end.
Proof.
  unfold runner_main. destruct (find_device devices) as [[pid|]|e] eqn:Ef.
  2:{ eexists [], _. split; [exact eq_refl|]. by split; [left|]. }
  2:{ eexists [], _. split; [exact eq_refl|]. by split; [left|]. }
  pose proof (find_device_some _ _ Ef) as Hours. rewrite verify_firmware_decides, outcome_bind_done.
  case_decide.
  2:{ eexists [], _. split; [exact eq_refl|]. split; [by left|]. by split. }
  destruct (runner_init_done write_control) as (n & -> & Hn). rewrite outcome_bind_done.
  rewrite runner_frames_done, outcome_bind_done.
  eexists _, _. split; [exact eq_refl|]. split; [by right|]. split; [exact Hours|].
  split; [reflexivity|]. exists n. split; [|reflexivity]. by rewrite length_fmap.
Qed.

(** ** Properties *)

(** The user-space runner programs nothing: it reports one transfer per
    operation, but every request it makes carries the read request code and
    none the write code, and no address in it is the mapped one. *)
Theorem runner_never_writes write_control :
  ∃ executed sent, runner_init write_control = Done (Ok (executed, sent)) ∧
    sent = runner_req <$> static_seq ∧ (executed ≤ length static_seq)%nat ∧
    Forall (λ r, v_request r = MT_VEND_REQ_READ ∧ v_request r ≠ MT_VEND_REQ_WRITE) sent ∧
    Forall (λ op, req_addr (runner_req op) ≠ translate hif_windows (addr op)) static_seq ∧
    ∀ g, device_reg ((λ r, Req r true) <$> sent) g = 0.
Proof.
  destruct (runner_init_done write_control) as (m & -> & Hm).
  exists m, (runner_req <$> static_seq). split_and!; [done..|apply runner_reqs_read|vm_decide|].
  intros g. apply device_reg_silent. eapply Forall_impl; [apply runner_reqs_read|]. by intros r [_ ?].
Qed.

(** C39. A run of the user-space runner, whatever the bus answers.  It returns; it
    sends nothing unless it found and opened the first device of the right
    identity and the image is a firmware image.  Then it sends exactly the
    initialisation sequence, as read requests that change no register, and
    reports the three frames of 802.11 - with any number of failed requests,
    and without having sent the image or a frame. *)
Theorem runner_main_spec write_control context devices fw_bytes :
  ∃ sent res, runner_main write_control context devices fw_bytes = Done (sent, res) ∧
    (∀ g, device_reg ((λ r, Req r true) <$> sent) g = 0) ∧
    match context, devices with
    | Ok _, Ok devices =>
        match find_device devices with
        | Err e => sent = [] ∧ res = inl (RusbError e)
        | Ok None => sent = [] ∧ res = inr None
        | Ok (Some pid) =>
            (∃ pre d post, devices = pre ++ d :: post ∧ Forall (λ d, ¬ ours d) pre ∧
               ud_descriptor d = Ok (VID, pid) ∧ (pid = PID_ALT ∨ pid = PID_STD) ∧ ud_open d = Ok tt) ∧
            if decide (1024 ≤ length fw_bytes ∧ take 4 fw_bytes = fw_magic)%nat then
              sent = runner_req <$> static_seq ∧
              ∃ executed, (executed ≤ length sent)%nat ∧
                res = inr (Some (Report pid executed (probe_request_frame probe_ssid src_mac)
                  (beacon_frame beacon_ssid src_mac 6) (assoc_resp_frame sta_mac src_mac 1 0)))
            else sent = [] ∧ res = inl (FwVerifyError EINVAL)
        end
    | Ok _, Err e | Err e, _ => sent = [] ∧ res = inl (RusbError e)
    end.
Proof.
  destruct context as [[]|e]; [|by eexists [], _].
  destruct devices as [devices|e]; [|by eexists [], _].
  destruct (runner_main_found write_control devices fw_bytes) as (sent & res & Hm & Hs & Hf).
  exists sent, res. split; [exact Hm|]. split; [|exact Hf].
  intros g. apply device_reg_silent. destruct Hs as [-> | ->]; [constructor|].
  eapply Forall_impl; [apply runner_reqs_read|]. by intros r [_ ?].
Qed.
