(* ===== verification/Cmd.v ===== *)
(** * Commands to the firmware (mt7603_usb_send_cmd in src/c/usb.c)

    The firmware download and the mac80211 callbacks send commands the same
    way: the Rust core builds the frame into a buffer of the caller, and the
    frame goes out on the command endpoint with four bytes of padding.  This
    file is the interface both are proved against: [call_builder_emits] and
    [send_held_emits] give the transfer of a [command]. *)

From S2P Require Import Prelude Rust Ffi Mcu Entry Usb.
Local Open Scope Z_scope.
Local Open Scope rust_scope.

Definition MT7603_CMD_BULK_OUT : Z := 0x08.
Definition MT7603_USB_END_PADDING : nat := 4.

(** A call of a builder with a command buffer of [max] bytes: status, buffer and length. *)
Definition call_builder (max : nat) (f : option (list Z) → nat → option nat → builder_call Z)
    (cmd : list Z) : io (Z * list Z * nat) :=
  out ← call (f (Some cmd) max (Some 0%nat));
  match out with
  | (st, Some cmd, Some n) => mret (st, cmd, n)
  | _ => undefined
  end.

Section send.
Variable K : kernel.

Definition mt7603_usb_send_cmd (frame : list Z) (frame_len : nat) : io Z :=
  buf ← kmalloc K (frame_len + MT7603_USB_END_PADDING);
  match buf with
  | None => mret ENOMEM
  | Some _ =>
      data ← call (from_raw_parts frame frame_len);
      ret ← usb_bulk_msg K MT7603_CMD_BULK_OUT (data ++ replicate MT7603_USB_END_PADDING 0);
      kfree ;;
      mret (if ret <? 0 then ret else 0)
  end.

End send.

(** A command on the command endpoint. *)
Definition cmd_wire (c : command) : bool → wire :=
  Bulk MT7603_CMD_BULK_OUT (command_frame c ++ replicate MT7603_USB_END_PADDING 0).

(** Nothing is held. *)
Definition balanced (e : effect) : Prop := mem e = 0 ∧ urbs e = 0 ∧ flying e = 0.
Section send_spec.
Context (K : kernel) (p : profile).

(** The buffer after a successful build. *)
Definition holds (max : nat) (c : command) (r : Z * list Z * nat) : Prop :=
  r.1.1 = 0 ∧ (r.2 ≤ length r.1.2)%nat ∧ take r.2 r.1.2 = command_frame c ∧
  length r.1.2 = max.

Lemma call_builder_emits max f c cmd :
  command_ok c → (length (command_frame c) ≤ max)%nat → length cmd = max →
  f (Some cmd) max (Some 0%nat) =
    run_builder (build_command p c) (Some cmd) max (Some 0%nat) →
  emits (call_builder max f cmd) (λ r e, holds max c r ∧ e = quiet).
Proof.
  intros Hc Hfits Hl Hf. unfold call_builder.
  eapply emits_bind.
  { apply emits_call_eq. rewrite Hf.
    pose proof (command_answers p c (proj1 Hc)) as Ha.
    rewrite (run_builder_answers _ (command_spec c)) by lia.
    unfold command_spec, entry_result. rewrite decide_True by apply Hc.
    by rewrite decide_False by lia. }
  cbn beta. intros ? ? [-> ->]. io_ret. split; [|done]. unfold holds. cbn [fst snd].
  rewrite take_app_length. split_and!; [done|list_len|done|list_len].
Qed.

Lemma send_cmd_emits frame n :
  (n ≤ length frame)%nat →
  emits (mt7603_usb_send_cmd K frame n)
    (λ ret, issued ret (Bulk MT7603_CMD_BULK_OUT (take n frame ++ replicate MT7603_USB_END_PADDING 0))).
Proof.
  intros Hn. unfold mt7603_usb_send_cmd. io_bind kmalloc_emits.
  intros m e [[-> ->]|(c & -> & _ & ->)]; [io_ret; right; split; [done|by left]|].
  io_bind (emits_call_eq _ _ (from_raw_parts_done frame n Hn)). intros ? ? [-> ->].
  io_bind bulk_emits. intros ret e ->. io_bind kfree_emits. intros _ e ->. io_ret.
  cbn. destruct (Z.ltb_spec ret 0), (Z.leb_spec 0 ret); try lia; [right|by left]. split; [done|by right].
Qed.

Lemma send_held_emits max c r :
  holds max c r → emits (mt7603_usb_send_cmd K r.1.2 r.2) (λ ret, issued ret (cmd_wire c)).
Proof.
  intros (_ & Hn & Ht & _). unfold cmd_wire. rewrite <-Ht. by apply send_cmd_emits.
Qed.

(** A send that failed: no memory for the transfer, or the transfer's error. *)
Definition lost_send (c : command) (ret : Z) (t : trace) : Prop :=
  let data := command_frame c ++ replicate MT7603_USB_END_PADDING 0 in
  ret < 0 ∧
  ((ret = ENOMEM ∧ t = [Kmalloc (length data) false]) ∨
   t = [Kmalloc (length data) true; BulkOut MT7603_CMD_BULK_OUT data ret; Kfree]).

Lemma send_held_leaves max c r :
  holds max c r →
  leaves (mt7603_usb_send_cmd K r.1.2 r.2) (λ ret t,
    (ret = 0 ∧ effect_of t = Eff [cmd_wire c true] 0 0 0) ∨ lost_send c ret t).
Proof.
  intros (_ & Hn & Ht & _). unfold mt7603_usb_send_cmd, lost_send.
  assert (r.2 + MT7603_USB_END_PADDING =
    length (command_frame c ++ replicate MT7603_USB_END_PADDING 0%Z))%nat as -> by (rewrite <-Ht; list_len).
  eapply leaves_bind; [apply kmalloc_leaves|]. cbn beta.
  intros m t [[-> ->]|(b & -> & _ & ->)]; [apply leaves_ret; right; split; [done|by left]|].
  eapply leaves_bind_call; [exact (from_raw_parts_done _ _ Hn)|]. rewrite Ht.
  intros tr. unfold usb_bulk_msg, kfree, log, mbind, io_bind. eexists _, [_; _].
  split; [by rewrite <-app_assoc|]. destruct (Z.ltb_spec (k_bulk_out K tr MT7603_CMD_BULK_OUT
    (command_frame c ++ replicate MT7603_USB_END_PADDING 0)) 0) as [Hr|Hr].
  - right. split; [done|by right].
  - left. split; [done|]. cbn [effect_of foldr app effect_of_event]. rewrite (proj2 (Z.leb_le _ _)) by done.
    done.
Qed.
End send_spec.
