(* ===== verification/Download.v ===== *)
(** * Firmware download and probe (src/c/usb.c)

    The download state machine: enable the bulk paths, send a running
    firmware back to the ROM, switch the scheduler to bypass mode, send the
    address/length command, the image in chunks and the start command, and
    switch back - with every early exit.  The command frames come from the
    Rust core through its C entry points, into one kmalloc'ed buffer that is
    reused.  A local that C leaves uninitialised until a call sets it starts
    as 0 here; no value read before it is set reaches a result. *)

From S2P Require Import Prelude Rust Ffi Regmap Mac Mcu Entry Usb Device Cmd.
Local Open Scope Z_scope.
Local Open Scope rust_scope.

Definition MT7603_CMD_RSP_BULK_IN : Z := 0x85.
Definition MT7603_DATA_BULK_IN : Z := 0x84.
Definition MT7603_SCH_REG4 : Z := 0x4594.
Definition MT7603_TOP_MISC2 : Z := 0x1134.
Definition MT7603_SCH_REG4_FORCE_QID_MASK : Z := 0x0f.
Definition MT7603_SCH_REG4_BYPASS_MODE_MASK : Z := 0x1 ≪ 5.
Definition MT7603_SCH_REG4_FORCE_QID_USB : Z := 8.
Definition MT7603_SCH_REG4_PSE_RESET_BIT : Z := 1 ≪ 8.
Definition MT7603_UDMA_WLCFG_0 : Z := 0x50029018.
Definition MT7603_UDMA_RX_AGG_TOUT : Z := 0x80.
Definition MT7603_UDMA_RX_AGG_LMT : Z := 0x15.
Definition MT7603_UDMA_RX_MPSZ_PAD0 : Z := 1 ≪ 18.
Definition MT7603_UDMA_RX_AGG_EN : Z := 1 ≪ 21.
Definition MT7603_UDMA_RX_BULK_EN : Z := 1 ≪ 22.
Definition MT7603_UDMA_TX_BULK_EN : Z := 1 ≪ 23.
Definition MT7603_FW_CODE_START_ADDRESS1 : Z := 0x100000.
Definition MT7603_FW_SCATTER_MAX_PAYLOAD : nat := 4064.
Definition MT7603_ROM_READY_POLL_MAX : nat := 500.
Definition MT7603_CMD_RSP_BULK_SIZE : nat := 512.
Definition MT7603_DATA_RSP_BULK_SIZE : nat := 24 * 1024.
Definition EIO : Z := -5.
Definition ETIMEDOUT : Z := -110.

(** The size of the command buffers. *)
Definition CMD_BUF : nat := MT7603_FW_SCATTER_MAX_PAYLOAD + 32.

Definition mt7603_next_cmd_seq (seq : Z) : Z := if 0xf <=? seq then 1 else wrap 8 (seq + 1).

Section download.
Variable K : kernel.
Variable p : profile.

(** A response session is the endpoint of its URB, [None] once the URB
    pointer is null. *)
Definition mt7603_rsp_submit (ep : Z) : io (Z * option Z) :=
  let buf_size := if ep =? MT7603_DATA_BULK_IN
                  then MT7603_DATA_RSP_BULK_SIZE else MT7603_CMD_RSP_BULK_SIZE in
  buf ← kmalloc K buf_size;
  match buf with
  | None => mret (ENOMEM, None)
  | Some _ =>
      ok ← usb_alloc_urb K;
      if ok : bool then
        ret ← usb_submit_urb K ep buf_size;
        if ret <? 0 then usb_free_urb ;; kfree ;; mret (ret, None)
        else mret (0, Some ep)
      else kfree ;; mret (ENOMEM, None)
  end.

Definition mt7603_rsp_wait (s : option Z) : io Z :=
  match s with
  | None => mret EINVAL
  | Some ep =>
      left ← wait_for_completion_timeout K [ep];
      match left with
      | None => usb_kill_urb ep ;; usb_free_urb ;; kfree ;; mret ETIMEDOUT
      | Some status => usb_free_urb ;; kfree ;; mret (if status =? 0 then 0 else status)
      end
  end.

(** Kill and free a session's URB and buffer. *)
Definition drop_session (ep : Z) : io unit := usb_kill_urb ep ;; usb_free_urb ;; kfree.

Definition mt7603_restart_dl_rsp (cmd : list Z) (cmd_len : nat) : io Z :=
  '(ret, _) ← mt7603_rsp_submit MT7603_DATA_BULK_IN;
  if ret <? 0 then mret ret else
  '(ret, _) ← mt7603_rsp_submit MT7603_CMD_RSP_BULK_IN;
  if ret <? 0 then drop_session MT7603_DATA_BULK_IN ;; mret ret else
  ret ← mt7603_usb_send_cmd K cmd cmd_len;
  ret ← (if ret <? 0 then mret ret else
         _ ← wait_for_completion_timeout K [MT7603_DATA_BULK_IN; MT7603_CMD_RSP_BULK_IN];
         mret 0);
  drop_session MT7603_DATA_BULK_IN ;; drop_session MT7603_CMD_RSP_BULK_IN ;;
  mret ret.

Fixpoint poll_loop (n : nat) (mask expect val : Z) : io Z :=
  match n with
  | O => mret ETIMEDOUT
  | S n =>
      '(ret, val) ← mt7603_usb_read_reg K p MT7603_TOP_MISC2 val;
      if ret <? 0 then mret EIO else
      if Z.land val mask =? expect then mret 0 else
      msleep ;; poll_loop n mask expect val
  end.
Definition mt7603_poll_top_misc2 (mask expect : Z) : io Z :=
  poll_loop MT7603_ROM_READY_POLL_MAX mask expect 0.

(** [val & ~m] of C is [Z.ldiff val m]. *)
Definition udma_config (rx_agg : bool) (val : Z) : Z :=
  let val := Z.ldiff val (Z.lor 0x0000ffff MT7603_UDMA_RX_AGG_EN) in
  let val := Z.lor val (Z.lor MT7603_UDMA_RX_AGG_TOUT (MT7603_UDMA_RX_AGG_LMT ≪ 8)) in
  let val := if rx_agg then Z.lor val MT7603_UDMA_RX_AGG_EN else val in
  let val := Z.lor val MT7603_UDMA_RX_MPSZ_PAD0 in
  Z.lor val (Z.lor MT7603_UDMA_RX_BULK_EN MT7603_UDMA_TX_BULK_EN).

Definition mt7603_usb_enable_udma (rx_agg : bool) : io Z :=
  '(ret, val) ← mt7603_usb_cfg_read K MT7603_UDMA_WLCFG_0 0;
  if ret <? 0 then mret ret else
  let val := udma_config rx_agg val in
  ret ← mt7603_usb_cfg_write K MT7603_UDMA_WLCFG_0 val;
  if ret <? 0 then mret ret else
  _ ← mt7603_usb_cfg_read K MT7603_UDMA_WLCFG_0 0;
  mret 0.

(** Step 1: a firmware that is already running is sent back to the ROM; the
    outcome is not looked at. [stack] is the contents of the local array. *)
Definition restart_step (stack : list Z) (val cmd_seq : Z) : io Z :=
  if Z.land val 0x02 =? 0x02 then
    let cmd_seq := mt7603_next_cmd_seq cmd_seq in
    '(ret, restart_cmd, restart_len) ← call_builder CMD_BUF (mt7603_rust_build_restart_dl_req p cmd_seq) stack;
    (if ret =? 0 then _ ← mt7603_restart_dl_rsp restart_cmd restart_len; mret tt else mret tt) ;;
    mret cmd_seq
  else mret cmd_seq.

(** The pending response URB, the command, and the wait, whose result is
    dropped; a failed send leaves at once. *)
Definition request_step (cmd : list Z) (cmd_len : nat) : io Z :=
  '(ret, rsp) ← mt7603_rsp_submit MT7603_DATA_BULK_IN;
  if ret <? 0 then mret ret else
  ret ← mt7603_usb_send_cmd K cmd cmd_len;
  if ret <? 0 then mret ret else
  _ ← mt7603_rsp_wait rsp;
  mret ret.

(** Step 5; every turn sends at least one byte, so the size of the image is
    enough fuel ([scatter_loop_emits]). *)
Fixpoint scatter_loop (fuel : nat) (fw : list Z) (dl_len offset : nat) (cmd : list Z)
    : io (Z * list Z) :=
  match fuel with
  | O => undefined
  | S fuel =>
      if decide (offset < dl_len)%nat then
        let chunk_len := ((dl_len - offset) `min` MT7603_FW_SCATTER_MAX_PAYLOAD)%nat in
        '(ret, cmd, out_len) ← call_builder CMD_BUF
          (mt7603_rust_build_fw_scatter_frame p (Some (drop offset fw)) chunk_len) cmd;
        if ret <? 0 then mret (ret, cmd) else
        ret ← mt7603_usb_send_cmd K cmd out_len;
        if ret <? 0 then mret (ret, cmd) else
        scatter_loop fuel fw dl_len (offset + chunk_len) cmd
      else mret (0, cmd)
  end.

(** Steps 3 to 7, up to the label [free_cmd]. *)
Definition download_steps (fw cmd : list Z) (cmd_seq : Z) : io Z :=
  ret ← mt7603_poll_top_misc2 0x01 0x01;
  if ret <? 0 then _ ← mt7603_usb_read_reg K p MT7603_TOP_MISC2 0; mret ret else
  len ← call (mt7603_rust_fw_dl_len p (Some fw) (length fw) (Some 0));
  match len with
  | (ret, None) => undefined
  | (ret, Some dl_len) =>
  if ret <? 0 then mret ret else
  let cmd_seq := mt7603_next_cmd_seq cmd_seq in
  '(ret, cmd, cmd_len) ← call_builder CMD_BUF
    (mt7603_rust_build_addr_len_req p MT7603_FW_CODE_START_ADDRESS1 dl_len cmd_seq) cmd;
  if ret <? 0 then mret ret else
  ret ← request_step cmd cmd_len;
  if ret <? 0 then mret ret else
  if Z.of_nat (length fw) <? dl_len then mret EINVAL else
  '(ret, cmd) ← scatter_loop (S (length fw)) fw (Z.to_nat dl_len) 0 cmd;
  if ret <? 0 then mret ret else
  let cmd_seq := mt7603_next_cmd_seq cmd_seq in
  '(ret, cmd, cmd_len) ← call_builder CMD_BUF
    (mt7603_rust_build_fw_start_req p 1 MT7603_FW_CODE_START_ADDRESS1 cmd_seq) cmd;
  if ret <? 0 then mret ret else
  ret ← request_step cmd cmd_len;
  if ret <? 0 then mret ret else
  mt7603_poll_top_misc2 0x02 0x02
  end.

(** Step 8: back to normal mode, then a pulse of the PSE reset bit. *)
Definition restore_step (val : Z) : io unit :=
  '(ret, val) ← mt7603_usb_read_reg K p MT7603_SCH_REG4 val;
  if ret =? 0 then
    let val := Z.ldiff val MT7603_SCH_REG4_BYPASS_MODE_MASK in
    let val := Z.ldiff val MT7603_SCH_REG4_FORCE_QID_MASK in
    _ ← mt7603_usb_write_reg K p MT7603_SCH_REG4 val;
    let val := Z.lor val MT7603_SCH_REG4_PSE_RESET_BIT in
    _ ← mt7603_usb_write_reg K p MT7603_SCH_REG4 val;
    let val := Z.ldiff val MT7603_SCH_REG4_PSE_RESET_BIT in
    _ ← mt7603_usb_write_reg K p MT7603_SCH_REG4 val;
    mret tt
  else mret tt.

Definition bypass_config (val : Z) : Z :=
  let val := Z.ldiff val MT7603_SCH_REG4_BYPASS_MODE_MASK in
  let val := Z.lor val MT7603_SCH_REG4_BYPASS_MODE_MASK in
  let val := Z.ldiff val MT7603_SCH_REG4_FORCE_QID_MASK in
  Z.lor val MT7603_SCH_REG4_FORCE_QID_USB.

Definition mt7603_download_firmware (stack fw : list Z) : io Z :=
  ret ← mt7603_usb_enable_udma true;
  if ret <? 0 then mret ret else
  '(ret, val) ← mt7603_usb_read_reg K p MT7603_TOP_MISC2 0;
  if ret <? 0 then mret ret else
  cmd_seq ← restart_step stack val 0;
  '(ret, val) ← mt7603_usb_read_reg K p MT7603_SCH_REG4 val;
  if ret <? 0 then mret ret else
  let val := bypass_config val in
  ret ← mt7603_usb_write_reg K p MT7603_SCH_REG4 val;
  if ret <? 0 then mret ret else
  _ ← mt7603_usb_read_reg K p MT7603_SCH_REG4 0;
  cmd ← kmalloc K CMD_BUF;
  ret ← match cmd with
        | None => mret ENOMEM
        | Some cmd => ret ← download_steps fw cmd cmd_seq; kfree ;; mret ret
        end;
  restore_step val ;;
  mret ret.

(** [mt7603u_probe] up to the registration with mac80211: [rf] is what
    [request_firmware] returned, [ops] the contents of the local array. A
    failed MAC initialisation is only logged. *)
Definition mt7603u_probe_hw (rf : result (list Z)) (stack : list Z) (ops : list RegWriteOp) : io Z :=
  match rf with
  | Err e => mret e
  | Ok fw =>
      ret ← call (mt7603_rust_verify_firmware (Some fw) (length fw));
      if ret <? 0 then mret ret else
      ret ← mt7603_download_firmware stack fw;
      if ret <? 0 then mret ret else
      out ← call (mt7603_rust_get_mac_init_sequence (Some ops) 128 (Some 0%nat));
      match out with
      | (ret, Some ops, Some count) =>
          if ret <? 0 then mret ret else
          _ ← mt7603_execute_reg_ops K p (take count ops);
          mret 0
      | _ => undefined
      end
  end.
End download.

(** ** What each step adds to the world *)

(** The transfers of a step that does not touch the registers. *)
Definition is_cmd (w : wire) : Prop := ∃ c ok, w = cmd_wire c ok.

(** A response URB in flight, with its buffer, that nobody will release. *)
Definition stranded (e : effect) : Prop := mem e = 1 ∧ urbs e = 1 ∧ flying e = 1.

(** Only the buffer of the commands is held. *)
Definition buffer_only (e : effect) : Prop := mem e = 1 ∧ urbs e = 0 ∧ flying e = 0.

(** The commands the ROM answers. *)
Definition rom_request (c : command) : Prop :=
  (∃ dl seq, c = TargetAddressLen MT7603_FW_CODE_START_ADDRESS1 dl seq) ∨
  (∃ seq, c = FwStart 1 MT7603_FW_CODE_START_ADDRESS1 seq).

(** A request that is abandoned: its response URB was submitted, and then the
    command could not be sent. *)
Definition abandoned (c : command) (ret : Z) (t : trace) : Prop :=
  ∃ got lost, 0 ≤ got ∧ lost_send c ret lost ∧
    t = [Kmalloc MT7603_DATA_RSP_BULK_SIZE true; AllocUrb true;
         SubmitUrb MT7603_DATA_BULK_IN MT7603_DATA_RSP_BULK_SIZE got] ++ lost.

(** The scheduler register as the download leaves it: no bypass, no forced
    queue. *)
Definition normal_config (val : Z) : Z :=
  Z.ldiff (Z.ldiff val MT7603_SCH_REG4_BYPASS_MODE_MASK) MT7603_SCH_REG4_FORCE_QID_MASK.

(** The events of the way back to normal mode: the register is read; unless
    that failed, the word without bypass mode and forced queue is written, then
    with the reset bit of the PSE set, then with it cleared - each write is
    made whatever became of the one before. *)
Inductive restoring : trace → Prop :=
| restoring_no_memory : restoring [Kmalloc 4 false]
| restoring_unread got word : got < 0 → restoring (read_events MT7603_SCH_REG4 got word)
| restoring_written got word t1 t2 t3 :
    0 ≤ got → is_u32 word →
    let v := normal_config word in
    let pulse := Z.lor v MT7603_SCH_REG4_PSE_RESET_BIT in
    write_events MT7603_SCH_REG4 v t1 →
    write_events MT7603_SCH_REG4 pulse t2 →
    write_events MT7603_SCH_REG4 (Z.ldiff pulse MT7603_SCH_REG4_PSE_RESET_BIT) t3 →
    restoring (read_events MT7603_SCH_REG4 got word ++ t1 ++ t2 ++ t3).

(** A download that ended by an abandoned request: after it only the command
    buffer was freed and the register restored. *)
Definition ended_by_lost_send (ret : Z) (t : trace) : Prop :=
  ∃ c start lost post, rom_request c ∧ t = start ++ lost ++ Kfree :: post ∧
    buffer_only (effect_of start) ∧ abandoned c ret lost ∧ restoring post.

(** A command of the download phase, which fits the buffer. *)
Definition fw_command (c : command) : Prop := command_ok c ∧ command_hdr c = 12%nat.

Lemma fw_command_fits c : fw_command c → (length (command_frame c) ≤ CMD_BUF)%nat.
Proof.
  intros [Hok Hh]. rewrite length_command_frame, Hh. apply command_payload_max in Hok.
  change FW_SCATTER_MAX_PAYLOAD with 4064%nat in Hok. change CMD_BUF with 4096%nat. lia.
Qed.

(** Try every value of the two mode fields of the scheduler register. *)
Ltac sch_fields v :=
  let H5 := fresh in let H0 := fresh in
  pose proof (bits_uint 5 1 v ltac:(lia)) as H5; pose proof (bits_uint 0 4 v ltac:(lia)) as H0;
  revert H5 H0; generalize (bits 5 1 v), (bits 0 4 v); unfold is_uint; pow2;
  intros b q Hb Hq; split;
  [ assert (b = 0 ∨ b = 1) as [-> | ->] by lia; by vm_compute
  | pattern q; eapply (range_forall _ 0 16); [by vm_compute|lia] ].

Section download_spec.
Context (K : kernel) (p : profile).

Lemma fw_builder_emits f c cmd :
  fw_command c → length cmd = CMD_BUF →
  f (Some cmd) CMD_BUF (Some 0%nat) =
    run_builder (build_command p c) (Some cmd) CMD_BUF (Some 0%nat) →
  emits (call_builder CMD_BUF f cmd) (λ r e, holds CMD_BUF c r ∧ e = quiet).
Proof.
  intros Hc Hl. apply call_builder_emits; [apply Hc|by apply fw_command_fits|done].
Qed.

Lemma rsp_submit_emits ep :
  emits (mt7603_rsp_submit K ep) (λ r e,
    (r = (0, Some ep) ∧ e = Eff [] 1 1 1) ∨ (r.1 < 0 ∧ e = quiet)).
Proof.
  unfold mt7603_rsp_submit. io_bind kmalloc_emits.
  intros m e [[-> ->]|(c & -> & _ & ->)]; [io_ret; right; done|].
  io_bind alloc_urb_emits. intros ok e ->. destruct ok.
  - io_bind submit_urb_emits. intros ret e ->. destruct (Z.ltb_spec ret 0).
    + io_bind free_urb_emits. intros _ e ->. io_bind kfree_emits. intros _ e ->. io_ret.
      destruct (Z.leb_spec 0 ret); [lia|]. right. done.
    + io_ret. destruct (Z.leb_spec 0 ret); [|lia]. left. done.
  - io_bind kfree_emits. intros _ e ->. io_ret. right. done.
Qed.

Lemma rsp_wait_emits ep :
  emits (mt7603_rsp_wait K (Some ep)) (λ _ e, e = Eff [] (-1) (-1) (-1)).
Proof.
  unfold mt7603_rsp_wait. io_bind wait_one_emits. intros [status|] e ->.
  - io_bind free_urb_emits. intros _ e ->. io_bind kfree_emits. intros _ e ->. by io_ret.
  - io_bind kill_urb_emits. intros _ e ->. io_bind free_urb_emits. intros _ e ->.
    io_bind kfree_emits. intros _ e ->. by io_ret.
Qed.

Lemma drop_session_emits ep : emits (drop_session ep) (λ _ e, e = Eff [] (-1) (-1) (-1)).
Proof.
  unfold drop_session. io_bind kill_urb_emits. intros _ e ->. io_bind free_urb_emits.
  intros _ e ->. eapply emits_weaken; [apply kfree_emits|]. by intros _ e ->.
Qed.

(** The restart: at most its command, nothing kept. *)
Lemma restart_emits c r :
  holds CMD_BUF c r →
  emits (mt7603_restart_dl_rsp K r.1.2 r.2) (λ _ e,
    balanced e ∧ (wires e = [] ∨ ∃ ok, wires e = [cmd_wire c ok])).
Proof.
  intros Hr. unfold mt7603_restart_dl_rsp. io_bind rsp_submit_emits.
  intros [ret s] e [[[= -> ->] ->]|[Hneg ->]].
  2:{ simpl in Hneg. destruct (Z.ltb_spec ret 0); [|lia]. io_ret. split; [done|by left]. }
  cbn [Z.ltb Z.compare]. io_bind rsp_submit_emits.
  intros [ret s] e [[[= -> ->] ->]|[Hneg ->]].
  2:{ simpl in Hneg. destruct (Z.ltb_spec ret 0); [|lia]. io_bind drop_session_emits.
      intros _ e ->. io_ret. split; [done|by left]. }
  cbn [Z.ltb Z.compare]. io_bind (send_held_emits K CMD_BUF c r Hr). intros ret e He.
  assert (mem e = 0 ∧ urbs e = 0 ∧ flying e = 0 ∧
    (wires e = [] ∨ ∃ ok, wires e = [cmd_wire c ok])) as (Hm & Hu & Hf & Hw).
  { destruct He as [[_ ->]|[_ [-> | ->]]]; split_and!; eauto. }
  eapply emits_bind with (P := λ _ e, e = quiet).
  { destruct (ret <? 0); [by io_ret|]. io_bind wait_two_emits. intros _ ? ->. by io_ret. }
  cbn beta. intros ret' ? ->. io_bind drop_session_emits. intros _ ? ->.
  io_bind drop_session_emits. intros _ ? ->. io_ret. unfold balanced. cbn.
  rewrite Hm, Hu, Hf, app_nil_r. done.
Qed.

Lemma top_misc2_u32 : is_u32 MT7603_TOP_MISC2.
Proof. vm_decide. Qed.
Lemma sch_reg4_u32 : is_u32 MT7603_SCH_REG4.
Proof. vm_decide. Qed.

Lemma poll_loop_emits n mask expect val :
  emits (poll_loop K p n mask expect val) (λ ret e, ret ≤ 0 ∧ e = quiet).
Proof.
  revert val. induction n as [|n IH]; intros val; cbn [poll_loop]; [by io_ret|].
  io_bind (read_reg_emits K p _ val top_misc2_u32). intros [ret v] e [-> Hr].
  destruct (ret <? 0); [by io_ret|]. destruct (Z.land v mask =? expect); [by io_ret|].
  io_bind msleep_emits. intros _ e ->. eapply emits_weaken; [apply IH|].
  by intros ret' e [? ->].
Qed.

Lemma poll_emits mask expect :
  emits (mt7603_poll_top_misc2 K p mask expect) (λ ret e, ret ≤ 0 ∧ e = quiet).
Proof. apply poll_loop_emits. Qed.

Definition udma_wire (ok : bool) (v : Z) : wire := Req (write_req MT7603_UDMA_WLCFG_0 v) ok.

Lemma enable_udma_emits rx_agg :
  emits (mt7603_usb_enable_udma K rx_agg) (λ ret e,
    (ret = 0 ∧ ∃ v, (kernel_ok K → is_u32 v) ∧ e = Eff [udma_wire true (udma_config rx_agg v)] 0 0 0) ∨
    (ret < 0 ∧ (e = quiet ∨ ∃ v, e = Eff [udma_wire false (udma_config rx_agg v)] 0 0 0))).
Proof.
  unfold mt7603_usb_enable_udma. io_bind cfg_read_emits. intros [ret v] e [-> Hr]. cbn [fst snd] in Hr.
  destruct (Z.ltb_spec ret 0); [io_ret; right; split; [done|by left]|].
  destruct Hr as [[-> Hv]|[? _]]; [|lia]. io_bind cfg_write_emits.
  intros ret e [[-> ->]|[Hneg He]].
  - cbn [Z.ltb Z.compare]. io_bind cfg_read_emits. intros _ e [-> _]. io_ret. left.
    split; [done|]. by exists v.
  - destruct (Z.ltb_spec ret 0); [|lia]. io_ret. right. split; [done|].
    destruct He as [-> | ->]; [by left|right]. by exists v.
Qed.

Lemma restart_step_emits stack val seq :
  length stack = CMD_BUF →
  emits (restart_step K p stack val seq) (λ seq' e,
    balanced e ∧ seq' ∈ [seq; mt7603_next_cmd_seq seq] ∧
    (wires e = [] ∨ ∃ ok, wires e = [cmd_wire (RestartDl (mt7603_next_cmd_seq seq)) ok])).
Proof.
  intros Hl. unfold restart_step. destruct (_ =? _).
  2:{ io_ret. split_and!; [done|by constructor|by left]. }
  eapply emits_bind; [by apply (fw_builder_emits _ (RestartDl (mt7603_next_cmd_seq seq)))|].
  cbn beta. intros [[ret cmd] n] e [Hr ->]. pose proof Hr as (Hret & _). simpl in Hret. subst ret.
  cbn [Z.eqb].
  eapply emits_bind with (P := λ _ e, balanced e ∧ (wires e = [] ∨
    ∃ ok, wires e = [cmd_wire (RestartDl (mt7603_next_cmd_seq seq)) ok])).
  { eapply emits_bind; [apply (restart_emits _ _ Hr)|]. cbn beta. intros _ e HP. by io_ret. }
  cbn beta. intros _ e [Hb Hw]. io_ret. rewrite eff_quiet_l. split_and!; [done|by constructor; constructor|done].
Qed.

Lemma rsp_submit_leaves ep :
  let n := if ep =? MT7603_DATA_BULK_IN then MT7603_DATA_RSP_BULK_SIZE else MT7603_CMD_RSP_BULK_SIZE in
  leaves (mt7603_rsp_submit K ep) (λ r t,
    (r = (0, Some ep) ∧ ∃ got, 0 ≤ got ∧ t = [Kmalloc n true; AllocUrb true; SubmitUrb ep n got]) ∨
    (r.1 < 0 ∧ effect_of t = quiet)).
Proof.
  intros n tr. unfold mt7603_rsp_submit. fold n.
  destruct (kmalloc_leaves K n tr) as (m & t & Hm & [[-> ->]|(b & -> & _ & ->)]);
    unfold mbind, io_bind; rewrite Hm; [by eexists _, _; split; [|right]|].
  unfold usb_alloc_urb, usb_submit_urb, usb_free_urb, kfree, log.
  destruct (k_alloc_urb K _).
  - set (got := k_submit_urb K _ ep n). destruct (Z.ltb_spec got 0).
    + eexists _, [_; _; _; _; _]. split; [by rewrite <-!app_assoc|]. right. split; [done|].
      cbn [effect_of foldr effect_of_event]. by rewrite (proj2 (Z.leb_gt _ _)) by done.
    + eexists _, [_; _; _]. split; [by rewrite <-!app_assoc|]. left. split; [done|]. by exists got.
  - eexists _, [_; _; _]. split; [by rewrite <-!app_assoc|]. by right.
Qed.

Lemma abandoned_stranded c ret t :
  abandoned c ret t → ret < 0 ∧ stranded (effect_of t) ∧
    (wires (effect_of t) = [] ∨ wires (effect_of t) = [cmd_wire c false]).
Proof.
  intros (got & lost & Hg & (Hr & Hl) & ->). split; [done|]. rewrite effect_of_app.
  cbn [effect_of foldr effect_of_event]. rewrite (proj2 (Z.leb_le _ _)) by done.
  destruct Hl as [[-> ->]| ->]; cbn [effect_of foldr effect_of_event]; [by split; [|left]|].
  rewrite (proj2 (Z.leb_gt _ _)) by done. by split; [|right].
Qed.

(** A request of the ROM: the command was sent and its response URB reaped;
    or no response URB could be submitted; or the send failed. *)
Lemma request_step_leaves c r :
  holds CMD_BUF c r →
  leaves (request_step K r.1.2 r.2) (λ ret t,
    (ret = 0 ∧ effect_of t = Eff [cmd_wire c true] 0 0 0) ∨
    (ret < 0 ∧ effect_of t = quiet) ∨ abandoned c ret t).
Proof.
  intros Hr. unfold request_step. eapply leaves_bind; [apply rsp_submit_leaves|]. cbn beta.
  intros [ret s] t [[[= -> ->] (got & Hg & ->)]|[Hneg Hq]].
  2:{ simpl in Hneg. destruct (Z.ltb_spec ret 0); [|lia]. apply leaves_ret. right; left.
      by rewrite app_nil_r. }
  cbn [Z.ltb Z.compare]. eapply leaves_bind; [by apply (send_held_leaves K CMD_BUF c)|]. cbn beta.
  intros ret t [[-> Ht]|Hl].
  - cbn [Z.ltb Z.compare]. eapply leaves_bind; [apply emits_leaves, rsp_wait_emits|]. cbn beta.
    intros _ t' Ht'. apply leaves_ret. left. split; [done|]. rewrite !effect_of_app, Ht, Ht'.
    cbn [effect_of foldr effect_of_event]. by rewrite (proj2 (Z.leb_le _ _)) by done.
  - destruct (Z.ltb_spec ret 0); [|by destruct Hl; lia]. apply leaves_ret. right; right.
    rewrite app_nil_r. by exists got, t.
Qed.

(** The chunks of the image, in order, none empty and none too large. *)
Definition chunked (l : list Z) (css : list (list Z)) : Prop :=
  concat css = l ∧ Forall (λ cs, 0 < length cs ≤ MT7603_FW_SCATTER_MAX_PAYLOAD)%nat css.

Lemma scatter_loop_emits fuel fw dl off cmd :
  (dl ≤ length fw)%nat → (off ≤ dl)%nat → (dl - off < fuel)%nat → length cmd = CMD_BUF →
  emits (scatter_loop K p fuel fw dl off cmd) (λ r e, balanced e ∧
    ((r.1 = 0 ∧ length r.2 = CMD_BUF ∧ ∃ css, chunked (take (dl - off) (drop off fw)) css ∧
        wires e = (λ cs, cmd_wire (FwScatter cs) true) <$> css) ∨
     (r.1 < 0 ∧ Forall is_cmd (wires e)))).
Proof.
  intros Hdl. revert off cmd. induction fuel as [|fuel IH]; intros off cmd Hoff Hfuel Hl; [lia|].
  cbn [scatter_loop]. case_decide as Hlt.
  2:{ io_ret. split; [done|]. left. split_and!; [done..|]. exists [].
      replace (dl - off)%nat with 0%nat by lia. done. }
  set (n := ((dl - off) `min` MT7603_FW_SCATTER_MAX_PAYLOAD)%nat).
  assert (1 ≤ n ≤ dl - off ∧ n ≤ 4064)%nat as Hn.
  { unfold n. change MT7603_FW_SCATTER_MAX_PAYLOAD with 4064%nat. lia. }
  assert (fw_command (FwScatter (take n (drop off fw)))) as Hc.
  { split; [|done]. split; [done|]. simpl. change FW_SCATTER_MAX_PAYLOAD with 4064%nat. list_len. }
  eapply emits_bind.
  { apply (fw_builder_emits _ _ cmd Hc Hl). apply with_input_take. list_len. }
  cbn beta. intros [[ret cmd'] len] e [Hr ->].
  pose proof Hr as (Hret & _ & _ & Hl'). simpl in Hret, Hl'. subst ret. cbn [Z.ltb Z.compare].
  io_bind (send_held_emits K CMD_BUF _ _ Hr). intros ret e [[-> ->]|[Hneg He]].
  - cbn [Z.ltb Z.compare]. eapply emits_weaken; [apply IH; (lia || done)|]. cbn beta.
    intros r e (Hb & Hcase). rewrite eff_quiet_l. split; [by destruct Hb as (? & ? & ?)|].
    destruct Hcase as [(Hr0 & Hlr & css & [Hcss HF] & Hw)|[Hneg Hw]].
    + left. split_and!; [done..|]. exists (take n (drop off fw) :: css). split; [|by cbn; rewrite Hw].
      split; [|constructor; [|done]].
      * simpl. rewrite Hcss, <-drop_drop. rewrite <-(take_drop n (take (dl - off) (drop off fw))).
        rewrite take_take, Nat.min_l by lia. f_equal. rewrite skipn_firstn_comm.
        f_equal. lia.
      * change MT7603_FW_SCATTER_MAX_PAYLOAD with 4064%nat. list_len.
    + right. split; [done|]. cbn. constructor; [by eexists _, true|done].
  - destruct (Z.ltb_spec ret 0); [|lia]. io_ret. rewrite eff_quiet_l.
    destruct He as [-> | ->]; (split; [done|]); right; split; [done| |done|];
      repeat constructor. by eexists _, false.
Qed.

(** A stage of the download: it returns 0 or an error, it sends commands
    only, it holds nothing when it is done unless it failed by abandoning a
    request, and on success what it sent satisfies [P]. *)
Definition stage (P : list wire → Prop) (ret : Z) (t : trace) : Prop :=
  ret ≤ 0 ∧ Forall is_cmd (wires (effect_of t)) ∧
  (balanced (effect_of t) ∨
   ∃ c t1 t2, rom_request c ∧ t = t1 ++ t2 ∧ balanced (effect_of t1) ∧ abandoned c ret t2) ∧
  (ret = 0 → P (wires (effect_of t))).

Lemma stage_quiet P ret t : ret < 0 → effect_of t = quiet → stage P ret t.
Proof. intros Hr Ht. unfold stage. rewrite Ht. split_and!; [lia|done|by left|lia]. Qed.

Lemma stage_weaken P Q m : leaves m (stage P) → (∀ ws, P ws → Q ws) → leaves m (stage Q).
Proof.
  intros Hm HPQ. eapply leaves_weaken; [exact Hm|]. cbn beta.
  intros ret t (Hret & Hc & Hb & HP). split_and!; auto.
Qed.

Lemma balanced_app t1 t2 :
  balanced (effect_of t1) → balanced (effect_of t2) → balanced (effect_of (t1 ++ t2)).
Proof. unfold balanced. rewrite effect_of_app. simpl. lia. Qed.

Lemma stage_app P Q t1 ret t2 :
  balanced (effect_of t1) → Forall is_cmd (wires (effect_of t1)) → P (wires (effect_of t1)) →
  stage (λ ws, Q (wires (effect_of t1) ++ ws)) ret t2 → stage Q ret (t1 ++ t2).
Proof.
  intros Hb1 Hc HP (Hret & Hc2 & Hb & HQ). unfold stage. rewrite effect_of_app.
  split_and!; [done|by apply Forall_app_2| |done].
  destruct Hb as [Hb|(c & s1 & s2 & Hr & -> & Hb & Ha)].
  - left. rewrite <-effect_of_app. by apply balanced_app.
  - right. exists c, (t1 ++ s1), s2. rewrite app_assoc. split_and!; [done..|by apply balanced_app|done].
Qed.

(** [ret = m; if (ret < 0) goto out; k] *)
Lemma stage_bind (m k : io Z) P Q :
  leaves m (stage P) →
  (∀ ws, P ws → leaves k (stage (λ ws', Q (ws ++ ws')))) →
  leaves (ret ← m; if ret <? 0 then mret ret else k) (stage Q).
Proof.
  intros Hm Hk. eapply leaves_bind; [exact Hm|]. cbn beta.
  intros ret t (Hret & Hc & Hb & HP). destruct (Z.ltb_spec ret 0) as [Hneg|Hnn].
  - apply leaves_ret. rewrite app_nil_r. split_and!; [done..|lia].
  - assert (ret = 0) as -> by lia.
    destruct Hb as [Hb|(c & t1 & t2 & _ & _ & _ & [? _]%abandoned_stranded)]; [|lia].
    eapply leaves_weaken; [apply Hk, HP; done|]. cbn beta. intros ret t' Hs.
    eapply stage_app; [done..|by apply HP|done].
Qed.

Lemma poll_stage mask expect : leaves (mt7603_poll_top_misc2 K p mask expect) (stage (λ ws, ws = [])).
Proof.
  eapply leaves_weaken; [apply emits_leaves, poll_emits|]. cbn beta. intros ret t [Hr Ht].
  unfold stage. rewrite Ht. by split_and!; [..|left|].
Qed.

Lemma request_stage c r :
  rom_request c → holds CMD_BUF c r →
  leaves (request_step K r.1.2 r.2) (stage (λ ws, ws = [cmd_wire c true])).
Proof.
  intros Hrom Hr. eapply leaves_weaken; [by apply request_step_leaves|]. cbn beta.
  intros ret t [[-> Ht]|[[Hneg Ht]|Ha]].
  - unfold stage. rewrite Ht. split_and!; [done| |by left|done]. repeat constructor. by exists c, true.
  - by apply stage_quiet.
  - pose proof (abandoned_stranded _ _ _ Ha) as (Hneg & _ & Hw). split_and!; [lia| | |lia].
    + destruct Hw as [-> | ->]; repeat constructor. by exists c, false.
    + right. by exists c, [], t.
Qed.

Lemma scatter_cmds css : Forall is_cmd ((λ cs, cmd_wire (FwScatter cs) true) <$> css).
Proof. apply Forall_fmap, Forall_true. intros cs. by exists (FwScatter cs), true. Qed.

(** What a successful download sends. *)
Definition uploads (fw : list Z) (dl seq : Z) (ws : list wire) : Prop :=
  0 ≤ dl ≤ Z.of_nat (length fw) ∧
  ∃ css, chunked (take (Z.to_nat dl) fw) css ∧
    ws = cmd_wire (TargetAddressLen MT7603_FW_CODE_START_ADDRESS1 dl (mt7603_next_cmd_seq seq)) true ::
         ((λ cs, cmd_wire (FwScatter cs) true) <$> css) ++
         [cmd_wire (FwStart 1 MT7603_FW_CODE_START_ADDRESS1
            (mt7603_next_cmd_seq (mt7603_next_cmd_seq seq))) true].

Lemma addr_len_command a dl s : fw_command (TargetAddressLen a dl s).
Proof. done. Qed.
Lemma start_command o a s : fw_command (FwStart o a s).
Proof. done. Qed.

(** From the scatter loop on. *)
Lemma upload_tail_leaves fw dl cmd seq :
  (dl ≤ length fw)%nat → length cmd = CMD_BUF →
  leaves ('(ret, cmd) ← scatter_loop K p (S (length fw)) fw dl 0 cmd;
         if ret <? 0 then mret ret else
         '(ret, cmd, cmd_len) ← call_builder CMD_BUF
           (mt7603_rust_build_fw_start_req p 1 MT7603_FW_CODE_START_ADDRESS1 seq) cmd;
         if ret <? 0 then mret ret else
         ret ← request_step K cmd cmd_len;
         if ret <? 0 then mret ret else
         mt7603_poll_top_misc2 K p 0x02 0x02)
    (stage (λ ws, ∃ css, chunked (take dl fw) css ∧
       ws = ((λ cs, cmd_wire (FwScatter cs) true) <$> css) ++
            [cmd_wire (FwStart 1 MT7603_FW_CODE_START_ADDRESS1 seq) true])).
Proof.
  intros Hdl Hl. eapply leaves_bind; [apply emits_leaves, scatter_loop_emits; (lia || done)|]. cbn beta.
  intros [ret cmd'] t (Hb & Hcase). cbn [fst snd] in Hcase.
  destruct Hcase as [(-> & Hl' & css & Hcss & Hw)|[Hneg Hw]].
  2:{ destruct (Z.ltb_spec ret 0); [|lia]. apply leaves_ret. rewrite app_nil_r.
      split_and!; [lia|done|by left|lia]. }
  rewrite Nat.sub_0_r, drop_0 in Hcss. cbn [Z.ltb Z.compare].
  eapply leaves_bind; [apply emits_leaves; by apply (fw_builder_emits _ (FwStart 1 MT7603_FW_CODE_START_ADDRESS1 seq))|].
  cbn beta. intros [[ret cmd2] n] t2 [Hr Ht2]. pose proof Hr as (Hret & _). simpl in Hret. subst ret.
  cbn [Z.ltb Z.compare]. eapply leaves_weaken.
  - apply (stage_bind _ _ _ (λ ws, ws = [cmd_wire (FwStart 1 MT7603_FW_CODE_START_ADDRESS1 seq) true])
      (request_stage _ _ (or_intror (ex_intro _ seq eq_refl)) Hr)).
    intros ws ->. by eapply stage_weaken; [apply poll_stage|intros ? ->].
  - cbn beta. intros ret t3 Hs. apply (stage_app (λ _, True)); [done|rewrite Hw; apply scatter_cmds|done|].
    apply (stage_app (λ _, True)); [by rewrite Ht2|by rewrite Ht2|done|].
    destruct Hs as (Hret & Hc & Hb2 & HP). split_and!; [done..|].
    intros H0. exists css. by rewrite Hw, Ht2, (HP H0).
Qed.

(** Steps 3 to 7. *)
Lemma download_steps_leaves fw cmd seq len :
  length cmd = CMD_BUF → fw_dl_len p fw = Done len → (∀ dl, len = Some dl → 0 ≤ dl) →
  leaves (download_steps K p fw cmd seq)
    (stage (λ ws, ∃ dl, len = Some dl ∧ uploads fw dl seq ws)).
Proof.
  intros Hl Hlen Hpos. unfold download_steps.
  eapply leaves_bind; [apply emits_leaves, poll_emits|]. cbn beta. intros ret t [Hret Ht].
  destruct (Z.ltb_spec ret 0).
  { eapply leaves_bind; [apply emits_leaves, (read_reg_emits K p _ 0 top_misc2_u32)|]. cbn beta.
    intros [? ?] t' [Ht' _]. apply leaves_ret. apply stage_quiet; [done|].
    by rewrite app_nil_r, effect_of_app, Ht, Ht'. }
  assert (mt7603_rust_fw_dl_len p (Some fw) (length fw) (Some 0) =
    Done (match len with Some dl => (0, Some dl) | None => (EINVAL, Some 0) end)) as Hcall.
  { unfold mt7603_rust_fw_dl_len. rewrite from_raw_parts_done by done. rewrite firstn_all.
    cbn [mbind outcome_bind]. rewrite Hlen. by destruct len. }
  eapply leaves_bind_call; [exact Hcall|]. destruct len as [dl|].
  2:{ change (EINVAL <? 0) with true. cbn beta iota. apply leaves_ret. apply stage_quiet; [done|].
      by rewrite app_nil_r. }
  specialize (Hpos dl eq_refl). cbn [Z.ltb Z.compare].
  eapply leaves_bind; [apply emits_leaves; by apply (fw_builder_emits _
    (TargetAddressLen MT7603_FW_CODE_START_ADDRESS1 dl (mt7603_next_cmd_seq seq)))|].
  cbn beta. intros [[ret' cmd2] n] t2 [Hr Ht2]. pose proof Hr as (Hret' & _ & _ & Hl2).
  simpl in Hret', Hl2. subst ret'. cbn [Z.ltb Z.compare].
  eapply leaves_weaken.
  - apply (stage_bind _ _ _ (λ ws, ∃ d, Some dl = Some d ∧ uploads fw d seq ws)
      (request_stage _ _ (or_introl (ex_intro _ dl (ex_intro _ _ eq_refl))) Hr)).
    intros ws ->. destruct (Z.ltb_spec (Z.of_nat (length fw)) dl).
    { apply leaves_ret. by apply stage_quiet. }
    eapply stage_weaken; [apply upload_tail_leaves; (lia || done)|]. cbn beta.
    intros ws (css & Hcss & ->). exists dl. split; [done|]. split; [lia|]. by exists css.
  - cbn beta. intros ret2 t3 Hs. apply (stage_app (λ _, True)); [by rewrite Ht|by rewrite Ht|done|].
    apply (stage_app (λ _, True)); [by rewrite Ht2|by rewrite Ht2|done|]. by rewrite Ht, Ht2.
Qed.

(** A write that may not have been made, or may have failed. *)
Definition attempt (w : bool → wire) (ws : list wire) : Prop := ws = [] ∨ ∃ ok, ws = [w ok].

Lemma write_events_attempt a v t :
  write_events a v t → balanced (effect_of t) ∧ attempt (hif_write a v) (wires (effect_of t)).
Proof. intros [->|[got ->]]; (split; [done|]); [by left|right; by eexists]. Qed.

(** The normal mode of the scheduler: no bypass, no forced queue. *)
Definition normal_mode (v : Z) : Prop := bits 5 1 v = 0 ∧ bits 0 4 v = 0.

Definition restored (ws : list wire) : Prop :=
  ∃ v w1 w2 w3, (kernel_ok K → is_u32 v) ∧ normal_mode v ∧ ws = w1 ++ w2 ++ w3 ∧
    attempt (hif_write MT7603_SCH_REG4 v) w1 ∧
    attempt (hif_write MT7603_SCH_REG4 (Z.lor v MT7603_SCH_REG4_PSE_RESET_BIT)) w2 ∧
    attempt (hif_write MT7603_SCH_REG4
      (Z.ldiff (Z.lor v MT7603_SCH_REG4_PSE_RESET_BIT) MT7603_SCH_REG4_PSE_RESET_BIT)) w3.

Lemma normal_mode_clear v : normal_mode (normal_config v).
Proof. unfold normal_mode, normal_config. rewrite !bits_ldiff. sch_fields v. Qed.

Lemma normal_mode_pulse v :
  normal_mode v →
  normal_mode (Z.lor v MT7603_SCH_REG4_PSE_RESET_BIT) ∧
  normal_mode (Z.ldiff (Z.lor v MT7603_SCH_REG4_PSE_RESET_BIT) MT7603_SCH_REG4_PSE_RESET_BIT).
Proof. unfold normal_mode. rewrite !bits_ldiff, !bits_lor. by intros [-> ->]. Qed.

Lemma restore_leaves val : kernel_ok K → leaves (restore_step K p val) (λ _, restoring).
Proof.
  intros HK. unfold restore_step. eapply leaves_bind; [apply (read_reg_leaves K p _ val sch_reg4_u32)|].
  cbn beta. intros r t [[-> ->]|(got & word & -> & Hu & ->)]; [apply leaves_ret, restoring_no_memory|].
  destruct (Z.leb_spec 0 got) as [Hg|Hg].
  2:{ destruct (Z.eqb_spec got 0); [lia|]. apply leaves_ret. rewrite app_nil_r. by apply restoring_unread. }
  cbn [Z.eqb]. fold (normal_config word).
  eapply leaves_bind; [apply write_reg_leaves, sch_reg4_u32|]. cbn beta. intros _ t1 H1.
  eapply leaves_bind; [apply write_reg_leaves, sch_reg4_u32|]. cbn beta. intros _ t2 H2.
  eapply leaves_bind; [apply write_reg_leaves, sch_reg4_u32|]. cbn beta. intros _ t3 H3.
  apply leaves_ret. rewrite app_nil_r. apply (restoring_written _ _ t1 t2 t3 Hg (Hu HK)); done.
Qed.

Lemma restoring_balanced t : restoring t → balanced (effect_of t).
Proof.
  intros [|got word Hg|got word t1 t2 t3 Hg Hw v pulse [H1 _]%write_events_attempt
    [H2 _]%write_events_attempt [H3 _]%write_events_attempt]; [done..|].
  by repeat apply balanced_app.
Qed.

Lemma restoring_restored t : restoring t → restored (wires (effect_of t)).
Proof.
  intros [|got word Hg|got word t1 t2 t3 Hg Hw v pulse H1 H2 H3].
  1,2: exists 0, [], [], []; split_and!; [intros _; vm_decide|done|done|by left..].
  apply write_events_attempt in H1 as [_ A1]. apply write_events_attempt in H2 as [_ A2].
  apply write_events_attempt in H3 as [_ A3].
  exists v, (wires (effect_of t1)), (wires (effect_of t2)), (wires (effect_of t3)).
  rewrite !effect_of_app. split_and!; try done.
  - intros _. by apply is_uint_ldiff, is_uint_ldiff.
  - apply normal_mode_clear.
Qed.

(** ** Runs of the whole download *)

(** Nothing that switches the scheduler reached the device. *)
Definition untouched (w : wire) : Prop :=
  is_cmd w ∨ (∃ v ok, w = udma_wire ok (udma_config true v)) ∨
  ∃ v, w = hif_write MT7603_SCH_REG4 (bypass_config v) false.

Definition download_run (fw : list Z) (len : option Z) (ret : Z) (ws : list wire) : Prop :=
  (ret < 0 ∧ Forall untouched ws) ∨
  ∃ u rs seq v mid post,
    ws = udma_wire true (udma_config true u) ::
         rs ++ hif_write MT7603_SCH_REG4 (bypass_config v) true :: mid ++ post ∧
    (kernel_ok K → is_u32 v) ∧
    attempt (cmd_wire (RestartDl 1)) rs ∧ seq ∈ [0; 1] ∧
    Forall is_cmd mid ∧ restored post ∧
    (ret = 0 → ∃ dl, len = Some dl ∧ uploads fw dl seq mid).

(** What a download that switched the scheduler did in between. *)
Definition middle (fw : list Z) (len : option Z) (seq ret : Z) (t : trace) : Prop :=
  ret ≤ 0 ∧ Forall is_cmd (wires (effect_of t)) ∧
  (balanced (effect_of t) ∨
   ∃ c start lost, rom_request c ∧ t = start ++ lost ++ [Kfree] ∧
     buffer_only (effect_of start) ∧ abandoned c ret lost) ∧
  (ret = 0 → ∃ dl, len = Some dl ∧ uploads fw dl seq (wires (effect_of t))).

(** A download that got as far as the switch: the events up to it, those in
    between, and the way back. *)
Definition switched (fw : list Z) (len : option Z) (ret : Z) (t : trace) : Prop :=
  ∃ pre mid post u rs seq v, t = pre ++ mid ++ post ∧ balanced (effect_of pre) ∧
    wires (effect_of pre) = udma_wire true (udma_config true u) ::
      rs ++ [hif_write MT7603_SCH_REG4 (bypass_config v) true] ∧
    is_u32 v ∧ attempt (cmd_wire (RestartDl 1)) rs ∧ seq ∈ [0; 1] ∧
    middle fw len seq ret mid ∧ restoring post.

(** Allocation, steps 3 to 7 and the free, with every exit. *)
Lemma download_middle_leaves fw seq len :
  kernel_ok K → fw_dl_len p fw = Done len → (∀ dl, len = Some dl → 0 ≤ dl) →
  leaves (cmd ← kmalloc K CMD_BUF;
         match cmd with
         | None => mret ENOMEM
         | Some cmd => ret ← download_steps K p fw cmd seq; kfree ;; mret ret
         end) (middle fw len seq).
Proof.
  intros HK Hlen Hpos. eapply leaves_bind; [apply kmalloc_leaves|]. cbn beta.
  intros m t [[-> ->]|(c & -> & Hl & ->)].
  { apply leaves_ret. split_and!; [done|done|by left|done]. }
  eapply leaves_bind; [apply (download_steps_leaves fw c seq len (Hl HK) Hlen Hpos)|]. cbn beta.
  intros ret t (Hret & Hc & Hb & HP). eapply leaves_bind with (P := λ _ t, t = [Kfree]);
    [by apply leaves_log|]. cbn beta. intros _ ? ->. apply leaves_ret. rewrite app_nil_r. unfold middle. rewrite !effect_of_app.
  assert (effect_of [Kmalloc CMD_BUF true] = Eff [] 1 0 0) as Ek by done. rewrite Ek.
  split_and!; [done| | |].
  - cbn. by rewrite app_nil_r.
  - destruct Hb as [Hb|(c' & t1 & t2 & Hr & -> & Hb & Ha)].
    + left. unfold balanced in *. cbn. lia.
    + right. exists c', ([Kmalloc CMD_BUF true] ++ t1), t2. rewrite <-!app_assoc. split_and!; try done.
      unfold buffer_only, balanced in *. rewrite effect_of_app, Ek. cbn -[effect_of]. lia.
  - cbn. by rewrite app_nil_r.
Qed.

Lemma download_leaves stack fw len :
  kernel_ok K → length stack = CMD_BUF →
  fw_dl_len p fw = Done len → (∀ dl, len = Some dl → 0 ≤ dl) →
  leaves (mt7603_download_firmware K p stack fw) (λ ret t,
    (ret < 0 ∧ balanced (effect_of t) ∧ Forall untouched (wires (effect_of t))) ∨ switched fw len ret t).
Proof.
  intros HK Hstack Hlen Hpos. unfold mt7603_download_firmware.
  eapply leaves_bind; [apply emits_leaves, enable_udma_emits|]. cbn beta.
  intros ret t0 [(-> & u & _ & E0)|[Hneg He]].
  2:{ destruct (Z.ltb_spec ret 0); [|lia]. apply leaves_ret. rewrite app_nil_r. left.
      destruct He as [->|[v ->]]; [done|]. split_and!; [done..|].
      apply Forall_singleton. right; left. by eexists _, false. }
  cbn [Z.ltb Z.compare].
  assert (untouched (udma_wire true (udma_config true u))) as Hu by (right; left; by eexists _, true).
  eapply leaves_bind; [apply emits_leaves, (read_reg_emits K p _ 0 top_misc2_u32)|]. cbn beta.
  intros [ret v] t1 [E1 _]. destruct (Z.ltb_spec ret 0).
  { apply leaves_ret. rewrite app_nil_r, effect_of_app, E0, E1. left. split_and!; [done..|].
    by apply Forall_singleton. }
  eapply leaves_bind; [apply emits_leaves, (restart_step_emits stack v 0 Hstack)|]. cbn beta.
  intros seq t2 (Hb2 & Hseq & Hrs).
  assert (attempt (cmd_wire (RestartDl 1)) (wires (effect_of t2))) as Hrs' by exact Hrs.
  assert (Forall untouched (wires (effect_of t2))) as Hu2.
  { destruct Hrs' as [->|[ok ->]]; [done|]. apply Forall_singleton. left. by eexists _, _. }
  eapply leaves_bind; [apply emits_leaves, (read_reg_emits K p _ v sch_reg4_u32)|]. cbn beta.
  intros [ret2 v2] t3 [E3 Hv2]. destruct (Z.ltb_spec ret2 0).
  { apply leaves_ret. rewrite app_nil_r, !effect_of_app, E0, E1, E3, eff_quiet_l, eff_quiet_r. left.
    split_and!; [done| |by constructor]. unfold balanced in *. simpl. lia. }
  eapply leaves_bind; [apply emits_leaves, (write_reg_emits K p _ (bypass_config v2) sch_reg4_u32)|].
  cbn beta. intros ret3 t4 [[-> E4]|[Hneg He]].
  2:{ destruct (Z.ltb_spec ret3 0); [|lia]. apply leaves_ret. rewrite app_nil_r. left. split; [done|].
      rewrite !effect_of_app, E0, E1, E3, !eff_quiet_l. unfold balanced in *.
      destruct He as [-> | ->]; simpl; (split; [lia|]); constructor; [done| |done|];
        apply Forall_app_2; try done. apply Forall_singleton. right; right. by eexists. }
  cbn [Z.ltb Z.compare].
  eapply leaves_bind; [apply emits_leaves, (read_reg_emits K p _ 0 sch_reg4_u32)|]. cbn beta.
  intros [? ?] t5 [E5 _]. apply leaves_assoc.
  eapply leaves_bind; [by apply (download_middle_leaves fw seq len)|]. cbn beta. intros ret4 t6 H6.
  eapply leaves_bind; [by apply restore_leaves|]. cbn beta. intros _ t7 H7. apply leaves_ret.
  rewrite app_nil_r. right. exists (t0 ++ t1 ++ t2 ++ t3 ++ t4 ++ t5), t6, t7, u, (wires (effect_of t2)), seq, v2.
  rewrite !effect_of_app, E0, E1, E3, E4, E5, <-!app_assoc, !eff_quiet_l, eff_quiet_r.
  split_and!; try done.
  - unfold balanced in *. simpl. lia.
  - destruct Hv2 as [[_ Hx]|[? _]]; [by apply Hx|simpl in *; lia].
Qed.

(** What the whole run sent, and what it kept. *)
Lemma switched_run fw len ret t : switched fw len ret t → download_run fw len ret (wires (effect_of t)).
Proof.
  intros (pre & mid & post & u & rs & seq & v & -> & _ & Hpre & Hv & Hrs & Hseq & (_ & Hc & _ & Hup) & Hpost).
  right. exists u, rs, seq, v, (wires (effect_of mid)), (wires (effect_of post)).
  rewrite !effect_of_app. cbn [wires eff_app]. rewrite Hpre, <-app_comm_cons, <-app_assoc.
  split_and!; try done. by apply restoring_restored.
Qed.

Lemma switched_ends fw len ret t :
  switched fw len ret t → ret ≤ 0 ∧ (balanced (effect_of t) ∨ ended_by_lost_send ret t).
Proof.
  intros (pre & mid & post & u & rs & seq & v & -> & Hb & _ & _ & _ & _ & (Hret & _ & Hm & _) & Hpost).
  split; [done|]. destruct Hm as [Hm|(c & start & lost & Hr & -> & Hs & Ha)].
  - left. apply restoring_balanced in Hpost. by repeat apply balanced_app.
  - right. exists c, (pre ++ start), lost, post. rewrite <-!app_assoc. split_and!; try done.
    unfold buffer_only, balanced in *. rewrite effect_of_app. cbn -[effect_of]. lia.
Qed.

Lemma ended_stranded ret t : ended_by_lost_send ret t → ret < 0 ∧ stranded (effect_of t).
Proof.
  intros (c & start & lost & post & _ & -> & Hs & (Hr & Hst & _)%abandoned_stranded & Hp%restoring_balanced).
  split; [done|]. change (Kfree :: post) with ([Kfree] ++ post).
  unfold stranded, buffer_only, balanced in *. rewrite !effect_of_app. cbn -[effect_of].
  change (effect_of [Kfree]) with (Eff [] (-1) 0 0). cbn. lia.
Qed.

Lemma download_run_leaves stack fw len :
  kernel_ok K → length stack = CMD_BUF →
  fw_dl_len p fw = Done len → (∀ dl, len = Some dl → 0 ≤ dl) →
  leaves (mt7603_download_firmware K p stack fw) (λ ret t,
    ret ≤ 0 ∧ (balanced (effect_of t) ∨ ended_by_lost_send ret t) ∧
    download_run fw len ret (wires (effect_of t))).
Proof.
  intros HK Hst Hlen Hpos. eapply leaves_weaken; [by apply (download_leaves stack fw len)|].
  cbn beta. intros ret t [(Hneg & Hb & Hu)|Hs].
  - split; [lia|]. split; [by left|]. by left.
  - destruct (switched_ends _ _ _ _ Hs). split; [done|]. split; [done|]. by apply switched_run.
Qed.

End download_spec.

(** ** The receiving side

    The boot ROM as specs/modules/mcu.spec.md describes it: the address and
    length command opens a download, scatter frames append to it, the start
    command with its override word jumps to an address, the restart command
    starts over.  Except for a restart, commands reach the ROM only while the
    scheduler is in bypass mode with the USB queue forced; others are lost. *)

Record rom := { rom_target : option (Z * Z); rom_code : list Z; rom_entry : option Z }.
Definition rom_reset : rom := {| rom_target := None; rom_code := []; rom_entry := None |}.

Definition rom_exec (c : FwTxd) (r : rom) : rom :=
  if txd_cid c =? 0xEF then rom_reset
  else if txd_cid c =? 0x01 then
    match txd_payload c with
    | [a0; a1; a2; a3; l0; l1; l2; l3; _; _; _; _] =>
        {| rom_target := Some (u32_from_le_bytes a0 a1 a2 a3, u32_from_le_bytes l0 l1 l2 l3);
           rom_code := []; rom_entry := None |}
    | _ => r
    end
  else if txd_cid c =? 0xEE then
    {| rom_target := rom_target r; rom_code := rom_code r ++ txd_payload c;
       rom_entry := rom_entry r |}
  else if txd_cid c =? 0x02 then
    match txd_payload c with
    | [o0; o1; o2; o3; e0; e1; e2; e3] =>
        if u32_from_le_bytes o0 o1 o2 o3 =? 1 then
          {| rom_target := rom_target r; rom_code := rom_code r;
             rom_entry := Some (u32_from_le_bytes e0 e1 e2 e3) |}
        else r
    | _ => r
    end
  else r.

Definition bypass_mode (v : Z) : Prop := bits 5 1 v = 1 ∧ bits 0 4 v = 8.
#[export] Instance bypass_mode_dec v : Decision (bypass_mode v).
Proof. unfold bypass_mode. apply _. Defined.

Record device := { dev_sch : Z; dev_rom : rom; dev_lost : nat }.

Definition dev_step (d : device) (w : wire) : device :=
  match w with
  | Req r true =>
      if decide (v_request r = MT_VEND_REQ_WRITE ∧ req_addr r = translate hif_windows MT7603_SCH_REG4)
      then {| dev_sch := req_val r; dev_rom := dev_rom d; dev_lost := dev_lost d |}
      else d
  | Bulk _ data true =>
      match parse_fw_txd FW_TXD_HDR_SIZE (take (length data - MT7603_USB_END_PADDING) data) with
      | Some c =>
          if decide (txd_cid c = 0xEF ∨ bypass_mode (dev_sch d))
          then {| dev_sch := dev_sch d; dev_rom := rom_exec c (dev_rom d); dev_lost := dev_lost d |}
          else {| dev_sch := dev_sch d; dev_rom := dev_rom d; dev_lost := S (dev_lost d) |}
      | None => {| dev_sch := dev_sch d; dev_rom := dev_rom d; dev_lost := S (dev_lost d) |}
      end
  | _ => d
  end.
Definition dev_run (d : device) (ws : list wire) : device := foldl dev_step d ws.

(** [d'] differs from [d] in the scheduler register at most. *)
Definition same_rom (d d' : device) : Prop := dev_rom d' = dev_rom d ∧ dev_lost d' = dev_lost d.

Lemma dev_run_app d ws1 ws2 : dev_run d (ws1 ++ ws2) = dev_run (dev_run d ws1) ws2.
Proof. apply foldl_app. Qed.

Lemma dev_run_cons d w ws : dev_run d (w :: ws) = dev_run (dev_step d w) ws.
Proof. done. Qed.

Lemma dev_step_req d r ok : same_rom d (dev_step d (Req r ok)).
Proof. destruct ok; [|done]. cbn. by case_decide. Qed.

Lemma dev_step_sch d v :
  is_u32 v → dev_step d (hif_write MT7603_SCH_REG4 v true) =
  {| dev_sch := v; dev_rom := dev_rom d; dev_lost := dev_lost d |}.
Proof.
  intros Hv. unfold hif_write. cbn [dev_step].
  rewrite write_req_addr, write_req_val by (done || by apply translate_u32; vm_decide).
  by rewrite decide_True.
Qed.

Lemma dev_attempt_sch d v ws : attempt (hif_write MT7603_SCH_REG4 v) ws → same_rom d (dev_run d ws).
Proof. intros [->|[ok ->]]; [done|]. apply dev_step_req. Qed.

Lemma dev_restored K d ws : restored K ws → same_rom d (dev_run d ws).
Proof.
  intros (v & w1 & w2 & w3 & _ & _ & -> & H1 & H2 & H3). rewrite !dev_run_app.
  apply (dev_attempt_sch d) in H1 as [H1 H1'].
  apply (dev_attempt_sch (dev_run d w1)) in H2 as [H2 H2'].
  apply (dev_attempt_sch (dev_run (dev_run d w1) w2)) in H3 as [H3 H3'].
  split; congruence.
Qed.

Lemma dev_step_cmd c d :
  fw_command c → (command_ids c).1.1.1 = 0xEF ∨ bypass_mode (dev_sch d) →
  ∃ t, txd_cid t = (command_ids c).1.1.1 ∧ txd_payload t = command_payload c ∧
    dev_step d (cmd_wire c true) =
    {| dev_sch := dev_sch d; dev_rom := rom_exec t (dev_rom d); dev_lost := dev_lost d |}.
Proof.
  intros [Hok Hh] Hmode. pose proof (command_parses c Hok) as Hp.
  destruct (command_ids c) as [[[cid ext] sq] pq] eqn:E.
  eexists. split; [|split]; cycle 2.
  - unfold cmd_wire. cbn [dev_step]. rewrite length_app, length_replicate, Nat.add_sub, take_app_length.
    change FW_TXD_HDR_SIZE with 12%nat. rewrite <-Hh, Hp. by rewrite decide_True.
  - done.
  - done.
Qed.

Lemma bypass_config_u32 v : is_u32 v → is_u32 (bypass_config v).
Proof.
  intros Hv. unfold bypass_config. repeat first [apply is_uint_lor | apply is_uint_ldiff];
    done || vm_decide.
Qed.

Lemma bypass_config_mode v : bypass_mode (bypass_config v).
Proof.
  unfold bypass_mode, bypass_config. rewrite !bits_lor, !bits_ldiff, !bits_lor, !bits_ldiff.
  sch_fields v.
Qed.

(** The chunks of an image append to the code. *)
Lemma dev_run_chunks css d :
  Forall (λ cs, 0 < length cs ≤ MT7603_FW_SCATTER_MAX_PAYLOAD)%nat css → bypass_mode (dev_sch d) →
  dev_run d ((λ cs, cmd_wire (FwScatter cs) true) <$> css) =
  {| dev_sch := dev_sch d; dev_lost := dev_lost d;
     dev_rom := {| rom_target := rom_target (dev_rom d); rom_code := rom_code (dev_rom d) ++ concat css;
                   rom_entry := rom_entry (dev_rom d) |} |}.
Proof.
  intros HF. revert d. induction HF as [|cs css Hcs HF IH]; intros d Hd.
  { simpl. rewrite app_nil_r. by destruct d as [? [? ? ?] ?]. }
  rewrite fmap_cons, dev_run_cons.
  destruct (dev_step_cmd (FwScatter cs) d) as (t & Hcid & Hpl & ->); [|by right|].
  { split; [|done]. split; [done|]. simpl. apply Hcs. }
  rewrite IH by done. unfold rom_exec. rewrite Hcid, Hpl. cbn. by rewrite <-app_assoc.
Qed.

(** What an upload leaves in the ROM. *)
Definition loaded (fw : list Z) (dl : Z) : rom :=
  {| rom_target := Some (MT7603_FW_CODE_START_ADDRESS1, dl); rom_code := take (Z.to_nat dl) fw;
     rom_entry := Some MT7603_FW_CODE_START_ADDRESS1 |}.

Lemma dev_run_addr_len dl s d :
  is_u32 dl → bypass_mode (dev_sch d) →
  dev_step d (cmd_wire (TargetAddressLen MT7603_FW_CODE_START_ADDRESS1 dl s) true) =
  {| dev_sch := dev_sch d; dev_lost := dev_lost d;
     dev_rom := {| rom_target := Some (MT7603_FW_CODE_START_ADDRESS1, dl); rom_code := [];
                   rom_entry := None |} |}.
Proof.
  intros Hu Hd. destruct (dev_step_cmd _ d (addr_len_command MT7603_FW_CODE_START_ADDRESS1 dl s)
    (or_intror Hd)) as (t & Hcid & Hpl & ->).
  unfold rom_exec. rewrite Hcid, Hpl. cbn -[u32_from_le_bytes bits].
  by rewrite !u32_from_to by (done || vm_decide).
Qed.

Lemma dev_run_start s d :
  bypass_mode (dev_sch d) →
  dev_step d (cmd_wire (FwStart 1 MT7603_FW_CODE_START_ADDRESS1 s) true) =
  {| dev_sch := dev_sch d; dev_lost := dev_lost d;
     dev_rom := {| rom_target := rom_target (dev_rom d); rom_code := rom_code (dev_rom d);
                   rom_entry := Some MT7603_FW_CODE_START_ADDRESS1 |} |}.
Proof.
  intros Hd. destruct (dev_step_cmd _ d (start_command 1 MT7603_FW_CODE_START_ADDRESS1 s)
    (or_intror Hd)) as (t & Hcid & Hpl & ->).
  unfold rom_exec. rewrite Hcid, Hpl. cbn -[u32_from_le_bytes bits].
  by rewrite !u32_from_to by vm_decide.
Qed.

Lemma dev_run_uploads fw dl seq ws d :
  uploads fw dl seq ws → is_u32 dl → bypass_mode (dev_sch d) →
  dev_run d ws = {| dev_sch := dev_sch d; dev_rom := loaded fw dl; dev_lost := dev_lost d |}.
Proof.
  intros (Hdl & css & [Hcat HF] & ->) Hu Hd.
  rewrite dev_run_cons, dev_run_app, dev_run_addr_len, dev_run_chunks, dev_run_cons by done.
  rewrite dev_run_start by done. cbn [dev_rom rom_code rom_target]. by rewrite Hcat.
Qed.

(** The part before the bypass switch loses no command and keeps the count. *)
Lemma dev_run_restart d rs :
  attempt (cmd_wire (RestartDl 1)) rs → dev_lost (dev_run d rs) = dev_lost d.
Proof.
  intros [->|[[] ->]]; [done| |done]. cbn [dev_run foldl].
  destruct (dev_step_cmd (RestartDl 1) d) as (t & _ & _ & ->); [done|by left|done].
Qed.

Lemma download_run_loads K fw len ret ws d :
  kernel_ok K → ret = 0 → (∀ dl, len = Some dl → is_u32 dl) → download_run K fw len ret ws →
  ∃ dl, len = Some dl ∧ 0 ≤ dl ≤ Z.of_nat (length fw) ∧
    dev_rom (dev_run d ws) = loaded fw dl ∧ dev_lost (dev_run d ws) = dev_lost d.
Proof.
  intros HK -> Hlen [[? _]|(u & rs & seq & v & mid & post & -> & Hv & Hrs & _ & _ & Hpost & Hup)]; [lia|].
  destruct (Hup eq_refl) as (dl & -> & Hul). exists dl. split; [done|].
  split; [by destruct Hul|]. specialize (Hlen dl eq_refl).
  rewrite dev_run_cons, dev_run_app, dev_run_cons, dev_run_app.
  set (d1 := dev_step d (udma_wire true (udma_config true u))).
  assert (dev_lost d1 = dev_lost d) as Hl0 by apply dev_step_req.
  rewrite dev_step_sch by (by apply bypass_config_u32, Hv). rewrite (dev_run_restart d1 rs Hrs), Hl0.
  rewrite (dev_run_uploads fw dl seq mid) by (done || apply bypass_config_mode). cbn [dev_sch dev_lost].
  match goal with |- context [dev_run ?d0 post] =>
    destruct (dev_restored K d0 post Hpost) as [-> ->] end.
  done.
Qed.

(** What happens before the switch never is the switch. *)
Lemma untouched_not_switch w v : untouched w → w ≠ hif_write MT7603_SCH_REG4 v true.
Proof.
  intros [(c & ok & ->)|[(v' & ok & ->)|(v' & ->)]]; [done| |done].
  intros Heq. apply (f_equal (λ w, match w with Req r _ => v_value r | Bulk _ _ _ => 0 end)) in Heq.
  by vm_compute in Heq.
Qed.

Lemma restored_writes K ws w :
  restored K ws → w ∈ ws → ∃ v ok, w = hif_write MT7603_SCH_REG4 v ok ∧ normal_mode v.
Proof.
  intros (v & w1 & w2 & w3 & _ & Hn & -> & H1 & H2 & H3).
  destruct (normal_mode_pulse v Hn) as [Hn2 Hn3].
  rewrite !elem_of_app.
  intros [Hw|[Hw|Hw]];
    [destruct H1 as [->|[ok ->]]|destruct H2 as [->|[ok ->]]|destruct H3 as [->|[ok ->]]];
    (by apply elem_of_nil in Hw) || (apply list_elem_of_singleton in Hw as ->; eauto).
Qed.

Lemma dev_attempt_mode v ws (d : device) :
  is_u32 v → normal_mode v → attempt (hif_write MT7603_SCH_REG4 v) ws →
  (accepted ws ≠ [] ∨ normal_mode (dev_sch d)) → normal_mode (dev_sch (dev_run d ws)).
Proof.
  intros Hu Hn [->|[[] ->]] Hd.
  - by destruct Hd.
  - rewrite dev_run_cons, dev_step_sch by done. done.
  - by destruct Hd.
Qed.

Lemma restored_mode K ws d :
  kernel_ok K → restored K ws → accepted ws ≠ [] → normal_mode (dev_sch (dev_run d ws)).
Proof.
  intros HK (v & w1 & w2 & w3 & Hu & Hn & -> & H1 & H2 & H3). rewrite !accepted_app, !dev_run_app.
  destruct (normal_mode_pulse v Hn) as [Hn2 Hn3]. specialize (Hu HK).
  intros Hacc.
  assert (is_u32 (Z.lor v MT7603_SCH_REG4_PSE_RESET_BIT)) as Hu2 by (apply is_uint_lor; [done|vm_decide]).
  apply (dev_attempt_mode _ w3 _ (is_uint_ldiff 32 _ _ Hu2) Hn3 H3).
  destruct (decide (accepted w3 = [])) as [E3|]; [right|by left].
  apply (dev_attempt_mode _ w2 _ Hu2 Hn2 H2).
  destruct (decide (accepted w2 = [])) as [E2|]; [right|by left].
  apply (dev_attempt_mode _ w1 _ Hu Hn H1).
  left. intros E1. by rewrite E1, E2, E3 in Hacc.
Qed.

Lemma udma_config_fields rx_agg v :
  let w := udma_config rx_agg v in
  bits 0 8 w = 0x80 ∧ bits 8 8 w = 0x15 ∧ bits 16 2 w = bits 16 2 v ∧ bits 18 1 w = 1 ∧
  bits 19 2 w = bits 19 2 v ∧ bits 21 1 w = (if rx_agg then 1 else 0) ∧ bits 22 2 w = 3 ∧
  bits 24 8 w = bits 24 8 v.
Proof.
  cbv zeta. unfold udma_config.
  split_and!; destruct rx_agg; rewrite ?bits_lor, ?bits_ldiff;
    repeat match goal with
    | |- context [bits ?lo ?n ?m] =>
        let x := eval vm_compute in (bits lo n m) in is_Zlit x; change (bits lo n m) with x
    end;
    rewrite ?Z.ldiff_0_r, ?Z.lor_0_r; try done;
    (match goal with |- context [bits ?lo ?n v] =>
       pose proof (bits_uint lo n v ltac:(lia)) as H; revert H; generalize (bits lo n v);
       unfold is_uint; pow2; intros q H; pattern q; eapply (range_forall _ 0 _ q); [|exact H];
       by vm_compute end).
Qed.

(** The MAC initialisation of the probe executes the whole sequence. *)
Lemma mac_init_call K p ops tr :
  length ops = 128%nat →
  (out ← call (mt7603_rust_get_mac_init_sequence (Some ops) 128 (Some 0%nat));
   match out with
   | (ret, Some ops, Some count) =>
       if ret <? 0 then mret ret else
       _ ← mt7603_execute_reg_ops K p (take count ops);
       mret 0
   | _ => undefined
   end) tr =
  match mt7603_execute_reg_ops K p static_seq tr with
  | Done (_, tr') => Done (0, tr')
  | Panic => Panic
  | Undefined => Undefined
  end.
Proof.
  intros Hops.
  assert (mt7603_rust_get_mac_init_sequence (Some ops) 128 (Some 0%nat) =
    Done (0, Some (static_seq ++ drop (length static_seq) ops), Some (length static_seq))) as Hc.
  { unfold mt7603_rust_get_mac_init_sequence.
    rewrite (run_builder_answers _ (Ok static_seq)) by lia. unfold entry_result.
    by rewrite decide_False by (vm_compute; lia). }
  unfold mbind at 1, io_bind at 1, call at 1. rewrite Hc. cbn [mbind outcome_bind].
  unfold mret at 1, outcome_ret at 1. cbn [Z.ltb Z.compare]. by rewrite take_app_length.
Qed.

(** The image check of the probe. *)
Lemma verify_entry_decides fw :
  mt7603_rust_verify_firmware (Some fw) (length fw) =
  Done (if decide (1024 ≤ length fw ∧ take 4 fw = fw_magic)%nat then 0 else EINVAL).
Proof.
  unfold mt7603_rust_verify_firmware. rewrite from_raw_parts_done, firstn_all by done.
  cbn [mbind outcome_bind]. rewrite verify_firmware_decides. by case_decide.
Qed.

(** What the hardware part of the probe keeps. *)
Lemma probe_hw_leaves K rf stack ops :
  kernel_ok K → length stack = CMD_BUF → length ops = 128%nat →
  (∀ fw, rf = Ok fw → Forall is_u8 fw) → (∀ e, rf = Err e → e < 0) →
  leaves (mt7603u_probe_hw K Release rf stack ops) (λ ret t,
    ret ≤ 0 ∧ (balanced (effect_of t) ∨ ended_by_lost_send ret t)).
Proof.
  intros HK Hs Hops HF He. unfold mt7603u_probe_hw. destruct rf as [fw|e].
  2:{ apply leaves_ret. specialize (He e eq_refl). split; [lia|by left]. }
  eapply leaves_bind_call; [apply verify_entry_decides|]. cbn beta. case_decide.
  2:{ apply leaves_ret. split; [done|by left]. }
  cbn [Z.ltb Z.compare]. destruct (fw_dl_len_release fw (HF fw eq_refl)) as (len & Hdl & Hu).
  eapply leaves_bind; [exact (download_run_leaves K Release stack fw len HK Hs Hdl (λ dl E, proj1 (Hu dl E)))|].
  cbn beta. intros ret t (Hret & Hb & _).
  destruct (Z.ltb_spec ret 0).
  { apply leaves_ret. by rewrite app_nil_r. }
  destruct Hb as [Hb|[? _]%ended_stranded]; [|lia].
  intros tr. rewrite mac_init_call by done.
  destruct (execute_reg_ops_emits K Release static_seq (proj1 static_seq_mapped) tr)
    as (r & new & -> & _ & Hm & Hu' & Hf & _).
  exists 0, new. split; [done|]. split; [lia|]. left. apply balanced_app; [done|]. by split_and!.
Qed.

(** The last write of the way back that arrives leaves the register in normal
    mode; when the last one of all arrived the reset bit is clear as well. *)
Lemma restoring_mode K t d :
  kernel_ok K → restoring t → accepted (wires (effect_of t)) ≠ [] →
  normal_mode (dev_sch (dev_run d (wires (effect_of t)))).
Proof.
  intros HK Hr. apply (restoring_restored K) in Hr. by apply (restored_mode K).
Qed.

(** When no call of the way back fails, all three writes arrive. *)
Lemma restoring_works t :
  restoring t → forallb works t = true →
  ∃ word, is_u32 word ∧
    let v := normal_config word in
    let pulse := Z.lor v MT7603_SCH_REG4_PSE_RESET_BIT in
    wires (effect_of t) =
      [hif_write MT7603_SCH_REG4 v true; hif_write MT7603_SCH_REG4 pulse true;
       hif_write MT7603_SCH_REG4 (Z.ldiff pulse MT7603_SCH_REG4_PSE_RESET_BIT) true].
Proof.
  intros [|got word Hg|got word t1 t2 t3 Hg Hw v pulse H1 H2 H3]; [done| |].
  { cbn [forallb works read_events andb]. by rewrite (proj2 (Z.leb_gt _ _)) by done. }
  assert (∀ a x s, write_events a x s → forallb works s = true → wires (effect_of s) = [hif_write a x true]) as Hone.
  { intros a x s [->|[r ->]]; [done|]. cbn [forallb works andb]. rewrite andb_true_r.
    cbn [effect_of foldr effect_of_event]. by intros ->. }
  rewrite !forallb_app. intros [_ [? [? ?]%andb_true_iff]%andb_true_iff]%andb_true_iff.
  exists word. split; [done|]. cbv zeta. rewrite !effect_of_app. cbn [wires eff_app].
  by rewrite (Hone _ _ t1 H1), (Hone _ _ t2 H2), (Hone _ _ t3 H3).
Qed.

Lemma restoring_clears t d :
  restoring t → forallb works t = true →
  let sch := dev_sch (dev_run d (wires (effect_of t))) in normal_mode sch ∧ bits 8 1 sch = 0.
Proof.
  intros Hr Hw. destruct (restoring_works t Hr Hw) as (word & Hu & ->). cbv zeta.
  assert (is_u32 (normal_config word)) as Hv by (by apply is_uint_ldiff, is_uint_ldiff).
  assert (is_u32 (Z.lor (normal_config word) MT7603_SCH_REG4_PSE_RESET_BIT)) as Hp
    by (apply is_uint_lor; [done|vm_decide]).
  rewrite !dev_run_cons, !dev_step_sch by (done || by apply is_uint_ldiff). cbn [dev_run foldl dev_sch].
  split; [by apply normal_mode_pulse, normal_mode_clear|]. rewrite bits_ldiff, bits_lor.
  change (bits 8 1 MT7603_SCH_REG4_PSE_RESET_BIT) with 1.
  assert (is_uint 1 (bits 8 1 (normal_config word))) as Hb by (apply bits_uint; lia).
  unfold is_uint in Hb. revert Hb. pow2. generalize (bits 8 1 (normal_config word)). intros b Hb.
  assert (b = 0 ∨ b = 1) as [-> | ->] by lia; done.
Qed.

(** ** Correctness *)

(** C11. Downloading the firmware: when the download reports success, on any
    kernel and whatever was running before, the boot ROM has received exactly
    the download region of the image - the first [dl_len] bytes, in order,
    announced with their length at 0x100000 - and was started at 0x100000; no
    command was sent outside bypass mode. *)
Theorem download_loads_image K stack fw tr tr' d :
  kernel_ok K → length stack = CMD_BUF → Forall is_u8 fw →
  mt7603_download_firmware K Release stack fw tr = Done (0, tr') →
  ∃ dl new, fw_dl_len Release fw = Done (Some dl) ∧ 0 ≤ dl ≤ Z.of_nat (length fw) ∧
    tr' = tr ++ new ∧
    let d' := dev_run d (wires (effect_of new)) in
    dev_rom d' = loaded fw dl ∧ dev_lost d' = dev_lost d.
Proof.
  intros HK Hs HF Hrun. destruct (fw_dl_len_release fw HF) as (len & Hlen & Hu).
  destruct (download_run_leaves K Release stack fw len HK Hs Hlen) with (tr := tr)
    as (ret & new & Heq & _ & _ & Hdr); [intros dl ->; by apply Hu|].
  rewrite Hrun in Heq. injection Heq as <- ->.
  destruct (download_run_loads K fw len 0 _ d HK eq_refl Hu Hdr) as (dl & -> & Hdl & Hrom & Hlost).
  by exists dl, new.
Qed.

(** A 40-byte download region, followed by a trailer that is not uploaded. *)
Definition sample_fw : list Z := replicate 40 0x5A ++ replicate 32 0 ++ u32_to_le_bytes 36.

Lemma download_loads_image_witness :
  let tr' := run_trace (mt7603_download_firmware good_kernel Release (replicate CMD_BUF 0) sample_fw) in
  let d := {| dev_sch := 0; dev_rom := rom_reset; dev_lost := 0 |} in
  ∃ dl new, fw_dl_len Release sample_fw = Done (Some dl) ∧ 0 ≤ dl ≤ Z.of_nat (length sample_fw) ∧
    tr' = [] ++ new ∧
    let d' := dev_run d (wires (effect_of new)) in
    dev_rom d' = loaded sample_fw dl ∧ dev_lost d' = dev_lost d.
Proof.
  apply (download_loads_image good_kernel (replicate CMD_BUF 0) sample_fw []).
  - exact good_kernel_ok.
  - apply length_replicate.
  - vm_decide.
  - vm_cast_no_check (eq_refl (Done (0, run_trace
      (mt7603_download_firmware good_kernel Release (replicate CMD_BUF 0) sample_fw)))).
Defined.

(** C32. Leaving bypass mode: the download always returns; either it failed
    before the switch reached the device, or its run is the part up to the
    switch, a part in which only commands were sent, and the way back - on
    success and on every error path.  The way back is always attempted: the
    scheduler register is read and, unless that read failed, the word with
    bypass mode and forced queue cleared is written, the reset bit of the PSE
    set and cleared again; one write that arrives is enough to leave the
    register in normal mode, and when no call on the way back fails it ends in
    normal mode with the reset bit clear. *)
Theorem download_leaves_bypass K stack fw tr d :
  kernel_ok K → length stack = CMD_BUF → Forall is_u8 fw →
  ∃ ret new, mt7603_download_firmware K Release stack fw tr = Done (ret, tr ++ new) ∧ ret ≤ 0 ∧
    ((ret < 0 ∧ ∀ v, hif_write MT7603_SCH_REG4 v true ∉ wires (effect_of new)) ∨
     ∃ pre mid post ws v, new = pre ++ mid ++ post ∧
      wires (effect_of pre) = ws ++ [hif_write MT7603_SCH_REG4 v true] ∧ bypass_mode v ∧
      Forall is_cmd (wires (effect_of mid)) ∧ restoring post ∧
      (∀ w, w ∈ wires (effect_of post) → ∃ v' ok, w = hif_write MT7603_SCH_REG4 v' ok ∧ normal_mode v') ∧
      let sch := dev_sch (dev_run d (wires (effect_of new))) in
      (accepted (wires (effect_of post)) ≠ [] → normal_mode sch) ∧
      (forallb works post = true → normal_mode sch ∧ bits 8 1 sch = 0)).
Proof.
  intros HK Hs HF. destruct (fw_dl_len_release fw HF) as (len & Hlen & Hu).
  destruct (download_leaves K Release stack fw len HK Hs Hlen) with (tr := tr)
    as (ret & new & -> & Hsw); [intros dl ->; by apply Hu|].
  exists ret, new. split; [done|]. destruct Hsw as [(Hneg & _ & Hws)|Hsw].
  - split; [lia|]. left. split; [done|]. intros v Hin. rewrite Forall_forall in Hws.
    by destruct (untouched_not_switch _ v (Hws _ Hin)).
  - destruct Hsw as (pre & mid & post & u & rs & seq & v & -> & _ & Hpre & _ & _ & _ & (Hret & Hc & _) & Hpost).
    split; [done|]. right. exists pre, mid, post, (udma_wire true (udma_config true u) :: rs), (bypass_config v).
    rewrite app_comm_cons in Hpre. split_and!; [done|done|apply bypass_config_mode|done|done| |cbv zeta].
    { intros w Hw. apply (restoring_restored K) in Hpost. by eapply (restored_writes K). }
    rewrite !effect_of_app. cbn [wires eff_app]. rewrite !dev_run_app.
    split; [by apply (restoring_mode K)|]. by apply restoring_clears.
Qed.

(** A kernel that cannot submit the response URB. *)
Definition no_urb_kernel : kernel := {|
  k_kmalloc := k_kmalloc good_kernel;
  k_control_in := λ _ _ _ _, (4, 1);
  k_control_out := k_control_out good_kernel;
  k_bulk_out := k_bulk_out good_kernel;
  k_alloc_urb := k_alloc_urb good_kernel;
  k_submit_urb := λ _ _ _, -19;
  k_wait := k_wait good_kernel;
|}.
Lemma no_urb_kernel_ok : kernel_ok no_urb_kernel.
Proof. split; [|done]. intros tr n m [= <-]. apply length_replicate. Qed.

Lemma download_leaves_bypass_witness :
  let d := {| dev_sch := 0; dev_rom := rom_reset; dev_lost := 0 |} in
  ∃ ret new, mt7603_download_firmware no_urb_kernel Release (replicate CMD_BUF 0) sample_fw [] =
      Done (ret, [] ++ new) ∧ ret ≤ 0 ∧
    ((ret < 0 ∧ ∀ v, hif_write MT7603_SCH_REG4 v true ∉ wires (effect_of new)) ∨
     ∃ pre mid post ws v, new = pre ++ mid ++ post ∧
      wires (effect_of pre) = ws ++ [hif_write MT7603_SCH_REG4 v true] ∧ bypass_mode v ∧
      Forall is_cmd (wires (effect_of mid)) ∧ restoring post ∧
      (∀ w, w ∈ wires (effect_of post) → ∃ v' ok, w = hif_write MT7603_SCH_REG4 v' ok ∧ normal_mode v') ∧
      let sch := dev_sch (dev_run d (wires (effect_of new))) in
      (accepted (wires (effect_of post)) ≠ [] → normal_mode sch) ∧
      (forallb works post = true → normal_mode sch ∧ bits 8 1 sch = 0)).
Proof.
  intros d. apply (download_leaves_bypass no_urb_kernel (replicate CMD_BUF 0) sample_fw [] d).
  - exact no_urb_kernel_ok.
  - apply length_replicate.
  - vm_decide.
Defined.

(** A bus on which bulk transfers fail while the ROM is waiting. *)
Definition dead_bulk_kernel : kernel := {|
  k_kmalloc := k_kmalloc good_kernel;
  k_control_in := λ _ _ _ _, (4, 1);
  k_control_out := k_control_out good_kernel;
  k_bulk_out := λ _ _ _, -110;
  k_alloc_urb := k_alloc_urb good_kernel;
  k_submit_urb := k_submit_urb good_kernel;
  k_wait := k_wait good_kernel;
|}.
Lemma dead_bulk_kernel_ok : kernel_ok dead_bulk_kernel.
Proof. split; [|done]. intros tr n m [= <-]. apply length_replicate. Qed.

(** C33. Resources: whatever fails, the download frees its buffers and URBs
    and leaves no response pending - but for one case, which is exactly this:
    the response URB of the address/length or the start command was submitted
    and then that command could not be sent (no memory for the transfer, or
    the transfer failed).  The error is then returned at once, after freeing
    the command buffer and the way back to normal mode only, and one response
    URB with its buffer stays in flight. *)
Theorem download_resources K stack fw tr :
  kernel_ok K → length stack = CMD_BUF → Forall is_u8 fw →
  ∃ ret new, mt7603_download_firmware K Release stack fw tr = Done (ret, tr ++ new) ∧
    (balanced (effect_of new) ∨ ret < 0 ∧ stranded (effect_of new)) ∧
    (stranded (effect_of new) ↔
      ∃ c start lost post, rom_request c ∧ new = start ++ lost ++ Kfree :: post ∧
        buffer_only (effect_of start) ∧ abandoned c ret lost ∧ restoring post).
Proof.
  intros HK Hs HF. destruct (fw_dl_len_release fw HF) as (len & Hlen & Hu).
  destruct (download_run_leaves K Release stack fw len HK Hs Hlen) with (tr := tr)
    as (ret & new & -> & _ & Hb & _); [intros dl ->; by apply Hu|].
  exists ret, new. split; [done|]. fold (ended_by_lost_send ret new).
  assert (ended_by_lost_send ret new → stranded (effect_of new)) as Hes by by intros [_ ?]%ended_stranded.
  destruct Hb as [Hb|He].
  - split; [by left|]. split; [|done]. intros [Hm _]. destruct Hb as [Hm' _]. lia.
  - split; [right; by apply ended_stranded|]. by split.
Qed.

Lemma download_resources_witness :
  ∃ ret new, mt7603_download_firmware dead_bulk_kernel Release (replicate CMD_BUF 0) sample_fw [] =
      Done (ret, [] ++ new) ∧ stranded (effect_of new) ∧
      ∃ c start lost post, rom_request c ∧ new = start ++ lost ++ Kfree :: post ∧
        buffer_only (effect_of start) ∧ abandoned c ret lost ∧ restoring post.
Proof.
  assert (match mt7603_download_firmware dead_bulk_kernel Release (replicate CMD_BUF 0) sample_fw [] with
          | Done (_, tr) => stranded (effect_of tr) | _ => False end) as Hst by by vm_compute.
  destruct (download_resources dead_bulk_kernel (replicate CMD_BUF 0) sample_fw [])
    as (ret & new & Heq & _ & Hs); [exact dead_bulk_kernel_ok|apply length_replicate|vm_decide|].
  rewrite Heq in Hst. exists ret, new.
  split; [exact Heq|]. split; [exact Hst|]. exact (proj1 Hs Hst).
Defined.

(** Enabling the bulk paths: on success exactly one word was written to
    the unmapped UDMA register; it enables both bulk directions, sets the
    aggregation limit and timeout and the padding bit, switches aggregation as
    asked and keeps the other bits of the word that was read. *)
Theorem enable_udma_config K rx_agg tr ret tr' :
  mt7603_usb_enable_udma K rx_agg tr = Done (ret, tr') → ret = 0 →
  ∃ new v, tr' = tr ++ new ∧
    let w := udma_config rx_agg v in
    wires (effect_of new) = [Req (write_req MT7603_UDMA_WLCFG_0 w) true] ∧
    bits 0 8 w = 0x80 ∧ bits 8 8 w = 0x15 ∧ bits 16 2 w = bits 16 2 v ∧ bits 18 1 w = 1 ∧
    bits 19 2 w = bits 19 2 v ∧ bits 21 1 w = (if rx_agg then 1 else 0) ∧ bits 22 2 w = 3 ∧
    bits 24 8 w = bits 24 8 v.
Proof.
  intros Hrun ->. destruct (enable_udma_emits K rx_agg tr) as (ret & new & Heq & Hcase).
  rewrite Hrun in Heq. injection Heq as <- ->.
  destruct Hcase as [(_ & v & _ & He)|[? _]]; [|lia]. exists new, v. split; [done|].
  cbv zeta. rewrite He. split; [done|]. apply udma_config_fields.
Qed.

Lemma enable_udma_config_witness :
  let tr' := run_trace (mt7603_usb_enable_udma good_kernel true) in
  ∃ new v, tr' = [] ++ new ∧
    let w := udma_config true v in
    wires (effect_of new) = [Req (write_req MT7603_UDMA_WLCFG_0 w) true] ∧
    bits 0 8 w = 0x80 ∧ bits 8 8 w = 0x15 ∧ bits 16 2 w = bits 16 2 v ∧ bits 18 1 w = 1 ∧
    bits 19 2 w = bits 19 2 v ∧ bits 21 1 w = 1 ∧ bits 22 2 w = 3 ∧ bits 24 8 w = bits 24 8 v.
Proof. by apply (enable_udma_config good_kernel true [] 0); vm_compute. Defined.

(** C31. Bringing the device up: when the probe reaches the registration
    step, the firmware image had the magic number and at least 1024 bytes, the
    ROM was loaded with its download region and started, and only then the
    MAC initialisation was run: the device got a prefix of its sequence, in
    order - the whole of it when no call failed, and otherwise what came before
    the first failed write, which the probe only logs. *)
Theorem probe_brings_up K rf stack ops tr tr' d :
  kernel_ok K → length stack = CMD_BUF → length ops = 128%nat →
  (∀ fw, rf = Ok fw → Forall is_u8 fw) → (∀ e, rf = Err e → e < 0) →
  mt7603u_probe_hw K Release rf stack ops tr = Done (0, tr') →
  ∃ fw dl new init ret got, rf = Ok fw ∧ (1024 ≤ length fw)%nat ∧ take 4 fw = fw_magic ∧
    fw_dl_len Release fw = Done (Some dl) ∧
    dev_rom (dev_run d (wires (effect_of new))) = loaded fw dl ∧
    mt7603_execute_reg_ops K Release static_seq (tr ++ new) = Done (ret, (tr ++ new) ++ init) ∧
    tr' = (tr ++ new) ++ init ∧
    got `prefix_of` static_seq ∧ accepted (wires (effect_of init)) = (λ op, op_wire op true) <$> got ∧
    (ret = 0 ↔ got = static_seq) ∧ (forallb works init = true → got = static_seq).
Proof.
  intros HK Hs Hops HF He. unfold mt7603u_probe_hw. destruct rf as [fw|e].
  2:{ unfold mret, io_ret. intros [= -> _]. by specialize (He 0 eq_refl). }
  specialize (HF fw eq_refl). clear He.
  unfold mbind at 1, io_bind at 1, call at 1. rewrite verify_entry_decides. cbn [mbind outcome_bind].
  unfold mret at 1, outcome_ret at 1. case_decide as Hok; [|done]. destruct Hok as [Hlen Hmag].
  cbn [Z.ltb Z.compare].
  destruct (fw_dl_len_release fw HF) as (len & Hdl & Hu).
  unfold mbind at 1, io_bind at 1.
  destruct (download_run_leaves K Release stack fw len HK Hs Hdl) with (tr := tr)
    as (ret & new & -> & Hret & _ & Hdr); [intros dl ->; by apply Hu|].
  destruct (Z.ltb_spec ret 0) as [Hneg|Hnn]; [unfold mret, io_ret; intros [= -> _]; lia|].
  assert (ret = 0) as -> by lia.
  destruct (download_run_loads K fw len 0 _ d HK eq_refl Hu Hdr) as (dl & -> & _ & Hrom & _).
  rewrite mac_init_call by done. intros Hrun.
  destruct (mt7603_execute_reg_ops K Release static_seq (tr ++ new)) as [[r tr2]| |] eqn:E; [|done..].
  injection Hrun as <-.
  destruct (execute_reg_ops_got K Release static_seq _ r tr2 (proj1 static_seq_mapped) E)
    as (init & got & -> & Hg). by exists fw, dl, new, init, r, got.
Qed.

(** An image with the magic number and a download region of 1000 bytes. *)
Definition sample_image : list Z := fw_magic ++ replicate 1032 0x5A ++ u32_to_le_bytes 996.

Lemma probe_brings_up_witness :
  let tr' := run_trace (mt7603u_probe_hw good_kernel Release (Ok sample_image)
               (replicate CMD_BUF 0) (replicate 128 (0 ↤ 0))) in
  ∃ fw dl new init ret got, Ok sample_image = Ok fw ∧ (1024 ≤ length fw)%nat ∧ take 4 fw = fw_magic ∧
    fw_dl_len Release fw = Done (Some dl) ∧
    dev_rom (dev_run {| dev_sch := 0; dev_rom := rom_reset; dev_lost := 0 |}
      (wires (effect_of new))) = loaded fw dl ∧
    mt7603_execute_reg_ops good_kernel Release static_seq ([] ++ new) = Done (ret, ([] ++ new) ++ init) ∧
    tr' = ([] ++ new) ++ init ∧
    got `prefix_of` static_seq ∧ accepted (wires (effect_of init)) = (λ op, op_wire op true) <$> got ∧
    (ret = 0 ↔ got = static_seq) ∧ (forallb works init = true → got = static_seq).
Proof.
  apply (probe_brings_up good_kernel (Ok sample_image) (replicate CMD_BUF 0) (replicate 128 (0 ↤ 0)) []).
  - exact good_kernel_ok.
  - apply length_replicate.
  - apply length_replicate.
  - intros fw [= <-]. vm_decide.
  - done.
  - vm_cast_no_check (eq_refl (Done (0, run_trace (mt7603u_probe_hw good_kernel Release (Ok sample_image)
      (replicate CMD_BUF 0) (replicate 128 (0 ↤ 0)))))).
Defined.
