(* ===== verification/Session.v ===== *)
(** * Response sessions (struct mt7603_rsp_session and mt7603_rsp_complete in
    src/c/usb.c)

    A response URB that completes with a leftover data frame is submitted
    again; anything else completes the session, and the gate it shares with
    other sessions.  Download.v waits for a session by asking the kernel; here
    is what that answer stands for: the sessions of a command under any order
    of completions. *)

From S2P Require Import Prelude Rust Ffi Entry Usb Download.
Local Open Scope Z_scope.
Local Open Scope rust_scope.

(** [rs_done] and the gate count the completions nobody waited for yet. *)
Record rsp_session := Session { rs_done : nat; rs_status : Z; rs_actual : Z }.

(** The session [mt7603_rsp_submit] leaves behind. *)
Definition rsp_fresh : rsp_session := Session 0 0 0.

Definition is_leftover (buf : list Z) : outcome bool :=
  b2 ← peek buf 2;
  if negb (b2 =? 0x00) then mret true else
  b3 ← peek buf 3;
  mret (negb (Z.land b3 0xf0 =? 0xe0)).

Section complete.
Context (K : kernel).

(** A completion: the URB's status, buffer and length, and the status and
    length a submission that fails leaves in it, which are the ones recorded
    then. *)
Record completion := Completion { cp_status : Z; cp_buf : list Z; cp_actual : Z; cp_refused : Z * Z }.

(** Whether the URB is in flight again, the session and the gate, [None] for a
    session without one. The printed bytes are left out. *)
Definition mt7603_rsp_complete (ep : Z) (s : rsp_session) (gate : option nat) (c : completion)
    : io (bool * rsp_session * option nat) :=
  '(again, (status, actual)) ←
    (if (cp_status c =? 0) && (4 <=? cp_actual c) then
       left ← call (is_leftover (cp_buf c));
       if left : bool then
         r ← usb_submit_urb K ep (length (cp_buf c));
         mret (r =? 0, cp_refused c)
       else mret (false, (cp_status c, cp_actual c))
     else mret (false, (cp_status c, cp_actual c)));
  if again : bool then mret (true, s, gate) else
  mret (false, Session (S (rs_done s)) status actual, S <$> gate).
End complete.

(** ** The sessions of a command *)

Record pending := Pending { pn_flying : bool; pn_session : rsp_session; pn_heard : list completion }.
Record sessions := Sessions { ss_open : gmap Z pending; ss_gate : option nat; ss_trace : trace }.

Definition buf_size (ep : Z) : nat :=
  if ep =? MT7603_DATA_BULK_IN then MT7603_DATA_RSP_BULK_SIZE else MT7603_CMD_RSP_BULK_SIZE.

Definition completion_ok (ep : Z) (c : completion) : Prop :=
  length (cp_buf c) = buf_size ep ∧ Forall is_u8 (cp_buf c) ∧
  0 ≤ cp_actual c ≤ Z.of_nat (buf_size ep).

(** Sessions just submitted on the endpoints [eps]. *)
Definition opened (eps : list Z) (gate : option nat) (tr : trace) : sessions :=
  Sessions (list_to_map ((λ ep, (ep, Pending true rsp_fresh [])) <$> eps)) gate tr.

Section sessions.
Context (K : kernel).

Inductive session_step (w : sessions) (ep : Z) (c : completion) : sessions → Prop :=
| SessionStep pn again s gate tr :
    ss_open w !! ep = Some pn → pn_flying pn = true → completion_ok ep c →
    mt7603_rsp_complete K ep (pn_session pn) (ss_gate w) c (ss_trace w) = Done ((again, s, gate), tr) →
    session_step w ep c
      (Sessions (<[ep := Pending again s (pn_heard pn ++ [c])]> (ss_open w)) gate tr).

Definition sessions_reach (w w' : sessions) : Prop := rtc (λ w w', ∃ ep c, session_step w ep c w') w w'.
End sessions.

(** An event frame, the only answer that counts. *)
Definition event_frame (buf : list Z) : bool :=
  (nth 2 buf 0 =? 0) && (bits 4 4 (nth 3 buf 0) =? 0xe).

(** A leftover: a complete data frame. *)
Definition leftover (c : completion) : Prop :=
  cp_status c = 0 ∧ 4 ≤ cp_actual c ∧ event_frame (cp_buf c) = false.

#[export] Instance leftover_dec c : Decision (leftover c).
Proof. unfold leftover. apply _. Defined.

(** The status and length a completion that ends the session leaves in it. *)
Definition recorded (c : completion) : Z * Z :=
  if decide (leftover c) then cp_refused c else (cp_status c, cp_actual c).

Definition answered (pn : pending) : bool := negb (pn_flying pn).

(** What a session went through: leftovers only while its URB is in flight;
    then one completion that ended it and is recorded in it, a leftover only
    if the URB could not be submitted again. *)
Definition pending_ok (K : kernel) (ep : Z) (pn : pending) : Prop :=
  if pn_flying pn then pn_session pn = rsp_fresh ∧ Forall leftover (pn_heard pn)
  else ∃ skipped c, pn_heard pn = skipped ++ [c] ∧ Forall leftover skipped ∧
    pn_session pn = Session 1 (recorded c).1 (recorded c).2 ∧
    (leftover c → ∃ tr, k_submit_urb K tr ep (buf_size ep) ≠ 0).

Definition answers (m : gmap Z pending) : nat := size (filter (λ kv, answered kv.2 = true) m).

(** A shared gate counts the answered sessions. *)
Definition gate_ok (gated : bool) (w : sessions) : Prop :=
  ss_gate w = if gated then Some (answers (ss_open w)) else None.

Section proofs.
Context (K : kernel).

Lemma event_type x : is_u8 x → (Z.land x 0xf0 =? 0xe0) = (bits 4 4 x =? 0xe).
Proof. intros Hx. pattern x. eapply (range_forall _ 0 256); [by vm_compute|unfold is_u8, is_uint in Hx; lia]. Qed.

Lemma is_leftover_spec ep c : completion_ok ep c →
  is_leftover (cp_buf c) = Done (negb (event_frame (cp_buf c))).
Proof.
  intros (Hlen & Hu8 & _).
  assert (4 ≤ length (cp_buf c))%nat as Hl by (rewrite Hlen; unfold buf_size; case_match; vm_decide).
  unfold is_leftover, event_frame. rewrite !peek_nth by lia. cbn [mbind outcome_bind].
  destruct (nth 2 (cp_buf c) 0 =? 0); cbn [negb andb]; [|done].
  rewrite event_type; [done|]. rewrite Forall_nth in Hu8. by apply Hu8.
Qed.

(** The two ends of the callback. *)
Lemma rsp_complete_cases ep s gate c tr : completion_ok ep c →
  ∃ tr', mt7603_rsp_complete K ep s gate c tr =
    Done (if decide (leftover c ∧ k_submit_urb K tr ep (buf_size ep) = 0) then (true, s, gate)
          else (false, Session (S (rs_done s)) (recorded c).1 (recorded c).2, S <$> gate), tr').
Proof.
  intros Hc. unfold mt7603_rsp_complete, recorded.
  destruct (decide (cp_status c = 0 ∧ 4 ≤ cp_actual c)) as [[Hs Ha]|Hn].
  - rewrite (proj2 (Z.eqb_eq _ 0) Hs), (proj2 (Z.leb_le 4 _) Ha). cbn [andb].
    unfold call, mbind, io_bind. rewrite (is_leftover_spec ep) by done.
    cbn [mbind outcome_bind mret outcome_ret].
    assert (leftover c ↔ event_frame (cp_buf c) = false) as Hleft by (unfold leftover; tauto).
    destruct (event_frame (cp_buf c)); cbn [negb].
    + eexists. by rewrite !decide_False by naive_solver.
    + unfold usb_submit_urb, log, mbind, io_bind, mret, io_ret. destruct Hc as (-> & _).
      rewrite (decide_True (P := leftover c)) by tauto. destruct (cp_refused c) as [st n]. eexists.
      destruct (Z.eqb_spec (k_submit_urb K tr ep (buf_size ep)) 0).
      * by rewrite decide_True by tauto.
      * by rewrite decide_False by tauto.
  - eexists. rewrite !(decide_False (P := leftover c)), (decide_False (P := _ ∧ _)) by (unfold leftover; tauto).
    destruct (Z.eqb_spec (cp_status c) 0); cbn [andb]; [|done].
    destruct (Z.leb_spec 4 (cp_actual c)); [tauto|done].
Qed.

Definition sessions_ok (gated : bool) (w : sessions) : Prop :=
  map_Forall (pending_ok K) (ss_open w) ∧ gate_ok gated w.

(** A session in flight is replaced. *)
Lemma answers_insert m ep pn pn' : m !! ep = Some pn → pn_flying pn = true →
  answers (<[ep := pn']> m) = (if pn_flying pn' then answers m else S (answers m)).
Proof.
  intros Hpn Hfly. unfold answers.
  assert (∀ y, m !! ep = Some y → ¬ answered y = true) as Hold.
  { intros y Hy. rewrite Hpn in Hy. injection Hy as <-. unfold answered. by rewrite Hfly. }
  destruct (pn_flying pn') eqn:E.
  - rewrite map_filter_insert_False by (unfold answered; cbn; by rewrite E).
    by rewrite map_filter_delete_not.
  - rewrite map_filter_insert_True by (unfold answered; cbn; by rewrite E).
    apply map_size_insert_None, map_lookup_filter_None_2. by right.
Qed.

Lemma session_step_ok gated w ep c w' :
  session_step K w ep c w' → sessions_ok gated w → sessions_ok gated w'.
Proof.
  intros [pn again s gate tr Hpn Hfly Hc Hrun] [Hall Hgate].
  specialize (Hall _ _ Hpn) as Hpend. unfold pending_ok in Hpend. rewrite Hfly in Hpend.
  destruct Hpend as [Hfresh Hheard].
  destruct (rsp_complete_cases ep (pn_session pn) (ss_gate w) c (ss_trace w) Hc) as [tr' Hrun'].
  rewrite Hrun' in Hrun. clear Hrun'.
  destruct (decide _) as [[Hleft _]|Hn]; injection Hrun as <- <- <- <-; split;
    unfold gate_ok; cbn [ss_open ss_gate].
  - apply map_Forall_insert_2; [|done]. split; [done|]. cbn. apply Forall_app. split; [done|]. by apply Forall_singleton.
  - by rewrite (answers_insert _ _ pn).
  - apply map_Forall_insert_2; [|done]. unfold pending_ok. cbn. exists (pn_heard pn), c.
    rewrite Hfresh. split_and!; [done..|]. intros Hl. exists (ss_trace w). tauto.
  - rewrite (answers_insert _ _ pn), Hgate by done. by destruct gated.
Qed.

Lemma opened_ok eps (gated : bool) tr :
  sessions_ok gated (opened eps (if gated then Some 0%nat else None) tr).
Proof.
  assert (∀ ep pn, ss_open (opened eps None tr) !! ep = Some pn → pn = Pending true rsp_fresh []) as Hnew.
  { intros ep pn Hpn. by apply elem_of_list_to_map_2, list_elem_of_fmap in Hpn as (? & [= -> ->] & _). }
  split.
  - apply map_Forall_lookup_2. intros ep pn Hpn. by rewrite (Hnew ep pn Hpn).
  - unfold gate_ok. destruct gated; [|done]. cbn [ss_gate opened]. f_equal. symmetry.
    apply map_size_empty_iff, map_empty_filter_2. intros ep pn Hpn. by rewrite (Hnew ep pn Hpn).
Qed.

Lemma session_step_exists w ep pn c :
  ss_open w !! ep = Some pn → pn_flying pn = true → completion_ok ep c → ∃ w', session_step K w ep c w'.
Proof.
  intros Hpn Hfly Hc.
  destruct (rsp_complete_cases ep (pn_session pn) (ss_gate w) c (ss_trace w) Hc) as [tr' Hrun].
  destruct (decide _); eexists; by eapply SessionStep.
Qed.
End proofs.

(** C34. After any completions of the response URBs of a command: a session is
    still in flight, untouched, after leftover data frames only, or it was
    completed exactly once, with the status and length of its last completion,
    which is no leftover unless its URB could not be submitted again; a shared
    gate counts the completed sessions; and the callback answers every
    completion without reading outside the buffer. *)
Theorem session_answered K eps (gated : bool) tr w :
  sessions_reach K (opened eps (if gated then Some 0%nat else None) tr) w →
  (∀ ep pn, ss_open w !! ep = Some pn → pending_ok K ep pn) ∧
  (ss_gate w = if gated then Some (answers (ss_open w)) else None) ∧
  ∀ ep pn c, ss_open w !! ep = Some pn → pn_flying pn = true → completion_ok ep c →
    ∃ w', session_step K w ep c w'.
Proof.
  intros Hreach. assert (sessions_ok K gated w) as [Hall Hgate].
  { assert (sessions_ok K gated (opened eps (if gated then Some 0%nat else None) tr)) as H0
      by apply opened_ok.
    unfold sessions_reach in Hreach. induction Hreach as [|w1 w2 w3 (ep & c & Hs) _ IH]; [done|].
    by eapply IH, session_step_ok. }
  split_and!; [done..|]. intros. by eapply session_step_exists.
Qed.

(** ** The sessions of the restart command: a leftover, then the answer. *)

Definition data_frame : completion := Completion 0 (replicate 512 0) 64 (EINVAL, 0).
Definition ack_frame : completion := Completion 0 ([12; 0; 0; 0xe0; 1; 2] ++ replicate 506 0) 12 (EINVAL, 0).

Lemma sample_completion_ok c : c ∈ [data_frame; ack_frame] → completion_ok MT7603_CMD_RSP_BULK_IN c.
Proof. intros Hc. pattern c. eapply Forall_forall; [|exact Hc]. repeat constructor; try done; vm_decide. Qed.

Lemma session_answered_witness : ∃ w pn,
  ss_open w !! MT7603_CMD_RSP_BULK_IN = Some pn ∧ pn_session pn = Session 1 0 12 ∧
  ss_gate w = Some 1%nat ∧ pending_ok good_kernel MT7603_CMD_RSP_BULK_IN pn.
Proof.
  set (w0 := opened [MT7603_DATA_BULK_IN; MT7603_CMD_RSP_BULK_IN] (Some 0%nat) []).
  assert (∃ w1, session_step good_kernel w0 MT7603_CMD_RSP_BULK_IN data_frame w1 ∧
    ∃ w2, session_step good_kernel w1 MT7603_CMD_RSP_BULK_IN ack_frame w2 ∧
      ss_open w2 !! MT7603_CMD_RSP_BULK_IN = Some (Pending false (Session 1 0 12) [data_frame; ack_frame]) ∧
      answers (ss_open w2) = 1%nat)
    as (w1 & H1 & w2 & H2 & Hend & Hone).
  { eexists. split; [eapply SessionStep; [done..|by apply sample_completion_ok; set_solver|by vm_compute]|].
    eexists. split; [eapply SessionStep; [done..|by apply sample_completion_ok; set_solver|by vm_compute]|].
    split; [done|by vm_compute]. }
  assert (sessions_reach good_kernel w0 w2) as Hreach by (do 2 (eapply rtc_l; [by eauto|]); apply rtc_refl).
  destruct (session_answered good_kernel [MT7603_DATA_BULK_IN; MT7603_CMD_RSP_BULK_IN] true [] w2 Hreach)
    as (Hall & Hgate & _).
  exists w2, (Pending false (Session 1 0 12) [data_frame; ack_frame]).
  split_and!; [done..| |by apply Hall]. by rewrite Hgate, Hone.
Defined.
