(* ===== verification/Plan.v ===== *)
(** * Plans: what a callback puts on the bus

    The mac80211 callbacks send a fixed sequence of commands and register
    writes and mostly ignore the result of each.  A plan is that sequence;
    [performs] says that a run attempted it, in order - an attempt that found
    no memory leaves no transfer, one that failed on the bus leaves a failed
    transfer - with a given change of the memory and URBs held, and that with
    a kernel that does not fail it was carried out completely. *)

From S2P Require Import Prelude Rust Ffi Mcu Entry Usb Cmd.
Local Open Scope Z_scope.
Local Open Scope rust_scope.

(** A kernel in which every allocation and transfer succeeds. *)
Record reliable (K : kernel) : Prop := {
  rel_kmalloc tr n : is_Some (k_kmalloc K tr n);
  rel_control_in tr q v i : 0 ≤ (k_control_in K tr q v i).1;
  rel_control_out tr r : 0 ≤ k_control_out K tr r;
  rel_bulk_out tr ep d : 0 ≤ k_bulk_out K tr ep d;
  rel_alloc_urb tr : k_alloc_urb K tr = true;
  rel_submit_urb tr ep n : 0 ≤ k_submit_urb K tr ep n;
}.

Lemma good_kernel_reliable : reliable good_kernel.
Proof. by split. Qed.

Abbreviation plan := (list (bool → wire)).

Inductive attempts : plan → list wire → Prop :=
| attempts_nil : attempts [] []
| attempts_skip w p ws : attempts p ws → attempts (w :: p) ws
| attempts_do w ok p ws : attempts p ws → attempts (w :: p) (w ok :: ws).

Definition carried_out (p : plan) : list wire := (λ w, w true) <$> p.

Record performs (K : kernel) (p : plan) (m u : Z) (e : effect) : Prop := {
  performs_attempts : attempts p (wires e);
  performs_mem : mem e = m;
  performs_urbs : urbs e = u;
  performs_reliable : reliable K → wires e = carried_out p;
}.

Lemma attempts_none p : attempts p [].
Proof. induction p; by constructor. Qed.

Lemma attempts_app p1 p2 ws1 ws2 :
  attempts p1 ws1 → attempts p2 ws2 → attempts (p1 ++ p2) (ws1 ++ ws2).
Proof. induction 1; intros; simpl; [done|by constructor; auto..]. Qed.

Lemma attempts_carried_out p : attempts p (carried_out p).
Proof. induction p as [|w p IH]; [constructor|]. by apply (attempts_do w true). Qed.

(** An attempt never invents a transfer and never reorders. *)
Lemma attempts_sublist p ws :
  attempts p ws → ∃ sub, sub `sublist_of` p ∧ Forall2 (λ w x, ∃ ok, x = w ok) sub ws.
Proof.
  induction 1 as [|w p ws _ (sub & Hs & HF)|w ok p ws _ (sub & Hs & HF)].
  - by exists [].
  - exists sub. split; [by constructor|done].
  - exists (w :: sub). split; [by constructor|]. constructor; eauto.
Qed.

Lemma carried_out_app p1 p2 : carried_out (p1 ++ p2) = carried_out p1 ++ carried_out p2.
Proof. apply fmap_app. Qed.

(** A property of effects that sequencing preserves. *)
Class Closed (P : effect → Prop) : Prop := {
  closed_quiet : P quiet;
  closed_app e1 e2 : P e1 → P e2 → P (e1 ⊕ e2);
}.

Section closed.
Context (P : effect → Prop) `{!Closed P}.

Lemma closed_ret {A} (a : A) (R : A → Prop) : R a → emits (mret a) (λ b e, R b ∧ P e).
Proof. intros. apply emits_ret. split; [done|apply closed_quiet]. Qed.

Lemma closed_bind {A B} (m : io A) (f : A → io B) (R : A → Prop) (S : B → Prop) :
  emits m (λ a e, R a ∧ P e) → (∀ a, R a → emits (f a) (λ b e, S b ∧ P e)) →
  emits (m ≫= f) (λ b e, S b ∧ P e).
Proof.
  intros Hm Hf. eapply emits_bind; [done|]. cbn beta. intros a e [HR He] tr.
  destruct (Hf a HR tr) as (b & new & Hb & HS & He'). exists b, new.
  split_and!; [done..|]. by apply closed_app.
Qed.

Lemma closed_kernel {A} c (f : unit → io A) (R : A → Prop) :
  emits (f tt) (λ b e, R b ∧ P e) → emits (call_kernel c ≫= f) (λ b e, R b ∧ P e).
Proof. intros. by apply emits_bind_kernel. Qed.
End closed.

(** No memory and no URB is taken or given back. *)
Definition steady (e : effect) : Prop := mem e = 0 ∧ urbs e = 0.
#[export] Instance steady_closed : Closed steady.
Proof. split; [done|]. intros e1 e2 [M1 U1] [M2 U2]. unfold steady. simpl. by rewrite M1, M2, U1, U2. Qed.

Lemma performs_steady K p e : performs K p 0 0 e → steady e.
Proof. by intros [_ ? ? _]. Qed.

Section rules.
Context (K : kernel).

Lemma performs_quiet : performs K [] 0 0 quiet.
Proof. split; [constructor|done..]. Qed.

Lemma performs_app p1 p2 m1 m2 u1 u2 e1 e2 :
  performs K p1 m1 u1 e1 → performs K p2 m2 u2 e2 →
  performs K (p1 ++ p2) (m1 + m2) (u1 + u2) (e1 ⊕ e2).
Proof.
  intros [A1 <- <- R1] [A2 <- <- R2]. split; simpl; [by apply attempts_app|done..|].
  intros HK. by rewrite R1, R2, carried_out_app.
Qed.

(** Sequencing, when the first part may keep memory and URBs. *)
Lemma plan_seq_held {A B} (x : io A) (f : A → io B) p1 p2 (m u : A → Z) (P : A → Prop)
    (Q : A → B → Prop) :
  emits x (λ a e, P a ∧ performs K p1 (m a) (u a) e) →
  (∀ a, P a → emits (f a) (λ b e, Q a b ∧ performs K p2 0 0 e)) →
  emits (x ≫= f) (λ b e, ∃ a, P a ∧ Q a b ∧ performs K (p1 ++ p2) (m a) (u a) e).
Proof.
  intros Hx Hf. eapply emits_bind; [done|]. cbn beta. intros a e [HP He] tr.
  destruct (Hf a HP tr) as (b & new & Hb & HQ & He'). exists b, new.
  split; [done|]. exists a. split_and!; [done..|].
  rewrite <-(Z.add_0_r (m a)), <-(Z.add_0_r (u a)). by apply performs_app.
Qed.

Lemma plan_seq {A B} (x : io A) (f : A → io B) p1 p2 m u (P : A → Prop) (Q : B → Prop) :
  emits x (λ a e, P a ∧ performs K p1 0 0 e) →
  (∀ a, P a → emits (f a) (λ b e, Q b ∧ performs K p2 m u e)) →
  emits (x ≫= f) (λ b e, Q b ∧ performs K (p1 ++ p2) m u e).
Proof.
  intros Hx Hf. eapply emits_bind; [done|]. cbn beta. intros a e [HP He] tr.
  destruct (Hf a HP tr) as (b & new & Hb & HQ & He'). exists b, new.
  split_and!; [done..|]. by apply (performs_app p1 p2 0 m 0 u).
Qed.

Lemma plan_free {B} (f : unit → io B) p2 m u (Q : B → Prop) :
  emits (f tt) (λ b e, Q b ∧ performs K p2 m u e) →
  emits (kfree ≫= f) (λ b e, Q b ∧ performs K p2 (-1 + m) u e).
Proof.
  intros Hf. io_bind kfree_emits. intros [] e -> tr.
  destruct (Hf tr) as (b & new & Hb & HQ & He'). exists b, new. split_and!; [done..|].
  apply (performs_app [] p2 (-1) m 0 u); [by split; [constructor|..]|done].
Qed.

Lemma plan_ret {A} (a : A) (P : A → Prop) : P a → emits (mret a) (λ b e, P b ∧ performs K [] 0 0 e).
Proof. intros. apply emits_ret. split; [done|apply performs_quiet]. Qed.

Lemma plan_quiet {A} (x : io A) (P : A → Prop) :
  emits x (λ a e, P a ∧ e = quiet) → emits x (λ a e, P a ∧ performs K [] 0 0 e).
Proof.
  intros Hx. eapply emits_weaken; [done|]. intros a e [? ->]. split; [done|apply performs_quiet].
Qed.

Lemma emits_and {A} (x : io A) P Q : emits x P → emits x Q → emits x (λ a e, P a e ∧ Q a e).
Proof.
  intros HP HQ tr. destruct (HP tr) as (a & new & Ha & ?), (HQ tr) as (b & new' & Hb & ?).
  exists a, new. split; [done|]. split; [done|]. rewrite Ha in Hb.
  injection Hb as <- Hn. by apply app_inv_head in Hn as <-.
Qed.

(** One transfer. *)
Lemma issued_performs ret w e :
  issued ret w e → (reliable K → ret = 0) → performs K [w] 0 0 e.
Proof.
  intros Hi HK. destruct Hi as [[-> ->]|(Hneg & He)].
  - split; [apply (attempts_do w true), attempts_nil|done..].
  - assert (reliable K → False) as Hno by (intros Hr; rewrite HK in Hneg; [lia|done]).
    destruct He as [-> | ->]; split; try done; simpl; [apply attempts_none|
      apply (attempts_do w false), attempts_nil].
Qed.

(** With a reliable kernel nothing fails. *)
Lemma send_cmd_reliable frame n :
  (n ≤ length frame)%nat → emits (mt7603_usb_send_cmd K frame n) (λ ret _, reliable K → ret = 0).
Proof.
  intros Hn tr. destruct (send_cmd_emits K frame n Hn tr) as (ret & new & Heq & Hi).
  exists ret, new. split; [done|]. intros HK. revert Heq.
  unfold mt7603_usb_send_cmd, mbind, io_bind, kmalloc, log.
  destruct (rel_kmalloc K HK tr (n + MT7603_USB_END_PADDING)) as [c ->].
  unfold call. rewrite from_raw_parts_done by done. cbn [mbind outcome_bind mret outcome_ret].
  unfold usb_bulk_msg, kfree, log. cbn beta iota zeta.
  match goal with |- context [k_bulk_out K ?t ?e ?d] => pose proof (rel_bulk_out K HK t e d) end.
  intros [= <- _]. by rewrite (proj2 (Z.ltb_ge _ _)).
Qed.

Lemma write_reg_reliable p a v :
  is_u32 a → emits (mt7603_usb_write_reg K p a v) (λ ret _, reliable K → ret = 0).
Proof.
  intros Ha tr. destruct (write_reg_emits K p a v Ha tr) as (ret & new & Heq & Hi).
  exists ret, new. split; [done|]. intros HK. revert Heq.
  unfold mt7603_usb_write_reg, mt7603_rust_map_register_addr, mbind, io_bind, kmalloc, log.
  destruct (rel_kmalloc K HK tr 4) as [c ->].
  unfold call. rewrite Regmap.physical_addr_map_translate by done. cbn [mbind outcome_bind mret outcome_ret].
  unfold usb_control_out, kfree, log. cbn beta iota zeta.
  match goal with |- context [k_control_out K ?t ?r] => pose proof (rel_control_out K HK t r) end.
  intros [= <- _]. by rewrite (proj2 (Z.ltb_ge _ _)).
Qed.
End rules.

(** ** The two recurring blocks of mac80211.c

    [ret = build(..., &written); if (ret == 0 && written > 0) send] for a
    command, and the same with [mt7603_execute_reg_ops] for a register
    sequence; the result of the send is dropped.  Both return the buffer. *)

Definition send_built (K : kernel) (max : nat)
    (f : option (list Z) → nat → option nat → builder_call Z) (cmd : list Z) : io (list Z) :=
  '(ret, cmd, written) ← call_builder max f cmd;
  (if (ret =? 0) && bool_decide (0 < written)%nat
   then _ ← mt7603_usb_send_cmd K cmd written; mret tt else mret tt) ;;
  mret cmd.

Definition run_sequence (K : kernel) (p : profile) (max : nat)
    (f : option (list RegWriteOp) → nat → option nat → builder_call RegWriteOp)
    (ops : list RegWriteOp) : io (list RegWriteOp) :=
  out ← call (f (Some ops) max (Some 0%nat));
  match out with
  | (ret, Some ops, Some written) =>
      (if (ret =? 0) && bool_decide (0 < written)%nat
       then _ ← mt7603_execute_reg_ops K p (take written ops); mret tt else mret tt) ;;
      mret ops
  | _ => undefined
  end.

Definition seq_plan (ops : list RegWriteOp) : plan := op_wire <$> ops.

Section blocks.
Context (K : kernel) (p : profile).

Lemma send_built_emits max f c cmd :
  command_ok c → (length (command_frame c) ≤ max)%nat → (0 < length (command_frame c))%nat →
  length cmd = max →
  f (Some cmd) max (Some 0%nat) = command_entry p c (Some cmd) max (Some 0%nat) →
  emits (send_built K max f cmd) (λ cmd' e, length cmd' = max ∧ performs K [cmd_wire c] 0 0 e).
Proof.
  intros Hc Hmax Hpos Hl Hf. rewrite command_entry_run in Hf. unfold send_built.
  eapply emits_bind_quiet; [by eapply call_builder_emits|].
  intros [[ret cmd'] n] Hh. pose proof Hh as (Hret & Hn & Ht & Hl'). cbn [fst snd] in *. subst ret.
  assert (0 < n)%nat by (assert (length (take n cmd') = n) by list_len; rewrite Ht in *; lia).
  cbn [Z.eqb andb]. rewrite bool_decide_eq_true_2 by done.
  eapply (plan_seq K _ _ [cmd_wire c] [] 0 0 (λ _, True)).
  - eapply (plan_seq K _ _ [cmd_wire c] [] 0 0 (λ _, True)); [|intros; by apply plan_ret].
    eapply emits_weaken; [apply emits_and; [by apply (send_held_emits K max c (0, cmd', n))|
      by apply send_cmd_reliable]|].
    intros ret e [Hi Hr]. split; [done|]. by eapply issued_performs.
  - intros. by apply plan_ret.
Qed.

Lemma execute_plan ops :
  Forall (λ op, is_u32 (addr op)) ops →
  emits (mt7603_execute_reg_ops K p ops) (λ ret e, (reliable K → ret = 0) ∧ performs K (seq_plan ops) 0 0 e).
Proof.
  induction 1 as [|op ops Ha HF IH]; cbn [mt7603_execute_reg_ops].
  { by apply plan_ret. }
  eapply emits_bind; [apply emits_and; [by apply write_reg_emits|by apply write_reg_reliable]|].
  cbn beta. intros ret e [Hi Hr]. pose proof (issued_performs K _ _ _ Hi Hr) as Hp.
  destruct (Z.ltb_spec ret 0).
  - apply emits_ret. rewrite eff_quiet_r.
    assert (reliable K → False) as Hno by (intros HK; specialize (Hr HK); lia).
    split; [done|]. destruct Hp as [Ha' Hm Hu _]. split; [|done..].
    change (seq_plan (op :: ops)) with ([op_wire op] ++ seq_plan ops).
    rewrite <-(app_nil_r (wires e)). apply attempts_app; [done|apply attempts_none].
  - intros tr. destruct (IH tr) as (ret' & new & Heq & Hr' & He). exists ret', new.
    split; [done|]. split; [done|]. by apply (performs_app K [op_wire op] (seq_plan ops) 0 0 0 0).
Qed.

Lemma run_sequence_emits max f r ops seq :
  reg_request_wf r → (max ≤ length ops)%nat → reg_request_spec r = Ok seq → seq ≠ [] →
  (length seq ≤ max)%nat → Forall (λ op, is_u32 (addr op)) seq →
  f (Some ops) max (Some 0%nat) = reg_entry r (Some ops) max (Some 0%nat) →
  emits (run_sequence K p max f ops) (λ ops' e, length ops' = length ops ∧ performs K (seq_plan seq) 0 0 e).
Proof.
  intros Hwf Hl Hspec Hne Hmax HF Hf.
  rewrite (reg_entry_result r ops max 0 Hwf) in Hf by lia. rewrite Hspec in Hf. unfold entry_result in Hf.
  rewrite decide_False in Hf by lia. unfold run_sequence.
  eapply emits_bind_call; [exact Hf|]. cbn beta iota.
  assert (0 < length seq)%nat by (destruct seq; [done|simpl; lia]).
  cbn [Z.eqb andb]. rewrite bool_decide_eq_true_2, take_app_length by done.
  rewrite <-(app_nil_r (seq_plan seq)).
  eapply (plan_seq K _ _ (seq_plan seq) [] 0 0 (λ _, True)); [|intros; apply plan_ret; list_len].
  rewrite <-(app_nil_r (seq_plan seq)).
  eapply (plan_seq K _ _ (seq_plan seq) [] 0 0 (λ _, True)); [|intros; by apply plan_ret].
  eapply emits_weaken; [by apply execute_plan|]. by intros ? ? [_ ?].
Qed.

(** A single register write whose result is dropped or looked at later. *)
Lemma write_plan a v :
  is_u32 a →
  emits (mt7603_usb_write_reg K p a v) (λ ret e, (reliable K → ret = 0) ∧ performs K [hif_write a v] 0 0 e).
Proof.
  intros Ha. eapply emits_weaken; [apply emits_and; [by apply write_reg_emits|by apply write_reg_reliable]|].
  intros ret e [Hi Hr]. split; [done|]. by eapply issued_performs.
Qed.

Lemma call_kernel_plan c : emits (call_kernel c) (λ _ e, True ∧ performs K [] 0 0 e).
Proof. apply plan_quiet. eapply emits_weaken; [apply call_kernel_emits|]. by intros _ e ->. Qed.
End blocks.

Section unmapped_access.
Context (K : kernel).

Lemma cfg_read_reliable a v :
  emits (mt7603_usb_cfg_read K a v) (λ r _, reliable K → r.1 = 0).
Proof.
  intros tr. destruct (cfg_read_emits K a v tr) as (r & new & Heq & Hi).
  exists r, new. split; [done|]. intros HK. revert Heq.
  unfold mt7603_usb_cfg_read, mbind, io_bind, kmalloc, log.
  destruct (rel_kmalloc K HK tr 4) as [c ->]. unfold usb_control_in, kfree, log. cbn beta iota zeta.
  match goal with |- context [k_control_in K ?t ?q ?x ?i] => pose proof (rel_control_in K HK t q x i);
    destruct (k_control_in K t q x i) as [ret w] end.
  cbn beta iota zeta. intros [= <- _]. by rewrite (proj2 (Z.leb_le _ _)).
Qed.

Lemma cfg_write_reliable a v :
  emits (mt7603_usb_cfg_write K a v) (λ ret _, reliable K → ret = 0).
Proof.
  intros tr. destruct (cfg_write_emits K a v tr) as (ret & new & Heq & Hi).
  exists ret, new. split; [done|]. intros HK. revert Heq.
  unfold mt7603_usb_cfg_write, mbind, io_bind, kmalloc, log.
  destruct (rel_kmalloc K HK tr 4) as [c ->]. unfold usb_control_out, kfree, log. cbn beta iota zeta.
  match goal with |- context [k_control_out K ?t ?r] => pose proof (rel_control_out K HK t r) end.
  intros [= <- _]. by rewrite (proj2 (Z.ltb_ge _ _)).
Qed.
End unmapped_access.
