(* ===== verification/Dev.v ===== *)
(** * The driver's device state (struct mt7603u_dev in src/c/mac80211.c)

    The fields the callbacks share.  A pointer the driver allocates and frees
    is a flag that says whether it is set; the virtual interface serving as
    access point is its identity, [None] for NULL.  The USB device and the
    mac80211 handle never change; the work item and the URB anchor belong to
    the kernel.  The count of monitor interfaces, an int in C, is a [Z]: it
    goes up with an interface and down with one and never below 0, so 2^31
    interfaces would be needed to leave its range. *)

From S2P Require Import Prelude.
Local Open Scope Z_scope.

Definition MT7603_NUM_RX_URBS : nat := 4.
Definition MT7603_EEPROM_SIZE : nat := 1024.
Definition MT7603_RX_BUF_SIZE : nat := 24576.

(** [struct mt7603_rx_urb]: is the URB, is the buffer allocated. *)
Record rx_urb := RxUrb { ru_urb : bool; ru_buf : bool }.
#[export] Instance rx_urb_eq_dec : EqDecision rx_urb.
Proof. solve_decision. Defined.

Module Dev.
Record t := {
  ap_vif : option nat;
  beacon_int : Z;
  beacon_enabled : bool;
  mac_addr : list Z;
  current_channel : Z;
  current_bw : Z;
  monitor_count : Z;
  filter_flags : Z;
  cmd_seq : Z;
  running : bool;
  eeprom_valid : bool;
  rssi_offset_2g : Z;
  eeprom : list Z;
  rx_urbs : list rx_urb;
  cmd_urb : bool;
  cmd_buf : bool;
}.

#[export] Instance t_eq_dec : EqDecision t.
Proof. solve_decision. Defined.

(** The ranges of the field types. *)
Definition wf (d : t) : Prop :=
  is_u16 (beacon_int d) ∧ length (mac_addr d) = 6%nat ∧ Forall is_u8 (mac_addr d) ∧
  is_u8 (current_channel d) ∧ is_u8 (current_bw d) ∧ is_u8 (cmd_seq d) ∧
  is_i8 (rssi_offset_2g d) ∧ length (eeprom d) = MT7603_EEPROM_SIZE ∧
  Forall is_u8 (eeprom d) ∧ length (rx_urbs d) = MT7603_NUM_RX_URBS.
#[export] Instance wf_dec d : Decision (wf d).
Proof. unfold wf. apply _. Defined.

(** Assignments to the fields. *)
Definition set_cmd_seq (d : t) (cmd_seq' : Z) : t :=
  {| ap_vif := ap_vif d; beacon_int := beacon_int d; beacon_enabled := beacon_enabled d;
     mac_addr := mac_addr d; current_channel := current_channel d; current_bw := current_bw d;
     monitor_count := monitor_count d; filter_flags := filter_flags d; cmd_seq := cmd_seq';
     running := running d; eeprom_valid := eeprom_valid d; rssi_offset_2g := rssi_offset_2g d;
     eeprom := eeprom d; rx_urbs := rx_urbs d; cmd_urb := cmd_urb d; cmd_buf := cmd_buf d |}.
Definition set_channel (d : t) (current_channel' : Z) (current_bw' : Z) : t :=
  {| ap_vif := ap_vif d; beacon_int := beacon_int d; beacon_enabled := beacon_enabled d;
     mac_addr := mac_addr d; current_channel := current_channel'; current_bw := current_bw';
     monitor_count := monitor_count d; filter_flags := filter_flags d; cmd_seq := cmd_seq d;
     running := running d; eeprom_valid := eeprom_valid d; rssi_offset_2g := rssi_offset_2g d;
     eeprom := eeprom d; rx_urbs := rx_urbs d; cmd_urb := cmd_urb d; cmd_buf := cmd_buf d |}.
Definition set_running (d : t) (running' : bool) : t :=
  {| ap_vif := ap_vif d; beacon_int := beacon_int d; beacon_enabled := beacon_enabled d;
     mac_addr := mac_addr d; current_channel := current_channel d; current_bw := current_bw d;
     monitor_count := monitor_count d; filter_flags := filter_flags d; cmd_seq := cmd_seq d;
     running := running'; eeprom_valid := eeprom_valid d; rssi_offset_2g := rssi_offset_2g d;
     eeprom := eeprom d; rx_urbs := rx_urbs d; cmd_urb := cmd_urb d; cmd_buf := cmd_buf d |}.
Definition set_rx_urbs (d : t) (rx_urbs' : list rx_urb) : t :=
  {| ap_vif := ap_vif d; beacon_int := beacon_int d; beacon_enabled := beacon_enabled d;
     mac_addr := mac_addr d; current_channel := current_channel d; current_bw := current_bw d;
     monitor_count := monitor_count d; filter_flags := filter_flags d; cmd_seq := cmd_seq d;
     running := running d; eeprom_valid := eeprom_valid d; rssi_offset_2g := rssi_offset_2g d;
     eeprom := eeprom d; rx_urbs := rx_urbs'; cmd_urb := cmd_urb d; cmd_buf := cmd_buf d |}.
Definition set_cmd_ring (d : t) (cmd_urb' : bool) (cmd_buf' : bool) : t :=
  {| ap_vif := ap_vif d; beacon_int := beacon_int d; beacon_enabled := beacon_enabled d;
     mac_addr := mac_addr d; current_channel := current_channel d; current_bw := current_bw d;
     monitor_count := monitor_count d; filter_flags := filter_flags d; cmd_seq := cmd_seq d;
     running := running d; eeprom_valid := eeprom_valid d; rssi_offset_2g := rssi_offset_2g d;
     eeprom := eeprom d; rx_urbs := rx_urbs d; cmd_urb := cmd_urb'; cmd_buf := cmd_buf' |}.
Definition set_beacon_enabled (d : t) (beacon_enabled' : bool) : t :=
  {| ap_vif := ap_vif d; beacon_int := beacon_int d; beacon_enabled := beacon_enabled'; mac_addr
     := mac_addr d; current_channel := current_channel d; current_bw := current_bw d;
     monitor_count := monitor_count d; filter_flags := filter_flags d; cmd_seq := cmd_seq d;
     running := running d; eeprom_valid := eeprom_valid d; rssi_offset_2g := rssi_offset_2g d;
     eeprom := eeprom d; rx_urbs := rx_urbs d; cmd_urb := cmd_urb d; cmd_buf := cmd_buf d |}.
Definition set_beacon_int (d : t) (beacon_int' : Z) : t :=
  {| ap_vif := ap_vif d; beacon_int := beacon_int'; beacon_enabled := beacon_enabled d; mac_addr
     := mac_addr d; current_channel := current_channel d; current_bw := current_bw d;
     monitor_count := monitor_count d; filter_flags := filter_flags d; cmd_seq := cmd_seq d;
     running := running d; eeprom_valid := eeprom_valid d; rssi_offset_2g := rssi_offset_2g d;
     eeprom := eeprom d; rx_urbs := rx_urbs d; cmd_urb := cmd_urb d; cmd_buf := cmd_buf d |}.
Definition set_ap_vif (d : t) (ap_vif' : option nat) : t :=
  {| ap_vif := ap_vif'; beacon_int := beacon_int d; beacon_enabled := beacon_enabled d; mac_addr
     := mac_addr d; current_channel := current_channel d; current_bw := current_bw d;
     monitor_count := monitor_count d; filter_flags := filter_flags d; cmd_seq := cmd_seq d;
     running := running d; eeprom_valid := eeprom_valid d; rssi_offset_2g := rssi_offset_2g d;
     eeprom := eeprom d; rx_urbs := rx_urbs d; cmd_urb := cmd_urb d; cmd_buf := cmd_buf d |}.
Definition set_monitor_count (d : t) (monitor_count' : Z) : t :=
  {| ap_vif := ap_vif d; beacon_int := beacon_int d; beacon_enabled := beacon_enabled d;
     mac_addr := mac_addr d; current_channel := current_channel d; current_bw := current_bw d;
     monitor_count := monitor_count'; filter_flags := filter_flags d; cmd_seq := cmd_seq d;
     running := running d; eeprom_valid := eeprom_valid d; rssi_offset_2g := rssi_offset_2g d;
     eeprom := eeprom d; rx_urbs := rx_urbs d; cmd_urb := cmd_urb d; cmd_buf := cmd_buf d |}.
Definition set_filter_flags (d : t) (filter_flags' : Z) : t :=
  {| ap_vif := ap_vif d; beacon_int := beacon_int d; beacon_enabled := beacon_enabled d;
     mac_addr := mac_addr d; current_channel := current_channel d; current_bw := current_bw d;
     monitor_count := monitor_count d; filter_flags := filter_flags'; cmd_seq := cmd_seq d;
     running := running d; eeprom_valid := eeprom_valid d; rssi_offset_2g := rssi_offset_2g d;
     eeprom := eeprom d; rx_urbs := rx_urbs d; cmd_urb := cmd_urb d; cmd_buf := cmd_buf d |}.

(** The zeroed structure with what [mt7603_register_mac80211] stores in it. *)
Definition registered (mac_addr' : list Z) (eeprom_valid' : bool) (rssi_offset_2g' : Z)
    (eeprom' : list Z) : t := {|
  ap_vif := None; beacon_int := 0; beacon_enabled := false; mac_addr := mac_addr';
  current_channel := 0; current_bw := 0; monitor_count := 0; filter_flags := 0; cmd_seq := 0;
  running := false; eeprom_valid := eeprom_valid'; rssi_offset_2g := rssi_offset_2g';
  eeprom := eeprom'; rx_urbs := replicate MT7603_NUM_RX_URBS (RxUrb false false);
  cmd_urb := false; cmd_buf := false |}.

(** A device without an eFuse image: the fallback address, an erased EEPROM. *)
Definition initial : t :=
  registered [0x00; 0x0C; 0x43; 0x76; 0x03; 0x01] false 0 (replicate MT7603_EEPROM_SIZE 0xff).
End Dev.

(** What the driver reads of mac80211's interface: the type, the address, and
    the channel of the BSS it belongs to, when known. [vif_id] is the identity
    of the object. *)
Inductive iftype := STATION | AP | MONITOR | OTHER_IFTYPE.
#[export] Instance iftype_eq_dec : EqDecision iftype.
Proof. solve_decision. Defined.
Record vif := Vif { vif_id : nat; vif_type : iftype; vif_addr : list Z; vif_channel : option Z }.

(** [vif && vif->type == NL80211_IFTYPE_AP] *)
Definition is_ap (v : option vif) : bool :=
  match v with Some v => bool_decide (vif_type v = AP) | None => false end.

Definition is_zero_ether_addr (addr : list Z) : bool := bool_decide (Forall (λ b, b = 0) addr).
(** [sta && !is_zero_ether_addr(sta->addr)] *)
Definition has_addr (sta : option (list Z)) : bool :=
  match sta with Some addr => negb (is_zero_ether_addr addr) | None => false end.

(** The two words of an address register pair; the flags of the second differ. *)
Definition addr_lo (a : list Z) : Z :=
  Z.lor (Z.lor (Z.lor (nth 0 a 0) (shl32 (nth 1 a 0) 8)) (shl32 (nth 2 a 0) 16)) (shl32 (nth 3 a 0) 24).
Definition addr_hi (a : list Z) : Z := Z.lor (nth 4 a 0) (shl32 (nth 5 a 0) 8).

(** The channels and rates registered with mac80211: centre frequency and
    number, and the bit rate in units of 100 kbit/s. *)
Definition mt7603_channels_2ghz : list (Z * Z) :=
  [(2412, 1); (2417, 2); (2422, 3); (2427, 4); (2432, 5); (2437, 6); (2442, 7); (2447, 8);
   (2452, 9); (2457, 10); (2462, 11); (2467, 12); (2472, 13)].
Definition mt7603_rates_2ghz : list Z := [10; 20; 55; 110; 60; 90; 120; 180; 240; 360; 480; 540].
