(* ===== verification/Driver.v ===== *)
(** * Channel, start and stop (src/c/mac80211.c)

    mt7603_set_channel_ext and its callers, the receive rings, and the start
    and stop callbacks, with the device state they change.  A local array is
    the argument [stack] (commands) or [ops] (register sequences): it holds
    arbitrary values. *)

From S2P Require Import Prelude Rust Ffi Regmap Mac Mcu Eeprom Sta Entry Usb Cmd Download Plan Dev.
Local Open Scope Z_scope.
Local Open Scope rust_scope.

Definition DMA_TCFR1 : Z := 0x00021c84.
Definition CHAN_BUF : nat := 128.
Definition START_BUF : nat := MT7603_EEPROM_SIZE + 64.

(** What the driver reads of a [cfg80211_chan_def]: the number of the channel,
    [None] for a null pointer, whether it is 40 MHz wide, and the first centre
    frequency. *)
Record chan_def := ChanDef { cd_chan : option Z; cd_width_40 : bool; cd_center_freq1 : Z }.

(** [seq = dev->cmd_seq = (dev->cmd_seq % 15) + 1] *)
Definition next_seq (dev : Dev.t) : Z := Dev.cmd_seq dev `mod` 15 + 1.

Section driver.
Variable K : kernel.
Variable p : profile.

(** ** Channel *)

Definition clamp_channel (channel : Z) : Z :=
  if (channel <? 1) || (14 <? channel) then 1 else channel.

Definition mt7603_set_channel_ext (stack : list Z) (dev : Dev.t) (channel bw central_ch : Z)
    : io (Z * Dev.t) :=
  let channel := clamp_channel channel in
  let central_ch := if (central_ch <? 1) || (14 <? central_ch) then channel else central_ch in
  let bw := if 1 <? bw then 0 else bw in
  call_kernel WaitAnchorEmpty ;;
  let dev := Dev.set_cmd_seq dev (next_seq dev) in
  cmd_buf ← send_built K CHAN_BUF
    (mt7603_rust_build_chan_switch_cmd p channel central_ch bw 2 2 (Dev.cmd_seq dev)) stack;
  _ ← mt7603_usb_write_reg K p RMAC_CHFREQ 1;
  let dev := Dev.set_cmd_seq dev (next_seq dev) in
  _ ← send_built K CHAN_BUF
    (mt7603_rust_build_tx_power_ctrl_cmd p (Some (Dev.eeprom dev)) MT7603_EEPROM_SIZE channel
       (Dev.cmd_seq dev)) cmd_buf;
  mret (0, Dev.set_channel dev channel bw).

Definition mt7603_set_channel (stack : list Z) (dev : Dev.t) (channel : Z) : io (Z * Dev.t) :=
  mt7603_set_channel_ext stack dev channel 0 channel.

Definition chandef_central (chandef : chan_def) : Z :=
  let ch := default 1 (cd_chan chandef) in
  if cd_width_40 chandef && (2412 <=? cd_center_freq1 chandef)
  then wrap 8 ((cd_center_freq1 chandef - 2407) `div` 5) else ch.

Definition mt7603_set_chandef (stack : list Z) (dev : Dev.t) (chandef : chan_def) : io (Z * Dev.t) :=
  mt7603_set_channel_ext stack dev (default 1 (cd_chan chandef))
    (if cd_width_40 chandef then 1 else 0) (chandef_central chandef).

(** [changed] is whether IEEE80211_CONF_CHANGE_CHANNEL is set. *)
Definition mt7603_mac80211_config (stack : list Z) (dev : Dev.t) (chandef : chan_def)
    (changed : bool) : io (Z * Dev.t) :=
  match cd_chan chandef with
  | Some ch =>
      if changed || negb (ch =? Dev.current_channel dev) then
        '(_, dev) ← mt7603_set_chandef stack dev chandef; mret (0, dev)
      else mret (0, dev)
  | None => mret (0, dev)
  end.

(** ** The receive rings *)

(** The loop over the receive URBs: the entries up to a failed allocation. *)
Fixpoint start_rx_urbs (urbs : list rx_urb) : io (Z * list rx_urb) :=
  match urbs with
  | [] => mret (0, [])
  | u :: urbs =>
      have_buf ← (if ru_buf u then mret true
                  else m ← kmalloc K MT7603_RX_BUF_SIZE; mret (bool_decide (is_Some m)));
      if negb have_buf then mret (ENOMEM, u :: urbs) else
      have_urb ← (if ru_urb u then mret true else usb_alloc_urb K);
      if negb have_urb then mret (ENOMEM, RxUrb false true :: urbs) else
      _ ← usb_submit_urb K MT7603_DATA_BULK_IN MT7603_RX_BUF_SIZE;
      '(ret, urbs) ← start_rx_urbs urbs;
      mret (ret, RxUrb true true :: urbs)
  end.

Definition mt7603_start_rx (dev : Dev.t) : io (Z * Dev.t) :=
  call_kernel (ClearHalt MT7603_DATA_BULK_IN) ;;
  call_kernel (ClearHalt MT7603_CMD_RSP_BULK_IN) ;;
  '(ret, urbs) ← start_rx_urbs (Dev.rx_urbs dev);
  let dev := Dev.set_rx_urbs dev urbs in
  if ret <? 0 then mret (ret, dev) else
  cmd_buf ← (if Dev.cmd_buf dev then mret true
             else m ← kmalloc K 512; mret (bool_decide (is_Some m)));
  cmd_urb ← (if cmd_buf && negb (Dev.cmd_urb dev) then
               ok ← usb_alloc_urb K;
               (if ok : bool then _ ← usb_submit_urb K MT7603_CMD_RSP_BULK_IN 512; mret tt else mret tt) ;;
               mret ok
             else mret (Dev.cmd_urb dev));
  mret (0, Dev.set_cmd_ring dev cmd_urb cmd_buf).

Fixpoint stop_rx_urbs (urbs : list rx_urb) : io (list rx_urb) :=
  match urbs with
  | [] => mret []
  | u :: urbs =>
      (if ru_urb u then usb_kill_urb MT7603_DATA_BULK_IN ;; usb_free_urb else mret tt) ;;
      (if ru_buf u then kfree else mret tt) ;;
      urbs ← stop_rx_urbs urbs;
      mret (RxUrb false false :: urbs)
  end.

Definition mt7603_stop_rx (dev : Dev.t) : io Dev.t :=
  (if Dev.cmd_urb dev then usb_kill_urb MT7603_CMD_RSP_BULK_IN ;; usb_free_urb else mret tt) ;;
  (if Dev.cmd_buf dev then kfree else mret tt) ;;
  urbs ← stop_rx_urbs (Dev.rx_urbs dev);
  mret (Dev.set_cmd_ring (Dev.set_rx_urbs dev urbs) false false).

(** ** Start and stop *)

Definition bcast_addr : list Z := replicate 6 0xff.

(** From the allocated command buffer on, which is zeroed. *)
Definition start_configure (stack : list Z) (ops : list RegWriteOp) (dev : Dev.t) : io (Z * Dev.t) :=
  let seq := Dev.cmd_seq dev in
  let cmd_buf := replicate START_BUF 0 in
  '(cmd_buf, dev) ← (if Dev.eeprom_valid dev then
      cmd_buf ← send_built K START_BUF
        (mt7603_rust_build_efuse_buffer_mode_cmd p (Some (Dev.eeprom dev)) MT7603_EEPROM_SIZE seq) cmd_buf;
      mret (cmd_buf, Dev.set_cmd_seq dev (next_seq dev))
    else mret (cmd_buf, dev));
  ops ← run_sequence K p 128 mt7603_rust_get_mac_init_sequence ops;
  ops ← run_sequence K p 128 (mt7603_rust_build_own_mac_sequence (Some (Dev.mac_addr dev))) ops;
  _ ← run_sequence K p 128 (mt7603_rust_build_wtbl_sta_sequence (Some bcast_addr)) ops;
  cmd_buf ← send_built K START_BUF
    (mt7603_rust_build_radio_on_off_cmd p true (Dev.cmd_seq dev)) cmd_buf;
  let dev := Dev.set_cmd_seq dev (next_seq dev) in
  _ ← send_built K START_BUF (mt7603_rust_build_edca_set_cmd p (Dev.cmd_seq dev)) cmd_buf;
  _ ← mt7603_usb_write_reg K p DMA_TCFR1 (Z.lor (1 ≪ 8) (1 ≪ 16));
  kfree ;;
  '(_, dev) ← mt7603_set_channel stack dev 1;
  mret (0, dev).

Definition mt7603_mac80211_start (stack : list Z) (ops : list RegWriteOp) (dev : Dev.t)
    : io (Z * Dev.t) :=
  let dev := Dev.set_running (Dev.set_cmd_seq dev (next_seq dev)) true in
  _ ← mt7603_usb_enable_udma K true;
  '(_, dev) ← mt7603_start_rx dev;
  m ← kmalloc K START_BUF;
  match m with
  | None => mret (ENOMEM, dev)
  | Some _ => start_configure stack ops dev
  end.

Definition mt7603_mac80211_stop (dev : Dev.t) : io Dev.t :=
  let dev := Dev.set_beacon_enabled (Dev.set_running dev false) false in
  call_kernel CancelBeaconWork ;;
  dev ← mt7603_stop_rx dev;
  call_kernel KillAnchored ;;
  mret dev.
End driver.

(** ** What the callbacks do *)

(** The commands and registers of a channel switch. *)
Definition channel_plan (dev : Dev.t) (channel bw central_ch : Z) : plan :=
  let s1 := next_seq dev in
  let s2 := s1 `mod` 15 + 1 in
  [cmd_wire (ChannelSwitch channel central_ch bw 2 2 s1); hif_write RMAC_CHFREQ 1;
   cmd_wire (TxPowerCtrl (Dev.eeprom dev) channel s2)].

Definition channel_done (dev : Dev.t) (channel bw : Z) : Dev.t :=
  Dev.set_channel (Dev.set_cmd_seq dev (next_seq dev `mod` 15 + 1)) channel bw.

Lemma seq_range dev : 0 ≤ Dev.cmd_seq dev → 1 ≤ next_seq dev ≤ 15.
Proof. intros. unfold next_seq. pose proof (Z.mod_pos_bound (Dev.cmd_seq dev) 15). lia. Qed.

Lemma seq_step_u8 n : 0 ≤ n → is_u8 (n `mod` 15 + 1).
Proof. intros. pose proof (Z.mod_pos_bound n 15). unfold is_uint. lia. Qed.

Lemma cmd_seq_wf dev s : is_u8 s → Dev.wf dev → Dev.wf (Dev.set_cmd_seq dev s).
Proof. unfold Dev.wf. naive_solver. Qed.

Lemma wf_seq_nonneg dev : Dev.wf dev → 0 ≤ Dev.cmd_seq dev.
Proof. unfold Dev.wf, is_uint. naive_solver lia. Qed.

(** *** The memory and the URBs the rings hold *)

Definition count (f : rx_urb → bool) (urbs : list rx_urb) : Z :=
  foldr (λ u n, Z.b2z (f u) + n) 0 urbs.
Lemma count_cons f u urbs : count f (u :: urbs) = Z.b2z (f u) + count f urbs.
Proof. done. Qed.
Definition ring_mem (d : Dev.t) : Z := count ru_buf (Dev.rx_urbs d) + Z.b2z (Dev.cmd_buf d).
Definition ring_urbs (d : Dev.t) : Z := count ru_urb (Dev.rx_urbs d) + Z.b2z (Dev.cmd_urb d).

(** No transfer; the rings grow by what was taken. *)
Definition grows (m u : Z) (e : effect) : Prop := wires e = [] ∧ mem e = m ∧ urbs e = u.

Lemma grows_app m1 u1 m2 u2 e1 e2 :
  grows m1 u1 e1 → grows m2 u2 e2 → grows (m1 + m2) (u1 + u2) (e1 ⊕ e2).
Proof. intros (W1 & <- & <-) (W2 & <- & <-). unfold grows. simpl. by rewrite W1, W2. Qed.
Lemma grows_eq m u m' u' e : grows m u e → m = m' → u = u' → grows m' u' e.
Proof. by intros ? <- <-. Qed.

Lemma grows_performs K m u e : grows m u e → performs K [] m u e.
Proof. intros (Hw & ? & ?). split; rewrite ?Hw; by try constructor. Qed.

(** Every buffer and URB in place. *)
Definition rings_full (d : Dev.t) : Prop := Forall (λ u, u = RxUrb true true) (Dev.rx_urbs d).
Definition rings_empty (d : Dev.t) : Prop :=
  Forall (λ u, u = RxUrb false false) (Dev.rx_urbs d) ∧ Dev.cmd_urb d = false ∧ Dev.cmd_buf d = false.

Section rings_spec.
Context (K : kernel).

Lemma alloc_buf_emits (have : bool) n :
  emits (if have then mret true else m ← kmalloc K n; mret (bool_decide (is_Some m)))
    (λ b e, grows (Z.b2z b - Z.b2z have) 0 e ∧ (have = true → b = true) ∧ (reliable K → b = true)).
Proof.
  destruct have; [by io_ret|]. eapply emits_bind.
  { apply emits_and; [apply kmalloc_emits|].
    instantiate (1 := λ m _, reliable K → is_Some m). intros tr.
    exists (k_kmalloc K tr n). eexists. split; [done|]. intros HK. by apply rel_kmalloc. }
  cbn beta. intros m e [[[-> ->]|(c & -> & _ & ->)] Hr]; io_ret; split_and!; try done.
  intros HK. by destruct (Hr HK).
Qed.

Lemma alloc_urb_ring_emits (have : bool) :
  emits (if have then mret true else usb_alloc_urb K)
    (λ b e, grows 0 (Z.b2z b - Z.b2z have) e ∧ (have = true → b = true) ∧ (reliable K → b = true)).
Proof.
  destruct have; [by io_ret|]. eapply emits_weaken.
  { apply emits_and; [apply alloc_urb_emits|]. instantiate (1 := λ b _, reliable K → b = true).
    intros tr. exists (k_alloc_urb K tr). eexists. split; [done|]. intros HK. by apply rel_alloc_urb. }
  cbn beta. intros b e [-> Hr]. split_and!; try done. by destruct b.
Qed.

Lemma submit_grows ep n : emits (usb_submit_urb K ep n) (λ _ e, grows 0 0 e).
Proof. eapply emits_weaken; [apply submit_urb_emits|]. by intros r e ->. Qed.

(** Sequencing of what the rings take. *)
Lemma grows_bind {A B} (x : io A) (f : A → io B) (m u : A → Z) (P : A → Prop) (Q : B → effect → Prop) :
  emits x (λ a e, grows (m a) (u a) e ∧ P a) →
  (∀ a, P a → emits (f a) (λ b e, ∀ e0, grows (m a) (u a) e0 → Q b (e0 ⊕ e))) →
  emits (x ≫= f) Q.
Proof.
  intros Hx Hf. eapply emits_bind; [done|]. cbn beta. intros a e [Hg HP] tr.
  destruct (Hf a HP tr) as (b & new & Hb & HQ). exists b, new. auto.
Qed.

Lemma start_rx_urbs_emits urbs :
  emits (start_rx_urbs K urbs) (λ r e,
    grows (count ru_buf r.2 - count ru_buf urbs) (count ru_urb r.2 - count ru_urb urbs) e ∧
    length r.2 = length urbs ∧
    (r.1 = 0 ∧ Forall (λ u, u = RxUrb true true) r.2 ∨ r.1 = ENOMEM) ∧ (reliable K → r.1 = 0)).
Proof.
  induction urbs as [|u urbs IH]; cbn [start_rx_urbs].
  { io_ret. split_and!; try done. left. by split. }
  eapply emits_bind; [apply alloc_buf_emits|]. cbn beta. intros have e1 (Hg1 & Hh1 & Hr1).
  destruct have; cbn [negb].
  2: { apply emits_ret. rewrite eff_quiet_r. cbn [fst snd].
    assert (ru_buf u = false) as Hb by (destruct (ru_buf u); naive_solver).
    rewrite Hb in Hg1. split; [eapply grows_eq; [done|lia..]|].
    split_and!; [done|by right|]. intros HK. by specialize (Hr1 HK). }
  eapply emits_bind; [apply alloc_urb_ring_emits|]. cbn beta. intros have e2 (Hg2 & Hh2 & Hr2).
  destruct have; cbn [negb].
  2: { apply emits_ret. rewrite eff_quiet_r. cbn [fst snd].
    assert (ru_urb u = false) as Hb by (destruct (ru_urb u); naive_solver).
    split; [eapply grows_eq; [by apply grows_app|rewrite !count_cons, ?Hb; cbn [ru_buf ru_urb Z.b2z]; lia..]|].
    split_and!; [done|by right|]. intros HK. by specialize (Hr2 HK). }
  eapply emits_bind; [apply submit_grows|]. cbn beta. intros _ e3 Hg3.
  eapply emits_bind; [apply IH|]. cbn beta. intros [ret urbs'] e4 (Hg4 & Hl & Hret & Hr4).
  apply emits_ret. rewrite eff_quiet_r. cbn [fst snd] in *.
  split; [eapply grows_eq; [apply grows_app; [done|apply grows_app; [done|by apply grows_app]]|
    rewrite !count_cons; cbn [ru_buf ru_urb Z.b2z]; lia..]|].
  split_and!; [simpl; lia| |done]. destruct Hret as [[? ?]|?]; [left|by right].
  split; [done|by constructor].
Qed.

Lemma start_rx_emits dev :
  length (Dev.rx_urbs dev) = MT7603_NUM_RX_URBS →
  emits (mt7603_start_rx K dev) (λ r e,
    grows (ring_mem r.2 - ring_mem dev) (ring_urbs r.2 - ring_urbs dev) e ∧
    (∃ urbs cu cb, r.2 = Dev.set_cmd_ring (Dev.set_rx_urbs dev urbs) cu cb ∧
       length urbs = MT7603_NUM_RX_URBS ∧ (r.1 = 0 → Forall (λ u, u = RxUrb true true) urbs)) ∧
    (r.1 = 0 ∨ r.1 = ENOMEM) ∧ (reliable K → r.1 = 0)).
Proof.
  intros Hlen. unfold mt7603_start_rx.
  do 2 apply emits_bind_kernel.
  eapply emits_bind; [apply start_rx_urbs_emits|]. cbn beta.
  intros [ret urbs] e (Hg & Hl & Hret & Hr); cbn [fst snd] in *.
  destruct (Z.ltb_spec ret 0).
  { apply emits_ret. rewrite eff_quiet_r. cbn [fst snd]. split.
    - unfold ring_mem, ring_urbs.
      cbn [Dev.rx_urbs Dev.cmd_buf Dev.cmd_urb Dev.set_rx_urbs]. eapply grows_eq; [done|lia..].
    - split; [|split; [destruct Hret; [lia|by right]|done]].
      exists urbs, (Dev.cmd_urb dev), (Dev.cmd_buf dev). split_and!; [done|lia|lia]. }
  assert (ret = 0) as -> by (destruct Hret as [[? _]|Hret]; [done|unfold ENOMEM in Hret; lia]).
  destruct Hret as [[_ Hfull]|Hret]; [|done].
  eapply emits_bind; [apply alloc_buf_emits|]. cbn beta. intros cb e1 (Hg1 & Hh1 & _).
  cbn [Dev.cmd_buf Dev.set_rx_urbs Dev.cmd_urb] in *.
  eapply emits_bind with (P := λ cu e, grows 0 (Z.b2z cu - Z.b2z (Dev.cmd_urb dev)) e).
  { destruct cb; cbn [andb]; [|io_ret; split_and!; cbn; lia || done].
    destruct (Dev.cmd_urb dev); cbn [negb]; [io_ret; split_and!; cbn; lia || done|].
    eapply emits_bind; [apply (alloc_urb_ring_emits false)|]. cbn beta. intros ok e2 (Hg2 & _).
    eapply emits_bind with (P := λ _ e, grows 0 0 e).
    { destruct ok; [|by io_ret]. eapply emits_bind; [apply submit_grows|]. cbn beta.
      intros _ e3 Hg3. io_ret. done. }
    cbn beta. intros _ e3 Hg3. io_ret. eapply grows_eq; [by apply grows_app|cbn; lia..]. }
  cbn beta. intros cu e2 Hg2. io_ret. cbn [fst snd]. split.
  - unfold ring_mem, ring_urbs.
    cbn [Dev.rx_urbs Dev.cmd_buf Dev.cmd_urb Dev.set_rx_urbs Dev.set_cmd_ring].
    eapply grows_eq; [apply grows_app; [done|by apply grows_app]|lia..].
  - split; [|by split; [left|]]. exists urbs, cu, cb. split_and!; [done|lia|done].
Qed.

Lemma kill_urb_grows ep : emits (usb_kill_urb ep) (λ _ e, grows 0 0 e).
Proof. eapply emits_weaken; [apply kill_urb_emits|]. by intros _ e ->. Qed.
Lemma free_urb_grows : emits usb_free_urb (λ _ e, grows 0 (-1) e).
Proof. eapply emits_weaken; [apply free_urb_emits|]. by intros _ e ->. Qed.
Lemma kfree_grows : emits kfree (λ _ e, grows (-1) 0 e).
Proof. eapply emits_weaken; [apply kfree_emits|]. by intros _ e ->. Qed.

Lemma drop_urb_emits (have : bool) ep :
  emits (if have then usb_kill_urb ep ;; usb_free_urb else mret tt) (λ _ e, grows 0 (- Z.b2z have) e).
Proof.
  destruct have; [|by io_ret]. eapply emits_bind; [apply kill_urb_grows|]. cbn beta. intros _ e1 Hg1.
  eapply emits_weaken; [apply free_urb_grows|]. cbn beta. intros _ e2 Hg2.
  eapply grows_eq; [by apply grows_app|done..].
Qed.
Lemma drop_buf_emits (have : bool) :
  emits (if have then kfree else mret tt) (λ _ e, grows (- Z.b2z have) 0 e).
Proof. destruct have; [apply kfree_grows|by io_ret]. Qed.

Lemma stop_rx_urbs_emits urbs :
  emits (stop_rx_urbs urbs) (λ r e,
    grows (- count ru_buf urbs) (- count ru_urb urbs) e ∧ length r = length urbs ∧
    Forall (λ u, u = RxUrb false false) r).
Proof.
  induction urbs as [|u urbs IH]; cbn [stop_rx_urbs]; [by io_ret|].
  eapply emits_bind; [apply drop_urb_emits|]. cbn beta. intros _ e1 Hg1.
  eapply emits_bind; [apply drop_buf_emits|]. cbn beta. intros _ e2 Hg2.
  eapply emits_bind; [apply IH|]. cbn beta. intros r e3 (Hg3 & Hl & HF).
  apply emits_ret. rewrite eff_quiet_r. split; [|split; [simpl; lia|by constructor]].
  eapply grows_eq; [apply grows_app; [done|by apply grows_app]|rewrite count_cons; lia..].
Qed.

Lemma stop_rx_emits dev :
  emits (mt7603_stop_rx dev) (λ d' e,
    grows (- ring_mem dev) (- ring_urbs dev) e ∧
    ∃ urbs, d' = Dev.set_cmd_ring (Dev.set_rx_urbs dev urbs) false false ∧
      length urbs = length (Dev.rx_urbs dev) ∧ Forall (λ u, u = RxUrb false false) urbs).
Proof.
  unfold mt7603_stop_rx. eapply emits_bind; [apply drop_urb_emits|]. cbn beta. intros _ e1 Hg1.
  eapply emits_bind; [apply drop_buf_emits|]. cbn beta. intros _ e2 Hg2.
  eapply emits_bind; [apply stop_rx_urbs_emits|]. cbn beta. intros urbs e3 (Hg3 & Hl & HF).
  apply emits_ret. rewrite eff_quiet_r. split; [|by exists urbs].
  unfold ring_mem, ring_urbs.
  eapply grows_eq; [apply grows_app; [done|by apply grows_app]|lia..].
Qed.
End rings_spec.

(** The start sequence after the bulk paths are enabled: calibration, MAC,
    address, broadcast entry, radio, queues, status reports, channel 1. *)
Definition start_plan (dev : Dev.t) : plan :=
  let s1 := next_seq dev in
  let s2 := if Dev.eeprom_valid dev then s1 `mod` 15 + 1 else s1 in
  let s3 := s2 `mod` 15 + 1 in
  (if Dev.eeprom_valid dev then [cmd_wire (EfuseBufferMode (Dev.eeprom dev) s1)] else []) ++
  seq_plan static_seq ++ seq_plan (own_mac_ops (Dev.mac_addr dev)) ++
  seq_plan (wtbl_sta_ops bcast_addr) ++
  [cmd_wire (RadioOnOff true s2); cmd_wire (EdcaSet s3); hif_write DMA_TCFR1 0x10100] ++
  channel_plan (Dev.set_cmd_seq dev s3) 1 0 1.

Section driver_spec.
Context (K : kernel) (p : profile).

Lemma channel_command_ok ch c bw t r s : command_ok (ChannelSwitch ch c bw t r s).
Proof. done. Qed.

Lemma set_channel_emits stack dev channel bw central_ch :
  length stack = CHAN_BUF → Dev.wf dev →
  let ch := clamp_channel channel in
  let central := if (central_ch <? 1) || (14 <? central_ch) then ch else central_ch in
  let bw' := if 1 <? bw then 0 else bw in
  emits (mt7603_set_channel_ext K p stack dev channel bw central_ch) (λ r e,
    r = (0, channel_done dev ch bw') ∧ performs K (channel_plan dev ch bw' central) 0 0 e).
Proof.
  intros Hst Hdev ch central bw'. unfold mt7603_set_channel_ext. fold ch central bw'.
  assert (length (Dev.eeprom dev) = MT7603_EEPROM_SIZE ∧ Forall is_u8 (Dev.eeprom dev)) as [Hel Heu]
    by (unfold Dev.wf in Hdev; tauto).
  unfold channel_plan. cbv zeta.
  change [?x; ?y; ?z] with ([] ++ [x] ++ [y] ++ [z] ++ ([] : plan)).
  eapply plan_seq; [apply call_kernel_plan|]. intros _ _.
  eapply plan_seq.
  { apply (send_built_emits K p _ _ (ChannelSwitch ch central bw' 2 2 (next_seq dev)));
      [done|apply Nat.leb_le; by vm_compute|apply Nat.ltb_lt; by vm_compute|done|done]. }
  cbn beta. intros cmd Hl. eapply plan_seq; [apply write_plan; vm_decide|]. intros _ _.
  eapply plan_seq; [|intros; by apply plan_ret].
  apply (send_built_emits K p _ _ (TxPowerCtrl (Dev.eeprom dev) ch (next_seq dev `mod` 15 + 1)));
    [by split|apply Nat.leb_le; by vm_compute|apply Nat.ltb_lt; by vm_compute|done|].
  cbn [command_entry]. by rewrite Hel.
Qed.

Lemma own_mac_addrs mac : Forall (λ op, is_u32 (addr op)) (own_mac_ops mac).
Proof. repeat constructor; vm_decide. Qed.
Lemma wtbl_sta_addrs bssid : Forall (λ op, is_u32 (addr op)) (wtbl_sta_ops bssid).
Proof. repeat constructor; vm_decide. Qed.
Lemma static_addrs : Forall (λ op, is_u32 (addr op)) static_seq.
Proof. vm_decide. Qed.

(** The device after a start. *)
Definition started (dev : Dev.t) : Dev.t :=
  let s2 := if Dev.eeprom_valid dev then next_seq dev `mod` 15 + 1 else next_seq dev in
  channel_done (Dev.set_cmd_seq dev (s2 `mod` 15 + 1)) 1 0.

Lemma calibration_emits dev :
  Dev.wf dev →
  emits (if Dev.eeprom_valid dev then
      cmd_buf ← send_built K START_BUF
        (mt7603_rust_build_efuse_buffer_mode_cmd p (Some (Dev.eeprom dev)) MT7603_EEPROM_SIZE
           (Dev.cmd_seq dev)) (replicate START_BUF 0);
      mret (cmd_buf, Dev.set_cmd_seq dev (next_seq dev))
    else mret (replicate START_BUF 0, dev)) (λ r e,
    (length r.1 = START_BUF ∧
     r.2 = if Dev.eeprom_valid dev then Dev.set_cmd_seq dev (next_seq dev) else dev) ∧
    performs K (if Dev.eeprom_valid dev then [cmd_wire (EfuseBufferMode (Dev.eeprom dev) (Dev.cmd_seq dev))]
                else []) 0 0 e).
Proof.
  intros Hdev. assert (length (Dev.eeprom dev) = MT7603_EEPROM_SIZE) as Hel by (unfold Dev.wf in Hdev; tauto).
  destruct (Dev.eeprom_valid dev); [|apply emits_ret; split; [by split; [apply length_replicate|]|apply performs_quiet]].
  change [?x] with ([x] ++ ([] : plan)).
  eapply (plan_seq K) with (P := λ cmd, length cmd = START_BUF);
    [|intros cmd Hl; apply emits_ret; split; [by split|apply performs_quiet]].
  apply (send_built_emits K p _ _ (EfuseBufferMode (Dev.eeprom dev) (Dev.cmd_seq dev)));
    [done|apply Nat.leb_le; by vm_compute|apply Nat.ltb_lt; by vm_compute|apply length_replicate|].
  cbn [command_entry]. by rewrite Hel.
Qed.

(** [dev] is the device after the first sequence number was taken. *)
Lemma start_configure_emits stack ops dev :
  length stack = CHAN_BUF → length ops = 128%nat → Dev.wf dev →
  let s1 := Dev.cmd_seq dev in
  let s2 := if Dev.eeprom_valid dev then s1 `mod` 15 + 1 else s1 in
  let s3 := s2 `mod` 15 + 1 in
  emits (start_configure K p stack ops dev) (λ r e,
    r = (0, channel_done (Dev.set_cmd_seq dev s3) 1 0) ∧
    performs K ((if Dev.eeprom_valid dev then [cmd_wire (EfuseBufferMode (Dev.eeprom dev) s1)] else []) ++
      seq_plan static_seq ++ seq_plan (own_mac_ops (Dev.mac_addr dev)) ++
      seq_plan (wtbl_sta_ops bcast_addr) ++
      [cmd_wire (RadioOnOff true s2)] ++ [cmd_wire (EdcaSet s3)] ++ [hif_write DMA_TCFR1 0x10100] ++
      channel_plan (Dev.set_cmd_seq dev s3) 1 0 1) (-1) 0 e).
Proof.
  intros Hst Hops Hdev s1 s2 s3. unfold start_configure.
  assert (length (Dev.mac_addr dev) = 6%nat) as Hml by (unfold Dev.wf in Hdev; tauto).
  eapply plan_seq; [by apply calibration_emits|]. cbn beta. intros [cmd dev2] [Hl Hd2]; cbn [fst snd] in *.
  assert (Dev.cmd_seq dev2 = s2) as Hs2 by (rewrite Hd2; unfold s2; by destruct (Dev.eeprom_valid dev)).
  assert (0 ≤ s1) as H1 by by apply wf_seq_nonneg.
  assert (is_u8 s3) as Hs3 by (apply seq_step_u8; unfold s2; destruct (Dev.eeprom_valid dev);
    pose proof (Z.mod_pos_bound s1 15); lia).
  assert (Dev.set_cmd_seq dev2 s3 = Dev.set_cmd_seq dev s3) as Hd3
    by (rewrite Hd2; by destruct (Dev.eeprom_valid dev)).
  assert (Dev.mac_addr dev2 = Dev.mac_addr dev) as Hm2 by (rewrite Hd2; by destruct (Dev.eeprom_valid dev)).
  eapply plan_seq.
  { apply (run_sequence_emits K p _ _ MacInit); try done; [lia|apply Nat.leb_le; by vm_compute|apply static_addrs]. }
  cbn beta. intros ops1 Hl1. rewrite Hm2. eapply plan_seq.
  { apply (run_sequence_emits K p _ _ (OwnMac (Dev.mac_addr dev))); try done; [lia| |apply own_mac_addrs].
    apply Nat.leb_le; by vm_compute. }
  cbn beta. intros ops2 Hl2. eapply plan_seq.
  { apply (run_sequence_emits K p _ _ (WtblSta bcast_addr)); try done; [lia| |apply wtbl_sta_addrs].
    apply Nat.leb_le; by vm_compute. }
  cbn beta. intros ops3 _. rewrite Hs2. eapply plan_seq.
  { apply (send_built_emits K p _ _ (RadioOnOff true s2));
      [done|apply Nat.leb_le; by vm_compute|apply Nat.ltb_lt; by vm_compute|done|done]. }
  cbn beta. intros cmd3 Hl3. unfold next_seq. rewrite Hs2. fold s3. eapply plan_seq.
  { apply (send_built_emits K p _ _ (EdcaSet s3));
      [done|apply Nat.leb_le; by vm_compute|apply Nat.ltb_lt; by vm_compute|done|done]. }
  cbn beta. intros cmd4 Hl4. eapply plan_seq; [apply write_plan; vm_decide|]. cbn beta. intros ? _.
  apply (plan_free K _ _ 0 0). rewrite Hd3, <-(app_nil_r (channel_plan _ _ _ _)).
  eapply plan_seq; [apply (set_channel_emits stack _ 1 0 1 Hst); by apply cmd_seq_wf|].
  cbn beta. intros [ret dev3] [= -> ->]. by apply plan_ret.
Qed.

(** *** The bulk paths *)

Definition udma_plan (w : Z) : plan := [λ ok, udma_wire ok w].

(** The word written enables aggregation and both bulk paths. *)
Definition udma_enabled (w : Z) : Prop := bits 21 1 w = 1 ∧ bits 22 2 w = 3.

Lemma udma_performs :
  emits (mt7603_usb_enable_udma K true) (λ ret e, ∃ w, udma_enabled w ∧ performs K (udma_plan w) 0 0 e).
Proof.
  unfold mt7603_usb_enable_udma.
  assert (∀ v, udma_enabled (udma_config true v)) as Hen
    by (intros v; destruct (udma_config_fields true v) as (_&_&_&_&_&?&?&_); by split).
  eapply emits_bind; [apply emits_and; [apply cfg_read_emits|apply cfg_read_reliable]|].
  cbn beta. intros [ret v] e [[-> _] Hr]. cbn [fst snd] in Hr.
  destruct (Z.ltb_spec ret 0).
  { io_ret. exists (udma_config true v). split; [done|]. split; [apply attempts_none|done..|].
    intros HK. specialize (Hr HK). lia. }
  eapply emits_bind; [apply emits_and; [apply cfg_write_emits|apply cfg_write_reliable]|].
  cbn beta. intros ret' e [Hi Hr']. pose proof (issued_performs K _ _ _ Hi Hr') as Hp.
  destruct (Z.ltb_spec ret' 0).
  { io_ret. rewrite eff_quiet_l. by exists (udma_config true v). }
  io_bind cfg_read_emits. intros _ e' [-> _]. io_ret. rewrite eff_quiet_l. by exists (udma_config true v).
Qed.

Lemma start_emits stack ops dev :
  length stack = CHAN_BUF → length ops = 128%nat → Dev.wf dev →
  emits (mt7603_mac80211_start K p stack ops dev) (λ r e,
    (∃ urbs cu cb done, r.2 = Dev.set_running (Dev.set_cmd_ring (Dev.set_rx_urbs done urbs) cu cb) true ∧
       length urbs = MT7603_NUM_RX_URBS ∧
       (done = started dev ∧ r.1 = 0 ∨ done = Dev.set_cmd_seq dev (next_seq dev) ∧ r.1 = ENOMEM)) ∧
    (∃ w, udma_enabled w ∧
       attempts (udma_plan w ++ if decide (r.1 = 0) then start_plan dev else []) (wires e) ∧
       (reliable K → r.1 = 0 ∧ rings_full r.2 ∧ wires e = carried_out (udma_plan w ++ start_plan dev))) ∧
    mem e = ring_mem r.2 - ring_mem dev ∧ urbs e = ring_urbs r.2 - ring_urbs dev).
Proof.
  intros Hst Hops Hdev. unfold mt7603_mac80211_start.
  pose proof (seq_step_u8 _ (wf_seq_nonneg _ Hdev)) as Hs.
  eapply emits_bind; [apply udma_performs|]. cbn beta. intros _ e1 (w & Hw & Hp1).
  eapply emits_bind; [apply start_rx_emits; apply Hdev|]. cbn beta.
  intros [ret0 dev1] e2 (Hg2 & (urbs & cu & cb & Hd1 & Hl & Hfull) & _ & Hr2); cbn [fst snd] in *.
  assert (ring_mem dev1 - ring_mem dev = mem e2 ∧ ring_urbs dev1 - ring_urbs dev = Usb.urbs e2) as [Hm Hu]
    by (destruct Hg2 as (_ & -> & ->); done).
  assert (wires e2 = []) as He2 by apply Hg2.
  eapply emits_bind.
  { apply emits_and; [apply kmalloc_emits|]. instantiate (1 := λ m _, reliable K → is_Some m). intros tr.
    eexists _, [_]. split; [done|]. intros HK. by apply rel_kmalloc. }
  cbn beta. intros m e3 [Hk Hrk]. destruct Hp1 as [Ha1 Hm1 Hu1 Hrel1].
  destruct Hk as [[-> ->]|(c & -> & _ & ->)].
  { apply emits_ret. rewrite !eff_quiet_r. cbn [fst snd wires mem Usb.urbs eff_app].
    rewrite Hm1, Hu1, He2, app_nil_r. split; [|split].
    - exists urbs, cu, cb, (Dev.set_cmd_seq dev (next_seq dev)). split; [by rewrite Hd1|]. split; [done|].
      right. done.
    - exists w. split; [done|]. split; [by rewrite app_nil_r|]. intros HK. by destruct (Hrk HK).
    - lia. }
  assert (Dev.wf dev1) as Hdev1.
  { apply (cmd_seq_wf _ _ Hs) in Hdev. rewrite Hd1. unfold Dev.wf in *. cbn in *. tauto. }
  eapply emits_weaken; [by apply (start_configure_emits stack ops dev1)|].
  cbn beta. intros [ret dev2] e4 [[= -> ->] Hp4]. cbn [fst snd] in *.
  assert (Dev.set_running dev1 true = dev1) as Hrun by by rewrite Hd1.
  match type of Hp4 with performs _ ?q _ _ _ => assert (q = start_plan dev) as Hplan by by rewrite Hd1 end.
  rewrite Hplan in Hp4. destruct Hp4 as [Ha4 Hm4 Hu4 Hrel4].
  cbn [wires mem Usb.urbs eff_app]. rewrite Hm1, Hu1, He2, Hm4, Hu4. cbn [app]. split; [|split].
  - exists urbs, cu, cb, (started dev). split; [by rewrite Hd1|]. split; [done|]. by left.
  - exists w. split; [done|]. split; [by apply attempts_app|]. intros HK. split_and!; [done| |].
    + rewrite Hd1. by apply Hfull, Hr2.
    + by rewrite Hrel1, Hrel4, carried_out_app.
  - rewrite Hd1 in Hm, Hu |- *. unfold ring_mem, ring_urbs in *. cbn in *. lia.
Qed.
End driver_spec.

(** ** Properties *)

Lemma clamp_channel_spec ch : clamp_channel ch = if decide (1 ≤ ch ≤ 14) then ch else 1.
Proof. unfold clamp_channel. case_decide; destruct (Z.ltb_spec ch 1), (Z.ltb_spec 14 ch); simpl; lia. Qed.

Definition central_channel (cd : chan_def) (ch : Z) : Z :=
  let c := chandef_central cd in if (c <? 1) || (14 <? c) then ch else c.

(** The channel the firmware is told to centre on: within the band, the
    channel itself at 20 MHz, the one the centre frequency names at 40 MHz. *)
Lemma central_channel_spec cd ch0 :
  cd_chan cd = Some ch0 →
  let ch := clamp_channel ch0 in
  let central := central_channel cd ch in
  1 ≤ central ≤ 14 ∧ (cd_width_40 cd = false → central = ch) ∧
  (∀ c, cd_width_40 cd = true → 1 ≤ c ≤ 14 →
     2407 + 5 * c ≤ cd_center_freq1 cd < 2412 + 5 * c → central = c).
Proof.
  intros Hch. cbv zeta. unfold central_channel, chandef_central. rewrite Hch.
  change (default 1 (Some ch0)) with ch0.
  assert (1 ≤ clamp_channel ch0 ≤ 14) by (rewrite clamp_channel_spec; case_decide; lia).
  assert (∀ x, 1 ≤ (if (x <? 1) || (14 <? x) then clamp_channel ch0 else x) ≤ 14) as Hr.
  { intros x. destruct (Z.ltb_spec x 1), (Z.ltb_spec 14 x); simpl; lia. }
  split; [apply Hr|]. split.
  - intros ->. cbn [andb]. unfold clamp_channel.
    by destruct ((ch0 <? 1) || (14 <? ch0)) eqn:E.
  - intros c -> Hc Hf. rewrite (proj2 (Z.leb_le 2412 (cd_center_freq1 cd))) by lia. cbn [andb].
    assert ((cd_center_freq1 cd - 2407) `div` 5 = c) as ->.
    { symmetry. apply (Z.div_unique _ _ _ (cd_center_freq1 cd - 2407 - 5 * c)); lia. }
    unfold wrap. rewrite Z.mod_small by (pow2; lia).
    by rewrite (proj2 (Z.ltb_ge c 1)), (proj2 (Z.ltb_ge 14 c)) by lia.
Qed.

(** C18. The config callback.  When mac80211 reports a channel change, or the
    channel differs from the current one, the driver makes exactly one switch:
    the channel command, RMAC_CHFREQ and the power command, in this order and
    under consecutive sequence numbers; a channel outside 1..14 becomes 1, the
    central channel is the one the centre frequency names at 40 MHz and the
    channel itself at 20 MHz.  Otherwise nothing is sent.  The callback always
    returns 0, whatever fails on the bus. *)
Theorem mac80211_config_spec K p stack dev cd changed :
  length stack = CHAN_BUF → Dev.wf dev →
  emits (mt7603_mac80211_config K p stack dev cd changed) (λ r e, r.1 = 0 ∧
    match cd_chan cd with
    | Some ch0 =>
        if decide (changed = true ∨ ch0 ≠ Dev.current_channel dev) then
          ∃ ch bw central, ch = (if decide (1 ≤ ch0 ≤ 14) then ch0 else 1) ∧
            bw = Z.b2z (cd_width_40 cd) ∧ 1 ≤ central ≤ 14 ∧
            (cd_width_40 cd = false → central = ch) ∧
            (∀ c, cd_width_40 cd = true → 1 ≤ c ≤ 14 →
              2407 + 5 * c ≤ cd_center_freq1 cd < 2412 + 5 * c → central = c) ∧
            r.2 = channel_done dev ch bw ∧ performs K (channel_plan dev ch bw central) 0 0 e
        else r.2 = dev ∧ performs K [] 0 0 e
    | None => r.2 = dev ∧ performs K [] 0 0 e
    end).
Proof.
  intros Hst Hdev. unfold mt7603_mac80211_config, mt7603_set_chandef.
  destruct cd as [[ch0|] w40 f]; cbn [cd_chan cd_width_40 cd_center_freq1 default];
    [|apply emits_ret; split_and!; [done..|apply performs_quiet]].
  assert (changed || negb (ch0 =? Dev.current_channel dev) =
    bool_decide (changed = true ∨ ch0 ≠ Dev.current_channel dev)) as ->.
  { destruct changed, (Z.eqb_spec ch0 (Dev.current_channel dev)); cbn [orb negb];
      symmetry; (apply bool_decide_eq_true_2 || apply bool_decide_eq_false_2); naive_solver. }
  case_decide as Hch; [rewrite bool_decide_eq_true_2 by done|
    rewrite bool_decide_eq_false_2 by done; apply emits_ret; split_and!; [done..|apply performs_quiet]].
  eapply emits_bind; [by apply set_channel_emits|]. cbn beta. intros [ret dev'] e [[= -> ->] Hp].
  apply emits_ret. rewrite eff_quiet_r. cbn [fst snd]. split; [done|].
  destruct (central_channel_spec (ChanDef (Some ch0) w40 f) ch0 eq_refl) as (Hr & H20 & H40).
  exists (clamp_channel ch0), (Z.b2z w40), (central_channel (ChanDef (Some ch0) w40 f) (clamp_channel ch0)).
  split; [apply clamp_channel_spec|]. split; [done|]. do 3 (split; [done|]).
  by destruct w40.
Qed.

Lemma mac80211_config_spec_witness :
  let cd := ChanDef (Some 6) true 2447 in
  ∃ r new, mt7603_mac80211_config good_kernel Release (replicate CHAN_BUF 0) Dev.initial cd true [] =
      Done (r, new) ∧ (Dev.current_channel r.2, Dev.current_bw r.2) = (6, 1) ∧
    wires (effect_of new) = carried_out (channel_plan Dev.initial 6 1 8).
Proof.
  destruct (mac80211_config_spec good_kernel Release (replicate CHAN_BUF 0) Dev.initial
    (ChanDef (Some 6) true 2447) true (length_replicate _ _) ltac:(vm_decide) [])
    as (r & new & Heq & _ & ch & bw & central & -> & -> & _ & _ & Hc & Hr & Hp).
  exists r, new. split; [done|]. rewrite Hr. split; [done|].
  rewrite <-(Hc 8 eq_refl ltac:(lia) ltac:(simpl; lia)). apply Hp, good_kernel_reliable.
Defined.

Lemma started_wf dev urbs cu cb done :
  Dev.wf dev → length urbs = MT7603_NUM_RX_URBS →
  (done = started dev ∨ done = Dev.set_cmd_seq dev (next_seq dev)) →
  Dev.wf (Dev.set_running (Dev.set_cmd_ring (Dev.set_rx_urbs done urbs) cu cb) true).
Proof.
  intros Hdev Hl Hdone. pose proof (wf_seq_nonneg _ Hdev) as H0. unfold started in Hdone.
  assert (∀ n, 0 ≤ n → 0 ≤ n `mod` 15 + 1) as Hm by (intros n; pose proof (Z.mod_pos_bound n 15); lia).
  assert (is_u8 (Dev.cmd_seq done)) as Hs.
  { destruct Hdone as [-> | ->]; cbn; [|by apply seq_step_u8].
    apply seq_step_u8. unfold next_seq. cbn. apply Hm, Hm. destruct (Dev.eeprom_valid dev); auto. }
  unfold Dev.wf in *. destruct Hdone as [-> | ->]; cbn in Hs |- *; [|tauto].
  assert (is_u8 1 ∧ is_u8 0) by vm_decide. tauto.
Qed.

(** C16. The start callback.  It enables the bulk paths and the aggregation,
    fills the receive rings, and then puts the whole start sequence on the bus
    in the order of [start_plan] - calibration (when there is an EEPROM image),
    MAC registers, own address, broadcast entry, radio, queues, status reports,
    channel 1 -, each step attempted at most once and none after a later one;
    with a kernel that does not fail everything is carried out and the rings
    are full.  Its only error is -ENOMEM, after which nothing but the bulk
    configuration was sent.  On every path the memory and the URBs it keeps are
    those the device state records, and the device is marked running. *)
Theorem mac80211_start_spec K p stack ops dev :
  length stack = CHAN_BUF → length ops = 128%nat → Dev.wf dev →
  emits (mt7603_mac80211_start K p stack ops dev) (λ r e,
    Dev.wf r.2 ∧ Dev.running r.2 = true ∧
    mem e = ring_mem r.2 - ring_mem dev ∧ urbs e = ring_urbs r.2 - ring_urbs dev ∧
    ∃ w, udma_enabled w ∧
      (r.1 = 0 ∧ (Dev.current_channel r.2, Dev.current_bw r.2) = (1, 0) ∧
         attempts (udma_plan w ++ start_plan dev) (wires e) ∨
       r.1 = ENOMEM ∧ attempts (udma_plan w) (wires e)) ∧
      (reliable K → r.1 = 0 ∧ rings_full r.2 ∧ wires e = carried_out (udma_plan w ++ start_plan dev))).
Proof.
  intros Hst Hops Hdev. eapply emits_weaken; [by apply start_emits|]. cbn beta.
  intros [ret d] e ((urbs & cu & cb & done & Hd & Hl & Hc) & (w & Hw & Ha & HK) & Hm & Hu). cbn [fst snd] in *.
  split; [rewrite Hd; apply (started_wf dev); [done..|naive_solver]|]. split; [by rewrite Hd|].
  split; [done|]. split; [done|]. exists w. split; [done|]. split; [|done].
  destruct Hc as [[-> ->]|[-> ->]]; [left|right].
  - rewrite decide_True in Ha by done. split; [done|]. by rewrite Hd.
  - rewrite decide_False, app_nil_r in Ha by done. done.
Qed.

Lemma mac80211_start_spec_witness :
  let dev := Dev.initial in
  ∃ r new, mt7603_mac80211_start good_kernel Debug (replicate CHAN_BUF 0) (replicate 128 (0 ↤ 0)) dev [] =
      Done (r, new) ∧ r.1 = 0 ∧ rings_full r.2 ∧
    ∃ w, udma_enabled w ∧ wires (effect_of new) = carried_out (udma_plan w ++ start_plan dev).
Proof.
  destruct (mac80211_start_spec good_kernel Debug (replicate CHAN_BUF 0) (replicate 128 (0 ↤ 0)) Dev.initial
    (length_replicate _ _) (length_replicate _ _) ltac:(vm_decide) [])
    as (r & new & Heq & _ & _ & _ & _ & w & Hw & _ & Hrel).
  destruct (Hrel good_kernel_reliable) as (Hr & Hfull & Hwires).
  exists r, new. split; [exact Heq|]. split; [exact Hr|]. split; [exact Hfull|]. exists w. split; [exact Hw|exact Hwires].
Defined.
