(* ===== verification/Bank.v ===== *)
(** * Registers that hold what was written to them

    The station table of the device (WTBL) is memory: a read answers the word
    last written.  [table_memory] states that of a kernel; on top of it, [wp]
    is a rule system in which a driver function transforms the registers -
    functions from HIF addresses to words, updated at one address by each
    write -, for runs in which the transfers succeed. *)

From S2P Require Import Prelude Rust Ffi Regmap Mac Entry Usb Device Cmd Plan.
From stdpp Require Import functions.
Local Open Scope Z_scope.
Local Open Scope rust_scope.

(** The global registers after a trace: words of 32 bits. *)
Definition reg_step (h : Z → Z) (e : event) : Z → Z :=
  match e with
  | ControlOut r ret =>
      if decide (v_request r = MT_VEND_REQ_WRITE ∧ 0 ≤ ret)
      then <[req_addr r := wrap 32 (req_val r)]> h else h
  | _ => h
  end.
(** As the driver names them, by HIF address, from initial contents [h0]. *)
Definition regs (h0 : Z → Z) (tr : trace) (a : Z) : Z :=
  foldl reg_step h0 tr (translate hif_windows a).

(** Reads of the registers in [T] answer their contents. *)
Record table_memory (K : kernel) (h0 : Z → Z) (T : Z → Prop) : Prop := {
  table_mapped a : T a → mapped a;
  table_read tr a ret w : T a →
    k_control_in K tr MT_VEND_REQ_READ (translate hif_windows a ≫ 16)
      (Z.land (translate hif_windows a) 0xffff) = (ret, w) → w = regs h0 tr a;
}.

Definition regs_are (h0 : Z → Z) (tr : trace) (h : Z → Z) : Prop :=
  ∀ a, mapped a → regs h0 tr a = h a.

(** From registers [h], [m] returns, and its result and the registers it
    leaves satisfy [Q]. *)
Definition wp (h0 : Z → Z) {A} (m : io A) (Q : A → (Z → Z) → Prop) (h : Z → Z) : Prop :=
  ∀ tr, regs_are h0 tr h → ∃ a tr' h', m tr = Done (a, tr') ∧ regs_are h0 tr' h' ∧ Q a h'.

Section wp.
Context (K : kernel) (p : profile) (h0 : Z → Z) (T : Z → Prop).
Context (HK : reliable K) (Hok : kernel_ok K) (HT : table_memory K h0 T).

Lemma regs_step tr e h :
  (∀ h', reg_step h' e = h') → regs_are h0 tr h → regs_are h0 (tr ++ [e]) h.
Proof.
  intros He Hr a Ha. unfold regs. rewrite foldl_app. cbn [foldl]. rewrite He. by apply Hr.
Qed.

Lemma regs_write tr a v ret h :
  mapped a → is_u32 v → 0 ≤ ret → regs_are h0 tr h →
  regs_are h0 (tr ++ [ControlOut (write_req (translate hif_windows a) v) ret]) (<[a := v]> h).
Proof.
  intros Ha Hv Hret Hr b Hb. unfold regs. rewrite foldl_app. cbn [foldl reg_step].
  rewrite decide_True by done.
  rewrite write_req_addr, write_req_val by (done || by apply translate_u32, mapped_u32).
  destruct (decide (a = b)) as [<-|Hne].
  { rewrite !fn_lookup_insert. unfold wrap. apply Z.mod_small. done. }
  rewrite !fn_lookup_insert_ne; [by apply Hr|done|]. intros Heq. by apply Hne, translate_inj.
Qed.

Lemma wp_ret {A} (a : A) Q h : Q a h → wp h0 (mret a) Q h.
Proof. intros HQ tr Hr. by exists a, tr, h. Qed.

Lemma wp_bind {A B} (m : io A) (f : A → io B) P Q h :
  wp h0 m P h → (∀ a h', P a h' → wp h0 (f a) Q h') → wp h0 (m ≫= f) Q h.
Proof.
  intros Hm Hf tr Hr. destruct (Hm tr Hr) as (a & tr1 & h1 & Heq & Hr1 & HP).
  destruct (Hf a h1 HP tr1 Hr1) as (b & tr2 & h2 & Heq2 & Hr2 & HQ).
  exists b, tr2, h2. unfold mbind, io_bind. by rewrite Heq.
Qed.

Lemma wp_weaken {A} (m : io A) P Q h :
  wp h0 m P h → (∀ a h', P a h' → Q a h') → wp h0 m Q h.
Proof. intros Hm HPQ tr Hr. destruct (Hm tr Hr) as (a & tr1 & h1 & ?). naive_solver. Qed.

Lemma wp_call {A} (m : outcome A) a Q h : m = Done a → Q a h → wp h0 (call m) Q h.
Proof. intros -> HQ tr Hr. by exists a, tr, h. Qed.

Lemma wp_kernel c Q h : Q tt h → wp h0 (call_kernel c) Q h.
Proof. intros HQ tr Hr. eexists tt, _, h. split; [done|]. split; [by apply regs_step|done]. Qed.

Lemma wp_write a v Q h :
  mapped a → is_u32 v → Q 0 (<[a := v]> h) → wp h0 (mt7603_usb_write_reg K p a v) Q h.
Proof.
  intros Ha Hv HQ tr Hr. unfold mt7603_usb_write_reg, mt7603_rust_map_register_addr.
  unfold mbind, io_bind, kmalloc, log.
  destruct (rel_kmalloc K HK tr 4) as [c ->]. cbn beta iota zeta. unfold call.
  rewrite physical_addr_map_translate by by apply mapped_u32.
  cbn [mbind outcome_bind mret outcome_ret]. unfold usb_control_out, kfree, log. cbn beta iota zeta.
  match goal with |- context [k_control_out K ?t ?r] => pose proof (rel_control_out K HK t r) end.
  match goal with H : 0 ≤ ?x |- context [?x <? 0] => rewrite (proj2 (Z.ltb_ge x 0) H) end.
  eexists _, _, _. split; [reflexivity|]. split; [|exact HQ].
  apply regs_step; [done|]. apply regs_write; [done..|]. by apply regs_step.
Qed.

Lemma wp_read a v Q h :
  T a → (is_u32 (h a) → Q (0, h a) h) → wp h0 (mt7603_usb_read_reg K p a v) Q h.
Proof.
  intros Ha HQ tr Hr. pose proof (table_mapped _ _ _ HT a Ha) as Hm.
  unfold mt7603_usb_read_reg, mt7603_rust_map_register_addr.
  unfold mbind, io_bind, kmalloc, log.
  destruct (rel_kmalloc K HK tr 4) as [c ->]. cbn beta iota zeta. unfold call.
  rewrite physical_addr_map_translate by by apply mapped_u32.
  cbn [mbind outcome_bind mret outcome_ret]. unfold usb_control_in, kfree, log. cbn beta iota zeta.
  match goal with |- context [k_control_in K ?t ?q ?x ?i] => pose proof (rel_control_in K HK t q x i);
    pose proof (control_in_u32 K Hok t q x i); destruct (k_control_in K t q x i) as [ret w] eqn:E end.
  cbn [fst snd] in *. cbn beta iota zeta. rewrite (proj2 (Z.leb_le 0 ret)) by done.
  assert (w = h a) as ->.
  { rewrite (table_read _ _ _ HT _ a ret w Ha E). by apply regs_step. }
  eexists _, _, h. split; [reflexivity|]. split; [|by apply HQ]. by repeat apply regs_step.
Qed.

(** A sequence of writes. *)
Definition writes (ops : list RegWriteOp) (h : Z → Z) : Z → Z :=
  foldl (λ h op, <[addr op := val op]> h) h ops.

Lemma writes_app ops1 ops2 h : writes (ops1 ++ ops2) h = writes ops2 (writes ops1 h).
Proof. apply foldl_app. Qed.

Lemma wp_execute ops Q h :
  Forall (λ op, mapped (addr op) ∧ is_u32 (val op)) ops → Q 0 (writes ops h) →
  wp h0 (mt7603_execute_reg_ops K p ops) Q h.
Proof.
  intros HF. revert h. induction HF as [|op ops [Ha Hv] HF IH]; intros h HQ; [by apply wp_ret|].
  cbn [mt7603_execute_reg_ops]. eapply wp_bind; [apply wp_write with (Q := λ r h', r = 0 ∧ h' = <[addr op := val op]> h)|];
    [done..|]. intros ret h' [-> ->]. by apply IH.
Qed.
End wp.

(** *** Plans on the registers

    The registers depend on a trace only through its transfers, so what a plan
    does to them can be read off when it is carried out: commands do nothing,
    writes are the sequence [ops]. *)

Inductive plan_does : plan → list RegWriteOp → Prop :=
| does_nil : plan_does [] []
| does_cmd c p ops : plan_does p ops → plan_does (cmd_wire c :: p) ops
| does_write a v p ops : plan_does p ops → plan_does (hif_write a v :: p) ((a ↤ v) :: ops).

Lemma plan_does_app p1 p2 ops1 ops2 :
  plan_does p1 ops1 → plan_does p2 ops2 → plan_does (p1 ++ p2) (ops1 ++ ops2).
Proof. induction 1; intros; simpl; [done|by constructor; auto..]. Qed.

Lemma seq_plan_does ops : plan_does (seq_plan ops) ops.
Proof. induction ops as [|[a v] ops IH]; [constructor|]. by apply (does_write a v (seq_plan ops) ops). Qed.

Definition wire_step (h : Z → Z) (w : wire) : Z → Z :=
  match w with
  | Req r true => if decide (v_request r = MT_VEND_REQ_WRITE) then <[req_addr r := wrap 32 (req_val r)]> h else h
  | _ => h
  end.

Lemma reg_step_wires h e : reg_step h e = foldl wire_step h (wires (effect_of_event e)).
Proof.
  destruct e as [? [] | | | r ret | ? ? ret | [] | | ? ? ret | | [|? []] [] | | ]; try done;
    cbn [reg_step effect_of_event wires foldl wire_step].
  destruct (Z.leb_spec 0 ret); cbn [wire_step]; case_decide as H1; try done.
  - by rewrite decide_True by tauto.
  - by rewrite decide_False by tauto.
  - lia.
Qed.

Lemma regs_wires h tr : foldl reg_step h tr = foldl wire_step h (wires (effect_of tr)).
Proof.
  revert h. induction tr as [|e tr IH]; intros h; [done|]. cbn [foldl effect_of foldr].
  change (wires (eff_app (effect_of_event e) (foldr (λ e0, eff_app (effect_of_event e0)) quiet tr)))
    with (wires (effect_of_event e) ++ wires (effect_of tr)).
  by rewrite foldl_app, <-reg_step_wires, IH.
Qed.

Lemma plan_registers p ops h g :
  plan_does p ops → Forall (λ op, mapped (addr op) ∧ is_u32 (val op)) ops →
  (∀ a, mapped a → g (translate hif_windows a) = h a) →
  ∀ a, mapped a → foldl wire_step g (carried_out p) (translate hif_windows a) = writes ops h a.
Proof.
  intros Hd. revert g h. induction Hd as [|c p ops Hd IH|x v p ops Hd IH]; intros g h HF Hg; [done| |].
  - by apply IH.
  - apply Forall_cons_iff in HF as [[Hx Hv] HF]. cbn [addr val] in *. cbn [carried_out fmap list_fmap foldl writes].
    apply IH; [done|]. intros a Ha. cbn [hif_write wire_step].
    rewrite decide_True, write_req_addr, write_req_val by (done || by apply translate_u32, mapped_u32).
    destruct (decide (x = a)) as [<-|Hne].
    { rewrite !fn_lookup_insert. unfold wrap. by apply Z.mod_small. }
    rewrite !fn_lookup_insert_ne; [by apply Hg|done|]. intros Heq. by apply Hne, translate_inj.
Qed.

(** A computation that carries out a plan, as a transformer of registers. *)
Lemma wp_performs K h0 {A} (m : io A) (R : A → Prop) p ops u n h :
  reliable K → emits m (λ r e, R r ∧ performs K p u n e) →
  plan_does p ops → Forall (λ op, mapped (addr op) ∧ is_u32 (val op)) ops →
  wp h0 m (λ r h', R r ∧ h' = writes ops h) h.
Proof.
  intros HK Hm Hd HF tr Hr. destruct (Hm tr) as (r & new & Heq & HR & Hp).
  exists r, (tr ++ new), (writes ops h). split; [done|]. split; [|done].
  intros a Ha. unfold regs. rewrite foldl_app, (regs_wires _ new), (performs_reliable _ _ _ _ _ Hp HK).
  by apply (plan_registers p ops h).
Qed.

Lemma wp_sequence K p h0 max f r ops seq h :
  reliable K → reg_request_wf r → (max ≤ length ops)%nat → reg_request_spec r = Ok seq → seq ≠ [] →
  (length seq ≤ max)%nat → Forall (λ op, mapped (addr op) ∧ is_u32 (val op)) seq →
  f (Some ops) max (Some 0%nat) = reg_entry r (Some ops) max (Some 0%nat) →
  wp h0 (run_sequence K p max f ops) (λ ops' h', length ops' = length ops ∧ h' = writes seq h) h.
Proof.
  intros HK Hwf Hl Hspec Hne Hmax HF Hf. eapply wp_performs; [done| |apply seq_plan_does|done].
  eapply run_sequence_emits; try done. eapply List.Forall_impl; [|exact HF]. cbn beta.
  intros op [? _]. by apply mapped_u32.
Qed.

(** ** A device that is nothing but such registers *)

Definition bank_kernel (h0 : Z → Z) : kernel := {|
  k_kmalloc := k_kmalloc good_kernel;
  k_control_in := λ tr _ v i, (4, foldl reg_step h0 tr (Z.lor (v ≪ 16) i));
  k_control_out := k_control_out good_kernel;
  k_bulk_out := k_bulk_out good_kernel;
  k_alloc_urb := k_alloc_urb good_kernel;
  k_submit_urb := k_submit_urb good_kernel;
  k_wait := k_wait good_kernel;
|}.

Section bank_kernel.
Context (h0 : Z → Z) (Hh0 : ∀ a, is_u32 (h0 a)).

Lemma bank_u32 tr a : is_u32 (foldl reg_step h0 tr a).
Proof.
  induction tr as [|e tr IH] using rev_ind; [apply Hh0|]. rewrite foldl_app. cbn [foldl].
  destruct e; cbn [reg_step]; try done. case_decide; [|done].
  destruct (decide (req_addr r = a)) as [->|]; [rewrite fn_lookup_insert; by apply is_uint_wrap|].
  by rewrite fn_lookup_insert_ne.
Qed.

Lemma bank_kernel_ok : reliable (bank_kernel h0) ∧ kernel_ok (bank_kernel h0).
Proof.
  split; [by split|]. split; [apply good_kernel_ok|]. intros. apply bank_u32.
Qed.

Lemma bank_table T : (∀ a, T a → mapped a) → table_memory (bank_kernel h0) h0 T.
Proof.
  intros HT. split; [done|]. intros tr a ret w Ha [= _ <-]. unfold regs. f_equal.
  assert (is_u32 (translate hif_windows a)) as Hu by by apply translate_u32, mapped_u32, HT.
  exact (write_req_addr _ 0 Hu).
Qed.

Lemma regs_are_initial : regs_are h0 [] (λ a, h0 (translate hif_windows a)).
Proof. done. Qed.
End bank_kernel.
