(* ===== verification/Keys.v ===== *)
(** * Keys and block-ack sessions (src/c/mac80211.c)

    The callbacks that read and modify the station table: mt7603_mac80211_set_key
    installs a CCMP key in the hardware or removes it, and
    mt7603_mac80211_ampdu_action opens and closes block-ack sessions.  Their
    effect is stated on the registers of Bank.v, for runs in which nothing
    fails; what happens when something does is stated for every kernel. *)

From S2P Require Import Prelude Rust Ffi Regmap Mac Sta Entry Usb Device Cmd Plan Dev Bank.
From stdpp Require Import functions.
Local Open Scope Z_scope.
Local Open Scope rust_scope.

Definition EOPNOTSUPP : Z := -95.
(** The cipher selectors of the kernel's headers. *)
Definition WLAN_CIPHER_SUITE_CCMP : Z := 0x000FAC04.
Definition WTBL2_BASE : Z := 0x00040000.

(** What the driver reads of an [ieee80211_key_conf]. *)
Record key_conf := KeyConf {
  k_pairwise : bool; k_cipher : Z; k_keyidx : Z; k_key : list Z
}.

(** The hardware slot of a key; [sta] is the address of the station, [None]
    for a null pointer. *)
Definition key_wcid (key : key_conf) (sta : option (list Z)) : Z :=
  if k_pairwise key then 1 else if has_addr sta then 1 else 0.

(** The new DW0 and DW2 of a keyed entry; [rkv] is whether frames are received
    under the key. *)
Definition keyed_dw0 (rkv : bool) (keyidx dw : Z) : Z :=
  let dw := Z.ldiff dw (shl32 0x3 23) in
  let dw := Z.lor dw (Z.lor (Z.lor (Z.lor (shl32 1 28) (shl32 1 22)) (shl32 1 25))
    (shl32 (Z.land keyidx 0x3) 23)) in
  if rkv then Z.lor dw (shl32 1 26) else Z.ldiff dw (shl32 1 26).
Definition keyed_dw2 (dw : Z) : Z :=
  let dw := Z.ldiff dw 0x78 in
  let dw := Z.lor dw (shl32 4 3) in
  Z.lor dw (shl32 1 30).

(** The same of an entry without a key. *)
Definition keyless_dw0 (dw : Z) : Z := Z.ldiff dw (Z.lor (shl32 1 26) (shl32 0x3 23)).
Definition keyless_dw2 (dw : Z) : Z := Z.ldiff dw 0x78.

Section keys.
Variable K : kernel.
Variable p : profile.

(** [if (read_reg(a, &dw) == 0) { dw = f(dw); write_reg(a, dw); }] *)
Definition modify_reg (a : Z) (f : Z → Z) : io unit :=
  '(ret, dw) ← mt7603_usb_read_reg K p a 0;
  if ret =? 0 then _ ← mt7603_usb_write_reg K p a (f dw); mret tt else mret tt.

(** The loop over the words of the key, from word [i] on. *)
Fixpoint write_key_words (n i : nat) (key_base : Z) (key : list Z) : io unit :=
  match n with
  | O => mret tt
  | S n =>
      b0 ← call (peek key (i * 4)); b1 ← call (peek key (i * 4 + 1));
      b2 ← call (peek key (i * 4 + 2)); b3 ← call (peek key (i * 4 + 3));
      let w := Z.lor (Z.lor (Z.lor b0 (shl32 b1 8)) (shl32 b2 16)) (shl32 b3 24) in
      _ ← mt7603_usb_write_reg K p (key_base + Z.of_nat i * 4) w;
      write_key_words n (S i) key_base key
  end.

(** [set] is [cmd == SET_KEY].  Returns the status and the slot stored in
    [key->hw_key_idx], if one is. *)
Definition mt7603_mac80211_set_key (set : bool) (v : option vif) (sta : option (list Z))
    (key : key_conf) : io (Z * option Z) :=
  let wcid := key_wcid key sta in
  let wtbl1_base := WTBL1_BASE + wcid * WTBL1_ENTRY_SIZE in
  if negb set then
    modify_reg wtbl1_base keyless_dw0 ;;
    modify_reg (wtbl1_base + 0x08) keyless_dw2 ;;
    mret (0, None)
  else if negb (k_cipher key =? WLAN_CIPHER_SUITE_CCMP) then mret (EOPNOTSUPP, None) else
  write_key_words 4 0 (WTBL3_KEY_BASE + wcid * WTBL3_ENTRY_SIZE) (k_key key) ;;
  let wtbl2_base := WTBL2_BASE + wcid * 64 in
  _ ← mt7603_usb_write_reg K p wtbl2_base 1;
  _ ← mt7603_usb_write_reg K p (wtbl2_base + 4) 0;
  modify_reg wtbl1_base (keyed_dw0 (negb (wcid =? 0) || negb (is_ap v)) (k_keyidx key)) ;;
  modify_reg (wtbl1_base + 0x08) keyed_dw2 ;;
  _ ← mt7603_usb_write_reg K p WTBL1OR 0x80000000;
  _ ← mt7603_usb_write_reg K p WTBL1OR 0x00000000;
  mret (0, Some wcid).

(** ** Block-ack sessions *)

Inductive ampdu_action :=
| RX_START | RX_STOP | TX_START | TX_OPERATIONAL
| TX_STOP_CONT | TX_STOP_FLUSH | TX_STOP_FLUSH_CONT.
#[export] Instance ampdu_action_eq_dec : EqDecision ampdu_action.
Proof. solve_decision. Defined.
Definition IEEE80211_AMPDU_TX_START_IMMEDIATE : Z := 1.

Definition RMAC_BA_CONTROL_0 : Z := 0x00021868.
Definition RMAC_BA_CONTROL_1 : Z := 0x0002186C.

(** [ops] is the local array; the builder takes [uint8_t] arguments. [vif] is whether the interface is given. *)
Definition mt7603_mac80211_ampdu_action (ops : list RegWriteOp) (vif : bool)
    (sta : option (list Z)) (action : ampdu_action) (tid buf_size : Z) : io Z :=
  let wcid := if has_addr sta then 1 else 0 in
  let reg := 0x00040000 + wcid * 64 + 15 * 4 in
  '(_, dw15) ← mt7603_usb_read_reg K p reg 0;
  match action with
  | RX_START =>
      match sta with
      | Some addr =>
          if negb (is_zero_ether_addr addr) then
            let lo := addr_lo addr in
            let hi := Z.lor (Z.lor (addr_hi addr) (shl32 tid 16)) (shl32 1 22) in
            _ ← mt7603_usb_write_reg K p RMAC_BA_CONTROL_0 lo;
            _ ← mt7603_usb_write_reg K p RMAC_BA_CONTROL_1 hi;
            mret 0
          else mret 0
      | None => mret 0
      end
  | TX_START => mret IEEE80211_AMPDU_TX_START_IMMEDIATE
  | TX_OPERATIONAL =>
      _ ← run_sequence K p 4 (mt7603_rust_build_ba_session_sequence wcid (wrap 8 tid)
            (wrap 8 (if buf_size =? 0 then 64 else buf_size)) true dw15) ops;
      mret 0
  | TX_STOP_CONT | TX_STOP_FLUSH | TX_STOP_FLUSH_CONT =>
      _ ← run_sequence K p 4 (mt7603_rust_build_ba_session_sequence wcid (wrap 8 tid) 0 false dw15) ops;
      (if vif && bool_decide (is_Some sta) then call_kernel (StopTxBa tid) else mret tt) ;;
      mret 0
  | RX_STOP => mret 0
  end.
End keys.

(** ** What the callbacks do to the station table *)

(** The table words the callbacks read: the control words of the entries 0
    and 1 and their second table, where the sessions are. *)
Definition station_table (a : Z) : Prop :=
  WTBL1_BASE ≤ a < WTBL1_BASE + 0x40 ∨ WTBL2_BASE ≤ a < WTBL2_BASE + 0x80.

(** The fields of DW0 a key changes: key index (23..24), rkv (26), rc_id (25),
    rc_a1 (22), rv (28); and of DW2: cipher suite (3..6), adm (30). *)
Definition KEY_DW0 : Z := 0x17c00000.
Definition KEY_DW2 : Z := 0x40000078.

Definition key_word (key : list Z) (i : nat) : Z :=
  u32_from_le_bytes (nth (i * 4) key 0) (nth (i * 4 + 1) key 0) (nth (i * 4 + 2) key 0)
    (nth (i * 4 + 3) key 0).
Definition key_ops (n i : nat) (base : Z) (key : list Z) : list RegWriteOp :=
  (λ j, base + Z.of_nat j * 4 ↤ key_word key j) <$> seq i n.

(** The registers of slot [w] that installing a key may change. *)
Definition key_regs (w : Z) : list Z :=
  ((λ i, WTBL3_KEY_BASE + 64 * w + 4 * i) <$> [0; 1; 2; 3]) ++
  [WTBL2_BASE + 64 * w; WTBL2_BASE + 64 * w + 4;
   WTBL1_BASE + 32 * w; WTBL1_BASE + 32 * w + 8; WTBL1OR].

(** From registers [h] to [h'], slot [w] got the key. *)
Record key_installed (w : Z) (rkv : bool) (key : key_conf) (h h' : Z → Z) : Prop := {
  ki_bytes i : (i < 4)%nat →
    u32_to_le_bytes (h' (WTBL3_KEY_BASE + 64 * w + 4 * Z.of_nat i)) = take 4 (drop (4 * i) (k_key key));
  ki_packet_number : h' (WTBL2_BASE + 64 * w) = 1 ∧ h' (WTBL2_BASE + 64 * w + 4) = 0;
  ki_dw0 : let dw := h' (WTBL1_BASE + 32 * w) in
    bits 23 2 dw = k_keyidx key `mod` 4 ∧ bits 26 1 dw = Z.b2z rkv ∧ bits 25 1 dw = 1 ∧
    bits 22 1 dw = 1 ∧ bits 28 1 dw = 1 ∧
    Z.ldiff dw KEY_DW0 = Z.ldiff (h (WTBL1_BASE + 32 * w)) KEY_DW0;
  ki_dw2 : let dw := h' (WTBL1_BASE + 32 * w + 8) in
    bits 3 4 dw = 4 ∧ bits 30 1 dw = 1 ∧
    Z.ldiff dw KEY_DW2 = Z.ldiff (h (WTBL1_BASE + 32 * w + 8)) KEY_DW2;
  ki_flushed : h' WTBL1OR = 0;
  ki_frame a : mapped a → a ∉ key_regs w → h' a = h a;
}.

(** Slot [w] lost it: frames are received without a key again. *)
Record key_removed (w : Z) (h h' : Z → Z) : Prop := {
  kr_dw0 : let dw := h' (WTBL1_BASE + 32 * w) in
    bits 26 1 dw = 0 ∧ bits 23 2 dw = 0 ∧
    Z.ldiff dw 0x05800000 = Z.ldiff (h (WTBL1_BASE + 32 * w)) 0x05800000;
  kr_dw2 : let dw := h' (WTBL1_BASE + 32 * w + 8) in
    bits 3 4 dw = 0 ∧ Z.ldiff dw 0x78 = Z.ldiff (h (WTBL1_BASE + 32 * w + 8)) 0x78;
  kr_frame a : a ≠ WTBL1_BASE + 32 * w → a ≠ WTBL1_BASE + 32 * w + 8 → h' a = h a;
}.

(** The modified words as patches. *)
Definition keyed_value (rkv : bool) (q : Z) : Z :=
  Z.lor (if rkv then 0x16400000 else 0x12400000) (shl32 q 23).

Ltac patch_eq :=
  rewrite ?patch_clear, <-?Z.lor_assoc; etransitivity; [apply patch_widen|];
  symmetry; (etransitivity; [apply patch_widen|]); apply f_equal2; [apply f_equal|]; reflexivity.

Lemma keyed_dw0_patch rkv keyidx dw :
  keyed_dw0 rkv keyidx dw = Z.lor (Z.ldiff dw KEY_DW0) (keyed_value rkv (keyidx `mod` 4)).
Proof.
  unfold keyed_dw0. assert (Z.land keyidx 0x3 = keyidx `mod` 4) as ->
    by (change 0x3 with (Z.ones 2); by rewrite Z.land_ones).
  pose proof (Z.mod_pos_bound keyidx 4 ltac:(lia)) as Hq. revert Hq. generalize (keyidx `mod` 4) as q. intros q Hq.
  assert (q = 0 ∨ q = 1 ∨ q = 2 ∨ q = 3) as [-> |[-> |[-> | ->]]] by lia; destruct rkv; cbv zeta; patch_eq.
Qed.

Lemma keyed_dw2_patch dw : keyed_dw2 dw = Z.lor (Z.ldiff dw KEY_DW2) 0x40000020.
Proof. unfold keyed_dw2. cbv zeta. patch_eq. Qed.

(** A word with a key, field by field. *)
Lemma keyed_dw0_fields rkv keyidx dw :
  is_u32 dw →
  let dw' := keyed_dw0 rkv keyidx dw in
  is_u32 dw' ∧ bits 23 2 dw' = keyidx `mod` 4 ∧ bits 26 1 dw' = Z.b2z rkv ∧ bits 25 1 dw' = 1 ∧
  bits 22 1 dw' = 1 ∧ bits 28 1 dw' = 1 ∧ Z.ldiff dw' KEY_DW0 = Z.ldiff dw KEY_DW0.
Proof.
  intros Hdw. cbv zeta. rewrite keyed_dw0_patch.
  pose proof (Z.mod_pos_bound keyidx 4 ltac:(lia)) as Hq. revert Hq. generalize (keyidx `mod` 4) as q. intros q Hq.
  assert (∀ r q, 0 ≤ q < 4 → let v := keyed_value r q in
    is_u32 v ∧ bits 23 2 v = q ∧ bits 26 1 v = Z.b2z r ∧ bits 25 1 v = 1 ∧ bits 22 1 v = 1 ∧
    bits 28 1 v = 1 ∧ Z.ldiff v KEY_DW0 = 0) as Hv.
  { clear. intros r q Hq. assert (q = 0 ∨ q = 1 ∨ q = 2 ∨ q = 3) as [-> |[-> |[-> | ->]]] by lia;
      destruct r; cbv zeta; vm_decide. }
  destruct (Hv rkv q Hq) as (Hu & H23 & H26 & H25 & H22 & H28 & Hrest).
  rewrite !patch_field, patch_rest by done. split; [|done].
  apply is_uint_lor; [by apply is_uint_ldiff|done].
Qed.

Lemma keyed_dw2_fields dw :
  is_u32 dw →
  let dw' := keyed_dw2 dw in
  is_u32 dw' ∧ bits 3 4 dw' = 4 ∧ bits 30 1 dw' = 1 ∧ Z.ldiff dw' KEY_DW2 = Z.ldiff dw KEY_DW2.
Proof.
  intros Hdw. cbv zeta. rewrite keyed_dw2_patch, !patch_field, patch_rest by done. split; [|done].
  apply is_uint_lor; [by apply is_uint_ldiff|vm_decide].
Qed.

Section keys_spec.
Context (K : kernel) (p : profile) (h0 : Z → Z).
Context (HK : reliable K) (Hok : kernel_ok K) (HT : table_memory K h0 station_table).

Lemma wp_modify a f Q h :
  station_table a → (is_u32 (h a) → is_u32 (f (h a)) ∧ Q tt (<[a := f (h a)]> h)) →
  wp h0 (modify_reg K p a f) Q h.
Proof.
  intros Ha HQ. unfold modify_reg.
  eapply (wp_bind h0 _ _ (λ r h', r = (0, h a) ∧ h' = h ∧ is_u32 (h a))).
  { by apply (wp_read K p h0 station_table). }
  intros ? ? (-> & -> & Hu). destruct (HQ Hu) as [Hf HQ']. cbn [Z.eqb].
  eapply (wp_bind h0 _ _ (λ _ h', h' = <[a := f (h a)]> h)).
  { apply wp_write; [done|by eapply table_mapped|done|done]. }
  intros ? ? ->. by apply wp_ret.
Qed.

Lemma wp_write_then {B} a v (f : Z → io B) Q h :
  mapped a → is_u32 v → wp h0 (f 0) Q (<[a := v]> h) → wp h0 (mt7603_usb_write_reg K p a v ≫= f) Q h.
Proof.
  intros Ha Hv Hf. eapply (wp_bind h0 _ _ (λ r h', r = 0 ∧ h' = <[a := v]> h)).
  { by apply wp_write. }
  by intros ? ? [-> ->].
Qed.

Lemma wp_modify_then {B} a f (g : unit → io B) Q h :
  station_table a →
  (is_u32 (h a) → is_u32 (f (h a)) ∧ wp h0 (g tt) Q (<[a := f (h a)]> h)) →
  wp h0 (modify_reg K p a f ≫= g) Q h.
Proof.
  intros Ha HQ. eapply (wp_bind h0 _ _ (λ _ h', wp h0 (g tt) Q h')); [by apply wp_modify|].
  by intros [] ?.
Qed.

Lemma wp_key_words n i base key Q h :
  ((i + n) * 4 ≤ length key)%nat → Forall is_u8 key →
  (∀ j, (i ≤ j < i + n)%nat → mapped (base + Z.of_nat j * 4)) →
  Q tt (writes (key_ops n i base key) h) → wp h0 (write_key_words K p n i base key) Q h.
Proof.
  intros Hl Hk. revert i h Hl. induction n as [|n IH]; intros i h Hl Hm HQ; [by apply wp_ret|].
  cbn [write_key_words]. do 4 (eapply (wp_bind h0 _ _ (λ b h', b = _ ∧ h' = h));
    [eapply wp_call; [apply peek_nth; lia|done]|]; intros ? ? [-> ->]).
  assert (∀ j, is_u8 (nth j key 0)) as Hu by (intros; by apply Forall_nth_u8).
  rewrite !shl32_u8 by (apply Hu || lia).
  rewrite <-!Z.lor_assoc. fold (key_word key i).
  apply wp_write_then; [apply Hm; lia|by apply u32_from_u32|].
  apply IH; [lia|intros; apply Hm; lia|done].
Qed.
End keys_spec.

Lemma fn_at {V} (f : Z → V) (a b : Z) v : a = b → (<[a := v]> f : Z → V) b = v.
Proof. intros ->. apply fn_lookup_insert. Qed.
Lemma fn_ne {V} (f : Z → V) (a b : Z) v : a ≠ b → (<[a := v]> f : Z → V) b = f b.
Proof. apply fn_lookup_insert_ne. Qed.

(** Look a register up in a chain of writes at literal addresses. *)
Ltac reg_lookup :=
  repeat first [rewrite fn_at by (unfold WTBL1_BASE, WTBL2_BASE, WTBL3_KEY_BASE, WTBL1_ENTRY_SIZE, WTBL1OR in *; lia)
               |rewrite fn_ne by (unfold WTBL1_BASE, WTBL2_BASE, WTBL3_KEY_BASE, WTBL1_ENTRY_SIZE, WTBL1OR in *; lia)].

(** What the callback reads at a register it has not changed. *)
Ltac key_read Hu x :=
  match type of Hu with is_u32 ?c =>
    let E := fresh in assert (c = x) as E by (destruct_or!; subst; by reg_lookup);
    rewrite E in Hu |- *; clear E end.

Lemma key_word_bytes key i :
  (i < 4)%nat → (16 ≤ length key)%nat → Forall is_u8 key →
  u32_to_le_bytes (key_word key i) = take 4 (drop (4 * i) key).
Proof.
  intros Hi Hl Hk. assert (∀ j, is_u8 (nth j key 0)) by (intros; by apply Forall_nth_u8).
  unfold key_word. rewrite u32_to_from by done.
  do 16 (destruct key as [|? key]; [simpl in Hl; lia|]).
  by do 4 (destruct i as [|i]; [done|]); [lia].
Qed.

Lemma key_wcid_cases key sta : key_wcid key sta = 0 ∨ key_wcid key sta = 1.
Proof. unfold key_wcid. destruct (k_pairwise key), (has_addr sta); auto. Qed.

Section keys_main.
Context (K : kernel) (p : profile) (h0 : Z → Z).
Context (HK : reliable K) (Hok : kernel_ok K) (HT : table_memory K h0 station_table).

Lemma set_key_wp v sta key h :
  k_cipher key = WLAN_CIPHER_SUITE_CCMP → (16 ≤ length (k_key key))%nat → Forall is_u8 (k_key key) →
  let w := key_wcid key sta in
  wp h0 (mt7603_mac80211_set_key K p true v sta key) (λ r h',
    r = (0, Some w) ∧ key_installed w (negb (w =? 0) || negb (is_ap v)) key h h') h.
Proof.
  intros Hc Hl Hk w. unfold mt7603_mac80211_set_key. fold w. rewrite Hc. cbn [negb Z.eqb].
  change (WLAN_CIPHER_SUITE_CCMP =? WLAN_CIPHER_SUITE_CCMP) with true. cbn [negb].
  assert (w = 0 ∨ w = 1) as Hw by apply key_wcid_cases. clearbody w.
  set (rkv := negb (w =? 0) || negb (is_ap v)). clearbody rkv.
  eapply (wp_bind h0 _ _ (λ _ h', h' = writes (key_ops 4 0 (WTBL3_KEY_BASE + w * WTBL3_ENTRY_SIZE) (k_key key)) h)).
  { apply wp_key_words; [done..|lia|done| |done]. intros j Hj.
    assert (j = 0 ∨ j = 1 ∨ j = 2 ∨ j = 3)%nat as [-> |[-> |[-> | ->]]] by lia;
      destruct Hw as [-> | ->]; vm_decide. }
  intros _ ? ->. cbn [key_ops fmap list_fmap seq writes foldl addr val].
  apply wp_write_then; [done|destruct Hw as [-> | ->]; vm_decide|vm_decide|].
  apply wp_write_then; [done|destruct Hw as [-> | ->]; vm_decide|vm_decide|].
  apply wp_modify_then; [done..|left; unfold WTBL1_ENTRY_SIZE; lia|].
  intros Hu0. key_read Hu0 (h (WTBL1_BASE + w * WTBL1_ENTRY_SIZE)).
  destruct (keyed_dw0_fields rkv (k_keyidx key) _ Hu0) as (Hd0 & H0). split; [done|].
  apply wp_modify_then; [done..|left; unfold WTBL1_ENTRY_SIZE; lia|].
  intros Hu2. key_read Hu2 (h (WTBL1_BASE + w * WTBL1_ENTRY_SIZE + 8)).
  destruct (keyed_dw2_fields _ Hu2) as (Hd2 & H2). split; [done|].
  apply wp_write_then; [done|vm_decide|vm_decide|]. apply wp_write_then; [done|vm_decide|vm_decide|].
  apply wp_ret. split; [done|]. clear Hu0 Hu2 Hd0 Hd2.
  assert (∀ i, (i < 4)%nat → u32_to_le_bytes (key_word (k_key key) i) = take 4 (drop (4 * i) (k_key key)))
    as Hb by (intros; by apply key_word_bytes).
  revert H0 H2. replace (w * WTBL1_ENTRY_SIZE) with (32 * w) by (unfold WTBL1_ENTRY_SIZE; lia).
  unfold WTBL3_ENTRY_SIZE. intros H0 H2. split.
  - intros i Hi. rewrite <-Hb by done.
    destruct Hw as [-> | ->]; (do 4 (destruct i as [|i]; [by reg_lookup|])); lia.
  - destruct Hw as [-> | ->]; split; by reg_lookup.
  - cbv zeta. destruct Hw as [-> | ->]; by reg_lookup.
  - cbv zeta. destruct Hw as [-> | ->]; by reg_lookup.
  - by reg_lookup.
  - intros a _ Ha. unfold key_regs in Ha. cbn [fmap list_fmap app] in Ha.
    rewrite !not_elem_of_cons in Ha. by reg_lookup.
Qed.

Lemma keyless_dw0_fields dw :
  is_u32 dw →
  is_u32 (keyless_dw0 dw) ∧ bits 26 1 (keyless_dw0 dw) = 0 ∧ bits 23 2 (keyless_dw0 dw) = 0 ∧
  Z.ldiff (keyless_dw0 dw) 0x05800000 = Z.ldiff dw 0x05800000.
Proof.
  intros Hdw. assert (keyless_dw0 dw = Z.lor (Z.ldiff dw 0x05800000) 0) as -> by by rewrite Z.lor_0_r.
  rewrite !patch_field, patch_rest, Z.lor_0_r by done. split; [by apply is_uint_ldiff|done].
Qed.

Lemma keyless_dw2_fields dw :
  is_u32 dw →
  is_u32 (keyless_dw2 dw) ∧ bits 3 4 (keyless_dw2 dw) = 0 ∧
  Z.ldiff (keyless_dw2 dw) 0x78 = Z.ldiff dw 0x78.
Proof.
  intros Hdw. assert (keyless_dw2 dw = Z.lor (Z.ldiff dw 0x78) 0) as -> by by rewrite Z.lor_0_r.
  rewrite !patch_field, patch_rest, Z.lor_0_r by done. split; [by apply is_uint_ldiff|done].
Qed.

Lemma remove_key_wp v sta key h :
  wp h0 (mt7603_mac80211_set_key K p false v sta key) (λ r h',
    r = (0, None) ∧ key_removed (key_wcid key sta) h h') h.
Proof.
  unfold mt7603_mac80211_set_key. cbn [negb]. pose proof (key_wcid_cases key sta) as Hw.
  generalize dependent (key_wcid key sta). intros w Hw.
  assert (w * WTBL1_ENTRY_SIZE = 32 * w) as -> by (unfold WTBL1_ENTRY_SIZE; lia).
  apply wp_modify_then; [done..|left; lia|]. intros Hu0.
  destruct (keyless_dw0_fields _ Hu0) as (Hd0 & H26 & H23 & Hr0). split; [done|].
  apply wp_modify_then; [done..|left; lia|]. intros Hu2. key_read Hu2 (h (WTBL1_BASE + 32 * w + 8)).
  destruct (keyless_dw2_fields _ Hu2) as (Hd2 & H3 & Hr2). split; [done|].
  apply wp_ret. split; [done|]. split.
  - cbv zeta. by reg_lookup.
  - cbv zeta. by reg_lookup.
  - intros a ? ?. by rewrite !fn_ne by done.
Qed.
End keys_main.

(** *** When something fails *)

(** Nothing is kept, and without memory nothing is sent. *)
Definition starved (K : kernel) : Prop := ∀ tr n, k_kmalloc K tr n = None.
Definition harmless (K : kernel) (e : effect) : Prop :=
  mem e = 0 ∧ urbs e = 0 ∧ (starved K → wires e = []).

#[export] Instance harmless_closed K : Closed (harmless K).
Proof.
  split; [done|]. intros e1 e2 (M1 & U1 & S1) (M2 & U2 & S2). unfold harmless. simpl.
  rewrite M1, M2, U1, U2. split_and!; [done..|]. intros HK. by rewrite S1, S2.
Qed.

Section keys_effects.
Context (K : kernel) (p : profile).

Lemma write_harmless a v :
  is_u32 a → emits (mt7603_usb_write_reg K p a v) (λ _ e, True ∧ harmless K e).
Proof.
  intros Ha tr. destruct (write_reg_emits K p a v Ha tr) as (ret & new & Heq & Hi).
  exists ret, new. split; [done|]. split; [done|].
  split_and!; [by destruct Hi as [[_ ->]|(_ & [-> | ->])]..|]. intros Hst. revert Heq.
  unfold mt7603_usb_write_reg, mbind, io_bind, kmalloc, log. rewrite Hst. intros [= _ Hnew].
  by apply app_inv_head in Hnew as <-.
Qed.

Lemma modify_harmless a f :
  is_u32 a → emits (modify_reg K p a f) (λ _ e, True ∧ harmless K e).
Proof.
  intros Ha. unfold modify_reg. eapply (closed_bind _) with (R := λ _, True).
  { eapply emits_weaken; [by apply read_reg_emits|]. by intros r e [-> _]. }
  intros [ret dw] _. destruct (ret =? 0); [|by apply (closed_ret _)].
  eapply (closed_bind _); [by apply write_harmless|]. intros _ _. by apply (closed_ret _).
Qed.

Lemma key_words_harmless n i base key :
  ((i + n) * 4 ≤ length key)%nat → (∀ j, (i ≤ j < i + n)%nat → is_u32 (base + Z.of_nat j * 4)) →
  emits (write_key_words K p n i base key) (λ _ e, True ∧ harmless K e).
Proof.
  revert i. induction n as [|n IH]; intros i Hl Hb; [by apply (closed_ret _)|].
  cbn [write_key_words]. do 4 (eapply emits_bind_call; [apply peek_nth; lia|]).
  eapply (closed_bind _); [apply write_harmless, Hb; lia|]. intros _ _.
  apply IH; [lia|]. intros j Hj. apply Hb. lia.
Qed.

Lemma set_key_emits set v sta key :
  (set = true → k_cipher key = WLAN_CIPHER_SUITE_CCMP → (16 ≤ length (k_key key))%nat) →
  emits (mt7603_mac80211_set_key K p set v sta key) (λ r e,
    r = (if set then
           if decide (k_cipher key = WLAN_CIPHER_SUITE_CCMP) then (0, Some (key_wcid key sta))
           else (EOPNOTSUPP, None)
         else (0, None)) ∧
    harmless K e).
Proof.
  intros Hl. unfold mt7603_mac80211_set_key.
  pose proof (key_wcid_cases key sta) as Hw. generalize dependent (key_wcid key sta). intros w Hw.
  assert (∀ x y, (x, y) ∈ [(WTBL1_BASE, WTBL1_ENTRY_SIZE); (WTBL1_BASE + 8, WTBL1_ENTRY_SIZE);
    (WTBL2_BASE, 64); (WTBL2_BASE + 4, 64)] → is_u32 (x + w * y)) as Hu.
  { intros x y Hxy. repeat (apply elem_of_cons in Hxy as [[= -> ->]|Hxy]); [..|by apply elem_of_nil in Hxy];
      destruct Hw as [-> | ->]; vm_decide. }
  assert (∀ a b c, a + w * b + c = a + c + w * b) as Hc by lia.
  destruct set; cbn [negb].
  - destruct (Z.eqb_spec (k_cipher key) WLAN_CIPHER_SUITE_CCMP) as [E|E]; cbn [negb];
      [rewrite decide_True by done|rewrite decide_False by done; by apply (closed_ret _)].
    eapply (closed_bind _).
    { apply key_words_harmless; [by apply Hl|]. intros j Hj.
      assert (j = 0 ∨ j = 1 ∨ j = 2 ∨ j = 3)%nat as [-> |[-> |[-> | ->]]] by lia;
        destruct Hw as [-> | ->]; vm_decide. }
    intros _ _. rewrite !Hc.
    do 2 (eapply (closed_bind _); [apply write_harmless, Hu; set_solver|]; intros _ _).
    do 2 (eapply (closed_bind _); [apply modify_harmless, Hu; set_solver|]; intros _ _).
    do 2 (eapply (closed_bind _); [apply write_harmless; vm_decide|]; intros _ _).
    by apply (closed_ret _).
  - rewrite !Hc. do 2 (eapply (closed_bind _); [apply modify_harmless, Hu; set_solver|]; intros _ _).
    by apply (closed_ret _).
Qed.
End keys_effects.

(** ** Block-ack sessions *)

(** The word that holds the sessions of slot [w], and the session of a TID in
    it: the window index, when it is enabled. *)
Definition session_reg (w : Z) : Z := 0x4003C + w * 64.
Definition session (dw t : Z) : option Z :=
  if Z.testbit dw (24 + t) then Some (bits (3 * t) 3 dw) else None.

(** The largest supported window that does not exceed the buffer. *)
Definition window_of (ba_size : Z) : Z := Z.of_nat (pred (length (filter (λ r, r ≤ ba_size) BA_RANGE))).

Record ampdu_request := AmpduReq { aq_action : ampdu_action; aq_tid : Z; aq_buf_size : Z }.
Definition ampdu_wf (q : ampdu_request) : Prop := 0 ≤ aq_tid q < 16 ∧ is_u16 (aq_buf_size q).

(** The abstract machine: a partial map from TIDs to windows. *)
Definition session_step (s : Z → option Z) (q : ampdu_request) : Z → option Z :=
  match aq_action q with
  | TX_OPERATIONAL =>
      <[aq_tid q := Some (window_of (if aq_buf_size q =? 0 then 64 else aq_buf_size q `mod` 256))]> s
  | TX_STOP_CONT | TX_STOP_FLUSH | TX_STOP_FLUSH_CONT => <[aq_tid q := None]> s
  | RX_START | RX_STOP | TX_START => s
  end.

(** The status of each call. *)
Definition ampdu_status (a : ampdu_action) : Z :=
  match a with TX_START => IEEE80211_AMPDU_TX_START_IMMEDIATE | _ => 0 end.

(** A sequence of calls, each with its own local array. *)
Fixpoint ampdu_run (K : kernel) (p : profile) (vif : bool) (sta : option (list Z))
    (calls : list (list RegWriteOp * ampdu_request)) : io (list Z) :=
  match calls with
  | [] => mret []
  | (ops, q) :: calls =>
      ret ← mt7603_mac80211_ampdu_action K p ops vif sta (aq_action q) (aq_tid q) (aq_buf_size q);
      rets ← ampdu_run K p vif sta calls;
      mret (ret :: rets)
  end.

Lemma window_of_idx s : is_u8 s → Z.of_nat (ba_idx s) = window_of s ∧ 0 ≤ window_of s < 8.
Proof.
  intros Hs. apply (range_forall (λ s, Z.of_nat (ba_idx s) = window_of s ∧ 0 ≤ window_of s < 8) 0 256 s);
    [by vm_compute|uint].
Qed.

(** The sessions after the word was rewritten. *)
Lemma session_dw15 tid k enable prev t :
  is_u32 prev → 0 ≤ tid < 8 → 0 ≤ k < 8 → 0 ≤ t < 8 →
  session (ba_dw15 tid k enable prev) t =
  (<[tid := if enable then Some k else None]> (session prev) : Z → option Z) t.
Proof.
  intros Hp Htid Hk Ht. destruct (ba_dw15_fields tid k enable prev) as [_ Hf]; [done..|].
  destruct (Hf t Ht) as [Hw Hb]. unfold session at 1. rewrite Hw, Hb.
  destruct (decide (t = tid)) as [->|Hne]; [rewrite fn_at by done; by destruct enable|].
  by rewrite fn_ne by done.
Qed.

Section ampdu_spec.
Context (K : kernel) (p : profile) (h0 : Z → Z).
Context (HK : reliable K) (Hok : kernel_ok K) (HT : table_memory K h0 station_table).

(** A session sequence writes its word; a TID out of range is refused by the
    builder, and nothing is written. *)
Lemma wp_ba_sequence w tid ba_size enable prev ops h :
  is_u8 ba_size → is_u32 prev → 0 ≤ tid → w = 0 ∨ w = 1 → length ops = 4%nat →
  wp h0 (run_sequence K p 4 (mt7603_rust_build_ba_session_sequence w tid ba_size enable prev) ops)
    (λ _ h', h' = if decide (tid < 8) then <[session_reg w := ba_dw15 tid (window_of ba_size) enable prev]> h
                  else h) h.
Proof.
  intros Hs Hp Ht Hw Hl. destruct (window_of_idx ba_size Hs) as [Hidx Hk].
  set (r := BaSession w tid ba_size enable prev). case_decide as Ht8.
  - eapply wp_weaken.
    { apply (wp_sequence K p h0 4 _ r ops (ba_session_ops w tid ba_size enable prev)); try done; [lia| |simpl; lia|].
      - unfold r. cbn [reg_request_spec]. by rewrite decide_True.
      - constructor; [|done]. cbn [addr val]. split; [destruct Hw as [-> | ->]; vm_decide|].
        rewrite Hidx. by apply ba_dw15_fields. }
    cbn beta. intros ops' h' [_ ->]. unfold ba_session_ops. by rewrite Hidx.
  - unfold run_sequence. eapply (wp_bind h0 _ _ (λ out h', out = (EINVAL, Some ops, Some 0%nat) ∧ h' = h)).
    { eapply wp_call; [|done]. change (mt7603_rust_build_ba_session_sequence w tid ba_size enable prev) with (reg_entry r).
      rewrite reg_entry_result by (done || lia). unfold r. cbn [reg_request_spec]. by rewrite decide_False. }
    intros ? ? [-> ->]. by apply wp_ret with (Q := λ _ h', h' = h).
Qed.

(** The registers the callback may change. *)
Definition ampdu_regs (w : Z) : list Z := [session_reg w; RMAC_BA_CONTROL_0; RMAC_BA_CONTROL_1].

Definition ampdu_wcid (sta : option (list Z)) : Z := if has_addr sta then 1 else 0.

(** From registers [h] to [h'], the sessions of slot [w] went from [s] to
    [s'], and nothing else changed. *)
Definition sessions_step (w : Z) (q : ampdu_request) (h h' : Z → Z) : Prop :=
  (∀ t, 0 ≤ t < 8 →
     session (h' (session_reg w)) t = session_step (session (h (session_reg w))) q t) ∧
  (∀ a, a ∉ ampdu_regs w → h' a = h a).

Lemma sessions_same w q h :
  session_step (session (h (session_reg w))) q = session (h (session_reg w)) → sessions_step w q h h.
Proof. intros Hs. split; [|done]. intros t _. by rewrite Hs. Qed.

Lemma sessions_write w tid k (enable : bool) prev q h :
  is_u32 (h (session_reg w)) → prev = h (session_reg w) → 0 ≤ tid < 16 → 0 ≤ k < 8 →
  session_step (session (h (session_reg w))) q =
    (<[tid := if enable then Some k else None]> (session (h (session_reg w))) : Z → option Z) →
  sessions_step w q h (if decide (tid < 8) then <[session_reg w := ba_dw15 tid k enable prev]> h else h).
Proof.
  intros Hu -> Ht Hk Hq. split.
  - intros t Htt. rewrite Hq. case_decide; [by rewrite fn_at, session_dw15 by (done || lia)|].
    by rewrite fn_ne by lia.
  - intros a Ha. case_decide; [|done]. unfold ampdu_regs in Ha. rewrite !not_elem_of_cons in Ha.
    by rewrite fn_ne by naive_solver.
Qed.

Lemma addr_words_u32 addr :
  Forall is_u8 addr → is_u32 (addr_lo addr) ∧ is_u32 (addr_hi addr).
Proof.
  intros Ha. assert (∀ k, is_u32 (nth k addr 0)) by (intros; by apply is_u8_u32, Forall_nth_u8).
  unfold addr_lo, addr_hi. split; eauto 10 with rust.
Qed.

Lemma ampdu_wp ops v sta q h :
  length ops = 4%nat → ampdu_wf q → from_option (Forall is_u8) True sta →
  wp h0 (mt7603_mac80211_ampdu_action K p ops v sta (aq_action q) (aq_tid q) (aq_buf_size q))
    (λ ret h', ret = ampdu_status (aq_action q) ∧ sessions_step (ampdu_wcid sta) q h h') h.
Proof.
  intros Hl [Ht Hb] Hsta. unfold mt7603_mac80211_ampdu_action. fold (ampdu_wcid sta).
  set (w := ampdu_wcid sta). assert (w = 0 ∨ w = 1) as Hw by (unfold w, ampdu_wcid; destruct (has_addr sta); auto).
  replace (0x00040000 + w * 64 + 15 * 4) with (session_reg w) by (unfold session_reg; lia).
  eapply (wp_bind h0 _ _ (λ r h', r = (0, h (session_reg w)) ∧ h' = h ∧ is_u32 (h (session_reg w)))).
  { apply (wp_read K p h0 station_table); [done..| |done].
    right. unfold session_reg, WTBL2_BASE. lia. }
  intros ? ? (-> & -> & Hu).
  assert (wrap 8 (aq_tid q) = aq_tid q) as -> by (unfold wrap; rewrite Z.mod_small by (pow2; lia); done).
  assert (∀ n, is_u8 (wrap 8 n)) as H8 by (intros; by apply is_uint_wrap).
  assert (∀ n, 0 ≤ window_of (wrap 8 n) < 8) as Hwin by (intros; by apply window_of_idx).
  assert (ampdu_status (aq_action q) = 0 →
    session_step (session (h (session_reg w))) q =
      (<[aq_tid q := None]> (session (h (session_reg w))) : Z → option Z) →
    wp h0 (_ ← run_sequence K p 4 (mt7603_rust_build_ba_session_sequence w (aq_tid q) 0 false
             (h (session_reg w))) ops;
           (if v && bool_decide (is_Some sta) then call_kernel (StopTxBa (aq_tid q)) else mret tt) ;;
           mret 0) (λ ret h', ret = ampdu_status (aq_action q) ∧ sessions_step w q h h') h) as Hstop.
  { intros Hst Hq. eapply wp_bind; [apply wp_ba_sequence; done || lia|]. cbn beta. intros ops' ? ->.
    eapply wp_bind with (P := λ _ h', h' = _).
    { destruct (v && _); [by apply wp_kernel|by apply wp_ret]. }
    cbn beta. intros _ ? ->. apply wp_ret. split; [done|].
    by apply sessions_write; [..|vm_decide|]. }
  assert (∀ ret h', ampdu_status (aq_action q) = ret → sessions_step w q h h' →
    ret = ampdu_status (aq_action q) ∧ sessions_step w q h h') as Hpost by done.
  destruct (aq_action q) eqn:Ea; cbn [ampdu_status] in *.
  - assert (sessions_step w q h h) as Hsame by (apply sessions_same; unfold session_step; by rewrite Ea).
    destruct sta as [addr|]; [|by apply wp_ret, Hpost].
    destruct (is_zero_ether_addr addr); cbn [negb]; [by apply wp_ret, Hpost|].
    destruct (addr_words_u32 addr Hsta) as [Hlo Hhi].
    apply wp_write_then; [done|vm_decide|done|]. apply wp_write_then; [done|vm_decide| |].
    { apply is_uint_lor; [apply is_uint_lor; [done|apply is_uint_shl32]|vm_decide]. }
    apply wp_ret, Hpost; [done|]. split.
    + intros t Htt. rewrite !fn_ne by (unfold session_reg, RMAC_BA_CONTROL_0, RMAC_BA_CONTROL_1; lia).
      by apply Hsame.
    + intros a Ha. unfold ampdu_regs in Ha. rewrite !not_elem_of_cons in Ha. by rewrite !fn_ne by naive_solver.
  - apply wp_ret, Hpost; [done|]. apply sessions_same. unfold session_step. by rewrite Ea.
  - apply wp_ret, Hpost; [done|]. apply sessions_same. unfold session_step. by rewrite Ea.
  - eapply wp_bind; [apply wp_ba_sequence; done || lia|]. cbn beta. intros ops' ? ->.
    apply wp_ret, Hpost; [done|]. apply sessions_write; [done..|apply Hwin|].
    unfold session_step. rewrite Ea. by destruct (aq_buf_size q =? 0).
  - apply Hstop; [done|]. unfold session_step. by rewrite Ea.
  - apply Hstop; [done|]. unfold session_step. by rewrite Ea.
  - apply Hstop; [done|]. unfold session_step. by rewrite Ea.
Qed.
End ampdu_spec.

(** ** Properties *)

(** C23. On a device whose transfers succeed and whose station table is
    memory, installing a CCMP key leaves the sixteen key bytes in the key
    memory of the slot (1 for a pairwise key or a station with an address, 0
    otherwise), the packet number at 1, and the entry marked: key index, CCMP
    suite, valid, and receiving except for the group key of an access point;
    it reports the slot.  No other field of the two control words and no other
    register changes.  Removing a key clears the key index, the
    receive-key-valid bit and the suite, and nothing else. *)
Theorem set_key_programs_entry K p h0 v sta key h :
  reliable K → kernel_ok K → table_memory K h0 station_table →
  k_cipher key = WLAN_CIPHER_SUITE_CCMP → (16 ≤ length (k_key key))%nat → Forall is_u8 (k_key key) →
  let w := key_wcid key sta in
  wp h0 (mt7603_mac80211_set_key K p true v sta key) (λ r h',
    r = (0, Some w) ∧ key_installed w (negb (w =? 0) || negb (is_ap v)) key h h') h ∧
  wp h0 (mt7603_mac80211_set_key K p false v sta key) (λ r h',
    r = (0, None) ∧ key_removed w h h') h.
Proof. intros. split; [by apply set_key_wp|by apply remove_key_wp]. Qed.

Lemma station_table_mapped a : station_table a → mapped a.
Proof.
  unfold station_table, WTBL1_BASE, WTBL2_BASE. intros [Ha|Ha]; unfold mapped; apply Exists_exists.
  - exists {| base := 0x60320000; start := 0x28000; len := 0x4000 |}. split; [set_solver|].
    unfold in_window. simpl. lia.
  - exists {| base := 0xa5000000; start := 0x40000; len := 0x40000 |}. split; [set_solver|].
    unfold in_window. simpl. lia.
Qed.

Definition sample_key : key_conf :=
  KeyConf true WLAN_CIPHER_SUITE_CCMP 2 [1; 2; 3; 4; 5; 6; 7; 8; 9; 10; 11; 12; 13; 14; 15; 16].
Definition erased : Z → Z := λ _, 0xffffffff.

Lemma erased_kernel : reliable (bank_kernel erased) ∧ kernel_ok (bank_kernel erased) ∧
  table_memory (bank_kernel erased) erased station_table.
Proof.
  assert (∀ a, is_u32 (erased a)) as Hu by (intros; vm_decide).
  destruct (bank_kernel_ok erased Hu). split_and!; [done..|]. by apply bank_table, station_table_mapped.
Qed.

Lemma set_key_programs_entry_witness :
  ∃ tr h', mt7603_mac80211_set_key (bank_kernel erased) Release true None None sample_key [] =
      Done ((0, Some 1), tr) ∧ regs_are erased tr h' ∧
    key_installed 1 true sample_key erased h'.
Proof.
  destruct (set_key_programs_entry (bank_kernel erased) Release erased None None sample_key erased
    (proj1 erased_kernel) (proj1 (proj2 erased_kernel)) (proj2 (proj2 erased_kernel)) eq_refl
    ltac:(simpl; lia) ltac:(vm_decide)) as [Hi _].
  destruct (Hi [] (λ _ _, eq_refl)) as (r & tr & h' & Heq & Hr & Hst & Hk). rewrite Hst in Heq.
  exists tr, h'. split; [exact Heq|]. split; [exact Hr|exact Hk].
Defined.

(** What the caller learns about a key: only a cipher other than CCMP is
    refused (-EOPNOTSUPP, nothing sent).  In every other case the callback
    returns 0, and for an installation it hands out the hardware slot, so that
    mac80211 leaves the encryption to the device - also when no transfer got
    through.  It always returns, and keeps no memory and no URB. *)
Theorem set_key_reports K p set v sta key :
  (set = true → k_cipher key = WLAN_CIPHER_SUITE_CCMP → (16 ≤ length (k_key key))%nat) →
  emits (mt7603_mac80211_set_key K p set v sta key) (λ r e,
    mem e = 0 ∧ urbs e = 0 ∧
    r = (if set then
           if decide (k_cipher key = WLAN_CIPHER_SUITE_CCMP) then (0, Some (key_wcid key sta))
           else (EOPNOTSUPP, None)
         else (0, None)) ∧
    (starved K → wires e = [])).
Proof.
  intros Hl. eapply emits_weaken; [by apply set_key_emits|]. cbn beta.
  intros r e (-> & Hm & Hu & Hs). done.
Qed.

(** A kernel without memory. *)
Definition starved_kernel : kernel := {|
  k_kmalloc := λ _ _, None;
  k_control_in := k_control_in good_kernel;
  k_control_out := k_control_out good_kernel;
  k_bulk_out := k_bulk_out good_kernel;
  k_alloc_urb := k_alloc_urb good_kernel;
  k_submit_urb := k_submit_urb good_kernel;
  k_wait := k_wait good_kernel;
|}.

Lemma set_key_reports_witness :
  ∃ new, mt7603_mac80211_set_key starved_kernel Release true None None sample_key [] =
      Done ((0, Some 1), new) ∧ wires (effect_of new) = [].
Proof.
  destruct (set_key_reports starved_kernel Release true None None sample_key
    ltac:(intros; simpl; lia) []) as (r & new & Heq & _ & _ & Hr & Hs).
  exists new. rewrite Hr in Heq. split; [exact Heq|]. by apply Hs.
Defined.

Lemma session_step_local s1 s2 qs t :
  s1 t = s2 t → foldl session_step s1 qs t = foldl session_step s2 qs t.
Proof.
  revert s1 s2. induction qs as [|q qs IH]; intros s1 s2 Hs; [done|]. cbn [foldl]. apply IH.
  unfold session_step. destruct (aq_action q); try done;
    (destruct (decide (aq_tid q = t)); [by rewrite !fn_at|by rewrite !fn_ne by done]).
Qed.

(** When the read of the session word fails, the zero in its place is written
    back: the sessions of the other TIDs are gone. *)
Lemma ampdu_read_failure K p ops v sta tid buf_size :
  (∀ tr q v i, (k_control_in K tr q v i).1 < 0) →
  length ops = 4%nat → 0 ≤ tid < 8 →
  emits (mt7603_mac80211_ampdu_action K p ops v sta TX_OPERATIONAL tid buf_size) (λ _ e,
    ∃ k, attempts [hif_write (session_reg (ampdu_wcid sta)) (ba_dw15 tid k true 0)] (wires e)).
Proof.
  intros Hin Hl Ht. unfold mt7603_mac80211_ampdu_action. fold (ampdu_wcid sta).
  assert (ampdu_wcid sta = 0 ∨ ampdu_wcid sta = 1) as Hw by (unfold ampdu_wcid; destruct (has_addr sta); auto).
  assert (is_u32 (262144 + ampdu_wcid sta * 64 + 15 * 4)) as Ha by (destruct Hw as [-> | ->]; vm_decide).
  assert (is_u8 (wrap 8 (if buf_size =? 0 then 64 else buf_size))) as Hb by by apply is_uint_wrap.
  replace (wrap 8 tid) with tid by (unfold wrap; rewrite Z.mod_small; [done|pow2; lia]).
  eapply emits_bind with (P := λ r e, r.2 = 0 ∧ e = quiet).
  { intros tr. destruct (read_reg_emits K p _ 0 Ha tr) as (r & new & Heq & He & Hr).
    exists r, new. split; [done|]. split; [|done]. destruct Hr as [[Hr _]|[_ Hr]]; [|done].
    exfalso. revert Heq. unfold mt7603_usb_read_reg, mbind, io_bind, kmalloc, log.
    destruct (k_kmalloc K tr 4); [|intros [= <- _]; discriminate].
    unfold call, mt7603_rust_map_register_addr. rewrite physical_addr_map_translate by done.
    cbn [mbind outcome_bind mret outcome_ret]. unfold usb_control_in, kfree, log. cbn beta iota zeta.
    match goal with |- context [k_control_in K ?t ?q ?x ?i] => pose proof (Hin t q x i);
      destruct (k_control_in K t q x i) as [ret w] end.
    cbn [fst snd] in *. cbn beta iota zeta. rewrite (proj2 (Z.leb_gt 0 ret)) by done.
    intros [= <- _]. cbn [fst] in Hr. lia. }
  cbn beta. intros [ret dw] e [Hdw ->]. cbn [snd] in Hdw. subst dw.
  set (n := wrap 8 _) in *. eapply emits_bind.
  { apply (run_sequence_emits K p 4 _ (BaSession (ampdu_wcid sta) tid n true 0) ops
      (ba_session_ops (ampdu_wcid sta) tid n true 0)); try done.
    - lia.
    - cbn [reg_request_spec]. by rewrite decide_True by lia.
    - simpl. lia.
    - constructor; [|done]. destruct Hw as [-> | ->]; vm_decide. }
  cbn beta. intros ops' e [_ [Hat _ _ _]]. io_ret. rewrite eff_quiet_l. eexists. exact Hat.
Qed.

(** C24. On such a device the block-ack callback implements a partial map from
    the eight TIDs to windows: after any sequence of calls for one station,
    the sessions in the station's table word are those the abstract machine
    gives - started with the largest supported window that does not exceed the
    buffer (64 when it is not given), ended by each of the three stop actions,
    untouched by the other TIDs and the other actions -, the calls return
    IMMEDIATE for a start request and 0 otherwise, and only the station's
    session word and the two receive-session registers are ever written. *)
Theorem ampdu_refines_sessions K p h0 vif sta calls h :
  reliable K → kernel_ok K → table_memory K h0 station_table →
  from_option (Forall is_u8) True sta →
  Forall (λ c, length c.1 = 4%nat ∧ ampdu_wf c.2) calls →
  let w := ampdu_wcid sta in
  wp h0 (ampdu_run K p vif sta calls) (λ rets h',
    rets = (λ c, ampdu_status (aq_action c.2)) <$> calls ∧
    (∀ t, 0 ≤ t < 8 → session (h' (session_reg w)) t =
       foldl session_step (session (h (session_reg w))) (snd <$> calls) t) ∧
    (∀ a, a ∉ ampdu_regs w → h' a = h a)) h.
Proof.
  intros HK Hok HT Hsta Hcalls w. revert h.
  induction Hcalls as [|[ops q] calls [Hl Hq] _ IH]; intros h; [by apply wp_ret|].
  cbn [ampdu_run fst snd fmap list_fmap foldl] in *.
  eapply wp_bind; [by apply (ampdu_wp K p h0)|]. cbn beta. intros ret h1 (-> & Hs1 & Hf1).
  eapply wp_bind; [apply IH|]. cbn beta. intros rets h2 (-> & Hs2 & Hf2). apply wp_ret.
  split; [done|]. split; [|intros a Ha; by rewrite Hf2, Hf1].
  intros t Ht. rewrite Hs2 by done. by apply session_step_local, Hs1.
Qed.

Lemma ampdu_refines_sessions_witness :
  let ops := replicate 4 (0 ↤ 0) in
  let calls := [(ops, AmpduReq TX_OPERATIONAL 0 64); (ops, AmpduReq TX_OPERATIONAL 5 0);
                (ops, AmpduReq TX_STOP_FLUSH 0 0); (ops, AmpduReq TX_START 3 0)] in
  ∃ tr h', ampdu_run (bank_kernel (λ _, 0)) Release true (Some [2; 0; 0; 0; 0; 1]) calls [] =
      Done ([0; 0; 0; 1], tr) ∧
    session (h' (session_reg 1)) 0 = None ∧ session (h' (session_reg 1)) 5 = Some 7.
Proof.
  cbv zeta. assert (∀ a : Z, is_u32 ((λ _, 0) a)) as Hu by (intros; vm_decide).
  destruct (bank_kernel_ok _ Hu) as [HK Hok].
  destruct (ampdu_refines_sessions (bank_kernel (λ _, 0)) Release (λ _, 0) true (Some [2; 0; 0; 0; 0; 1])
    [(replicate 4 (0 ↤ 0), AmpduReq TX_OPERATIONAL 0 64); (replicate 4 (0 ↤ 0), AmpduReq TX_OPERATIONAL 5 0);
     (replicate 4 (0 ↤ 0), AmpduReq TX_STOP_FLUSH 0 0); (replicate 4 (0 ↤ 0), AmpduReq TX_START 3 0)]
    (λ _, 0) HK Hok (bank_table _ _ station_table_mapped) ltac:(vm_decide)
    ltac:(repeat constructor; vm_decide) [] (λ _ _, eq_refl)) as (rets & tr & h' & Heq & _ & Hr & Hs & _).
  exists tr, h'. rewrite Hr in Heq. split; [exact Heq|].
  change 1 with (ampdu_wcid (Some [2; 0; 0; 0; 0; 1])).
  split; [rewrite (Hs 0 ltac:(lia))|rewrite (Hs 5 ltac:(lia))]; by vm_compute.
Defined.
