(* ===== verification/Vif.v ===== *)
(** * Interfaces, receive filter, BSS and stations (src/c/mac80211.c)

    The callbacks that follow mac80211's configuration: interfaces added and
    removed, the receive filter, changes of the BSS, stations, and the removal
    of the driver.  They ignore the results of their transfers. *)

From S2P Require Import Prelude Rust Ffi Regmap Mac Mcu Sta Ap Entry Usb Device Cmd Plan Dev Driver Bank Keys.
From stdpp Require Import functions.
Local Open Scope Z_scope.
Local Open Scope rust_scope.

(** Filter flags of mac80211, as the kernel's header numbers them. *)
Definition FIF_ALLMULTI : Z := 1 ≪ 1.
Definition FIF_FCSFAIL : Z := 1 ≪ 2.
Definition FIF_PLCPFAIL : Z := 1 ≪ 3.
Definition FIF_BCN_PRBRESP_PROMISC : Z := 1 ≪ 4.
Definition FIF_CONTROL : Z := 1 ≪ 5.
Definition FIF_OTHER_BSS : Z := 1 ≪ 6.
Definition FIF_PSPOLL : Z := 1 ≪ 7.

Definition RMAC_CB0R0 : Z := 0x00021804.
Definition RMAC_CB0R1 : Z := 0x00021808.

(** [(flags & f) != 0] *)
Definition has_flag (flags f : Z) : bool := negb (Z.land flags f =? 0).

(** The parts of the [changed] bit set the driver looks at. *)
Record bss_changes := BssChanges {
  ch_beacon : bool; ch_beacon_enabled : bool; ch_beacon_int : bool; ch_bssid : bool; ch_assoc : bool
}.
(** What it reads of an [ieee80211_bss_conf]; [None] stands for a null pointer
    on the way to a channel, or to the address. *)
Record bss_conf := BssConf {
  bi_bssid : option (list Z); bi_oper_channel : option Z; bi_enable_beacon : bool;
  bi_beacon_int : Z; bi_bss_channel : option Z
}.

Section vif.
Variable K : kernel.
Variable p : profile.

(** ** Interfaces and the receive filter *)

(** The two words of the BSSID registers; bit 16 makes the entry valid. *)
Definition write_bssid (addr : list Z) : io Z :=
  _ ← mt7603_usb_write_reg K p RMAC_CB0R0 (addr_lo addr);
  mt7603_usb_write_reg K p RMAC_CB0R1 (Z.lor (addr_hi addr) (shl32 1 16)).

(** [ops] is the local array of 32 entries, here and in the next functions. *)
Definition mt7603_mac80211_add_interface (ops : list RegWriteOp) (dev : Dev.t) (v : vif)
    : io (Z * Dev.t) :=
  '(ops, dev) ← (if bool_decide (vif_type v = MONITOR) then
      let dev := Dev.set_monitor_count dev (Dev.monitor_count dev + 1) in
      ops ← (if Dev.running dev then
               run_sequence K p 4 (mt7603_rust_build_rx_filter_sequence true
                 (has_flag (Dev.filter_flags dev) FIF_FCSFAIL)) ops
             else mret ops);
      mret (ops, dev)
    else mret (ops, dev));
  if negb (is_zero_ether_addr (vif_addr v)) then
    _ ← run_sequence K p 32 (mt7603_rust_build_own_mac_sequence (Some (vif_addr v))) ops;
    if bool_decide (vif_type v = AP) then
      _ ← write_bssid (vif_addr v); mret (0, Dev.set_ap_vif dev (Some (vif_id v)))
    else mret (0, dev)
  else mret (0, dev).

(** [ops] has 4 entries. *)
Definition mt7603_mac80211_remove_interface (ops : list RegWriteOp) (dev : Dev.t) (v : vif)
    : io Dev.t :=
  dev ← (if bool_decide (vif_type v = MONITOR) then
      let dev := if 0 <? Dev.monitor_count dev
                 then Dev.set_monitor_count dev (Dev.monitor_count dev - 1) else dev in
      (if (Dev.monitor_count dev =? 0) && Dev.running dev then
         _ ← run_sequence K p 4 (mt7603_rust_build_rx_filter_sequence false false) ops; mret tt
       else mret tt) ;;
      mret dev
    else mret dev);
  if bool_decide (Dev.ap_vif dev = Some (vif_id v)) then
    let dev := Dev.set_beacon_enabled dev false in
    call_kernel CancelBeaconWork ;;
    mret (Dev.set_ap_vif dev None)
  else mret dev.

(** Returns the flags it supports of those offered. *)
Definition mt7603_mac80211_configure_filter (ops : list RegWriteOp) (dev : Dev.t)
    (total_flags flags : Z) : io (Z * Dev.t) :=
  let dev := Dev.set_filter_flags dev flags in
  let total_flags := Z.land total_flags
    (Z.lor (Z.lor (Z.lor (Z.lor (Z.lor (Z.lor FIF_ALLMULTI FIF_BCN_PRBRESP_PROMISC) FIF_CONTROL)
      FIF_OTHER_BSS) FIF_FCSFAIL) FIF_PLCPFAIL) FIF_PSPOLL) in
  (if Dev.running dev then
     let promisc := (0 <? Dev.monitor_count dev) || has_flag flags FIF_BCN_PRBRESP_PROMISC in
     let fcs_fail := has_flag flags FIF_FCSFAIL in
     _ ← run_sequence K p 4 (mt7603_rust_build_rx_filter_sequence promisc fcs_fail) ops; mret tt
   else mret tt) ;;
  mret (total_flags, dev).

(** ** Stations *)

(** [if (ch && ch->hw_value != dev->current_channel) mt7603_set_channel(...)] *)
Definition tune (stack : list Z) (dev : Dev.t) (ch : option Z) : io Dev.t :=
  match ch with
  | Some ch =>
      if negb (ch =? Dev.current_channel dev) then
        '(_, dev) ← mt7603_set_channel K p stack dev ch; mret dev
      else mret dev
  | None => mret dev
  end.

(** The station table from [addr], and the session word of slot 1 cleared. *)
Definition apply_wtbl (ops : list RegWriteOp) (addr : list Z) : io unit :=
  out ← call (mt7603_rust_build_wtbl_sta_sequence (Some addr) (Some ops) 32 (Some 0%nat));
  match out with
  | (ret, Some ops, Some written) =>
      if (ret =? 0) && bool_decide (0 < written)%nat then
        _ ← mt7603_execute_reg_ops K p (take written ops);
        _ ← mt7603_usb_write_reg K p 0x0004007C 0;
        mret tt
      else mret tt
  | _ => undefined
  end.

(** [entry] is what [cfg80211_get_bss] finds in the scan cache: an entry, with
    its channel if it has one. *)
Definition mt7603_mac80211_sta_add (stack : list Z) (ops : list RegWriteOp) (dev : Dev.t)
    (v : option vif) (sta_addr : list Z) (entry : option (option Z)) : io (Z * Dev.t) :=
  let valid := negb (is_zero_ether_addr sta_addr) in
  dev ← (if negb (is_ap v) && valid then
      match entry with
      | Some channel => tune stack dev channel
      | None => tune stack dev (v ≫= vif_channel)
      end
    else mret dev);
  if valid then
    (if negb (is_ap v) then _ ← write_bssid sta_addr; mret tt else mret tt) ;;
    apply_wtbl ops sta_addr ;;
    mret (0, dev)
  else mret (0, dev).

(** The address words of the table entry of slot 1. *)
Definition clear_entry : io unit :=
  _ ← mt7603_usb_write_reg K p 0x00028020 0;
  _ ← mt7603_usb_write_reg K p 0x00028024 0;
  _ ← mt7603_usb_write_reg K p 0x00028028 0;
  mret tt.
Definition clear_bssid : io unit :=
  _ ← mt7603_usb_write_reg K p RMAC_CB0R0 0;
  _ ← mt7603_usb_write_reg K p RMAC_CB0R1 0;
  mret tt.

Definition mt7603_mac80211_sta_remove (v : option vif) : io Z :=
  (if negb (is_ap v) then clear_bssid else mret tt) ;;
  clear_entry ;;
  mret 0.

(** ** Changes of the BSS *)

(** [dw &= ~(0x3 << 24)] on RMACDR: one BSSID. *)
Definition single_bssid : io unit := modify_reg K p RMAC_RMACDR (λ dw, Z.ldiff dw (0x3 ≪ 24)).

(** The part for an access point's own interface. *)
Definition bss_own_vif (ops : list RegWriteOp) (dev : Dev.t) (v : option vif)
    : io (list RegWriteOp * Dev.t) :=
  match v with
  | Some v =>
      if bool_decide (vif_type v = AP) && negb (is_zero_ether_addr (vif_addr v)) then
        let dev := Dev.set_ap_vif dev (Some (vif_id v)) in
        ops ← run_sequence K p 32 (mt7603_rust_build_own_mac_sequence (Some (vif_addr v))) ops;
        _ ← write_bssid (vif_addr v);
        single_bssid ;;
        mret (ops, dev)
      else mret (ops, dev)
  | None => mret (ops, dev)
  end.

(** The beacon part, entered when one of the beacon bits is set. *)
Definition bss_beacon (ops : list RegWriteOp) (dev : Dev.t) (v : option vif) (info : option bss_conf)
    (changed : bss_changes) : io (list RegWriteOp * Dev.t) :=
  '(ops, dev) ← bss_own_vif ops dev v;
  if from_option bi_enable_beacon false info then
    let bint := from_option bi_beacon_int 0 info in
    let dev := Dev.set_beacon_enabled (Dev.set_beacon_int dev (if bint =? 0 then 100 else bint)) true in
    ops ← run_sequence K p 32 (mt7603_rust_build_ap_bss_sync_sequence (Dev.beacon_int dev) true) ops;
    call_kernel (ScheduleBeaconWork 0) ;;
    mret (ops, dev)
  else if ch_beacon_enabled changed then
    let dev := Dev.set_beacon_enabled dev false in
    call_kernel CancelBeaconWork ;;
    ops ← run_sequence K p 32 (mt7603_rust_build_ap_bss_sync_sequence 0 false) ops;
    mret (ops, dev)
  else mret (ops, dev).

(** The association part with a BSSID: tune, program the BSSID, the table. *)
Definition bss_join (stack : list Z) (ops : list RegWriteOp) (dev : Dev.t) (v : option vif)
    (info : option bss_conf) (bssid : list Z) (entry : option (option Z)) : io Dev.t :=
  dev ← (match entry with
         | Some channel => tune stack dev channel
         | None =>
             match info ≫= bi_bss_channel with
             | Some ch => tune stack dev (Some ch)
             | None => tune stack dev (v ≫= vif_channel)
             end
         end);
  r ← mt7603_usb_write_reg K p RMAC_CB0R0 (addr_lo bssid);
  (if r =? 0 then
     _ ← mt7603_usb_write_reg K p RMAC_CB0R1 (Z.lor (addr_hi bssid) (shl32 1 16)); mret tt
   else mret tt) ;;
  single_bssid ;;
  (if negb (is_ap v) then apply_wtbl ops bssid else mret tt) ;;
  mret dev.

Definition mt7603_mac80211_bss_info_changed (stack : list Z) (ops : list RegWriteOp) (dev : Dev.t)
    (v : option vif) (info : option bss_conf) (changed : bss_changes) (entry : option (option Z))
    : io Dev.t :=
  dev ← tune stack dev (info ≫= bi_oper_channel);
  '(ops, dev) ← (if ch_beacon changed || ch_beacon_enabled changed || ch_beacon_int changed
                 then bss_beacon ops dev v info changed else mret (ops, dev));
  if ch_bssid changed || ch_assoc changed then
    match info ≫= bi_bssid with
    | Some bssid =>
        if negb (is_zero_ether_addr bssid) then bss_join stack ops dev v info bssid entry
        else if negb (is_ap v) then clear_bssid ;; clear_entry ;; mret dev else mret dev
    | None => if negb (is_ap v) then clear_bssid ;; clear_entry ;; mret dev else mret dev
    end
  else mret dev.

(** ** Removal of the driver

    The rest of mt7603_unregister_mac80211 gives the handle back to mac80211. *)

Definition mt7603_unregister_mac80211 (dev : Dev.t) : io Dev.t :=
  let dev := Dev.set_beacon_enabled (Dev.set_running dev false) false in
  call_kernel CancelBeaconWork ;;
  dev ← mt7603_stop_rx dev;
  call_kernel KillAnchored ;;
  mret dev.
End vif.

(** ** The state the callbacks keep

    Whatever happens on the bus, the driver's own state depends on the
    callbacks alone; [soft] is the part of it that says what mac80211 asked
    for. *)

Record soft_state := Soft {
  as_running : bool; as_monitors : Z; as_filter : Z; as_ap : option nat;
  as_beacon : bool; as_beacon_int : Z
}.
#[export] Instance soft_state_eq_dec : EqDecision soft_state.
Proof. solve_decision. Defined.

Definition soft (d : Dev.t) : soft_state :=
  Soft (Dev.running d) (Dev.monitor_count d) (Dev.filter_flags d) (Dev.ap_vif d)
    (Dev.beacon_enabled d) (Dev.beacon_int d).

(** The invariant: fields in range, a registered channel or none yet, a
    command sequence number below 16, and a beacon interval while beaconing. *)
Record driver_inv (d : Dev.t) : Prop := {
  di_wf : Dev.wf d;
  di_channel : 0 ≤ Dev.current_channel d ≤ 14 ∧ 0 ≤ Dev.current_bw d ≤ 1;
  di_seq : 0 ≤ Dev.cmd_seq d ≤ 15;
  di_monitors : 0 ≤ Dev.monitor_count d;
  di_beacon : Dev.beacon_enabled d = true → 0 < Dev.beacon_int d;
}.

Definition rings_of (d : Dev.t) : list rx_urb * bool * bool := (Dev.rx_urbs d, Dev.cmd_urb d, Dev.cmd_buf d).

(** From [d], a callback that leaves the rings alone may end in [d'], with the
    state [s]. *)
Definition goes (d : Dev.t) (s : soft_state) (d' : Dev.t) : Prop :=
  driver_inv d' ∧ rings_of d' = rings_of d ∧ soft d' = s.

Lemma initial_inv : driver_inv Dev.initial.
Proof. split; [vm_decide|simpl; lia..|done]. Qed.

Lemma goes_refl d : driver_inv d → goes d (soft d) d.
Proof. done. Qed.

Lemma goes_inv d s d' : goes d s d' → driver_inv d'.
Proof. by intros [? _]. Qed.

(** *** Transfers that take nothing *)

Section steady.
Context (K : kernel) (p : profile).

Lemma write_steady a v : is_u32 a → emits (mt7603_usb_write_reg K p a v) (λ _ e, True ∧ steady e).
Proof.
  intros Ha. eapply emits_weaken; [by apply write_plan|]. cbn beta. intros r e [_ Hp].
  split; [done|by eapply performs_steady].
Qed.

Lemma modify_steady a f : is_u32 a → emits (modify_reg K p a f) (λ _ e, True ∧ steady e).
Proof.
  intros Ha. eapply emits_weaken; [by apply modify_harmless|]. by intros _ e [_ (? & ? & _)].
Qed.

Lemma reg_request_addrs r seq :
  reg_request_wf r → (∀ wcid tid n en prev, r = BaSession wcid tid n en prev → wcid = 0 ∨ wcid = 1) →
  reg_request_spec r = Ok seq → Forall (λ op, is_u32 (addr op)) seq.
Proof.
  intros _ Hba. destruct r; cbn [reg_request_spec].
  - intros [= <-]. apply static_addrs.
  - case_decide; [|done]. intros [= <-]. vm_decide.
  - intros [= <-]. apply own_mac_addrs.
  - intros [= <-]. apply wtbl_sta_addrs.
  - intros [= <-]. unfold bss_sync_ops. destruct enable; repeat constructor; vm_decide.
  - intros [= <-]. repeat constructor; vm_decide.
  - case_decide; [|done]. intros [= <-]. constructor; [|done].
    destruct (Hba _ _ _ _ _ eq_refl) as [-> | ->]; vm_decide.
Qed.

Lemma run_sequence_steady max f r ops :
  reg_request_wf r → (max ≤ length ops)%nat →
  (∀ wcid tid n en prev, r = BaSession wcid tid n en prev → wcid = 0 ∨ wcid = 1) →
  f (Some ops) max (Some 0%nat) = reg_entry r (Some ops) max (Some 0%nat) →
  emits (run_sequence K p max f ops) (λ ops' e, length ops' = length ops ∧ steady e).
Proof.
  intros Hwf Hl Hba Hf. rewrite (reg_entry_result r ops max 0 Hwf Hl) in Hf. unfold run_sequence.
  eapply emits_bind_call; [exact Hf|]. unfold entry_result.
  assert (∀ (b : bool) ops' n, Forall (λ op, is_u32 (addr op)) (take n ops') →
    emits ((if b then _ ← mt7603_execute_reg_ops K p (take n ops'); mret tt else mret tt) ;; mret ops')
      (λ ops'' e, ops'' = ops' ∧ steady e)) as Hex.
  { intros b ops' n HF. apply (closed_bind _ _ _ (λ _, True)); [|by intros; apply (closed_ret _)].
    destruct b; [|by apply (closed_ret _)].
    apply (closed_bind _ _ _ (λ _, True)); [|by intros; apply (closed_ret _)].
    eapply emits_weaken; [by apply execute_plan|]. intros ? ? [_ ?]. split; [done|by eapply performs_steady]. }
  destruct (reg_request_spec r) as [seq|err] eqn:Es; [case_decide as Hfit|].
  - eapply emits_weaken; [apply (Hex _ ops 0%nat); by constructor|]. by intros ? ? [-> ?].
  - eapply emits_weaken; [apply Hex|].
    + rewrite take_app_length. by eapply reg_request_addrs.
    + intros ? ? [-> ?]. split; [|done]. list_len.
  - eapply emits_weaken; [apply (Hex _ ops 0%nat); by constructor|]. by intros ? ? [-> ?].
Qed.
End steady.

Lemma channel_goes d ch bw :
  driver_inv d → 1 ≤ ch ≤ 14 → 0 ≤ bw ≤ 1 → goes d (soft d) (channel_done d ch bw).
Proof.
  intros [Hwf Hc Hs Hm Hb] Hch Hbw.
  assert (1 ≤ next_seq d `mod` 15 + 1 ≤ 15) as Hs'.
  { pose proof (Z.mod_pos_bound (next_seq d) 15). lia. }
  assert (is_u8 (next_seq d `mod` 15 + 1)) as Hsu by uint.
  assert (is_u8 ch ∧ is_u8 bw) as [] by uint.
  split; [|done]. split; [|simpl; lia..|done]. unfold Dev.wf in *. cbn. tauto.
Qed.

Section goes.
Context (K : kernel) (p : profile).

Lemma set_channel_goes stack d ch bw central :
  length stack = CHAN_BUF → driver_inv d → 0 ≤ bw →
  emits (mt7603_set_channel_ext K p stack d ch bw central) (λ r e, goes d (soft d) r.2 ∧ steady e).
Proof.
  intros Hst Hd Hbw. eapply emits_weaken; [apply set_channel_emits; [done|apply Hd]|]. cbn beta.
  intros r e [-> Hp]. split; [|by eapply performs_steady]. cbn [snd]. apply channel_goes; [done| |].
  - rewrite clamp_channel_spec. case_decide; lia.
  - destruct (Z.ltb_spec 1 bw); lia.
Qed.

Lemma tune_goes stack d ch :
  length stack = CHAN_BUF → driver_inv d →
  emits (tune K p stack d ch) (λ d' e, goes d (soft d) d' ∧ steady e).
Proof.
  intros Hst Hd. destruct ch as [ch|]; cbn [tune]; [|by apply (closed_ret _)].
  destruct (negb _); [|by apply (closed_ret _)].
  eapply (closed_bind _); [by apply set_channel_goes|]. intros [ret d'] Hg. by apply (closed_ret _).
Qed.

Lemma config_goes stack d cd changed :
  length stack = CHAN_BUF → driver_inv d →
  emits (mt7603_mac80211_config K p stack d cd changed) (λ r e, goes d (soft d) r.2 ∧ steady e).
Proof.
  intros Hst Hd. unfold mt7603_mac80211_config. destruct (cd_chan cd) as [ch|]; [|by apply (closed_ret _)].
  destruct (_ || _); [|by apply (closed_ret _)].
  eapply (closed_bind _); [by apply set_channel_goes; [..|destruct (cd_width_40 cd)]|].
  intros [ret d'] Hg. by apply (closed_ret _).
Qed.

(** *** Interfaces and the filter *)

Definition vif_wf (v : vif) : Prop := length (vif_addr v) = 6%nat ∧ Forall is_u8 (vif_addr v).
Definition live_ap (v : vif) : bool := bool_decide (vif_type v = AP) && negb (is_zero_ether_addr (vif_addr v)).

Definition soft_add (v : vif) (s : soft_state) : soft_state :=
  Soft (as_running s) (if bool_decide (vif_type v = MONITOR) then as_monitors s + 1 else as_monitors s)
    (as_filter s) (if live_ap v then Some (vif_id v) else as_ap s) (as_beacon s) (as_beacon_int s).

Definition soft_remove (v : vif) (s : soft_state) : soft_state :=
  let ours := bool_decide (as_ap s = Some (vif_id v)) in
  Soft (as_running s)
    (if bool_decide (vif_type v = MONITOR) then Z.max 0 (as_monitors s - 1) else as_monitors s)
    (as_filter s) (if ours then None else as_ap s) (if ours then false else as_beacon s) (as_beacon_int s).

Definition soft_filter (flags : Z) (s : soft_state) : soft_state :=
  Soft (as_running s) (as_monitors s) flags (as_ap s) (as_beacon s) (as_beacon_int s).

Lemma write_bssid_steady addr : emits (write_bssid K p addr) (λ _ e, True ∧ steady e).
Proof.
  unfold write_bssid. eapply (closed_bind _); [apply write_steady; vm_decide|]. intros _ _.
  apply write_steady. vm_decide.
Qed.

Lemma add_interface_goes ops d v :
  length ops = 32%nat → vif_wf v → driver_inv d →
  emits (mt7603_mac80211_add_interface K p ops d v) (λ r e,
    (r.1 = 0 ∧ goes d (soft_add v (soft d)) r.2) ∧ steady e).
Proof.
  intros Hl [Hv6 Hv8] Hd. unfold mt7603_mac80211_add_interface.
  set (d1 := if bool_decide (vif_type v = MONITOR) then Dev.set_monitor_count d (Dev.monitor_count d + 1) else d).
  assert (driver_inv d1) as Hd1.
  { unfold d1. case_bool_decide; [|done]. destruct Hd as [? ? ? ? ?]. by split; [..|simpl; lia|]. }
  eapply (closed_bind _ _ _ (λ r, length r.1 = 32%nat ∧ r.2 = d1)).
  { unfold d1. case_bool_decide; [|by apply (closed_ret _)].
    eapply (closed_bind _ _ _ (λ ops', length ops' = 32%nat)); [|intros; by apply (closed_ret _)].
    destruct (Dev.running _); [|by apply (closed_ret _)]. rewrite <-Hl.
    apply run_sequence_steady
      with (r := RxFilter true (has_flag (Dev.filter_flags d) FIF_FCSFAIL)); done || lia. }
  intros [ops1 d'] [Hl1 Hd']. cbn [fst snd] in Hl1, Hd'. rewrite Hd'. clear Hd' d'.
  assert (live_ap v = false → goes d (soft_add v (soft d)) d1) as Hg0.
  { intros Hap. split; [done|]. unfold soft_add. rewrite Hap. by unfold d1; case_bool_decide. }
  assert (live_ap v = true → goes d (soft_add v (soft d)) (Dev.set_ap_vif d1 (Some (vif_id v)))) as Hg1.
  { intros Hap. split; [destruct Hd1 as [? ? ? ? ?]; by split|]. unfold soft_add. rewrite Hap.
    by unfold d1; case_bool_decide. }
  unfold live_ap in Hg0, Hg1. destruct (is_zero_ether_addr (vif_addr v)); cbn [negb].
  { apply (closed_ret _). split; [done|]. apply Hg0, andb_false_r. }
  cbn [negb] in *. rewrite andb_true_r in Hg0, Hg1.
  eapply (closed_bind _).
  { apply run_sequence_steady with (r := OwnMac (vif_addr v)); done || lia. }
  intros ops2 _. case_bool_decide; [|by apply (closed_ret _); auto].
  eapply (closed_bind _); [apply write_bssid_steady|]. intros _ _. apply (closed_ret _). auto.
Qed.

Lemma remove_interface_goes ops d v :
  length ops = 4%nat → driver_inv d →
  emits (mt7603_mac80211_remove_interface K p ops d v) (λ d' e,
    goes d (soft_remove v (soft d)) d' ∧ steady e).
Proof.
  intros Hl Hd. unfold mt7603_mac80211_remove_interface.
  set (d1 := if bool_decide (vif_type v = MONITOR)
             then Dev.set_monitor_count d (Z.max 0 (Dev.monitor_count d - 1)) else d).
  assert (driver_inv d1) as Hd1.
  { unfold d1. case_bool_decide; [|done]. destruct Hd as [? ? ? ? ?]. by split; [..|simpl; lia|]. }
  eapply (closed_bind _ _ _ (λ d', d' = d1)).
  { unfold d1. case_bool_decide; [|by apply (closed_ret _)].
    assert ((if 0 <? Dev.monitor_count d then Dev.set_monitor_count d (Dev.monitor_count d - 1) else d) =
      Dev.set_monitor_count d (Z.max 0 (Dev.monitor_count d - 1))) as ->.
    { destruct (Z.ltb_spec 0 (Dev.monitor_count d)) as [|Hle].
      - by rewrite Z.max_r by lia.
      - destruct Hd as [_ _ _ ? _]. assert (Dev.monitor_count d = 0) as E by lia.
        rewrite E. destruct d. cbn in E. by subst. }
    apply (closed_bind _ _ _ (λ _, True)); [|by intros; apply (closed_ret _)].
    destruct (_ && _); [|by apply (closed_ret _)].
    eapply (closed_bind _ _ _ (λ _, True)); [|by intros; apply (closed_ret _)].
    eapply emits_weaken; [apply run_sequence_steady with (r := RxFilter false false); done || lia|].
    by intros ? ? [_ ?]. }
  intros ? ->.
  assert (Dev.ap_vif d1 = Dev.ap_vif d) as Hap by (unfold d1; by case_bool_decide).
  rewrite Hap. case_bool_decide as Hours.
  - apply (closed_kernel _). apply (closed_ret _).
    split; [destruct Hd1 as [? ? ? ? ?]; by split|]. unfold soft_remove.
    rewrite (bool_decide_eq_true_2 (as_ap (soft d) = _)) by done. by unfold d1; case_bool_decide.
  - apply (closed_ret _). split; [done|]. unfold soft_remove.
    rewrite (bool_decide_eq_false_2 (as_ap (soft d) = _)) by done. by unfold d1; case_bool_decide.
Qed.

Lemma configure_filter_goes ops d total_flags flags :
  length ops = 4%nat → driver_inv d →
  emits (mt7603_mac80211_configure_filter K p ops d total_flags flags) (λ r e,
    goes d (soft_filter flags (soft d)) r.2 ∧ steady e).
Proof.
  intros Hl Hd. unfold mt7603_mac80211_configure_filter.
  apply (closed_bind _ _ _ (λ _, True)).
  - destruct (Dev.running _); [|by apply (closed_ret _)].
    eapply (closed_bind _ _ _ (λ _, True)); [|by intros; apply (closed_ret _)].
    eapply emits_weaken; [eapply run_sequence_steady with (r := RxFilter _ _); done || lia|].
    by intros ? ? [_ ?].
  - intros _ _. apply (closed_ret _). split; [|done]. destruct Hd as [? ? ? ? ?]. by split.
Qed.

(** *** Stations and the BSS *)

Lemma clear_bssid_steady : emits (clear_bssid K p) (λ _ e, True ∧ steady e).
Proof.
  unfold clear_bssid. do 2 (eapply (closed_bind _); [apply write_steady; vm_decide|intros _ _]).
  by apply (closed_ret _).
Qed.
Lemma clear_entry_steady : emits (clear_entry K p) (λ _ e, True ∧ steady e).
Proof.
  unfold clear_entry. do 3 (eapply (closed_bind _); [apply write_steady; vm_decide|intros _ _]).
  by apply (closed_ret _).
Qed.

Lemma apply_wtbl_steady ops a :
  length ops = 32%nat → length a = 6%nat → emits (apply_wtbl K p ops a) (λ _ e, True ∧ steady e).
Proof.
  intros Hl Ha. unfold apply_wtbl. eapply emits_bind_call.
  { apply (reg_entry_result (WtblSta a)); [done|lia]. }
  cbn [reg_request_spec]. unfold entry_result.
  rewrite decide_False by (apply Nat.nlt_ge, Nat.leb_le; by vm_compute). cbn beta iota.
  rewrite take_app_length. destruct (_ && _); [|by apply (closed_ret _)].
  eapply (closed_bind _ _ _ (λ _, True)).
  { eapply emits_weaken; [apply execute_plan, wtbl_sta_addrs|]. intros ? ? [_ ?].
    split; [done|by eapply performs_steady]. }
  intros _ _. eapply (closed_bind _); [apply write_steady; vm_decide|]. intros _ _. by apply (closed_ret _).
Qed.

Lemma sta_add_goes stack ops d v addr entry :
  length stack = CHAN_BUF → length ops = 32%nat → length addr = 6%nat → driver_inv d →
  emits (mt7603_mac80211_sta_add K p stack ops d v addr entry) (λ r e,
    (r.1 = 0 ∧ goes d (soft d) r.2) ∧ steady e).
Proof.
  intros Hst Hl Ha Hd. unfold mt7603_mac80211_sta_add.
  eapply (closed_bind _ _ _ (goes d (soft d))).
  { destruct (_ && _); [|by apply (closed_ret _)]. destruct entry; by apply tune_goes. }
  intros d' Hg. destruct (negb _); [|by apply (closed_ret _)].
  apply (closed_bind _ _ _ (λ _, True)).
  { destruct (negb _); [|by apply (closed_ret _)].
    eapply (closed_bind _); [apply write_bssid_steady|]. intros _ _. by apply (closed_ret _). }
  intros _ _. eapply (closed_bind _); [by apply apply_wtbl_steady|]. intros _ _. by apply (closed_ret _).
Qed.

Lemma sta_remove_steady v : emits (mt7603_mac80211_sta_remove K p v) (λ r e, r = 0 ∧ steady e).
Proof.
  unfold mt7603_mac80211_sta_remove. apply (closed_bind _ _ _ (λ _, True)).
  { destruct (negb _); [apply clear_bssid_steady|by apply (closed_ret _)]. }
  intros _ _. eapply (closed_bind _); [apply clear_entry_steady|]. intros _ _. by apply (closed_ret _).
Qed.

Definition info_wf (info : option bss_conf) : Prop :=
  ∀ i, info = Some i → is_u16 (bi_beacon_int i) ∧ from_option (λ a, length a = 6%nat) True (bi_bssid i).

Definition soft_bss (v : option vif) (info : option bss_conf) (changed : bss_changes) (s : soft_state)
    : soft_state :=
  if ch_beacon changed || ch_beacon_enabled changed || ch_beacon_int changed then
    let ap := match v with Some v => if live_ap v then Some (vif_id v) else as_ap s | None => as_ap s end in
    let bint := from_option bi_beacon_int 0 info in
    let on := from_option bi_enable_beacon false info in
    Soft (as_running s) (as_monitors s) (as_filter s) ap
      (on || (as_beacon s && negb (ch_beacon_enabled changed)))
      (if on then if bint =? 0 then 100 else bint else as_beacon_int s)
  else s.

Lemma single_bssid_steady : emits (single_bssid K p) (λ _ e, True ∧ steady e).
Proof. apply modify_steady. vm_decide. Qed.

Lemma bss_own_vif_goes ops d v :
  length ops = 32%nat → from_option vif_wf True v → driver_inv d →
  emits (bss_own_vif K p ops d v) (λ r e, (length r.1 = 32%nat ∧
    r.2 = (match v with Some v => if live_ap v then Dev.set_ap_vif d (Some (vif_id v)) else d | None => d end)) ∧
    steady e).
Proof.
  intros Hl Hv Hd. destruct v as [v|]; cbn [bss_own_vif]; [|by apply (closed_ret _)].
  fold (live_ap v). destruct (live_ap v); [|by apply (closed_ret _)].
  destruct Hv as [Hv6 _].
  eapply (closed_bind _ _ _ (λ ops', length ops' = 32%nat)).
  { rewrite <-Hl. apply run_sequence_steady with (r := OwnMac (vif_addr v)); done || lia. }
  intros ops' Hl'. eapply (closed_bind _); [apply write_bssid_steady|]. intros _ _.
  eapply (closed_bind _); [apply single_bssid_steady|]. intros _ _. by apply (closed_ret _).
Qed.

Lemma set_ap_inv d ap : driver_inv d → driver_inv (Dev.set_ap_vif d ap).
Proof. intros [? ? ? ? ?]. by split. Qed.

Lemma beacon_off_inv d : driver_inv d → driver_inv (Dev.set_beacon_enabled d false).
Proof. intros [? ? ? ? ?]. by split. Qed.

Lemma beacon_on_inv d n :
  driver_inv d → is_u16 n → driver_inv (Dev.set_beacon_enabled (Dev.set_beacon_int d (if n =? 0 then 100 else n)) true).
Proof.
  intros [Hwf ? ? ? ?] Hn. assert (is_u16 (if n =? 0 then 100 else n)) as Hu by (by destruct (n =? 0)).
  split; [|done..|]; cbn.
  - unfold Dev.wf in *. cbn. tauto.
  - intros _. destruct (Z.eqb_spec n 0); uint.
Qed.

Lemma bss_beacon_goes ops d v info changed :
  length ops = 32%nat → from_option vif_wf True v → info_wf info → driver_inv d →
  ch_beacon changed || ch_beacon_enabled changed || ch_beacon_int changed = true →
  emits (bss_beacon K p ops d v info changed) (λ r e,
    (length r.1 = 32%nat ∧ goes d (soft_bss v info changed (soft d)) r.2) ∧ steady e).
Proof.
  intros Hl Hv Hi Hd Hch. unfold bss_beacon. eapply (closed_bind _); [by apply bss_own_vif_goes|].
  intros [ops1 d1] [Hl1 Hd1]. cbn [fst snd] in *.
  assert (driver_inv d1 ∧ rings_of d1 = rings_of d) as [Hinv Hr].
  { rewrite Hd1. destruct v as [v|]; [|done]. destruct (live_ap v); [|done].
    split; [by apply set_ap_inv|done]. }
  assert (soft d1 = Soft (Dev.running d) (Dev.monitor_count d) (Dev.filter_flags d)
    (match v with Some v => if live_ap v then Some (vif_id v) else Dev.ap_vif d | None => Dev.ap_vif d end)
    (Dev.beacon_enabled d) (Dev.beacon_int d)) as Hs
    by (rewrite Hd1; destruct v as [v|]; [destruct (live_ap v)|]; done).
  injection Hs as Hs1 Hs2 Hs3 Hs4 Hs5 Hs6. unfold soft_bss. rewrite Hch.
  assert (is_u16 (from_option bi_beacon_int 0 info)) as Hbi
    by (destruct info as [i|]; [by apply (Hi i)|vm_decide]).
  destruct (from_option bi_enable_beacon false info); cbn [orb].
  - set (d2 := Dev.set_beacon_enabled _ true). assert (driver_inv d2) as Hd2 by by apply beacon_on_inv.
    eapply (closed_bind _ _ _ (λ ops', length ops' = 32%nat)).
    { rewrite <-Hl1. apply run_sequence_steady with (r := BssSync (Dev.beacon_int d2) true); done || lia. }
    intros ops2 Hl2. apply (closed_kernel _), (closed_ret _). split; [done|]. split; [done|].
    split; [done|]. unfold soft. cbn. by rewrite Hs1, Hs2, Hs3, Hs4.
  - destruct (ch_beacon_enabled changed); cbn [negb].
    + rewrite andb_false_r. apply (closed_kernel _).
      eapply (closed_bind _ _ _ (λ ops', length ops' = 32%nat)).
      { rewrite <-Hl1. apply run_sequence_steady with (r := BssSync 0 false); done || lia. }
      intros ops2 Hl2. apply (closed_ret _). split; [done|]. split; [by apply beacon_off_inv|].
      split; [done|]. unfold soft. cbn. by rewrite Hs1, Hs2, Hs3, Hs4, Hs6.
    + rewrite andb_true_r. apply (closed_ret _). split; [done|]. split; [done|].
      split; [done|]. unfold soft. cbn. by rewrite Hs1, Hs2, Hs3, Hs4, Hs5, Hs6.
Qed.

Lemma bss_join_goes stack ops d v info bssid entry :
  length stack = CHAN_BUF → length ops = 32%nat → length bssid = 6%nat → driver_inv d →
  emits (bss_join K p stack ops d v info bssid entry) (λ d' e, goes d (soft d) d' ∧ steady e).
Proof.
  intros Hst Hl Hb Hd. unfold bss_join. eapply (closed_bind _ _ _ (goes d (soft d))).
  { destruct entry; [by apply tune_goes|]. destruct (info ≫= bi_bss_channel); by apply tune_goes. }
  intros d' Hg. eapply (closed_bind _); [apply write_steady; vm_decide|]. intros r _.
  apply (closed_bind _ _ _ (λ _, True)).
  { destruct (r =? 0); [|by apply (closed_ret _)].
    eapply (closed_bind _); [apply write_steady; vm_decide|]. intros _ _. by apply (closed_ret _). }
  intros _ _. eapply (closed_bind _); [apply single_bssid_steady|]. intros _ _.
  apply (closed_bind _ _ _ (λ _, True)).
  { destruct (negb _); [by apply apply_wtbl_steady|by apply (closed_ret _)]. }
  intros _ _. by apply (closed_ret _).
Qed.

Lemma goes_trans d1 d2 d3 s : goes d1 s d2 → goes d2 (soft d2) d3 → goes d1 s d3.
Proof. intros (_ & R1 & S1) (I2 & R2 & S2). split; [done|]. split; congruence. Qed.

Lemma bss_info_changed_goes stack ops d v info changed entry :
  length stack = CHAN_BUF → length ops = 32%nat → from_option vif_wf True v → info_wf info → driver_inv d →
  emits (mt7603_mac80211_bss_info_changed K p stack ops d v info changed entry) (λ d' e,
    goes d (soft_bss v info changed (soft d)) d' ∧ steady e).
Proof.
  intros Hst Hl Hv Hi Hd. unfold mt7603_mac80211_bss_info_changed.
  eapply (closed_bind _); [by apply tune_goes|]. intros d1 Hg1. pose proof (goes_inv _ _ _ Hg1) as Hd1.
  eapply (closed_bind _ _ _ (λ r, length r.1 = 32%nat ∧ goes d (soft_bss v info changed (soft d)) r.2)).
  { destruct (_ || _ || _) eqn:Ech.
    - eapply emits_weaken; [by apply bss_beacon_goes|]. intros r e [[Hl' Hg] He]. split; [|done].
      split; [done|]. destruct Hg1 as (_ & R1 & S1), Hg as (I2 & R2 & S2). rewrite S1 in S2.
      split; [done|]. split; congruence.
    - apply (closed_ret _). split; [done|]. unfold soft_bss. by rewrite Ech. }
  intros [ops2 d2] [Hl2 Hg2]. cbn [fst snd] in *. pose proof (goes_inv _ _ _ Hg2) as Hd2.
  assert (emits (if negb (is_ap v) then clear_bssid K p ;; clear_entry K p ;; mret d2 else mret d2)
    (λ d' e, goes d (soft_bss v info changed (soft d)) d' ∧ steady e)) as Hclear.
  { destruct (negb _); [|by apply (closed_ret _)]. eapply (closed_bind _); [apply clear_bssid_steady|]. intros _ _.
    eapply (closed_bind _); [apply clear_entry_steady|]. intros _ _. by apply (closed_ret _). }
  destruct (_ || _); [|by apply (closed_ret _)].
  destruct (info ≫= bi_bssid) as [bssid|] eqn:Eb; [|exact Hclear].
  destruct (negb (is_zero_ether_addr bssid)); [|exact Hclear].
  eapply emits_weaken.
  { apply bss_join_goes; [done..| |done]. destruct info as [i|]; [|done]. cbn in Eb.
    destruct (Hi i eq_refl) as [_ H6]. by rewrite Eb in H6. }
  cbn beta. intros d3 e [Hg3 He]. split; [|done]. by eapply goes_trans.
Qed.
End goes.

(** ** Stations on the registers *)

(** The BSSID the receiver filters on, and whether it is valid. *)
Definition bssid_of (h : Z → Z) : list Z * bool :=
  (u32_to_le_bytes (h RMAC_CB0R0) ++ [bits 0 8 (h RMAC_CB0R1); bits 8 8 (h RMAC_CB0R1)],
   Z.testbit (h RMAC_CB0R1) 16).

Definition bssid_ops (addr : list Z) : list RegWriteOp :=
  [RMAC_CB0R0 ↤ addr_lo addr; RMAC_CB0R1 ↤ Z.lor (addr_hi addr) (shl32 1 16)].

(** The writes for a station's table entry; those of a new station, after the
    tuning; those of a station that leaves.  An access point keeps its own
    address in the BSSID registers. *)
Definition slot_ops (a : list Z) : list RegWriteOp := wtbl_sta_ops a ++ [0x0004007C ↤ 0].
Definition join_ops (v : option vif) (a : list Z) : list RegWriteOp :=
  (if is_ap v then [] else bssid_ops a) ++ slot_ops a.
Definition leave_ops (v : option vif) : list RegWriteOp :=
  (if is_ap v then [] else [RMAC_CB0R0 ↤ 0; RMAC_CB0R1 ↤ 0]) ++
  [0x00028020 ↤ 0; 0x00028024 ↤ 0; 0x00028028 ↤ 0].

Lemma channel_plan_does d ch bw central : plan_does (channel_plan d ch bw central) [RMAC_CHFREQ ↤ 1].
Proof. unfold channel_plan. cbv zeta. apply does_cmd, does_write, does_cmd, does_nil. Qed.

Section registers.
Context (K : kernel) (p : profile) (h0 : Z → Z) (HK : reliable K).

Lemma wp_tune stack d ch h :
  length stack = CHAN_BUF → driver_inv d →
  wp h0 (tune K p stack d ch) (λ d' h', goes d (soft d) d' ∧ (h' = h ∨ h' = <[RMAC_CHFREQ := 1]> h)) h.
Proof.
  intros Hst Hd. destruct ch as [ch|]; cbn [tune]; [|apply wp_ret; split; [by apply goes_refl|by left]].
  destruct (negb _); [|apply wp_ret; split; [by apply goes_refl|by left]].
  eapply (wp_bind h0 _ _ (λ r h', r = (0, channel_done d (clamp_channel ch) 0) ∧ h' = writes [RMAC_CHFREQ ↤ 1] h)).
  - pose proof (set_channel_emits K p stack d ch 0 ch Hst (di_wf d Hd)) as He.
    cbv zeta in He. change (if 1 <? 0 then 0 else 0) with 0 in He.
    eapply (wp_performs K h0 _ _ _ _ _ _ h HK He); [apply channel_plan_does|].
    constructor; [vm_decide|done].
  - intros ? ? [-> ->]. apply wp_ret. split; [|by right]. apply channel_goes; [done| |lia].
    rewrite clamp_channel_spec. case_decide; lia.
Qed.

Lemma wp_apply_wtbl ops a h :
  length ops = 32%nat → length a = 6%nat → Forall is_u8 a →
  wp h0 (apply_wtbl K p ops a) (λ _ h', h' = writes (slot_ops a) h) h.
Proof.
  intros Hl Ha H8. unfold apply_wtbl.
  eapply (wp_bind h0 _ _ (λ out h', out = entry_result (Ok (wtbl_sta_ops a)) ops 32 0 ∧ h' = h)).
  { eapply wp_call; [|done]. apply (reg_entry_result (WtblSta a)); [done|lia]. }
  intros ? ? [-> ->]. unfold entry_result.
  rewrite decide_False by (apply Nat.nlt_ge, Nat.leb_le; by vm_compute). cbn beta iota.
  change ((0 =? 0) && bool_decide (0 < length (wtbl_sta_ops a))%nat) with true. rewrite take_app_length.
  assert (Forall (λ op, mapped (addr op) ∧ is_u32 (val op)) (wtbl_sta_ops a)) as HF.
  { assert (∀ k, is_u8 (nth k a 0)) as Hk by (intros; by apply Forall_nth_u8).
    assert (is_u32 (dw0_ap (nth 4 a 0) (nth 5 a 0))) as H0 by (unfold dw0_ap; eauto 10 with rust).
    pose proof (u32_from_u32 _ _ _ _ (Hk 0%nat) (Hk 1%nat) (Hk 2%nat) (Hk 3%nat)) as H1.
    unfold wtbl_sta_ops. cbv zeta. repeat apply List.Forall_cons; [..|apply List.Forall_nil];
      (split; [vm_decide|cbn [val]; first [assumption|vm_decide]]). }
  eapply (wp_bind h0 _ _ (λ _ h', h' = writes (wtbl_sta_ops a) h)); [by apply wp_execute|].
  intros _ ? ->. apply wp_write_then; [done|vm_decide|vm_decide|]. apply wp_ret.
  unfold slot_ops. by rewrite writes_app.
Qed.

Lemma wp_write_bssid a h :
  Forall is_u8 a → wp h0 (write_bssid K p a) (λ _ h', h' = writes (bssid_ops a) h) h.
Proof.
  intros H8. destruct (addr_words_u32 a H8) as [Hlo Hhi]. unfold write_bssid.
  apply wp_write_then; [done|vm_decide|done|]. apply wp_write; [done|vm_decide| |done].
  apply is_uint_lor; [done|vm_decide].
Qed.

(** Only a station interface tunes. *)
Lemma sta_add_wp stack ops d v a entry h :
  length stack = CHAN_BUF → length ops = 32%nat → driver_inv d →
  length a = 6%nat → Forall is_u8 a → is_zero_ether_addr a = false →
  wp h0 (mt7603_mac80211_sta_add K p stack ops d v a entry) (λ r h',
    (r.1 = 0 ∧ goes d (soft d) r.2) ∧
    ∃ h1, (h1 = h ∨ is_ap v = false ∧ h1 = <[RMAC_CHFREQ := 1]> h) ∧ h' = writes (join_ops v a) h1) h.
Proof.
  intros Hst Hl Hd Ha H8 Hz. unfold mt7603_mac80211_sta_add, join_ops. rewrite Hz.
  destruct (is_ap v); cbn [negb andb].
  - eapply (wp_bind h0 _ _ (λ d' h', d' = d ∧ h' = h)); [by apply wp_ret|]. intros ? ? [-> ->].
    eapply (wp_bind h0 _ _ (λ _ h', h' = h)); [by apply wp_ret|]. intros _ ? ->.
    eapply (wp_bind h0); [by apply wp_apply_wtbl|]. intros _ ? ->. apply wp_ret.
    split; [split; [done|by apply goes_refl]|]. exists h. split; [by left|done].
  - eapply (wp_bind h0 _ _ (λ d' h', goes d (soft d) d' ∧ (h' = h ∨ h' = <[RMAC_CHFREQ := 1]> h))).
    { destruct entry; by apply wp_tune. }
    intros d' h1 [Hg Hh1].
    eapply (wp_bind h0 _ _ (λ _ h', h' = writes (bssid_ops a) h1)).
    { eapply wp_bind; [by apply wp_write_bssid|]. intros _ ? ->. by apply wp_ret. }
    intros _ ? ->. eapply (wp_bind h0); [by apply wp_apply_wtbl|]. intros _ ? ->. apply wp_ret.
    split; [done|]. exists h1. split; [destruct Hh1; auto|]. by rewrite writes_app.
Qed.

(** A station without an address is ignored. *)
Lemma sta_add_none stack ops d v a entry h :
  is_zero_ether_addr a = true →
  wp h0 (mt7603_mac80211_sta_add K p stack ops d v a entry) (λ r h', r = (0, d) ∧ h' = h) h.
Proof.
  intros Hz. unfold mt7603_mac80211_sta_add. rewrite Hz, andb_false_r. cbn [negb].
  eapply (wp_bind h0 _ _ (λ d' h', d' = d ∧ h' = h)); [by apply wp_ret|]. intros ? ? [-> ->].
  by apply wp_ret.
Qed.
End registers.

(** ** The receive filter *)

(** The filter the driver's state asks for: promiscuous while there is a
    monitor interface or the beacon flag is set, with frames of bad checksum
    when that flag is set. *)
Definition wanted_filter (d : Dev.t) : Z :=
  rx_filter_rfcr ((0 <? Dev.monitor_count d) || has_flag (Dev.filter_flags d) FIF_BCN_PRBRESP_PROMISC)
    (has_flag (Dev.filter_flags d) FIF_FCSFAIL).
Definition filter_ok (d : Dev.t) (h : Z → Z) : Prop :=
  Dev.running d = true → h RMAC_RFCR = wanted_filter d.

Section filter.
Context (K : kernel) (p : profile) (h0 : Z → Z) (HK : reliable K).

Lemma wp_filter promisc fcs_fail ops h :
  (4 ≤ length ops)%nat →
  wp h0 (run_sequence K p 4 (mt7603_rust_build_rx_filter_sequence promisc fcs_fail) ops)
    (λ ops' h', length ops' = length ops ∧ h' = writes (rx_filter_ops promisc fcs_fail) h) h.
Proof.
  intros Hl. apply (wp_sequence K p h0 4 _ (RxFilter promisc fcs_fail)); try done; [simpl; lia|].
  destruct promisc, fcs_fail; vm_decide.
Qed.

Lemma filter_written promisc fcs_fail h :
  writes (rx_filter_ops promisc fcs_fail) h RMAC_RFCR = rx_filter_rfcr promisc fcs_fail.
Proof. cbn [writes foldl rx_filter_ops addr val]. by rewrite fn_ne, fn_at. Qed.

Lemma configure_filter_wp ops d total_flags flags h :
  length ops = 4%nat →
  wp h0 (mt7603_mac80211_configure_filter K p ops d total_flags flags) (λ r h',
    r.2 = Dev.set_filter_flags d flags ∧ filter_ok r.2 h') h.
Proof.
  intros Hl. unfold mt7603_mac80211_configure_filter. set (d' := Dev.set_filter_flags d flags).
  eapply (wp_bind h0 _ _ (λ _ h', filter_ok d' h')).
  - destruct (Dev.running d') eqn:Hr; [|by apply wp_ret; unfold filter_ok; rewrite Hr].
    eapply (wp_bind h0); [apply wp_filter; lia|]. cbn beta. intros ? ? [_ ->]. apply wp_ret.
    intros _. apply filter_written.
  - intros _ h' Hf. by apply wp_ret.
Qed.

Lemma own_mac_keeps_filter v ops h :
  vif_wf v → (32 ≤ length ops)%nat →
  wp h0 (run_sequence K p 32 (mt7603_rust_build_own_mac_sequence (Some (vif_addr v))) ops)
    (λ _ h', h' RMAC_RFCR = h RMAC_RFCR) h.
Proof.
  intros [H6 H8] Hl. assert (∀ k, is_u8 (nth k (vif_addr v) 0)) as Hk by (intros; by apply Forall_nth_u8).
  assert (∀ k, is_u32 (nth k (vif_addr v) 0)) as Hk' by (intros; by apply is_u8_u32).
  eapply wp_weaken.
  { apply (wp_sequence K p h0 32 _ (OwnMac (vif_addr v)) ops (own_mac_ops (vif_addr v))); try done; [simpl; lia|].
    unfold own_mac_ops, own_mac_val0, own_mac_val1.
    repeat apply List.Forall_cons; [..|apply List.Forall_nil]; (split; [vm_decide|cbn [val]; eauto 10 with rust]). }
  cbn beta. intros ? ? [_ ->]. cbn [writes own_mac_ops foldl addr val]. by rewrite !fn_ne.
Qed.

Lemma add_interface_wp ops d v h :
  length ops = 32%nat → vif_wf v → driver_inv d → filter_ok d h →
  wp h0 (mt7603_mac80211_add_interface K p ops d v) (λ r h', filter_ok r.2 h') h.
Proof.
  intros Hl Hv Hd Hf. unfold mt7603_mac80211_add_interface.
  eapply (wp_bind h0 _ _ (λ r h', length r.1 = 32%nat ∧ filter_ok r.2 h')).
  { case_bool_decide; [|by apply wp_ret].
    set (d' := Dev.set_monitor_count d (Dev.monitor_count d + 1)).
    eapply (wp_bind h0 _ _ (λ ops' h', length ops' = 32%nat ∧ filter_ok d' h')); [|intros ? ? ?; by apply wp_ret].
    destruct (Dev.running d') eqn:Hr; [|by apply wp_ret; unfold filter_ok; rewrite Hr].
    eapply wp_weaken; [apply wp_filter; lia|]. cbn beta. intros ? ? [Hl' ->]. split; [lia|]. intros _.
    rewrite filter_written. unfold wanted_filter. cbn. destruct Hd as [_ _ _ Hm _].
    by rewrite (proj2 (Z.ltb_lt 0 (Dev.monitor_count d + 1))) by lia. }
  intros [ops1 d1] h1 [Hl1 Hf1]. cbn [fst snd] in *.
  destruct (negb _); [|by apply wp_ret].
  eapply (wp_bind h0); [apply own_mac_keeps_filter; [done|lia]|]. cbn beta. intros _ h2 Hh2.
  assert (filter_ok d1 h2) as Hf2 by (intros Hr; rewrite Hh2; by apply Hf1).
  case_bool_decide; [|by apply wp_ret].
  eapply (wp_bind h0); [apply wp_write_bssid; [done|apply Hv]|]. cbn beta. intros _ ? ->. apply wp_ret.
  intros Hr. cbn [writes bssid_ops foldl addr val]. rewrite !fn_ne by done. by apply Hf2.
Qed.

(** The last monitor interface leaves a filter without the flags. *)
Definition last_monitor (d : Dev.t) (v : vif) : Prop := vif_type v = MONITOR ∧ Dev.monitor_count d ≤ 1.

Lemma remove_interface_wp ops d v h :
  length ops = 4%nat → driver_inv d →
  wp h0 (mt7603_mac80211_remove_interface K p ops d v) (λ d' h',
    Dev.running d' = Dev.running d ∧ Dev.filter_flags d' = Dev.filter_flags d ∧
    (¬ last_monitor d v → h' = h ∧ (0 < Dev.monitor_count d' ↔ 0 < Dev.monitor_count d)) ∧
    (last_monitor d v → Dev.monitor_count d' = 0 ∧
       (Dev.running d = true → h' RMAC_RFCR = rx_filter_rfcr false false))) h.
Proof.
  intros Hl Hd. unfold mt7603_mac80211_remove_interface. pose proof (di_monitors d Hd) as Hm.
  set (P := λ (d' : Dev.t) (h' : Z → Z), Dev.running d' = Dev.running d ∧ Dev.filter_flags d' = Dev.filter_flags d ∧
    (¬ last_monitor d v → h' = h ∧ (0 < Dev.monitor_count d' ↔ 0 < Dev.monitor_count d)) ∧
    (last_monitor d v → Dev.monitor_count d' = 0 ∧
       (Dev.running d = true → h' RMAC_RFCR = rx_filter_rfcr false false))).
  fold P. eapply (wp_bind h0 _ _ P).
  - case_bool_decide as Hmon.
    2:{ apply wp_ret. unfold P, last_monitor. split; [done|]. split; [done|]. by split; [|intros [? _]]. }
    set (d1 := if 0 <? Dev.monitor_count d then _ else d).
    assert (Dev.monitor_count d1 = Z.max 0 (Dev.monitor_count d - 1) ∧ Dev.running d1 = Dev.running d ∧
      Dev.filter_flags d1 = Dev.filter_flags d) as (Hc & Hr & Hfl)
      by (unfold d1; destruct (Z.ltb_spec 0 (Dev.monitor_count d)); cbn; split; lia || done).
    destruct ((Dev.monitor_count d1 =? 0) && Dev.running d1) eqn:Eb.
    + apply andb_true_iff in Eb as [E0 E1]. apply Z.eqb_eq in E0.
      eapply (wp_bind h0 _ _ (λ _ h', h' RMAC_RFCR = rx_filter_rfcr false false)).
      { eapply (wp_bind h0); [apply wp_filter; lia|]. cbn beta. intros ? ? [_ ->]. apply wp_ret.
        apply filter_written. }
      intros _ h' Hh'. apply wp_ret. unfold P, last_monitor. split; [done|]. split; [done|].
      split; [intros Hn; exfalso; apply Hn; split; [done|lia]|by intros _].
    + eapply (wp_bind h0 _ _ (λ _ h', h' = h)); [by apply wp_ret|]. intros _ ? ->. apply wp_ret.
      unfold P, last_monitor. split; [done|]. split; [done|]. split.
      * intros Hn. split; [done|]. assert (¬ Dev.monitor_count d ≤ 1) by tauto. lia.
      * intros [_ Hle]. split; [lia|]. intros Hrun. rewrite Hr, Hrun, andb_true_r in Eb.
        apply Z.eqb_neq in Eb. lia.
  - intros d1 h1 HP. case_bool_decide; [|by apply wp_ret].
    eapply (wp_bind h0 _ _ (λ _ h', h' = h1)); [by apply wp_kernel|]. intros _ ? ->. by apply wp_ret.
Qed.
End filter.

Lemma writes_other ops h a : a ∉ addr <$> ops → writes ops h a = h a.
Proof.
  revert h. induction ops as [|op ops IH]; intros h Ha; [done|]. cbn [writes foldl].
  cbn [fmap list_fmap] in Ha. apply not_elem_of_cons in Ha as [Hne Ha].
  fold (writes ops (<[addr op := val op]> h)). rewrite IH by done. by apply fn_ne.
Qed.

(** The BSSID registers after their two writes. *)
Lemma bssid_written a h :
  length a = 6%nat → Forall is_u8 a → bssid_of (writes (bssid_ops a) h) = (a, true).
Proof.
  intros Hl H8. do 6 (destruct a as [|? a]; [simpl in Hl; lia|]). destruct a; [|simpl in Hl; lia].
  rewrite !Forall_cons_iff in H8. destruct H8 as (?&?&?&?&?&?&_).
  unfold bssid_of, bssid_ops. cbn [writes foldl addr val].
  rewrite (fn_ne _ RMAC_CB0R1 RMAC_CB0R0), !fn_at by done.
  assert (addr_lo [z; z0; z1; z2; z3; z4] = u32_from_le_bytes z z0 z1 z2) as ->
    by (unfold addr_lo, u32_from_le_bytes; cbn [nth]; by rewrite !shl32_u8, <-!Z.lor_assoc by (done || lia)).
  rewrite u32_to_from, testbit_field by done. unfold addr_hi. cbn [nth app].
  f_equal; [do 4 f_equal; f_equal; [|f_equal]; by bitfield|by bitfield].
Qed.

(** The table after a station's writes: its entry, its session word, the
    broadcast entry and the lock. *)
Lemma slot_state a h :
  length a = 6%nat → Forall is_u8 a →
  let h' := writes (slot_ops a) h in
  entry_of h' (WTBL1_BASE + WTBL1_ENTRY_SIZE) =
    {| w_valid := true; w_rc_a1 := false; w_rc_a2 := true; w_muar_idx := 0;
       w_addr := a; w_admitted := true; w_psm := 3;
       w_wtbl2 := 64; w_wtbl3 := 0x2000 + 64; w_wtbl4 := 0x4000 + 32 |} ∧
  h' (session_reg 1) = 0 ∧
  entry_of h' WTBL1_BASE =
    {| w_valid := true; w_rc_a1 := true; w_rc_a2 := true; w_muar_idx := 0x0E;
       w_addr := replicate 6 0xFF; w_admitted := false; w_psm := 3;
       w_wtbl2 := 0; w_wtbl3 := 0x2000; w_wtbl4 := 0x4000 |} ∧
  h' WTBL1OR = 0.
Proof.
  intros Hl H8. do 6 (destruct a as [|? a]; [simpl in Hl; lia|]). destruct a; [|simpl in Hl; lia].
  rewrite !Forall_cons_iff in H8. destruct H8 as (?&?&?&?&?&?&_). cbv zeta.
  assert (∀ x, x ∉ [session_reg 1] → writes (slot_ops [z; z0; z1; z2; z3; z4]) h x =
    writes (wtbl_sta_ops [z; z0; z1; z2; z3; z4]) h x) as Hj.
  { intros x Hx. unfold slot_ops. rewrite !writes_app. by apply writes_other. }
  split; [|split; [|split]].
  - apply ap_entry; try done; (rewrite Hj by vm_decide); cbn [writes foldl wtbl_sta_ops addr val nth]; by reg_lookup.
  - unfold slot_ops. rewrite !writes_app. cbn [writes foldl addr val]. by rewrite fn_at.
  - unfold entry_of. rewrite !Hj by vm_decide. cbn [writes foldl wtbl_sta_ops addr val nth]. by reg_lookup.
  - rewrite Hj by vm_decide. cbn [writes foldl wtbl_sta_ops addr val nth]. by reg_lookup.
Qed.

Lemma bssid_kept ops h h' :
  RMAC_CB0R0 ∉ addr <$> ops → RMAC_CB0R1 ∉ addr <$> ops → h' = writes ops h → bssid_of h' = bssid_of h.
Proof. intros H0 H1 ->. unfold bssid_of. by rewrite !writes_other. Qed.

Lemma join_ops_bssid v a h :
  length a = 6%nat → Forall is_u8 a →
  bssid_of (writes (join_ops v a) h) = if is_ap v then bssid_of h else (a, true).
Proof.
  intros Ha H8. unfold join_ops. rewrite writes_app.
  rewrite (bssid_kept (slot_ops a) (writes (if is_ap v then [] else bssid_ops a) h)) by (done || vm_decide).
  destruct (is_ap v); [done|]. by apply bssid_written.
Qed.

Lemma sta_remove_wp K p h0 v h :
  reliable K →
  wp h0 (mt7603_mac80211_sta_remove K p v) (λ r h', r = 0 ∧ h' = writes (leave_ops v) h) h.
Proof.
  intros HK. unfold mt7603_mac80211_sta_remove, clear_bssid, clear_entry, leave_ops.
  set (b := if is_ap v then [] else _).
  eapply (wp_bind h0 _ _ (λ _ h', h' = writes b h)).
  { subst b. destruct (is_ap v); cbn [negb]; [by apply wp_ret|].
    do 2 (apply wp_write_then; [done|vm_decide|vm_decide|]). by apply wp_ret. }
  intros _ ? ->. rewrite writes_app.
  eapply (wp_bind h0 _ _ (λ _ h', h' = writes [0x00028020 ↤ 0; 0x00028024 ↤ 0; 0x00028028 ↤ 0] (writes b h))).
  { do 3 (apply wp_write_then; [done|vm_decide|vm_decide|]). by apply wp_ret. }
  intros _ ? ->. by apply wp_ret.
Qed.

(** ** Properties *)

(** C26. A station joining and leaving, through an interface of any kind, on
    a device whose transfers succeed.  After sta_add entry 1 of the table is
    valid, admitted, awake and addressed to the station, with its sessions
    cleared, entry 0 is the broadcast entry and the table's lock is closed; on
    an interface that is no access point the receiver filters on the station's
    address (valid) and the channel trigger may have been pulled, on an access
    point both are as they were.  Every register outside the writes listed in
    [join_ops] and that trigger is unchanged, and the driver's own state too
    but for the channel and the command number.  A station with the zero
    address changes nothing.  After sta_remove entry 1 is invalid and
    addressed to nobody, the receiver's filter is cleared unless the interface
    is an access point, and every register outside [leave_ops] is unchanged. *)
Theorem station_registers K p h0 stack ops d v a entry h :
  reliable K → length stack = CHAN_BUF → length ops = 32%nat → driver_inv d →
  length a = 6%nat → Forall is_u8 a →
  wp h0 (mt7603_mac80211_sta_add K p stack ops d v a entry) (λ r h',
    if is_zero_ether_addr a then r = (0, d) ∧ h' = h
    else
      r.1 = 0 ∧ goes d (soft d) r.2 ∧
      bssid_of h' = (if is_ap v then bssid_of h else (a, true)) ∧
      entry_of h' (WTBL1_BASE + WTBL1_ENTRY_SIZE) =
        {| w_valid := true; w_rc_a1 := false; w_rc_a2 := true; w_muar_idx := 0;
           w_addr := a; w_admitted := true; w_psm := 3;
           w_wtbl2 := 64; w_wtbl3 := 0x2000 + 64; w_wtbl4 := 0x4000 + 32 |} ∧
      h' (session_reg 1) = 0 ∧
      entry_of h' WTBL1_BASE =
        {| w_valid := true; w_rc_a1 := true; w_rc_a2 := true; w_muar_idx := 0x0E;
           w_addr := replicate 6 0xFF; w_admitted := false; w_psm := 3;
           w_wtbl2 := 0; w_wtbl3 := 0x2000; w_wtbl4 := 0x4000 |} ∧
      h' WTBL1OR = 0 ∧
      (h' RMAC_CHFREQ = h RMAC_CHFREQ ∨ is_ap v = false ∧ h' RMAC_CHFREQ = 1) ∧
      (∀ x, x ≠ RMAC_CHFREQ → x ∉ addr <$> join_ops v a → h' x = h x)) h ∧
  wp h0 (mt7603_mac80211_sta_remove K p v) (λ r h',
    r = 0 ∧ bssid_of h' = (if is_ap v then bssid_of h else (replicate 6 0, false)) ∧
    w_valid (entry_of h' (WTBL1_BASE + WTBL1_ENTRY_SIZE)) = false ∧
    w_addr (entry_of h' (WTBL1_BASE + WTBL1_ENTRY_SIZE)) = replicate 6 0 ∧
    (∀ x, x ∉ addr <$> leave_ops v → h' x = h x)) h.
Proof.
  intros HK Hst Hl Hd Ha H8. split.
  - destruct (is_zero_ether_addr a) eqn:Hz; [by apply sta_add_none|].
    eapply wp_weaken; [by apply sta_add_wp|]. cbn beta. intros r h' ([Hr Hg] & h1 & Hh1 & ->).
    do 2 (split; [done|]).
    assert (∀ x, x ≠ RMAC_CHFREQ → h1 x = h x) as H1
      by (intros x Hx; destruct Hh1 as [-> | [_ ->]]; [done|by apply fn_ne]).
    split. { rewrite join_ops_bssid by done. destruct (is_ap v); [|done]. unfold bssid_of. by rewrite !H1. }
    destruct (slot_state a (writes (if is_ap v then [] else bssid_ops a) h1) Ha H8) as (He & Hs & Hb & Ho).
    rewrite <-writes_app in He, Hs, Hb, Ho. do 4 (split; [done|]). split.
    + assert (RMAC_CHFREQ ∉ addr <$> join_ops v a) as Hn by (unfold join_ops; destruct (is_ap v); vm_decide).
      rewrite (writes_other _ _ _ Hn). destruct Hh1 as [-> | [? ->]]; [by left|right]. by rewrite fn_at.
    + intros x Hx Hn. rewrite writes_other by done. by apply H1.
  - eapply wp_weaken; [by apply sta_remove_wp|]. cbn beta. intros r h' [-> ->]. split; [done|].
    unfold bssid_of, entry_of, leave_ops. cbn [w_valid w_addr]. rewrite writes_app. cbn [writes foldl addr val].
    split; [destruct (is_ap v); cbn [foldl addr val]; by reg_lookup|].
    split; [by reg_lookup|]. split; [by reg_lookup|].
    intros x Hx. rewrite <-(writes_other _ h x Hx). unfold leave_ops. by rewrite writes_app.
Qed.

Lemma station_registers_witness :
  let a := [0x00; 0x0c; 0x43; 0x01; 0x02; 0x03] in
  ∃ r tr h', mt7603_mac80211_sta_add (bank_kernel erased) Release (replicate CHAN_BUF 0)
      (replicate 32 (0 ↤ 0)) Dev.initial None a (Some (Some 6)) [] = Done (r, tr) ∧
    bssid_of h' = (a, true) ∧ regs_are erased tr h'.
Proof.
  intros a. destruct (station_registers (bank_kernel erased) Release erased (replicate CHAN_BUF 0)
    (replicate 32 (0 ↤ 0)) Dev.initial None a (Some (Some 6)) erased (proj1 erased_kernel)
    (length_replicate _ _) (length_replicate _ _) initial_inv eq_refl ltac:(vm_decide))
    as [Hadd _].
  destruct (Hadd [] (λ _ _, eq_refl)) as (r & tr & h' & Heq & Hr & _ & _ & Hb & _).
  exists r, tr, h'. split; [exact Heq|]. split; [exact Hb|exact Hr].
Defined.
