(* ===== verification/Ops.v ===== *)
(** * The life of the driver (mt7603_mac80211_ops in src/c/mac80211.c)

    mac80211 calls the driver through a table of callbacks, one at a time, in
    any order.  A run of the driver is a list of callbacks folded over the
    device state; the invariant, the software state and the resources are
    followed through it. *)

From S2P Require Import Prelude Rust Ffi Mac Entry Usb Device Cmd Plan Dev Driver Bank Keys Vif.
Local Open Scope Z_scope.
Local Open Scope rust_scope.

(** The callbacks of the table that do something, but for [tx], which does not
    change the device state (TxPath.v), and the driver's removal. *)
Inductive callback :=
| CbStart
| CbStop
| CbAddInterface (v : vif)
| CbRemoveInterface (v : vif)
| CbConfig (cd : chan_def) (changed : bool)
| CbConfigureFilter (total_flags flags : Z)
| CbBssInfoChanged (v : option vif) (info : option bss_conf) (changed : bss_changes)
    (entry : option (option Z))
| CbStaAdd (v : option vif) (addr : list Z) (entry : option (option Z))
| CbStaRemove (v : option vif)
| CbSetKey (set : bool) (v : option vif) (sta : option (list Z)) (key : key_conf)
| CbAmpduAction (vif : bool) (sta : option (list Z)) (action : ampdu_action) (tid buf_size : Z)
| CbUnregister.

(** What mac80211 hands over: six-byte addresses, a key as long as its cipher
    needs, TIDs of 802.11. *)
Definition callback_wf (cb : callback) : Prop :=
  match cb with
  | CbAddInterface v => vif_wf v
  | CbBssInfoChanged v info _ _ => from_option vif_wf True v ∧ info_wf info
  | CbStaAdd _ addr _ => length addr = 6%nat
  | CbSetKey set _ _ key =>
      set = true → k_cipher key = WLAN_CIPHER_SUITE_CCMP → (16 ≤ length (k_key key))%nat
  | CbAmpduAction _ _ _ tid _ => 0 ≤ tid < 16
  | _ => True
  end.

(** The callbacks that end with [usb_kill_anchored_urbs]. *)
Definition stops (cb : callback) : bool :=
  match cb with CbStop | CbUnregister => true | _ => false end.

Section ops.
Variable K : kernel.
Variable p : profile.
(** The contents of a fresh local array of the given size. *)
Variable stack : nat → list Z.
Variable ops : nat → list RegWriteOp.

Definition run_callback (dev : Dev.t) (cb : callback) : io (Z * Dev.t) :=
  match cb with
  | CbStart => mt7603_mac80211_start K p (stack CHAN_BUF) (ops 128) dev
  | CbStop => dev ← mt7603_mac80211_stop dev; mret (0, dev)
  | CbAddInterface v => mt7603_mac80211_add_interface K p (ops 32) dev v
  | CbRemoveInterface v => dev ← mt7603_mac80211_remove_interface K p (ops 4) dev v; mret (0, dev)
  | CbConfig cd changed => mt7603_mac80211_config K p (stack CHAN_BUF) dev cd changed
  | CbConfigureFilter total_flags flags =>
      mt7603_mac80211_configure_filter K p (ops 4) dev total_flags flags
  | CbBssInfoChanged v info changed entry =>
      dev ← mt7603_mac80211_bss_info_changed K p (stack CHAN_BUF) (ops 32) dev v info changed entry;
      mret (0, dev)
  | CbStaAdd v addr entry => mt7603_mac80211_sta_add K p (stack CHAN_BUF) (ops 32) dev v addr entry
  | CbStaRemove v => ret ← mt7603_mac80211_sta_remove K p v; mret (ret, dev)
  | CbSetKey set v sta key => r ← mt7603_mac80211_set_key K p set v sta key; mret (r.1, dev)
  | CbAmpduAction vif sta action tid buf_size =>
      ret ← mt7603_mac80211_ampdu_action K p (ops 4) vif sta action tid buf_size; mret (ret, dev)
  | CbUnregister => dev ← mt7603_unregister_mac80211 dev; mret (0, dev)
  end.

Fixpoint run_callbacks (dev : Dev.t) (cbs : list callback) : io Dev.t :=
  match cbs with
  | [] => mret dev
  | cb :: cbs => '(_, dev) ← run_callback dev cb; run_callbacks dev cbs
  end.
End ops.

(** ** The abstract driver

    What the callbacks ask for, without the device. *)

Definition soft_step (s : soft_state) (cb : callback) : soft_state :=
  match cb with
  | CbStart => Soft true (as_monitors s) (as_filter s) (as_ap s) (as_beacon s) (as_beacon_int s)
  | CbStop | CbUnregister =>
      Soft false (as_monitors s) (as_filter s) (as_ap s) false (as_beacon_int s)
  | CbAddInterface v => soft_add v s
  | CbRemoveInterface v => soft_remove v s
  | CbConfigureFilter _ flags => soft_filter flags s
  | CbBssInfoChanged v info changed _ => soft_bss v info changed s
  | _ => s
  end.

(** From [d], one callback may end in [d'], having taken what the rings of
    [d'] hold more than those of [d]. *)
Definition stepped (d : Dev.t) (s : soft_state) (d' : Dev.t) (e : effect) : Prop :=
  driver_inv d' ∧ soft d' = s ∧ mem e = ring_mem d' - ring_mem d ∧ urbs e = ring_urbs d' - ring_urbs d.

Lemma goes_stepped d s d' e : goes d s d' → steady e → stepped d s d' e.
Proof.
  intros (Hi & Hr & Hs) [Hm Hu]. unfold stepped, ring_mem, ring_urbs.
  injection Hr as -> -> ->. rewrite Hm, Hu, !Z.sub_diag. done.
Qed.

Section ops_spec.
Context (K : kernel) (p : profile) (stack : nat → list Z) (ops : nat → list RegWriteOp).
Context (Hstack : ∀ n, length (stack n) = n) (Hops : ∀ n, length (ops n) = n).

Lemma start_steps d :
  driver_inv d →
  emits (mt7603_mac80211_start K p (stack CHAN_BUF) (ops 128) d) (λ r e, stepped d (soft_step (soft d) CbStart) r.2 e).
Proof.
  intros Hd. pose proof Hd as [Hwf Hc Hs Hm Hb].
  eapply emits_weaken; [by apply start_emits|]. cbn beta.
  intros [ret d'] e ((urbs & cu & cb & done & Hd' & Hl & Hcase) & _ & Hmem & Hurb). cbn [fst snd] in *.
  split; [|split; [|done]].
  - split.
    + rewrite Hd'. apply (started_wf d); [done..|naive_solver].
    + rewrite Hd'. destruct Hcase as [[-> _]|[-> _]]; [split; cbn; lia|exact Hc].
    + rewrite Hd'. assert (∀ n, 0 ≤ n `mod` 15 + 1 ≤ 15) as Hn
        by (intros n; pose proof (Z.mod_pos_bound n 15); lia).
      destruct Hcase as [[-> _]|[-> _]]; apply Hn.
    + rewrite Hd'. by destruct Hcase as [[-> _]|[-> _]].
    + rewrite Hd'. by destruct Hcase as [[-> _]|[-> _]].
  - rewrite Hd'. by destruct Hcase as [[-> _]|[-> _]].
Qed.

(** Stop and removal do the same to the driver. *)
Lemma stop_rx_steps d :
  driver_inv d →
  emits (mt7603_stop_rx (Dev.set_beacon_enabled (Dev.set_running d false) false)) (λ d' e,
    stepped d (soft_step (soft d) CbStop) d' e ∧ ring_mem d' = 0 ∧ ring_urbs d' = 0).
Proof.
  intros [Hwf Hc Hs Hm Hb]. eapply emits_weaken; [apply stop_rx_emits|]. cbn beta.
  intros d' e ((_ & Hmem & Hurb) & urbs & Hd' & Hl & HF).
  assert (count ru_buf urbs = 0 ∧ count ru_urb urbs = 0) as [H1 H2].
  { clear -HF. induction HF as [|u urbs -> HF IH]; [done|]. rewrite !count_cons. cbn [ru_buf ru_urb Z.b2z]. lia. }
  assert (ring_mem d' = 0 ∧ ring_urbs d' = 0) as [H3 H4]
    by (rewrite Hd'; change (count ru_buf urbs + 0 = 0 ∧ count ru_urb urbs + 0 = 0); lia).
  split; [|done]. unfold stepped. rewrite H3, H4, Hmem, Hurb. split; [|split; [by rewrite Hd'|done]].
  rewrite Hd'. split; [|done..]. unfold Dev.wf in *. cbn in *. rewrite Hl. tauto.
Qed.

Lemma set_key_steady set v sta key :
  (set = true → k_cipher key = WLAN_CIPHER_SUITE_CCMP → (16 ≤ length (k_key key))%nat) →
  emits (mt7603_mac80211_set_key K p set v sta key) (λ _ e, True ∧ steady e).
Proof. intros Hl. eapply emits_weaken; [by apply set_key_emits|]. by intros r e [_ (? & ? & _)]. Qed.

Lemma ampdu_steady v sta action tid buf_size :
  0 ≤ tid < 16 →
  emits (mt7603_mac80211_ampdu_action K p (ops 4) v sta action tid buf_size) (λ _ e, True ∧ steady e).
Proof.
  intros Ht. unfold mt7603_mac80211_ampdu_action. fold (ampdu_wcid sta).
  assert (ampdu_wcid sta = 0 ∨ ampdu_wcid sta = 1) as Hw by (unfold ampdu_wcid; destruct (has_addr sta); auto).
  apply (closed_bind _ _ _ (λ _, True)).
  { eapply emits_weaken; [apply read_reg_emits; destruct Hw as [-> | ->]; vm_decide|]. by intros r e [-> _]. }
  intros [ret dw] _.
  assert (∀ n en, is_u8 n → emits (run_sequence K p 4
    (mt7603_rust_build_ba_session_sequence (ampdu_wcid sta) (wrap 8 tid) n en dw) (ops 4))
    (λ ops' e, length ops' = length (ops 4) ∧ steady e)) as Hseq.
  { intros n en Hn. apply run_sequence_steady with (r := BaSession (ampdu_wcid sta) (wrap 8 tid) n en dw);
      [done|by rewrite Hops| |done]. by intros ? ? ? ? ? [= <- _ _ _ _]. }
  assert (∀ n en (f : io Z), is_u8 n → emits f (λ _ e, True ∧ steady e) →
    emits (_ ← run_sequence K p 4 (mt7603_rust_build_ba_session_sequence (ampdu_wcid sta) (wrap 8 tid) n en dw) (ops 4); f)
      (λ _ e, True ∧ steady e)) as Hthen by (intros; by eapply (closed_bind _); [by apply Hseq|]).
  assert (emits ((if v && bool_decide (is_Some sta) then call_kernel (StopTxBa tid) else mret tt) ;; mret 0)
    (λ _ e, True ∧ steady e)) as Hcb.
  { destruct (v && _); [apply (closed_kernel _)|]; by apply (closed_ret _). }
  destruct action; try by apply (closed_ret _).
  - destruct sta as [addr|]; [|by apply (closed_ret _)]. destruct (negb _); [|by apply (closed_ret _)].
    do 2 (eapply (closed_bind _); [apply write_steady; vm_decide|intros _ _]). by apply (closed_ret _).
  - apply Hthen; [by apply is_uint_wrap|by apply (closed_ret _)].
  - by apply Hthen.
  - by apply Hthen.
  - by apply Hthen.
Qed.

(** After a stop the rings hold nothing; every other callback but a start
    leaves them as they were. *)
Definition settled (cb : callback) (d d' : Dev.t) : Prop :=
  (stops cb = true → ring_mem d' = 0 ∧ ring_urbs d' = 0) ∧
  (cb ≠ CbStart → stops cb = false → rings_of d' = rings_of d).

Lemma settled_cases cb d d' :
  settled cb d d' → cb ≠ CbStart → rings_of d' = rings_of d ∨ (ring_mem d' = 0 ∧ ring_urbs d' = 0).
Proof. intros [Hz Hk] Hn. destruct (stops cb); [right|left]; auto. Qed.

(** Every callback, from every state of the invariant, whatever fails. *)
Lemma run_callback_steps d cb :
  driver_inv d → callback_wf cb →
  emits (run_callback K p stack ops d cb) (λ r e, stepped d (soft_step (soft d) cb) r.2 e ∧
    settled cb d r.2).
Proof.
  intros Hd Hcb.
  assert (∀ (m : io (Z * Dev.t)) s, emits m (λ r e, goes d s r.2 ∧ steady e) → soft_step (soft d) cb = s →
    stops cb = false →
    emits m (λ r e, stepped d (soft_step (soft d) cb) r.2 e ∧ settled cb d r.2)) as Hgoes.
  { intros m s Hm <- Hs. eapply emits_weaken; [exact Hm|]. cbn beta. intros r e [Hg He].
    split; [by apply goes_stepped|]. destruct Hg as (_ & Hr & _). split; [congruence|done]. }
  assert (∀ (m : io Dev.t) s, emits m (λ d' e, goes d s d' ∧ steady e) →
    emits (d' ← m; mret (0, d')) (λ r e, goes d s r.2 ∧ steady e)) as Hret.
  { intros m s Hm. eapply (closed_bind _); [exact Hm|]. intros d' Hg. by apply (closed_ret _). }
  assert (∀ (m : io Z), emits m (λ _ e, True ∧ steady e) →
    emits (n ← m; mret (n, d)) (λ r e, goes d (soft d) r.2 ∧ steady e)) as Hkeep.
  { intros m Hm. eapply (closed_bind _); [exact Hm|]. intros n _. by apply (closed_ret _). }
  assert (∀ m : io Dev.t, m = (call_kernel CancelBeaconWork ;;
      dev ← mt7603_stop_rx (Dev.set_beacon_enabled (Dev.set_running d false) false);
      call_kernel KillAnchored ;; mret dev) → cb = CbStop ∨ cb = CbUnregister →
    emits (d' ← m; mret (0, d')) (λ r e, stepped d (soft_step (soft d) cb) r.2 e ∧ settled cb d r.2)) as Hstop.
  { intros m -> Hc. eapply emits_bind with (P := λ d' e, stepped d (soft_step (soft d) CbStop) d' e ∧
      ring_mem d' = 0 ∧ ring_urbs d' = 0).
    - apply emits_bind_kernel. eapply emits_bind; [by apply stop_rx_steps|]. cbn beta. intros d' e He.
      apply emits_bind_kernel. by io_ret.
    - cbn beta. intros d' e [Hs Hz]. io_ret. split; [by destruct Hc as [-> | ->]|]. split; [done|]. by destruct Hc as [-> | ->]. }
  destruct cb; cbn [run_callback callback_wf] in *.
  - eapply emits_weaken; [by apply start_steps|]. cbn beta. intros r e He. split; [done|]. by split.
  - apply Hstop; [done|by left].
  - eapply Hgoes; [|done..]. eapply emits_weaken; [by apply add_interface_goes|]. by intros r e [[_ ?] ?].
  - eapply Hgoes; [apply Hret, remove_interface_goes; done|done..].
  - by eapply Hgoes; [apply config_goes|..].
  - by eapply Hgoes; [apply configure_filter_goes|..].
  - destruct Hcb. eapply Hgoes; [apply Hret, bss_info_changed_goes; done|done..].
  - eapply Hgoes; [|done..]. eapply emits_weaken; [by apply sta_add_goes|]. by intros r e [[_ ?] ?].
  - eapply Hgoes; [apply Hkeep|done..]. eapply emits_weaken; [apply sta_remove_steady|]. by intros r e [_ ?].
  - eapply Hgoes; [|done..]. eapply (closed_bind _); [by apply set_key_steady|].
    intros r _. by apply (closed_ret _).
  - eapply Hgoes; [apply Hkeep, ampdu_steady; done|done..].
  - apply Hstop; [done|by right].
Qed.
End ops_spec.

Lemma rings_empty_hold d : rings_empty d → ring_mem d = 0 ∧ ring_urbs d = 0.
Proof.
  intros (HF & H1 & H2). unfold ring_mem, ring_urbs. rewrite H1, H2.
  assert (∀ f, f (RxUrb false false) = false → count f (Dev.rx_urbs d) = 0) as Hc.
  { intros f Hf. induction HF as [|u urbs -> HF IH]; [done|]. rewrite count_cons, Hf. cbn [Z.b2z]. lia. }
  rewrite !Hc by done. done.
Qed.

Section lives.
Context (K : kernel) (p : profile) (stack : nat → list Z) (ops : nat → list RegWriteOp).
Context (Hstack : ∀ n, length (stack n) = n) (Hops : ∀ n, length (ops n) = n).

Lemma stepped_trans d1 s2 d2 s3 d3 e1 e2 :
  stepped d1 s2 d2 e1 → stepped d2 s3 d3 e2 → stepped d1 s3 d3 (e1 ⊕ e2).
Proof.
  intros (_ & _ & M1 & U1) (I2 & S2 & M2 & U2). unfold stepped. simpl. rewrite M1, M2, U1, U2.
  split_and!; [done..|lia|lia].
Qed.

(** Whether the run ends with the driver stopped or removed. *)
Definition ends_stopped (cbs : list callback) : Prop :=
  last cbs = Some CbStop ∨ last cbs = Some CbUnregister.

Lemma run_callbacks_steps d cbs :
  driver_inv d → Forall callback_wf cbs →
  emits (run_callbacks K p stack ops d cbs) (λ d' e, stepped d (foldl soft_step (soft d) cbs) d' e ∧
    (ends_stopped cbs → ring_mem d' = 0 ∧ ring_urbs d' = 0)).
Proof.
  intros Hd Hcbs. revert d Hd. induction Hcbs as [|cb cbs Hcb _ IH]; intros d Hd; cbn [run_callbacks foldl].
  { apply emits_ret. unfold stepped. rewrite !Z.sub_diag. split; [done|]. by intros [?|?]. }
  eapply emits_bind; [by apply run_callback_steps|]. cbn beta. intros [ret d1] e1 [Hs1 [Hz1 _]]. cbn [snd] in *.
  pose proof Hs1 as (Hd1 & Hsoft & _). destruct cbs as [|cb' cbs].
  { apply emits_ret. rewrite eff_quiet_r. split; [done|]. intros He. apply Hz1.
    by destruct He as [E|E]; injection E as ->. }
  eapply emits_weaken; [by apply IH|]. cbn beta. intros d2 e2 [Hs2 Hz2].
  rewrite Hsoft in Hs2. split; [by eapply stepped_trans|exact Hz2].
Qed.
End lives.

(** ** Properties *)

(** C1. The driver refines its abstract state machine.  For every sequence of
    callbacks, whatever the kernel and the bus answer, the run returns, the
    state invariant holds at the end, and what the driver remembers -
    running, monitor interfaces, filter flags, access-point interface,
    beaconing and its interval - is the fold of the abstract steps over the
    callbacks: no failed transfer leaves it in another state.  The memory and
    the URBs the run took are those the rings of the final state hold. *)
Theorem callbacks_refine_soft_state K p stack ops d cbs :
  (∀ n, length (stack n) = n) → (∀ n, length (ops n) = n) → driver_inv d → Forall callback_wf cbs →
  emits (run_callbacks K p stack ops d cbs) (λ d' e,
    driver_inv d' ∧ soft d' = foldl soft_step (soft d) cbs ∧
    mem e = ring_mem d' - ring_mem d ∧ urbs e = ring_urbs d' - ring_urbs d).
Proof.
  intros Hst Hops Hd Hcbs. eapply emits_weaken; [by apply run_callbacks_steps|]. cbn beta.
  by intros d' e [? _].
Qed.

Definition sample_ap : vif := Vif 7 AP [0x00; 0x0c; 0x43; 0x01; 0x02; 0x03] None.
Definition sample_life : list callback :=
  [CbAddInterface sample_ap; CbStart; CbAddInterface (Vif 8 MONITOR (replicate 6 0) None);
   CbConfig (ChanDef (Some 6) false 2437) true;
   CbBssInfoChanged (Some sample_ap) (Some (BssConf None None true 0 None))
     (BssChanges false true false false false) None].
Definition some_bytes (n : nat) : list Z := replicate n 0xa5.
Definition some_ops (n : nat) : list RegWriteOp := replicate n (0 ↤ 0).

Lemma sample_life_wf : Forall callback_wf sample_life.
Proof.
  repeat apply List.Forall_cons; [..|apply List.Forall_nil]; cbn [callback_wf]; try done;
    try (split; vm_decide). split; [split; vm_decide|]. intros i [= <-]. split; [vm_decide|done].
Qed.

Lemma callbacks_refine_soft_state_witness :
  ∃ d' new, run_callbacks starved_kernel Release some_bytes some_ops Dev.initial sample_life [] = Done (d', new) ∧
    soft d' = Soft true 1 0 (Some 7%nat) true 100 ∧ driver_inv d'.
Proof.
  destruct (callbacks_refine_soft_state starved_kernel Release some_bytes some_ops Dev.initial sample_life
    (λ n, length_replicate n _) (λ n, length_replicate n _) initial_inv sample_life_wf [])
    as (d' & new & Heq & Hinv & Hsoft & _).
  exists d', new. split; [exact Heq|]. split; [rewrite Hsoft; reflexivity|exact Hinv].
Defined.

(** Nothing is leaked: from a driver that holds nothing, any sequence of
    callbacks that ends with stop or with the removal of the driver has given
    back every buffer and every URB it took, on every path of failed
    allocations and transfers, and leaves the driver neither running nor
    beaconing. *)
Theorem stopped_driver_holds_nothing K p stack ops d cbs :
  (∀ n, length (stack n) = n) → (∀ n, length (ops n) = n) → driver_inv d → Forall callback_wf cbs →
  rings_empty d → ends_stopped cbs →
  emits (run_callbacks K p stack ops d cbs) (λ d' e,
    mem e = 0 ∧ urbs e = 0 ∧ Dev.running d' = false ∧ Dev.beacon_enabled d' = false).
Proof.
  intros Hst Hops Hd Hcbs Hempty Hends.
  eapply emits_weaken; [by apply run_callbacks_steps|]. cbn beta.
  intros d' e [(_ & Hsoft & Hm & Hu) Hz]. destruct (Hz Hends) as [Hm' Hu'].
  assert (ring_mem d = 0 ∧ ring_urbs d = 0) as [Hm0 Hu0] by by apply rings_empty_hold.
  split; [lia|]. split; [lia|].
  assert (∃ cbs0 cb, cbs = cbs0 ++ [cb] ∧ (cb = CbStop ∨ cb = CbUnregister)) as (cbs0 & cb & -> & Hcb).
  { destruct Hends as [E|E]; apply last_Some in E as [cbs0 ->]; eauto. }
  rewrite foldl_app in Hsoft. cbn [foldl] in Hsoft.
  destruct Hcb as [-> | ->]; by injection Hsoft.
Qed.

Lemma sample_stop_wf : Forall callback_wf (sample_life ++ [CbStop]).
Proof. apply List.Forall_app. split; [apply sample_life_wf|by constructor]. Qed.

Lemma stopped_driver_holds_nothing_witness :
  ∃ d' new, run_callbacks good_kernel Release some_bytes some_ops Dev.initial (sample_life ++ [CbStop]) [] =
      Done (d', new) ∧ mem (effect_of new) = 0 ∧ urbs (effect_of new) = 0 ∧ Dev.running d' = false.
Proof.
  destruct (stopped_driver_holds_nothing good_kernel Release some_bytes some_ops Dev.initial
    (sample_life ++ [CbStop]) (λ n, length_replicate n _) (λ n, length_replicate n _) initial_inv
    sample_stop_wf
    ltac:(split; [vm_decide|done]) (or_introl eq_refl) []) as (d' & new & Heq & Hm & Hu & Hr & _).
  exists d', new. split; [exact Heq|]. split; [exact Hm|]. split; [exact Hu|exact Hr].
Defined.
