(* ===== verification/Filter.v ===== *)
(** * The receive filter over the life of the driver (src/c/mac80211.c)

    RMAC_RFCR against the driver's state, through any sequence of callbacks:
    which callbacks write the register, which leave it alone, and what the
    former leave in it.  [spares m R]: a run of [m] sends no request to the
    register, and its result satisfies [R]. *)

From S2P Require Import Prelude Rust Ffi Regmap Mac Mcu Sta Ap Entry Usb Device Cmd Plan Dev Driver Bank Keys Vif Ops.
From stdpp Require Import functions.
Local Open Scope Z_scope.
Local Open Scope rust_scope.

(** ** Runs that do not touch the register *)

Definition spare (e : event) : bool :=
  match e with
  | ControlOut r _ => bool_decide (req_addr r ≠ translate hif_windows RMAC_RFCR)
  | _ => true
  end.

Definition spares {A} (m : io A) (R : A → Prop) : Prop :=
  ∀ tr a tr', m tr = Done (a, tr') → R a ∧ ∃ new, tr' = tr ++ new ∧ forallb spare new = true.
Abbreviation spared m := (spares m (λ _, True)).

(** An address that is not mapped to the register. *)
Definition elsewhere (a : Z) : Prop :=
  is_u32 a ∧ translate hif_windows a ≠ translate hif_windows RMAC_RFCR.
#[export] Instance elsewhere_dec a : Decision (elsewhere a).
Proof. unfold elsewhere. apply _. Defined.

Lemma spares_ret {A} (a : A) (R : A → Prop) : R a → spares (mret a) R.
Proof. intros HR tr ? ? [= <- <-]. split; [done|]. exists []. by rewrite app_nil_r. Qed.

Lemma spares_log {A} (a : A) e : spare e = true → spared (log a e).
Proof. intros He tr ? ? [= <- <-]. split; [done|]. exists [e]. cbn. by rewrite He. Qed.

Lemma spares_call {A} (m : outcome A) : spares (call m) (λ a, m = Done a).
Proof.
  intros tr a tr' Heq. unfold call in Heq. destruct m; [|done..]. injection Heq as <- <-.
  split; [done|]. exists []. by rewrite app_nil_r.
Qed.

Lemma spares_undefined {A} (R : A → Prop) : spares undefined R.
Proof. by intros ???. Qed.

Lemma spares_bind {A B} (m : io A) (f : A → io B) (R : A → Prop) (Q : B → Prop) :
  spares m R → (∀ a, R a → spares (f a) Q) → spares (m ≫= f) Q.
Proof.
  intros Hm Hf tr b tr2 Heq. unfold mbind, io_bind in Heq.
  destruct (m tr) as [[a tr1]| |] eqn:E; [|done..].
  destruct (Hm _ _ _ E) as (HR & n1 & -> & H1). destruct (Hf _ HR _ _ _ Heq) as (HQ & n2 & -> & H2).
  split; [done|]. exists (n1 ++ n2). split; [by rewrite app_assoc|]. by rewrite forallb_app, H1, H2.
Qed.

Lemma spares_weaken {A} (m : io A) (R R' : A → Prop) :
  spares m R → (∀ a, R a → R' a) → spares m R'.
Proof. intros Hm HR tr a tr' Heq. destruct (Hm _ _ _ Heq). auto. Qed.

(** Such a run leaves the register as it was. *)
Lemma spare_step e h :
  spare e = true → reg_step h e (translate hif_windows RMAC_RFCR) = h (translate hif_windows RMAC_RFCR).
Proof.
  destruct e; cbn [spare reg_step]; try done. intros Hs%bool_decide_eq_true.
  case_decide; [|done]. by rewrite fn_lookup_insert_ne.
Qed.

Lemma spare_regs h0 tr new :
  forallb spare new = true → regs h0 (tr ++ new) RMAC_RFCR = regs h0 tr RMAC_RFCR.
Proof.
  unfold regs. rewrite foldl_app. generalize (foldl reg_step h0 tr). intros h Hn. revert h.
  induction new as [|e new IH]; intros h; [done|]. cbn [forallb] in Hn.
  apply andb_true_iff in Hn as [He Hn]. cbn [foldl]. by rewrite IH, spare_step.
Qed.

(** Go through a function: its binds and branches, hints at the leaves. *)
Create HintDb spares.
Ltac spares :=
  repeat lazymatch goal with
    | |- spares (_ ≫= _) _ => eapply spares_bind; [solve [eauto with spares]|intros ? ?]
    | |- spares (match ?x with _ => _ end) _ => destruct x
    | |- spares (mret _) _ => apply spares_ret; try done
    | |- spares _ _ => solve [eauto with spares]
    end.

#[export] Hint Resolve spares_call spares_undefined : spares.

Section steps.
Context (K : kernel) (p : profile).

Lemma kmalloc_spares n : spared (kmalloc K n).
Proof. intros tr a tr' [= <- <-]. split; [done|]. by eexists [_]. Qed.
Lemma control_in_spares q v i : spared (usb_control_in K q v i).
Proof.
  intros tr a tr' Heq. unfold usb_control_in in Heq. destruct (k_control_in _ _ _ _ _).
  injection Heq as <- <-. split; [done|]. by eexists [_].
Qed.
Lemma bulk_spares ep d : spared (usb_bulk_msg K ep d).
Proof. intros tr a tr' [= <- <-]. split; [done|]. by eexists [_]. Qed.
Lemma kfree_spares : spared kfree.
Proof. by apply spares_log. Qed.
Lemma kernel_spares c : spared (call_kernel c).
Proof. by apply spares_log. Qed.
Hint Resolve kmalloc_spares control_in_spares bulk_spares kfree_spares kernel_spares : spares.

Lemma read_reg_spares a v : spared (mt7603_usb_read_reg K p a v).
Proof. unfold mt7603_usb_read_reg. spares. Qed.

Lemma write_reg_spares a v : elsewhere a → spared (mt7603_usb_write_reg K p a v).
Proof.
  intros [Ha Hne]. unfold mt7603_usb_write_reg. eapply spares_bind; [apply kmalloc_spares|].
  intros m _. destruct m as [c|]; [|by apply spares_ret].
  eapply spares_bind; [apply spares_call|]. intros g Hg.
  unfold mt7603_rust_map_register_addr in Hg.
  rewrite (physical_addr_map_translate p a Ha) in Hg. injection Hg as <-.
  eapply spares_bind with (R := λ _, True).
  { intros tr r tr' [= <- <-]. split; [done|]. eexists [_]. split; [done|]. cbn [forallb spare].
    rewrite write_req_addr by by apply translate_u32. by rewrite bool_decide_eq_true_2. }
  intros r _. spares.
Qed.
Hint Resolve read_reg_spares : spares.

Lemma execute_spares ops :
  Forall (λ op, elsewhere (addr op)) ops → spared (mt7603_execute_reg_ops K p ops).
Proof.
  induction 1 as [|op ops Ha _ IH]; cbn [mt7603_execute_reg_ops]; [by apply spares_ret|].
  eapply spares_bind; [by apply write_reg_spares|]. intros ret _. destruct (ret <? 0); [by apply spares_ret|done].
Qed.

Lemma modify_spares a f : elsewhere a → spared (modify_reg K p a f).
Proof.
  intros Ha. unfold modify_reg. eapply spares_bind; [apply read_reg_spares|]. intros [ret dw] _.
  destruct (ret =? 0); [|by apply spares_ret].
  eapply spares_bind; [by apply write_reg_spares|]. intros ? _. by apply spares_ret.
Qed.

Lemma run_sequence_spares max f r ops :
  reg_request_wf r → (max ≤ length ops)%nat →
  from_option (Forall (λ op, elsewhere (addr op))) True
    (match reg_request_spec r with Ok seq => Some seq | Err _ => None end) →
  f (Some ops) max (Some 0%nat) = reg_entry r (Some ops) max (Some 0%nat) →
  spares (run_sequence K p max f ops) (λ ops', length ops' = length ops).
Proof.
  intros Hwf Hl HF Hf. rewrite (reg_entry_result r ops max 0 Hwf Hl) in Hf. unfold run_sequence.
  eapply spares_bind; [apply spares_call|]. intros out Hout. rewrite Hf in Hout. injection Hout as <-.
  assert (∀ (b : bool) ops' n, length ops' = length ops → Forall (λ op, elsewhere (addr op)) (take n ops') →
    spares ((if b then _ ← mt7603_execute_reg_ops K p (take n ops'); mret tt else mret tt) ;; mret ops')
      (λ ops'', length ops'' = length ops)) as Hex.
  { intros b ops' n Hlen Ht. eapply spares_bind with (R := λ _, True).
    - destruct b; [|by apply spares_ret]. eapply spares_bind; [by apply execute_spares|]. intros ? _.
      by apply spares_ret.
    - intros _ _. by apply spares_ret. }
  unfold entry_result. destruct (reg_request_spec r) as [seq|err]; [case_decide|].
  - apply (Hex _ ops 0%nat); [done|constructor].
  - apply Hex; [list_len|]. by rewrite take_app_length.
  - apply (Hex _ ops 0%nat); [done|constructor].
Qed.

Lemma send_cmd_spares f n : spared (mt7603_usb_send_cmd K f n).
Proof. unfold mt7603_usb_send_cmd. spares. Qed.
Hint Resolve send_cmd_spares : spares.
Lemma send_built_spares n f cmd : spared (send_built K n f cmd).
Proof.
  unfold send_built, call_builder. eapply spares_bind with (R := λ _, True).
  { eapply spares_bind; [apply spares_call|]. intros [[st [b|]] [w|]] _;
      (by apply spares_ret) || apply spares_undefined. }
  intros [[ret c] w] _. eapply spares_bind with (R := λ _, True); [|intros ? _; by apply spares_ret].
  destruct (_ && _); spares.
Qed.
Hint Resolve send_built_spares : spares.

Lemma set_channel_spares stack d ch bw c : spared (mt7603_set_channel_ext K p stack d ch bw c).
Proof.
  unfold mt7603_set_channel_ext. cbv zeta. do 2 (eapply spares_bind; [eauto with spares|]; intros ? _).
  eapply spares_bind; [apply write_reg_spares; vm_decide|]. intros ? _. spares.
Qed.
Hint Resolve set_channel_spares : spares.

Lemma tune_spares stack d ch : spared (tune K p stack d ch).
Proof.
  unfold tune, mt7603_set_channel. destruct ch as [ch|]; [|by apply spares_ret].
  destruct (negb _); [|by apply spares_ret]. spares.
Qed.
Lemma config_spares stack d cd ch : spared (mt7603_mac80211_config K p stack d cd ch).
Proof. unfold mt7603_mac80211_config, mt7603_set_chandef. spares. Qed.

Lemma write_bssid_spares a : spared (write_bssid K p a).
Proof.
  unfold write_bssid. eapply spares_bind; [apply write_reg_spares; vm_decide|]. intros ? _.
  apply write_reg_spares. vm_decide.
Qed.
Lemma clear_entry_spares : spared (clear_entry K p).
Proof.
  unfold clear_entry. do 3 (eapply spares_bind; [apply write_reg_spares; vm_decide|]; intros ? _).
  by apply spares_ret.
Qed.
Lemma clear_bssid_spares : spared (clear_bssid K p).
Proof.
  unfold clear_bssid. do 2 (eapply spares_bind; [apply write_reg_spares; vm_decide|]; intros ? _).
  by apply spares_ret.
Qed.
Lemma single_bssid_spares : spared (single_bssid K p).
Proof. apply modify_spares. vm_decide. Qed.
Hint Resolve tune_spares write_bssid_spares clear_entry_spares clear_bssid_spares single_bssid_spares : spares.

Lemma wtbl_elsewhere a : Forall (λ op, elsewhere (addr op)) (wtbl_sta_ops a).
Proof. vm_decide. Qed.

Lemma apply_wtbl_spares ops a :
  length a = 6%nat → (32 ≤ length ops)%nat → spared (apply_wtbl K p ops a).
Proof.
  intros Ha Hl. unfold apply_wtbl. eapply spares_bind; [apply spares_call|]. intros out Hout.
  assert (mt7603_rust_build_wtbl_sta_sequence (Some a) (Some ops) 32 (Some 0%nat) =
    Done (entry_result (Ok (wtbl_sta_ops a)) ops 32 0)) as E by (by apply (reg_entry_result (WtblSta a))).
  rewrite E in Hout.
  assert (out = entry_result (Ok (wtbl_sta_ops a)) ops 32 0) as -> by congruence. unfold entry_result.
  rewrite decide_False by (apply Nat.nlt_ge, Nat.leb_le; by vm_compute). cbn beta iota.
  rewrite take_app_length. destruct (_ && _); [|by apply spares_ret].
  eapply spares_bind; [apply execute_spares, wtbl_elsewhere|]. intros ? _.
  eapply spares_bind; [apply write_reg_spares; vm_decide|]. intros ? _. by apply spares_ret.
Qed.

Lemma own_mac_spares ops mac :
  length mac = 6%nat → (32 ≤ length ops)%nat →
  spares (run_sequence K p 32 (mt7603_rust_build_own_mac_sequence (Some mac)) ops)
    (λ ops', length ops' = length ops).
Proof. intros Hm Hl. apply (run_sequence_spares 32 _ (OwnMac mac)); try done. vm_decide. Qed.

Lemma bss_sync_spares ops period enable :
  (32 ≤ length ops)%nat →
  spares (run_sequence K p 32 (mt7603_rust_build_ap_bss_sync_sequence period enable) ops)
    (λ ops', length ops' = length ops).
Proof.
  intros Hl. apply (run_sequence_spares 32 _ (BssSync period enable)); try done.
  cbn [reg_request_spec from_option]. unfold bss_sync_ops. destruct enable; vm_decide.
Qed.
End steps.
#[export] Hint Resolve kmalloc_spares control_in_spares bulk_spares kfree_spares kernel_spares read_reg_spares
  send_cmd_spares send_built_spares set_channel_spares tune_spares config_spares write_bssid_spares
  clear_entry_spares clear_bssid_spares single_bssid_spares : spares.

(** ** The callbacks that leave the register alone *)

Section callbacks.
Context (K : kernel) (p : profile) (stack : nat → list Z) (ops : nat → list RegWriteOp).
Context (Hops : ∀ n, length (ops n) = n).

Lemma stop_rx_spares d : spared (mt7603_stop_rx d).
Proof.
  assert (∀ urbs, spared (stop_rx_urbs urbs)) as Hu.
  { intros urbs. induction urbs as [|u urbs IH]; cbn [stop_rx_urbs]; [by apply spares_ret|].
    assert (∀ (b : bool) ep, spared (if b then usb_kill_urb ep ;; usb_free_urb else mret tt)) as Hk.
    { intros [] ep; [|by apply spares_ret]. eapply spares_bind; [by apply spares_log|]. intros ? _.
      by apply spares_log. }
    eapply spares_bind; [apply Hk|]. intros ? _. eapply spares_bind with (R := λ _, True).
    { destruct (ru_buf u); [apply kfree_spares|by apply spares_ret]. }
    intros ? _. eapply spares_bind; [exact IH|]. intros ? _. by apply spares_ret. }
  unfold mt7603_stop_rx. eapply spares_bind with (R := λ _, True).
  { destruct (Dev.cmd_urb d); [|by apply spares_ret]. eapply spares_bind; [by apply spares_log|].
    intros ? _. by apply spares_log. }
  intros ? _. eapply spares_bind with (R := λ _, True).
  { destruct (Dev.cmd_buf d); [apply kfree_spares|by apply spares_ret]. }
  intros ? _. eapply spares_bind; [apply Hu|]. intros ? _. by apply spares_ret.
Qed.
Hint Resolve stop_rx_spares : spares.

Lemma stop_spares d : spared (mt7603_mac80211_stop d).
Proof. unfold mt7603_mac80211_stop. cbv zeta. spares. Qed.
Lemma unregister_spares d : spared (mt7603_unregister_mac80211 d).
Proof. unfold mt7603_unregister_mac80211. cbv zeta. spares. Qed.

Lemma sta_add_spares st d v a e :
  length a = 6%nat → spared (mt7603_mac80211_sta_add K p st (ops 32) d v a e).
Proof.
  intros Ha. unfold mt7603_mac80211_sta_add. cbv zeta. eapply spares_bind with (R := λ _, True).
  { destruct (_ && _); [|by apply spares_ret]. destruct e; apply tune_spares. }
  intros d' _. destruct (negb (is_zero_ether_addr a)); [|by apply spares_ret].
  eapply spares_bind with (R := λ _, True).
  { destruct (negb (is_ap v)); [|by apply spares_ret]. eapply spares_bind; [apply write_bssid_spares|].
    intros ? _. by apply spares_ret. }
  intros ? _. eapply spares_bind; [apply apply_wtbl_spares; [done|by rewrite Hops]|]. intros ? _.
  by apply spares_ret.
Qed.

Lemma sta_remove_spares v : spared (mt7603_mac80211_sta_remove K p v).
Proof.
  unfold mt7603_mac80211_sta_remove. eapply spares_bind with (R := λ _, True).
  { destruct (negb (is_ap v)); [apply clear_bssid_spares|by apply spares_ret]. }
  intros ? _. eapply spares_bind; [apply clear_entry_spares|]. intros ? _. by apply spares_ret.
Qed.

Lemma bss_own_vif_spares o d v :
  from_option vif_wf True v → length o = 32%nat →
  spares (bss_own_vif K p o d v) (λ r, length r.1 = 32%nat).
Proof.
  intros Hv Ho. unfold bss_own_vif. destruct v as [v|]; [|by apply spares_ret].
  destruct (_ && _); [|by apply spares_ret]. cbv zeta.
  eapply spares_bind; [apply own_mac_spares; [apply Hv|lia]|]. cbn beta. intros o' Ho'.
  eapply spares_bind; [apply write_bssid_spares|]. intros ? _.
  eapply spares_bind; [apply single_bssid_spares|]. intros ? _. apply spares_ret. cbn. lia.
Qed.

Lemma bss_beacon_spares o d v info changed :
  from_option vif_wf True v → length o = 32%nat →
  spares (bss_beacon K p o d v info changed) (λ r, length r.1 = 32%nat).
Proof.
  intros Hv Ho. unfold bss_beacon. eapply spares_bind; [by apply bss_own_vif_spares|].
  intros [o1 d1] Ho1. cbn [fst] in Ho1. destruct (from_option _ _ _); cbv zeta.
  - eapply spares_bind; [apply bss_sync_spares; lia|]. cbn beta. intros o2 Ho2.
    eapply spares_bind; [apply kernel_spares|]. intros ? _. apply spares_ret. cbn. lia.
  - destruct (ch_beacon_enabled changed); [|by apply spares_ret].
    eapply spares_bind; [apply kernel_spares|]. intros ? _.
    eapply spares_bind; [apply bss_sync_spares; lia|]. cbn beta. intros o2 Ho2. apply spares_ret. cbn. lia.
Qed.

Lemma bss_join_spares st o d v info bssid e :
  length bssid = 6%nat → length o = 32%nat → spared (bss_join K p st o d v info bssid e).
Proof.
  intros Hb Ho. unfold bss_join. eapply spares_bind with (R := λ _, True).
  { repeat case_match; apply tune_spares. }
  intros d' _. eapply spares_bind; [apply write_reg_spares; vm_decide|]. intros r _.
  eapply spares_bind with (R := λ _, True).
  { destruct (r =? 0); [|by apply spares_ret]. eapply spares_bind; [apply write_reg_spares; vm_decide|].
    intros ? _. by apply spares_ret. }
  intros ? _. eapply spares_bind; [apply single_bssid_spares|]. intros ? _.
  eapply spares_bind with (R := λ _, True); [|intros ? _; by apply spares_ret].
  destruct (negb (is_ap v)); [apply apply_wtbl_spares; [done|lia]|by apply spares_ret].
Qed.

Lemma bss_info_changed_spares st d v info changed e :
  from_option vif_wf True v → info_wf info →
  spared (mt7603_mac80211_bss_info_changed K p st (ops 32) d v info changed e).
Proof.
  intros Hv Hi. unfold mt7603_mac80211_bss_info_changed.
  eapply spares_bind; [apply tune_spares|]. intros d0 _.
  eapply spares_bind with (R := λ r, length r.1 = 32%nat).
  { destruct (_ || _); [apply bss_beacon_spares; [done|apply Hops]|apply spares_ret, Hops]. }
  intros [o d1] Ho. cbn [fst] in Ho. destruct (_ || _); [|by apply spares_ret].
  assert (spared (if negb (is_ap v) then clear_bssid K p ;; clear_entry K p ;; mret d1 else mret d1)) as Hc.
  { destruct (negb _); [|by apply spares_ret]. spares. }
  destruct (info ≫= bi_bssid) as [bssid|] eqn:Eb; [|exact Hc].
  destruct (negb (is_zero_ether_addr bssid)); [|exact Hc]. apply bss_join_spares; [|done].
  destruct info as [i|]; [|done]. destruct (Hi i eq_refl) as [_ H6]. cbn in Eb. by rewrite Eb in H6.
Qed.

Lemma set_key_spares set v sta key : spared (mt7603_mac80211_set_key K p set v sta key).
Proof.
  assert (key_wcid key sta = 0 ∨ key_wcid key sta = 1) as Hw
    by (unfold key_wcid; repeat case_match; auto).
  unfold mt7603_mac80211_set_key. revert Hw. generalize (key_wcid key sta). intros wcid Hw. cbv zeta.
  assert (elsewhere (WTBL1_BASE + wcid * WTBL1_ENTRY_SIZE) ∧
    elsewhere (WTBL1_BASE + wcid * WTBL1_ENTRY_SIZE + 0x08) ∧
    elsewhere (WTBL2_BASE + wcid * 64) ∧ elsewhere (WTBL2_BASE + wcid * 64 + 4)) as (E0 & E1 & E2 & E3)
    by (destruct Hw as [-> | ->]; vm_decide).
  destruct (negb set).
  { eapply spares_bind; [by apply modify_spares|]. intros ? _.
    eapply spares_bind; [by apply modify_spares|]. intros ? _. by apply spares_ret. }
  destruct (negb _); [by apply spares_ret|].
  eapply spares_bind with (R := λ _, True).
  { cbn [write_key_words].
    do 4 (do 4 (eapply spares_bind; [apply spares_call|]; intros ? _); cbv zeta;
      eapply spares_bind; [apply write_reg_spares; destruct Hw as [-> | ->]; vm_decide|]; intros ? _).
    by apply spares_ret. }
  intros ? _. do 2 (eapply spares_bind; [by apply write_reg_spares|]; intros ? _).
  do 2 (eapply spares_bind; [by apply modify_spares|]; intros ? _).
  do 2 (eapply spares_bind; [apply write_reg_spares; vm_decide|]; intros ? _).
  by apply spares_ret.
Qed.

Lemma ba_session_spares o wcid tid size enable dw15 :
  wcid = 0 ∨ wcid = 1 → is_u8 size → length o = 4%nat →
  spares (run_sequence K p 4 (mt7603_rust_build_ba_session_sequence wcid tid size enable dw15) o)
    (λ o', length o' = length o).
Proof.
  intros Hw Hs Ho. apply (run_sequence_spares K p 4 _ (BaSession wcid tid size enable dw15)); try done; [lia|].
  cbn [reg_request_spec]. case_decide; [|done]. cbn [from_option].
  destruct Hw as [-> | ->]; vm_decide.
Qed.

Lemma ampdu_spares v sta act tid n : spared (mt7603_mac80211_ampdu_action K p (ops 4) v sta act tid n).
Proof.
  unfold mt7603_mac80211_ampdu_action. set (wcid := if has_addr sta then 1 else 0).
  assert (wcid = 0 ∨ wcid = 1) as Hw by (unfold wcid; destruct (has_addr sta); auto). cbv zeta.
  eapply spares_bind; [apply read_reg_spares|]. intros [r dw15] _.
  assert (∀ size, spared (_ ← run_sequence K p 4 (mt7603_rust_build_ba_session_sequence wcid (wrap 8 tid) (wrap 8 size) false dw15) (ops 4);
    (if v && bool_decide (is_Some sta) then call_kernel (StopTxBa tid) else mret tt) ;; mret 0)) as Hstop.
  { intros size. eapply spares_bind; [apply ba_session_spares; [done|by apply is_uint_wrap|apply Hops]|]. intros ? _.
    eapply spares_bind with (R := λ _, True); [|intros ? _; by apply spares_ret].
    destruct (_ && _); [apply kernel_spares|by apply spares_ret]. }
  destruct act; try by apply spares_ret; try exact (Hstop 0).
  - destruct sta as [a|]; [|by apply spares_ret]. destruct (negb _); [|by apply spares_ret].
    do 2 (eapply spares_bind; [apply write_reg_spares; vm_decide|]; intros ? _). by apply spares_ret.
  - eapply spares_bind; [apply ba_session_spares; [done|by apply is_uint_wrap|apply Hops]|]. intros ? _.
    by apply spares_ret.
  - exact (Hstop 0).
  - exact (Hstop 0).
  - exact (Hstop 0).
Qed.

(** All callbacks but four. *)
Definition writes_filter (cb : callback) : bool :=
  match cb with
  | CbStart | CbAddInterface _ | CbRemoveInterface _ | CbConfigureFilter _ _ => true
  | _ => false
  end.

Lemma run_callback_spares d cb :
  callback_wf cb → writes_filter cb = false → spared (run_callback K p stack ops d cb).
Proof.
  intros Hcb Hw. destruct cb; try done; cbn [run_callback callback_wf] in *.
  - eapply spares_bind; [apply stop_spares|]. intros ? _. by apply spares_ret.
  - apply config_spares.
  - destruct Hcb as [Hv Hi]. eapply spares_bind; [by apply bss_info_changed_spares|].
    intros ? _. by apply spares_ret.
  - by apply sta_add_spares.
  - eapply spares_bind; [apply sta_remove_spares|]. intros ? _. by apply spares_ret.
  - eapply spares_bind; [apply set_key_spares|]. intros ? _. by apply spares_ret.
  - eapply spares_bind; [apply ampdu_spares|]. intros ? _. by apply spares_ret.
  - eapply spares_bind; [apply unregister_spares|]. intros ? _. by apply spares_ret.
Qed.
End callbacks.

(** ** The callbacks that write it *)

(** What a callback does to the filter that was right before it: start leaves
    the value of the MAC initialisation, and the removal of the last monitor
    interface forgets a beacon flag. *)
Definition upsets (s : soft_state) (cb : callback) : Prop :=
  match cb with
  | CbStart => True
  | CbRemoveInterface v => as_running s = true ∧ vif_type v = MONITOR ∧ as_monitors s ≤ 1 ∧
      has_flag (as_filter s) FIF_BCN_PRBRESP_PROMISC = true
  | _ => False
  end.

(** A run in which no callback upsets it. *)
Fixpoint undisturbed (s : soft_state) (cbs : list callback) : Prop :=
  match cbs with
  | [] => True
  | cb :: cbs => ¬ upsets s cb ∧ undisturbed (soft_step s cb) cbs
  end.

Lemma filter_ok_soft d d' h h' :
  as_monitors (soft d') = as_monitors (soft d) → as_filter (soft d') = as_filter (soft d) →
  (Dev.running d' = true → Dev.running d = true ∧ h' RMAC_RFCR = h RMAC_RFCR) →
  filter_ok d h → filter_ok d' h'.
Proof.
  unfold filter_ok, wanted_filter. cbn [soft as_monitors as_filter]. intros -> -> Hr Hf Hrun.
  destruct (Hr Hrun) as [? ->]. by apply Hf.
Qed.

(** No wanted filter is the one the MAC initialisation writes. *)
Lemma wanted_not_init d : wanted_filter d ≠ 2.
Proof. unfold wanted_filter, rx_filter_rfcr. by repeat case_match. Qed.

Section filter.
Context (K : kernel) (p : profile) (h0 : Z → Z) (stack : nat → list Z) (ops : nat → list RegWriteOp).
Context (HK : reliable K) (Hstack : ∀ n, length (stack n) = n) (Hops : ∀ n, length (ops n) = n).

Lemma wp_spares {A} (m : io A) (R : A → effect → Prop) h :
  emits m R → spared m → wp h0 m (λ a h', (∃ e, R a e) ∧ h' RMAC_RFCR = h RMAC_RFCR) h.
Proof.
  intros Hm Hs tr Hr. destruct (Hm tr) as (a & new & Heq & HR).
  exists a, (tr ++ new), (λ x, regs h0 (tr ++ new) x). split; [done|]. split; [by intros x Hx|].
  split; [by eexists|]. destruct (Hs _ _ _ Heq) as (_ & new' & E & Hn). apply app_inv_head in E as <-.
  rewrite spare_regs by done. apply Hr. vm_decide.
Qed.

(** The writes of a start, in order. *)
Definition start_ops (d : Dev.t) : list RegWriteOp :=
  static_seq ++ own_mac_ops (Dev.mac_addr d) ++ wtbl_sta_ops bcast_addr ++
  [DMA_TCFR1 ↤ 0x10100; RMAC_CHFREQ ↤ 1].

Lemma start_plan_does d : plan_does (start_plan d) (start_ops d).
Proof.
  unfold start_plan, start_ops. cbv zeta.
  refine (plan_does_app _ _ [] (static_seq ++ own_mac_ops (Dev.mac_addr d) ++ wtbl_sta_ops bcast_addr ++
    [DMA_TCFR1 ↤ 0x10100; RMAC_CHFREQ ↤ 1]) _ _); [destruct (Dev.eeprom_valid d); repeat constructor|].
  refine (plan_does_app _ _ static_seq _ (seq_plan_does _) _).
  refine (plan_does_app _ _ (own_mac_ops _) _ (seq_plan_does _) _).
  refine (plan_does_app _ _ (wtbl_sta_ops _) _ (seq_plan_does _) _).
  refine (plan_does_app _ _ [DMA_TCFR1 ↤ 0x10100] [RMAC_CHFREQ ↤ 1] _ (channel_plan_does _ _ _ _)).
  apply does_cmd, does_cmd, does_write, does_nil.
Qed.

Lemma start_ops_ok d :
  Dev.wf d → Forall (λ op, mapped (addr op) ∧ is_u32 (val op)) (start_ops d).
Proof.
  intros (_ & _ & H8 & _). unfold start_ops. rewrite !Forall_app. split; [vm_decide|].
  split; [|split; vm_decide].
  assert (∀ k, is_u8 (nth k (Dev.mac_addr d) 0)) as Hk by (intros; by apply Forall_nth_u8).
  assert (∀ k, is_u32 (nth k (Dev.mac_addr d) 0)) as Hk' by (intros; by apply is_u8_u32).
  unfold own_mac_ops, own_mac_val0, own_mac_val1.
  repeat apply List.Forall_cons; [..|apply List.Forall_nil]; (split; [vm_decide|cbn [val]; eauto 10 with rust]).
Qed.

(** The only write to the filter among them. *)
Lemma static_seq_split : static_seq = take 55 static_seq ++ [RMAC_RFCR ↤ 2] ++ drop 56 static_seq.
Proof. reflexivity. Qed.

Lemma start_filter d h : writes (start_ops d) h RMAC_RFCR = 2.
Proof.
  unfold start_ops. rewrite writes_app, writes_other by vm_decide.
  rewrite static_seq_split, !writes_app, writes_other by vm_decide.
  cbn [writes foldl addr val]. by rewrite fn_at.
Qed.

Lemma wp_start d h :
  driver_inv d →
  wp h0 (mt7603_mac80211_start K p (stack CHAN_BUF) (ops 128) d) (λ r h',
    r.1 = 0 ∧ driver_inv r.2 ∧ soft r.2 = soft_step (soft d) CbStart ∧ h' RMAC_RFCR = 2) h.
Proof.
  intros Hd tr Hr.
  destruct (emits_and _ _ _ (start_emits K p (stack CHAN_BUF) (ops 128) d (Hstack _) (Hops _) (di_wf d Hd))
    (start_steps K p stack ops Hstack Hops d Hd) tr) as ([r d'] & new & Heq & (_ & (w & _ & _ & Hrel) & _) & Hs).
  cbn [fst snd] in *. destruct (Hrel HK) as (-> & _ & Hw). destruct Hs as (Hi & Hsoft & _).
  exists (0, d'), (tr ++ new), (λ x, regs h0 (tr ++ new) x). split; [done|]. split; [by intros x Hx|].
  cbn [fst snd]. do 3 (split; [done|]). unfold regs. rewrite foldl_app, (regs_wires _ new), Hw, carried_out_app, foldl_app.
  match goal with |- foldl wire_step ?g _ _ = _ =>
    rewrite (plan_registers (start_plan d) (start_ops d) (λ a, g (translate hif_windows a)) g) end;
    [apply start_filter|apply start_plan_does|apply start_ops_ok, Hd|done|vm_decide].
Qed.

(** One callback. *)
Lemma wp_callback_filter d cb h :
  driver_inv d → callback_wf cb → ¬ upsets (soft d) cb → filter_ok d h →
  wp h0 (run_callback K p stack ops d cb) (λ r h',
    driver_inv r.2 ∧ soft r.2 = soft_step (soft d) cb ∧ filter_ok r.2 h') h.
Proof.
  intros Hd Hcb Hup Hf.
  assert (emits (run_callback K p stack ops d cb) (λ r e, driver_inv r.2 ∧ soft r.2 = soft_step (soft d) cb)) as He.
  { eapply emits_weaken; [by apply run_callback_steps|]. cbn beta. by intros r e [(? & ? & _) _]. }
  assert (∀ Q : Z * Dev.t → (Z → Z) → Prop, wp h0 (run_callback K p stack ops d cb) Q h →
    wp h0 (run_callback K p stack ops d cb)
      (λ r h', (driver_inv r.2 ∧ soft r.2 = soft_step (soft d) cb) ∧ Q r h') h) as Hand.
  { intros Q Hq tr Hr. destruct (Hq tr Hr) as (a & tr' & h' & Heq & Hr' & HQ), (He tr) as (b & new & Heq' & Hb).
    rewrite Heq in Heq'. injection Heq' as <- _. by exists a, tr', h'. }
  destruct (writes_filter cb) eqn:Ew.
  2:{ eapply wp_weaken; [by apply (wp_spares _ _ h He), run_callback_spares|]. cbn beta.
      intros [r d'] h' [[e [Hi Hs]] Hh]. split; [done|]. split; [done|]. cbn [snd] in *.
      apply (filter_ok_soft d d' h h'); rewrite ?Hs; [..|done].
      - destruct cb; try done. cbn. unfold soft_bss. by destruct (_ || _).
      - destruct cb; try done. cbn. unfold soft_bss. by destruct (_ || _).
      - intros Hrun. split; [|done]. change (as_running (soft d') = true) in Hrun. rewrite Hs in Hrun.
        change (as_running (soft d) = true). destruct cb; try done. revert Hrun. cbn. unfold soft_bss.
        by destruct (_ || _). }
  assert (∀ Q : Z * Dev.t → (Z → Z) → Prop, wp h0 (run_callback K p stack ops d cb) Q h →
    (∀ r h', Q r h' → filter_ok r.2 h') →
    wp h0 (run_callback K p stack ops d cb) (λ r h',
      driver_inv r.2 ∧ soft r.2 = soft_step (soft d) cb ∧ filter_ok r.2 h') h) as Hfin.
  { intros Q Hq HQ. eapply wp_weaken; [by apply Hand|]. cbn beta. intros r h' [[? ?] ?]. auto. }
  destruct cb; try done; cbn [run_callback callback_wf upsets] in *.
  - eapply Hfin; [by apply add_interface_wp|]. by intros r h' ?.
  - apply (Hfin (λ r h', filter_ok r.2 h')); [|done].
    eapply (wp_bind h0 _ _ (λ d' h', filter_ok d' h')); [|by intros; apply wp_ret].
    eapply wp_weaken; [by apply remove_interface_wp|]. cbn beta. intros d' h' (Hr & Hfl & Hother & Hlast).
    unfold filter_ok, wanted_filter in *. rewrite Hr, Hfl. intros Hrun.
    destruct (decide (last_monitor d v)) as [Hl1|Hl1].
    + destruct (Hlast Hl1) as [-> ->]; [|done]. destruct Hl1 as [Hm Hc].
      destruct (has_flag _ FIF_BCN_PRBRESP_PROMISC) eqn:Efl; [destruct Hup; by split_and!|].
      by destruct (has_flag _ FIF_FCSFAIL).
    + destruct (Hother Hl1) as [-> Hc]. rewrite Hf by done. f_equal. f_equal.
      destruct (Z.ltb_spec 0 (Dev.monitor_count d)), (Z.ltb_spec 0 (Dev.monitor_count d')); try done; lia.
  - eapply Hfin; [by apply configure_filter_wp|]. by intros r h' [_ ?].
Qed.

Lemma wp_callbacks_filter d cbs h :
  driver_inv d → Forall callback_wf cbs → undisturbed (soft d) cbs → filter_ok d h →
  wp h0 (run_callbacks K p stack ops d cbs) (λ d' h',
    driver_inv d' ∧ soft d' = foldl soft_step (soft d) cbs ∧ filter_ok d' h') h.
Proof.
  intros Hd Hcbs. revert d h Hd. induction Hcbs as [|cb cbs Hcb _ IH]; intros d h Hd Hu Hf;
    cbn [run_callbacks foldl]; [by apply wp_ret|].
  destruct Hu as [Hup Hu]. eapply (wp_bind h0); [by apply wp_callback_filter|]. cbn beta.
  intros [r d'] h' (Hd' & Hs & Hf'). cbn [snd] in *. rewrite <-Hs in Hu |- *. by apply IH.
Qed.
End filter.

(** ** Properties *)

(** C27. The receive filter over the life of the driver, on a device whose
    transfers succeed: "while the driver runs, RFCR holds the filter that the
    monitor interfaces and the filter flags ask for" holds at the end of every
    run of callbacks that starts with it and has no upsetting callback in it,
    and configure_filter establishes it from any registers.  The two upsetting
    callbacks do upset it: start leaves the 0x2 of the MAC initialisation in
    RFCR, whatever interfaces and flags there are, and removing the last
    monitor interface of a running driver resets the filter without looking at
    a beacon flag. *)
Theorem receive_filter_follows K p h0 stack ops d cbs v total_flags flags h :
  reliable K → (∀ n, length (stack n) = n) → (∀ n, length (ops n) = n) → driver_inv d →
  (Forall callback_wf cbs → undisturbed (soft d) cbs → filter_ok d h →
   wp h0 (run_callbacks K p stack ops d cbs) (λ d' h',
     soft d' = foldl soft_step (soft d) cbs ∧ filter_ok d' h') h) ∧
  wp h0 (run_callback K p stack ops d (CbConfigureFilter total_flags flags)) (λ r h',
    Dev.filter_flags r.2 = flags ∧ filter_ok r.2 h') h ∧
  wp h0 (run_callback K p stack ops d CbStart) (λ r h',
    Dev.running r.2 = true ∧ h' RMAC_RFCR = 2 ∧ ¬ filter_ok r.2 h') h ∧
  (upsets (soft d) (CbRemoveInterface v) →
   wp h0 (run_callback K p stack ops d (CbRemoveInterface v)) (λ r h', ¬ filter_ok r.2 h') h).
Proof.
  intros HK Hst Hops Hd. split; [|split; [|split]].
  - intros Hcbs Hu Hf. eapply wp_weaken; [by apply wp_callbacks_filter|]. cbn beta. by intros d' h' (_ & ? & ?).
  - eapply wp_weaken; [by apply configure_filter_wp|]. cbn beta. by intros [n d'] h' [-> ?].
  - eapply wp_weaken; [by apply wp_start|]. cbn beta. intros r h' (_ & _ & Hs & Hh).
    assert (Dev.running r.2 = true) as Hr by (change (as_running (soft r.2) = true); by rewrite Hs).
    split; [done|]. split; [done|]. intros Hf. specialize (Hf Hr). rewrite Hh in Hf.
    by destruct (wanted_not_init r.2).
  - intros (Hrun & Hm & Hc & Hflag). cbn [run_callback soft as_running as_monitors as_filter] in *.
    eapply (wp_bind h0 _ _ (λ d' h', ¬ filter_ok d' h')); [|by intros; apply wp_ret].
    eapply wp_weaken; [by apply remove_interface_wp|]. cbn beta. intros d' h' (Hr & Hfl & _ & Hlast) Hok.
    destruct Hlast as [Hz Hh]; [by split|]. rewrite Hrun in Hr. specialize (Hok Hr). rewrite Hh in Hok by done.
    unfold wanted_filter in Hok. rewrite Hz, Hfl, Hflag in Hok. by destruct (has_flag _ FIF_FCSFAIL).
Qed.

Lemma receive_filter_follows_witness :
  let d := Dev.set_filter_flags (Dev.set_monitor_count (Dev.set_running Dev.initial true) 1) FIF_BCN_PRBRESP_PROMISC in
  let v := Vif 0 MONITOR [0; 0; 0; 0; 0; 0] None in
  let h := λ _ : Z, 6 in
  filter_ok d h ∧
  (∃ d' tr h', run_callbacks (bank_kernel h) Release some_bytes some_ops d
      [CbStaRemove None; CbConfigureFilter 0 FIF_FCSFAIL; CbAddInterface v] [] = Done (d', tr) ∧
    Dev.running d' = true ∧ filter_ok d' h') ∧
  (∃ r tr h', run_callback (bank_kernel h) Release some_bytes some_ops d (CbRemoveInterface v) [] = Done (r, tr) ∧
    ¬ filter_ok r.2 h').
Proof.
  intros d v h. assert (∀ a, is_u32 (h a)) as Hu by (intros; vm_decide).
  assert (driver_inv d) as Hd by (split; [vm_decide|simpl; lia..|done]).
  assert (filter_ok d h) as Hf by done.
  destruct (receive_filter_follows (bank_kernel h) Release h some_bytes some_ops d
    [CbStaRemove None; CbConfigureFilter 0 FIF_FCSFAIL; CbAddInterface v] v 0 0 h
    (proj1 (bank_kernel_ok h Hu)) (λ n, length_replicate n _) (λ n, length_replicate n _) Hd)
    as (Hrun & _ & _ & Hrm).
  split; [exact Hf|]. split.
  - destruct (Hrun ltac:(repeat constructor; vm_decide) ltac:(cbn; tauto) Hf [] (λ _ _, eq_refl))
      as (d' & tr & h' & Heq & _ & Hs & Hok).
    exists d', tr, h'. split; [exact Heq|]. split; [by injection Hs|exact Hok].
  - destruct (Hrm ltac:(by split_and!) [] (λ _ _, eq_refl)) as (r & tr & h' & Heq & _ & Hno).
    exists r, tr, h'. split; [exact Heq|exact Hno].
Defined.
