(* ===== verification/RxPath.v ===== *)
(** * The receive path (mt7603_rx_complete in src/c/mac80211.c)

    One bulk transfer carries several packets, each padded to four bytes and
    followed by a four-byte trailer, and transmit status reports between them.
    The completion handler walks the transfer, has the Rust core parse each
    packet, and hands the 802.11 frames to mac80211 with their receive
    status.  The URB's buffer is [buf], of which the device filled the first
    [actual_length] bytes; the handler reads it without bounds checks of its
    own ([peek]). *)

From S2P Require Import Prelude Rust Ffi Rx Entry Dev.
Local Open Scope Z_scope.
Local Open Scope rust_scope.

(** ** What mac80211 gets *)

Inductive rx_encoding := RX_ENC_LEGACY | RX_ENC_HT.
Inductive rate_info_bw := RATE_INFO_BW_20 | RATE_INFO_BW_40.

(** The fields of [ieee80211_rx_status] the driver sets; the band is always
    2.4 GHz and the chain mask 1.  [rs_decrypted] stands for the three flags
    decrypted, IV stripped and MIC stripped, which are set together. *)
Record rx_status := {
  rs_freq : Z;
  rs_signal : Z;
  rs_chain_signal : Z;
  rs_no_signal : bool;
  rs_encoding : rx_encoding;
  rs_rate_idx : Z;
  rs_bw : rate_info_bw;
  rs_short_gi : bool;
  rs_decrypted : bool;
}.

(** A frame passed to [ieee80211_rx], or a logged transmit status. *)
Inductive rx_event :=
| RxFrame (status : rx_status) (data : list Z)
| TxStatus (pid me : Z).

#[export] Instance rx_encoding_eq_dec : EqDecision rx_encoding.
Proof. solve_decision. Defined.
#[export] Instance rate_info_bw_eq_dec : EqDecision rate_info_bw.
Proof. solve_decision. Defined.
#[export] Instance rx_status_eq_dec : EqDecision rx_status.
Proof. solve_decision. Defined.
#[export] Instance rx_event_eq_dec : EqDecision rx_event.
Proof. solve_decision. Defined.

Definition IEEE80211_FCTL_PROTECTED : Z := 0x4000.
Definition ENOENT : Z := -2.
Definition ESHUTDOWN : Z := -108.
Definition ECONNRESET : Z := -104.

Section rx.
(** The device's fields the handler reads, the module parameter
    [mt7603_dbg_rx], whether [dev_alloc_skb] succeeds for the packet at a
    position, and what the uninitialised [rx_info] on the stack holds. *)
Variables (rssi_offset_2g current_channel : Z) (running mt7603_dbg_rx : bool).
Variable dev_alloc_skb : nat → nat → bool.
Variable stack_info : RxInfo.
(** The URB. *)
Variables (status : Z) (buf : list Z) (actual_length : nat).

Definition rx_set_rate (rate : Z) : rx_encoding * Z * rate_info_bw * bool :=
  if negb (Z.land rate 0x80 =? 0) then
    (RX_ENC_HT, Z.land rate 0x1f,
     if negb (Z.land rate 0x40 =? 0) then RATE_INFO_BW_40 else RATE_INFO_BW_20,
     negb (Z.land rate 0x20 =? 0))
  else if Z.land rate 0x1f <? 12 then (RX_ENC_LEGACY, Z.land rate 0x1f, RATE_INFO_BW_20, false)
  else (RX_ENC_LEGACY, 0, RATE_INFO_BW_20, false).

Definition rx_set_status (info : RxInfo) (fc b9 b10 : Z) : rx_status :=
  let '(enc, idx, bw, sgi) := rx_set_rate (rate info) in
  let sec_mode := Z.land (b9 ≫ 4) 0x0f in
  let rx_sec_err := Z.land (b10 ≫ 2) 0x0f in
  {| rs_freq := 2407 + (if current_channel =? 0 then 1 else current_channel) * 5;
     rs_signal := rssi info;
     rs_chain_signal := rssi info;
     rs_no_signal := rssi info =? 0;
     rs_encoding := enc; rs_rate_idx := idx; rs_bw := bw; rs_short_gi := sgi;
     rs_decrypted := negb (Z.land fc IEEE80211_FCTL_PROTECTED =? 0) && negb (sec_mode =? 0) &&
       (rx_sec_err =? 0) |}.

(** The frame the parser found in the packet at [cur_pos]. *)
Definition rx_deliver (cur_pos remaining : nat) (ret : Z) (info : RxInfo)
    : outcome (list rx_event) :=
  if (ret =? 0) && (4 <? pkt_len info) && (is_crc_error info =? 0) then
    let offset := Z.to_nat (hdr_len info) in
    let payload_len := Z.to_nat (pkt_len info) in
    if decide (offset + payload_len ≤ remaining)%nat then
      let hdr := (cur_pos + offset)%nat in
      h0 ← peek buf hdr; h1 ← peek buf (hdr + 1);
      let fc := Z.lor h0 (h1 ≪ 8) in
      if dev_alloc_skb cur_pos (payload_len + 2) then
        data ← peek_slice buf hdr payload_len;
        b9 ← peek buf (cur_pos + 9); b10 ← peek buf (cur_pos + 10);
        mret [RxFrame (rx_set_status info fc b9 b10) data]
      else mret []
    else mret []
  else mret [].

(** The debug dump of a short frame: sixteen bytes and up to three addresses,
    none of them checked against the packet's end. *)
Definition rx_dump (cur_pos remaining : nat) (info : RxInfo) : outcome unit :=
  if mt7603_dbg_rx && (2 <=? pkt_len info) && (pkt_len info <=? 60) && (is_crc_error info =? 0)
  then
    let off := Z.to_nat (hdr_len info) in
    let addr k := if decide (off + k ≤ remaining)%nat
      then peek_slice buf (cur_pos + off + k) 6 else mret [] in
    peek_slice buf (cur_pos + off) 16 ;;
    addr 4%nat ;; addr 10%nat ;; addr 16%nat ;; mret tt
  else mret tt.

(** One entry of a transmit status report. *)
Definition txs_entry (e : nat) : outcome rx_event :=
  e0 ← peek buf e; e1 ← peek buf (e + 1); e2 ← peek buf (e + 2); e3 ← peek buf (e + 3);
  e16 ← peek buf (e + 16); e17 ← peek buf (e + 17); e18 ← peek buf (e + 18);
  e19 ← peek buf (e + 19);
  let txs_dw0 := u32_from_le_bytes e0 e1 e2 e3 in
  let txs_dw4 := u32_from_le_bytes e16 e17 e18 e19 in
  mret (TxStatus (Z.land (txs_dw4 ≫ 14) 0xff) (Z.land (txs_dw0 ≫ 16) 1)).
Fixpoint txs_entries (n e : nat) : outcome (list rx_event) :=
  match n with
  | O => mret []
  | S n => t ← txs_entry e; ts ← txs_entries n (e + 20); mret (t :: ts)
  end.

Definition rx_txs (cur_pos : nat) (rx_byte_cnt : Z) : outcome (list rx_event) :=
  b2 ← peek buf (cur_pos + 2);
  let txs_cnt := Z.land b2 0x1f in
  if (0 <? txs_cnt) && (rx_byte_cnt =? txs_cnt * 20 + 4) &&
     (Z.of_nat cur_pos + rx_byte_cnt <=? Z.of_nat actual_length)
  then txs_entries (Z.to_nat txs_cnt) (cur_pos + 4)
  else mret [].

(** One iteration: the events, and the next position unless it breaks. *)
Definition rx_subframe (cur_pos : nat) : outcome (list rx_event * option nat) :=
  let remaining := (actual_length - cur_pos)%nat in
  b0 ← peek buf cur_pos; b1 ← peek buf (cur_pos + 1);
  let rx_byte_cnt := Z.lor b0 (b1 ≪ 8) in
  if (rx_byte_cnt =? 0) || (Z.of_nat remaining <? rx_byte_cnt) then mret ([], None) else
  b3 ← peek buf (cur_pos + 3);
  let pkt_type := Z.land (b3 ≫ 5) 0x07 in
  events ← (if pkt_type =? 0 then rx_txs cur_pos rx_byte_cnt else
    '(ret, out) ← mt7603_rust_parse_rx_frame (Some (drop cur_pos buf)) remaining
                    rssi_offset_2g (Some stack_info);
    let rx_info := default stack_info out in
    rx_dump cur_pos remaining rx_info ;;
    rx_deliver cur_pos remaining ret rx_info);
  let padding := Z.land (4 - rx_byte_cnt `mod` 4) 0x03 in
  let subframe_len := Z.to_nat (rx_byte_cnt + padding + 4) in
  mret (events, if decide (subframe_len < 16)%nat then None else Some (cur_pos + subframe_len)%nat).

(** The loop, [None] when [fuel] iterations were not enough. *)
Fixpoint rx_loop (fuel : nat) (cur_pos : nat) : outcome (option (list rx_event)) :=
  match fuel with
  | O => mret None
  | S fuel =>
      if decide (cur_pos + 16 ≤ actual_length)%nat then
        '(events, next) ← rx_subframe cur_pos;
        match next with
        | None => mret (Some events)
        | Some cur_pos => rest ← rx_loop fuel cur_pos; mret (app events <$> rest)
        end
      else mret (Some [])
  end.

(** The events of the completion and whether the URB is submitted again. *)
Definition mt7603_rx_complete (fuel : nat) : outcome (option (list rx_event * bool)) :=
  events ← (if (status =? 0) && bool_decide (16 ≤ actual_length)%nat then rx_loop fuel 0
            else mret (Some []));
  let resubmit := running && negb (status =? ENOENT) && negb (status =? ESHUTDOWN) &&
    negb (status =? ECONNRESET) in
  mret ((λ es, (es, resubmit)) <$> events).
End rx.

(** The completion of the command-response URB only logs the event: whether
    it submits the URB again. *)
Definition mt7603_cmd_rsp_complete (running : bool) (status : Z) : bool :=
  running && negb (status =? ENOENT) && negb (status =? ESHUTDOWN) && negb (status =? ECONNRESET).

(** ** Termination and memory safety *)

Definition frames (es : list rx_event) : list (rx_status * list Z) :=
  omap (λ e, match e with RxFrame st d => Some (st, d) | TxStatus _ _ => None end) es.

Lemma frames_app es1 es2 : frames (es1 ++ es2) = frames es1 ++ frames es2.
Proof. apply omap_app. Qed.

(** Frames that are disjoint pieces of [buf] between [lo] and [hi], in order. *)
Fixpoint laid_out (buf : list Z) (lo hi : nat) (fs : list (rx_status * list Z)) : Prop :=
  match fs with
  | [] => True
  | (_, d) :: fs => ∃ pos, (lo ≤ pos ∧ pos + length d ≤ hi)%nat ∧
      d = take (length d) (drop pos buf) ∧ laid_out buf (pos + length d) hi fs
  end.

(** A status mac80211 accepts: the registered centre frequency of the channel
    the driver is on, an MCS below 16 or an index into the registered rates. *)
Definition status_ok (current_channel : Z) (st : rx_status) : Prop :=
  rs_freq st = 2407 + 5 * Z.max 1 current_channel ∧
  (1 ≤ current_channel ≤ 13 → (rs_freq st, current_channel) ∈ mt7603_channels_2ghz) ∧
  (rs_no_signal st = true ↔ rs_signal st = 0) ∧ is_i8 (rs_signal st) ∧
  0 ≤ rs_rate_idx st < match rs_encoding st with
    | RX_ENC_HT => 16 | RX_ENC_LEGACY => Z.of_nat (length mt7603_rates_2ghz) end.

Lemma channel_freq ch : 1 ≤ ch ≤ 13 → (2407 + 5 * Z.max 1 ch, ch) ∈ mt7603_channels_2ghz.
Proof.
  intros Hch. pattern ch. eapply (range_forall _ 1 13); [by vm_compute|lia].
Qed.

Lemma laid_out_lower buf lo lo' hi fs :
  (lo' ≤ lo)%nat → laid_out buf lo hi fs → laid_out buf lo' hi fs.
Proof. destruct fs as [|[st d] fs]; [done|]. intros ? (pos & ? & ?). exists pos. split; [lia|done]. Qed.

Lemma laid_out_app buf lo mid hi fs1 fs2 :
  (lo ≤ mid ≤ hi)%nat → laid_out buf lo mid fs1 → laid_out buf mid hi fs2 →
  laid_out buf lo hi (fs1 ++ fs2).
Proof.
  revert lo. induction fs1 as [|[st d] fs1 IH]; intros lo Hm H1 H2; simpl.
  - eapply laid_out_lower; [|done]. lia.
  - destruct H1 as (pos & ? & Hd & H1). exists pos. split_and!; [lia..|done|].
    apply IH; [lia|done..].
Qed.

Section safety.
Context (rssi_offset_2g current_channel : Z) (dev_alloc_skb : nat → nat → bool).
Context (stack_info : RxInfo) (buf : list Z) (actual_length : nat).
Context (Hbuf : Forall is_u8 buf) (Hoff : is_i8 rssi_offset_2g).
Context (Hlen : (actual_length ≤ length buf)%nat) (Hch : 0 ≤ current_channel).

Lemma byte_u8 i : is_u8 (nth i buf 0).
Proof.
  destruct (decide (i < length buf)%nat).
  - rewrite Forall_nth in Hbuf. by apply Hbuf.
  - rewrite nth_overflow by lia. vm_decide.
Qed.

Lemma rx_set_rate_ok r : rate_ok r →
  let '(enc, idx, _, _) := rx_set_rate r in
  0 ≤ idx < match enc with RX_ENC_HT => 16 | RX_ENC_LEGACY => 12 end.
Proof.
  intros [Hr Hi]. unfold rx_set_rate.
  change (Z.land r 0x80) with (Z.land r (2 ^ 7)).
  change (negb (Z.land r (2 ^ 7) =? 0)) with (flag r (2 ^ 7)). rewrite flag_testbit by lia.
  rewrite (mask_bits r 0x1f 5) by done. pose proof (bits_uint 0 5 r ltac:(lia)) as Hb.
  unfold is_uint in Hb. destruct (Z.testbit r 7); [lia|].
  destruct (Z.ltb_spec (bits 0 5 r) 12); lia.
Qed.

Lemma rx_set_status_ok n info fc b9 b10 :
  rx_info_ok n info → status_ok current_channel (rx_set_status current_channel info fc b9 b10).
Proof.
  intros (_ & _ & _ & _ & Hrssi & Hrate & _). unfold rx_set_status.
  pose proof (rx_set_rate_ok (rate info) Hrate) as Hr.
  destruct (rx_set_rate (rate info)) as [[[enc idx] bw] sgi]. unfold status_ok. simpl.
  assert (2407 + (if current_channel =? 0 then 1 else current_channel) * 5 =
    2407 + 5 * Z.max 1 current_channel) as -> by (destruct (Z.eqb_spec current_channel 0); lia).
  split; [done|]. split; [apply channel_freq|]. split; [apply Z.eqb_eq|done].
Qed.

Lemma txs_entries_done n e :
  (e + 20 * n ≤ length buf)%nat → ∃ es, txs_entries buf n e = Done es ∧ frames es = [].
Proof.
  revert e. induction n as [|n IH]; intros e He; [by exists []|]. cbn [txs_entries].
  unfold txs_entry. rewrite !peek_nth by lia. cbn [mbind outcome_bind].
  destruct (IH (e + 20)%nat) as (es & -> & Hes); [lia|].
  eexists. split; [done|]. by simpl.
Qed.

Lemma rx_txs_done cur_pos cnt :
  (cur_pos + 16 ≤ actual_length)%nat →
  ∃ es, rx_txs buf actual_length cur_pos cnt = Done es ∧ frames es = [].
Proof.
  intros Hc. unfold rx_txs. rewrite peek_nth by lia. cbn [mbind outcome_bind]. cbv zeta.
  set (c := Z.land _ _). destruct (_ && _) eqn:E; [|by exists []].
  apply andb_true_iff in E as [[E1%Z.ltb_lt E2%Z.eqb_eq]%andb_true_iff E3%Z.leb_le].
  apply txs_entries_done. lia.
Qed.

(** One delivered frame of the packet whose byte count is [cnt]. *)
Lemma rx_deliver_done cur_pos ret info :
  let remaining := (actual_length - cur_pos)%nat in
  let cnt := u16_from_le_bytes (nth cur_pos buf 0) (nth (S cur_pos) buf 0) in
  (cur_pos + 16 ≤ actual_length)%nat →
  0 < cnt ≤ Z.of_nat remaining →
  (ret = 0 → rx_info_ok remaining info ∧ (0 < pkt_len info → hdr_len info + pkt_len info = cnt)) →
  ∃ es, rx_deliver current_channel dev_alloc_skb buf cur_pos remaining ret info = Done es ∧
    laid_out buf cur_pos (cur_pos + Z.to_nat cnt) (frames es) ∧
    Forall (λ f, status_ok current_channel f.1) (frames es).
Proof.
  intros remaining cnt Hcur Hcnt Hinfo. unfold rx_deliver. cbv zeta.
  destruct (_ && _) eqn:E; [|exists []; split; [done|by constructor]].
  apply andb_true_iff in E as [[E1%Z.eqb_eq E2%Z.ltb_lt]%andb_true_iff E3].
  destruct (Hinfo E1) as [Hok Hend]. specialize (Hend ltac:(lia)).
  pose proof Hok as (? & ? & ? & _). case_decide; [|lia].
  rewrite !peek_nth by lia. cbn [mbind outcome_bind].
  destruct (dev_alloc_skb _ _); [|exists []; split; [done|by constructor]].
  rewrite peek_slice_done by lia. cbn [mbind outcome_bind].
  eexists. split; [done|]. split.
  - exists (cur_pos + Z.to_nat (hdr_len info))%nat.
    rewrite length_take, length_drop, Nat.min_l by lia. split_and!; [lia..|done|done].
  - constructor; [|done]. by eapply rx_set_status_ok.
Qed.

Lemma nth_drop_take n m k :
  (k < n)%nat → nth k (take n (drop m buf)) 0 = nth (m + k) buf 0.
Proof.
  intros. rewrite !nth_lookup. by rewrite lookup_take_lt, lookup_drop by done.
Qed.

Lemma rx_parse_done cur_pos :
  let remaining := (actual_length - cur_pos)%nat in
  let cnt := u16_from_le_bytes (nth cur_pos buf 0) (nth (S cur_pos) buf 0) in
  (cur_pos + 16 ≤ actual_length)%nat →
  0 < cnt ≤ Z.of_nat remaining →
  ∃ ret out, mt7603_rust_parse_rx_frame (Some (drop cur_pos buf)) remaining rssi_offset_2g
      (Some stack_info) = Done (ret, Some out) ∧
    (ret = 0 → rx_info_ok remaining out ∧ (0 < pkt_len out → hdr_len out + pkt_len out = cnt)).
Proof.
  intros remaining cnt Hcur Hcnt.
  destruct (parse_rx_frame_total (take remaining (drop cur_pos buf)) rssi_offset_2g)
    as (r & Hr & He & Hi); [by apply Forall_take, Forall_drop|done|].
  unfold mt7603_rust_parse_rx_frame.
  rewrite (run_parser_done _ _ _ _ r) by (rewrite ?length_drop; lia || done).
  destruct r as [info|e]; eexists _, _; (split; [done|]); intros Hret.
  - destruct (Hi info eq_refl) as [Hok Hend].
    rewrite length_take, length_drop, Nat.min_l in Hok by lia. split; [done|].
    intros Hpos. unfold rx_info_ends in Hend. revert Hend.
    rewrite length_take, length_drop, Nat.min_l, !nth_drop_take by lia.
    rewrite Nat.add_0_r, Nat.add_1_r. auto.
  - by rewrite (He e eq_refl) in Hret.
Qed.

Lemma rx_subframe_done cur_pos :
  (cur_pos + 16 ≤ actual_length)%nat →
  ∃ es next mid, rx_subframe rssi_offset_2g current_channel false dev_alloc_skb stack_info
      buf actual_length cur_pos = Done (es, next) ∧
    (cur_pos ≤ mid ≤ actual_length)%nat ∧ laid_out buf cur_pos mid (frames es) ∧
    Forall (λ f, status_ok current_channel f.1) (frames es) ∧
    ∀ n, next = Some n → (cur_pos + 16 ≤ n ∧ mid ≤ n)%nat.
Proof.
  intros Hcur. unfold rx_subframe. rewrite !peek_nth by lia. cbn [mbind outcome_bind]. cbv zeta.
  rewrite Nat.add_1_r.
  change (Z.lor (nth cur_pos buf 0) (nth (S cur_pos) buf 0 ≪ 8)) with
    (u16_from_le_bytes (nth cur_pos buf 0) (nth (S cur_pos) buf 0)).
  set (cnt := u16_from_le_bytes _ _).
  assert (0 ≤ cnt) by apply (u16_from_u16 _ _ (byte_u8 cur_pos) (byte_u8 (S cur_pos))).
  destruct (_ || _) eqn:E.
  { exists [], None, cur_pos. split_and!; [done|lia..|done|by constructor|done]. }
  apply orb_false_iff in E as [E1%Z.eqb_neq E2%Z.ltb_ge].
  pose proof (land_bound (4 - cnt `mod` 4) 3 ltac:(lia)) as Hpad.
  assert (∀ n, (if decide (Z.to_nat (cnt + Z.land (4 - cnt `mod` 4) 3 + 4) < 16)%nat then None
      else Some (cur_pos + Z.to_nat (cnt + Z.land (4 - cnt `mod` 4) 3 + 4))%nat) = Some n →
    (cur_pos + 16 ≤ n ∧ cur_pos + Z.to_nat cnt ≤ n)%nat) as Hnext.
  { intros n. case_decide; [done|]. intros [= <-]. lia. }
  destruct (_ =? 0).
  - destruct (rx_txs_done cur_pos cnt Hcur) as (es & -> & Hes). cbn [mbind outcome_bind].
    eexists es, _, (cur_pos + Z.to_nat cnt)%nat. rewrite Hes.
    split_and!; [done|lia..|done|by constructor|done].
  - destruct (rx_parse_done cur_pos Hcur) as (ret & out & -> & Hinfo); [lia|].
    cbn -[rx_deliver].
    destruct (rx_deliver_done cur_pos ret out Hcur) as (es & -> & Hes & HF); [lia|done|].
    eexists es, _, (cur_pos + Z.to_nat cnt)%nat. split_and!; [done|lia..|done|done|done].
Qed.

Lemma rx_loop_done cur_pos :
  (cur_pos ≤ actual_length)%nat →
  ∃ es, (∀ fuel, (actual_length - cur_pos < 16 * fuel)%nat →
      rx_loop rssi_offset_2g current_channel false dev_alloc_skb stack_info buf actual_length
        fuel cur_pos = Done (Some es)) ∧
    laid_out buf cur_pos actual_length (frames es) ∧
    Forall (λ f, status_ok current_channel f.1) (frames es).
Proof.
  remember (actual_length - cur_pos)%nat as n eqn:Hn. revert cur_pos Hn.
  induction (lt_wf n) as [n _ IH]. intros cur_pos Hn Hcur.
  destruct (decide (cur_pos + 16 ≤ actual_length)%nat) as [Hgo|Hstop].
  - destruct (rx_subframe_done cur_pos Hgo) as (es & next & mid & Hsub & Hmid & Hlay & HF & Hnext).
    assert (∃ rest, (∀ fuel, (n < 16 * S fuel)%nat →
        match next with
        | None => mret (Some es)
        | Some pos => rest ← rx_loop rssi_offset_2g current_channel false dev_alloc_skb stack_info
            buf actual_length fuel pos; mret (app es <$> rest)
        end = Done (Some (es ++ rest))) ∧
      laid_out buf mid actual_length (frames rest) ∧
      Forall (λ f, status_ok current_channel f.1) (frames rest)) as (rest & Hrest & Hl & HF').
    { destruct next as [pos|]; [|exists []; rewrite app_nil_r; split_and!; [done..|by constructor]].
      destruct (Hnext pos eq_refl). destruct (decide (pos ≤ actual_length)%nat) as [Hpos|Hpos].
      - destruct (IH (actual_length - pos)%nat ltac:(lia) pos eq_refl Hpos) as (rest & Hr & Hl & ?).
        exists rest. split_and!; [|by eapply laid_out_lower; [|done]; lia|done].
        intros fuel Hf. by rewrite Hr by lia.
      - exists []. split_and!; [|done|by constructor]. intros [|fuel] Hf; [lia|].
        cbn [rx_loop]. by rewrite decide_False by lia. }
    exists (es ++ rest). rewrite frames_app.
    split_and!; [|by eapply laid_out_app; [|done..]; lia|by apply Forall_app].
    intros [|fuel] Hf; [lia|]. cbn [rx_loop]. rewrite decide_True, Hsub by done.
    cbn [mbind outcome_bind]. by apply Hrest; lia.
  - exists []. split_and!; [|done|by constructor]. intros [|fuel] Hf; [lia|].
    cbn [rx_loop]. by rewrite decide_False.
Qed.
End safety.

Lemma rx_complete_again rssi ch running dbg alloc info status buf len fuel es again :
  mt7603_rx_complete rssi ch running dbg alloc info status buf len fuel = Done (Some (es, again)) →
  again = running && negb (status =? ENOENT) && negb (status =? ESHUTDOWN) && negb (status =? ECONNRESET).
Proof.
  unfold mt7603_rx_complete. intros (x & _ & Heq)%outcome_bind_inv.
  destruct x; [|done]. by injection Heq as _ <-.
Qed.

(** The handler runs on any transfer. *)
Lemma rx_complete_runs rssi_offset_2g current_channel running dev_alloc_skb stack_info status buf actual_length :
  Forall is_u8 buf → is_i8 rssi_offset_2g → (actual_length ≤ length buf)%nat → is_u8 current_channel →
  ∃ es resubmit,
    (∀ fuel, (actual_length < 16 * fuel)%nat →
      mt7603_rx_complete rssi_offset_2g current_channel running false dev_alloc_skb stack_info
        status buf actual_length fuel = Done (Some (es, resubmit))) ∧
    laid_out buf 0 actual_length (frames es) ∧
    Forall (λ f, status_ok current_channel f.1) (frames es).
Proof.
  intros Hbuf Hoff Hlen [Hch _]. unfold mt7603_rx_complete.
  destruct (_ && bool_decide _).
  - destruct (rx_loop_done rssi_offset_2g current_channel dev_alloc_skb stack_info buf
      actual_length Hbuf Hoff Hlen Hch 0 ltac:(lia)) as (es & Hes & ?).
    exists es. eexists. split; [|done]. intros fuel Hf. by rewrite Hes by lia.
  - exists []. eexists. split; [done|]. split; [done|by constructor].
Qed.

(** C4. Reception terminates and is memory safe: for any bytes the device
    sends, the completion handler reads nothing outside the transfer buffer,
    ends after at most [actual_length / 16 + 1] iterations, and what it hands
    to mac80211 are disjoint pieces of the transfer, in order, each with a
    valid frequency, signal and rate index.  (With debug logging off; see
    [rx_dump_overruns].) *)
Theorem rx_complete_safe rssi_offset_2g current_channel running dev_alloc_skb stack_info
    status buf actual_length :
  Forall is_u8 buf → is_i8 rssi_offset_2g → (actual_length ≤ length buf)%nat →
  is_u8 current_channel →
  ∃ es resubmit,
    (∀ fuel, (actual_length < 16 * fuel)%nat →
      mt7603_rx_complete rssi_offset_2g current_channel running false dev_alloc_skb stack_info
        status buf actual_length fuel = Done (Some (es, resubmit))) ∧
    laid_out buf 0 actual_length (frames es) ∧
    Forall (λ f, status_ok current_channel f.1) (frames es).
Proof. by apply rx_complete_runs. Qed.

Lemma rx_complete_safe_witness :
  ∃ es resubmit,
    (∀ fuel, (90 < 16 * fuel)%nat →
      mt7603_rx_complete (-3) 6 true false (λ _ _, true) RxInfo_default 0
        (replicate 100 0x40) 90 fuel = Done (Some (es, resubmit))) ∧
    laid_out (replicate 100 0x40) 0 90 (frames es) ∧
    Forall (λ f, status_ok 6 f.1) (frames es).
Proof. apply rx_complete_safe; [vm_decide..|simpl; lia|vm_decide]. Defined.

(** The debug dump of a short frame has no bounds check: when the parser
    rejects a packet it shows what happened to be in [rx_info] before. *)
Lemma rx_dump_overruns dev_alloc_skb :
  let packet := [16; 0; 0; 0x5E] ++ replicate 12 0 in
  mt7603_rx_complete 0 1 true true dev_alloc_skb
    {| pkt_len := 10; hdr_len := 40000; rssi := 0; channel := 0; rate := 0;
       is_beacon := 0; is_data := 0; is_crc_error := 0 |}
    0 (packet ++ replicate 4 0) 20 2 = Undefined.
Proof. vm_compute. reflexivity. Qed.

(** ** Aggregated transfers

    What the hardware puts in one transfer, and what must come out. *)

Inductive subframe :=
| SubPacket (q : packet)
| SubStatus (info : Z) (type : Z) (entries : list (list Z))
| SubEvent (bytes : list Z).

Definition sub_body (s : subframe) : list Z :=
  match s with
  | SubPacket q => packet_hdr q ++ p_mpdu q
  | SubStatus info type entries =>
      u16_to_le_bytes (Z.of_nat (20 * length entries + 4)) ++ [info; type] ++ concat entries
  | SubEvent bytes => bytes
  end.

(** The padding to four bytes and the trailer. *)
Definition tail_len (n : nat) : nat := ((4 - n `mod` 4) `mod` 4 + 4)%nat.

Definition sub_ok (s : subframe) : Prop :=
  Forall is_u8 (sub_body s) ∧
  match s with
  | SubPacket q => packet_ok q
  | SubStatus info type entries =>
      bits 0 5 info = Z.of_nat (length entries) ∧ entries ≠ [] ∧
      bits 5 3 type = 0 ∧ Forall (λ e, length e = 20%nat) entries
  | SubEvent bytes => (16 ≤ length bytes)%nat ∧
      u16_from_le_bytes (nth 0 bytes 0) (nth 1 bytes 0) = Z.of_nat (length bytes) ∧
      (bits 5 3 (nth 3 bytes 0) = 1 ∨ 4 ≤ bits 5 3 (nth 3 bytes 0))
  end.

(** The status of a packet's frame.  The signal is the RSSI in dBm as the
    driver reports it, where rx_tx.spec.md has a hundred times that. *)
Definition packet_status (current_channel rssi_offset : Z) (q : packet) : rx_status :=
  let r := vector_rate (p_g3 q) in
  let ht := Z.testbit r 7 in
  let signal := vector_rssi rssi_offset (p_g3 q) in
  {| rs_freq := 2407 + 5 * Z.max 1 current_channel;
     rs_signal := signal; rs_chain_signal := signal; rs_no_signal := signal =? 0;
     rs_encoding := if ht then RX_ENC_HT else RX_ENC_LEGACY;
     rs_rate_idx := bits 0 5 r;
     rs_bw := if ht && Z.testbit r 6 then RATE_INFO_BW_40 else RATE_INFO_BW_20;
     rs_short_gi := ht && Z.testbit r 5;
     rs_decrypted := Z.testbit (nth 1 (p_mpdu q) 0) 6 &&
       negb (bits 4 4 (rxd_byte q 9) =? 0) && (bits 2 4 (rxd_byte q 10) =? 0) |}.

Definition sub_events (current_channel rssi_offset : Z) (s : subframe) : list rx_event :=
  match s with
  | SubPacket q =>
      if decide (4 < length (p_mpdu q))%nat then
        if Z.testbit (rxd_byte q 10) 1 then []
        else [RxFrame (packet_status current_channel rssi_offset q) (p_mpdu q)]
      else []
  | SubStatus _ _ entries =>
      (λ e, TxStatus
        (bits 14 8 (u32_from_le_bytes (nth 16 e 0) (nth 17 e 0) (nth 18 e 0) (nth 19 e 0)))
        (Z.b2z (Z.testbit (nth 2 e 0) 0))) <$> entries
  | SubEvent _ => []
  end.

Section aggregate.
Context (rssi_offset_2g current_channel : Z) (dev_alloc_skb : nat → nat → bool).
Context (stack_info : RxInfo) (Hskb : ∀ p n, dev_alloc_skb p n = true) (Hch : 0 ≤ current_channel).

Lemma peek_at pre body rest k :
  (k < length body)%nat → peek (pre ++ body ++ rest) (length pre + k) = Done (nth k body 0).
Proof.
  intros. rewrite peek_nth by list_len. by rewrite app_nth2_plus, app_nth1.
Qed.


Lemma rx_set_rate_spec r : rate_ok r →
  rx_set_rate r =
  (if Z.testbit r 7 then RX_ENC_HT else RX_ENC_LEGACY, bits 0 5 r,
   if Z.testbit r 7 && Z.testbit r 6 then RATE_INFO_BW_40 else RATE_INFO_BW_20,
   Z.testbit r 7 && Z.testbit r 5).
Proof.
  intros [_ Hr]. unfold rx_set_rate. rewrite (mask_bits r 0x1f 5) by done.
  change (negb (Z.land r 0x80 =? 0)) with (flag r (2 ^ 7)).
  change (negb (Z.land r 0x40 =? 0)) with (flag r (2 ^ 6)).
  change (negb (Z.land r 0x20 =? 0)) with (flag r (2 ^ 5)).
  rewrite !flag_testbit by lia. destruct (Z.testbit r 7); [done|].
  by rewrite (proj2 (Z.ltb_lt _ _) Hr).
Qed.

Lemma vector_rate_ok g : rate_ok (vector_rate g).
Proof.
  unfold vector_rate. do 4 (destruct g as [|? g]; [vm_decide|]). apply rate_encode_ok.
Qed.

Lemma rx_set_status_spec q :
  Forall is_u8 (p_mpdu q) →
  rx_set_status current_channel (packet_info q rssi_offset_2g)
    (u16_from_le_bytes (nth 0 (p_mpdu q) 0) (nth 1 (p_mpdu q) 0)) (rxd_byte q 9) (rxd_byte q 10) =
  packet_status current_channel rssi_offset_2g q.
Proof.
  intros HF. unfold rx_set_status, packet_status. simpl rate.
  rewrite (rx_set_rate_spec _ (vector_rate_ok _)). simpl.
  f_equal; [destruct (Z.eqb_spec current_channel 0); lia|].
  change (negb (Z.land (u16_from_le_bytes (nth 0 (p_mpdu q) 0) (nth 1 (p_mpdu q) 0))
    IEEE80211_FCTL_PROTECTED =? 0)) with
    (flag (u16_from_le_bytes (nth 0 (p_mpdu q) 0) (nth 1 (p_mpdu q) 0)) (2 ^ 14)).
  rewrite flag_testbit by lia. unfold u16_from_le_bytes.
  rewrite Z.lor_spec, Z.shiftl_spec by lia. change (14 - 8) with 6.
  rewrite testbit_field by lia. rewrite (bits_above 14) by
    (pose proof (Forall_nth_u8 _ 0 HF); uint). simpl. done.
Qed.

Lemma tail_len_spec n :
  (12 ≤ n)%nat →
  let subframe_len := Z.to_nat (Z.of_nat n + Z.land (4 - Z.of_nat n `mod` 4) 0x03 + 4) in
  subframe_len = (n + tail_len n)%nat ∧ (16 ≤ subframe_len)%nat.
Proof.
  intros Hn. unfold tail_len. change 3 with (Z.ones 2). rewrite Z.land_ones by lia.
  change (2 ^ 2) with 4. change 4%Z with (Z.of_nat 4).
  rewrite <-Nat2Z.inj_mod. pose proof (Nat.mod_upper_bound n 4).
  rewrite <-Nat2Z.inj_sub, <-Nat2Z.inj_mod by lia. cbv zeta. lia.
Qed.

Lemma rx_deliver_packet q pre tl rest :
  packet_ok q → Forall is_u8 (p_mpdu q) →
  rx_deliver current_channel dev_alloc_skb (pre ++ (packet_hdr q ++ p_mpdu q) ++ tl ++ rest)
    (length pre) (length (packet_hdr q) + length (p_mpdu q) + length tl) 0
    (packet_info q rssi_offset_2g) =
  Done (sub_events current_channel rssi_offset_2g (SubPacket q)).
Proof.
  intros Hq HF. unfold rx_deliver. cbn [sub_events packet_info pkt_len is_crc_error hdr_len].
  rewrite testbit_field, !Nat2Z.id by lia.
  pose proof (bits_uint 1 1 (rxd_byte q 10) ltac:(lia)) as Hc. unfold is_uint in Hc.
  change (2 ^ 1) with 2 in Hc.
  destruct (decide (4 < length (p_mpdu q))%nat) as [Hl|Hl];
    [rewrite (proj2 (Z.ltb_lt 4 _)) by lia|by rewrite (proj2 (Z.ltb_ge 4 _)) by lia].
  cbn [andb Z.eqb]. destruct (Z.eqb_spec (bits 1 1 (rxd_byte q 10)) 0) as [-> |];
    [|by replace (bits 1 1 (rxd_byte q 10)) with 1 by lia].
  rewrite decide_True by lia. rewrite Hskb.
  assert (Hm : ∀ k, (k < length (p_mpdu q))%nat →
    peek (pre ++ (packet_hdr q ++ p_mpdu q) ++ tl ++ rest)
      (length pre + length (packet_hdr q) + k) = Done (nth k (p_mpdu q) 0)).
  { intros k Hk. rewrite <-Nat.add_assoc, peek_at by list_len. by rewrite app_nth2_plus. }
  assert (Hr : ∀ k, (k < 16)%nat → peek (pre ++ (packet_hdr q ++ p_mpdu q) ++ tl ++ rest)
    (length pre + k) = Done (rxd_byte q k)).
  { intros k Hk. destruct Hq as [Hq _]. unfold packet_hdr. rewrite <-!app_assoc, app_assoc.
    rewrite <-app_assoc, peek_at by lia. done. }
  pose proof (Hm 0%nat ltac:(lia)) as H0. rewrite Nat.add_0_r in H0.
  rewrite H0, (Hm 1%nat), (Hr 9%nat), (Hr 10%nat) by lia. cbn [mbind outcome_bind].
  rewrite peek_slice_done by list_len. cbn [mbind outcome_bind].
  replace (take _ _) with (p_mpdu q); [|].
  { by rewrite rx_set_status_spec. }
  rewrite <-!app_assoc, app_assoc, drop_app_length' by list_len. by rewrite take_app_length.
Qed.

Lemma bit16_of_bytes b0 b1 b2 b3 :
  is_u8 b0 → is_u8 b1 → is_u8 b2 →
  Z.land (u32_from_le_bytes b0 b1 b2 b3 ≫ 16) 1 = Z.b2z (Z.testbit b2 0).
Proof.
  intros. change (bits 16 1 (u32_from_le_bytes b0 b1 b2 b3) = Z.b2z (Z.testbit b2 0)).
  unfold u32_from_le_bytes. bitfield. rewrite bits_div by lia. rewrite Z.div_1_r.
  change (2 ^ 1) with 2. by rewrite <-Z.bit0_mod.
Qed.

Lemma txs_entries_spec entries pre rest :
  Forall (λ e, length e = 20%nat ∧ Forall is_u8 e) entries →
  txs_entries (pre ++ concat entries ++ rest) (length entries) (length pre) =
  Done (sub_events current_channel rssi_offset_2g (SubStatus 0 0 entries)).
Proof.
  intros HF. revert pre. induction HF as [|e entries [He Hu] HF IH]; intros pre; [done|].
  cbn [concat length txs_entries]. unfold txs_entry. rewrite <-app_assoc.
  pose proof (λ k, peek_at pre e (concat entries ++ rest) k) as Hp. rewrite He in Hp.
  pose proof (Hp 0%nat ltac:(lia)) as Hp0. rewrite Nat.add_0_r in Hp0.
  rewrite Hp0, !Hp by lia. cbn [mbind outcome_bind].
  specialize (IH (pre ++ e)). rewrite <-app_assoc, length_app, He in IH. rewrite IH.
  cbn [mbind outcome_bind sub_events]. rewrite fmap_cons.
  by rewrite bit16_of_bytes by by apply Forall_nth_u8.
Qed.

Lemma parse_other_type buf :
  (16 ≤ length buf)%nat → bits 5 3 (nth 3 buf 0) ≠ 2 → bits 5 3 (nth 3 buf 0) ≠ 3 →
  parse_rx_frame buf rssi_offset_2g = Done (Ok RxInfo_default).
Proof.
  intros Hl H2 H3. unfold parse_rx_frame, RMAC_RXD_MIN_SIZE. rewrite decide_False by lia.
  rewrite !(index_nth buf _ 0) by lia. cbn [mbind outcome_bind]. cbv zeta.
  change (Z.land (nth 3 buf 0 ≫ 5) 7) with (bits 5 3 (nth 3 buf 0)).
  by rewrite (proj2 (Z.eqb_neq _ _) H2), (proj2 (Z.eqb_neq _ _) H3).
Qed.

Lemma length_entries (es : list (list Z)) :
  Forall (λ e, length e = 20%nat) es → length (concat es) = (20 * length es)%nat.
Proof. induction 1 as [|e es He HF IH]; [done|]. cbn [concat length]. list_len. Qed.

(** The parser is called on what follows [pre] in the transfer. *)
Lemma parse_region pre body rest stale info :
  parse_rx_frame (body ++ rest) rssi_offset_2g = Done (Ok info) →
  mt7603_rust_parse_rx_frame (Some (drop (length pre) (pre ++ body ++ rest ++ stale)))
    (length (body ++ rest)) rssi_offset_2g (Some stack_info) = Done (0, Some info).
Proof.
  intros Hp. unfold mt7603_rust_parse_rx_frame. rewrite drop_app_length.
  rewrite (run_parser_done _ _ _ _ (Ok info)); [done|list_len|].
  by rewrite app_assoc, take_app_length.
Qed.

(** The byte count of a subframe, and how its type is dispatched. *)
Lemma sub_header s :
  sub_ok s →
  let b := sub_body s in
  (12 ≤ length b)%nat ∧ u16_from_le_bytes (nth 0 b 0) (nth 1 b 0) = Z.of_nat (length b) ∧
  match s with SubStatus _ _ _ => bits 5 3 (nth 3 b 0) = 0 | _ => bits 5 3 (nth 3 b 0) ≠ 0 end.
Proof.
  intros [_ Hs]. destruct s as [q|info type entries|bytes]; simpl.
  - destruct Hs as (Hl & _ & _ & _ & _ & _ & _ & Ht & Hcnt & _).
    assert (∀ k, (k < 16)%nat → nth k (packet_hdr q ++ p_mpdu q) 0 = rxd_byte q k) as Hk.
    { intros k Hk. unfold packet_hdr. rewrite <-!app_assoc. by rewrite app_nth1 by lia. }
    rewrite !Hk by lia. unfold packet_hdr in *. split; [list_len|]. split; [|lia].
    unfold packet_cnt in Hcnt. rewrite Hcnt. f_equal. list_len.
  - destruct Hs as (Hn & Hne & Ht & HF).
    pose proof (length_entries entries HF) as Hc.
    assert (length entries ≠ 0%nat) by by destruct entries.
    pose proof (bits_uint 0 5 info ltac:(lia)) as Hu. unfold is_uint in Hu.
    change (2 ^ 5) with 32 in Hu.
    split_and!; [simpl; lia| |done]. rewrite Hc.
    rewrite u16_from_to by (unfold is_uint; lia). lia.
  - destruct Hs as (Hl & Hcnt & Ht). split_and!; [lia|done|lia].
Qed.

Lemma rx_subframe_spec s pre tl rest stale :
  sub_ok s → length tl = tail_len (length (sub_body s)) →
  rx_subframe rssi_offset_2g current_channel false dev_alloc_skb stack_info
    (pre ++ sub_body s ++ tl ++ rest ++ stale)
    (length pre + length (sub_body s) + length tl + length rest) (length pre) =
  Done (sub_events current_channel rssi_offset_2g s,
        Some (length pre + length (sub_body s) + length tl)%nat).
Proof.
  intros Hs Htl. destruct (sub_header s Hs) as (Hlen & Hcnt & Htype). unfold rx_subframe.
  pose proof (λ k, peek_at pre (sub_body s) (tl ++ rest ++ stale) k) as Hp.
  pose proof (Hp 0%nat ltac:(lia)) as Hp0. rewrite Nat.add_0_r in Hp0.
  rewrite Hp0, !Hp by lia. cbn [mbind outcome_bind]. cbv zeta.
  change (Z.lor (nth 0 (sub_body s) 0) (nth 1 (sub_body s) 0 ≪ 8)) with
    (u16_from_le_bytes (nth 0 (sub_body s) 0) (nth 1 (sub_body s) 0)).
  rewrite Hcnt.
  replace ((_ =? 0) || _) with false
    by (symmetry; apply orb_false_iff; split; [apply Z.eqb_neq|apply Z.ltb_ge]; lia).
  change (Z.land (nth 3 (sub_body s) 0 ≫ 5) 7) with (bits 5 3 (nth 3 (sub_body s) 0)).
  replace (if bits 5 3 _ =? 0 then _ else _) with
    (Done (sub_events current_channel rssi_offset_2g s)).
  { cbn [mbind outcome_bind]. destruct (tail_len_spec (length (sub_body s)) Hlen) as [-> ?].
    rewrite decide_False by lia. unfold mret, outcome_ret. do 3 f_equal. lia. }
  replace (length pre + length (sub_body s) + length tl + length rest - length pre)%nat
    with (length (sub_body s ++ tl ++ rest)) by list_len.
  pose proof (λ info, parse_region pre (sub_body s) (tl ++ rest) stale info) as Hparse.
  rewrite <-app_assoc in Hparse.
  destruct Hs as [HF Hs]. destruct s as [q|info type entries|bytes].
  - rewrite (proj2 (Z.eqb_neq _ _) Htype).
    rewrite (Hparse (packet_info q rssi_offset_2g))
      by (simpl; rewrite <-!app_assoc; by apply parse_packet).
    cbn [mbind outcome_bind default rx_dump andb mret outcome_ret].
    simpl in HF. apply Forall_app in HF as [_ HF].
    replace (length (sub_body (SubPacket q) ++ tl ++ rest)) with
      (length (packet_hdr q) + length (p_mpdu q) + length (tl ++ rest))%nat by (simpl; list_len).
    pose proof (rx_deliver_packet q pre (tl ++ rest) stale Hs HF) as Hd.
    rewrite <-(app_assoc tl) in Hd. by rewrite <-Hd.
  - rewrite Htype. unfold rx_txs. rewrite Hp by lia. cbn [mbind outcome_bind].
    destruct Hs as (Hn & Hne & _ & Hen). simpl sub_body in *.
    change (nth 2 _ 0) with info. rewrite (mask_bits info 0x1f 5), Hn by done.
    assert (length (concat entries) = 20 * length entries)%nat as Hc by by apply length_entries.
    rewrite Nat2Z.id. replace (_ && _ && _) with true.
    2: { assert (length entries ≠ 0%nat) by by destruct entries. symmetry.
      rewrite !andb_true_iff, Z.ltb_lt, Z.eqb_eq, Z.leb_le. simpl. list_len. }
    pose proof (txs_entries_spec entries (pre ++ u16_to_le_bytes (Z.of_nat (20 * length entries + 4))
      ++ [info; type]) (tl ++ rest ++ stale)) as Ht.
    rewrite !length_app, <-!app_assoc in Ht. simpl in Ht. simpl. rewrite <-Ht; [done|].
    apply Forall_and. split; [done|]. apply Forall_concat. by do 4 apply Forall_inv_tail in HF.
  - rewrite (proj2 (Z.eqb_neq _ _) Htype).
    rewrite (Hparse RxInfo_default); [done|].
    destruct Hs as (Hl & _ & Ht). simpl sub_body.
    apply parse_other_type; [list_len|..]; rewrite app_nth1 by lia; lia.
Qed.

(** A transfer: subframes with their tails, and a rest in which no further
    packet starts. *)
Definition transfer (subs : list (subframe * list Z)) : list Z :=
  concat ((λ st, sub_body st.1 ++ st.2) <$> subs).
Definition transfer_ok (subs : list (subframe * list Z)) : Prop :=
  Forall (λ st, sub_ok st.1 ∧ length st.2 = tail_len (length (sub_body st.1))) subs.
Definition transfer_ends (rest : list Z) : Prop :=
  (length rest < 16)%nat ∨ (nth 0 rest 0 = 0 ∧ nth 1 rest 0 = 0).

Lemma rx_loop_rest pre rest stale fuel :
  transfer_ends rest →
  rx_loop rssi_offset_2g current_channel false dev_alloc_skb stack_info (pre ++ rest ++ stale)
    (length pre + length rest) (S fuel) (length pre) = Done (Some []).
Proof.
  intros Hr. cbn [rx_loop]. case_decide; [|done]. destruct Hr as [?|[H0 H1]]; [lia|].
  unfold rx_subframe. pose proof (peek_at pre rest stale 0 ltac:(lia)) as Hp.
  rewrite Nat.add_0_r in Hp. by rewrite Hp, (peek_at pre rest stale 1), H0, H1 by lia.
Qed.

Lemma rx_loop_spec subs pre rest stale fuel :
  transfer_ok subs → transfer_ends rest → (length subs < fuel)%nat →
  rx_loop rssi_offset_2g current_channel false dev_alloc_skb stack_info
    (pre ++ (transfer subs ++ rest) ++ stale)
    (length pre + length (transfer subs ++ rest)) fuel (length pre) =
  Done (Some (concat ((λ st, sub_events current_channel rssi_offset_2g st.1) <$> subs))).
Proof.
  intros Hs Hr. revert pre fuel. induction Hs as [|[s tl] subs [Hs Htl] HF IH];
    intros pre [|fuel] Hf; simpl in Hf; try lia; [by apply rx_loop_rest|].
  destruct (sub_header s Hs) as (Hlen & _ & _). simpl in Htl.
  assert (length tl ≥ 4)%nat by (rewrite Htl; unfold tail_len; lia).
  cbn [rx_loop]. unfold transfer. rewrite fmap_cons. cbn [concat fst snd]. fold (transfer subs).
  rewrite decide_True by list_len.
  replace (pre ++ (((sub_body s ++ tl) ++ transfer subs) ++ rest) ++ stale) with
    (pre ++ sub_body s ++ tl ++ (transfer subs ++ rest) ++ stale) by by rewrite <-!app_assoc.
  replace (length pre + length (((sub_body s ++ tl) ++ transfer subs) ++ rest))%nat with
    (length pre + length (sub_body s) + length tl + length (transfer subs ++ rest))%nat by list_len.
  rewrite rx_subframe_spec by done. cbn [mbind outcome_bind].
  specialize (IH (pre ++ sub_body s ++ tl) fuel ltac:(lia)).
  rewrite <-!app_assoc in IH. rewrite !length_app in IH. rewrite !length_app.
  rewrite !Nat.add_assoc in *. rewrite <-!app_assoc. by rewrite IH.
Qed.
End aggregate.

#[export] Instance sub_ok_dec s : Decision (sub_ok s).
Proof. unfold sub_ok. destruct s; apply _. Defined.
#[export] Instance transfer_ok_dec subs : Decision (transfer_ok subs).
Proof. unfold transfer_ok. apply _. Defined.

(** C12. Reception of an aggregated transfer: every intact frame of more than
    four bytes reaches mac80211 exactly once, in the order of the transfer and
    with all its bytes, its status saying the channel, signal, rate and
    decryption the descriptor says; frames with a bad checksum and firmware
    events are skipped, and every entry of a status report is logged. *)
Theorem rx_complete_delivers rssi_offset_2g current_channel running dev_alloc_skb stack_info
    subs rest stale fuel :
  (∀ p n, dev_alloc_skb p n = true) → is_u8 current_channel →
  transfer_ok subs → transfer_ends rest → (length subs < fuel)%nat →
  let data := transfer subs ++ rest in
  mt7603_rx_complete rssi_offset_2g current_channel running false dev_alloc_skb stack_info
    0 (data ++ stale) (length data) fuel =
  Done (Some (concat ((λ st, sub_events current_channel rssi_offset_2g st.1) <$> subs), running)).
Proof.
  intros Hskb [Hch _] Hs Hr Hf data. unfold mt7603_rx_complete. cbn [Z.eqb andb].
  pose proof (rx_loop_spec rssi_offset_2g current_channel dev_alloc_skb stack_info Hskb Hch
    subs [] rest stale fuel Hs Hr Hf) as Hl. simpl in Hl. fold data in Hl.
  unfold ENOENT, ESHUTDOWN, ECONNRESET. cbn [Z.eqb negb]. rewrite !andb_true_r.
  case_bool_decide as Hd; [by rewrite Hl|].
  destruct Hs as [|[s tl] subs [Hs Htl] HF]; [done|]. exfalso. apply Hd.
  destruct (sub_header s Hs) as (Hlen & _ & _). simpl in Htl.
  unfold data, transfer. rewrite fmap_cons. cbn [concat fst snd].
  assert (length tl ≥ 4)%nat by (rewrite Htl; unfold tail_len; lia). list_len.
Qed.

(** A data frame with groups 1 to 3, one status entry and a firmware event. *)
Definition sample_transfer : list (subframe * list Z) :=
  [(SubPacket {| p_rxd := [69; 0; 0; 0x4E; 0; 6; 0; 0; 0; 0x40; 0; 0] ++ replicate 4 0;
       p_g4 := []; p_g1 := replicate 16 0; p_g2 := replicate 8 0;
       p_g3 := [15; 0xA0; 8; 0] ++ replicate 8 0 ++ [0x9A] ++ replicate 11 0;
       p_pad := []; p_mpdu := [8; 0x40; 1; 2; 3] |}, replicate 7 0);
   (SubStatus 1 0 [[0; 0; 1; 0] ++ replicate 12 7 ++ [0; 0x40; 2; 0]], replicate 4 0);
   (SubEvent ([18; 0; 0; 0xE0] ++ replicate 14 9), replicate 6 0)].

Lemma rx_complete_delivers_witness :
  let data := transfer sample_transfer ++ replicate 20 0 in
  mt7603_rx_complete 2 6 true false (λ _ _, true) RxInfo_default 0 (data ++ [1; 2; 3]) (length data) 9 =
  Done (Some ([RxFrame {| rs_freq := 2437; rs_signal := -100; rs_chain_signal := -100;
                 rs_no_signal := false; rs_encoding := RX_ENC_HT; rs_rate_idx := 15;
                 rs_bw := RATE_INFO_BW_40; rs_short_gi := true; rs_decrypted := true |}
                 [8; 0x40; 1; 2; 3];
               TxStatus 9 1], true)).
Proof.
  apply (rx_complete_delivers 2 6 true (λ _ _, true) RxInfo_default sample_transfer
    (replicate 20 0) [1; 2; 3] 9); [done|vm_decide|vm_decide|by right|simpl; lia].
Defined.
