(* ===== verification/TxPath.v ===== *)
(** * The transmit path (mt7603_mac80211_tx, mt7603_tx_complete in src/c/mac80211.c)

    mac80211 hands the driver a frame in an skb; the driver chooses queue and
    rate, has the Rust core build the descriptor, pads the header to four
    bytes, prepends the descriptor, pads the transfer and submits it.  The
    completion takes the frame back out and reports it.  An skb is one
    allocation: head room, data and tail room. *)

From S2P Require Import Prelude Rust Ffi Regmap Rx Tx Entry Usb Dev.
Local Open Scope Z_scope.
Local Open Scope rust_scope.

Definition MT7603_DATA_BULK_OUT : Z := 0x05.
Definition MT7603_MGMT_BULK_OUT : Z := 0x08.

(** ** Socket buffers *)

Record sk_buff := Skb { sk_head : list Z; sk_data : list Z; sk_tail : list Z }.

(** [skb_put] and [skb_push] stop the kernel when there is no room. *)
Definition skb_put (skb : sk_buff) (n : nat) : outcome sk_buff :=
  if decide (n ≤ length (sk_tail skb))%nat then
    Done (Skb (sk_head skb) (sk_data skb ++ take n (sk_tail skb)) (drop n (sk_tail skb)))
  else Panic.
Definition skb_push (skb : sk_buff) (n : nat) : outcome sk_buff :=
  let keep := (length (sk_head skb) - n)%nat in
  if decide (n ≤ length (sk_head skb))%nat then
    Done (Skb (take keep (sk_head skb)) (drop keep (sk_head skb) ++ sk_data skb) (sk_tail skb))
  else Panic.
Definition skb_pull (skb : sk_buff) (n : nat) : sk_buff :=
  Skb (sk_head skb ++ take n (sk_data skb)) (drop n (sk_data skb)) (sk_tail skb).
Definition skb_trim (skb : sk_buff) (n : nat) : sk_buff :=
  Skb (sk_head skb) (take n (sk_data skb)) (drop n (sk_data skb) ++ sk_tail skb).

(** [memcpy], [memset] and [memmove] into the data of an skb. *)
Definition skb_store (skb : sk_buff) (off : nat) (s : list Z) : outcome sk_buff :=
  if decide (off + length s ≤ length (sk_data skb))%nat then
    Done (Skb (sk_head skb) (splice off s (sk_data skb)) (sk_tail skb))
  else Undefined.
(** The length of a move is an [unsigned int]: a negative one is huge. *)
Definition skb_move (skb : sk_buff) (dst src : nat) (len : Z) : outcome sk_buff :=
  if len <? 0 then Undefined else
  s ← peek_slice (sk_data skb) src (Z.to_nat len); skb_store skb dst s.

(** ** What mac80211 says about a frame *)

(** The parts of [ieee80211_tx_info] the driver looks at: flags, whether a
    hardware key is set, and the first rate. *)
Record tx_info := {
  ctl_injected : bool;
  ctl_no_ack : bool;
  hw_key : bool;
  rate0_idx : Z;
  rc_mcs : bool;
  rc_40_mhz_width : bool;
  rc_short_gi : bool;
  rc_use_short_preamble : bool;
}.

(** The kernel's header functions, with what include/linux/ieee80211.h
    documents of them. *)
Class Ieee80211 := {
  ieee80211_hdrlen : Z → Z;
  ieee80211_is_mgmt : Z → bool;
  ieee80211_is_beacon : Z → bool;
}.
Class Ieee80211Laws `{Ieee80211} : Prop := {
  hdrlen_even fc : Z.land (ieee80211_hdrlen fc) 1 = 0;
  hdrlen_range fc : 4 ≤ ieee80211_hdrlen fc ≤ 36;
  is_mgmt_type fc : ieee80211_is_mgmt fc = (bits 2 2 fc =? 0);
  is_beacon_type fc : ieee80211_is_beacon fc = (Z.land fc 0xfc =? 0x80);
}.

(** A frame in flight: the endpoint, the transfer, and the words the driver
    keeps in the frame's control block. *)
Record tx_urb := { tu_ep : Z; tu_skb : sk_buff; tu_meta : Z; tu_no_ack : bool }.

Section tx.
Context `{Ieee80211}.
Variable K : kernel.
Variable p : profile.
Variable dev : Dev.t.

Definition dev_kfree_skb_any : io unit := kfree.

(** The head room of a copy and of a reallocation, and their new contents,
    which are whatever the allocator left. *)
Definition skb_copy_expand (skb : sk_buff) (headroom tailroom : nat) : io (option sk_buff) :=
  let n := length (sk_data skb) in
  m ← kmalloc K (headroom + n + tailroom);
  mret ((λ m, Skb (take headroom m) (sk_data skb) (drop (headroom + n) m)) <$> m).
Definition skb_realloc_headroom (skb : sk_buff) (headroom : nat) : io (option sk_buff) :=
  m ← kmalloc K (headroom + length (sk_data skb) + length (sk_tail skb));
  mret ((λ m, Skb (take headroom m) (sk_data skb) (sk_tail skb)) <$> m).

(** ** Parameters of the descriptor *)

(** [is_injected] *)
Definition tx_is_injected (info : tx_info) : bool :=
  ctl_injected info || ((0 <? Dev.monitor_count dev) && bool_decide (Dev.ap_vif dev = None)).

(** [(rate_mode, rate_mcs, preamble, bw)] *)
Definition tx_select_rate (is_mgmt : bool) (info : tx_info) : Z * Z * Z * Z :=
  let idx := rate0_idx info in
  if negb is_mgmt && (0 <=? idx) then
    if rc_mcs info then
      (2, Z.land idx 0x0f, if rc_short_gi info then 2 else 0,
       if rc_40_mhz_width info then 1 else Dev.current_bw dev)
    else if idx <? 4 then (0, idx, if rc_use_short_preamble info then 0 else 1, 0)
    else (1, Z.land (idx - 4) 0x07, 1, 0)
  else if 14 <? Dev.current_channel dev then (1, 0, 1, Dev.current_bw dev)
  else (0, 0, 1, Dev.current_bw dev).

Definition tx_params (fc addr1_0 : Z) (skb_len : nat) (info : tx_info) : TxParams.t :=
  let is_mgmt := ieee80211_is_mgmt fc in
  let is_bm := Z.land addr1_0 0x01 in
  let injected := tx_is_injected info in
  let '(mode, mcs, pre, bw) := tx_select_rate is_mgmt info in
  {| TxParams.rate_idx := 0;
     TxParams.pid := if injected then 0 else if is_bm =? 0 then 1 else 0;
     TxParams.queue := if injected then 0x04 else if is_mgmt then 0x04 else 0x01;
     TxParams.hdr_len := wrap 8 (ieee80211_hdrlen fc);
     TxParams.frm_type := Z.land (fc ≫ 2) 0x3;
     TxParams.sub_type := Z.land (fc ≫ 4) 0xf;
     TxParams.no_ack := if injected
       then (if negb (is_bm =? 0) || ctl_no_ack info then 1 else 0) else is_bm;
     TxParams.is_bm := is_bm;
     TxParams.rate_mode := mode; TxParams.rate_mcs := mcs; TxParams.preamble := pre;
     TxParams.bw := bw;
     TxParams.pkt_len := wrap 16 (Z.of_nat skb_len);
     TxParams.protect_frm := if hw_key info then 1 else 0 |}.

(** ** Building and submitting the transfer *)

(** Data frames ask for a transmit status report. *)
Definition tx_sentinel (params : TxParams.t) (txwi : list Z) : list Z :=
  if TxParams.frm_type params =? 2 then
    let txwi := <[20%nat := 0x42]> txwi in
    <[21%nat := Z.lor (nth 21 txwi 0) (1 ≪ 2)]> txwi
  else txwi.

(** [copy]'s result replaces the skb, which is freed either way. *)
Definition tx_replace (skb : sk_buff) (copy : io (option sk_buff)) : io (option sk_buff) :=
  nskb ← copy; dev_kfree_skb_any ;; mret nskb.

(** The padding between header and payload. *)
Definition tx_pad_header (hdr_len pad : nat) (skb : sk_buff) : outcome sk_buff :=
  skb ← skb_put skb pad;
  let n := Z.of_nat (length (sk_data skb)) in
  skb ← skb_move skb (hdr_len + pad) hdr_len (n - Z.of_nat hdr_len - Z.of_nat pad);
  skb_store skb hdr_len (replicate pad 0).

(** The data path's byte count is the transfer length without the trailer. *)
Definition tx_byte_count (is_mgmt : bool) (skb : sk_buff) : outcome sk_buff :=
  if is_mgmt then mret skb else
  let usb_dma_pkt_len := wrap 16 (Z.ldiff (Z.of_nat (length (sk_data skb)) + 3) 3) in
  skb_store skb 0 (u16_to_le_bytes usb_dma_pkt_len).

Definition tx_tail_pad (n : nat) : nat :=
  Z.to_nat (Z.ldiff (Z.of_nat n + 3) 3 + 4 - Z.of_nat n).

Definition tx_submit (is_mgmt : bool) (params : TxParams.t) (pad : Z) (info : tx_info)
    (skb : sk_buff) : io (option tx_urb) :=
  let ep := if is_mgmt then MT7603_MGMT_BULK_OUT else MT7603_DATA_BULK_OUT in
  let meta := Z.lor (Z.lor (TxParams.pkt_len params) (shl32 (TxParams.hdr_len params) 16))
                    (shl32 pad 24) in
  ok ← usb_alloc_urb K;
  if ok : bool then
    ret ← usb_submit_urb K ep (length (sk_data skb));
    if ret <? 0 then usb_free_urb ;; dev_kfree_skb_any ;; mret None
    else mret (Some {| tu_ep := ep; tu_skb := skb; tu_meta := meta; tu_no_ack := ctl_no_ack info |})
  else dev_kfree_skb_any ;; mret None.

(** From the descriptor on; [txwi] is complete. *)
Definition tx_transfer (is_mgmt : bool) (params : TxParams.t) (txwi : list Z) (info : tx_info)
    (skb : sk_buff) : io (option tx_urb) :=
  let pad := Z.land (4 - Z.land (TxParams.hdr_len params) 0x03) 0x03 in
  let hdr_len := Z.to_nat (TxParams.hdr_len params) in
  skb ← (if 0 <? pad then
           skb ← (if decide (length (sk_tail skb) < Z.to_nat pad)%nat
                  then tx_replace skb (skb_copy_expand skb (length (sk_head skb)) (Z.to_nat pad))
                  else mret (Some skb));
           match skb with
           | None => mret None
           | Some skb => skb ← call (tx_pad_header hdr_len (Z.to_nat pad) skb); mret (Some skb)
           end
         else mret (Some skb));
  match skb with None => mret None | Some skb =>
  skb ← (if decide (length (sk_head skb) < 32)%nat
         then tx_replace skb (skb_realloc_headroom skb 32) else mret (Some skb));
  match skb with None => mret None | Some skb =>
  skb ← call (skb_push skb 32);
  skb ← call (skb_store skb 0 txwi);
  skb ← call (tx_byte_count is_mgmt skb);
  let pad_len := tx_tail_pad (length (sk_data skb)) in
  skb ← (if decide (length (sk_tail skb) < pad_len)%nat
         then tx_replace skb (skb_copy_expand skb (length (sk_head skb)) pad_len)
         else mret (Some skb));
  match skb with None => mret None | Some skb =>
  let n := length (sk_data skb) in
  skb ← call (skb_put skb pad_len);
  skb ← call (skb_store skb n (replicate pad_len 0));
  tx_submit is_mgmt params pad info skb
  end end end.

(** [stack] is what the local descriptor array holds. *)
Definition mt7603_mac80211_tx (stack : list Z) (skb : sk_buff) (info : tx_info)
    : io (option tx_urb) :=
  if negb (Dev.running dev) then dev_kfree_skb_any ;; mret None else
  b0 ← call (peek (sk_data skb) 0); b1 ← call (peek (sk_data skb) 1);
  let fc := u16_from_le_bytes b0 b1 in
  addr1_0 ← call (peek (sk_data skb) 4);
  let params := tx_params fc addr1_0 (length (sk_data skb)) info in
  '(ret, txwi) ← call (mt7603_rust_build_txwi p (Some params) (Some stack) 32);
  match txwi with
  | None => undefined
  | Some txwi =>
      if negb (ret =? 0) then dev_kfree_skb_any ;; mret None
      else tx_transfer (ieee80211_is_mgmt fc) params (tx_sentinel params txwi) info skb
  end.

(** ** Completion

    The frame and whether it was acknowledged, for mac80211's status report;
    [None] when the skb is freed. *)

Definition tx_unwrap (u : tx_urb) : outcome sk_buff :=
  let meta := tu_meta u in
  let orig_len := Z.to_nat (Z.land meta 0xffff) in
  let hdr_len := Z.to_nat (Z.land (meta ≫ 16) 0xff) in
  let hdr_pad_len := Z.to_nat (Z.land (meta ≫ 24) 0xff) in
  let skb := tu_skb u in
  let skb := if decide (32 ≤ length (sk_data skb))%nat then skb_pull skb 32 else skb in
  let n := length (sk_data skb) in
  skb ← (if decide (0 < hdr_pad_len ∧ hdr_len + hdr_pad_len ≤ n)%nat
         then skb_move skb hdr_len (hdr_len + hdr_pad_len)
                (Z.of_nat n - Z.of_nat hdr_len - Z.of_nat hdr_pad_len)
         else mret skb);
  mret (if decide (0 < orig_len ∧ orig_len < length (sk_data skb))%nat
        then skb_trim skb orig_len else skb).

Definition mt7603_tx_complete (u : tx_urb) (status : Z) : io (option (bool * sk_buff)) :=
  skb ← call (tx_unwrap u);
  fc ← (if decide (2 ≤ length (sk_data skb))%nat
        then b0 ← call (peek (sk_data skb) 0); b1 ← call (peek (sk_data skb) 1);
             mret (u16_from_le_bytes b0 b1)
        else mret 0);
  r ← (if Dev.running dev && negb (ieee80211_is_beacon fc)
       then mret (Some ((status =? 0) && negb (tu_no_ack u), skb))
       else dev_kfree_skb_any ;; mret None);
  usb_free_urb ;;
  mret r.
End tx.

(** ** What is sent *)

(** The frame with its header padded. *)
Definition tx_body (hdr_len pad : nat) (frame : list Z) : list Z :=
  take hdr_len frame ++ replicate pad 0 ++ drop hdr_len frame.

Definition round4 (n : Z) : Z := Z.ldiff (n + 3) 3.

(** The descriptor with the byte count of its path. *)
Definition tx_descriptor (is_mgmt : bool) (params : TxParams.t) (n : nat) : list Z :=
  let txwi := tx_sentinel params (txd_frame params) in
  if is_mgmt then txwi
  else splice 0 (u16_to_le_bytes (wrap 16 (round4 (Z.of_nat n)))) txwi.

Definition tx_wire (is_mgmt : bool) (params : TxParams.t) (frame : list Z) : list Z :=
  let h := TxParams.hdr_len params in
  let body := tx_body (Z.to_nat h) (Z.to_nat (hdr_pad_len h)) frame in
  let n := (32 + length body)%nat in
  tx_descriptor is_mgmt params n ++ body ++ replicate (tx_tail_pad n) 0.

Definition tx_meta (params : TxParams.t) : Z :=
  Z.lor (Z.lor (TxParams.pkt_len params) (shl32 (TxParams.hdr_len params) 16))
    (shl32 (hdr_pad_len (TxParams.hdr_len params)) 24).

Lemma tx_pad_header_done h pad head data tail :
  (h ≤ length data)%nat → (pad ≤ length tail)%nat →
  tx_pad_header h pad (Skb head data tail) = Done (Skb head (tx_body h pad data) (drop pad tail)).
Proof.
  intros Hh Hp. unfold tx_pad_header, skb_put. cbn [sk_head sk_data sk_tail].
  rewrite decide_True by done. cbn [mbind outcome_bind sk_head sk_data sk_tail].
  unfold skb_move. cbn [sk_head sk_data sk_tail].
  rewrite length_app, length_take, Nat.min_l by lia. rewrite (proj2 (Z.ltb_ge _ _)) by lia.
  replace (Z.to_nat _) with (length data - h)%nat by lia.
  rewrite peek_slice_done by list_len. cbn [mbind outcome_bind].
  rewrite drop_app_le, take_app_length' by list_len.
  unfold skb_store. cbn [sk_head sk_data sk_tail]. rewrite decide_True by list_len.
  cbn [mbind outcome_bind sk_head sk_data sk_tail]. rewrite decide_True by list_len.
  do 2 f_equal. unfold tx_body. rewrite <-(take_drop h data) at 2. rewrite <-app_assoc.
  set (a := take h data). set (b := drop h data). set (t := take pad tail).
  assert (length a = h) by (unfold a; list_len). assert (length t = pad) by (unfold t; list_len).
  rewrite <-(take_drop pad (b ++ t)). rewrite <-(app_nil_r (drop pad (b ++ t))).
  assert (length (take pad (b ++ t)) = pad) as H1 by list_len.
  assert (length (drop pad (b ++ t)) = length b) as H2 by list_len.
  set (b1 := take pad (b ++ t)) in *. set (b2 := drop pad (b ++ t)) in *.
  rewrite (splice_skip (h + pad) b a) by lia.
  rewrite (splice_skip _ b b1), (splice_hit _ b b2) by lia.
  rewrite app_nil_r. rewrite splice_skip, splice_hit by list_len. done.
Qed.

Lemma splice_0_length {A} (s l : list A) : (length s ≤ length l)%nat → length (splice 0 s l) = length l.
Proof. intros. apply length_splice. lia. Qed.

Lemma round4_bounds n : 0 ≤ n → n ≤ round4 n ≤ n + 3 ∧ round4 n mod 4 = 0.
Proof.
  intros Hn. assert (round4 n = (n + 3) / 4 * 4) as ->.
  { unfold round4. change 3 with (Z.ones 2) at 2. rewrite Z.ldiff_ones_r by lia.
    by rewrite Z.shiftl_mul_pow2, Z.shiftr_div_pow2 by lia. }
  rewrite Z.mod_mul by lia.
  pose proof (Z.div_mod (n + 3) 4 ltac:(lia)). pose proof (Z.mod_pos_bound (n + 3) 4 ltac:(lia)).
  lia.
Qed.

Lemma tx_tail_pad_spec n : Z.of_nat (n + tx_tail_pad n) = round4 (Z.of_nat n) + 4.
Proof.
  unfold tx_tail_pad. fold (round4 (Z.of_nat n)).
  pose proof (round4_bounds (Z.of_nat n) ltac:(lia)). lia.
Qed.

Section tx_spec.
Context `{Ieee80211} (K : kernel) (p : profile) (dev : Dev.t) (HK : kernel_ok K).

(** A copy with enough room, or the skb is gone. *)
Definition replaced (skb : sk_buff) (head tail : nat) (r : option sk_buff) (e : effect) : Prop :=
  match r with
  | None => e = Eff [] (-1) 0 0
  | Some s => e = quiet ∧ sk_data s = sk_data skb ∧ (head ≤ length (sk_head s))%nat ∧
      (tail ≤ length (sk_tail s))%nat
  end.

Lemma tx_replace_emits skb copy head tail :
  emits copy (λ r e, match r with
    | None => e = quiet
    | Some s => e = Eff [] 1 0 0 ∧ sk_data s = sk_data skb ∧ (head ≤ length (sk_head s))%nat ∧
        (tail ≤ length (sk_tail s))%nat end) →
  emits (tx_replace skb copy) (replaced skb head tail).
Proof.
  intros Hc. unfold tx_replace. eapply emits_bind; [apply Hc|]. cbn beta.
  intros [s|] e He; io_bind kfree_emits; intros _ ? ->; io_ret.
  - destruct He as (-> & ? & ? & ?). by split_and!.
  - by rewrite He.
Qed.

Lemma skb_copy_expand_emits skb head tail :
  emits (tx_replace skb (skb_copy_expand K skb head tail)) (replaced skb head tail).
Proof.
  apply tx_replace_emits. unfold skb_copy_expand. io_bind kmalloc_emits.
  intros m e [[-> ->]|(c & -> & Hc & ->)]; io_ret; [done|]. cbn. specialize (Hc HK).
  split_and!; [done|done|list_len|list_len].
Qed.

Lemma skb_realloc_headroom_emits skb head :
  emits (tx_replace skb (skb_realloc_headroom K skb head)) (replaced skb head 0).
Proof.
  apply tx_replace_emits. unfold skb_realloc_headroom. io_bind kmalloc_emits.
  intros m e [[-> ->]|(c & -> & Hc & ->)]; io_ret; [done|]. cbn. specialize (Hc HK).
  split_and!; [done|done|list_len|lia].
Qed.

(** Room is made where it is missing. *)
Lemma tail_room_emits skb need :
  emits (if decide (length (sk_tail skb) < need)%nat
         then tx_replace skb (skb_copy_expand K skb (length (sk_head skb)) need)
         else mret (Some skb)) (replaced skb (length (sk_head skb)) need).
Proof.
  case_decide; [apply skb_copy_expand_emits|]. io_ret. split_and!; [done|done|lia|lia].
Qed.
Lemma head_room_emits skb :
  emits (if decide (length (sk_head skb) < 32)%nat
         then tx_replace skb (skb_realloc_headroom K skb 32) else mret (Some skb))
    (replaced skb 32 0).
Proof.
  case_decide; [apply skb_realloc_headroom_emits|]. io_ret. split_and!; [done|done|lia|lia].
Qed.

(** The rest of a step after room was made, or not. *)
Lemma replaced_bind {B} (m : io (option sk_buff)) (f : option sk_buff → io B) skb head tail Q :
  emits m (replaced skb head tail) →
  emits (f None) (λ b e, Q b (Eff [] (-1) 0 0 ⊕ e)) →
  (∀ s, sk_data s = sk_data skb → (head ≤ length (sk_head s))%nat →
    (tail ≤ length (sk_tail s))%nat → emits (f (Some s)) Q) →
  emits (m ≫= f) Q.
Proof.
  intros Hm Hn Hs. eapply emits_bind; [done|]. cbn beta. intros [s|] e He.
  - destruct He as (-> & ? & ? & ?). intros tr. destruct (Hs s) with (tr := tr)
      as (b & new & -> & HQ); [done..|]. exists b, new. by rewrite eff_quiet_l.
  - by rewrite He.
Qed.

(** The transfer is in flight with its URB and skb, or both are released. *)
Definition sent (is_mgmt : bool) (params : TxParams.t) (info : tx_info) (data : list Z)
    (r : option tx_urb) (e : effect) : Prop :=
  match r with
  | None => e = Eff [] (-1) 0 0
  | Some u => e = Eff [] 0 1 1 ∧ sk_data (tu_skb u) = data ∧ tu_meta u = tx_meta params ∧
      tu_ep u = (if is_mgmt then MT7603_MGMT_BULK_OUT else MT7603_DATA_BULK_OUT) ∧
      tu_no_ack u = ctl_no_ack info
  end.

Lemma tx_submit_emits is_mgmt params info skb :
  emits (tx_submit K is_mgmt params (hdr_pad_len (TxParams.hdr_len params)) info skb)
    (sent is_mgmt params info (sk_data skb)).
Proof.
  unfold tx_submit. io_bind alloc_urb_emits. intros [] e ->.
  - io_bind submit_urb_emits. intros ret e ->. destruct (Z.ltb_spec ret 0).
    + rewrite (proj2 (Z.leb_gt _ _)) by lia. io_bind free_urb_emits. intros _ ? ->.
      io_bind kfree_emits. intros _ ? ->. by io_ret.
    + rewrite (proj2 (Z.leb_le _ _)) by lia. io_ret. by split_and!.
  - io_bind kfree_emits. intros _ ? ->. by io_ret.
Qed.

Lemma tx_pad_step_emits h pad skb :
  0 ≤ pad → (h ≤ length (sk_data skb))%nat →
  emits
    (if 0 <? pad then
       skb ← (if decide (length (sk_tail skb) < Z.to_nat pad)%nat
              then tx_replace skb (skb_copy_expand K skb (length (sk_head skb)) (Z.to_nat pad))
              else mret (Some skb));
       match skb with
       | None => mret None
       | Some skb => skb ← call (tx_pad_header h (Z.to_nat pad) skb); mret (Some skb)
       end
     else mret (Some skb))
    (replaced (Skb [] (tx_body h (Z.to_nat pad) (sk_data skb)) []) 0 0).
Proof.
  intros Hp Hh. destruct (Z.ltb_spec 0 pad).
  - eapply replaced_bind; [apply tail_room_emits|by io_ret|].
    intros [hd data tl] Hd _ Ht. simpl in Hd, Ht. subst data.
    eapply emits_bind_call; [by apply tx_pad_header_done|]. io_ret. split_and!; simpl; done || lia.
  - replace pad with 0 by lia. io_ret. split_and!; simpl; [done| |lia..].
    unfold tx_body. simpl. by rewrite take_drop.
Qed.

Lemma length_tx_sentinel params l : length (tx_sentinel params l) = length l.
Proof. unfold tx_sentinel. destruct (_ =? 2); [|done]. list_len. Qed.

Lemma length_txd_frame params : length (txd_frame params) = 32%nat.
Proof. done. Qed.

Lemma length_tx_descriptor is_mgmt params n : length (tx_descriptor is_mgmt params n) = 32%nat.
Proof.
  assert (length (tx_sentinel params (txd_frame params)) = 32%nat) as Hl
    by (by rewrite length_tx_sentinel, length_txd_frame).
  unfold tx_descriptor. destruct is_mgmt; [done|]. by rewrite splice_0_length by list_len.
Qed.

(** The descriptor in front of the padded frame. *)
Lemma tx_byte_count_done is_mgmt params hd body tl :
  let txwi := tx_sentinel params (txd_frame params) in
  tx_byte_count is_mgmt (Skb hd (txwi ++ body) tl) =
  Done (Skb hd (tx_descriptor is_mgmt params (32 + length body) ++ body) tl).
Proof.
  intros txwi. assert (length txwi = 32%nat) as Hl
    by (unfold txwi; by rewrite length_tx_sentinel, length_txd_frame).
  unfold tx_byte_count, tx_descriptor. fold txwi. destruct is_mgmt; [done|].
  cbn [sk_data]. rewrite length_app, Hl. unfold skb_store. cbn [sk_data sk_head sk_tail].
  rewrite decide_True by list_len. fold (round4 (Z.of_nat (32 + length body))).
  do 2 f_equal. unfold splice. rewrite !take_0, !app_nil_l, drop_app_le by list_len.
  by rewrite app_assoc.
Qed.

Lemma tx_transfer_emits is_mgmt params info skb :
  is_u8 (TxParams.hdr_len params) →
  (Z.to_nat (TxParams.hdr_len params) ≤ length (sk_data skb))%nat →
  emits (tx_transfer K is_mgmt params (tx_sentinel params (txd_frame params)) info skb)
    (sent is_mgmt params info (tx_wire is_mgmt params (sk_data skb))).
Proof.
  intros Hu Hh. unfold tx_transfer. fold (hdr_pad_len (TxParams.hdr_len params)).
  set (h := TxParams.hdr_len params) in *.
  pose proof (land_bound (4 - Z.land h 3) 3 ltac:(lia)) as Hpad.
  fold (hdr_pad_len h) in Hpad. set (pad := hdr_pad_len h) in *.
  eapply replaced_bind; [apply tx_pad_step_emits; [lia|done]|by io_ret|].
  intros s1 Hd1 _ _. simpl in Hd1.
  eapply replaced_bind; [apply head_room_emits|by io_ret|].
  intros [hd data tl] Hd2 Hroom _. simpl in Hd2, Hroom. rewrite Hd1 in Hd2. subst data.
  eapply emits_bind_call; [unfold skb_push; cbn [sk_head]; by rewrite decide_True|].
  cbn [sk_head sk_data sk_tail]. set (old := drop _ hd).
  assert (length old = 32%nat) by (unfold old; list_len).
  eapply emits_bind_call.
  { unfold skb_store. cbn [sk_head sk_data sk_tail].
    rewrite decide_True by (rewrite length_tx_sentinel, length_txd_frame; list_len).
    rewrite splice_hit by (rewrite ?length_tx_sentinel, ?length_txd_frame; done). done. }
  eapply emits_bind_call; [apply tx_byte_count_done|]. cbn [sk_data].
  eapply replaced_bind; [apply tail_room_emits|by io_ret|].
  intros [hd3 data tl3] Hd3 _ Hroom3. simpl in Hd3, Hroom3. subst data.
  set (desc := tx_descriptor _ _ _) in *.
  assert (Hdesc : length desc = 32%nat) by apply length_tx_descriptor.
  replace (length (desc ++ tx_body (Z.to_nat h) (Z.to_nat pad) (sk_data skb))) with
    (32 + length (tx_body (Z.to_nat h) (Z.to_nat pad) (sk_data skb)))%nat in * by list_len.
  set (n := (32 + _)%nat) in *. set (tp := tx_tail_pad n) in *.
  eapply emits_bind_call; [unfold skb_put; cbn [sk_tail]; by rewrite decide_True|].
  cbn [sk_head sk_data sk_tail].
  eapply emits_bind_call.
  { unfold skb_store. cbn [sk_head sk_data sk_tail]. rewrite decide_True by list_len.
    rewrite splice_skip by list_len.
    rewrite <-(app_nil_r (take _ tl3)), splice_hit, app_nil_r by list_len. done. }
  eapply emits_weaken; [apply tx_submit_emits|]. cbn [sk_data]. intros [u|] e He; [|done].
  destruct He as (-> & Hdata & ?). split; [done|]. rewrite Hdata. split; [|done].
  unfold tx_wire. fold h pad. by rewrite <-app_assoc.
Qed.
End tx_spec.

(** ** Which parameters are chosen *)

Section tx_choice.
Context `{Ieee80211Laws} (dev : Dev.t) (Hdev : Dev.wf dev).

Definition frame_fc (frame : list Z) : Z := u16_from_le_bytes (nth 0 frame 0) (nth 1 frame 0).
Definition frame_hdr_len (frame : list Z) : nat := Z.to_nat (ieee80211_hdrlen (frame_fc frame)).
(** Group bit of the receiver address. *)
Definition frame_group (frame : list Z) : bool := Z.testbit (nth 4 frame 0) 0.
Definition frame_params (frame : list Z) (info : tx_info) : TxParams.t :=
  tx_params dev (frame_fc frame) (nth 4 frame 0) (length frame) info.

(** A frame mac80211 can pass on: a complete header, and an [s8] rate index. *)
Definition frame_ok (frame : list Z) (info : tx_info) : Prop :=
  Forall is_u8 frame ∧ (10 `max` frame_hdr_len frame ≤ length frame)%nat ∧
  Z.of_nat (length frame) < 2 ^ 16 ∧
  is_i8 (rate0_idx info).

Lemma tx_select_rate_ok is_mgmt info :
  is_i8 (rate0_idx info) →
  let '(mode, mcs, pre, bw) := tx_select_rate dev is_mgmt info in
  is_u8 mode ∧ is_u8 mcs ∧ is_u8 pre ∧ is_u8 bw ∧ rate_usable mode mcs = true.
Proof.
  intros Hi. assert (is_u8 (Dev.current_bw dev)) as Hbw by (unfold Dev.wf in Hdev; tauto).
  unfold tx_select_rate. pose proof (land_bound (rate0_idx info) 0x0f ltac:(lia)).
  pose proof (land_bound (rate0_idx info - 4) 0x07 ltac:(lia)).
  destruct (_ && _) eqn:E; [apply andb_true_iff in E as [_ E%Z.leb_le]; destruct (rc_mcs info);
    [|destruct (Z.ltb_spec (rate0_idx info) 4)]|destruct (14 <? _)].
  - split_and!; [vm_decide|uint|by destruct (rc_short_gi info); vm_decide|
      by destruct (rc_40_mhz_width info); [vm_decide|]|]. apply Z.ltb_lt. lia.
  - split_and!; [vm_decide|uint|by destruct (rc_use_short_preamble info); vm_decide|vm_decide|].
    by apply Z.ltb_lt.
  - split_and!; [vm_decide|uint|vm_decide|vm_decide|]. apply Z.ltb_lt. lia.
  - by split_and!; [vm_decide..| |].
  - by split_and!; [vm_decide..| |].
Qed.

Lemma frame_params_ok frame info :
  frame_ok frame info →
  let params := frame_params frame info in
  TxParams.wf params ∧ rate_usable (TxParams.rate_mode params) (TxParams.rate_mcs params) = true ∧
  TxParams.hdr_len params = ieee80211_hdrlen (frame_fc frame) ∧
  TxParams.pkt_len params = Z.of_nat (length frame).
Proof.
  intros (HF & Hh & Hl & Hi). cbv zeta. unfold frame_params, tx_params.
  pose proof (tx_select_rate_ok (ieee80211_is_mgmt (frame_fc frame)) info Hi) as Hr.
  destruct (tx_select_rate _ _ _) as [[[mode mcs] pre] bw].
  destruct Hr as (? & ? & ? & ? & ?).
  pose proof (hdrlen_range (frame_fc frame)) as Hhl.
  pose proof (land_bound (nth 4 frame 0) 1 ltac:(lia)).
  pose proof (land_bound (frame_fc frame ≫ 2) 3 ltac:(lia)).
  pose proof (land_bound (frame_fc frame ≫ 4) 0xf ltac:(lia)).
  unfold TxParams.wf.
  cbn [TxParams.rate_idx TxParams.pid TxParams.queue TxParams.hdr_len TxParams.frm_type
    TxParams.sub_type TxParams.no_ack TxParams.is_bm TxParams.rate_mode TxParams.rate_mcs
    TxParams.preamble TxParams.bw TxParams.pkt_len TxParams.protect_frm].
  assert (wrap 8 (ieee80211_hdrlen (frame_fc frame)) = ieee80211_hdrlen (frame_fc frame)) as ->
    by (apply Z.mod_small; lia).
  assert (wrap 16 (Z.of_nat (length frame)) = Z.of_nat (length frame)) as ->
    by (apply Z.mod_small; lia).
  split; [|done]. split_and!; try done; try uint.
  all: repeat case_match; vm_decide || uint.
Qed.
End tx_choice.

Section tx_correct.
Context `{Ieee80211Laws} (K : kernel) (p : profile) (dev : Dev.t).
Context (HK : kernel_ok K) (Hdev : Dev.wf dev).

Lemma txwi_entry params stack :
  TxParams.wf params → length stack = 32%nat → rate_defined params = true →
  Z.land (TxParams.hdr_len params) 1 = 0 →
  ∃ st txwi, mt7603_rust_build_txwi p (Some params) (Some stack) 32 = Done (st, Some txwi) ∧
    (st = 0 → txwi = txd_frame params ∧ TxParams.pkt_len params + 32 ≤ 0xffff) ∧
    (TxParams.pkt_len params + 32 ≤ 0xffff → st = 0).
Proof.
  intros Hwf Hl Hr He. unfold mt7603_rust_build_txwi, from_raw_parts.
  rewrite decide_True by lia. cbn [mbind outcome_bind].
  rewrite build_txwi_unfold by (done || list_len). rewrite He, Hr.
  destruct (Z.leb_spec (TxParams.pkt_len params + 32) 0xffff); simpl;
    eexists _, _; (split; [done|]); [|by split; [|lia]].
  split; [|done]. intros _. split; [|done]. rewrite !drop_ge by list_len. by rewrite !app_nil_r.
Qed.

(** What becomes of a frame, on every path. *)
Definition transmitted (frame : list Z) (info : tx_info) (r : option tx_urb) (e : effect) : Prop :=
  sent (ieee80211_is_mgmt (frame_fc frame)) (frame_params dev frame info) info
    (tx_wire (ieee80211_is_mgmt (frame_fc frame)) (frame_params dev frame info) frame) r e ∧
  (is_Some r → Dev.running dev = true ∧ Z.of_nat (length frame) + 32 ≤ 0xffff).

Lemma mac80211_tx_emits stack skb info :
  frame_ok (sk_data skb) info → length stack = 32%nat →
  emits (mt7603_mac80211_tx K p dev stack skb info) (transmitted (sk_data skb) info).
Proof.
  intros Hf Hst. destruct (frame_params_ok dev Hdev _ _ Hf) as (Hwf & Hr & Hhl & Hpkt).
  destruct Hf as (HF & Hh & Hl & Hi). unfold frame_hdr_len in Hh.
  pose proof (hdrlen_range (frame_fc (sk_data skb))) as Hrange.
  unfold mt7603_mac80211_tx, transmitted. destruct (Dev.running dev); cbn [negb].
  2: { io_bind kfree_emits. intros _ e ->. io_ret. by split; [|intros []]. }
  do 2 (eapply emits_bind_call; [by apply peek_nth; lia|]).
  eapply emits_bind_call; [by apply peek_nth; lia|].
  fold (frame_fc (sk_data skb)) (frame_params dev (sk_data skb) info).
  destruct (txwi_entry (frame_params dev (sk_data skb) info) stack Hwf Hst
    (rate_usable_defined _ Hr)) as (st & txwi & Htxwi & Hok & _); [rewrite Hhl; apply hdrlen_even|].
  eapply emits_bind_call; [done|]. cbn beta iota.
  destruct (Z.eqb_spec st 0) as [Hst0|]; cbn [negb].
  - destruct (Hok Hst0) as [-> Hacc]. rewrite Hpkt in Hacc.
    eapply emits_weaken; [apply tx_transfer_emits; [done|unfold TxParams.wf in Hwf; tauto|rewrite Hhl; lia]|].
    by split.
  - io_bind kfree_emits. intros _ e ->. io_ret. by split; [|intros []].
Qed.

(** *** A frame is given up only when the kernel refuses something *)

Lemma tx_replace_clean skb copy : clean copy is_Some → clean (tx_replace skb copy) is_Some.
Proof.
  intros Hc. unfold tx_replace. eapply clean_bind; [exact Hc|]. intros nskb.
  eapply clean_bind; [apply clean_log|]. intros ?. by apply clean_ret.
Qed.

Lemma skb_copy_expand_clean skb head tail : clean (skb_copy_expand K skb head tail) is_Some.
Proof.
  eapply clean_bind; [apply clean_kmalloc|]. intros m. apply clean_ret. by intros [c ->].
Qed.
Lemma skb_realloc_headroom_clean skb head : clean (skb_realloc_headroom K skb head) is_Some.
Proof.
  eapply clean_bind; [apply clean_kmalloc|]. intros m. apply clean_ret. by intros [c ->].
Qed.

Lemma tx_submit_clean is_mgmt params pad info skb : clean (tx_submit K is_mgmt params pad info skb) is_Some.
Proof.
  unfold tx_submit. eapply clean_bind with (P := λ ok, ok = true).
  { intros tr a tr' [= <- <-]. eexists. split; [done|]. cbn [forallb works]. by rewrite andb_true_r. }
  intros ok. destruct ok.
  - eapply clean_bind with (P := λ ret, 0 ≤ ret).
    { intros tr a tr' [= <- <-]. eexists. split; [done|]. cbn [forallb works]. rewrite andb_true_r.
      apply Z.leb_le. }
    intros ret. destruct (Z.ltb_spec ret 0).
    + eapply clean_bind; [apply clean_log|]. intros ?. eapply clean_bind; [apply clean_log|].
      intros ?. apply clean_ret. lia.
    + by apply clean_ret.
  - eapply clean_bind; [apply clean_log|]. intros ?. by apply clean_ret.
Qed.

(** A step that may lose the skb, and the rest. *)
Lemma room_bind {B} (m : io (option sk_buff)) (f : sk_buff → io (option B)) :
  clean m is_Some → (∀ skb, clean (f skb) is_Some) →
  clean (skb ← m; match skb with None => mret None | Some skb => f skb end) is_Some.
Proof.
  intros Hm Hf. eapply clean_bind; [exact Hm|]. intros [skb|].
  - eapply clean_weaken; [apply Hf|]. by intros.
  - apply clean_ret. by intros [? [=]].
Qed.

Lemma call_bind {B} {C} (m : outcome B) (f : B → io (option C)) :
  (∀ b, clean (f b) is_Some) → clean (call m ≫= f) is_Some.
Proof.
  intros Hf. eapply clean_bind; [apply clean_call|]. intros b. by eapply clean_weaken; [apply Hf|].
Qed.

Lemma tx_transfer_clean is_mgmt params txwi info skb :
  clean (tx_transfer K is_mgmt params txwi info skb) is_Some.
Proof.
  unfold tx_transfer. apply room_bind.
  { destruct (0 <? _); [|by apply clean_ret]. apply room_bind.
    - case_decide; [apply tx_replace_clean, skb_copy_expand_clean|by apply clean_ret].
    - intros s. apply call_bind. intros s'. by apply clean_ret. }
  intros s. apply room_bind.
  { case_decide; [apply tx_replace_clean, skb_realloc_headroom_clean|by apply clean_ret]. }
  intros s1. do 3 (apply call_bind; intros ?). apply room_bind.
  { case_decide; [apply tx_replace_clean, skb_copy_expand_clean|by apply clean_ret]. }
  intros s2. do 2 (apply call_bind; intros ?). apply tx_submit_clean.
Qed.

(** On a running driver, and for a frame the descriptor can count. *)
Lemma mac80211_tx_clean stack skb info :
  frame_ok (sk_data skb) info → length stack = 32%nat → Dev.running dev = true →
  Z.of_nat (length (sk_data skb)) + 32 ≤ 0xffff →
  clean (mt7603_mac80211_tx K p dev stack skb info) is_Some.
Proof.
  intros Hf Hst Hrun Hlen. destruct (frame_params_ok dev Hdev _ _ Hf) as (Hwf & Hr & Hhl & Hpkt).
  destruct Hf as (HF & Hh & Hl & Hi).
  unfold mt7603_mac80211_tx. rewrite Hrun. cbn [negb].
  do 2 (eapply clean_bind_call; [by apply peek_nth; lia|]).
  eapply clean_bind_call; [by apply peek_nth; lia|].
  fold (frame_fc (sk_data skb)) (frame_params dev (sk_data skb) info).
  destruct (txwi_entry (frame_params dev (sk_data skb) info) stack Hwf Hst
    (rate_usable_defined _ Hr)) as (st & txwi & Htxwi & _ & Hok); [rewrite Hhl; apply hdrlen_even|].
  rewrite Hpkt in Hok. eapply clean_bind_call; [exact Htxwi|]. rewrite (Hok Hlen).
  cbn beta iota. cbn [Z.eqb negb]. apply tx_transfer_clean.
Qed.
End tx_correct.

(** ** What the hardware reads *)

(** A word's upper half does not depend on its lower bytes. *)
Lemma upper_half lo w b0 b1 c0 c1 b2 b3 :
  is_u8 b0 → is_u8 b1 → is_u8 c0 → is_u8 c1 → 16 ≤ lo → 0 ≤ w →
  bits lo w (u32_from_le_bytes b0 b1 b2 b3) = bits lo w (u32_from_le_bytes c0 c1 b2 b3).
Proof.
  assert (∀ a b, is_u8 a → is_u8 b → 16 ≤ lo → 0 ≤ w →
    bits lo w (u32_from_le_bytes a b b2 b3) = bits lo w (Z.lor (b2 ≪ 16) (b3 ≪ 24))) as E.
  { intros a b Ha Hb Hlo Hw. unfold u32_from_le_bytes. rewrite !(bits_lor lo w a), (bits_lor lo w (b ≪ 8)).
    rewrite (bits_above lo w a), (bits_above lo w (b ≪ 8)); [by rewrite !Z.lor_0_l|..].
    - unfold is_uint in *. rewrite Z.shiftl_mul_pow2 by lia.
      pose proof (Z.pow_le_mono_r 2 16 lo). pow2. lia.
    - unfold is_uint in *. pose proof (Z.pow_le_mono_r 2 16 lo). pow2. lia. }
  intros. by rewrite !E.
Qed.

Lemma lower_half b0 b1 b2 b3 : is_u8 b0 → is_u8 b1 →
  bits 0 16 (u32_from_le_bytes b0 b1 b2 b3) = u16_from_le_bytes b0 b1.
Proof.
  intros H0 H1. pose proof (u16_from_u16 b0 b1 H0 H1) as Hu. unfold u32_from_le_bytes.
  rewrite !bits_lor. rewrite (bits_shiftl_out 0 16 b2), (bits_shiftl_out 0 16 b3) by lia.
  rewrite !Z.lor_0_r. rewrite <-bits_lor. by apply bits_small; [lia|].
Qed.

Definition with_byte_cnt (c : Z) (d : TxdFields) : TxdFields := {|
  f_tx_byte_cnt := c; f_eth_type_offset := f_eth_type_offset d; f_q_idx := f_q_idx d;
  f_p_idx := f_p_idx d; f_wlan_idx := f_wlan_idx d; f_hdr_len := f_hdr_len d;
  f_hdr_format := f_hdr_format d; f_ft := f_ft d; f_hdr_pad := f_hdr_pad d;
  f_no_ack := f_no_ack d; f_tid := f_tid d; f_protect_frm := f_protect_frm d;
  f_own_mac := f_own_mac d; f_sub_type := f_sub_type d; f_frm_type := f_frm_type d;
  f_bc_mc_pkt := f_bc_mc_pkt d; f_ba_disable := f_ba_disable d; f_fix_rate := f_fix_rate d;
  f_remain_tx_cnt := f_remain_tx_cnt d; f_bar_sn_ctrl := f_bar_sn_ctrl d; f_bw := f_bw d;
  f_spe_en := f_spe_en d; f_tx_rate := f_tx_rate d; f_gi := f_gi d |}.

Lemma with_byte_cnt_id d : with_byte_cnt (f_tx_byte_cnt d) d = d.
Proof. by destruct d. Qed.

Lemma decode_sentinel params :
  decode_txd (tx_sentinel params (txd_frame params)) = decode_txd (txd_frame params).
Proof.
  unfold tx_sentinel. destruct (_ =? 2); [|done]. reflexivity.
Qed.

Lemma decode_tx_descriptor is_mgmt params n :
  decode_txd (tx_descriptor is_mgmt params n) =
  with_byte_cnt
    (if is_mgmt then f_tx_byte_cnt (decode_txd (txd_frame params))
     else wrap 16 (round4 (Z.of_nat n))) (decode_txd (txd_frame params)).
Proof.
  unfold tx_descriptor. rewrite <-decode_sentinel.
  destruct is_mgmt; [by rewrite with_byte_cnt_id|]. set (l := tx_sentinel params (txd_frame params)).
  set (c := wrap 16 _). assert (is_u16 c) by by apply is_uint_wrap.
  assert (∃ b0 b1 b2 b3 l', l = b0 :: b1 :: b2 :: b3 :: l' ∧ is_u8 b0 ∧ is_u8 b1) as
    (b0 & b1 & b2 & b3 & l' & -> & H0 & H1).
  { unfold l, tx_sentinel. destruct (_ =? 2); eexists _, _, _, _, _; (split; [reflexivity|]);
      split; apply bits_u8. }
  unfold u16_to_le_bytes, splice. cbn [take drop app length Nat.add].
  unfold decode_txd, with_byte_cnt, txd_word.
  cbn [Nat.mul Nat.add nth f_eth_type_offset f_q_idx f_p_idx f_wlan_idx].
  rewrite lower_half, u16_from_to by (done || apply bits_u8).
  rewrite !(upper_half _ _ (bits 0 8 c) (bits 8 8 c) b0 b1) by (lia || done || apply bits_u8).
  done.
Qed.

(** ** Correctness *)

Section tx_theorems.
Context `{Ieee80211Laws}.

(** C5. Transmission, on every path: with any kernel answers and any frame
    mac80211 may pass, the handler returns without stopping the kernel or
    touching memory it was not given (no unchecked rate table index, no room
    missing for the descriptor or the paddings); the frame is either freed,
    with every copy made of it, or exactly one URB is in flight, on the
    endpoint of the frame's class, whose transfer is the descriptor, the
    padded frame and the zero trailer. *)
Theorem mac80211_tx_spec K p dev stack skb info :
  kernel_ok K → Dev.wf dev → frame_ok (sk_data skb) info → length stack = 32%nat →
  let frame := sk_data skb in
  let is_mgmt := ieee80211_is_mgmt (frame_fc frame) in
  emits (mt7603_mac80211_tx K p dev stack skb info) (λ r e,
    match r with
    | None => e = Eff [] (-1) 0 0
    | Some u => e = Eff [] 0 1 1 ∧ Dev.running dev = true ∧
        tu_ep u = (if is_mgmt then MT7603_MGMT_BULK_OUT else MT7603_DATA_BULK_OUT) ∧
        sk_data (tu_skb u) = tx_wire is_mgmt (frame_params dev frame info) frame
    end).
Proof.
  intros HK Hdev Hf Hst frame is_mgmt.
  eapply emits_weaken; [by apply mac80211_tx_emits|]. cbn beta.
  intros [u|] e [Hs Hr]; [|done]. destruct Hs as (-> & ? & _ & ? & _).
  split_and!; [done|by apply Hr|done..].
Qed.

Lemma length_tx_body h pad frame :
  (h ≤ length frame)%nat → length (tx_body h pad frame) = (length frame + pad)%nat.
Proof. intros. unfold tx_body. list_len. Qed.

Lemma length_tx_wire is_mgmt params frame :
  let h := TxParams.hdr_len params in
  (Z.to_nat h ≤ length frame)%nat →
  let n := (32 + length frame + Z.to_nat (hdr_pad_len h))%nat in
  Z.of_nat (length (tx_wire is_mgmt params frame)) = round4 (Z.of_nat n) + 4.
Proof.
  intros h Hh n. unfold tx_wire. fold h. rewrite !length_app, length_tx_descriptor.
  rewrite length_tx_body, length_replicate by done.
  replace (32 + (length frame + Z.to_nat (hdr_pad_len h)))%nat with n by lia.
  rewrite <-tx_tail_pad_spec. lia.
Qed.

Lemma tx_sentinel_bytes is_mgmt params n :
  TxParams.frm_type params = 2 →
  nth 20 (tx_descriptor is_mgmt params n) 0 = 0x42 ∧
  Z.testbit (nth 21 (tx_descriptor is_mgmt params n) 0) 2 = true.
Proof. intros Hf. unfold tx_descriptor, tx_sentinel. rewrite Hf. by destruct is_mgmt. Qed.

Lemma frame_params_fields dev frame info :
  let fc := frame_fc frame in
  let params := frame_params dev frame info in
  let group := frame_group frame in
  bits 0 2 (TxParams.frm_type params) = bits 2 2 fc ∧
  bits 0 4 (TxParams.sub_type params) = bits 4 4 fc ∧
  bits 0 1 (TxParams.is_bm params) = Z.b2z group ∧
  bits 0 1 (TxParams.protect_frm params) = Z.b2z (hw_key info) ∧
  (if tx_is_injected dev info
   then bits 0 1 (TxParams.no_ack params) = Z.b2z (group || ctl_no_ack info) ∧
     TxParams.pid params = 0 ∧ bits 0 4 (TxParams.queue params) = 4
   else bits 0 1 (TxParams.no_ack params) = Z.b2z group ∧
     TxParams.pid params = Z.b2z (negb group) ∧
     bits 0 4 (TxParams.queue params) = if ieee80211_is_mgmt fc then 4 else 1).
Proof.
  cbv zeta. unfold frame_params, tx_params, frame_group.
  destruct (tx_select_rate _ _ _) as [[[mode mcs] pre] bw].
  cbn [TxParams.frm_type TxParams.sub_type TxParams.is_bm TxParams.protect_frm TxParams.no_ack
    TxParams.pid TxParams.queue].
  assert (Z.land (nth 4 frame 0) 1 = Z.b2z (Z.testbit (nth 4 frame 0) 0)) as Hg.
  { change 1 with (Z.ones 1). rewrite Z.land_ones by lia. by rewrite Z.bit0_mod. }
  rewrite Hg. masks. rewrite !(bits_small 2 (bits 0 2 _)), !(bits_small 4 (bits 0 4 _)) by uint.
  assert (∀ w x lo, bits 0 w (x ≫ lo) = bits lo w x) as E
    by (intros; unfold bits; by rewrite Z.shiftr_0_r).
  rewrite !E. split; [done|]. split; [done|].
  destruct (Z.testbit (nth 4 frame 0) 0), (hw_key info), (ctl_no_ack info), (ieee80211_is_mgmt _),
    (tx_is_injected dev info); by split_and!.
Qed.

(** Descriptor, header and padding end on a word. *)
Lemma header_aligned h : 0 ≤ h → ((32 + Z.to_nat h + Z.to_nat ((- h) mod 4)) mod 4 = 0)%nat.
Proof.
  intros Hh. apply Nat2Z.inj. rewrite Nat2Z.inj_mod.
  pose proof (Z.div_mod (- h) 4 ltac:(lia)). pose proof (Z.mod_pos_bound (- h) 4 ltac:(lia)).
  replace (Z.of_nat _) with ((8 - (- h) / 4) * 4) by lia. apply Z_mod_mult.
Qed.

Lemma frame_type dev frame info :
  TxParams.frm_type (frame_params dev frame info) = bits 2 2 (frame_fc frame).
Proof.
  pose proof (frame_params_fields dev frame info) as (Hfrm & _). rewrite <-Hfrm. symmetry.
  apply bits_small; [lia|]. unfold frame_params, tx_params.
  destruct (tx_select_rate _ _ _) as [[[? ?] ?] ?]. apply (bits_uint 2 2 (frame_fc frame)). lia.
Qed.

(** The fields of a transfer's descriptor. *)
Lemma tx_wire_fields dev frame info :
  Dev.wf dev → frame_ok frame info → Z.of_nat (length frame) ≤ 65000 →
  let fc := frame_fc frame in
  let is_mgmt := ieee80211_is_mgmt fc in
  let wire := tx_wire is_mgmt (frame_params dev frame info) frame in
  let d := decode_txd (take 32 wire) in
  let h := Z.to_nat (f_hdr_len d) in
  let pad := Z.to_nat (f_hdr_pad d) in
  let group := frame_group frame in
  h = frame_hdr_len frame ∧ ((32 + h + pad) mod 4 = 0)%nat ∧
  take h (drop 32 wire) = take h frame ∧
  take (length frame - h) (drop (32 + h + pad) wire) = drop h frame ∧
  f_tx_byte_cnt d = (if is_mgmt then Z.of_nat (32 + length frame + pad)
                     else Z.of_nat (length wire) - 4) ∧
  (length wire mod 4 = 0)%nat ∧
  (bits 2 2 fc = 2 → nth 20 wire 0 = 0x42 ∧ Z.testbit (nth 21 wire 0) 2 = true) ∧
  f_frm_type d = bits 2 2 fc ∧ f_sub_type d = bits 4 4 fc ∧ f_bc_mc_pkt d = Z.b2z group ∧
  f_protect_frm d = Z.b2z (hw_key info) ∧
  (if tx_is_injected dev info
   then f_no_ack d = Z.b2z (group || ctl_no_ack info) ∧ f_wlan_idx d = 0 ∧ f_q_idx d = 4
   else f_no_ack d = Z.b2z group ∧ f_wlan_idx d = Z.b2z (negb group) ∧
     f_q_idx d = if is_mgmt then 4 else 1).
Proof.
  intros Hdev Hf Hlen fc is_mgmt wire.
  destruct (frame_params_ok dev Hdev frame info Hf) as (Hwf & Hr & Hhl & Hpkt).
  destruct Hf as (HF & Hh & Hl & Hi). pose proof (hdrlen_range fc) as Hrange.
  set (params := frame_params dev frame info) in *. fold fc in Hhl.
  assert (Hhdr : Z.to_nat (TxParams.hdr_len params) = frame_hdr_len frame) by by rewrite Hhl.
  destruct (hdr_pad_len_even (TxParams.hdr_len params)) as [Hpad Hpb];
    [rewrite Hhl; unfold is_uint; lia|rewrite Hhl; apply hdrlen_even|].
  pose proof (length_tx_wire is_mgmt params frame ltac:(lia)) as Hwire. fold wire in Hwire.
  assert (Hd : decode_txd (take 32 wire) = decode_txd (tx_descriptor is_mgmt params
    (32 + length (tx_body (Z.to_nat (TxParams.hdr_len params))
      (Z.to_nat (hdr_pad_len (TxParams.hdr_len params))) frame)))).
  { unfold wire, tx_wire. by rewrite take_app_length' by by rewrite length_tx_descriptor. }
  rewrite Hd, decode_tx_descriptor, decode_txd_frame by (rewrite ?Hhl, ?Hpkt; done || lia || apply hdrlen_even).
  cbn [with_byte_cnt f_tx_byte_cnt f_hdr_len f_hdr_pad f_frm_type f_sub_type f_bc_mc_pkt f_protect_frm
    f_no_ack f_wlan_idx f_q_idx].
  rewrite <-Hpad. set (h := Z.to_nat (TxParams.hdr_len params)) in *.
  set (pad := Z.to_nat (hdr_pad_len (TxParams.hdr_len params))) in *.
  assert (Hparts : wire = tx_descriptor is_mgmt params (32 + length (tx_body h pad frame)) ++
    (take h frame ++ replicate pad 0 ++ drop h frame) ++
    replicate (tx_tail_pad (32 + length (tx_body h pad frame))) 0) by done.
  set (desc := tx_descriptor _ _ _) in *.
  assert (Hdl : length desc = 32%nat) by apply length_tx_descriptor.
  assert (Hmod : ((32 + h + pad) mod 4 = 0)%nat).
  { unfold h, pad. rewrite Hpad. apply header_aligned. rewrite Hhl. lia. }
  destruct (round4_bounds (Z.of_nat (32 + length frame + pad)) ltac:(lia)) as [Hr4 Hr4m].
  rewrite length_tx_body by lia.
  split; [done|]. split; [done|]. split; [|split; [|split; [|split; [|split]]]].
  - rewrite Hparts, drop_app_length' by done. rewrite <-app_assoc, take_app_length' by list_len. done.
  - rewrite Hparts. rewrite <-!app_assoc.
    rewrite (app_assoc desc), (app_assoc _ (replicate pad 0)), drop_app_length' by list_len.
    by rewrite take_app_length' by list_len.
  - rewrite Hwire, Hpkt. destruct is_mgmt; unfold wrap; pow2; [rewrite Z.mod_small; lia|].
    replace (32 + (length frame + pad))%nat with (32 + length frame + pad)%nat by lia.
    fold pad. rewrite Z.mod_small; lia.
  - apply Nat2Z.inj. rewrite Nat2Z.inj_mod, Hwire. fold pad. change (Z.of_nat 4) with 4.
    rewrite <-(Z.mod_add _ (-1)) by lia. by replace (round4 _ + 4 + -1 * 4) with
      (round4 (Z.of_nat (32 + length frame + pad))) by lia.
  - intros Ht. rewrite Hparts, !app_nth1 by lia. apply tx_sentinel_bytes. unfold params. by rewrite frame_type.
  - apply frame_params_fields.
Qed.

(** C14. What the hardware makes of a transfer: decoding the descriptor gives
    the header length and padding that lead to the frame's header and to its
    payload, on a multiple of four; the byte count is the transfer without its
    trailer on the data path and the exact length on the management path; and
    type, subtype, group bit, acknowledgement, station entry, queue and
    protection are those of the frame.  A data frame asks for a status report
    under the driver's sentinel. *)
Theorem tx_wire_decodes dev frame info :
  Dev.wf dev → frame_ok frame info → Z.of_nat (length frame) ≤ 65000 →
  let fc := frame_fc frame in
  let is_mgmt := ieee80211_is_mgmt fc in
  let wire := tx_wire is_mgmt (frame_params dev frame info) frame in
  let d := decode_txd (take 32 wire) in
  let h := Z.to_nat (f_hdr_len d) in
  let pad := Z.to_nat (f_hdr_pad d) in
  let group := frame_group frame in
  h = frame_hdr_len frame ∧ ((32 + h + pad) mod 4 = 0)%nat ∧
  take h (drop 32 wire) = take h frame ∧
  take (length frame - h) (drop (32 + h + pad) wire) = drop h frame ∧
  f_tx_byte_cnt d = (if is_mgmt then Z.of_nat (32 + length frame + pad)
                     else Z.of_nat (length wire) - 4) ∧
  (length wire mod 4 = 0)%nat ∧
  (bits 2 2 fc = 2 → nth 20 wire 0 = 0x42 ∧ Z.testbit (nth 21 wire 0) 2 = true) ∧
  f_frm_type d = bits 2 2 fc ∧ f_sub_type d = bits 4 4 fc ∧ f_bc_mc_pkt d = Z.b2z group ∧
  f_protect_frm d = Z.b2z (hw_key info) ∧
  (if tx_is_injected dev info
   then f_no_ack d = Z.b2z (group || ctl_no_ack info) ∧ f_wlan_idx d = 0 ∧ f_q_idx d = 4
   else f_no_ack d = Z.b2z group ∧ f_wlan_idx d = Z.b2z (negb group) ∧
     f_q_idx d = if is_mgmt then 4 else 1).
Proof. apply tx_wire_fields. Qed.

Lemma tx_meta_fields params :
  is_u16 (TxParams.pkt_len params) → is_u8 (TxParams.hdr_len params) →
  Z.land (tx_meta params) 0xffff = TxParams.pkt_len params ∧
  Z.land (tx_meta params ≫ 16) 0xff = TxParams.hdr_len params ∧
  Z.land (tx_meta params ≫ 24) 0xff = hdr_pad_len (TxParams.hdr_len params).
Proof.
  intros Hp Hh. pose proof (land_bound (4 - Z.land (TxParams.hdr_len params) 3) 3 ltac:(lia)) as Hpad.
  fold (hdr_pad_len (TxParams.hdr_len params)) in Hpad. unfold tx_meta.
  revert Hp Hh Hpad. generalize (TxParams.pkt_len params), (TxParams.hdr_len params).
  intros n h. generalize (hdr_pad_len h). intros pad Hn Hh Hpad.
  set (m := Z.lor _ _). rewrite (mask_bits m 0xffff 16) by done.
  change (Z.land (m ≫ 16) 0xff) with (bits 16 8 m). change (Z.land (m ≫ 24) 0xff) with (bits 24 8 m).
  unfold m. split_and!; by bitfield.
Qed.

(** Taking the padding out again. *)
Lemma tx_unpad h pad frame tl (hd : list Z) (room : list Z) :
  (h ≤ length frame)%nat →
  let n := (length frame + pad + length tl)%nat in
  ∃ rest, skb_move (Skb hd (tx_body h pad frame ++ tl) room) h (h + pad)
    (Z.of_nat n - Z.of_nat h - Z.of_nat pad) = Done (Skb hd (frame ++ rest) room) ∧
    length rest = (pad + length tl)%nat.
Proof.
  intros Hh n. unfold skb_move. rewrite (proj2 (Z.ltb_ge _ _)) by (unfold n; lia).
  replace (Z.to_nat _) with (n - h - pad)%nat by (unfold n; lia). cbn [sk_data].
  rewrite peek_slice_done by (unfold n; rewrite length_app, length_tx_body by done; lia).
  cbn [mbind outcome_bind]. unfold skb_store. cbn [sk_head sk_data sk_tail].
  assert (drop (h + pad) (tx_body h pad frame ++ tl) = drop h frame ++ tl) as ->.
  { unfold tx_body. rewrite <-!app_assoc, app_assoc. by rewrite drop_app_length' by list_len. }
  rewrite take_ge by (unfold n; list_len).
  rewrite decide_True by (unfold n; rewrite !length_app, length_tx_body by done; list_len).
  unfold tx_body. rewrite <-app_assoc, splice_skip by list_len.
  replace (h - length (take h frame))%nat with 0%nat by list_len.
  rewrite splice_all by list_len. eexists. split.
  - do 2 f_equal. rewrite <-!app_assoc, app_assoc, take_drop. done.
  - list_len.
Qed.

Lemma tx_unwrap_done u desc h pad frame tp :
  length desc = 32%nat → (h ≤ length frame)%nat → (0 < length frame)%nat →
  sk_data (tu_skb u) = desc ++ tx_body h pad frame ++ replicate tp 0 →
  Z.land (tu_meta u) 0xffff = Z.of_nat (length frame) →
  Z.land (tu_meta u ≫ 16) 0xff = Z.of_nat h → Z.land (tu_meta u ≫ 24) 0xff = Z.of_nat pad →
  ∃ skb, tx_unwrap u = Done skb ∧ sk_data skb = frame.
Proof.
  intros Hd Hh Hpos Hdata Hl Hhl Hpl. unfold tx_unwrap. rewrite Hl, Hhl, Hpl, !Nat2Z.id.
  destruct (decide (32 ≤ length (sk_data (tu_skb u)))%nat) as [_|Hn];
    [|exfalso; apply Hn; rewrite Hdata; list_len]. unfold skb_pull. cbn [sk_data].
  rewrite Hdata, drop_app_length' by done.
  set (hd := sk_head (tu_skb u) ++ _). set (room := sk_tail (tu_skb u)).
  rewrite !length_app, length_tx_body, length_replicate by done.
  assert (∃ rest, (if decide (0 < pad ∧ h + pad ≤ length frame + pad + tp)%nat
    then skb_move (Skb hd (tx_body h pad frame ++ replicate tp 0) room) h (h + pad)
      (Z.of_nat (length frame + pad + tp) - Z.of_nat h - Z.of_nat pad)
    else mret (Skb hd (tx_body h pad frame ++ replicate tp 0) room)) =
    Done (Skb hd (frame ++ rest) room)) as (rest & ->).
  { case_decide as Hp.
    - destruct (tx_unpad h pad frame (replicate tp 0) hd room Hh) as (rest & Hr & _).
      rewrite length_replicate in Hr. eauto.
    - replace pad with 0%nat by lia. unfold tx_body. simpl. rewrite take_drop. by eexists. }
  cbn [mbind outcome_bind]. eexists. split; [done|]. cbn [sk_data].
  case_decide; cbn [skb_trim sk_data]; [by rewrite take_app_length|].
  destruct rest; [by rewrite app_nil_r|]. exfalso. simpl in *. rewrite length_app in *. simpl in *. lia.
Qed.

(** A submitted transfer carries [frame], which asked for no acknowledgement
    if [no_ack]. *)
Definition in_flight (frame : list Z) (no_ack : bool) (u : tx_urb) : Prop :=
  ∃ dev info, Dev.wf dev ∧ frame_ok frame info ∧ ctl_no_ack info = no_ack ∧
    let params := frame_params dev frame info in
    sk_data (tu_skb u) = tx_wire (ieee80211_is_mgmt (frame_fc frame)) params frame ∧
    tu_meta u = tx_meta params ∧ tu_no_ack u = no_ack.

Lemma transmitted_in_flight dev frame info u e :
  Dev.wf dev → frame_ok frame info → transmitted dev frame info (Some u) e →
  in_flight frame (ctl_no_ack info) u.
Proof.
  intros Hdev Hf [(_ & Hdata & Hmeta & _ & Hack) _]. exists dev, info. by split_and!.
Qed.

(** What the completion of a transfer does with its frame. *)
Lemma tx_complete_emits frame no_ack u dev' status :
  in_flight frame no_ack u →
  emits (mt7603_tx_complete dev' u status) (λ r e,
    if Dev.running dev' && negb (ieee80211_is_beacon (frame_fc frame))
    then e = Eff [] 0 (-1) 0 ∧
      ∃ skb', r = Some ((status =? 0) && negb no_ack, skb') ∧ sk_data skb' = frame
    else e = Eff [] (-1) (-1) 0 ∧ r = None).
Proof.
  intros (dev & info & Hdev & Hf & <- & Hdata & Hmeta & Hack).
  destruct (frame_params_ok dev Hdev _ _ Hf) as (Hwf & _ & Hhl & Hpkt).
  destruct Hf as (HF & Hh & Hl & Hi).
  set (params := frame_params dev frame info) in *. pose proof (hdrlen_range (frame_fc frame)).
  assert (is_u16 (TxParams.pkt_len params) ∧ is_u8 (TxParams.hdr_len params)) as [Hu16 Hu8]
    by (unfold TxParams.wf in Hwf; tauto).
  destruct (tx_meta_fields params Hu16 Hu8) as (M1 & M2 & M3).
  pose proof (land_bound (4 - Z.land (TxParams.hdr_len params) 3) 3 ltac:(lia)) as Hpad.
  fold (hdr_pad_len (TxParams.hdr_len params)) in Hpad.
  assert (Hhf : Z.to_nat (TxParams.hdr_len params) = frame_hdr_len frame) by by rewrite Hhl.
  edestruct (tx_unwrap_done u) as (skb' & Hun & Hdata').
  { apply (length_tx_descriptor (ieee80211_is_mgmt (frame_fc frame)) params). }
  { instantiate (1 := frame). instantiate (1 := Z.to_nat (TxParams.hdr_len params)). lia. }
  { lia. }
  { rewrite Hdata. unfold tx_wire. reflexivity. }
  { by rewrite Hmeta, M1, Hpkt. }
  { rewrite Hmeta, M2. lia. }
  { rewrite Hmeta, M3. lia. }
  unfold mt7603_tx_complete. eapply emits_bind_call; [done|]. rewrite Hdata'.
  rewrite decide_True by lia.
  eapply (emits_bind_quiet _ _ (λ fc, fc = frame_fc frame)).
  { do 2 (eapply emits_bind_call; [apply peek_nth; lia|]). by io_ret. }
  intros fc ->. rewrite Hack. destruct (Dev.running dev' && _).
  - apply emits_bind_ret. io_bind free_urb_emits. intros _ e ->. io_ret. eauto.
  - eapply emits_bind; [io_bind kfree_emits; intros _ e ->; apply emits_ret|].
    { instantiate (1 := λ r e, r = None ∧ e = Eff [] (-1) 0 0). done. }
    cbn beta. intros r e [-> ->]. io_bind free_urb_emits. intros _ e ->. by io_ret.
Qed.

(** C13. Transmission round trip: when a submitted transfer completes, the
    driver takes the descriptor, the header padding and the trailer off again
    and hands mac80211 exactly the frame it was given, as acknowledged when
    the transfer succeeded and the frame asked for an acknowledgement; a
    beacon, or a completion after the device was stopped, frees the frame.
    The URB is released either way. *)
Theorem tx_complete_roundtrip K p dev stack skb info tr u tr' dev' status :
  kernel_ok K → Dev.wf dev → frame_ok (sk_data skb) info → length stack = 32%nat →
  mt7603_mac80211_tx K p dev stack skb info tr = Done (Some u, tr') →
  emits (mt7603_tx_complete dev' u status) (λ r e,
    if Dev.running dev' && negb (ieee80211_is_beacon (frame_fc (sk_data skb)))
    then e = Eff [] 0 (-1) 0 ∧
      ∃ skb', r = Some ((status =? 0) && negb (ctl_no_ack info), skb') ∧ sk_data skb' = sk_data skb
    else e = Eff [] (-1) (-1) 0 ∧ r = None).
Proof.
  intros HK Hdev Hf Hst Htx.
  destruct (mac80211_tx_emits K p dev HK Hdev stack skb info Hf Hst tr) as (r & new & Heq & Hs).
  rewrite Htx in Heq. injection Heq as <- _.
  by eapply tx_complete_emits, transmitted_in_flight.
Qed.
End tx_theorems.

(** ** Instances

    The header functions as include/linux/ieee80211.h has them, a QoS data
    frame and a beacon. *)

Definition linux_headers : Ieee80211 := {|
  ieee80211_hdrlen fc :=
    let type := bits 2 2 fc in
    if type =? 3 then 4
    else if type =? 2 then
      24 + (if bits 8 2 fc =? 3 then 6 else 0) +
      (if Z.testbit fc 7 then if Z.testbit fc 15 then 6 else 2 else 0)
    else if type =? 0 then if Z.testbit fc 15 then 28 else 24
    else if Z.land fc 0xe0 =? 0xc0 then 10 else 16;
  ieee80211_is_mgmt fc := bits 2 2 fc =? 0;
  ieee80211_is_beacon fc := Z.land fc 0xfc =? 0x80;
|}.

Lemma linux_headers_laws : @Ieee80211Laws linux_headers.
Proof.
  split; try done; intros fc; simpl; repeat case_match; done || lia.
Qed.

Definition sample_frame : list Z :=
  [0x88; 0x41; 0; 0; 2; 4; 6; 8; 10; 12] ++ replicate 16 7 ++ [1; 2; 3; 4; 5].
Definition sample_info : tx_info := {|
  ctl_injected := false; ctl_no_ack := false; hw_key := true; rate0_idx := 7; rc_mcs := true;
  rc_40_mhz_width := true; rc_short_gi := false; rc_use_short_preamble := false |}.
Definition running_dev : Dev.t := {|
  Dev.ap_vif := None; Dev.beacon_int := 100; Dev.beacon_enabled := false;
  Dev.mac_addr := [0x00; 0x0C; 0x43; 0x76; 0x03; 0x01];
  Dev.current_channel := 6; Dev.current_bw := 0; Dev.monitor_count := 0; Dev.filter_flags := 0;
  Dev.cmd_seq := 4; Dev.running := true; Dev.eeprom_valid := true; Dev.rssi_offset_2g := 0;
  Dev.eeprom := replicate MT7603_EEPROM_SIZE 0x11;
  Dev.rx_urbs := replicate MT7603_NUM_RX_URBS (RxUrb true true);
  Dev.cmd_urb := true; Dev.cmd_buf := true |}.
(** No tail room and too little head room: every reallocation happens. *)
Definition sample_skb : sk_buff := Skb (replicate 20 9) sample_frame [].

Lemma mac80211_tx_spec_witness :
  emits (@mt7603_mac80211_tx linux_headers good_kernel Release running_dev (replicate 32 0xAA)
      sample_skb sample_info) (λ r e,
    match r with
    | None => e = Eff [] (-1) 0 0
    | Some u => e = Eff [] 0 1 1 ∧ true = true ∧ tu_ep u = 0x05 ∧
        sk_data (tu_skb u) = @tx_wire false (@frame_params linux_headers running_dev sample_frame sample_info)
          sample_frame
    end).
Proof.
  apply (@mac80211_tx_spec linux_headers linux_headers_laws good_kernel Release running_dev
    (replicate 32 0xAA) sample_skb sample_info good_kernel_ok); [vm_decide| |done].
  split_and!; [vm_decide|vm_decide|done|vm_decide].
Defined.

Lemma tx_wire_decodes_witness :
  let wire := @tx_wire false (@frame_params linux_headers running_dev sample_frame sample_info) sample_frame in
  length wire = 72%nat ∧
  let d := decode_txd (take 32 wire) in
  f_tx_byte_cnt d = 68 ∧ f_q_idx d = 1 ∧ f_wlan_idx d = 1 ∧ f_protect_frm d = 1.
Proof.
  split; [by vm_compute|]. cbv zeta.
  pose proof (@tx_wire_decodes linux_headers linux_headers_laws running_dev sample_frame sample_info) as Ht.
  destruct Ht as (_ & _ & _ & _ & Hb & _ & _ & _ & _ & _ & Hp & Hq);
    [vm_decide|split_and!; [vm_decide|vm_decide|done|vm_decide]|done|].
  split; [exact Hb|]. split; [apply Hq|]. split; [apply Hq|exact Hp].
Defined.

(** The run of the sample, and the completion that follows. *)
Lemma tx_complete_roundtrip_witness :
  match @mt7603_mac80211_tx linux_headers good_kernel Release running_dev (replicate 32 0xAA)
      sample_skb sample_info [] with
  | Done (Some u, _) => emits (@mt7603_tx_complete linux_headers running_dev u 0) (λ r e,
      e = Eff [] 0 (-1) 0 ∧ ∃ skb', r = Some (true, skb') ∧ sk_data skb' = sample_frame)
  | _ => False
  end.
Proof.
  destruct (@mt7603_mac80211_tx linux_headers good_kernel Release running_dev (replicate 32 0xAA)
      sample_skb sample_info []) as [[[u|] tr']| |] eqn:E; [|by vm_compute in E..].
  apply (@tx_complete_roundtrip linux_headers linux_headers_laws good_kernel Release running_dev
    (replicate 32 0xAA) sample_skb sample_info [] u tr' running_dev 0 good_kernel_ok);
    [vm_decide|split_and!; [vm_decide|vm_decide|done|vm_decide]|done|done].
Defined.
