(* ===== verification/Beacon.v ===== *)
(** * Beaconing (mt7603_beacon_work in src/c/mac80211.c)

    The work item that sends a beacon every interval: it asks mac80211 for the
    template, stamps it, transmits it and schedules itself again, as long as
    the driver runs as an access point. *)

From S2P Require Import Prelude Rust Ffi Rx Tx Entry Usb Dev TxPath.
Local Open Scope Z_scope.
Local Open Scope rust_scope.

(** [put_unaligned_le64] *)
Definition u64_to_le_bytes (x : Z) : list Z :=
  [bits 0 8 x; bits 8 8 x; bits 16 8 x; bits 24 8 x;
   bits 32 8 x; bits 40 8 x; bits 48 8 x; bits 56 8 x].

Section beacon.
Context `{Ieee80211}.
Variable K : kernel.
Variable p : profile.

(** [beacon] is the template [ieee80211_beacon_get] gives for the access
    point's interface, with its transmit information; [us] the time since
    boot in microseconds. *)
Definition mt7603_beacon_work (stack : list Z) (dev : Dev.t) (beacon : option (sk_buff * tx_info))
    (us : Z) : io (option tx_urb) :=
  if negb (Dev.running dev) || negb (Dev.beacon_enabled dev) || bool_decide (Dev.ap_vif dev = None)
  then mret None else
  urb ← match beacon with
        | Some (skb, info) =>
            skb ← (if decide (32 ≤ length (sk_data skb))%nat
                   then call (skb_store skb 24 (u64_to_le_bytes us)) else mret skb);
            mt7603_mac80211_tx K p dev stack skb info
        | None => mret None
        end;
  let bint := if Dev.beacon_int dev =? 0 then 100 else Dev.beacon_int dev in
  call_kernel (ScheduleBeaconWork ((bint * 1024) `div` 1000)) ;;
  mret urb.
End beacon.

(** ** The frame sent *)

Definition beaconing (dev : Dev.t) : bool :=
  Dev.running dev && Dev.beacon_enabled dev && bool_decide (is_Some (Dev.ap_vif dev)).

(** The template with its timestamp. *)
Definition stamped (us : Z) (frame : list Z) : list Z :=
  if decide (32 ≤ length frame)%nat then splice 24 (u64_to_le_bytes us) frame else frame.

Lemma length_stamped us frame : length (stamped us frame) = length frame.
Proof. unfold stamped. case_decide; [|done]. by rewrite length_splice by (simpl; lia). Qed.

Lemma stamped_nth us frame k : (k < 24)%nat → nth k (stamped us frame) 0 = nth k frame 0.
Proof.
  intros Hk. unfold stamped. case_decide; [|done]. unfold splice.
  rewrite app_nth1 by (rewrite length_take; lia).
  by rewrite <-(take_drop 24 frame) at 2; rewrite app_nth1 by (rewrite length_take; lia).
Qed.

Section beacon_spec.
Context `{Ieee80211Laws} (K : kernel) (p : profile).

Lemma stamped_ok us frame info : frame_ok frame info → frame_ok (stamped us frame) info.
Proof.
  intros (HF & Hl & Hn & Hi). unfold frame_ok, frame_hdr_len, frame_fc in *.
  rewrite length_stamped, !stamped_nth by lia. split; [|done].
  unfold stamped. case_decide; [|done]. unfold splice. rewrite !Forall_app.
  split; [by apply Forall_take|]. split; [|by apply Forall_drop].
  unfold u64_to_le_bytes. repeat (apply Forall_cons; split; [apply bits_u8|]). by apply Forall_nil.
Qed.

(** A run of the work: nothing unless the driver beacons; otherwise what
    becomes of the stamped template, and then the next run. *)
Lemma beacon_work_runs stack dev beacon us tr :
  kernel_ok K → Dev.wf dev → length stack = 32%nat →
  (∀ skb info, beacon = Some (skb, info) → frame_ok (sk_data skb) info) →
  ∃ r tr', mt7603_beacon_work K p stack dev beacon us tr = Done (r, tr') ∧
    if beaconing dev then
      ∃ sent, tr' = tr ++ sent ++ [Other (ScheduleBeaconWork
          (((if Dev.beacon_int dev =? 0 then 100 else Dev.beacon_int dev) * 1024) `div` 1000))] ∧
        match beacon with
        | Some (skb, info) => transmitted dev (stamped us (sk_data skb)) info r (effect_of sent) ∧
            (Z.of_nat (length (sk_data skb)) + 32 ≤ 0xffff → forallb works sent = true → is_Some r)
        | None => r = None ∧ sent = []
        end
    else r = None ∧ tr' = tr.
Proof.
  intros HK Hdev Hst Hb. unfold mt7603_beacon_work, beaconing.
  destruct (Dev.running dev) eqn:Hrun; cbn [negb orb andb]; [|by exists None, tr].
  destruct (Dev.beacon_enabled dev); cbn [negb orb andb]; [|by exists None, tr].
  destruct (Dev.ap_vif dev) as [v|]; cbn [negb orb andb].
  2:{ by exists None, tr. }
  rewrite bool_decide_eq_false_2, bool_decide_eq_true_2 by (done || by eexists).
  unfold mbind at 1, io_bind at 1. destruct beacon as [[skb info]|].
  - assert (∃ skb', (if decide (32 ≤ length (sk_data skb))%nat then call (skb_store skb 24 (u64_to_le_bytes us))
      else mret skb) tr = Done (skb', tr) ∧ sk_data skb' = stamped us (sk_data skb)) as (skb' & Hskb & Hdata).
    { unfold stamped. case_decide; [|by exists skb]. unfold call, skb_store.
      rewrite decide_True by (simpl; lia). by eexists. }
    pose proof (stamped_ok us _ _ (Hb skb info eq_refl)) as Hf'. rewrite <-Hdata in Hf'.
    destruct (mac80211_tx_emits K p dev HK Hdev stack skb' info Hf' Hst tr) as (r & sent & Heq & Hsent).
    unfold mbind, io_bind. rewrite Hskb, Heq.
    eexists r, _. split; [reflexivity|]. exists sent. split; [by rewrite <-app_assoc|].
    rewrite <-Hdata. split; [done|]. intros Hlen Hw. rewrite <-(length_stamped us), <-Hdata in Hlen.
    destruct (mac80211_tx_clean K p dev Hdev stack skb' info Hf' Hst Hrun Hlen _ _ _ Heq) as (new & E & Hc).
    apply app_inv_head in E as ->. by apply Hc.
  - eexists None, _. split; [reflexivity|]. by exists [].
Qed.

Lemma stamped_fc us frame : frame_fc (stamped us frame) = frame_fc frame.
Proof. unfold frame_fc. by rewrite !stamped_nth by lia. Qed.
End beacon_spec.

(** ** Properties *)

Section beacon_theorems.
Context `{Ieee80211Laws}.

(** The beacon work, whatever the kernel answers.  While the driver runs
    as a beaconing access point it always schedules its next run, one interval
    ahead (100 time units when none is set) - also when there is no template
    or the transmission failed; the template is freed or exactly one transfer
    is in flight, on the management endpoint, which carries the template with
    bytes 24 to 31 replaced by the time and everything else unchanged.  As soon
    as the driver is stopped, beaconing disabled or the interface gone, it does
    nothing and does not come back. *)
Theorem beacon_work_spec K p stack dev beacon us tr :
  kernel_ok K → Dev.wf dev → length stack = 32%nat →
  (∀ skb info, beacon = Some (skb, info) →
     frame_ok (sk_data skb) info ∧ ieee80211_is_mgmt (frame_fc (sk_data skb)) = true) →
  ∃ r tr', mt7603_beacon_work K p stack dev beacon us tr = Done (r, tr') ∧
    if beaconing dev then
      ∃ sent, tr' = tr ++ sent ++ [Other (ScheduleBeaconWork
          (((if Dev.beacon_int dev =? 0 then 100 else Dev.beacon_int dev) * 1024) `div` 1000))] ∧
        match beacon, r with
        | Some (skb, info), Some u =>
            effect_of sent = Eff [] 0 1 1 ∧ tu_ep u = MT7603_MGMT_BULK_OUT ∧
            ∃ frame, sk_data (tu_skb u) = tx_wire true (frame_params dev frame info) frame ∧
              length frame = length (sk_data skb) ∧
              (∀ k, (k < 24 ∨ 32 ≤ k ∨ length frame < 32)%nat → frame !! k = sk_data skb !! k) ∧
              ((32 ≤ length frame)%nat → take 8 (drop 24 frame) = u64_to_le_bytes us)
        | Some _, None => effect_of sent = Eff [] (-1) 0 0
        | None, _ => r = None ∧ sent = []
        end
    else r = None ∧ tr' = tr.
Proof.
  intros HK Hdev Hst Hb.
  destruct (beacon_work_runs K p stack dev beacon us tr HK Hdev Hst) as (r & tr' & Heq & Hr).
  { intros skb info E. by apply Hb. }
  exists r, tr'. split; [exact Heq|]. destruct (beaconing dev); [|done].
  destruct Hr as (sent & -> & Hsent). exists sent. split; [done|].
  destruct beacon as [[skb info]|]; [|done]. destruct (Hb skb info eq_refl) as [_ Hmg].
  destruct Hsent as [[Hsent _] _]. rewrite stamped_fc, Hmg in Hsent. destruct r as [u|]; [|exact Hsent].
  destruct Hsent as (He & Hd & _ & Hep & _). split; [done|]. split; [done|].
  exists (stamped us (sk_data skb)). split; [exact Hd|]. rewrite length_stamped. split; [done|].
  unfold stamped. split.
  - intros k Hk. case_decide; [|done]. rewrite lookup_splice by (simpl; lia).
    rewrite decide_False; [done|]. simpl. lia.
  - intros Hl. rewrite decide_True by done. unfold splice.
    rewrite drop_app_ge, length_take, Nat.min_l by (rewrite ?length_take; lia).
    by rewrite Nat.sub_diag, drop_0, take_app_le, take_ge by (simpl; lia).
Qed.
End beacon_theorems.

(** A running access point, and a beacon template. *)
Definition ap_dev : Dev.t := Dev.set_ap_vif (Dev.set_beacon_enabled running_dev true) (Some 7%nat).
Definition beacon_template : list Z :=
  [0x80; 0; 0; 0] ++ replicate 6 0xff ++ [0; 12; 67; 1; 2; 3; 0; 12; 67; 1; 2; 3; 0; 0] ++
  replicate 8 0 ++ [100; 0; 1; 4; 0; 2; 104; 105].
Definition mgmt_info : tx_info := {|
  ctl_injected := false; ctl_no_ack := true; hw_key := false; rate0_idx := -1; rc_mcs := false;
  rc_40_mhz_width := false; rc_short_gi := false; rc_use_short_preamble := false |}.

Lemma beacon_work_spec_witness :
  ∃ r tr', @mt7603_beacon_work linux_headers good_kernel Release (replicate 32 0xAA) ap_dev
      (Some (Skb (replicate 64 0) beacon_template [], mgmt_info)) 0x0102030405060708 [] = Done (r, tr') ∧
    ∃ sent, tr' = sent ++ [Other (ScheduleBeaconWork 102)].
Proof.
  destruct (@beacon_work_spec linux_headers linux_headers_laws good_kernel Release (replicate 32 0xAA) ap_dev
    (Some (Skb (replicate 64 0) beacon_template [], mgmt_info)) 0x0102030405060708 [] good_kernel_ok
    ltac:(vm_decide) eq_refl) as (r & tr' & Heq & Hrest).
  - intros skb info [= <- <-]. split; [|done]. split_and!; [vm_decide|vm_decide|done|vm_decide].
  - exists r, tr'. split; [exact Heq|]. change (beaconing ap_dev) with true in Hrest.
    destruct Hrest as (sent & Htr & _). exists sent. rewrite Htr. reflexivity.
Defined.
