(* ===== verification/Work.v ===== *)
(** * The beacon work item (schedule_delayed_work in src/c/mac80211.c)

    Whether the work item is pending after a trace, and which callback
    schedules or cancels it: [sets o m] says that a run of [m] leaves the item
    pending or not as [o] says, or as it was when [o] is [None]. *)

From S2P Require Import Prelude Rust Ffi Mac Entry Usb Cmd Download Plan Dev Driver Keys Vif Ops.
Local Open Scope Z_scope.
Local Open Scope rust_scope.

Definition work_step (pending : bool) (e : event) : bool :=
  match e with
  | Other (ScheduleBeaconWork _) => true
  | Other CancelBeaconWork => false
  | _ => pending
  end.
Definition work (pending : bool) (tr : trace) : bool := foldl work_step pending tr.

Lemma work_app b tr1 tr2 : work b (tr1 ++ tr2) = work (work b tr1) tr2.
Proof. apply foldl_app. Qed.

Definition sets {A} (o : option bool) (m : io A) : Prop :=
  ∀ tr a tr', m tr = Done (a, tr') → ∃ new, tr' = tr ++ new ∧ ∀ b, work b new = default b o.
Abbreviation idle := (sets None).

(** ** Rules *)

Lemma sets_log {A} (a : A) e o : (∀ b, work_step b e = default b o) → sets o (log a e).
Proof. intros He tr a' tr' [= <- <-]. by exists [e]. Qed.

Lemma idle_ret {A} (a : A) : idle (mret a).
Proof. intros tr a' tr' [= <- <-]. exists []. by rewrite app_nil_r. Qed.

Lemma idle_call {A} (m : outcome A) : idle (call m).
Proof.
  intros tr a tr' Heq. unfold call in Heq. destruct m; [|done..].
  injection Heq as <- <-. exists []. by rewrite app_nil_r.
Qed.

Lemma idle_undefined {A} : idle (undefined (A := A)).
Proof. by intros ???. Qed.

(** The last one that looks at the item decides. *)
Lemma sets_bind {A B} (m : io A) (f : A → io B) o1 o2 o :
  sets o1 m → (∀ a, sets o2 (f a)) → (∀ b : bool, default b o = default (default b o1) o2) →
  sets o (m ≫= f).
Proof.
  intros Hm Hf Ho tr b tr'' Heq. unfold mbind, io_bind in Heq.
  destruct (m tr) as [[a tr']| |] eqn:E; [|done..].
  destruct (Hm _ _ _ E) as (n1 & -> & H1). destruct (Hf _ _ _ _ Heq) as (n2 & -> & H2).
  exists (n1 ++ n2). split; [by rewrite app_assoc|]. intros c. by rewrite work_app, H2, H1, Ho.
Qed.

Lemma idle_bind {A B} o (m : io A) (f : A → io B) : idle m → (∀ a, sets o (f a)) → sets o (m ≫= f).
Proof. intros. by eapply sets_bind. Qed.
Lemma bind_idle {A B} o (m : io A) (f : A → io B) : sets o m → (∀ a, idle (f a)) → sets o (m ≫= f).
Proof. intros. by eapply sets_bind. Qed.

(** A first part that ends in a known value. *)
Lemma sets_bind_known {A B C} o (x : io C) (a : A) (f : A → io B) :
  idle x → sets o (f a) → sets o ((x ;; mret a) ≫= f).
Proof.
  intros Hx Hf tr b tr' Heq. apply (idle_bind o x (λ _, f a) Hx (λ _, Hf) tr b tr').
  unfold mbind, io_bind in *. by destruct (x tr) as [[c tr1]| |].
Qed.

(** ** Which events a function puts on the trace

    [logs P m]: every event of a run of [m] is in [P].  Most functions put
    [plain] events on the trace; the ones that start and stop the receive rings
    or the work item do not. *)

Definition scheduling (e : event) : bool :=
  match e with Other (ScheduleBeaconWork _) | Other CancelBeaconWork => true | _ => false end.
Definition is_ring_ep (ep : Z) : bool := (ep =? MT7603_DATA_BULK_IN) || (ep =? MT7603_CMD_RSP_BULK_IN).
Definition on_ring (e : event) : bool :=
  match e with SubmitUrb ep _ _ | KillUrb ep => is_ring_ep ep | _ => false end.
Definition unscheduled (e : event) : bool := negb (scheduling e).
Definition off_ring (e : event) : bool := negb (on_ring e).
Definition plain (e : event) : bool := unscheduled e && off_ring e.

Definition logs (P : event → bool) {A} (m : io A) : Prop :=
  ∀ tr a tr', m tr = Done (a, tr') → ∃ new, tr' = tr ++ new ∧ forallb P new = true.

(** A set of events that holds the plain ones. *)
Definition covers (P : event → bool) : Prop := ∀ e, plain e = true → P e = true.

Lemma covers_plain : covers plain.
Proof. by intros e. Qed.
Lemma covers_unscheduled : covers unscheduled.
Proof. by intros e [? ?]%andb_prop. Qed.
Lemma covers_off_ring : covers off_ring.
Proof. by intros e [? ?]%andb_prop. Qed.

Section rules.
Context (P : event → bool).

Lemma logs_log {A} (a : A) e : P e = true → logs P (log a e).
Proof. intros He tr a' tr' [= <- <-]. exists [e]. cbn. by rewrite He. Qed.
Lemma logs_ret {A} (a : A) : logs P (mret a).
Proof. intros tr a' tr' [= <- <-]. exists []. by rewrite app_nil_r. Qed.
Lemma logs_call {A} (m : outcome A) : logs P (call m).
Proof.
  intros tr a tr' Heq. unfold call in Heq. destruct m; [|done..].
  injection Heq as <- <-. exists []. by rewrite app_nil_r.
Qed.
Lemma logs_undefined {A} : logs P (undefined (A := A)).
Proof. by intros ???. Qed.
Lemma logs_bind {A B} (m : io A) (f : A → io B) : logs P m → (∀ a, logs P (f a)) → logs P (m ≫= f).
Proof.
  intros Hm Hf tr b tr'' Heq. unfold mbind, io_bind in Heq.
  destruct (m tr) as [[a tr']| |] eqn:E; [|done..].
  destruct (Hm _ _ _ E) as (n1 & -> & H1). destruct (Hf _ _ _ _ Heq) as (n2 & -> & H2).
  exists (n1 ++ n2). split; [by rewrite app_assoc|]. by rewrite forallb_app, H1, H2.
Qed.
End rules.

Lemma logs_unscheduled_idle {A} (m : io A) : logs unscheduled m → idle m.
Proof.
  intros Hm tr a tr' Heq. destruct (Hm _ _ _ Heq) as (new & -> & Hnew). exists new. split; [done|].
  intros b. cbn [default]. clear -Hnew. revert b. induction new as [|e new IH]; intros b; [done|].
  cbn [forallb] in Hnew. apply andb_prop in Hnew as [He Hnew]. unfold work. cbn [foldl].
  rewrite <-(IH Hnew b) at 2. f_equal. by destruct e as [| | | | | | | | | | |[]].
Qed.

Create HintDb logs.
#[export] Hint Resolve covers_plain covers_unscheduled covers_off_ring : logs.
#[export] Hint Resolve logs_ret logs_call logs_undefined : logs.
Create HintDb idle.
#[export] Hint Resolve idle_ret idle_call idle_undefined : idle.
#[export] Hint Extern 5 (sets None _) => (apply logs_unscheduled_idle; solve [eauto 3 with logs]) : idle.

(** Go through a function: its binds and branches, hints at the leaves. *)
Ltac logs :=
  repeat lazymatch goal with
    | |- logs _ (_ ≫= _) => apply logs_bind; [|intros ?]
    | |- logs _ (match ?x with _ => _ end) => destruct x
    | |- logs _ (log _ _) => apply logs_log; by eauto with logs
    | |- logs _ _ => solve [eauto with logs]
    end.
Ltac idle :=
  repeat lazymatch goal with
    | |- sets None (_ ≫= _) => apply idle_bind; [|intros ?]
    | |- sets None (match ?x with _ => _ end) => destruct x
    | |- sets None (log _ _) => by apply sets_log
    | |- sets None _ => solve [eauto with idle]
    end.

Section logs.
Context (K : kernel) (p : profile) (P : event → bool) (HP : covers P).

#[local] Hint Extern 1 (P _ = true) => (apply HP; reflexivity) : logs.
Lemma kmalloc_logs n : logs P (kmalloc K n).
Proof. intros tr a tr' [= <- <-]. eexists [_]. split; [done|]. cbn. by rewrite HP. Qed.
Lemma control_in_logs q v i : logs P (usb_control_in K q v i).
Proof.
  intros tr a tr' Heq. unfold usb_control_in in Heq. destruct (k_control_in _ _ _ _ _).
  injection Heq as <- <-. eexists [_]. split; [done|]. cbn. by rewrite HP.
Qed.
Lemma control_out_logs r : logs P (usb_control_out K r).
Proof. intros tr a tr' [= <- <-]. eexists [_]. split; [done|]. cbn. by rewrite HP. Qed.
Lemma bulk_logs ep d : logs P (usb_bulk_msg K ep d).
Proof. intros tr a tr' [= <- <-]. eexists [_]. split; [done|]. cbn. by rewrite HP. Qed.
Lemma alloc_urb_logs : logs P (usb_alloc_urb K).
Proof. intros tr a tr' [= <- <-]. eexists [_]. split; [done|]. cbn. by rewrite HP. Qed.
Lemma submit_urb_logs ep n : (∀ ret, P (SubmitUrb ep n ret) = true) → logs P (usb_submit_urb K ep n).
Proof. intros He tr a tr' [= <- <-]. eexists [_]. split; [done|]. cbn. by rewrite He. Qed.
Lemma kfree_logs : logs P kfree.
Proof. apply logs_log. by apply HP. Qed.
Lemma free_urb_logs : logs P usb_free_urb.
Proof. apply logs_log. by apply HP. Qed.
Hint Resolve kfree_logs free_urb_logs kmalloc_logs control_in_logs control_out_logs bulk_logs alloc_urb_logs : logs.

Lemma read_reg_logs a v : logs P (mt7603_usb_read_reg K p a v).
Proof. unfold mt7603_usb_read_reg, kfree. logs. Qed.
Lemma write_reg_logs a v : logs P (mt7603_usb_write_reg K p a v).
Proof. unfold mt7603_usb_write_reg, kfree. logs. Qed.
Hint Resolve read_reg_logs write_reg_logs : logs.

Lemma execute_logs ops : logs P (mt7603_execute_reg_ops K p ops).
Proof. induction ops; cbn [mt7603_execute_reg_ops]; logs. Qed.
Lemma send_cmd_logs f n : logs P (mt7603_usb_send_cmd K f n).
Proof. unfold mt7603_usb_send_cmd, kfree. logs. Qed.
Lemma enable_udma_logs b : logs P (mt7603_usb_enable_udma K b).
Proof. unfold mt7603_usb_enable_udma, mt7603_usb_cfg_read, mt7603_usb_cfg_write, kfree. logs. Qed.
Lemma modify_logs a f : logs P (modify_reg K p a f).
Proof. unfold modify_reg. logs. Qed.
Hint Resolve execute_logs send_cmd_logs enable_udma_logs modify_logs : logs.

Lemma send_built_logs n f cmd : logs P (send_built K n f cmd).
Proof. unfold send_built, call_builder. logs. Qed.
Lemma run_sequence_logs n f ops : logs P (run_sequence K p n f ops).
Proof. unfold run_sequence. logs. Qed.
Hint Resolve send_built_logs run_sequence_logs : logs.

Lemma set_channel_logs stack d ch bw c : logs P (mt7603_set_channel_ext K p stack d ch bw c).
Proof. unfold mt7603_set_channel_ext, call_kernel. cbv zeta. logs. Qed.
Hint Resolve set_channel_logs : logs.

Lemma config_logs stack d cd ch : logs P (mt7603_mac80211_config K p stack d cd ch).
Proof. unfold mt7603_mac80211_config, mt7603_set_chandef. logs. Qed.
Lemma tune_logs stack d ch : logs P (tune K p stack d ch).
Proof. unfold tune, mt7603_set_channel. logs. Qed.
Lemma start_configure_logs stack ops d : logs P (start_configure K p stack ops d).
Proof. unfold start_configure, mt7603_set_channel, kfree. cbv zeta. logs. Qed.
Lemma write_bssid_logs a : logs P (write_bssid K p a).
Proof. unfold write_bssid. logs. Qed.
Lemma clear_entry_logs : logs P (clear_entry K p).
Proof. unfold clear_entry. logs. Qed.
Lemma clear_bssid_logs : logs P (clear_bssid K p).
Proof. unfold clear_bssid. logs. Qed.
Lemma apply_wtbl_logs ops a : logs P (apply_wtbl K p ops a).
Proof. unfold apply_wtbl. logs. Qed.
Hint Resolve tune_logs write_bssid_logs clear_entry_logs clear_bssid_logs apply_wtbl_logs : logs.

Lemma add_interface_logs ops d v : logs P (mt7603_mac80211_add_interface K p ops d v).
Proof. unfold mt7603_mac80211_add_interface. cbv zeta. logs. Qed.
Lemma configure_filter_logs ops d t f : logs P (mt7603_mac80211_configure_filter K p ops d t f).
Proof. unfold mt7603_mac80211_configure_filter. cbv zeta. logs. Qed.
Lemma sta_add_logs stack ops d v a e : logs P (mt7603_mac80211_sta_add K p stack ops d v a e).
Proof. unfold mt7603_mac80211_sta_add. cbv zeta. logs. Qed.
Lemma sta_remove_logs v : logs P (mt7603_mac80211_sta_remove K p v).
Proof. unfold mt7603_mac80211_sta_remove. logs. Qed.
Lemma bss_own_vif_logs ops d v : logs P (bss_own_vif K p ops d v).
Proof. unfold bss_own_vif, single_bssid. cbv zeta. logs. Qed.
Lemma bss_join_logs stack ops d v info a e : logs P (bss_join K p stack ops d v info a e).
Proof. unfold bss_join, single_bssid. logs. Qed.
Lemma set_key_logs set v sta key : logs P (mt7603_mac80211_set_key K p set v sta key).
Proof.
  assert (∀ n i b k, logs P (write_key_words K p n i b k)) as Hw.
  { intros n. induction n as [|n IH]; intros i b k; cbn [write_key_words]; cbv zeta; logs. }
  unfold mt7603_mac80211_set_key. cbv zeta. logs.
Qed.
Lemma ampdu_logs ops v sta act tid n : logs P (mt7603_mac80211_ampdu_action K p ops v sta act tid n).
Proof. unfold mt7603_mac80211_ampdu_action, call_kernel. cbv zeta. logs. Qed.
End logs.
#[export] Hint Resolve kfree_logs free_urb_logs kmalloc_logs control_in_logs control_out_logs bulk_logs alloc_urb_logs
  read_reg_logs write_reg_logs execute_logs send_cmd_logs enable_udma_logs modify_logs
  send_built_logs run_sequence_logs set_channel_logs config_logs tune_logs start_configure_logs
  write_bssid_logs clear_entry_logs clear_bssid_logs apply_wtbl_logs add_interface_logs
  configure_filter_logs sta_add_logs sta_remove_logs bss_own_vif_logs bss_join_logs set_key_logs
  ampdu_logs : logs.

Section rings_idle.
Context (K : kernel) (p : profile).
#[local] Hint Extern 1 (unscheduled _ = true) => reflexivity : logs.

Lemma submit_urb_unscheduled ep n : logs unscheduled (usb_submit_urb K ep n).
Proof. by apply submit_urb_logs. Qed.
Hint Resolve submit_urb_unscheduled : logs.
Lemma start_rx_unscheduled d : logs unscheduled (mt7603_start_rx K d).
Proof.
  assert (∀ urbs, logs unscheduled (start_rx_urbs K urbs)) as Hu
    by (intros urbs; induction urbs; cbn [start_rx_urbs]; logs).
  unfold mt7603_start_rx, call_kernel. logs.
Qed.
Lemma stop_rx_unscheduled d : logs unscheduled (mt7603_stop_rx d).
Proof.
  assert (∀ urbs, logs unscheduled (stop_rx_urbs urbs)) as Hu.
  { intros urbs. induction urbs; cbn [stop_rx_urbs]; unfold usb_kill_urb, usb_free_urb, kfree; logs. }
  unfold mt7603_stop_rx, usb_kill_urb, usb_free_urb, kfree. logs.
Qed.
Hint Resolve start_rx_unscheduled : logs.
Lemma start_unscheduled stack ops d : logs unscheduled (mt7603_mac80211_start K p stack ops d).
Proof. unfold mt7603_mac80211_start, kfree. cbv zeta. logs. Qed.
End rings_idle.
#[export] Hint Resolve start_rx_unscheduled stop_rx_unscheduled start_unscheduled : logs.

(** ** What the callbacks do to it *)

Definition any_beacon (changed : bss_changes) : bool :=
  ch_beacon changed || ch_beacon_enabled changed || ch_beacon_int changed.

(** Whether a callback schedules the item, cancels it, or neither. *)
Definition work_of (ap : option nat) (cb : callback) : option bool :=
  match cb with
  | CbStop | CbUnregister => Some false
  | CbRemoveInterface v => if bool_decide (ap = Some (vif_id v)) then Some false else None
  | CbBssInfoChanged _ info changed _ =>
      if any_beacon changed then
        if from_option bi_enable_beacon false info then Some true
        else if ch_beacon_enabled changed then Some false else None
      else None
  | _ => None
  end.

Section callbacks.
Context (K : kernel) (p : profile) (stack : nat → list Z) (ops : nat → list RegWriteOp).

Lemma stop_work d : sets (Some false) (mt7603_mac80211_stop d).
Proof.
  unfold mt7603_mac80211_stop, call_kernel. cbv zeta.
  apply bind_idle; [by apply sets_log|]. intros _. idle.
Qed.

Lemma remove_work o4 d v :
  sets (work_of (Dev.ap_vif d) (CbRemoveInterface v)) (mt7603_mac80211_remove_interface K p o4 d v).
Proof.
  unfold mt7603_mac80211_remove_interface, call_kernel, work_of. cbv zeta.
  set (d1 := if 0 <? _ then _ else _).
  assert (Dev.ap_vif d1 = Dev.ap_vif d) as E by (unfold d1; by destruct (0 <? _)).
  assert (∀ d', Dev.ap_vif d' = Dev.ap_vif d →
    sets (if bool_decide (Dev.ap_vif d = Some (vif_id v)) then Some false else None)
      (if bool_decide (Dev.ap_vif d' = Some (vif_id v)) then
         log tt (Other CancelBeaconWork) ;; mret (Dev.set_ap_vif (Dev.set_beacon_enabled d' false) None)
       else mret d')) as Hrest.
  { intros d' ->. destruct (bool_decide _); [|apply idle_ret].
    apply bind_idle; [by apply sets_log|]. intros _. apply idle_ret. }
  destruct (bool_decide (vif_type v = MONITOR)).
  - apply sets_bind_known; [|by apply Hrest]. idle.
  - by apply Hrest.
Qed.

Lemma bss_beacon_work o32 d v info changed :
  sets (if from_option bi_enable_beacon false info then Some true
        else if ch_beacon_enabled changed then Some false else None)
    (bss_beacon K p o32 d v info changed).
Proof.
  unfold bss_beacon, call_kernel. cbv zeta.
  apply idle_bind; [idle|]. intros [ops1 d1].
  destruct (from_option _ _ _); [|destruct (ch_beacon_enabled changed); [|apply idle_ret]].
  - apply idle_bind; [idle|]. intros ?.
    apply bind_idle; [by apply sets_log|]. intros _. apply idle_ret.
  - apply bind_idle; [by apply sets_log|]. intros _. idle.
Qed.

Lemma bss_info_changed_work st o32 d v info changed entry ap :
  sets (work_of ap (CbBssInfoChanged v info changed entry))
    (mt7603_mac80211_bss_info_changed K p st o32 d v info changed entry).
Proof.
  unfold mt7603_mac80211_bss_info_changed, work_of. fold (any_beacon changed).
  apply idle_bind; [idle|]. intros d1. apply bind_idle.
  - destruct (any_beacon changed); [apply bss_beacon_work|apply idle_ret].
  - intros [ops1 d2]. idle.
Qed.

Lemma run_callback_work d cb : sets (work_of (Dev.ap_vif d) cb) (run_callback K p stack ops d cb).
Proof.
  destruct cb; cbn [run_callback].
  - cbn [work_of]. idle.
  - apply bind_idle; [apply stop_work|]. intros ?. apply idle_ret.
  - cbn [work_of]. idle.
  - apply bind_idle; [apply remove_work|]. intros ?. apply idle_ret.
  - cbn [work_of]. idle.
  - cbn [work_of]. idle.
  - apply bind_idle; [apply bss_info_changed_work|]. intros ?. apply idle_ret.
  - cbn [work_of]. idle.
  - cbn [work_of]. idle.
  - cbn [work_of]. idle.
  - cbn [work_of]. idle.
  - apply bind_idle; [apply stop_work|]. intros ?. apply idle_ret.
Qed.
End callbacks.
