(* ===== verification/Traffic.v ===== *)
(** * Traffic: callbacks, transmissions, completions and the beacon work

    The driver is entered from several sides: mac80211's callbacks and
    transmissions, the completions of the transfers in flight, and the beacon
    work item.  A world is the device record with the transfers in flight and
    the state of the work item; [step] is the relation of one entry, and the
    invariants are proved by induction over the worlds that can be reached, in
    any order of entries.  An entry is atomic. *)

From S2P Require Import Prelude Rust Ffi Mac Entry Usb Cmd Download Plan Dev Driver Keys Vif Ops RxPath TxPath Beacon Work.
Local Open Scope Z_scope.
Local Open Scope rust_scope.

(** A transfer in flight, with the frame it was made from, for the proofs. *)
Record flight := Flight { fl_urb : tx_urb; fl_frame : list Z; fl_no_ack : bool }.

(** [w_pending]: the beacon work is scheduled.  The histories: the frames the
    driver was handed, those it gave back with a status, those it freed. *)
Record world := World {
  w_dev : Dev.t; w_flight : list flight; w_pending : bool;
  w_handed : list (list Z); w_returned : list (list Z); w_freed : list (list Z);
  w_trace : trace
}.

(** What enters the driver. *)
Inductive input :=
| InCallback (cb : callback)
| InTx (skb : sk_buff) (info : tx_info)
| InTxComplete (i : nat) (status : Z)
| InBeaconWork (beacon : option (sk_buff * tx_info)) (us : Z).

(** The frame of a completion, given back or freed. *)
Definition reported (r : option (bool * sk_buff)) : list (list Z) :=
  match r with Some (_, skb) => [sk_data skb] | None => [] end.
Definition dropped (frame : list Z) (r : option (bool * sk_buff)) : list (list Z) :=
  match r with Some _ => [] | None => [frame] end.

(** A frame was handed over; [r] is its transfer, if it was submitted. *)
Definition submit (w : world) (frame : list Z) (no_ack : bool) (r : option tx_urb) (pending : bool)
    (new : trace) : world :=
  World (w_dev w)
    (w_flight w ++ match r with Some u => [Flight u frame no_ack] | None => [] end) pending
    (w_handed w ++ [frame]) (w_returned w)
    (w_freed w ++ match r with Some _ => [] | None => [frame] end) (w_trace w ++ new).

Section traffic.
Context `{Ieee80211}.
Variable K : kernel.
Variable p : profile.
Variable stack : nat → list Z.
Variable ops : nat → list RegWriteOp.

(** [usb_kill_anchored_urbs] completes every transfer in flight. *)
Fixpoint kill_anchored (dev : Dev.t) (fl : list flight) : io (list (option (bool * sk_buff))) :=
  match fl with
  | [] => mret []
  | f :: fl =>
      r ← mt7603_tx_complete dev (fl_urb f) ENOENT; rs ← kill_anchored dev fl; mret (r :: rs)
  end.

Inductive step (w : world) : input → world → Prop :=
| StepCallback cb ret dev' new :
    stops cb = false →
    run_callback K p stack ops (w_dev w) cb (w_trace w) = Done ((ret, dev'), w_trace w ++ new) →
    step w (InCallback cb)
      (World dev' (w_flight w) (work (w_pending w) new) (w_handed w) (w_returned w) (w_freed w)
        (w_trace w ++ new))
| StepStop cb ret dev' new fl rs new' :
    stops cb = true →
    run_callback K p stack ops (w_dev w) cb (w_trace w) = Done ((ret, dev'), w_trace w ++ new) →
    fl ≡ₚ w_flight w →
    kill_anchored dev' fl (w_trace w ++ new) = Done (rs, (w_trace w ++ new) ++ new') →
    step w (InCallback cb)
      (World dev' [] (work (w_pending w) new) (w_handed w)
        (w_returned w ++ concat (reported <$> rs))
        (w_freed w ++ concat (zip_with dropped (fl_frame <$> fl) rs)) ((w_trace w ++ new) ++ new'))
| StepTx skb info r new :
    mt7603_mac80211_tx K p (w_dev w) (stack 32) skb info (w_trace w) = Done (r, w_trace w ++ new) →
    step w (InTx skb info) (submit w (sk_data skb) (ctl_no_ack info) r (w_pending w) new)
| StepTxComplete l1 f l2 status r new :
    w_flight w = l1 ++ f :: l2 →
    mt7603_tx_complete (w_dev w) (fl_urb f) status (w_trace w) = Done (r, w_trace w ++ new) →
    step w (InTxComplete (length l1) status)
      (World (w_dev w) (l1 ++ l2) (w_pending w) (w_handed w) (w_returned w ++ reported r)
        (w_freed w ++ dropped (fl_frame f) r) (w_trace w ++ new))
| StepBeaconWork beacon us r new :
    mt7603_beacon_work K p (stack 32) (w_dev w) beacon us (w_trace w) = Done (r, w_trace w ++ new) →
    step w (InBeaconWork beacon us)
      (match (if beaconing (w_dev w) then beacon else None) with
       | Some (skb, info) =>
           submit w (stamped us (sk_data skb)) (ctl_no_ack info) r (work false new) new
       | None => World (w_dev w) (w_flight w) (work false new) (w_handed w) (w_returned w) (w_freed w)
           (w_trace w ++ new)
       end).

(** What may enter; [allowed] restricts the callbacks further. *)
Definition enabled (allowed : Dev.t → callback → Prop) (w : world) (i : input) : Prop :=
  match i with
  | InCallback cb => callback_wf cb ∧ allowed (w_dev w) cb
  | InTx skb info => frame_ok (sk_data skb) info
  | InTxComplete i _ => (i < length (w_flight w))%nat
  | InBeaconWork beacon _ => w_pending w = true ∧
      ∀ skb info, beacon = Some (skb, info) → frame_ok (sk_data skb) info
  end.

Definition move (allowed : Dev.t → callback → Prop) (w w' : world) : Prop :=
  ∃ i, enabled allowed w i ∧ step w i w'.

(** The world of a device that was just registered. *)
Definition beginning (d : Dev.t) : world := World d [] false [] [] [] [].
Definition reachable (allowed : Dev.t → callback → Prop) (d : Dev.t) : world → Prop :=
  rtc (move allowed) (beginning d).
End traffic.

(** ** The books

    Every frame handed to the driver is in flight, was given back, or was
    freed, exactly once; the memory taken is what the rings hold, less the
    frames freed, which mac80211 allocated; the URBs are those of the rings
    and of the transfers in flight; and a stopped driver has none in flight. *)
Record accounts `{Ieee80211} (w : world) : Prop := {
  ac_inv : driver_inv (w_dev w);
  ac_flight : Forall (λ f, in_flight (fl_frame f) (fl_no_ack f) (fl_urb f)) (w_flight w);
  ac_frames : w_handed w ≡ₚ (fl_frame <$> w_flight w) ++ w_returned w ++ w_freed w;
  ac_mem : mem (effect_of (w_trace w)) = ring_mem (w_dev w) - Z.of_nat (length (w_freed w));
  ac_urbs : urbs (effect_of (w_trace w)) = ring_urbs (w_dev w) + Z.of_nat (length (w_flight w));
  ac_stopped : Dev.running (w_dev w) = false → w_flight w = [];
}.

Lemma emits_run {A} (m : io A) P tr a new :
  emits m P → m tr = Done (a, tr ++ new) → P a (effect_of new).
Proof.
  intros Hm Heq. destruct (Hm tr) as (a' & new' & Heq' & HP). rewrite Heq in Heq'.
  injection Heq' as <- Hn. by apply app_inv_head in Hn as <-.
Qed.

Section books.
Context `{Ieee80211Laws} (K : kernel) (p : profile).
Context (stack : nat → list Z) (ops : nat → list RegWriteOp).
Context (HK : kernel_ok K) (Hstack : ∀ n, length (stack n) = n) (Hops : ∀ n, length (ops n) = n).
Implicit Types w : world.

Lemma kill_anchored_emits dev fl :
  Dev.running dev = false →
  Forall (λ f, in_flight (fl_frame f) (fl_no_ack f) (fl_urb f)) fl →
  emits (kill_anchored dev fl) (λ rs e, rs = replicate (length fl) None ∧
    mem e = - Z.of_nat (length fl) ∧ urbs e = - Z.of_nat (length fl)).
Proof.
  intros Hr. induction 1 as [|f fl Hf _ IH]; cbn [kill_anchored]; [by apply emits_ret|].
  io_bind (tx_complete_emits _ _ _ dev ENOENT Hf). rewrite Hr. cbn [andb]. intros r e [-> ->].
  io_bind IH. intros rs e (-> & Hm & Hu). io_ret. split; [done|]. simpl. lia.
Qed.

Lemma dropped_all (frames : list (list Z)) :
  concat (zip_with dropped frames (replicate (length frames) None)) = frames.
Proof. induction frames as [|f frames IH]; [done|]. simpl. by rewrite IH. Qed.
Lemma reported_none n : concat (reported <$> replicate n None) = [].
Proof. by induction n. Qed.

(** Only a start sets the running flag. *)
Lemma soft_step_running s cb :
  stops cb = false → as_running (soft_step s cb) = false → as_running s = false.
Proof.
  destruct cb; cbn [stops soft_step]; try done.
  unfold soft_bss. by destruct (_ || _).
Qed.

Lemma soft_step_runs s cb :
  cb ≠ CbStart → as_running (soft_step s cb) = true → as_running s = true.
Proof.
  destruct cb; cbn [soft_step]; try done.
  unfold soft_bss. by destruct (_ || _).
Qed.

Lemma submit_accounts w frame no_ack r pending new dev info :
  accounts w → Dev.wf dev → frame_ok frame info → ctl_no_ack info = no_ack →
  dev = w_dev w → transmitted dev frame info r (effect_of new) →
  accounts (submit w frame no_ack r pending new).
Proof.
  intros [Hi Hf Hfr Hm Hu Hs] Hwf Hok <- -> Ht. pose proof Ht as [Hsent Hrun].
  destruct r as [u|]; (split; cbn [submit w_dev w_flight w_handed w_returned w_freed w_trace]); try done.
  - apply Forall_app. split; [done|]. constructor; [|done]. by eapply transmitted_in_flight.
  - rewrite fmap_app, Hfr, app_nil_r. cbn [fmap list_fmap fl_frame]. solve_Permutation.
  - destruct Hsent as [He _]. rewrite effect_of_app, He, app_nil_r. simpl. lia.
  - destruct Hsent as [He _]. rewrite effect_of_app, He, length_app. simpl. lia.
  - intros Hr. destruct (Hrun ltac:(eauto)). congruence.
  - by rewrite app_nil_r.
  - rewrite app_nil_r, Hfr. solve_Permutation.
  - cbn [sent] in Hsent. rewrite effect_of_app, Hsent, length_app. simpl. lia.
  - cbn [sent] in Hsent. rewrite effect_of_app, Hsent, app_nil_r. simpl. lia.
  - intros Hr. by rewrite app_nil_r, Hs.
Qed.

Lemma stop_accounts w cb ret dev' new fl rs new' :
  accounts w → callback_wf cb → stops cb = true →
  run_callback K p stack ops (w_dev w) cb (w_trace w) = Done ((ret, dev'), w_trace w ++ new) →
  fl ≡ₚ w_flight w →
  kill_anchored dev' fl (w_trace w ++ new) = Done (rs, (w_trace w ++ new) ++ new') →
  accounts (World dev' [] (work (w_pending w) new) (w_handed w)
    (w_returned w ++ concat (reported <$> rs))
    (w_freed w ++ concat (zip_with dropped (fl_frame <$> fl) rs)) ((w_trace w ++ new) ++ new')).
Proof.
  intros [Hi Hf Hfr Hm Hu Hs] Hwf Hcb Hrun Hfl Hkill.
  eapply emits_run in Hrun; [|by apply run_callback_steps].
  destruct Hrun as [(Hi' & Hsoft & Hm' & Hu') _]. cbn [snd] in *.
  assert (Dev.running dev' = false) as Hr
    by (change (as_running (soft dev') = false); rewrite Hsoft; by destruct cb).
  eapply emits_run in Hkill; [|apply kill_anchored_emits; [done|by rewrite Hfl]].
  destruct Hkill as (-> & Hm2 & Hu2). pose proof (Permutation_length Hfl) as Hlen.
  rewrite reported_none, app_nil_r. rewrite <-(length_fmap fl_frame fl) at 1. rewrite dropped_all.
  split; cbn [w_dev w_flight w_handed w_returned w_freed w_trace]; try done.
  - rewrite Hfr, <-Hfl. solve_Permutation.
  - rewrite !effect_of_app, length_app, length_fmap. simpl. lia.
  - rewrite !effect_of_app. simpl. lia.
Qed.

Lemma complete_accounts w l1 f l2 status r new :
  accounts w → w_flight w = l1 ++ f :: l2 →
  mt7603_tx_complete (w_dev w) (fl_urb f) status (w_trace w) = Done (r, w_trace w ++ new) →
  accounts (World (w_dev w) (l1 ++ l2) (w_pending w) (w_handed w) (w_returned w ++ reported r)
    (w_freed w ++ dropped (fl_frame f) r) (w_trace w ++ new)).
Proof.
  intros [Hi Hf Hfr Hm Hu Hs] Hl Hc. rewrite Hl in Hf, Hfr, Hu, Hs.
  apply Forall_app in Hf as [Hf1 [Hf Hf2]%Forall_cons].
  eapply emits_run in Hc; [|by apply tx_complete_emits]. rewrite length_app in Hu. simpl in Hu.
  assert (mem (effect_of new) = - Z.of_nat (length (dropped (fl_frame f) r)) ∧
    urbs (effect_of new) = -1 ∧ fl_frame f :: [] ≡ₚ reported r ++ dropped (fl_frame f) r) as (Hm' & Hu' & Hfr').
  { destruct (_ && _); [destruct Hc as (-> & skb' & -> & <-)|destruct Hc as (-> & ->)]; done. }
  split; cbn [w_dev w_flight w_handed w_returned w_freed w_trace]; try done.
  - by apply Forall_app.
  - rewrite Hfr, !fmap_app, fmap_cons. change (fl_frame f :: ?l) with ([fl_frame f] ++ l).
    rewrite Hfr'. solve_Permutation.
  - rewrite effect_of_app, length_app. simpl. lia.
  - rewrite effect_of_app, length_app. simpl. lia.
  - intros Hr. specialize (Hs Hr). by destruct l1.
Qed.

Lemma beacon_accounts w beacon us r new :
  accounts w → (∀ skb info, beacon = Some (skb, info) → frame_ok (sk_data skb) info) →
  mt7603_beacon_work K p (stack 32) (w_dev w) beacon us (w_trace w) = Done (r, w_trace w ++ new) →
  accounts (match (if beaconing (w_dev w) then beacon else None) with
    | Some (skb, info) => submit w (stamped us (sk_data skb)) (ctl_no_ack info) r (work false new) new
    | None => World (w_dev w) (w_flight w) (work false new) (w_handed w) (w_returned w) (w_freed w)
        (w_trace w ++ new)
    end).
Proof.
  intros Hac Hok Hb. pose proof Hac as [Hi Hf Hfr Hm Hu Hs].
  destruct (beacon_work_runs K p (stack 32) (w_dev w) beacon us (w_trace w))
    as (r' & tr' & Heq & Hr); [done|apply Hi|done|done|].
  rewrite Hb in Heq. injection Heq as <- <-. destruct (beaconing (w_dev w)).
  - destruct Hr as (sent & Hn & Hsent). apply app_inv_head in Hn as ->.
    assert (effect_of (sent ++ [Other (ScheduleBeaconWork
      (((if Dev.beacon_int (w_dev w) =? 0 then 100 else Dev.beacon_int (w_dev w)) * 1024) `div` 1000))]) =
      effect_of sent) as He by (rewrite effect_of_app; simpl; by rewrite !eff_quiet_r).
    destruct beacon as [[skb info]|].
    + destruct Hsent as [Hsent _]. rewrite <-He in Hsent. exact (submit_accounts w _ _ r _ _ _ info Hac (di_wf _ Hi) (stamped_ok _ _ _ (Hok _ _ eq_refl)) eq_refl eq_refl Hsent).
    + destruct Hsent as [-> ->].
      split; cbn [w_dev w_flight w_handed w_returned w_freed w_trace]; try done;
        rewrite effect_of_app, He; simpl; lia.
  - destruct Hr as [-> Hn]. rewrite <-(app_nil_r (w_trace w)) in Hn at 2. apply app_inv_head in Hn as ->.
    split; cbn [w_dev w_flight w_handed w_returned w_freed w_trace]; try done; by rewrite app_nil_r.
Qed.

Lemma step_accounts allowed w i w' :
  accounts w → enabled allowed w i → step K p stack ops w i w' → accounts w'.
Proof.
  intros Hac Hen Hst. pose proof Hac as [Hi Hf Hfr Hm Hu Hs].
  destruct Hst as [cb ret dev' new Hcb Hrun|cb ret dev' new fl rs new' Hcb Hrun Hfl Hkill
    |skb info r new Htx|l1 f l2 status r new Hl Hc|beacon us r new Hb]; cbn [enabled] in Hen.
  - destruct Hen as [Hwf _]. eapply emits_run in Hrun; [|by apply run_callback_steps].
    destruct Hrun as [(Hi' & Hsoft & Hm' & Hu') _]. cbn [snd] in *.
    split; cbn [w_dev w_flight w_handed w_returned w_freed w_trace]; try done.
    + rewrite effect_of_app. simpl. lia.
    + rewrite effect_of_app. simpl. lia.
    + intros Hr. apply Hs. apply (soft_step_running (soft (w_dev w)) cb Hcb). by rewrite <-Hsoft.
  - destruct Hen as [Hwf _]. by eapply stop_accounts.
  - eapply emits_run in Htx;
      [|exact (mac80211_tx_emits K p (w_dev w) HK (di_wf _ Hi) (stack 32) skb info Hen (Hstack _))].
    exact (submit_accounts w _ _ r _ new _ info Hac (di_wf _ Hi) Hen eq_refl eq_refl Htx).
  - by eapply complete_accounts.
  - destruct Hen as [_ Hok]. by apply beacon_accounts.
Qed.

(** The driver takes every input: no entry stops the kernel or goes wrong. *)
Lemma step_exists allowed w i :
  accounts w → enabled allowed w i → ∃ w', step K p stack ops w i w'.
Proof.
  intros [Hi Hf Hfr Hm Hu Hs] Hen. destruct i as [cb|skb info|n status|beacon us]; cbn [enabled] in Hen.
  - destruct Hen as [Hwf _].
    destruct (run_callback_steps K p stack ops Hstack Hops (w_dev w) cb Hi Hwf (w_trace w))
      as ([ret dev'] & new & Hrun & (_ & Hsoft & _) & _).
    destruct (stops cb) eqn:Hcb; [|eexists; by eapply StepCallback].
    assert (Dev.running dev' = false) as Hr
      by (cbn [snd] in Hsoft; change (as_running (soft dev') = false); rewrite Hsoft; by destruct cb).
    destruct (kill_anchored_emits dev' (w_flight w) Hr Hf (w_trace w ++ new)) as (rs & new' & Hkill & _).
    eexists. by eapply StepStop.
  - destruct (mac80211_tx_emits K p (w_dev w) HK (di_wf _ Hi) (stack 32) skb info Hen (Hstack _) (w_trace w))
      as (r & new & Htx & _).
    eexists. by eapply StepTx.
  - apply lookup_lt_is_Some in Hen as [f Hn].
    destruct (tx_complete_emits _ _ (fl_urb f) (w_dev w) status (proj1 (Forall_lookup _ _) Hf _ _ Hn) (w_trace w))
      as (r & new & Hc & _).
    destruct (list_elem_of_split_length _ _ _ Hn) as (l1 & l2 & Hl & ->).
    eexists. by eapply StepTxComplete.
  - destruct Hen as [_ Hok]. destruct (beacon_work_runs K p (stack 32) (w_dev w) beacon us (w_trace w))
      as (r & tr' & Heq & Hr); [done|apply Hi|done|done|].
    assert (∃ new, tr' = w_trace w ++ new) as [new ->].
    { destruct (beaconing _); [destruct Hr as (sent & -> & _); by eexists|].
      destruct Hr as [_ ->]. exists []. by rewrite app_nil_r. }
    eexists. by eapply StepBeaconWork.
Qed.

Lemma beginning_accounts d :
  driver_inv d → ring_mem d = 0 → ring_urbs d = 0 → accounts (beginning d).
Proof. intros Hi Hm Hu. by split; simpl; rewrite ?Hm, ?Hu. Qed.

Lemma step_callback_soft w cb w' :
  accounts w → callback_wf cb → step K p stack ops w (InCallback cb) w' →
  soft (w_dev w') = soft_step (soft (w_dev w)) cb ∧ w_handed w' = w_handed w ∧
  (stops cb = true → w_flight w' = []).
Proof.
  intros Hac Hwf Hst. pose proof (ac_inv _ Hac) as Hi.
  inversion Hst as [? ret dev' new Hcb Hrun|? ret dev' new fl rs new' Hcb Hrun| | |]; subst;
    (eapply emits_run in Hrun; [|by apply run_callback_steps]); destruct Hrun as [(_ & Hsoft & _) _];
    (split; [exact Hsoft|]); by rewrite ?Hcb.
Qed.

(** Invariants of the reachable worlds, by induction over the moves. *)
Lemma reachable_invariant allowed d (I : world → Prop) w :
  driver_inv d → ring_mem d = 0 → ring_urbs d = 0 →
  I (beginning d) →
  (∀ w i w', accounts w → I w → enabled allowed w i → step K p stack ops w i w' → I w') →
  reachable K p stack ops allowed d w → accounts w ∧ I w.
Proof.
  intros Hi Hm Hu Hb Hstep. unfold reachable. revert w.
  apply (rtc_ind_r (λ w, accounts w ∧ I w)); [split; [by apply beginning_accounts|done]|].
  intros w1 w2 _ (i & Hen & Hst) [Hac HI]. split; [by eapply step_accounts|by eapply Hstep].
Qed.
End books.

(** ** The beacon chain *)

(** mac80211 enables beaconing on a running access point only. *)
Definition disciplined (dev : Dev.t) (cb : callback) : Prop :=
  match cb with
  | CbBssInfoChanged v info changed _ =>
      any_beacon changed = true → from_option bi_enable_beacon false info = true →
      Dev.running dev = true ∧ from_option live_ap false v = true
  | _ => True
  end.

(** The work is pending exactly while beaconing is enabled, and then a run
    of it transmits. *)
Definition chained (pending : bool) (s : soft_state) : Prop :=
  pending = as_beacon s ∧ (as_beacon s = true → as_running s = true ∧ is_Some (as_ap s)).

Lemma chained_step pending d cb :
  disciplined d cb → chained pending (soft d) →
  chained (default pending (work_of (Dev.ap_vif d) cb)) (soft_step (soft d) cb).
Proof.
  intros Hd [-> Hb]. change (Dev.ap_vif d) with (as_ap (soft d)).
  destruct cb; cbn [work_of soft_step disciplined] in *; try done; unfold chained.
  - split; [done|]. intros E. split; [done|]. by apply Hb.
  - split; [done|]. intros E. apply Hb in E as E'. cbn in *. destruct E' as [Hr [a Ha]].
    split; [done|]. rewrite Ha. destruct (live_ap v); eauto.
  - unfold soft_remove. cbn in *. case_bool_decide; [done|]. by cbn.
  - unfold soft_bss. fold (any_beacon changed). destruct (any_beacon changed); [|done].
    cbn in *. destruct (from_option bi_enable_beacon false info) eqn:En; cbn.
    + split; [done|]. intros _. destruct (Hd eq_refl eq_refl) as [Hr Hv]. split; [done|].
      destruct v as [v|]; [|done]. cbn in Hv. rewrite Hv. eauto.
    + destruct (ch_beacon_enabled changed); cbn; [by rewrite andb_false_r|].
      rewrite andb_true_r. split; [done|]. intros E. destruct (Hb E) as [Hr [a Ha]]. split; [done|].
      rewrite Ha. destruct v as [v|]; [|eauto]. destruct (live_ap v); eauto.
Qed.

Lemma sets_run {A} o (m : io A) tr a new b :
  sets o m → m tr = Done (a, tr ++ new) → work b new = default b o.
Proof.
  intros Hm Heq. destruct (Hm _ _ _ Heq) as (new' & E & Hw). apply app_inv_head in E as ->. apply Hw.
Qed.

Section chain.
Context `{Ieee80211Laws} (K : kernel) (p : profile).
Context (stack : nat → list Z) (ops : nat → list RegWriteOp).
Context (HK : kernel_ok K) (Hstack : ∀ n, length (stack n) = n) (Hops : ∀ n, length (ops n) = n).

Lemma chained_beaconing s d : chained true s → s = soft d → beaconing d = true.
Proof.
  intros [Hp Hb] ->. symmetry in Hp. destruct (Hb Hp) as [Hr [a Ha]]. unfold beaconing. cbn in *.
  by rewrite Hr, Hp, Ha.
Qed.

Lemma step_chained w i w' :
  accounts w → chained (w_pending w) (soft (w_dev w)) → enabled disciplined w i →
  step K p stack ops w i w' → chained (w_pending w') (soft (w_dev w')).
Proof.
  intros Hac Hch Hen Hst. pose proof (ac_inv _ Hac) as Hi.
  assert (∀ cb ret dev' new, callback_wf cb → disciplined (w_dev w) cb →
    run_callback K p stack ops (w_dev w) cb (w_trace w) = Done ((ret, dev'), w_trace w ++ new) →
    chained (work (w_pending w) new) (soft dev')) as Hcb.
  { intros cb ret dev' new Hwf Hd Hrun.
    rewrite (sets_run _ _ _ _ _ _ (run_callback_work K p stack ops _ _) Hrun).
    eapply emits_run in Hrun; [|by apply run_callback_steps].
    destruct Hrun as [(_ & Hsoft & _) _]. cbn [snd] in Hsoft. rewrite Hsoft. by apply chained_step. }
  destruct Hst as [cb ret dev' new _ Hrun|cb ret dev' new fl rs new' _ Hrun _ _
    |skb info r new Htx|l1 f l2 status r new Hl Hc|beacon us r new Hb]; cbn [enabled] in Hen.
  - destruct Hen. by eapply Hcb.
  - destruct Hen. by eapply Hcb.
  - done.
  - done.
  - destruct Hen as [Hp Hok]. rewrite Hp in Hch. pose proof (chained_beaconing _ _ Hch eq_refl) as Hbc.
    destruct (beacon_work_runs K p (stack 32) (w_dev w) beacon us (w_trace w))
      as (r' & tr' & Heq & Hr); [done|apply Hi|done|done|].
    rewrite Hb in Heq. injection Heq as <- <-. rewrite Hbc in *.
    destruct Hr as (sent & Hn & _). apply app_inv_head in Hn as ->.
    by destruct beacon as [[skb info]|]; cbn [submit w_pending w_dev]; rewrite work_app.
Qed.
End chain.

(** A run of the beacon work takes [w] to [w']: the next run is scheduled, and
    the stamped template was handed over - it is in flight on the endpoint of
    its class, as the transfer its parameters give, or it was freed, for its
    length or because the kernel refused something.  Without a template
    nothing is sent. *)
Definition beacon_ran `{Ieee80211} (w : world) (beacon : option (sk_buff * tx_info)) (us : Z)
    (w' : world) : Prop :=
  let bint := if Dev.beacon_int (w_dev w) =? 0 then 100 else Dev.beacon_int (w_dev w) in
  ∃ sent, w_trace w' = w_trace w ++ sent ++ [Other (ScheduleBeaconWork ((bint * 1024) `div` 1000))] ∧
    w_pending w' = true ∧ w_dev w' = w_dev w ∧ w_returned w' = w_returned w ∧
    match beacon with
    | Some (skb, info) =>
        let frame := stamped us (sk_data skb) in
        let is_mgmt := ieee80211_is_mgmt (frame_fc frame) in
        w_handed w' = w_handed w ++ [frame] ∧
        ((∃ u, w_flight w' = w_flight w ++ [Flight u frame (ctl_no_ack info)] ∧
            w_freed w' = w_freed w ∧ effect_of sent = Eff [] 0 1 1 ∧
            tu_ep u = (if is_mgmt then MT7603_MGMT_BULK_OUT else MT7603_DATA_BULK_OUT) ∧
            sk_data (tu_skb u) = tx_wire is_mgmt (frame_params (w_dev w) frame info) frame) ∨
         (w_flight w' = w_flight w ∧ w_freed w' = w_freed w ++ [frame] ∧
            effect_of sent = Eff [] (-1) 0 0 ∧
            (Z.of_nat (length frame) + 32 ≤ 0xffff → forallb works sent = false)))
    | None => sent = [] ∧ w_handed w' = w_handed w ∧ w_flight w' = w_flight w ∧ w_freed w' = w_freed w
    end.

Lemma step_beacon_ran `{Ieee80211Laws} K p stack ops w beacon us w' :
  kernel_ok K → (∀ n, length (stack n) = n) → driver_inv (w_dev w) → beaconing (w_dev w) = true →
  (∀ skb info, beacon = Some (skb, info) → frame_ok (sk_data skb) info) →
  step K p stack ops w (InBeaconWork beacon us) w' → beacon_ran w beacon us w'.
Proof.
  intros HK Hst Hi Hbc Hok Hs. inversion Hs as [| | | |? ? r new Hb]; subst. clear Hs.
  destruct (beacon_work_runs K p (stack 32%nat) (w_dev w) beacon us (w_trace w))
    as (r' & tr' & Heq & Hr); [done|apply Hi|done|done|].
  rewrite Hb in Heq. injection Heq as <- <-. rewrite Hbc in *.
  destruct Hr as (sent & Hn & Hsent). apply app_inv_head in Hn as ->.
  exists sent. destruct beacon as [[skb info]|]; cbn [submit w_trace w_pending w_dev w_returned
    w_handed w_flight w_freed]; rewrite work_app; do 4 (split; [done|]).
  2:{ by destruct Hsent as [-> ->]. }
  destruct Hsent as [[Hsent _] Hc]. split; [done|]. destruct r as [u|].
  - left. exists u. destruct Hsent as (? & ? & _ & ? & _). rewrite app_nil_r. by split_and!.
  - right. rewrite app_nil_r. do 3 (split; [done|]). rewrite length_stamped. intros Hl.
    destruct (forallb works sent) eqn:E; [|done]. by destruct (Hc Hl eq_refl).
Qed.

(** ** Properties *)

Section traffic_theorems.
Context `{Ieee80211Laws}.

(** C2. The books are kept under every interleaving of callbacks, transmissions,
    completions and beacon work, whatever the kernel and the bus answer: every
    frame handed to the driver is in flight, was given back unchanged, or was
    freed, exactly once; memory and URBs are those of the rings and of the
    transfers in flight, and a driver that was stopped has none in flight.  And
    the driver takes every input that may come: no entry, in any reachable
    world, stops the kernel or touches memory it was not given. *)
Theorem traffic_accounts K p stack ops allowed d w :
  kernel_ok K → (∀ n, length (stack n) = n) → (∀ n, length (ops n) = n) →
  driver_inv d → rings_empty d → reachable K p stack ops allowed d w →
  accounts w ∧ ∀ i, enabled allowed w i → ∃ w', step K p stack ops w i w'.
Proof.
  intros HK Hst Hops Hd He Hr. destruct (rings_empty_hold d He) as [Hm Hu].
  destruct (reachable_invariant K p stack ops HK Hst Hops allowed d (λ _, True) w) as [Hac _]; [done..|].
  split; [done|]. intros i Hen. by eapply step_exists.
Qed.

(** C8. The beacon chain does not break: when mac80211 enables beaconing on
    running access points only, then in every reachable world the work item is
    pending exactly while beaconing is enabled, on a running driver with an
    access-point interface.  Whenever it is pending it can run, and a run that
    gets a template hands the stamped template over: it is in flight, on its
    endpoint, unless the kernel refused an allocation or the submission (or it
    is too long for the descriptor), and then it is freed.  In every case - no
    template and failures included - the next run is pending again. *)
Theorem beacon_chain_unbroken K p stack ops d w :
  kernel_ok K → (∀ n, length (stack n) = n) → (∀ n, length (ops n) = n) →
  driver_inv d → rings_empty d → Dev.beacon_enabled d = false →
  reachable K p stack ops disciplined d w →
  w_pending w = Dev.beacon_enabled (w_dev w) ∧
  (Dev.beacon_enabled (w_dev w) = true → beaconing (w_dev w) = true) ∧
  (w_pending w = true → ∀ beacon us,
    (∀ skb info, beacon = Some (skb, info) → frame_ok (sk_data skb) info) →
    (∃ w', step K p stack ops w (InBeaconWork beacon us) w') ∧
    ∀ w', step K p stack ops w (InBeaconWork beacon us) w' → beacon_ran w beacon us w').
Proof.
  intros HK Hst Hops Hd He Hb Hr. destruct (rings_empty_hold d He) as [Hm Hu].
  destruct (reachable_invariant K p stack ops HK Hst Hops disciplined d
    (λ w, chained (w_pending w) (soft (w_dev w))) w) as [Hac Hch]; [done..| | |done|].
  - unfold chained. cbn [beginning w_pending w_dev soft as_beacon]. by rewrite Hb.
  - intros w1 i w2 Hac Hch1 Hen Hs. by eapply step_chained.
  - assert (Dev.beacon_enabled (w_dev w) = true → beaconing (w_dev w) = true) as Hbc.
    { intros E. eapply chained_beaconing; [|done]. destruct Hch as [_ Hx]. split; [by symmetry|exact Hx]. }
    split; [apply Hch|]. split; [exact Hbc|]. intros Hp beacon us Hok. split.
    + by apply (step_exists K p stack ops HK Hst Hops disciplined).
    + intros w' Hs. eapply step_beacon_ran; [done|done|by destruct Hac| |done|done].
      apply Hbc. destruct Hch as [Hx _]. by rewrite Hp in Hx.
Qed.
End traffic_theorems.

(** Sample lives, on the header functions of TxPath.v and a kernel that does
    not fail. *)
#[local] Existing Instances linux_headers linux_headers_laws.

Lemma some_bytes_length n : length (some_bytes n) = n.
Proof. apply length_replicate. Qed.
Lemma some_ops_length n : length (some_ops n) = n.
Proof. apply length_replicate. Qed.

Lemma sample_step allowed w i :
  accounts w → enabled allowed w i →
  ∃ w', step good_kernel Release some_bytes some_ops w i w' ∧ accounts w' ∧
    move good_kernel Release some_bytes some_ops allowed w w'.
Proof.
  intros Hac Hen.
  destruct (step_exists good_kernel Release some_bytes some_ops good_kernel_ok some_bytes_length some_ops_length
    allowed w i Hac Hen) as [w' Hs].
  exists w'. split; [done|]. split; [|by exists i].
  eapply step_accounts; [apply good_kernel_ok|apply some_bytes_length|apply some_ops_length|done..].
Qed.

Lemma initial_accounts : accounts (beginning Dev.initial).
Proof. by apply beginning_accounts; [apply initial_inv|..]. Qed.

Lemma initial_empty : rings_empty Dev.initial.
Proof. split; [vm_decide|done]. Qed.

(** A life with a frame in it: start, a transmission, stop. *)
Lemma traffic_accounts_witness :
  ∃ w, reachable good_kernel Release some_bytes some_ops (λ _ _, True) Dev.initial w ∧
    w_handed w = [sample_frame] ∧ w_flight w = [] ∧ w_handed w ≡ₚ w_returned w ++ w_freed w.
Proof.
  destruct (sample_step (λ _ _, True) _ (InCallback CbStart) initial_accounts (conj I I)) as (w1 & S1 & A1 & M1).
  destruct (sample_step (λ _ _, True) w1 (InTx sample_skb sample_info) A1) as (w2 & S2 & A2 & M2);
    [split_and!; [vm_decide|vm_decide|done|vm_decide]|].
  destruct (sample_step (λ _ _, True) w2 (InCallback CbStop) A2 (conj I I)) as (w3 & S3 & A3 & M3).
  assert (reachable good_kernel Release some_bytes some_ops (λ _ _, True) Dev.initial w3) as Hr
    by (eapply rtc_l; [exact M1|]; eapply rtc_l; [exact M2|]; by apply rtc_once).
  destruct (traffic_accounts good_kernel Release some_bytes some_ops (λ _ _, True) Dev.initial w3 good_kernel_ok
    some_bytes_length some_ops_length initial_inv initial_empty Hr) as [[_ _ Hf _ _ _] _].
  destruct (step_callback_soft _ _ _ _ some_bytes_length some_ops_length _ CbStart w1 initial_accounts I S1)
    as (_ & H1 & _).
  assert (w_handed w2 = w_handed w1 ++ [sample_frame]) as H2 by by inversion S2.
  destruct (step_callback_soft _ _ _ _ some_bytes_length some_ops_length w2 CbStop w3 A2 I S3) as (_ & H3 & Hfl).
  exists w3. rewrite (Hfl eq_refl) in *. split; [exact Hr|]. split; [by rewrite H3, H2, H1|]. by split.
Defined.

Definition sample_beacon : option (sk_buff * tx_info) :=
  Some (Skb (replicate 64 0) beacon_template [], mgmt_info).

(** An access point: start, the interface, beaconing enabled; then a run of
    the work. *)
Lemma beacon_chain_unbroken_witness :
  ∃ w w', reachable good_kernel Release some_bytes some_ops disciplined Dev.initial w ∧
    w_pending w = true ∧ beaconing (w_dev w) = true ∧
    step good_kernel Release some_bytes some_ops w (InBeaconWork sample_beacon 5) w' ∧
    beacon_ran w sample_beacon 5 w'.
Proof.
  pose (cb3 := CbBssInfoChanged (Some sample_ap) (Some (BssConf None None true 0 None))
    (BssChanges false true false false false) None).
  assert (callback_wf (CbAddInterface sample_ap)) as V by (split; vm_decide).
  assert (callback_wf cb3) as V3 by (split; [split; vm_decide|]; intros i [= <-]; split; [vm_decide|done]).
  destruct (sample_step disciplined _ (InCallback CbStart) initial_accounts (conj I I)) as (w1 & S1 & A1 & M1).
  destruct (sample_step disciplined w1 (InCallback (CbAddInterface sample_ap)) A1 (conj V I)) as (w2 & S2 & A2 & M2).
  destruct (step_callback_soft _ _ _ _ some_bytes_length some_ops_length _ CbStart w1 initial_accounts I S1) as (H1 & _).
  destruct (step_callback_soft _ _ _ _ some_bytes_length some_ops_length _ _ w2 A1 V S2) as (H2 & _).
  rewrite H1 in H2.
  destruct (sample_step disciplined w2 (InCallback cb3) A2) as (w3 & S3 & A3 & M3).
  { split; [exact V3|]. intros _ _. split; [|reflexivity]. by injection H2. }
  destruct (step_callback_soft _ _ _ _ some_bytes_length some_ops_length _ _ w3 A2 V3 S3) as (H3 & _).
  rewrite H2 in H3.
  assert (reachable good_kernel Release some_bytes some_ops disciplined Dev.initial w3) as Hr
    by (eapply rtc_l; [exact M1|]; eapply rtc_l; [exact M2|]; by apply rtc_once).
  destruct (beacon_chain_unbroken good_kernel Release some_bytes some_ops Dev.initial w3 good_kernel_ok
    some_bytes_length some_ops_length initial_inv initial_empty eq_refl Hr) as (Hp & Hb & Hrun).
  assert (Dev.beacon_enabled (w_dev w3) = true) as E by by injection H3.
  destruct (Hrun ltac:(by rewrite Hp) sample_beacon 5) as [[w4 S4] Hran].
  { intros skb info [= <- <-]. split_and!; [vm_decide|vm_decide|done|vm_decide]. }
  exists w3, w4. split; [exact Hr|]. split; [by rewrite Hp|]. split; [by apply Hb|].
  split; [exact S4|]. by apply Hran.
Defined.
