(* ===== verification/Efuse.v ===== *)
(** * The eFuse image and the device's identity

    mt7603_efuse_read_block and mt7603_efuse_read_all of src/c/regops.c read
    the calibration memory block by block through a kick-and-poll register;
    mt7603_register_mac80211 of src/c/mac80211.c takes the station address
    and the calibration from the image.  [efuse_chip] states how the chip
    answers; [runs] is the rule system that follows the chip's state along
    the trace. *)

From S2P Require Import Prelude Rust Ffi Regmap Eeprom Rx Entry Usb Dev.
Local Open Scope Z_scope.
Local Open Scope rust_scope.

Definition MT_EFUSE_BASE_CTRL : Z := 0x81070000.
Definition MT_EFUSE_CTRL : Z := 0x81070008.
Definition MT_EFUSE_RDATA (n : Z) : Z := 0x81070030 + 4 * n.
Definition MT_EFUSE_CTRL_AIN : Z := 0x3ff ≪ 16.
Definition MT_EFUSE_CTRL_MODE : Z := 0x3 ≪ 6.
Definition MT_EFUSE_CTRL_KICK : Z := 1 ≪ 30.
Definition MT_EFUSE_CTRL_AOUT : Z := 0x3f.
Definition MT_EFUSE_CTRL_VALID : Z := 1 ≪ 29.
Definition MT_EFUSE_BASE_CTRL_EMPTY : Z := 1 ≪ 30.
Definition ETIMEDOUT : Z := -110.
Definition ENODATA : Z := -61.
(** Turns of the polling loop. *)
Definition EFUSE_POLLS : nat := 100.

(** A store through a pointer into [buf]. *)
Definition store (buf : list Z) (off : nat) (s : list Z) : outcome (list Z) :=
  if decide (off + length s ≤ length buf)%nat then Done (splice off s buf) else Undefined.

Section efuse.
Variable K : kernel.
Variable p : profile.

(** Until the kick bit clears; the status and the last word read. *)
Fixpoint efuse_poll (n : nat) (val : Z) : io (Z * Z) :=
  match n with
  | O => mret (0, val)
  | S n =>
      msleep ;;
      '(ret, val) ← mt7603_usb_read_reg K p MT_EFUSE_CTRL val;
      if negb (ret =? 0) then mret (ret, val) else
      if Z.land val MT_EFUSE_CTRL_KICK =? 0 then mret (0, val) else efuse_poll n val
  end.

(** The [n] data words from word [i] on, stored at [off + 4 * i]. *)
Fixpoint efuse_words (n i : nat) (buf : list Z) (off : nat) (val : Z) : io (Z * list Z) :=
  match n with
  | O => mret (0, buf)
  | S n =>
      '(ret, val) ← mt7603_usb_read_reg K p (MT_EFUSE_RDATA (Z.of_nat i)) val;
      if negb (ret =? 0) then mret (ret, buf) else
      buf ← call (store buf (off + 4 * i) (u32_to_le_bytes val));
      efuse_words n (S i) buf off val
  end.

(** The word that starts a read of [addr]. *)
Definition efuse_kick (addr val : Z) : Z :=
  let val := Z.ldiff val (Z.lor MT_EFUSE_CTRL_AIN MT_EFUSE_CTRL_MODE) in
  Z.lor val (Z.lor (shl32 (Z.ldiff addr 0xf) 16) MT_EFUSE_CTRL_KICK).

(** The chip reports a block that was never written. *)
Definition efuse_absent (val : Z) : bool :=
  (Z.land val MT_EFUSE_CTRL_AOUT =? MT_EFUSE_CTRL_AOUT) || (Z.land val MT_EFUSE_CTRL_VALID =? 0).

Definition mt7603_efuse_read_block (addr : Z) (buf : list Z) (off : nat) : io (Z * list Z) :=
  '(ret, val) ← mt7603_usb_read_reg K p MT_EFUSE_CTRL 0;
  if negb (ret =? 0) then mret (ret, buf) else
  let val := efuse_kick addr val in
  ret ← mt7603_usb_write_reg K p MT_EFUSE_CTRL val;
  if negb (ret =? 0) then mret (ret, buf) else
  '(ret, val) ← efuse_poll EFUSE_POLLS val;
  if negb (ret =? 0) then mret (ret, buf) else
  if negb (Z.land val MT_EFUSE_CTRL_KICK =? 0) then mret (ETIMEDOUT, buf) else
  msleep ;;
  '(ret, val) ← mt7603_usb_read_reg K p MT_EFUSE_CTRL val;
  if negb (ret =? 0) then mret (ret, buf) else
  if efuse_absent val then
    buf ← call (store buf off (replicate 16 0xff)); mret (0, buf)
  else efuse_words 4 0 buf off val.

(** The loop over the blocks; every turn advances by 16, so the length of
    the buffer is enough fuel. *)
Fixpoint efuse_blocks (fuel i : nat) (buf : list Z) (len : nat) : io (Z * list Z) :=
  match fuel with
  | O => undefined
  | S fuel =>
      if decide (i + 16 ≤ len)%nat then
        '(ret, buf) ← mt7603_efuse_read_block (wrap 16 (Z.of_nat i)) buf i;
        if negb (ret =? 0) then mret (ret, buf) else efuse_blocks fuel (i + 16) buf len
      else mret (0, buf)
  end.

Definition mt7603_efuse_read_all (buf : list Z) (len : nat) : io (Z * list Z) :=
  '(ret, val) ← mt7603_usb_read_reg K p MT_EFUSE_BASE_CTRL 0;
  if negb (ret =? 0) then mret (ret, buf) else
  if negb (Z.land val MT_EFUSE_BASE_CTRL_EMPTY =? 0) then mret (ENODATA, buf) else
  efuse_blocks (S len) 0 buf len.

(** The part of [mt7603_register_mac80211] that gives the zeroed device its
    image, address and calibration; [stack] is what the local structure
    holds.  The rest of the function fills in the mac80211 handle. *)
Definition dummy_e2p : list Z :=
  splice 4 [0x00; 0x0c; 0x43; 0x76; 0x03; 0x01] (replicate 512 0xff).

Definition mt7603_register_eeprom (stack : EepromData) : io Dev.t :=
  '(ret, e2p) ← mt7603_efuse_read_all (replicate MT7603_EEPROM_SIZE 0xff) MT7603_EEPROM_SIZE;
  let valid := ret =? 0 in
  let image := if valid then take 512 e2p else dummy_e2p in
  '(ret, out) ← call (mt7603_rust_parse_eeprom (Some image) 512 (Some stack));
  let data := default stack out in
  let mac := if (ret =? 0) && negb (is_valid data =? 0) then mac_addr data
             else [0x00; 0x0c; 0x43; 0x76; 0x03; 0x01] in
  mret (Dev.registered mac valid (if valid then rssi_offset_2g data else 0) e2p).
End efuse.

(** ** The chip

    Its state after a trace: the block of the last accepted read command, and
    whether the driver has seen it complete (the kick bit clear). *)

Definition req_word (r : VendorReq) : Z :=
  u32_from_le_bytes (nth 0 (v_data r) 0) (nth 1 (v_data r) 0) (nth 2 (v_data r) 0)
    (nth 3 (v_data r) 0).
Definition reads (q v i a : Z) : Prop :=
  q = MT_VEND_REQ_READ ∧ v = a ≫ 16 ∧ i = Z.land a 0xffff.
#[export] Instance reads_dec q v i a : Decision (reads q v i a).
Proof. unfold reads. apply _. Defined.

Definition chip_step (s : option (Z * bool)) (e : event) : option (Z * bool) :=
  match e with
  | ControlOut r ret =>
      if decide (0 ≤ ret ∧ r = write_req MT_EFUSE_CTRL (req_word r)) then
        if Z.testbit (req_word r) 30 then Some (bits 16 10 (req_word r), false) else s
      else s
  | ControlIn q v i ret w =>
      if decide (0 ≤ ret ∧ reads q v i MT_EFUSE_CTRL ∧ Z.testbit w 30 = false) then
        (λ c, (c.1, true)) <$> s
      else s
  | _ => s
  end.
Definition chip (tr : trace) : option (Z * bool) := foldl chip_step None tr.

(** The answers of a chip whose memory is [image]: once block [a] was read,
    the status word says whether it was ever written, and the data words are
    its bytes.  Nothing is said about how long a read takes, or that the
    transfers succeed. *)
Record efuse_chip (K : kernel) (image : Z → option (list Z)) : Prop := {
  image_block a bytes : image a = Some bytes → length bytes = 16%nat ∧ Forall is_u8 bytes;
  chip_status tr a ret w :
    chip tr = Some (a, true) →
    k_control_in K tr MT_VEND_REQ_READ (MT_EFUSE_CTRL ≫ 16) (Z.land MT_EFUSE_CTRL 0xffff) = (ret, w) →
    0 ≤ ret → efuse_absent w = bool_decide (image a = None);
  chip_data tr a bytes n ret w :
    chip tr = Some (a, true) → image a = Some bytes → 0 ≤ n < 4 →
    k_control_in K tr MT_VEND_REQ_READ (MT_EFUSE_RDATA n ≫ 16)
      (Z.land (MT_EFUSE_RDATA n) 0xffff) = (ret, w) →
    0 ≤ ret → u32_to_le_bytes w = take 4 (drop (4 * Z.to_nat n) bytes);
}.

(** What the driver keeps of a block. *)
Definition block_bytes (image : Z → option (list Z)) (a : Z) : list Z :=
  default (replicate 16 0xff) (image a).

(** ** Runs *)

Definition runs {A} (m : io A) (tr : trace) (Q : A → trace → Prop) : Prop :=
  ∃ a tr', m tr = Done (a, tr') ∧ Q a tr'.

Lemma runs_ret {A} (a : A) tr (Q : A → trace → Prop) : Q a tr → runs (mret a) tr Q.
Proof. intros HQ. by exists a, tr. Qed.

Lemma runs_bind {A B} (m : io A) (f : A → io B) tr P Q :
  runs m tr P → (∀ a tr', P a tr' → runs (f a) tr' Q) → runs (m ≫= f) tr Q.
Proof.
  intros (a & tr' & Hm & HP) Hf. destruct (Hf a tr' HP) as (b & tr'' & Hb & HQ).
  exists b, tr''. unfold mbind, io_bind. by rewrite Hm.
Qed.

Lemma runs_call {A} (m : outcome A) a tr (Q : A → trace → Prop) :
  m = Done a → Q a tr → runs (call m) tr Q.
Proof. intros -> HQ. by exists a, tr. Qed.

Lemma chip_app tr es : chip (tr ++ es) = foldl chip_step (chip tr) es.
Proof. apply foldl_app. Qed.

Lemma kick_clear w : (Z.land w MT_EFUSE_CTRL_KICK =? 0) = negb (Z.testbit w 30).
Proof. rewrite <-(flag_testbit w 30) by lia. unfold flag. by rewrite negb_involutive. Qed.

Section efuse_spec.
Context (K : kernel) (p : profile) (HK : kernel_ok K).

(** A register outside the windows of the address map. *)
Definition unmapped (a : Z) : Prop := is_u32 a ∧ translate hif_windows a = a.

Lemma runs_read a v tr (Q : Z * Z → trace → Prop) :
  unmapped a →
  (∀ ret tr', ret < 0 → Q (ret, v) tr') →
  (∀ ret w, 0 ≤ ret → is_u32 w → let tr1 := tr ++ [Kmalloc 4 true] in
    k_control_in K tr1 MT_VEND_REQ_READ (a ≫ 16) (Z.land a 0xffff) = (ret, w) →
    Q (0, w) (tr1 ++ [ControlIn MT_VEND_REQ_READ (a ≫ 16) (Z.land a 0xffff) ret w] ++ [Kfree])) →
  runs (mt7603_usb_read_reg K p a v) tr Q.
Proof.
  intros [Ha Hm] Herr Hok. unfold runs, mt7603_usb_read_reg, mt7603_rust_map_register_addr.
  unfold mbind, io_bind, kmalloc, log.
  destruct (k_kmalloc K tr 4) as [c|]; cbn beta iota zeta.
  2: { eexists _, _. split; [reflexivity|]. by apply Herr. }
  change (bool_decide (is_Some (Some c))) with true.
  unfold call. rewrite physical_addr_map_translate, Hm by done.
  cbn [mbind outcome_bind mret outcome_ret]. unfold usb_control_in, log, kfree, log.
  destruct (k_control_in K _ _ _ _) as [ret w] eqn:E. cbn beta iota zeta.
  eexists _, _. split; [reflexivity|]. rewrite <-!app_assoc.
  destruct (Z.leb_spec 0 ret) as [Hr|Hr]; [|by apply Herr].
  pose proof (control_in_u32 K HK (tr ++ [Kmalloc 4 true]) MT_VEND_REQ_READ (a ≫ 16)
    (Z.land a 0xffff)) as Hw. rewrite E in Hw. specialize (Hok ret w Hr Hw E).
  by rewrite <-!app_assoc in Hok.
Qed.

Lemma runs_write a v tr (Q : Z → trace → Prop) :
  unmapped a →
  (∀ ret tr', ret < 0 → Q ret tr') →
  (∀ ret, 0 ≤ ret → Q 0 (tr ++ [Kmalloc 4 true; ControlOut (write_req a v) ret; Kfree])) →
  runs (mt7603_usb_write_reg K p a v) tr Q.
Proof.
  intros [Ha Hm] Herr Hok. unfold runs, mt7603_usb_write_reg, mt7603_rust_map_register_addr.
  unfold mbind, io_bind, kmalloc, log.
  destruct (k_kmalloc K tr 4) as [c|]; cbn beta iota zeta.
  2: { eexists _, _. split; [reflexivity|]. by apply Herr. }
  change (bool_decide (is_Some (Some c))) with true.
  unfold call. rewrite physical_addr_map_translate, Hm by done.
  cbn [mbind outcome_bind mret outcome_ret]. unfold usb_control_out, log, kfree, log.
  cbn beta iota zeta. eexists _, _. split; [reflexivity|]. rewrite <-!app_assoc.
  destruct (Z.ltb_spec (k_control_out K (tr ++ [Kmalloc 4 true]) (write_req a v)) 0); [by apply Herr|].
  by apply Hok.
Qed.

Lemma unmapped_efuse : unmapped MT_EFUSE_BASE_CTRL ∧ unmapped MT_EFUSE_CTRL ∧
  ∀ n, 0 ≤ n < 4 → unmapped (MT_EFUSE_RDATA n).
Proof.
  split; [by vm_compute|]. split; [by vm_compute|]. intros n Hn.
  assert (n = 0 ∨ n = 1 ∨ n = 2 ∨ n = 3) as [-> |[-> |[-> | ->]]] by lia; by vm_compute.
Qed.

(** The chip's state across the transfers of the reader. *)
Lemma chip_read_ctrl tr ret w :
  0 ≤ ret →
  chip ((tr ++ [Kmalloc 4 true]) ++
    [ControlIn MT_VEND_REQ_READ (MT_EFUSE_CTRL ≫ 16) (Z.land MT_EFUSE_CTRL 0xffff) ret w] ++ [Kfree]) =
  if Z.testbit w 30 then chip tr else (λ c, (c.1, true)) <$> chip tr.
Proof.
  intros Hr. rewrite <-app_assoc, chip_app. cbn [foldl app chip_step]. destruct (Z.testbit w 30) eqn:E.
  - rewrite decide_False; [done|]. intros (_ & _ & ?). congruence.
  - by rewrite decide_True.
Qed.

Lemma chip_read_data tr n ret w :
  0 ≤ n < 4 →
  chip ((tr ++ [Kmalloc 4 true]) ++
    [ControlIn MT_VEND_REQ_READ (MT_EFUSE_RDATA n ≫ 16) (Z.land (MT_EFUSE_RDATA n) 0xffff) ret w] ++
    [Kfree]) = chip tr.
Proof.
  intros Hn. rewrite <-app_assoc, chip_app. cbn [foldl app chip_step].
  rewrite decide_False; [done|].
  intros (_ & (_ & _ & Hi) & _). revert Hi.
  assert (n = 0 ∨ n = 1 ∨ n = 2 ∨ n = 3) as [-> |[-> |[-> | ->]]] by lia; by vm_compute.
Qed.

Lemma chip_malloc tr : chip (tr ++ [Kmalloc 4 true]) = chip tr.
Proof. by rewrite chip_app. Qed.

(** The kick word selects the block. *)
Lemma efuse_kick_word a val :
  is_u32 val → 0 ≤ a < 1024 → a mod 16 = 0 →
  is_u32 (efuse_kick a val) ∧ Z.testbit (efuse_kick a val) 30 = true ∧
  bits 16 10 (efuse_kick a val) = a.
Proof.
  intros Hv Ha Hm.
  assert (Z.ldiff a 0xf = a) as Hd.
  { change 0xf with (Z.ones 4). rewrite Z.ldiff_ones_r by lia.
    rewrite Z.shiftl_mul_pow2, Z.shiftr_div_pow2 by lia. change (2 ^ 4) with 16.
    pose proof (Z.div_mod a 16 ltac:(lia)). lia. }
  unfold efuse_kick. rewrite Hd. cbv zeta. split; [|split].
  - apply is_uint_lor; [by apply is_uint_ldiff|]. apply is_uint_lor; [apply is_uint_shl32|vm_decide].
  - rewrite !Z.lor_spec. by rewrite orb_true_r, orb_true_r.
  - rewrite (bits_lor 16 10 (Z.ldiff _ _)), bits_ldiff, (bits_lor 16 10 (shl32 _ _)).
    rewrite bits_shl32_in by lia. change (16 - 16) with 0. rewrite (bits_small 10 a) by lia.
    change (bits 16 10 MT_EFUSE_CTRL_KICK) with 0. rewrite Z.lor_0_r.
    change (bits 16 10 (Z.lor MT_EFUSE_CTRL_AIN MT_EFUSE_CTRL_MODE)) with (Z.ones 10).
    pose proof (bits_uint 16 10 val ltac:(lia)) as Hb. unfold is_uint in Hb.
    rewrite Z.ldiff_ones_r_low; [by rewrite Z.lor_0_l|lia|].
    destruct (decide (bits 16 10 val = 0)) as [->|]; [done|]. apply Z.log2_lt_pow2; lia.
Qed.

Lemma chip_kick tr a val ret :
  is_u32 val → 0 ≤ a < 1024 → a mod 16 = 0 → 0 ≤ ret →
  chip (tr ++ [Kmalloc 4 true; ControlOut (write_req MT_EFUSE_CTRL (efuse_kick a val)) ret; Kfree]) =
  Some (a, false).
Proof.
  intros Hv Ha Hm Hr. destruct (efuse_kick_word a val Hv Ha Hm) as (Hu & H30 & Hain).
  rewrite chip_app. cbn [foldl chip_step].
  assert (req_word (write_req MT_EFUSE_CTRL (efuse_kick a val)) = efuse_kick a val) as Hw
    by by apply u32_from_to.
  rewrite Hw, decide_True by done. by rewrite H30, Hain.
Qed.

(** [ret] is 0 or the error of the transfer that failed. *)
Lemma efuse_poll_runs n val tr a b :
  is_u32 val → Z.testbit val 30 = true → chip tr = Some (a, b) →
  runs (efuse_poll K p n val) tr (λ r tr',
    r.1 ≤ 0 ∧ is_u32 r.2 ∧
    (r.1 = 0 → Z.testbit r.2 30 = false → chip tr' = Some (a, true))).
Proof.
  revert val tr b. induction n as [|n IH]; intros val tr b Hu Hv Hc.
  { apply runs_ret. cbn [fst snd]. split_and!; [lia|done|congruence]. }
  cbn [efuse_poll]. eapply runs_bind.
  { eexists _, _. split; [reflexivity|]. instantiate (1 := λ _ tr', chip tr' = Some (a, b)).
    cbn beta. by rewrite chip_app. }
  cbn beta. intros _ tr1 Hc1. eapply runs_bind.
  { apply (runs_read _ _ _ (λ r tr', (r.1 < 0 ∧ r.2 = val) ∨ (r.1 = 0 ∧ is_u32 r.2 ∧
      chip tr' = Some (a, if Z.testbit r.2 30 then b else true)))); [apply unmapped_efuse| |].
    - auto.
    - intros ret w Hr Hw tr0 _. unfold tr0. right. split; [done|]. split; [done|].
      rewrite chip_read_ctrl, Hc1 by done. cbn [fst snd]. by destruct (Z.testbit w 30). }
  cbn beta. intros [ret w] tr2 [[Hr Hw]|(Hr & Hw & Hc2)]; cbn [fst snd] in *.
  - rewrite (proj2 (Z.eqb_neq ret 0)), Hw by lia. apply runs_ret. cbn [fst snd]. split_and!; [lia|done|lia].
  - rewrite Hr, kick_clear. cbn [Z.eqb negb]. destruct (Z.testbit w 30) eqn:E; cbn [negb].
    + by eapply IH.
    + apply runs_ret. by split_and!.
Qed.

Lemma splice_splice {A} o (s1 s2 l : list A) :
  (o + length s1 + length s2 ≤ length l)%nat →
  splice (o + length s1) s2 (splice o s1 l) = splice o (s1 ++ s2) l.
Proof.
  intros Hl. unfold splice. rewrite length_app, <-app_assoc.
  rewrite (app_assoc (take o l) s1 (drop _ l)).
  rewrite take_app_length' by list_len. rewrite <-app_assoc.
  do 3 f_equal. rewrite drop_app_ge by list_len. rewrite drop_drop. f_equal. list_len.
Qed.

(** Only the block's bytes of the buffer change. *)
Definition within_block (off : nat) (buf buf' : list Z) : Prop :=
  length buf' = length buf ∧ take off buf' = take off buf ∧
  drop (off + 16) buf' = drop (off + 16) buf ∧ (Forall is_u8 buf → Forall is_u8 buf').

Lemma within_block_splice off k s buf :
  (off + 16 ≤ length buf)%nat → (k + length s ≤ 16)%nat → Forall is_u8 s →
  within_block off buf (splice (off + k) s buf).
Proof.
  intros Hb Hk Hs. split_and!.
  - apply length_splice. lia.
  - unfold splice. rewrite take_app_le by list_len. by rewrite take_take, Nat.min_l by lia.
  - unfold splice. rewrite app_assoc, drop_app_ge by list_len. rewrite drop_drop. f_equal. list_len.
  - intros HF. unfold splice. rewrite !Forall_app. split_and!; [by apply Forall_take|done|by apply Forall_drop].
Qed.

Lemma within_block_trans off b1 b2 b3 :
  within_block off b1 b2 → within_block off b2 b3 → within_block off b1 b3.
Proof. unfold within_block. intuition congruence. Qed.

Lemma u32_bytes_u8 w : Forall is_u8 (u32_to_le_bytes w).
Proof. repeat constructor; apply bits_u8. Qed.

Lemma efuse_words_runs n i buf off val tr a :
  (i + n = 4)%nat → (off + 16 ≤ length buf)%nat → chip tr = Some (a, true) →
  runs (efuse_words K p n i buf off val) tr (λ r tr',
    r.1 ≤ 0 ∧ within_block off buf r.2 ∧
    ∀ image bytes, efuse_chip K image → image a = Some bytes → r.1 = 0 →
      r.2 = splice (off + 4 * i) (drop (4 * i) bytes) buf).
Proof.
  revert i buf val tr. induction n as [|n IH]; intros i buf val tr Hi Hb Hc.
  { apply runs_ret. cbn [fst snd]. split_and!; [lia|done..|]. intros image bytes Hch Him _.
    destruct (image_block K image Hch a bytes Him) as [Hlen _]. rewrite (drop_ge bytes) by lia. unfold splice.
    cbn [app length]. by rewrite Nat.add_0_r, take_drop. }
  cbn [efuse_words]. eapply runs_bind.
  { apply (runs_read _ _ _ (λ r tr', (r.1 < 0) ∨ (r.1 = 0 ∧ chip tr' = Some (a, true) ∧
      ∀ image bytes, efuse_chip K image → image a = Some bytes →
        u32_to_le_bytes r.2 = take 4 (drop (4 * i) bytes)))).
    - apply unmapped_efuse. lia.
    - auto.
    - intros ret w Hr Hw tr1 Hk. right. split; [done|].
      split; [by unfold tr1; rewrite chip_read_data by lia|]. intros image bytes Hch Him.
      pose proof (chip_data K image Hch tr1 a bytes (Z.of_nat i) ret w) as Hd.
      rewrite Nat2Z.id in Hd. apply Hd; [by unfold tr1; rewrite chip_malloc|done|lia|done|done]. }
  cbn beta. intros [ret w] tr2 [Hr|(Hr & Hc2 & Hd)]; cbn [fst snd] in *.
  - rewrite (proj2 (Z.eqb_neq ret 0)) by lia. apply runs_ret. simpl. split_and!; [lia|done|].
    intros. lia.
  - rewrite Hr. cbn [Z.eqb negb]. eapply runs_bind.
    { eapply (runs_call _ (splice (off + 4 * i) (u32_to_le_bytes w) buf)
        _ (λ buf' tr', buf' = splice (off + 4 * i) (u32_to_le_bytes w) buf ∧ tr' = tr2)); [|done].
      unfold store. rewrite decide_True; [done|]. rewrite length_u32_to_le_bytes. lia. }
    cbn beta. intros buf' tr' [-> ->].
    assert (within_block off buf (splice (off + 4 * i) (u32_to_le_bytes w) buf)) as Hwb
      by (apply within_block_splice; rewrite ?length_u32_to_le_bytes; (lia || apply u32_bytes_u8)).
    destruct (IH (S i) (splice (off + 4 * i) (u32_to_le_bytes w) buf) w tr2)
      as (r & tr3 & Hm & H1 & H2 & H3); [lia|rewrite length_splice by list_len; lia|done|].
    exists r, tr3. split; [done|]. split; [done|].
    split; [by eapply within_block_trans|]. intros image bytes Hch Him Hr0.
    rewrite (H3 image bytes Hch Him Hr0), (Hd image bytes Hch Him).
    destruct (image_block K image Hch a bytes Him) as [Hlen _].
    rewrite <-(take_drop 4 (drop (4 * i) bytes)) at 2. rewrite drop_drop.
    rewrite <-splice_splice by list_len.
    replace (length (take 4 (drop (4 * i) bytes))) with 4%nat by list_len.
    replace (off + 4 * i + 4)%nat with (off + 4 * S i)%nat by lia.
    by replace (4 * i + 4)%nat with (4 * S i)%nat by lia.
Qed.

(** A block: the driver's word for it, whatever happened before. *)
(** The outcome of reading a block: what was read, or an error. *)
Definition block_read (addr : Z) (buf : list Z) (off : nat) (r : Z * list Z) : Prop :=
  r.1 ≤ 0 ∧ within_block off buf r.2 ∧
  ∀ image, efuse_chip K image → r.1 = 0 → r.2 = splice off (block_bytes image addr) buf.

Lemma block_read_error addr buf off ret tr (f : io (Z * list Z)) :
  ret < 0 →
  runs (if negb (ret =? 0) then mret (ret, buf) else f) tr (λ r _, block_read addr buf off r).
Proof.
  intros Hr. rewrite (proj2 (Z.eqb_neq ret 0)) by lia. apply runs_ret. unfold block_read. cbn.
  split_and!; [lia|done|lia].
Qed.

(** The status word of a block that is being read. *)
Lemma status_runs addr v tr :
  chip tr = Some (addr, true) →
  runs (mt7603_usb_read_reg K p MT_EFUSE_CTRL v) tr (λ r tr',
    r.1 < 0 ∨ (r.1 = 0 ∧ chip tr' = Some (addr, true) ∧
      ∀ image, efuse_chip K image → efuse_absent r.2 = bool_decide (image addr = None))).
Proof.
  intros Hc. apply runs_read; [apply unmapped_efuse|auto..].
  intros ret' w Hr' Hw tr' Hk. right. split; [done|].
  split; [unfold tr'; rewrite chip_read_ctrl, Hc by done; by destruct (Z.testbit w 30)|].
  intros image Hch. eapply (chip_status K image Hch tr'); [|done|done].
  by unfold tr'; rewrite chip_malloc.
Qed.

(** The data of a block whose status says whether it was programmed. *)
Lemma block_data_runs addr buf off v tr :
  (off + 16 ≤ length buf)%nat → chip tr = Some (addr, true) →
  (∀ image, efuse_chip K image → efuse_absent v = bool_decide (image addr = None)) →
  runs (if efuse_absent v then b ← call (store buf off (replicate 16 0xff)); mret (0, b)
        else efuse_words K p 4 0 buf off v) tr (λ r _, block_read addr buf off r).
Proof.
  intros Hb Hc Habs. destruct (efuse_absent v).
  - eapply runs_bind.
    { apply (runs_call _ (splice off (replicate 16 0xff) buf) _
        (λ b _, b = splice off (replicate 16 0xff) buf)); [|done].
      unfold store. by rewrite decide_True by list_len. }
    cbn beta. intros b tr6 ->. apply runs_ret. unfold block_read. cbn [fst snd]. split; [lia|].
    split; [rewrite <-(Nat.add_0_r off) at 2; apply within_block_splice; [list_len..|vm_decide]|].
    intros image Hch _. unfold block_bytes.
    destruct (image addr) eqn:Him; [|done]. specialize (Habs image Hch). by rewrite Him in Habs.
  - destruct (efuse_words_runs 4 0 buf off v tr addr eq_refl Hb Hc) as (r6 & tr6 & Hm6 & H1 & H2 & H3).
    exists r6, tr6. split; [done|]. split; [done|]. split; [done|]. intros image Hch Hr0.
    unfold block_bytes. destruct (image addr) as [bytes|] eqn:Him.
    + rewrite (H3 image bytes Hch Him Hr0). by rewrite Nat.add_0_r, drop_0.
    + specialize (Habs image Hch). by rewrite Him in Habs.
Qed.

Lemma efuse_block_runs addr buf off tr :
  0 ≤ addr < 1024 → addr mod 16 = 0 → (off + 16 ≤ length buf)%nat →
  runs (mt7603_efuse_read_block K p addr buf off) tr (λ r _, block_read addr buf off r).
Proof.
  intros Ha Hm Hb. unfold mt7603_efuse_read_block. eapply runs_bind.
  { apply (runs_read _ _ _ (λ r tr', r.1 < 0 ∨ (r.1 = 0 ∧ is_u32 r.2))); [apply unmapped_efuse|auto..]. }
  cbn beta. intros [ret val] tr1 [Hr|[Hr Hv]]; cbn [fst snd] in *; [by apply block_read_error|].
  rewrite Hr. cbn [Z.eqb negb]. cbv zeta.
  destruct (efuse_kick_word addr val Hv Ha Hm) as (Hku & Hk30 & _). eapply runs_bind.
  { apply (runs_write _ _ _ (λ r tr', r < 0 ∨ (r = 0 ∧ chip tr' = Some (addr, false))));
      [apply unmapped_efuse|auto|]. intros r Hr0. right. by rewrite chip_kick. }
  cbn beta. intros r tr2 [Hr2|[Hr2 Hc2]]; [by apply block_read_error|].
  rewrite Hr2. cbn [Z.eqb negb]. eapply runs_bind; [by eapply efuse_poll_runs|].
  cbn beta. intros [r3 v3] tr3 (Hr3 & Hv3 & Hc3); cbn [fst snd] in *.
  destruct (Z.eqb_spec r3 0) as [E3|]; cbn [negb]; [|apply runs_ret; split_and!; cbn; [lia|done|lia]].
  rewrite kick_clear. destruct (Z.testbit v3 30) eqn:E30; cbn [negb]; [apply runs_ret; by split_and!|].
  specialize (Hc3 E3 eq_refl). eapply runs_bind.
  { eexists _, _. split; [reflexivity|].
    instantiate (1 := λ _ tr', chip tr' = Some (addr, true)). cbn beta. by rewrite chip_app. }
  cbn beta. intros _ tr4 Hc4. eapply runs_bind; [by apply status_runs|].
  cbn beta. intros [r5 v5] tr5 [Hr5|(Hr5 & Hc5 & Habs)]; cbn [fst snd] in *; [by apply block_read_error|].
  rewrite Hr5. cbn [Z.eqb negb]. by apply block_data_runs.
Qed.

(** The contents of blocks [k] to [k + n - 1]. *)
Definition image_bytes (image : Z → option (list Z)) (k n : nat) : list Z :=
  concat ((λ j, block_bytes image (16 * Z.of_nat j)) <$> seq k n).

Lemma length_block_bytes image a :
  efuse_chip K image → length (block_bytes image a) = 16%nat.
Proof.
  intros Hch. unfold block_bytes. destruct (image a) eqn:E; [|done].
  by destruct (image_block K image Hch a _ E).
Qed.

Lemma length_image_bytes image k n :
  efuse_chip K image → length (image_bytes image k n) = (16 * n)%nat.
Proof.
  intros Hch. unfold image_bytes. revert k. induction n as [|n IH]; intros k; [done|].
  cbn [seq fmap list_fmap concat]. rewrite length_app, length_block_bytes by done.
  fold (fmap (M := list) (λ j, block_bytes image (16 * Z.of_nat j))). rewrite IH. lia.
Qed.

Lemma efuse_blocks_runs fuel k buf len tr :
  (16 * k ≤ len)%nat → (len ≤ 1024)%nat → (len ≤ length buf)%nat → (len - 16 * k < 16 * fuel)%nat →
  runs (efuse_blocks K p fuel (16 * k) buf len) tr (λ r _,
    r.1 ≤ 0 ∧ length r.2 = length buf ∧ (Forall is_u8 buf → Forall is_u8 r.2) ∧
    ∀ image, efuse_chip K image → r.1 = 0 →
      r.2 = splice (16 * k) (image_bytes image k (len / 16 - k)) buf).
Proof.
  revert k buf tr. induction fuel as [|fuel IH]; intros k buf tr Hk Hlen Hb Hf; [lia|].
  cbn [efuse_blocks]. case_decide as Hgo.
  - assert (wrap 16 (Z.of_nat (16 * k)) = Z.of_nat (16 * k)) as -> by (apply Z.mod_small; lia).
    eapply runs_bind.
    { apply (efuse_block_runs (Z.of_nat (16 * k)) buf (16 * k)); [lia| |lia].
      replace (Z.of_nat (16 * k)) with (Z.of_nat k * 16) by lia. apply Z_mod_mult. }
    cbn beta. intros [ret b] tr1 (Hr & (Hl & _ & _ & Hu) & Hblk); cbn [fst snd] in *.
    destruct (Z.eqb_spec ret 0) as [Hr0|]; cbn [negb].
    2: { apply runs_ret. cbn [fst snd]. split_and!; [lia|done|done|lia]. }
    replace (16 * k + 16)%nat with (16 * S k)%nat by lia.
    destruct (IH (S k) b tr1) as (r & tr2 & Hm & H1 & H2 & Hu' & H3); [lia..|].
    exists r, tr2. split; [done|]. split; [done|]. split; [lia|]. split; [auto|]. intros image Hch Hr2.
    rewrite (H3 image Hch Hr2), (Hblk image Hch Hr0).
    assert (k < len / 16)%nat by (apply Nat.div_le_lower_bound; lia).
    replace (len / 16 - k)%nat with (S (len / 16 - S k)) by lia.
    unfold image_bytes at 2. cbn [seq fmap list_fmap concat].
    fold (fmap (M := list) (λ j, block_bytes image (16 * Z.of_nat j))).
    fold (image_bytes image (S k) (len / 16 - S k)).
    pose proof (length_block_bytes image (Z.of_nat (16 * k)) Hch) as Hbl.
    replace (16 * Z.of_nat k) with (Z.of_nat (16 * k)) by lia.
    rewrite <-splice_splice.
    { rewrite Hbl. by replace (16 * k + 16)%nat with (16 * S k)%nat by lia. }
    rewrite Hbl, length_image_bytes by done.
    pose proof (Nat.div_mod_eq len 16). lia.
  - apply runs_ret. cbn [fst snd]. split_and!; [lia|done|done|]. intros image Hch _.
    assert (len / 16 = k)%nat as -> by
      (symmetry; apply (Nat.div_unique _ _ _ (len - 16 * k)%nat); lia).
    rewrite Nat.sub_diag. unfold image_bytes, splice. cbn [seq fmap list_fmap concat app length].
    by rewrite Nat.add_0_r, take_drop.
Qed.

Lemma efuse_read_all_runs buf len tr :
  (len ≤ 1024)%nat → (len ≤ length buf)%nat →
  runs (mt7603_efuse_read_all K p buf len) tr (λ r _,
    r.1 ≤ 0 ∧ length r.2 = length buf ∧ (Forall is_u8 buf → Forall is_u8 r.2) ∧
    ∀ image, efuse_chip K image → r.1 = 0 → r.2 = splice 0 (image_bytes image 0 (len / 16)) buf).
Proof.
  intros Hl Hb. unfold mt7603_efuse_read_all. eapply runs_bind.
  { apply (runs_read _ _ _ (λ r _, r.1 ≤ 0)); [apply unmapped_efuse| |done]. intros. simpl. lia. }
  cbn beta. intros [ret val] tr1 Hr; cbn [fst snd] in *.
  destruct (Z.eqb_spec ret 0) as [->|]; cbn [negb].
  2: { apply runs_ret. cbn [fst snd]. split_and!; [lia|done|done|lia]. }
  destruct (_ =? 0); cbn [negb].
  2: { apply runs_ret. split_and!; done. }
  destruct (efuse_blocks_runs (S len) 0 buf len tr1) as (r & tr2 & Hm & H1 & H2 & Hu & H3); [lia..|].
  exists r, tr2. rewrite Nat.sub_0_r in H3. done.
Qed.

(** *** The transfers of the reader *)

(** Nothing is held, and only the control register is written. *)
Definition gentle (e : effect) : Prop :=
  mem e = 0 ∧ urbs e = 0 ∧ flying e = 0 ∧
  Forall (λ w, ∃ v ok, w = hif_write MT_EFUSE_CTRL v ok) (wires e).

Lemma gentle_quiet : gentle quiet.
Proof. by repeat constructor. Qed.
Lemma gentle_app e1 e2 : gentle e1 → gentle e2 → gentle (e1 ⊕ e2).
Proof.
  intros (? & ? & ? & Hw1) (? & ? & ? & Hw2).
  split_and!; simpl; [lia..|]. by apply Forall_app.
Qed.

(** When [m] returns, what it added to the trace is gentle. *)
Definition gently {A} (m : io A) : Prop :=
  ∀ tr a tr', m tr = Done (a, tr') → ∃ new, tr' = tr ++ new ∧ gentle (effect_of new).

Lemma gently_emits {A} (m : io A) (P : A → effect → Prop) :
  emits m P → (∀ a e, P a e → gentle e) → gently m.
Proof.
  intros Hm HP tr a tr' Heq. destruct (Hm tr) as (a' & new & Hd & Ha).
  rewrite Hd in Heq. injection Heq as <- <-. eauto.
Qed.

Lemma gently_bind {A B} (m : io A) (f : A → io B) :
  gently m → (∀ a, gently (f a)) → gently (m ≫= f).
Proof.
  intros Hm Hf tr b tr'' Heq. unfold mbind, io_bind in Heq.
  destruct (m tr) as [[a tr']| |] eqn:E; [|done..].
  destruct (Hm _ _ _ E) as (n1 & -> & H1). destruct (Hf _ _ _ _ Heq) as (n2 & -> & H2').
  exists (n1 ++ n2). rewrite <-app_assoc, effect_of_app. split; [done|]. by apply gentle_app.
Qed.

Lemma gently_ret {A} (a : A) : gently (mret a).
Proof. intros tr b tr' [= <- <-]. exists []. by rewrite app_nil_r. Qed.
Lemma gently_call {A} (m : outcome A) : gently (call m).
Proof.
  intros tr b tr' Heq. unfold call in Heq. destruct m; [|done..].
  injection Heq as <- <-. exists []. by rewrite app_nil_r.
Qed.
Lemma gently_undefined {A} : gently (undefined (A := A)).
Proof. by intros ???. Qed.
Lemma gently_read a v : unmapped a → gently (mt7603_usb_read_reg K p a v).
Proof.
  intros [Ha _]. eapply gently_emits; [by apply read_reg_emits|].
  intros r e [-> _]. apply gentle_quiet.
Qed.
Lemma gently_write v : gently (mt7603_usb_write_reg K p MT_EFUSE_CTRL v).
Proof.
  eapply gently_emits; [apply write_reg_emits; vm_decide|].
  intros r e [[_ ->]|(_ & [-> | ->])]; [|apply gentle_quiet|]; split_and!; try done; simpl;
    (constructor; [by eexists _, _|done]).
Qed.
Lemma gently_sleep : gently msleep.
Proof. eapply gently_emits; [apply msleep_emits|]. intros _ e ->. apply gentle_quiet. Qed.

Create HintDb gently.
Hint Resolve gently_ret gently_call gently_undefined gently_write gently_sleep : gently.

(** One step of a function all of whose parts are gentle. *)
Ltac gently :=
  repeat lazymatch goal with
    | |- gently (mt7603_usb_read_reg _ _ _ _) => apply gently_read; try apply unmapped_efuse
    | |- gently (_ ≫= _) => apply gently_bind; [|intros ?]
    | |- gently (match ?x with _ => _ end) => destruct x
    | |- gently _ => solve [eauto with gently]
    end.

Lemma efuse_poll_gently n val : gently (efuse_poll K p n val).
Proof. revert val. induction n as [|n IH]; intros val; cbn [efuse_poll]; gently. Qed.

Lemma efuse_words_gently n i buf off val :
  (i + n ≤ 4)%nat → gently (efuse_words K p n i buf off val).
Proof.
  revert i buf val. induction n as [|n IH]; intros i buf val Hi; cbn [efuse_words]; gently.
  - lia.
  - apply IH. lia.
Qed.

Lemma efuse_block_gently addr buf off : gently (mt7603_efuse_read_block K p addr buf off).
Proof.
  unfold mt7603_efuse_read_block. gently; [apply efuse_poll_gently|by apply efuse_words_gently].
Qed.

Lemma efuse_read_all_gently buf len : gently (mt7603_efuse_read_all K p buf len).
Proof.
  assert (∀ fuel i buf, gently (efuse_blocks K p fuel i buf len)) as Hb.
  { intros fuel. induction fuel as [|fuel IH]; intros i b; cbn [efuse_blocks]; gently.
    apply efuse_block_gently. }
  unfold mt7603_efuse_read_all. gently.
Qed.
End efuse_spec.

(** What registration reads off the image. *)
Lemma register_eeprom_runs K p stack tr :
  kernel_ok K →
  ∃ dev new, mt7603_register_eeprom K p stack tr = Done (dev, tr ++ new) ∧ gentle (effect_of new) ∧
    (∃ mac valid off e2p, dev = Dev.registered mac valid off e2p) ∧
    Dev.wf dev ∧ ¬ blank_mac (Dev.mac_addr dev) ∧ -10 ≤ Dev.rssi_offset_2g dev ≤ 10 ∧
    (Dev.eeprom_valid dev = false → Dev.mac_addr dev = fallback_mac ∧ Dev.rssi_offset_2g dev = 0) ∧
    (Dev.eeprom_valid dev = true → ∀ image, efuse_chip K image →
       let e2p := image_bytes image 0 64 in
       Dev.eeprom dev = e2p ∧
       Dev.mac_addr dev = (if decide (blank_mac (take 6 (drop 4 e2p))) then fallback_mac
                           else take 6 (drop 4 e2p)) ∧
       Dev.rssi_offset_2g dev =
         let off := as_i8 (nth 0x46 e2p 0) in if decide (-10 ≤ off ≤ 10) then off else 0).
Proof.
  intros HK. destruct (efuse_read_all_runs K p HK (replicate MT7603_EEPROM_SIZE 0xff)
    MT7603_EEPROM_SIZE tr) as ([ret e2p] & tr' & Hm & Hr & Hlen & Hu8 & Himg);
    [unfold MT7603_EEPROM_SIZE; lia|list_len|].
  destruct (efuse_read_all_gently K p _ _ _ _ _ Hm) as (new & -> & Hg). cbn [fst snd] in *.
  rewrite length_replicate in Hlen. specialize (Hu8 ltac:(vm_decide)).
  unfold mt7603_register_eeprom, mbind, io_bind. rewrite Hm. cbv zeta.
  set (e := if ret =? 0 then take 512 e2p else dummy_e2p).
  assert (length e = 512%nat) as He.
  { unfold e. destruct (ret =? 0); [|done]. rewrite length_take, Hlen. done. }
  unfold mt7603_rust_parse_eeprom. unfold call.
  rewrite (run_parser_done _ _ _ _ (Ok (eeprom_data e)))
    by (rewrite ?take_ge by lia; apply parse_eeprom_long || idtac; lia).
  destruct (eeprom_data_usable e) as (Hm6 & Hblank & Hoff & Hval); [lia|].
  cbn [mbind outcome_bind mret outcome_ret]. unfold io_ret.
  change (default stack (Some (eeprom_data e))) with (eeprom_data e). rewrite Hval.
  eexists _, new. split; [reflexivity|]. split; [done|]. split; [by eexists _, _, _, _|].
  cbn [Dev.registered Dev.mac_addr Dev.rssi_offset_2g Dev.eeprom Dev.eeprom_valid Z.eqb negb andb].
  split.
  { assert (Forall is_u8 e) as Heu by (unfold e; destruct (ret =? 0); [by apply Forall_take|vm_decide]).
    assert (Forall is_u8 (mac_addr (eeprom_data e))) as Hmu.
    { unfold eeprom_data. cbn [mac_addr]. case_decide; [vm_decide|]. by apply Forall_take, Forall_drop. }
    assert (is_i8 (if ret =? 0 then rssi_offset_2g (eeprom_data e) else 0)) as Hi8
      by (unfold is_i8; destruct (ret =? 0); lia).
    unfold Dev.wf. repeat (split; [assumption || vm_decide|]). done. }
  split; [done|]. split; [destruct (ret =? 0); lia|].
  unfold e in *. destruct (Z.eqb_spec ret 0) as [Hr0|Hr0]; (split; [|]); [done| |by vm_compute|done].
  intros _ image Hch. specialize (Himg image Hch Hr0).
  change (MT7603_EEPROM_SIZE / 16)%nat with 64%nat in Himg.
  pose proof (length_image_bytes K image 0 64 Hch) as Hil. set (img := image_bytes image 0 64) in *.
  unfold splice in Himg. rewrite (drop_ge (replicate _ _)), app_nil_r in Himg
    by (rewrite Hil, length_replicate; unfold MT7603_EEPROM_SIZE; lia).
  simpl in Himg. subst e2p.
  assert (take 6 (drop 4 (take 512 img)) = take 6 (drop 4 img)) as Hmac
    by (rewrite skipn_firstn_comm, take_take; done).
  unfold eeprom_data. cbn [mac_addr rssi_offset_2g]. rewrite Hmac.
  split_and!; [done..|]. by rewrite !nth_lookup, lookup_take_lt by lia.
Qed.

(** ** Correctness *)

(** C25. Reading the eFuse terminates with the image: whatever the transfers
    and the chip's timing do, the reader returns after at most a hundred polls
    per block, holds no memory, writes no register but the eFuse control word
    and never writes outside the buffer; and when it reports success on a
    chip, the buffer holds the chip's memory, block by block, with blocks that
    were never written read as 0xff. *)
Theorem efuse_read_all_correct K p buf len tr :
  kernel_ok K → (len ≤ 1024)%nat → (len ≤ length buf)%nat →
  ∃ ret buf' new, mt7603_efuse_read_all K p buf len tr = Done ((ret, buf'), tr ++ new) ∧
    ret ≤ 0 ∧ length buf' = length buf ∧ gentle (effect_of new) ∧
    ∀ image, efuse_chip K image → ret = 0 →
      buf' = image_bytes image 0 (len / 16) ++ drop (16 * (len / 16)) buf.
Proof.
  intros HK Hl Hb.
  destruct (efuse_read_all_runs K p HK buf len tr Hl Hb) as ([ret buf'] & tr' & Hm & Hr & Hlen & _ & Himg).
  destruct (efuse_read_all_gently K p buf len _ _ _ Hm) as (new & -> & Hg).
  exists ret, buf', new. split_and!; try done. intros image Hch Hr0.
  rewrite (Himg image Hch Hr0) at 1. unfold splice.
  by rewrite (length_image_bytes K).
Qed.

(** A chip that holds two blocks and is busy at the first poll. *)
Definition sample_image (a : Z) : option (list Z) :=
  if a =? 0 then Some ([0x03; 0x76; 0; 1; 0x40; 0x41; 0x42; 0x43; 0x44; 0x45] ++ replicate 6 9)
  else if a =? 64 then Some (replicate 6 1 ++ [0xFB] ++ replicate 9 2)
  else None.
Definition is_transfer (e : event) : bool :=
  match e with ControlIn _ _ _ _ _ | ControlOut _ _ => true | _ => false end.
Definition sample_answer (tr : trace) (i : Z) : Z :=
  let bytes := default (replicate 16 0) (chip tr ≫= λ c, sample_image c.1) in
  if i =? Z.land MT_EFUSE_CTRL 0xffff then
    match chip tr with
    | Some (a, done) =>
        let polled := match last (filter (λ e, is_transfer e = true) tr) with
                      | Some (ControlIn _ _ _ _ _) => true | _ => false end in
        Z.lor (if done || polled then 0 else MT_EFUSE_CTRL_KICK)
          (if bool_decide (sample_image a = None) then MT_EFUSE_CTRL_AOUT else MT_EFUSE_CTRL_VALID)
    | None => 0
    end
  else
    let n := Z.to_nat (i - 0x30) in
    u32_from_le_bytes (nth n bytes 0) (nth (n + 1) bytes 0) (nth (n + 2) bytes 0) (nth (n + 3) bytes 0).
Definition sample_kernel : kernel := {|
  k_kmalloc := λ _ n, Some (replicate n 0xA5);
  k_control_in := λ tr _ _ i, (4, wrap 32 (sample_answer tr i));
  k_control_out := λ _ _, 4;
  k_bulk_out := λ _ _ _, 0;
  k_alloc_urb := λ _, true;
  k_submit_urb := λ _ _ _, 0;
  k_wait := λ _ _, Some 0;
|}.

Lemma sample_image_block a bytes :
  sample_image a = Some bytes → length bytes = 16%nat ∧ Forall is_u8 bytes.
Proof.
  unfold sample_image. destruct (a =? 0); [intros [= <-]; split; [done|vm_decide]|].
  destruct (a =? 64); [intros [= <-]; split; [done|vm_decide]|done].
Qed.

Lemma sample_data bytes n :
  length bytes = 16%nat → Forall is_u8 bytes → 0 ≤ n < 4 →
  u32_to_le_bytes (wrap 32 (let k := Z.to_nat (4 * n) in
    u32_from_le_bytes (nth k bytes 0) (nth (k + 1) bytes 0) (nth (k + 2) bytes 0)
      (nth (k + 3) bytes 0))) = take 4 (drop (4 * Z.to_nat n) bytes).
Proof.
  intros Hl HF Hn. do 16 (destruct bytes as [|? bytes]; [done|]). destruct bytes; [|done].
  rewrite !Forall_cons in HF. destruct_and!.
  assert (n = 0 ∨ n = 1 ∨ n = 2 ∨ n = 3) as [-> |[-> |[-> | ->]]] by lia; simpl;
    unfold wrap; (rewrite Z.mod_small by by apply u32_from_u32); by apply u32_to_from.
Qed.

Lemma sample_kernel_ok : kernel_ok sample_kernel.
Proof.
  split; [intros tr n m [= <-]; apply length_replicate|].
  intros. by apply is_uint_wrap.
Qed.

Lemma sample_chip : efuse_chip sample_kernel sample_image.
Proof.
  split; [apply sample_image_block| |].
  - intros tr a ret w Hc [= <- <-] _. unfold sample_answer. rewrite Hc. cbn [Z.eqb orb].
    by destruct (bool_decide _).
  - intros tr a bytes n ret w Hc Him Hn [= <- <-] _. unfold sample_answer. rewrite Hc.
    destruct (sample_image_block a bytes Him) as [Hl HF].
    rewrite <-(sample_data bytes n Hl HF Hn). do 2 f_equal.
    cbn [option_bind mbind fst]. unfold mbind, option_bind. cbn [fst]. rewrite Him. cbn [default].
    assert (n = 0 ∨ n = 1 ∨ n = 2 ∨ n = 3) as [-> |[-> |[-> | ->]]] by lia; done.
Qed.

Lemma efuse_read_all_correct_witness :
  ∃ ret buf' new, mt7603_efuse_read_all sample_kernel Release (replicate 80 7) 75 [] =
      Done ((ret, buf'), [] ++ new) ∧
    ret = 0 ∧ gentle (effect_of new) ∧
    buf' = image_bytes sample_image 0 4 ++ replicate 16 7 ∧
    take 16 buf' = [0x03; 0x76; 0; 1; 0x40; 0x41; 0x42; 0x43; 0x44; 0x45] ++ replicate 6 9.
Proof.
  destruct (efuse_read_all_correct sample_kernel Release (replicate 80 7) 75 [] sample_kernel_ok)
    as (ret & buf' & new & Hm & _ & _ & Hg & Himg); [lia|simpl; lia|].
  assert (ret = 0) as Hr.
  { assert (match mt7603_efuse_read_all sample_kernel Release (replicate 80 7) 75 [] with
      | Done ((r, _), _) => r =? 0 | _ => false end = true) as E by by vm_compute.
    rewrite Hm in E. by apply Z.eqb_eq. }
  exists ret, buf', new. rewrite (Himg _ sample_chip Hr).
  split; [|by split_and!]. by rewrite <-(Himg _ sample_chip Hr).
Defined.

(** C36. The device gets its identity from the chip: registration reads the
    image with at most the errors of the transfers; when it was read, the
    EEPROM copy is the chip's memory, the station address is the one at offset
    4 unless that was never programmed, and the calibration offset the one at
    0x46 within 10 dB; when it was not, the address is the fallback and the
    offset 0.  Either way the device record is well formed. *)
Theorem register_eeprom_identity K p stack tr :
  kernel_ok K →
  ∃ dev new, mt7603_register_eeprom K p stack tr = Done (dev, tr ++ new) ∧ gentle (effect_of new) ∧
    Dev.wf dev ∧ ¬ blank_mac (Dev.mac_addr dev) ∧ -10 ≤ Dev.rssi_offset_2g dev ≤ 10 ∧
    (Dev.eeprom_valid dev = false → Dev.mac_addr dev = fallback_mac ∧ Dev.rssi_offset_2g dev = 0) ∧
    (Dev.eeprom_valid dev = true → ∀ image, efuse_chip K image →
       let e2p := image_bytes image 0 64 in
       Dev.eeprom dev = e2p ∧
       Dev.mac_addr dev = (if decide (blank_mac (take 6 (drop 4 e2p))) then fallback_mac
                           else take 6 (drop 4 e2p)) ∧
       Dev.rssi_offset_2g dev =
         let off := as_i8 (nth 0x46 e2p 0) in if decide (-10 ≤ off ≤ 10) then off else 0).
Proof.
  intros HK. destruct (register_eeprom_runs K p stack tr HK) as (dev & new & Hm & Hg & _ & Hrest).
  by exists dev, new.
Qed.

Lemma register_eeprom_identity_witness :
  ∃ dev new, mt7603_register_eeprom sample_kernel Release EepromData_default [] = Done (dev, [] ++ new) ∧
    (Dev.eeprom_valid dev = true → Dev.mac_addr dev = [0x40; 0x41; 0x42; 0x43; 0x44; 0x45] ∧
       Dev.rssi_offset_2g dev = -5).
Proof.
  destruct (register_eeprom_identity sample_kernel Release EepromData_default [] sample_kernel_ok)
    as (dev & new & Hm & _ & _ & _ & _ & _ & Himg).
  exists dev, new. split; [done|]. intros Hv.
  destruct (Himg Hv sample_image sample_chip) as (_ & -> & ->).
  assert (image_bytes sample_image 0 64 = take 80 (image_bytes sample_image 0 64) ++ replicate 944 0xff)
    as -> by by vm_compute.
  split; vm_decide.
Defined.
