(* ===== verification/Life.v ===== *)
(** * From plugging in to unplugging (src/c/usb.c, src/c/mac80211.c)

    mt7603u_probe and mt7603u_disconnect, with the registration between them:
    the firmware download, the device record, the life of the driver under
    mac80211's callbacks, and the removal, composed. *)

From S2P Require Import Prelude Rust Ffi Mac Entry Usb Cmd Download Plan Dev Driver Bank Keys Vif Ops Efuse.
Local Open Scope Z_scope.
Local Open Scope rust_scope.

Section life.
Variable K : kernel.
Variable p : profile.
(** What [ieee80211_alloc_hw] allocates, and the answer of
    [ieee80211_register_hw]. *)
Variable hw_size : nat.
Variable ieee80211_register_hw : trace → Z.
(** The contents of a fresh local array of the given size, and of the local
    EEPROM structure. *)
Variable stack : nat → list Z.
Variable ops : nat → list RegWriteOp.
Variable stack_eeprom : EepromData.

Definition register_hw : io Z := λ tr, Done (ieee80211_register_hw tr, tr).

(** The handle is the device record behind it; the fields of the handle itself
    are constants for mac80211. *)
Definition mt7603_register_mac80211 : io (Z * option Dev.t) :=
  hw ← kmalloc K hw_size;
  match hw with
  | None => mret (ENOMEM, None)
  | Some _ =>
      dev ← mt7603_register_eeprom K p stack_eeprom;
      ret ← register_hw;
      if ret <? 0 then kfree ;; mret (ret, None) else mret (0, Some dev)
  end.

(** The handle is kept as the interface's data. *)
Definition mt7603u_probe (rf : result (list Z)) : io (Z * option Dev.t) :=
  ret ← mt7603u_probe_hw K p rf (stack CMD_BUF) (ops 128);
  if ret <? 0 then mret (ret, None) else
  '(ret, hw) ← mt7603_register_mac80211;
  if ret <? 0 then mret (ret, None) else mret (0, hw).

(** [late] are the callbacks mac80211 makes while it takes the handle back;
    freeing the handle frees the device record. *)
Definition mt7603u_disconnect (hw : option Dev.t) (late : list callback) : io unit :=
  match hw with
  | None => mret tt
  | Some dev =>
      dev ← mt7603_unregister_mac80211 dev;
      _ ← run_callbacks K p stack ops dev late;
      kfree
  end.

(** The whole life: the result of the probe, and the device record before it
    is disconnected. *)
Definition device_life (rf : result (list Z)) (cbs late : list callback) : io (Z * option Dev.t) :=
  '(ret, hw) ← mt7603u_probe rf;
  match hw with
  | None => mret (ret, None)
  | Some dev =>
      dev ← run_callbacks K p stack ops dev cbs;
      mt7603u_disconnect (Some dev) late ;;
      mret (ret, Some dev)
  end.
End life.

(** ** The steps *)

Lemma emits_ret_inv {A B} (m : io A) (g : A → B) P :
  emits (a ← m; mret (g a)) P → emits m (λ a e, P (g a) e).
Proof.
  intros Hm tr. destruct (Hm tr) as (b & new & Heq & HP). unfold mbind, io_bind in Heq.
  destruct (m tr) as [[a tr']| |]; [|done..]. injection Heq as <- ->. by exists a, new.
Qed.

(** A record as registered is in the invariant and holds nothing. *)
Lemma registered_inv mac valid off e2p :
  let d := Dev.registered mac valid off e2p in Dev.wf d →
  driver_inv d ∧ ring_mem d = 0 ∧ ring_urbs d = 0 ∧ soft d = soft Dev.initial.
Proof. intros d Hwf. split; [|done]. by split; [|simpl; lia..|]. Qed.

Section life_spec.
Context (K : kernel) (hw_size : nat) (register : trace → Z).
Context (stack : nat → list Z) (ops : nat → list RegWriteOp) (stack_eeprom : EepromData).
Context (HK : kernel_ok K) (Hstack : ∀ n, length (stack n) = n) (Hops : ∀ n, length (ops n) = n).

(** A driver without rings keeps none until the next start. *)
Lemma late_callbacks p d late :
  driver_inv d → ring_mem d = 0 → ring_urbs d = 0 → Forall callback_wf late → CbStart ∉ late →
  emits (run_callbacks K p stack ops d late) (λ _ e, steady e).
Proof.
  intros Hd Hm Hu Hwf. revert d Hd Hm Hu. induction Hwf as [|cb late Hcb _ IH]; intros d Hd Hm Hu Hn;
    cbn [run_callbacks]; [by apply emits_ret|].
  apply not_elem_of_cons in Hn as [Hns Hn].
  eapply emits_bind; [by apply run_callback_steps|]. cbn beta. intros [ret d'] e [Hs Hk].
  cbn [snd] in *. destruct Hs as (Hd' & _ & Hem & Heu).
  assert (ring_mem d' = 0 ∧ ring_urbs d' = 0) as [Hm' Hu'].
  { destruct (settled_cases _ _ _ Hk (not_eq_sym Hns)) as [Hr|]; [|done]. unfold ring_mem, ring_urbs in *.
    injection Hr as -> -> ->. done. }
  eapply emits_weaken; [by apply IH|]. cbn beta. intros _ e' He'.
  apply closed_app; [|done]. unfold steady. lia.
Qed.

Lemma register_mac80211_emits :
  emits (mt7603_register_mac80211 K Release hw_size register stack_eeprom) (λ r e,
    urbs e = 0 ∧
    match r.2 with
    | None => r.1 < 0 ∧ mem e = 0
    | Some d => r.1 = 0 ∧ mem e = 1 ∧
        driver_inv d ∧ ring_mem d = 0 ∧ ring_urbs d = 0 ∧ soft d = soft Dev.initial
    end).
Proof.
  unfold mt7603_register_mac80211. io_bind kmalloc_emits.
  intros m e [[-> ->]|(c & -> & _ & ->)]; [by io_ret|].
  intros tr. destruct (register_eeprom_runs K Release stack_eeprom tr HK)
    as (dev & new & Hm & (Hem & Heu & _) & (mac & valid & off & e2p & ->) & Hwf & _).
  unfold mbind, io_bind at 1. rewrite Hm. unfold register_hw, io_bind.
  destruct (Z.ltb_spec (register (tr ++ new)) 0) as [Hr|Hr].
  - exists (register (tr ++ new), None), (new ++ [Kfree]).
    split; [by rewrite app_assoc|]. rewrite effect_of_app. simpl. lia.
  - eexists (0, Some _), new. split; [done|]. simpl. split; [lia|]. split; [done|]. split; [lia|].
    by apply registered_inv.
Qed.

Lemma probe_leaves rf :
  (∀ fw, rf = Ok fw → Forall is_u8 fw) → (∀ e, rf = Err e → e < 0) →
  leaves (mt7603u_probe K Release hw_size register stack ops stack_eeprom rf) (λ r t,
    match r.2 with
    | None => r.1 < 0 ∧
        (steady (effect_of t) ∨ stranded (effect_of t) ∧ ended_by_lost_send r.1 t)
    | Some d => r.1 = 0 ∧ mem (effect_of t) = 1 ∧ urbs (effect_of t) = 0 ∧
        driver_inv d ∧ ring_mem d = 0 ∧ ring_urbs d = 0 ∧ soft d = soft Dev.initial
    end).
Proof.
  intros HF He. unfold mt7603u_probe.
  eapply leaves_bind; [exact (probe_hw_leaves K rf _ _ HK (Hstack _) (Hops _) HF He)|]. cbn beta.
  intros ret t (Hret & Hb).
  assert (steady (effect_of t) ∨ ended_by_lost_send ret t) as Hb'
    by (destruct Hb as [(? & ? & _)|]; [by left|by right]).
  destruct (Z.ltb_spec ret 0).
  { apply leaves_ret. rewrite app_nil_r. cbn. split; [done|]. destruct Hb' as [?|Hb']; [by left|].
    right. split; [|done]. by apply ended_stranded in Hb' as [_ ?]. }
  destruct Hb' as [[Hm Hu]|[? _]%ended_stranded]; [|lia].
  eapply leaves_bind; [apply emits_leaves, register_mac80211_emits|]. cbn beta.
  intros [r [d|]] t' [Hu' Hr]; cbn [fst snd] in *.
  - destruct Hr as (-> & Hm' & Hd). apply leaves_ret. rewrite app_nil_r, effect_of_app. cbn.
    split; [done|]. split; [lia|]. split; [lia|done].
  - destruct Hr as [Hr Hm']. destruct (Z.ltb_spec r 0); [|lia]. apply leaves_ret.
    rewrite app_nil_r, effect_of_app. cbn. split; [done|]. left. unfold steady. simpl. lia.
Qed.

Lemma disconnect_emits p d late :
  driver_inv d → Forall callback_wf late → CbStart ∉ late →
  emits (mt7603u_disconnect K p stack ops (Some d) late) (λ _ e,
    mem e = - 1 - ring_mem d ∧ urbs e = - ring_urbs d).
Proof.
  intros Hd Hl Hn. unfold mt7603u_disconnect.
  eapply emits_bind.
  { eapply (emits_ret_inv _ (λ d', (0, d'))).
    by apply (run_callback_steps K p stack ops Hstack Hops d CbUnregister). }
  cbn beta. intros d' e [(Hd' & _ & Hm & Hu) [Hz _]]. cbn [snd] in *.
  destruct Hz as [Hm' Hu']; [done|].
  io_bind (late_callbacks p d' late Hd' Hm' Hu' Hl Hn). intros _ e' [He1 He2].
  eapply emits_weaken; [apply kfree_emits|]. cbn beta. intros _ ? ->. simpl. lia.
Qed.
End life_spec.

(** ** Properties *)

(** C6. The whole life of a device, whatever the kernel, the bus and the chip
    answer.  Plugging in, any sequence of callbacks, and unplugging return.
    When the probe fails its error is negative and nothing is kept - but for
    the one response that is stranded when the download ended because a command
    to the ROM could not be sent.  When it succeeds the driver starts from the
    initial soft state, follows the callbacks in its invariant, and after the
    removal - and whatever callbacks but a start mac80211 still makes during it
    - every buffer, every URB and the handle have been given back. *)
Theorem device_life_balanced K hw_size register stack ops stack_eeprom rf cbs late :
  kernel_ok K → (∀ n, length (stack n) = n) → (∀ n, length (ops n) = n) →
  (∀ fw, rf = Ok fw → Forall is_u8 fw) → (∀ e, rf = Err e → e < 0) →
  Forall callback_wf cbs → Forall callback_wf late → CbStart ∉ late →
  leaves (device_life K Release hw_size register stack ops stack_eeprom rf cbs late) (λ r t,
    match r.2 with
    | None => r.1 < 0 ∧
        (steady (effect_of t) ∨ stranded (effect_of t) ∧ ended_by_lost_send r.1 t)
    | Some d => r.1 = 0 ∧ steady (effect_of t) ∧ driver_inv d ∧
        soft d = foldl soft_step (soft Dev.initial) cbs
    end).
Proof.
  intros HK Hst Hops HF He Hcbs Hl Hn. unfold device_life.
  eapply leaves_bind; [exact (probe_leaves K hw_size register stack ops stack_eeprom HK Hst Hops rf HF He)|].
  cbn beta. intros [ret [d|]] t Hp; cbn [fst snd] in *; [|apply leaves_ret; by rewrite app_nil_r].
  destruct Hp as (-> & Hm & Hu & Hd & Hrm & Hru & Hs).
  eapply leaves_bind; [apply emits_leaves; by apply run_callbacks_steps|]. cbn beta.
  intros d' t1 [(Hd' & Hs' & Hm1 & Hu1) _].
  eapply leaves_bind; [apply emits_leaves,
    (disconnect_emits K stack ops Hst Hops Release d' late Hd' Hl Hn)|]. cbn beta. intros _ t2 [Hm2 Hu2].
  apply leaves_ret. cbn [fst snd]. split; [done|]. rewrite !effect_of_app.
  split; [unfold steady; change (effect_of []) with quiet; cbn -[effect_of]; lia|]. split; [done|]. by rewrite Hs', Hs.
Qed.

Lemma device_life_balanced_witness :
  ∃ d new, device_life good_kernel Release 4096 (λ _, 0) some_bytes some_ops EepromData_default
      (Ok Download.sample_image) sample_life [CbStop] [] = Done ((0, Some d), new) ∧
    steady (effect_of new) ∧ soft d = Soft true 1 0 (Some 7%nat) true 100.
Proof.
  destruct (device_life_balanced good_kernel 4096 (λ _, 0) some_bytes some_ops EepromData_default
    (Ok Download.sample_image) sample_life [CbStop] good_kernel_ok
    (λ n, length_replicate n _) (λ n, length_replicate n _)
    ltac:(intros fw [= <-]; vm_decide) ltac:(done) sample_life_wf
    ltac:(by constructor) ltac:(set_solver) []) as ([ret hw] & new & Heq & Hr).
  assert (match device_life good_kernel Release 4096 (λ _, 0) some_bytes some_ops EepromData_default
      (Ok Download.sample_image) sample_life [CbStop] [] with Done ((_, Some _), _) => true | _ => false end = true)
    as E by by vm_compute.
  rewrite Heq in E. destruct hw as [d|]; [|discriminate E]. cbn [fst snd] in Hr.
  destruct Hr as (-> & Hs & _ & Hsoft). exists d, new. split; [exact Heq|]. split; [exact Hs|].
  rewrite Hsoft. reflexivity.
Defined.
