(* ===== verification/Assert.v ===== *)
(** * Unit tests as programs (the [#[test]] functions of src/rust/src)

    A Rust test is a function without a result that panics when an assertion
    fails.  Here it is a value of [outcome unit]: [Done tt] when the test
    passes, [Panic] when an assertion, an index or an [unwrap] fails.  This
    file holds the assertions and the stores into local arrays the tests are
    written with. *)

From Stdlib Require Import Ascii String.
From S2P Require Import Prelude Rust Ffi.
Local Open Scope Z_scope.
Local Open Scope rust_scope.

(** [assert!], [assert_eq!] *)
Definition assert (b : bool) : outcome unit := if b then Done tt else Panic.
Definition assert_eq `{EqDecision A} (x y : A) : outcome unit := assert (bool_decide (x = y)).

(** [res.is_ok()], [res.unwrap()], [opt.unwrap()] *)
Definition is_ok {A} (r : result A) : bool := match r with Ok _ => true | Err _ => false end.
Definition unwrap {A} (r : result A) : outcome A :=
  match r with Ok a => Done a | Err _ => Panic end.
Definition unwrap_option {A} (o : option A) : outcome A :=
  match o with Some a => Done a | None => Panic end.

(** [assert_eq!(buf[i], v)] and [assert_eq!(&buf[lo..hi], v)] *)
Definition assert_at `{EqDecision A} (buf : list A) (i : nat) (v : A) : outcome unit :=
  x ← index buf i; assert_eq x v.
Definition assert_slice (buf : list Z) (lo hi : nat) (v : list Z) : outcome unit :=
  x ← subslice buf lo hi; assert_eq x v.

(** several [assert_eq!(buf[i], v)] in a row *)
Fixpoint assert_bytes (buf : list Z) (l : list (nat * Z)) : outcome unit :=
  match l with
  | [] => Done tt
  | (i, v) :: l => _ ← assert_at buf i v; assert_bytes buf l
  end.

(** [for i in l { body(i) }] *)
Fixpoint for_each {A} (l : list A) (body : A → outcome unit) : outcome unit :=
  match l with
  | [] => Done tt
  | i :: l => _ ← body i; for_each l body
  end.

(** [buf[i] = v], several in a row, and [buf[lo..hi].copy_from_slice(src)] *)
Fixpoint stores (l : list (nat * Z)) (buf : list Z) : outcome (list Z) :=
  match l with
  | [] => Done buf
  | (i, v) :: l => if decide (i < length buf)%nat then stores l (<[i:=v]> buf) else Panic
  end.
Definition store_slice (lo hi : nat) (src buf : list Z) : outcome (list Z) :=
  old ← subslice buf lo hi;
  new ← copy_from_slice old src;
  mret (take lo buf ++ new ++ drop hi buf).

(** [u32::from_le_bytes([buf[i], buf[i + 1], buf[i + 2], buf[i + 3]])] *)
Definition le_word (buf : list Z) (i : nat) : outcome Z :=
  b0 ← index buf i; b1 ← index buf (i + 1)%nat; b2 ← index buf (i + 2)%nat; b3 ← index buf (i + 3)%nat;
  mret (u32_from_le_bytes b0 b1 b2 b3).

(** [assert_eq!((dw >> lo) & ((1 << w) - 1), v)] *)
Definition assert_field (dw lo w v : Z) : outcome unit := assert_eq (bits lo w dw) v.

(** [RegWriteOp { addr, val }] and [ops.iter().any(...)] *)
Definition no_op : RegWriteOp := 0 ↤ 0.
Definition any {A} (f : A → bool) (l : list A) : bool := existsb f l.
Definition has_addr (ops : list RegWriteOp) (a : Z) : bool := any (λ op, addr op =? a) ops.
Definition has_write (ops : list RegWriteOp) (a v : Z) : bool :=
  any (λ op, (addr op =? a) && (val op =? v)) ops.

(** [b"..."] *)
Definition byte_string (s : string) : list Z := Z.of_N ∘ N_of_ascii <$> list_ascii_of_string s.

(** A suite passes when each of its tests does, which can be evaluated. *)
Definition passes (t : outcome unit) : bool := match t with Done tt => true | _ => false end.

Lemma passes_done t : passes t = true ↔ t = Done tt.
Proof. by destruct t as [[]| |]. Qed.

Lemma suite_passes l : forallb passes l = true → Forall (λ t, t = Done tt) l.
Proof.
  intros H. apply Forall_forall. intros t Ht%list_elem_of_In.
  apply passes_done. by apply (proj1 (forallb_forall _ _) H).
Qed.

Lemma assert_eq_done `{EqDecision A} (x y : A) : assert_eq x y = Done tt ↔ x = y.
Proof. unfold assert_eq. case_bool_decide; simpl; split; naive_solver. Qed.
