(* ===== verification/TestsRegs.v ===== *)
(** * The unit tests of util.rs, regmap.rs, mac.rs and eeprom.rs

    One definition per [#[test]] function, assertion for assertion.  [p] is
    the profile the tests are built with. *)

From Stdlib Require Import String.
From S2P Require Import Prelude Rust Ffi Util Regmap Mac Eeprom Assert.
Local Open Scope Z_scope.
Local Open Scope rust_scope.

(** ** util.rs *)

Definition copy_bytes_copies_all : outcome unit :=
  let src := byte_string "hello world"%string in
  let dst := replicate 32 0 in
  '(_, dst) ← out_copy_bytes 0 (length src) src dst;
  assert_slice dst 0 (length src) src.

Definition copy_bytes_partial : outcome unit :=
  let src := [1; 2; 3; 4; 5] in
  let dst := replicate 8 9 in
  s ← subslice src 0 3;
  '(_, dst) ← out_copy_bytes 0 3 s dst;
  _ ← assert_slice dst 0 3 [1; 2; 3];
  assert_slice dst 3 8 [9; 9; 9; 9; 9].

Definition copy_bytes_empty : outcome unit :=
  let dst := replicate 4 7 in
  '(_, dst) ← out_copy_bytes 0 0 [] dst;
  assert_eq dst [7; 7; 7; 7].

(** ** regmap.rs *)

Definition assert_maps (p : profile) (l : list (Z * Z)) : outcome unit :=
  for_each l (λ '(a, g), x ← physical_addr_map p a; assert_eq x g).

Definition maps_top_cfg_region p : outcome unit :=
  assert_maps p [(0x1134, 0x80021134); (0x0000, 0x80020000); (0x1fff, 0x80021fff)].

Definition maps_mcu_cfg_region p : outcome unit :=
  assert_maps p [(0x2000, 0x80000000); (0x2abc, 0x80000abc); (0x3fff, 0x80001fff)].

Definition maps_pdma_cfg_region p : outcome unit :=
  assert_maps p [(0x4594, 0x50000594); (0x4000, 0x50000000); (0x7fff, 0x50003fff)].

Definition maps_pse_cfg_region p : outcome unit :=
  assert_maps p [(0x8000, 0xa0000000); (0xffff, 0xa0007fff)].

Definition maps_wf_phy_region p : outcome unit :=
  assert_maps p [(0x10000, 0x60200000); (0x1ffff, 0x6020ffff)].

Definition maps_mac_cr_ranges p : outcome unit :=
  assert_maps p [(0x21600, 0x60130000); (0x24000, 0x60300000); (0x2d000, 0x60400000);
                 (0x28000, 0x60320000); (0x2bfff, 0x60323fff)].

Definition maps_wtbl_region p : outcome unit :=
  assert_maps p [(0x40000, 0xa5000000); (0x7ffff, 0xa503ffff)].

Definition maps_pse_client_region p : outcome unit :=
  assert_maps p [(0xc0000, 0x800c0000); (0xc00ff, 0x800c00ff)].

Definition passthrough_unknown_region p : outcome unit :=
  assert_maps p [(0xdeadbeef, 0xdeadbeef)].

(** ** mac.rs *)

Definition test_mac_init_sequence : outcome unit :=
  '(res, ops) ← build_mac_init_sequence (replicate 128 no_op);
  _ ← assert (is_ok res);
  count ← unwrap res;
  _ ← assert (32 <? count)%nat;
  op0 ← index ops 0;
  _ ← assert_eq (addr op0) USB_DMA_CFG;
  _ ← assert (has_addr ops AGG_AWSCR);
  _ ← assert (has_addr ops RMAC_RMACDR);
  _ ← assert (has_write ops FC_FRP 0x00004037);
  _ ← assert (has_write ops MT_SCH_REG_1 0x20000288);
  _ ← assert (has_write ops MT_SCH_REG_2 0x0000000E);
  _ ← assert (has_write ops MT_GROUP_THD_0 0x0000025A);
  _ ← assert (has_write ops MT_BMAP_0 0x0080FF5F);
  assert (has_write ops SCH_REG4 0x00000040).

Definition test_mac_init_buffer_overflow : outcome unit :=
  '(res, _) ← build_mac_init_sequence (replicate 2 no_op);
  assert_eq res (Err (-28)).

Definition test_channel_switch_sequence : outcome unit :=
  '(res, ops) ← build_channel_sequence 6 0 (replicate 16 no_op);
  _ ← assert (is_ok res);
  op0 ← index ops 0;
  _ ← assert_eq (addr op0) RMAC_CHFREQ;
  assert_eq (val op0) 1.

Definition test_own_mac_sequence : outcome unit :=
  let mac := [0x00; 0x0C; 0x43; 0x76; 0x03; 0x01] in
  '(res, ops) ← build_own_mac_sequence mac (replicate 4 no_op);
  _ ← assert (is_ok res);
  n ← unwrap res;
  _ ← assert_eq n 2%nat;
  op0 ← index ops 0;
  _ ← assert_eq (addr op0) RMAC_OMA0R0;
  _ ← assert_eq (val op0) 0x76430C00;
  op1 ← index ops 1;
  _ ← assert_eq (addr op1) RMAC_OMA0R1;
  assert_eq (val op1) 0x00010103.

Definition test_rx_filter_sequence : outcome unit :=
  '(res, ops) ← build_rx_filter_sequence false false (replicate 4 no_op);
  _ ← assert_eq res (Ok 2%nat);
  _ ← assert_at ops 0 (RMAC_RFCR ↤ 0x001D93A2);
  _ ← assert_at ops 1 (RMAC_RFCR1 ↤ 0);
  '(res, ops) ← build_rx_filter_sequence true false ops;
  _ ← assert_eq res (Ok 2%nat);
  _ ← assert_at ops 0 (RMAC_RFCR ↤ 0x00000006);
  '(res, ops) ← build_rx_filter_sequence true true ops;
  _ ← assert_eq res (Ok 2%nat);
  assert_at ops 0 (RMAC_RFCR ↤ 0x00000004).

Definition test_ba_session_sequence : outcome unit :=
  '(res, ops) ← build_ba_session_sequence 1 0 64 true 0 (replicate 2 no_op);
  _ ← assert_eq res (Ok 1%nat);
  op0 ← index ops 0;
  _ ← assert_eq (addr op0) 0x0004007C;
  _ ← assert_eq (val op0) (Z.lor (shl32 1 24) 7);
  let prev := val op0 in
  '(res, ops) ← build_ba_session_sequence 1 0 64 false prev ops;
  _ ← assert_eq res (Ok 1%nat);
  op0 ← index ops 0;
  assert_eq (val op0) 0.

(** ** eeprom.rs *)

Definition e2p_mac : list Z := [0x00; 0x0C; 0x43; 0x76; 0x03; 0x01].

Definition test_parse_valid_eeprom : outcome unit :=
  buf ← store_slice 0x04 0x0A e2p_mac (replicate 512 0);
  result ← parse_eeprom buf;
  _ ← assert (is_ok result);
  data ← unwrap result;
  _ ← assert_eq (mac_addr data) e2p_mac;
  assert_eq (is_valid data) 1.

Definition test_parse_invalid_buffer : outcome unit :=
  result ← parse_eeprom (replicate 128 0);
  assert_eq result (Err (-22)).

Definition test_parse_fallback_mac : outcome unit :=
  result ← parse_eeprom (replicate 512 0xFF);
  _ ← assert (is_ok result);
  data ← unwrap result;
  _ ← assert_eq (mac_addr data) e2p_mac;
  assert_eq (is_valid data) 1.

Definition test_parse_rssi_offset : outcome unit :=
  buf ← store_slice 0x04 0x0A e2p_mac (replicate 512 0);
  buf ← stores [(0x46%nat, 0x02); (0x47%nat, 0x01)] buf;
  result ← parse_eeprom buf;
  data ← unwrap result;
  _ ← assert_eq (rssi_offset_2g data) 2;
  assert_eq (is_valid data) 1.

Definition test_parse_rssi_offset_clamp : outcome unit :=
  buf ← store_slice 0x04 0x0A e2p_mac (replicate 512 0);
  buf ← stores [(0x46%nat, 0x30)] buf;
  result ← parse_eeprom buf;
  data ← unwrap result;
  _ ← assert_eq (rssi_offset_2g data) 0;
  buf ← stores [(0x46%nat, 0xF6)] buf;
  result ← parse_eeprom buf;
  data ← unwrap result;
  assert_eq (rssi_offset_2g data) (-10).

(** ** The tests of this file *)

Definition regs_tests (p : profile) : list (outcome unit) := [
  copy_bytes_copies_all; copy_bytes_partial; copy_bytes_empty;
  maps_top_cfg_region p; maps_mcu_cfg_region p; maps_pdma_cfg_region p;
  maps_pse_cfg_region p; maps_wf_phy_region p; maps_mac_cr_ranges p;
  maps_wtbl_region p; maps_pse_client_region p; passthrough_unknown_region p;
  test_mac_init_sequence; test_mac_init_buffer_overflow;
  test_channel_switch_sequence; test_own_mac_sequence;
  test_rx_filter_sequence; test_ba_session_sequence;
  test_parse_valid_eeprom; test_parse_invalid_buffer; test_parse_fallback_mac;
  test_parse_rssi_offset; test_parse_rssi_offset_clamp ].

Lemma regs_tests_pass p : Forall (λ t, t = Done tt) (regs_tests p).
Proof. apply suite_passes. destruct p; vm_compute; reflexivity. Qed.
