(* ===== verification/TestsFrames.v ===== *)
(** * The unit tests of rx.rs, tx.rs, sta.rs and ap.rs

    One definition per [#[test]] function, assertion for assertion.  [p] is
    the profile the tests are built with. *)

From Stdlib Require Import String.
From S2P Require Import Prelude Rust Ffi Rx Tx Sta Ap Assert.
Local Open Scope Z_scope.
Local Open Scope rust_scope.

(** ** rx.rs *)

(** [(pkt_type << 5) | (grp_vld << 1)] with [RX_NORMAL] *)
Definition rxd_byte3 (grp_vld : Z) : Z := Z.lor (0x02 ≪ 5) (grp_vld ≪ 1).

Definition test_parse_valid_rx_frame : outcome unit :=
  buf ← stores [(0%nat, 128); (1%nat, 0); (3%nat, rxd_byte3 0x07); (5%nat, 6); (64%nat, 0x80)]
          (replicate 128 0);
  res ← parse_rx_frame buf 0;
  _ ← assert (is_ok res);
  info ← unwrap res;
  _ ← assert_eq (hdr_len info) 64;
  _ ← assert_eq (pkt_len info) 64;
  _ ← assert_eq (channel info) 6;
  _ ← assert_eq (is_beacon info) 1;
  assert_eq (is_crc_error info) 0.

Definition test_parse_truncated_rx_frame : outcome unit :=
  res ← parse_rx_frame (replicate 8 0) 0;
  assert_eq res (Err (-22)).

Definition test_parse_rx_rssi : outcome unit :=
  buf ← stores [(0%nat, 128); (3%nat, rxd_byte3 0x07); (5%nat, 6); (52%nat, 0x9A); (64%nat, 0x80)]
          (replicate 128 0);
  res ← parse_rx_frame buf 0;
  info ← unwrap res;
  _ ← assert_eq (rssi info) (-102);
  res ← parse_rx_frame buf 2;
  info ← unwrap res;
  assert_eq (rssi info) (-100).

Definition test_parse_rx_rssi_unknown : outcome unit :=
  buf ← stores [(0%nat, 128); (3%nat, rxd_byte3 0x03); (5%nat, 6); (40%nat, 0x80)]
          (replicate 128 0);
  res ← parse_rx_frame buf 0;
  info ← unwrap res;
  _ ← assert_eq (rssi info) 0;
  buf2 ← stores [(0%nat, 128); (3%nat, rxd_byte3 0x07); (5%nat, 6); (52%nat, 0x00); (64%nat, 0x80)]
          (replicate 128 0);
  res ← parse_rx_frame buf2 0;
  info ← unwrap res;
  assert_eq (rssi info) 0.

Definition test_parse_rx_eapol_data_frame : outcome unit :=
  buf ← stores [(0%nat, 128); (1%nat, 0); (3%nat, rxd_byte3 0x07); (5%nat, 6); (64%nat, 0x08); (65%nat, 0x00)]
          (replicate 128 0);
  res ← parse_rx_frame buf 0;
  _ ← assert (is_ok res);
  info ← unwrap res;
  _ ← assert_eq (hdr_len info) 64;
  _ ← assert_eq (pkt_len info) 64;
  _ ← assert_eq (channel info) 6;
  _ ← assert_eq (is_beacon info) 0;
  _ ← assert_eq (is_data info) 1;
  assert_eq (is_crc_error info) 0.

Definition test_parse_rx_radiotap_rate : outcome unit :=
  buf ← stores [(0%nat, 128); (3%nat, rxd_byte3 0x07)] (replicate 128 0);
  let rxv1_dw0 := Z.lor (Z.lor (Z.lor 15 (2 ≪ 12)) (1 ≪ 15)) (1 ≪ 19) in
  buf ← store_slice 40 44 (u32_to_le_bytes rxv1_dw0) buf;
  buf ← stores [(64%nat, 0x08)] buf;
  res ← parse_rx_frame buf 0;
  info ← unwrap res;
  assert_eq (rate info) (Z.lor (Z.lor (Z.lor 0x80 0x40) 0x20) 15).

Definition rx_tests : list (outcome unit) := [
  test_parse_valid_rx_frame; test_parse_truncated_rx_frame; test_parse_rx_rssi;
  test_parse_rx_rssi_unknown; test_parse_rx_eapol_data_frame; test_parse_rx_radiotap_rate ].

Lemma rx_tests_pass : Forall (λ t, t = Done tt) rx_tests.
Proof. apply suite_passes. vm_compute; reflexivity. Qed.

(** ** tx.rs *)

Definition SHORT_PREAMBLE : Z := 0.

Definition probe_req_params (pkt_len : Z) : TxParams.t := {|
  TxParams.rate_idx := 0; TxParams.pid := 0; TxParams.queue := 0x04; TxParams.hdr_len := 24;
  TxParams.frm_type := 0; TxParams.sub_type := 4; TxParams.no_ack := 1; TxParams.is_bm := 1;
  TxParams.rate_mode := 0; TxParams.rate_mcs := 0; TxParams.preamble := 1; TxParams.bw := 0;
  TxParams.pkt_len := pkt_len; TxParams.protect_frm := 0 |}.

(** [TxParams { rate_mode, rate_mcs, ..params }] and [TxParams { hdr_len, ..params }] *)
Definition with_rate (rate_mode rate_mcs : Z) (q : TxParams.t) : TxParams.t := {|
  TxParams.rate_idx := TxParams.rate_idx q; TxParams.pid := TxParams.pid q;
  TxParams.queue := TxParams.queue q; TxParams.hdr_len := TxParams.hdr_len q;
  TxParams.frm_type := TxParams.frm_type q; TxParams.sub_type := TxParams.sub_type q;
  TxParams.no_ack := TxParams.no_ack q; TxParams.is_bm := TxParams.is_bm q;
  TxParams.rate_mode := rate_mode; TxParams.rate_mcs := rate_mcs;
  TxParams.preamble := TxParams.preamble q; TxParams.bw := TxParams.bw q;
  TxParams.pkt_len := TxParams.pkt_len q; TxParams.protect_frm := TxParams.protect_frm q |}.
Definition with_hdr_len (n : Z) (q : TxParams.t) : TxParams.t := {|
  TxParams.rate_idx := TxParams.rate_idx q; TxParams.pid := TxParams.pid q;
  TxParams.queue := TxParams.queue q; TxParams.hdr_len := n;
  TxParams.frm_type := TxParams.frm_type q; TxParams.sub_type := TxParams.sub_type q;
  TxParams.no_ack := TxParams.no_ack q; TxParams.is_bm := TxParams.is_bm q;
  TxParams.rate_mode := TxParams.rate_mode q; TxParams.rate_mcs := TxParams.rate_mcs q;
  TxParams.preamble := TxParams.preamble q; TxParams.bw := TxParams.bw q;
  TxParams.pkt_len := TxParams.pkt_len q; TxParams.protect_frm := TxParams.protect_frm q |}.

Definition test_build_txwi p : outcome unit :=
  let params := probe_req_params 211 in
  '(res, buf) ← build_txwi p params (replicate 32 0);
  _ ← assert_eq res (Ok 32%nat);
  dw0 ← le_word buf 0;
  _ ← assert_eq (Z.land dw0 0xffff) 243;
  _ ← assert_field dw0 27 4 0x04;
  _ ← assert_field dw0 31 1 0;
  dw1 ← le_word buf 4;
  _ ← assert_eq (Z.land dw1 0xff) 0;
  _ ← assert_field dw1 8 5 12;
  _ ← assert_field dw1 13 2 2;
  _ ← assert_field dw1 15 1 1;
  _ ← assert_field dw1 19 1 1;
  dw2 ← le_word buf 8;
  _ ← assert_eq (Z.land dw2 0xf) 4;
  _ ← assert_field dw2 4 2 0;
  _ ← assert_field dw2 10 1 1;
  _ ← assert_field dw2 29 1 1;
  _ ← assert_field dw2 31 1 1;
  dw3 ← le_word buf 12;
  _ ← assert_field dw3 11 5 0x0f;
  dw5 ← le_word buf 20;
  _ ← assert_field dw5 12 1 1;
  dw6 ← le_word buf 24;
  _ ← assert_field dw6 8 3 0x4;
  _ ← assert_field dw6 11 1 1;
  _ ← assert_field dw6 18 12 0;
  _ ← assert_slice buf 28 32 (replicate 4 0);
  assert_slice buf 16 20 (replicate 4 0).

Definition test_build_txwi_ofdm_rate p : outcome unit :=
  let params := with_rate 1 4 (probe_req_params 211) in
  '(res, buf) ← build_txwi p params (replicate 32 0);
  _ ← assert_eq res (Ok 32%nat);
  dw6 ← le_word buf 24;
  assert_field dw6 18 12 73.

Definition test_build_txwi_enospc p : outcome unit :=
  '(res, _) ← build_txwi p (probe_req_params 10) (replicate 16 0);
  assert_eq res (Err (-28)).

Definition test_build_txwi_odd_hdr_len p : outcome unit :=
  '(res, _) ← build_txwi p (with_hdr_len 23 (probe_req_params 10)) (replicate 32 0);
  assert_eq res (Err (-22)).

Definition test_build_txwi_qos_data_pad p : outcome unit :=
  let params := {|
    TxParams.rate_idx := 0; TxParams.pid := 1; TxParams.queue := 0x00; TxParams.hdr_len := 26;
    TxParams.frm_type := 2; TxParams.sub_type := 8; TxParams.no_ack := 0; TxParams.is_bm := 0;
    TxParams.rate_mode := 0; TxParams.rate_mcs := 0; TxParams.preamble := 1; TxParams.bw := 0;
    TxParams.pkt_len := 155; TxParams.protect_frm := 1 |} in
  '(res, buf) ← build_txwi p params (replicate 32 0);
  _ ← assert_eq res (Ok 32%nat);
  dw0 ← le_word buf 0;
  _ ← assert_eq (Z.land dw0 0xffff) 189;
  dw1 ← le_word buf 4;
  _ ← assert_eq (Z.land dw1 0xff) 1;
  _ ← assert_field dw1 8 5 13;
  _ ← assert_field dw1 16 3 2;
  _ ← assert_field dw1 23 1 1;
  dw2 ← le_word buf 8;
  _ ← assert_eq (Z.land dw2 0xf) 8;
  _ ← assert_field dw2 4 2 2;
  _ ← assert_field dw2 10 1 0;
  _ ← assert_field dw2 29 1 1;
  assert_field dw2 31 1 1.

Definition test_tx_rate_to_tmi_mapping p : outcome unit :=
  let expect rate_mode mcs preamble v :=
    x ← tx_rate_to_tmi p rate_mode mcs 0 1 preamble; assert_eq x v in
  _ ← expect MODE_CCK 0 LONG_PREAMBLE 0;
  _ ← expect MODE_CCK 1 LONG_PREAMBLE 1;
  _ ← expect MODE_CCK 2 LONG_PREAMBLE 2;
  _ ← expect MODE_CCK 3 LONG_PREAMBLE 3;
  _ ← expect MODE_CCK 0 SHORT_PREAMBLE 5;
  expect MODE_OFDM 0 LONG_PREAMBLE (Z.lor (1 ≪ 6) 11).

Definition test_build_txwi_ht_2ss_ht40 p : outcome unit :=
  let params := {|
    TxParams.rate_idx := 15; TxParams.pid := 1; TxParams.queue := 0x01; TxParams.hdr_len := 26;
    TxParams.frm_type := 2; TxParams.sub_type := 8; TxParams.no_ack := 0; TxParams.is_bm := 0;
    TxParams.rate_mode := 2; TxParams.rate_mcs := 15; TxParams.preamble := 2; TxParams.bw := 1;
    TxParams.pkt_len := 1400; TxParams.protect_frm := 0 |} in
  '(res, buf) ← build_txwi p params (replicate 32 0);
  _ ← assert_eq res (Ok 32%nat);
  dw6 ← le_word buf 24;
  _ ← assert_field dw6 8 3 5;
  _ ← assert_field dw6 18 12 655;
  assert_field dw6 31 1 1.

Definition tx_tests (p : profile) : list (outcome unit) := [
  test_build_txwi p; test_build_txwi_ofdm_rate p; test_build_txwi_enospc p;
  test_build_txwi_odd_hdr_len p; test_build_txwi_qos_data_pad p;
  test_tx_rate_to_tmi_mapping p; test_build_txwi_ht_2ss_ht40 p ].

Lemma tx_tests_pass p : Forall (λ t, t = Done tt) (tx_tests p).
Proof. apply suite_passes. destruct p; vm_compute; reflexivity. Qed.

(** ** sta.rs *)

Definition test_build_probe_request : outcome unit :=
  let ssid := byte_string "WiFi-Test"%string in
  let src_mac := [0x00; 0x0C; 0x43; 0x76; 0x03; 0x01] in
  '(res, out_buf) ← build_probe_request ssid src_mac (replicate 128 0);
  _ ← assert (is_ok res);
  len ← unwrap res;
  _ ← assert (36 <=? len)%nat;
  _ ← assert_bytes out_buf [(0%nat, 0x40); (1%nat, 0x00)];
  _ ← assert_slice out_buf 4 10 (replicate 6 0xFF);
  _ ← assert_slice out_buf 10 16 src_mac;
  _ ← assert_bytes out_buf [(24%nat, 0); (25%nat, 9)];
  assert_slice out_buf 26 35 (byte_string "WiFi-Test"%string).

Definition test_parse_beacon_frame : outcome unit :=
  let frame := replicate 64 0 in
  frame ← store_slice 16 22 [0x12; 0x34; 0x56; 0x78; 0x9A; 0xBC] frame;
  frame ← stores [(34%nat, 0x01); (35%nat, 0x00)] frame;
  frame ← stores [(36%nat, 0); (37%nat, 7)] frame;
  frame ← store_slice 38 45 (byte_string "Home-AP"%string) frame;
  frame ← stores [(45%nat, 3); (46%nat, 1); (47%nat, 6)] frame;
  res ← parse_beacon frame;
  _ ← assert (is_ok res);
  info ← unwrap res;
  _ ← assert_eq (StaBssInfo.bssid info) [0x12; 0x34; 0x56; 0x78; 0x9A; 0xBC];
  _ ← assert_slice (StaBssInfo.ssid info) 0 7 (byte_string "Home-AP"%string);
  _ ← assert_eq (StaBssInfo.ssid_len info) 7;
  assert_eq (StaBssInfo.channel info) 6.

Definition test_wtbl_entry234_crosslinks : outcome unit :=
  _ ← assert_eq (wtbl_entry234 0) (0, 0, 64, 0, 128, 0);
  _ ← assert_eq (wtbl_dw3_dw4 0) (0x30800000, 0x00000040);
  _ ← assert_eq (wtbl_entry234 1) (0, 1, 64, 2, 128, 1);
  _ ← assert_eq (wtbl_dw3_dw4 1) (0x30800800, 0x00021040);
  _ ← assert_eq (wtbl_entry234 2) (1, 0, 65, 0, 128, 2);
  _ ← assert_eq (wtbl_dw3_dw4 2) (0x30800001, 0x00040041);
  assert_eq (wtbl_entry234 3) (1, 1, 65, 2, 128, 3).

Definition test_build_wtbl_sta_sequence : outcome unit :=
  let bssid := [0xFC; 0x34; 0x97; 0x19; 0x0E; 0x01] in
  '(res, ops) ← build_wtbl_sta_sequence bssid (replicate 16 no_op);
  _ ← assert (is_ok res);
  written ← unwrap res;
  _ ← assert_eq written 12%nat;
  let expect i a v :=
    op ← index ops i; _ ← assert_eq (addr op) a; assert_eq (val op) v in
  _ ← expect 0%nat 0x00028000
        (Z.lor (Z.lor (Z.lor (Z.lor (1 ≪ 29) (1 ≪ 28)) (1 ≪ 22)) (0x0E ≪ 16)) 0xFFFF);
  _ ← expect 1%nat 0x00028004 0xFFFFFFFF;
  _ ← expect 2%nat 0x00028008 0x00000000;
  _ ← expect 3%nat 0x00028020 (Z.lor (Z.lor (Z.lor (1 ≪ 29) (1 ≪ 28)) (0x01 ≪ 8)) 0x0E);
  _ ← expect 4%nat 0x00028024 0x199734FC;
  _ ← expect 5%nat 0x00028028 0x58300000;
  _ ← expect 6%nat 0x0002A300 0x80000000;
  _ ← expect 7%nat 0x0002800C 0x30800000;
  _ ← expect 8%nat 0x00028010 0x00000040;
  _ ← expect 9%nat 0x0002802C 0x30800800;
  _ ← expect 10%nat 0x00028030 0x00021040;
  expect 11%nat 0x0002A300 0x00000000.

Definition sta_tests : list (outcome unit) := [
  test_build_probe_request; test_parse_beacon_frame;
  test_wtbl_entry234_crosslinks; test_build_wtbl_sta_sequence ].

Lemma sta_tests_pass : Forall (λ t, t = Done tt) sta_tests.
Proof. apply suite_passes. vm_compute; reflexivity. Qed.

(** ** ap.rs *)

Definition test_build_beacon_frame : outcome unit :=
  let ssid := byte_string "MT7603U-Hotspot"%string in
  let bssid := [0x00; 0x0C; 0x43; 0x76; 0x03; 0x01] in
  '(res, out_buf) ← build_beacon ssid bssid 6 (replicate 128 0);
  _ ← assert (is_ok res);
  len ← unwrap res;
  _ ← assert (48 <=? len)%nat;
  _ ← assert_bytes out_buf [(0%nat, 0x80); (1%nat, 0x00)];
  _ ← assert_slice out_buf 4 10 (replicate 6 0xFF);
  _ ← assert_slice out_buf 10 16 bssid;
  _ ← assert_bytes out_buf [(36%nat, 0); (37%nat, 15)];
  assert_slice out_buf 38 53 (byte_string "MT7603U-Hotspot"%string).

Definition test_build_assoc_resp : outcome unit :=
  let sta_mac := [0xAA; 0xBB; 0xCC; 0xDD; 0xEE; 0xFF] in
  let bssid := [0x00; 0x0C; 0x43; 0x76; 0x03; 0x01] in
  '(res, out_buf) ← build_assoc_resp sta_mac bssid 1 0 (replicate 128 0);
  _ ← assert (is_ok res);
  len ← unwrap res;
  _ ← assert_eq len 40%nat;
  _ ← assert_bytes out_buf [(0%nat, 0x10); (1%nat, 0x00)];
  _ ← assert_slice out_buf 4 10 sta_mac;
  assert_bytes out_buf [(26%nat, 0); (27%nat, 0)].

Definition test_parse_assoc_req : outcome unit :=
  frame ← stores [(0%nat, 0x00); (1%nat, 0x00)] (replicate 32 0);
  frame ← store_slice 10 16 [0x11; 0x22; 0x33; 0x44; 0x55; 0x66] frame;
  frame ← stores [(24%nat, 0x01); (25%nat, 0x00); (26%nat, 10); (27%nat, 0)] frame;
  res ← parse_assoc_req frame;
  _ ← assert (is_ok res);
  '(sta_mac, cap, listen) ← unwrap res;
  _ ← assert_eq sta_mac [0x11; 0x22; 0x33; 0x44; 0x55; 0x66];
  _ ← assert_eq cap 0x0001;
  assert_eq listen 10.

Definition test_build_ap_bss_sync_enable : outcome unit :=
  '(res, ops) ← build_ap_bss_sync_sequence 100 true (replicate 8 no_op);
  count ← unwrap res;
  _ ← assert_eq count 6%nat;
  _ ← assert_at ops 0 (0x00024034 ↤ 0x80000064);
  _ ← assert_at ops 1 (0x0002405C ↤ 0x00000099);
  _ ← assert_at ops 2 (0x00024030 ↤ 0x00000050);
  _ ← assert_at ops 3 (0x00024010 ↤ 0x0000000C);
  _ ← assert_at ops 4 (0x00021480 ↤ 0x00000001);
  assert_at ops 5 (0x00021518 ↤ 0x00000001).

Definition test_build_ap_bss_sync_disable : outcome unit :=
  '(res, ops) ← build_ap_bss_sync_sequence 100 false (replicate 8 no_op);
  count ← unwrap res;
  _ ← assert_eq count 4%nat;
  _ ← assert_at ops 0 (0x00024034 ↤ 0);
  _ ← assert_at ops 1 (0x0002405C ↤ 0);
  _ ← assert_at ops 2 (0x00021480 ↤ 0);
  assert_at ops 3 (0x0002151C ↤ 1).

Definition ap_tests : list (outcome unit) := [
  test_build_beacon_frame; test_build_assoc_resp; test_parse_assoc_req;
  test_build_ap_bss_sync_enable; test_build_ap_bss_sync_disable ].

Lemma ap_tests_pass : Forall (λ t, t = Done tt) ap_tests.
Proof. apply suite_passes. vm_compute; reflexivity. Qed.
