(* ===== verification/TestsMcu.v ===== *)
(** * The unit tests of mcu.rs, and the test suite

    One definition per [#[test]] function, assertion for assertion; [p] is
    the profile the tests are built with.  The two tests that include the
    firmware image of the harness take the image as an argument. *)

From S2P Require Import Prelude Rust Mcu Assert TestsRegs TestsFrames.
Local Open Scope Z_scope.
Local Open Scope rust_scope.

(** ** Commands *)

Definition test_build_radio_on_off_cmd p : outcome unit :=
  '(res, out) ← build_radio_on_off_cmd p true 1 (replicate 64 0);
  _ ← assert (is_ok res);
  len ← unwrap res;
  _ ← assert_eq len 36%nat;
  _ ← assert_bytes out [(4%nat, EXT_CID); (6%nat, CMD_SET); (7%nat, 1);
        (9%nat, EXT_CMD_RADIO_ON_OFF_CTRL); (11%nat, EXT_CID_OPTION_NEED_ACK)];
  _ ← assert_slice out 12 32 (replicate 20 0);
  _ ← assert_at out 32 1;
  assert_slice out 33 36 [0; 0; 0].

Definition test_build_edca_set_cmd p : outcome unit :=
  '(res, out) ← build_edca_set_cmd p 5 (replicate 128 0);
  _ ← assert (is_ok res);
  len ← unwrap res;
  _ ← assert_eq len (32 + 36)%nat;
  _ ← assert_bytes out [(4%nat, EXT_CID); (6%nat, CMD_SET); (7%nat, 5);
        (9%nat, EXT_CMD_EDCA_SET); (11%nat, EXT_CID_OPTION_NEED_ACK)];
  _ ← assert_slice out 12 32 (replicate 20 0);
  _ ← assert_at out 32 4;
  _ ← assert_slice out 33 36 [0; 0; 0];
  let bk := (32 + 4 + 0 * 8)%nat in
  _ ← assert_bytes out [(bk, 1); ((bk + 1)%nat, 0x0F); ((bk + 2)%nat, 7); ((bk + 3)%nat, 15)];
  _ ← assert_slice out (bk + 4) (bk + 6) (u16_to_le_bytes 1023);
  _ ← assert_slice out (bk + 6) (bk + 8) (u16_to_le_bytes 0);
  let be := (32 + 4 + 1 * 8)%nat in
  _ ← assert_bytes out [(be, 0); ((be + 2)%nat, 3); ((be + 3)%nat, 15)];
  _ ← assert_slice out (be + 4) (be + 6) (u16_to_le_bytes 1023);
  let vi := (32 + 4 + 2 * 8)%nat in
  _ ← assert_bytes out [(vi, 2); ((vi + 2)%nat, 2); ((vi + 3)%nat, 7)];
  _ ← assert_slice out (vi + 4) (vi + 6) (u16_to_le_bytes 15);
  _ ← assert_slice out (vi + 6) (vi + 8) (u16_to_le_bytes 0x60);
  let vo := (32 + 4 + 3 * 8)%nat in
  _ ← assert_bytes out [(vo, 3); ((vo + 2)%nat, 2); ((vo + 3)%nat, 3)];
  _ ← assert_slice out (vo + 4) (vo + 6) (u16_to_le_bytes 7);
  assert_slice out (vo + 6) (vo + 8) (u16_to_le_bytes 0x2F).

(** ** The command frame *)

Definition test_build_fw_txd_frame p : outcome unit :=
  let payload := replicate 12 0xAA in
  '(res, out) ← build_fw_txd_frame p MT_TARGET_ADDRESS_LEN_REQ P1_Q0 CMD_NA EXT_CMD_NA 1 true
                  FW_TXD_HDR_SIZE payload (replicate 64 0);
  _ ← assert (is_ok res);
  len ← unwrap res;
  _ ← assert_eq len 24%nat;
  _ ← assert_bytes out [(0%nat, 24); (1%nat, 0); (2%nat, 0x00); (3%nat, 0x80);
        (4%nat, MT_TARGET_ADDRESS_LEN_REQ); (5%nat, PKT_ID_CMD); (6%nat, CMD_NA); (7%nat, 1);
        (9%nat, EXT_CMD_NA); (11%nat, EXT_CID_OPTION_NO_NEED_ACK)];
  assert_slice out 12 24 payload.

Definition test_build_fw_txd_frame_runtime_32b_header p : outcome unit :=
  let payload := replicate 36 0xBB in
  '(res, out) ← build_fw_txd_frame p EXT_CID P1_Q0 CMD_SET EXT_CMD_CHANNEL_SWITCH 1 true
                  FW_TXD_FULL_SIZE payload (replicate 128 0);
  _ ← assert (is_ok res);
  len ← unwrap res;
  _ ← assert_eq len 68%nat;
  _ ← assert_bytes out [(0%nat, 68); (1%nat, 0)];
  _ ← assert_slice out 12 32 (replicate 20 0);
  assert_slice out 32 68 payload.

Definition test_build_fw_txd_frame_ext_need_ack p : outcome unit :=
  '(res, out) ← build_fw_txd_frame p EXT_CID P1_Q0 CMD_SET 0x12 3 true FW_TXD_HDR_SIZE []
                  (replicate 32 0);
  _ ← assert (is_ok res);
  _ ← assert_at out 11 EXT_CID_OPTION_NEED_ACK;
  assert_at out 9 0x12.

Definition test_build_fw_txd_frame_overflow p : outcome unit :=
  let payload := replicate 64 0xAA in
  '(res, _) ← build_fw_txd_frame p MT_TARGET_ADDRESS_LEN_REQ P1_Q0 CMD_NA EXT_CMD_NA 1 true
                FW_TXD_HDR_SIZE payload (replicate 32 0);
  assert_eq res (Err (-28)).

Definition test_build_fw_txd_frame_overflow_32b p : outcome unit :=
  let payload := replicate 4 0xAA in
  '(res, _) ← build_fw_txd_frame p EXT_CID P1_Q0 CMD_SET EXT_CMD_RADIO_ON_OFF_CTRL 1 true
                FW_TXD_FULL_SIZE payload (replicate 34 0);
  assert_eq res (Err (-28)).

(** ** Download commands *)

Definition test_build_addr_len_req p : outcome unit :=
  '(res, out) ← build_addr_len_req p FW_CODE_START_ADDRESS1 4 1 (replicate 64 0);
  _ ← assert (is_ok res);
  len ← unwrap res;
  _ ← assert_eq len 24%nat;
  _ ← assert_bytes out [(4%nat, MT_TARGET_ADDRESS_LEN_REQ); (7%nat, 1)];
  _ ← assert_slice out 12 16 (u32_to_le_bytes 0x100000);
  _ ← assert_slice out 16 20 (u32_to_le_bytes 4);
  assert_slice out 20 24 (u32_to_le_bytes TARGET_ADDR_LEN_NEED_RSP).

Definition test_build_fw_start_req p : outcome unit :=
  '(res, out) ← build_fw_start_req p 1 FW_CODE_START_ADDRESS1 2 (replicate 64 0);
  _ ← assert (is_ok res);
  len ← unwrap res;
  _ ← assert_eq len 20%nat;
  _ ← assert_bytes out [(4%nat, MT_FW_START_REQ); (7%nat, 2)];
  _ ← assert_slice out 12 16 (u32_to_le_bytes 1);
  assert_slice out 16 20 (u32_to_le_bytes 0x100000).

Definition test_build_restart_dl_req p : outcome unit :=
  '(res, out) ← build_restart_dl_req p 1 (replicate 64 0);
  _ ← assert (is_ok res);
  len ← unwrap res;
  _ ← assert_eq len 12%nat;
  assert_bytes out [(4%nat, MT_RESTART_DL_REQ); (5%nat, PKT_ID_CMD); (6%nat, CMD_NA); (7%nat, 1);
    (9%nat, EXT_CMD_NA); (11%nat, EXT_CID_OPTION_NO_NEED_ACK)].

Definition test_build_fw_scatter_frame p : outcome unit :=
  let chunk := [0x46; 0x00; 0x01; 0x00] in
  '(res, out) ← build_fw_scatter_frame p chunk (replicate 64 0);
  _ ← assert (is_ok res);
  len ← unwrap res;
  _ ← assert_eq len 16%nat;
  _ ← assert_bytes out [(4%nat, MT_FW_SCATTER); (2%nat, 0x00); (3%nat, 0xC0); (7%nat, 0)];
  assert_slice out 12 16 chunk.

Definition test_fw_scatter_payload_cap p : outcome unit :=
  let chunk := replicate (FW_SCATTER_MAX_PAYLOAD + 1) 0x00 in
  '(res, _) ← build_fw_scatter_frame p chunk
                (replicate (FW_SCATTER_MAX_PAYLOAD + FW_TXD_HDR_SIZE + 8) 0);
  assert_eq res (Err (-22)).

(** ** The firmware image *)

Definition MT7603_E2_FW_SIZE : nat := Z.to_nat 86348.

Definition test_fw_dl_len p : outcome unit :=
  fw ← stores [(4%nat, 0x20)] (replicate 8 0);
  dl ← fw_dl_len p fw;
  dl ← unwrap_option dl;
  _ ← assert_eq dl 36;
  dl ← fw_dl_len p [];
  _ ← assert_eq dl None;
  dl ← fw_dl_len p (replicate 2 0);
  assert_eq dl None.

Definition test_verify_real_e2_firmware (fw_bytes : list Z) : outcome unit :=
  _ ← assert_eq (length fw_bytes) MT7603_E2_FW_SIZE;
  res ← verify_firmware fw_bytes;
  assert (is_ok res).

Definition test_verify_corrupted_firmware : outcome unit :=
  res ← verify_firmware (replicate 64 0x00);
  assert_eq res (Err (-22)).

Definition test_dl_len_of_real_firmware p (fw_bytes : list Z) : outcome unit :=
  dl ← fw_dl_len p fw_bytes;
  dl ← unwrap_option dl;
  _ ← assert (0 <? dl);
  assert (dl <? Z.of_nat MT_UPLOAD_FW_UNIT * 30).

(** ** Run-time commands *)

Definition test_build_channel_switch_cmd p : outcome unit :=
  '(res, out) ← build_channel_switch_cmd p 6 6 0 2 2 1 (replicate 128 0);
  _ ← assert (is_ok res);
  len ← unwrap res;
  _ ← assert_eq len 68%nat;
  _ ← assert_bytes out [(4%nat, EXT_CID); (6%nat, CMD_SET); (7%nat, 1);
        (9%nat, EXT_CMD_CHANNEL_SWITCH); (11%nat, EXT_CID_OPTION_NEED_ACK)];
  _ ← assert_slice out 12 32 (replicate 20 0);
  assert_bytes out [(32%nat, 6); (33%nat, 6); (34%nat, 0); (35%nat, 2); (36%nat, 2)].

Definition test_build_ch_privilege_cmd p : outcome unit :=
  '(res, out) ← build_ch_privilege_cmd p 6 0 (replicate 64 0);
  _ ← assert (is_ok res);
  len ← unwrap res;
  _ ← assert_eq len 48%nat;
  _ ← assert_bytes out [(4%nat, CMD_CH_PRIVILEGE); (6%nat, CMD_SET)];
  _ ← assert_slice out 12 32 (replicate 20 0);
  assert_at out 35 6.

Definition test_build_efuse_buffer_mode_cmd p : outcome unit :=
  eeprom ← stores [(0x034%nat, 0x12); (0x035%nat, 0x34); (0x056%nat, 0xab)] (replicate 1024 0xff);
  '(res, out) ← build_efuse_buffer_mode_cmd p eeprom 3 (replicate 2048 0);
  _ ← assert (is_ok res);
  len ← unwrap res;
  _ ← assert_eq len 996%nat;
  _ ← assert_bytes out [(4%nat, EXT_CID); (6%nat, CMD_SET); (7%nat, 3);
        (9%nat, EXT_CMD_EFUSE_BUFFER_MODE); (11%nat, EXT_CID_OPTION_NEED_ACK)];
  _ ← assert_slice out 12 32 (replicate 20 0);
  _ ← assert_bytes out [(32%nat, 0); (33%nat, 0); (34%nat, 0); (35%nat, 0)];
  for_each (seq 0 240) (λ i,
    let base := (32 + 4 + i * 4)%nat in
    assert_slice out base (base + 4) [0; 0; 0; 0]).

Definition test_build_tx_power_ctrl_cmd p : outcome unit :=
  eeprom ← stores [(0x36%nat, 0x78); (0x37%nat, 0x01); (0x58%nat, 0x10); (0x59%nat, 0x20);
             (0x5e%nat, 0x30); (0x5f%nat, 0x40); (0x5a%nat, 0x50); (0x5b%nat, 0x60);
             (0x60%nat, 0x70); (0x61%nat, 0x80); (0x50%nat, 0x55); (0xa0%nat, 0x01);
             (0xa1%nat, 0x02); (0xc6%nat, 0xaa)] (replicate 1024 0xff);
  '(res, out) ← build_tx_power_ctrl_cmd p eeprom 6 4 (replicate 128 0);
  _ ← assert (is_ok res);
  len ← unwrap res;
  _ ← assert_eq len (32 + 44)%nat;
  _ ← assert_bytes out [(4%nat, EXT_CID); (6%nat, CMD_SET); (7%nat, 4);
        (9%nat, EXT_CMD_SET_TX_POWER_CTRL)];
  _ ← assert_slice out 12 32 (replicate 20 0);
  assert_bytes out [(32%nat, 6); (33%nat, 0x01); (34%nat, 0x78); (35%nat, 0x10); (36%nat, 0x30);
    (37%nat, 0x01); (38%nat, 0x02); (39%nat, 0xff); (51%nat, 0x55);
    (52%nat, 0x20); (53%nat, 0x50); (54%nat, 0x60); (55%nat, 0x40); (56%nat, 0x70); (57%nat, 0x80);
    (58%nat, 0xaa); (59%nat, 0xff); (75%nat, 0)].

Definition mcu_tests (p : profile) : list (outcome unit) := [
  test_build_radio_on_off_cmd p; test_build_edca_set_cmd p; test_build_fw_txd_frame p;
  test_build_fw_txd_frame_runtime_32b_header p; test_build_fw_txd_frame_ext_need_ack p;
  test_build_fw_txd_frame_overflow p; test_build_fw_txd_frame_overflow_32b p;
  test_build_addr_len_req p; test_build_fw_start_req p; test_build_restart_dl_req p;
  test_build_fw_scatter_frame p; test_fw_scatter_payload_cap p; test_fw_dl_len p;
  test_verify_corrupted_firmware; test_build_channel_switch_cmd p; test_build_ch_privilege_cmd p;
  test_build_efuse_buffer_mode_cmd p; test_build_tx_power_ctrl_cmd p ].

Lemma mcu_tests_pass p : Forall (λ t, t = Done tt) (mcu_tests p).
Proof. apply suite_passes. destruct p; vm_compute; reflexivity. Qed.

(** ** The suite

    The tests that need the image of the harness pass exactly on the images
    of the right size whose magic is right and whose length word is small. *)
Definition image_tests (p : profile) (fw_bytes : list Z) : list (outcome unit) := [
  test_verify_real_e2_firmware fw_bytes; test_dl_len_of_real_firmware p fw_bytes ].

Definition unit_tests (p : profile) : list (outcome unit) :=
  regs_tests p ++ rx_tests ++ tx_tests p ++ sta_tests ++ ap_tests ++ mcu_tests p.

(** What the image tests ask of the image. *)
Definition image_ok (fw : list Z) : Prop :=
  length fw = MT7603_E2_FW_SIZE ∧ take 4 fw = fw_magic ∧
  0 < fw_tail_word fw + 4 < Z.of_nat MT_UPLOAD_FW_UNIT * 30.

Lemma verify_test_spec fw :
  test_verify_real_e2_firmware fw = Done tt
  ↔ length fw = MT7603_E2_FW_SIZE ∧ take 4 fw = fw_magic.
Proof.
  unfold test_verify_real_e2_firmware, assert_eq. rewrite verify_firmware_decides.
  case_bool_decide as Hl; simpl; [|split; naive_solver].
  assert (1024 ≤ length fw)%nat by (rewrite Hl; apply Nat.leb_le; vm_compute; reflexivity).
  case_decide; simpl; split; naive_solver.
Qed.

Lemma dl_len_test_spec fw :
  (4 ≤ length fw)%nat →
  test_dl_len_of_real_firmware Debug fw = Done tt
  ↔ 0 < fw_tail_word fw + 4 < Z.of_nat MT_UPLOAD_FW_UNIT * 30.
Proof.
  intros Hl. unfold test_dl_len_of_real_firmware. rewrite fw_dl_len_decides.
  rewrite decide_False by lia. change (Z.of_nat MT_UPLOAD_FW_UNIT * 30) with 122880. pow2.
  case_decide; cbn [mbind outcome_bind unwrap_option]; [|split; [done|lia]].
  unfold assert. destruct (Z.ltb_spec 0 (fw_tail_word fw + 4)); cbn [mbind outcome_bind]; [|split; [done|lia]].
  destruct (Z.ltb_spec (fw_tail_word fw + 4) 122880); split; done || lia.
Qed.

(** The unit tests of the crate pass on the model in both build profiles,
    and the two tests of the shipped firmware image pass exactly on the images
    of the expected size with the magic number and a download length between
    1 and 30 upload units. *)
Theorem unit_tests_pass :
  (∀ p, Forall (λ t, t = Done tt) (unit_tests p)) ∧
  ∀ fw, Forall (λ t, t = Done tt) (image_tests Debug fw) ↔ image_ok fw.
Proof.
  split.
  - intros p. unfold unit_tests. rewrite !Forall_app.
    auto 7 using regs_tests_pass, rx_tests_pass, tx_tests_pass, sta_tests_pass, ap_tests_pass, mcu_tests_pass.
  - intros fw. unfold image_tests, image_ok. rewrite !Forall_cons, Forall_nil, verify_test_spec. split.
    + intros ((Hl & Hm) & Hd & _). apply dl_len_test_spec in Hd; [done|].
      rewrite Hl. apply Nat.leb_le. vm_compute; reflexivity.
    + intros (Hl & Hm & Hd). split; [done|]. split; [|done]. apply dl_len_test_spec; [|done].
      rewrite Hl. apply Nat.leb_le. vm_compute; reflexivity.
Qed.

(** Some image passes, so the second part is not about nothing. *)
Example image_ok_some :
  image_ok (fw_magic ++ replicate (MT7603_E2_FW_SIZE - 4) 0).
Proof.
  split; [apply Nat.eqb_eq; vm_compute; reflexivity|].
  split; [vm_compute; reflexivity|]. split; apply Z.ltb_lt; vm_compute; reflexivity.
Qed.
