(* ===== verification/Rings.v ===== *)
(** * The receive URBs in flight (mt7603_start_rx, mt7603_stop_rx and the
    completions in src/c/mac80211.c)

    A receive URB that was submitted belongs to the USB core until it is killed
    or completes; its buffer must not be freed before.  The state here says
    which of the four receive URBs and the command-response URB are in flight,
    read off the trace: the loops over [rx_urbs] submit and kill them in order,
    so the k-th submission (or kill) of an entry into the driver is that of the
    k-th URB. *)

From S2P Require Import Prelude Rust Ffi Mac Entry Usb Cmd Download Plan Dev Driver Keys Vif Ops.
From S2P Require Import RxPath TxPath Beacon Work Traffic.
Local Open Scope Z_scope.
Local Open Scope rust_scope.

(** [rg_pos] counts the receive URBs the current entry has dealt with. *)
Record rings := Rings { rg_rx : list bool; rg_cmd : bool; rg_pos : nat }.

Definition ring_step (r : rings) (e : event) : rings :=
  match e with
  | SubmitUrb ep _ ret =>
      if ep =? MT7603_DATA_BULK_IN then
        Rings (alter (orb (0 <=? ret)) (rg_pos r) (rg_rx r)) (rg_cmd r) (S (rg_pos r))
      else if ep =? MT7603_CMD_RSP_BULK_IN then
        Rings (rg_rx r) (rg_cmd r || (0 <=? ret)) (rg_pos r)
      else r
  | KillUrb ep =>
      if ep =? MT7603_DATA_BULK_IN then
        Rings (<[rg_pos r := false]> (rg_rx r)) (rg_cmd r) (S (rg_pos r))
      else if ep =? MT7603_CMD_RSP_BULK_IN then Rings (rg_rx r) false (rg_pos r)
      else r
  | _ => r
  end.

(** An entry deals with the URBs from the first one on. *)
Definition entry_step (r : rings) (new : trace) : rings :=
  foldl ring_step (Rings (rg_rx r) (rg_cmd r) 0) new.

Lemma off_ring_step new r : forallb off_ring new = true → foldl ring_step r new = r.
Proof.
  revert r. induction new as [|e new IH]; intros r; [done|]. cbn [forallb foldl].
  intros [He Hnew]%andb_prop. rewrite IH by done. unfold off_ring, on_ring, is_ring_ep in He.
  destruct e; try done; cbn [ring_step]; apply negb_true_iff, orb_false_elim in He as [-> ->]; done.
Qed.

(** ** Fewer URBs in flight *)

Record below (r1 r2 : rings) : Prop := {
  be_pos : rg_pos r1 = rg_pos r2;
  be_length : length (rg_rx r1) = length (rg_rx r2);
  be_rx j : rg_rx r1 !! j = Some true → rg_rx r2 !! j = Some true;
  be_cmd : rg_cmd r1 = true → rg_cmd r2 = true;
}.

#[export] Instance below_preorder : PreOrder below.
Proof.
  split; [by split|]. intros r1 r2 r3 [H1 H2 H3 H4] [G1 G2 G3 G4]. split; [congruence..| |]; auto.
Qed.

(** A call does not tell URBs apart by the others in flight. *)
Lemma ring_step_below r1 r2 e : below r1 r2 → below (ring_step r1 e) (ring_step r2 e).
Proof.
  intros [Hp Hl Hx Hc]. destruct e; try done; cbn [ring_step]; rewrite Hp; repeat case_match; try done;
    split; cbn; rewrite ?length_alter, ?length_insert; auto.
  - intros j. rewrite !list_lookup_alter. case_decide; [|by auto]. subst j.
    destruct (rg_rx r1 !! rg_pos r2) as [b|] eqn:E; [cbn|by intros]. intros [= Hb].
    apply lookup_lt_Some in E as Hlt. rewrite Hl in Hlt. apply lookup_lt_is_Some_2 in Hlt as [b' Hb'].
    rewrite Hb'. cbn. f_equal. apply orb_true_iff in Hb as [->|Hb]; [done|].
    subst b. rewrite (Hx _ E) in Hb'. injection Hb' as <-. apply orb_true_r.
  - intros [Hr|Hr]%orb_true_iff; apply orb_true_iff; auto.
  - intros j [(_ & ? & _)|[? Hj]]%list_lookup_insert_Some; [done|].
    rewrite list_lookup_insert_ne by done. by apply Hx.
Qed.

Definition silent (r : rings) : Prop := Forall (λ b, b = false) (rg_rx r) ∧ rg_cmd r = false.
Definition listening (r : rings) : Prop := Forall (λ b, b = true) (rg_rx r).

Lemma below_silent r1 r2 : below r1 r2 → silent r2 → silent r1.
Proof.
  intros [_ _ Hx Hc] [H1 H2]. split; [|destruct (rg_cmd r1); [rewrite Hc in H2; done|done]].
  apply Forall_lookup. intros j [] Hj; [|done]. by apply (proj1 (Forall_lookup _ _) H1 j), Hx.
Qed.

(** ** Runs over the rings *)

(** [drives m Q r]: a run of [m] from the rings [r] ends in a result and rings
    of [Q]. *)
Definition drives {A} (m : io A) (Q : A → rings → Prop) (r : rings) : Prop :=
  ∀ tr a tr', m tr = Done (a, tr') → ∃ new, tr' = tr ++ new ∧ Q a (foldl ring_step r new).

Section drives.
Context {A : Type}.
Implicit Types (Q : A → rings → Prop) (r : rings).

Lemma drives_ret (a : A) Q r : Q a r → drives (mret a) Q r.
Proof. intros HQ tr a' tr' [= <- <-]. exists []. by rewrite app_nil_r. Qed.

Lemma drives_log (a : A) e Q r : Q a (ring_step r e) → drives (log a e) Q r.
Proof. intros HQ tr a' tr' [= <- <-]. by exists [e]. Qed.

Lemma drives_weaken (m : io A) Q Q' r :
  drives m Q r → (∀ a r', Q a r' → Q' a r') → drives m Q' r.
Proof.
  intros Hm HQ tr a tr' Heq. destruct (Hm _ _ _ Heq) as (new & -> & H). exists new. auto.
Qed.

Lemma drives_off (m : io A) Q r : logs off_ring m → (∀ a, Q a r) → drives m Q r.
Proof.
  intros Hm HQ tr a tr' Heq. destruct (Hm _ _ _ Heq) as (new & -> & Hn). exists new.
  split; [done|]. by rewrite off_ring_step.
Qed.
End drives.

Lemma drives_bind {A B} (m : io A) (f : A → io B) Q r :
  drives m (λ a r', drives (f a) Q r') r → drives (m ≫= f) Q r.
Proof.
  intros Hm tr b tr'' Heq. unfold mbind, io_bind in Heq.
  destruct (m tr) as [[a tr']| |] eqn:E; [|done..].
  destruct (Hm _ _ _ E) as (n1 & -> & H1). destruct (H1 _ _ _ Heq) as (n2 & -> & H2).
  exists (n1 ++ n2). split; [by rewrite app_assoc|]. by rewrite foldl_app.
Qed.

(** What every run ends in, from the specification of its effects. *)
Lemma drives_emits {A} (m : io A) P (Q : A → rings → Prop) r :
  emits m P → drives m Q r → drives m (λ a r', Q a r' ∧ ∃ e, P a e) r.
Proof.
  intros Hm Hd tr a tr' Heq. destruct (Hd _ _ _ Heq) as (new & -> & HQ). exists new.
  split; [done|]. split; [done|]. exists (effect_of new). by eapply emits_run.
Qed.

(** Skip a step that is not about the rings. *)
Ltac skip := apply drives_bind, drives_off; [solve [logs]|intros ?].

(** ** Start and stop *)

Definition full : rx_urb := RxUrb true true.

(** Only the first entries hold a URB, so the k-th kill is that of the k-th. *)
Fixpoint held_first (urbs : list rx_urb) : Prop :=
  match urbs with
  | [] => True
  | u :: urbs => (ru_urb u = false → Forall (λ v, ru_urb v = false) urbs) ∧ held_first urbs
  end.

(** From [urbs] and [r], the start loop may end with [urbs'] and [r']. *)
Record filled (K : kernel) (urbs : list rx_urb) (r : rings) (ret : Z) (urbs' : list rx_urb)
    (r' : rings) : Prop := {
  fi_cmd : rg_cmd r' = rg_cmd r;
  fi_length : length (rg_rx r') = length (rg_rx r);
  fi_urbs : length urbs' = length urbs;
  fi_new j : rg_rx r' !! j = Some true →
    rg_rx r !! j = Some true ∨ ∃ k, j = (rg_pos r + k)%nat ∧ urbs' !! k = Some full;
  fi_mono j : rg_rx r !! j = Some true → rg_rx r' !! j = Some true;
  fi_keep k : urbs !! k = Some full → urbs' !! k = Some full;
  fi_held : held_first urbs → held_first urbs';
  fi_all : reliable K → ret = 0 ∧ ∀ k, (k < length urbs)%nat →
    (rg_pos r + k < length (rg_rx r))%nat → rg_rx r' !! (rg_pos r + k)%nat = Some true
}.

Section rings_spec.
Context (K : kernel).

Lemma drives_submit ep n (Q : Z → rings → Prop) r :
  (∀ ret, (reliable K → 0 ≤ ret) → Q ret (ring_step r (SubmitUrb ep n ret))) →
  drives (usb_submit_urb K ep n) Q r.
Proof.
  intros HQ tr a tr' [= <- <-]. eexists [_]. split; [done|]. apply HQ. intros HK. by apply rel_submit_urb.
Qed.

(** An allocation, unless it was made before. *)
Lemma drives_buf (have : bool) n (Q : bool → rings → Prop) r :
  (∀ b, (have = true → b = true) → (reliable K → b = true) → Q b r) →
  drives (if have then mret true else m ← kmalloc K n; mret (bool_decide (is_Some m))) Q r.
Proof.
  intros HQ. destruct have; [by apply drives_ret, HQ|]. intros tr a tr' [= <- <-].
  eexists [_]. split; [done|]. apply HQ; [done|]. intros HK. apply bool_decide_eq_true, rel_kmalloc, HK.
Qed.
Lemma drives_urb (have : bool) (Q : bool → rings → Prop) r :
  (∀ b, (have = true → b = true) → (reliable K → b = true) → Q b r) →
  drives (if have then mret true else usb_alloc_urb K) Q r.
Proof.
  intros HQ. destruct have; [by apply drives_ret, HQ|]. intros tr a tr' [= <- <-].
  eexists [_]. split; [done|]. apply HQ; [done|]. intros HK. by apply rel_alloc_urb.
Qed.

(** A failed allocation ends the loop. *)
Lemma filled_stuck u u' urbs r :
  (ru_urb u' = ru_urb u) → (u = full → u' = full) → ¬ reliable K →
  filled K (u :: urbs) r ENOMEM (u' :: urbs) r.
Proof.
  intros Hu Hf HK. split; [done|done|done|by left|done| | |done].
  - intros [|k]; [|done]. intros [= ->]. cbn. by rewrite Hf.
  - cbn [held_first]. by rewrite Hu.
Qed.

Lemma filled_cons u urbs r ret urbs' r' n status :
  (reliable K → 0 ≤ status) →
  filled K urbs (ring_step r (SubmitUrb MT7603_DATA_BULK_IN n status)) ret urbs' r' →
  filled K (u :: urbs) r ret (full :: urbs') r'.
Proof.
  intros Hs [Hc Hl Hlu Hn Hm Hk Hh Ha]. cbn in *. rewrite length_alter in *. split; [done|done|cbn; lia|..].
  - intros j Hj. destruct (Hn j Hj) as [Hj'|(k & -> & Hk')]; [|right; exists (S k); split; [lia|done]].
    destruct (decide (rg_pos r = j)) as [<-|Hne]; [right; exists 0%nat; split; [lia|done]|].
    left. by rewrite list_lookup_alter_ne in Hj'.
  - intros j Hj. apply Hm. destruct (decide (rg_pos r = j)) as [<-|Hne].
    + rewrite list_lookup_alter, decide_True, Hj by done. apply (f_equal Some), orb_true_r.
    + by rewrite list_lookup_alter_ne.
  - intros [|k]; [done|apply Hk].
  - cbn [held_first]. intros [_ Hx]. split; [done|auto].
  - intros HK. destruct (Ha HK) as [-> Hall]. split; [done|]. intros [|k] Hk1 Hk2; cbn in *.
    + apply Hm. rewrite Nat.add_0_r in *. rewrite list_lookup_alter, decide_True by done.
      destruct (lookup_lt_is_Some_2 (rg_rx r) (rg_pos r) Hk2) as [b ->]. cbn.
      specialize (Hs HK). by rewrite (proj2 (Z.leb_le _ _) Hs).
    + rewrite Nat.add_succ_r in *. apply (Hall k); lia.
Qed.

Lemma start_rx_urbs_drives urbs r :
  drives (start_rx_urbs K urbs) (λ '(ret, urbs') r', filled K urbs r ret urbs' r') r.
Proof.
  revert r. induction urbs as [|u urbs IH]; intros r; cbn [start_rx_urbs].
  { apply drives_ret. split; [done|done|done|by left|done|done|done|]. intros _. split; [done|]. simpl. lia. }
  apply drives_bind, drives_buf. intros b Hb1 Hb2. destruct b; cbn [negb].
  2: { apply drives_ret, filled_stuck; [done..|]. intros HK. by specialize (Hb2 HK). }
  apply drives_bind, drives_urb. intros b Hc1 Hc2. destruct b; cbn [negb].
  2: { apply drives_ret, filled_stuck.
    - cbn. by destruct (ru_urb u); [specialize (Hc1 eq_refl)|].
    - intros ->. by specialize (Hc1 eq_refl).
    - intros HK. by specialize (Hc2 HK). }
  apply drives_bind, drives_submit. intros status Hs.
  apply drives_bind. eapply drives_weaken; [apply IH|]. intros [ret urbs'] r' Hf.
  apply drives_ret. by eapply filled_cons.
Qed.

Lemma stop_rx_urbs_drives urbs r :
  held_first urbs →
  drives (stop_rx_urbs urbs) (λ urbs' r',
    rg_cmd r' = rg_cmd r ∧ length (rg_rx r') = length (rg_rx r) ∧
    urbs' = replicate (length urbs) (RxUrb false false) ∧
    ∀ j, rg_rx r' !! j = Some true → rg_rx r !! j = Some true ∧
      ∀ u, (rg_pos r ≤ j)%nat → urbs !! (j - rg_pos r)%nat = Some u → ru_urb u = false) r.
Proof.
  revert r. induction urbs as [|u urbs IH]; intros r Hh; cbn [stop_rx_urbs].
  { by apply drives_ret. }
  cbn [held_first] in Hh. destruct Hh as [Hu Hh].
  assert (∀ r1, rg_cmd r1 = rg_cmd r → length (rg_rx r1) = length (rg_rx r) →
    (∀ j, rg_rx r1 !! j = Some true → rg_rx r !! j = Some true) →
    (if ru_urb u then rg_pos r1 = S (rg_pos r) ∧ rg_rx r1 !! rg_pos r ≠ Some true else r1 = r) →
    drives ((if ru_buf u then kfree else mret tt) ;; urbs ← stop_rx_urbs urbs; mret (RxUrb false false :: urbs))
      (λ urbs' r', rg_cmd r' = rg_cmd r ∧ length (rg_rx r') = length (rg_rx r) ∧
        urbs' = replicate (S (length urbs)) (RxUrb false false) ∧
        ∀ j, rg_rx r' !! j = Some true → rg_rx r !! j = Some true ∧
          ∀ v, (rg_pos r ≤ j)%nat → (u :: urbs) !! (j - rg_pos r)%nat = Some v → ru_urb v = false) r1) as Hrest.
  { intros r1 Hc Hl Hm Hp. skip. apply drives_bind. eapply drives_weaken; [by apply IH|].
    intros urbs' r' (Hc' & Hl' & -> & Hj'). apply drives_ret. split_and!; [congruence..|done|].
    intros j Hj. destruct (Hj' j Hj) as [Hj1 Hv]. split; [by apply Hm|]. intros v Hle Hlook.
    destruct (ru_urb u) eqn:Eu.
    - destruct Hp as [Hp Hne]. destruct (j - rg_pos r)%nat as [|k] eqn:Ek.
      + assert (j = rg_pos r) as -> by lia. done.
      + apply (Hv v); [lia|]. rewrite Hp. by replace (j - S (rg_pos r))%nat with k by lia.
    - destruct (j - rg_pos r)%nat as [|k]; cbn in Hlook; [by injection Hlook as <-|].
      eapply (proj1 (Forall_lookup _ _) (Hu eq_refl)), Hlook. }
  apply drives_bind. destruct (ru_urb u) eqn:Eu.
  - apply drives_bind, drives_log. apply drives_off; [solve [logs]|intros _].
    apply Hrest; cbn; [done|by rewrite length_insert| |].
    + intros j Hj. destruct (decide (rg_pos r = j)) as [<-|Hne]; [|by rewrite list_lookup_insert_ne in Hj].
      apply list_lookup_insert_Some in Hj as [(_ & ? & _)|[? _]]; done.
    + split; [done|]. intros Hj. apply list_lookup_insert_Some in Hj as [(_ & ? & _)|[? _]]; done.
  - apply drives_ret. by apply Hrest.
Qed.

(** The rings of a device record: a URB in flight is allocated, with its
    buffer. *)
Record rings_ok (d : Dev.t) (r : rings) : Prop := {
  ro_length : length (rg_rx r) = length (Dev.rx_urbs d);
  ro_held : held_first (Dev.rx_urbs d);
  ro_rx j : rg_rx r !! j = Some true → Dev.rx_urbs d !! j = Some full;
  ro_cmd : rg_cmd r = true → Dev.cmd_urb d = true ∧ Dev.cmd_buf d = true;
}.

Lemma below_ok d r1 r2 : below r1 r2 → rings_ok d r2 → rings_ok d r1.
Proof. intros [_ Hl Hx Hc] [? ? ? ?]. split; [congruence|done|auto..]. Qed.

Lemma rings_ok_same d d' r r' :
  rings_of d' = rings_of d → rg_rx r' = rg_rx r → rg_cmd r' = rg_cmd r → rings_ok d r → rings_ok d' r'.
Proof.
  unfold rings_of. intros [= H1 H2 H3] H4 H5 [? ? ? ?]. split; rewrite ?H1, ?H2, ?H3, ?H4, ?H5; auto.
Qed.

Lemma start_rx_drives d r :
  rings_ok d r → rg_pos r = 0%nat →
  drives (mt7603_start_rx K d) (λ '(ret, d') r', rings_ok d' r' ∧
    (reliable K → listening r' ∧ (Dev.cmd_urb d = false → rg_cmd r' = true))) r.
Proof.
  intros [Hl Hh Hx Hc] Hp. unfold mt7603_start_rx, call_kernel. do 2 skip.
  apply drives_bind. eapply drives_weaken; [apply start_rx_urbs_drives|].
  intros [ret urbs] r1 [Fc Fl Fu Fn Fm Fk Fh Fa]. rewrite Hp in *. cbn [Nat.add] in *.
  assert (∀ j, rg_rx r1 !! j = Some true → urbs !! j = Some full) as Hx1.
  { intros j Hj. destruct (Fn j Hj) as [Hj'|(k & -> & ?)]; [|done]. by apply Fk, Hx. }
  destruct (Z.ltb_spec ret 0).
  { apply drives_ret. split; [|intros HK; destruct (Fa HK); lia].
    split; cbn; [lia|by apply Fh|done|]. by rewrite Fc. }
  assert (reliable K → listening r1) as Hlisten.
  { intros HK. apply Forall_lookup. intros j b Hj. destruct (Fa HK) as [_ Hall].
    apply lookup_lt_Some in Hj as Hjl. rewrite Hall in Hj by lia. by injection Hj. }
  apply drives_bind, drives_buf. cbn [Dev.cmd_buf Dev.cmd_urb Dev.set_rx_urbs]. intros cb Hcb1 Hcb2.
  assert (∀ cu r2, rg_rx r2 = rg_rx r1 → (rg_cmd r2 = true → cu = true ∧ cb = true) →
    rings_ok (Dev.set_cmd_ring (Dev.set_rx_urbs d urbs) cu cb) r2) as Hok.
  { intros cu r2 Er Ec. split; cbn; rewrite ?Er; [lia|by apply Fh|done|done]. }
  apply drives_bind. destruct (cb && negb (Dev.cmd_urb d)) eqn:Ecb.
  - apply andb_prop in Ecb as [-> Ecu%negb_true_iff]. rewrite Ecu in *.
    apply drives_bind, (drives_urb false). intros ok _ Hok2. destruct ok.
    + apply drives_bind, drives_bind, drives_submit. intros status Hs. do 3 apply drives_ret. cbn.
      split; [by apply Hok|]. intros HK. split; [by apply Hlisten|]. intros _.
      rewrite (proj2 (Z.leb_le _ _) (Hs HK)). apply orb_true_r.
    + apply drives_bind. do 3 apply drives_ret. split; [apply Hok; [done|]|].
      * rewrite Fc. intros Hcm. by destruct (Hc Hcm).
      * intros HK. by specialize (Hok2 HK).
  - do 2 apply drives_ret. split; [apply Hok; [done|]|].
    + rewrite Fc. intros [Hu Hb]%Hc. auto.
    + intros HK. split; [by apply Hlisten|]. intros Ecu. rewrite Ecu, (Hcb2 HK) in Ecb. done.
Qed.

Lemma stop_rx_drives d r :
  rings_ok d r → rg_pos r = 0%nat →
  drives (mt7603_stop_rx d) (λ d' r', rings_ok d' r' ∧ silent r') r.
Proof.
  intros [Hl Hh Hx Hc] Hp. unfold mt7603_stop_rx. apply drives_bind.
  eapply drives_weaken with (Q := λ _ r1, rg_rx r1 = rg_rx r ∧ rg_pos r1 = 0%nat ∧ rg_cmd r1 = false).
  { destruct (Dev.cmd_urb d).
    - apply drives_bind, drives_log. apply drives_off; [solve [logs]|done].
    - apply drives_ret. split_and!; [done..|]. destruct (rg_cmd r); [|done]. by destruct (Hc eq_refl). }
  intros _ r1 (E1 & E2 & E3). skip. apply drives_bind.
  eapply drives_weaken; [by apply stop_rx_urbs_drives|]. intros urbs r2 (F1 & F2 & -> & F4).
  apply drives_ret. rewrite E1, E2 in *.
  assert (silent r2) as Hs.
  { split; [|congruence]. apply Forall_lookup. intros j b Hj. destruct b; [exfalso|done].
    destruct (F4 j Hj) as [Hj' Hu]. specialize (Hu full). rewrite Nat.sub_0_r in Hu.
    by specialize (Hu (Nat.le_0_l _) (Hx j Hj')). }
  split; [|done]. destruct Hs as [Hs1 Hs2]. split; cbn; [by rewrite length_replicate; lia| |..].
  - generalize (length (Dev.rx_urbs d)). intros n. induction n as [|n IH]; [done|]. split; [|done].
    intros _. by apply Forall_replicate.
  - intros j Hj. by apply (proj1 (Forall_lookup _ _) Hs1) in Hj.
  - by rewrite Hs2.
Qed.
End rings_spec.

Section callbacks.
Context (K : kernel) (p : profile) (stack : nat → list Z) (ops : nat → list RegWriteOp).
Context (Hstack : ∀ n, length (stack n) = n) (Hops : ∀ n, length (ops n) = n).

#[local] Hint Extern 1 (off_ring _ = true) => reflexivity : logs.

Lemma start_drives d r :
  driver_inv d → rings_ok d r → rg_pos r = 0%nat →
  drives (mt7603_mac80211_start K p (stack CHAN_BUF) (ops 128) d) (λ '(ret, d') r', rings_ok d' r' ∧
    (reliable K → listening r' ∧ (Dev.cmd_urb d = false → rg_cmd r' = true))) r.
Proof.
  intros Hd Hr Hp. unfold mt7603_mac80211_start. cbv zeta.
  set (d0 := Dev.set_running _ true).
  assert (Dev.wf d0) as Hw0.
  { pose proof (cmd_seq_wf _ _ (seq_step_u8 _ (wf_seq_nonneg _ (di_wf _ Hd))) (di_wf _ Hd)) as Hw.
    unfold Dev.wf in *. cbn in *. tauto. }
  skip. apply drives_bind. eapply drives_weaken.
  { eapply drives_emits; [apply (start_rx_emits K d0), Hw0|]. apply (start_rx_drives K d0); [|done].
    by apply (rings_ok_same d _ r). }
  intros [ret1 d1] r1 ((Hr1 & Hrel) & e & _ & (urbs & cu & cb & Hd1 & Hl & _) & _). cbn [snd] in *.
  apply drives_bind, drives_off; [solve [logs]|intros [m|]]; [|by apply drives_ret].
  assert (Dev.wf d1) as Hw1 by (rewrite Hd1; unfold Dev.wf in *; cbn in *; tauto).
  eapply drives_weaken.
  { eapply drives_emits; [by apply start_configure_emits|]. apply (drives_off _ (λ _ r', r' = r1)); [|done].
    logs. }
  intros [ret d'] r' (-> & e' & [= -> ->] & _). split; [|done]. by apply (rings_ok_same d1 _ r1).
Qed.

Lemma run_callback_off d cb :
  cb ≠ CbStart → stops cb = false → logs off_ring (run_callback K p stack ops d cb).
Proof.
  intros Hn Hs. destruct cb; try done; cbn [run_callback];
    unfold mt7603_mac80211_remove_interface, mt7603_mac80211_bss_info_changed, bss_beacon, call_kernel;
    cbv zeta; logs.
Qed.

Lemma stop_drives d r :
  rings_ok d r → rg_pos r = 0%nat →
  drives (mt7603_mac80211_stop d) (λ d' r', rings_ok d' r' ∧ silent r') r.
Proof.
  intros Hr Hp. unfold mt7603_mac80211_stop, call_kernel. cbv zeta. skip. apply drives_bind.
  eapply drives_weaken; [apply stop_rx_drives; [|done]; by apply (rings_ok_same d _ r)|].
  intros d' r' Hr'. skip. by apply drives_ret.
Qed.

Lemma callback_drives d cb r :
  driver_inv d → callback_wf cb → rings_ok d r → rg_pos r = 0%nat →
  drives (run_callback K p stack ops d cb) (λ '(ret, d') r', rings_ok d' r' ∧
    (stops cb = true → silent r') ∧ (cb ≠ CbStart → stops cb = false → r' = r) ∧
    (cb = CbStart → reliable K → listening r' ∧ (Dev.cmd_urb d = false → rg_cmd r' = true))) r.
Proof.
  intros Hd Hw Hr Hp.
  assert (∀ m, m = mt7603_mac80211_stop d → stops cb = true →
    drives (d' ← m; mret (0, d')) (λ '(ret, d') r', rings_ok d' r' ∧
      (stops cb = true → silent r') ∧ (cb ≠ CbStart → stops cb = false → r' = r) ∧
      (cb = CbStart → reliable K → listening r' ∧ (Dev.cmd_urb d = false → rg_cmd r' = true))) r) as Hstop.
  { intros m -> Hs. apply drives_bind. eapply drives_weaken; [by apply stop_drives|].
    intros d' r' [? ?]. apply drives_ret. split_and!; [done..|congruence|]. by intros ->. }
  destruct (stops cb) eqn:Es; [destruct cb; try done; by apply Hstop|].
  assert (cb = CbStart ∨ cb ≠ CbStart) as [-> |Hn] by (destruct cb; auto).
  - eapply drives_weaken; [by apply start_drives|]. intros [ret d'] r' [? ?]. by split_and!.
  - eapply drives_weaken.
    { eapply drives_emits; [by apply run_callback_steps|].
      apply (drives_off _ (λ _ r', r' = r)); [by apply run_callback_off|done]. }
    intros [ret d'] r' (-> & e & _ & _ & Hk). split_and!; try done.
    apply (rings_ok_same d _ r); [by apply Hk|done..].
Qed.
End callbacks.
