(* ===== verification/Reception.v ===== *)
(** * Reception: the receive completions among the other entries

    The worlds of Traffic.v with the receive URBs in flight (Rings.v) and what
    the last start returned.  Next to the entries of Traffic.v, a receive URB
    in flight may complete with any status and any bytes, and so may the
    command-response URB: on its own, or in the middle of another entry,
    between any two of its calls of the kernel ([weave]). *)

From S2P Require Import Prelude Rust Ffi Mac Entry Usb Cmd Download Plan Dev Driver Keys Vif Ops.
From S2P Require Import RxPath TxPath Beacon Work Traffic Rings.
Local Open Scope Z_scope.
Local Open Scope rust_scope.

(** [rw_up]: the return value of the last start, [None] before the first and
    after a stop or the removal. *)
Record rx_world := RxWorld { rw_world : world; rw_rings : rings; rw_up : option Z }.

(** A completion of the k-th receive URB - its status, buffer and length;
    whether [dev_alloc_skb] succeeds for the packet at a position; the
    uninitialised [rx_info] - or of the command-response URB. *)
Inductive completion :=
| UrbDone (k : nat) (status : Z) (buf : list Z) (actual_length : nat)
    (dev_alloc_skb : nat → nat → bool) (stack_info : RxInfo)
| CmdDone (status : Z).

(** An entry into the driver, with the completions that run while it waits for
    the kernel, or a completion on its own. *)
Inductive rx_input :=
| RxIn (i : input) (during : list completion)
| RxDone (c : completion).

Definition put_trace (w : world) (new : trace) : world :=
  World (w_dev w) (w_flight w) (w_pending w) (w_handed w) (w_returned w) (w_freed w) (w_trace w ++ new).

Section reception.
Context `{Ieee80211}.
Variable K : kernel.
Variable p : profile.
Variable stack : nat → list Z.
Variable ops : nat → list RegWriteOp.

(** The end of both completion handlers: whether the URB is in flight again. *)
Definition resubmit (ep : Z) (n : nat) (again : bool) : io bool :=
  if again then ret ← usb_submit_urb K ep n; mret (0 <=? ret) else mret false.

(** What the callbacks return. *)
Definition up_after (w : rx_world) (i : input) : option Z :=
  match i with
  | InCallback CbStart =>
      match run_callback K p stack ops (w_dev (rw_world w)) CbStart (w_trace (rw_world w)) with
      | Done ((ret, _), _) => Some ret
      | _ => None
      end
  | InCallback cb => if stops cb then None else rw_up w
  | _ => rw_up w
  end.

(** A completion is that of a URB in flight, whose buffer has the size it was
    allocated with. *)
Definition ready (r : rings) (c : completion) : Prop :=
  match c with
  | UrbDone k status buf len _ _ => rg_rx r !! k = Some true ∧
      Forall is_u8 buf ∧ length buf = MT7603_RX_BUF_SIZE ∧ (len ≤ length buf)%nat
  | CmdDone _ => rg_cmd r = true
  end.

(** The completion handlers, on a device [d] after the trace [tr]. *)
Inductive completes (d : Dev.t) (tr : trace) (r : rings) : completion → rings → trace → Prop :=
| CompletesUrb k status buf len alloc info es again flying new :
    mt7603_rx_complete (Dev.rssi_offset_2g d) (Dev.current_channel d) (Dev.running d) false alloc info
      status buf len (S len) = Done (Some (es, again)) →
    resubmit MT7603_DATA_BULK_IN MT7603_RX_BUF_SIZE again tr = Done (flying, tr ++ new) →
    completes d tr r (UrbDone k status buf len alloc info)
      (Rings (<[k := flying]> (rg_rx r)) (rg_cmd r) (rg_pos r)) new
| CompletesCmd status flying new :
    resubmit MT7603_CMD_RSP_BULK_IN 512 (mt7603_cmd_rsp_complete (Dev.running d) status) tr
      = Done (flying, tr ++ new) →
    completes d tr r (CmdDone status) (Rings (rg_rx r) flying (rg_pos r)) new.

(** The calls [es] of an entry, with the completions [cs] between them.  Start
    and stop set the running flag before their first call and no other entry
    touches it, so all the completions find the same flag. *)
Inductive weave (running : bool) : rings → trace → list completion → rings → Prop :=
| WeaveNil r : weave running r [] [] r
| WeaveCall r e es cs r' : weave running (ring_step r e) es cs r' → weave running r (e :: es) cs r'
| WeaveDone d tr r c r1 new es cs r' :
    Dev.wf d → Dev.running d = running → ready r c → completes d tr r c r1 new →
    weave running r1 es cs r' → weave running r es (c :: cs) r'.

(** The answers an entry gets are those of [K] whatever runs in between: [K]
    is arbitrary, and no trace occurs twice in a life. *)
Inductive rx_step (w : rx_world) : rx_input → rx_world → Prop :=
| RxStepIn i cs w' new r' :
    step K p stack ops (rw_world w) i w' → w_trace w' = w_trace (rw_world w) ++ new →
    weave (Dev.running (w_dev w')) (Rings (rg_rx (rw_rings w)) (rg_cmd (rw_rings w)) 0) new cs r' →
    rx_step w (RxIn i cs) (RxWorld w' r' (up_after w i))
| RxStepDone c r' new :
    completes (w_dev (rw_world w)) (w_trace (rw_world w)) (rw_rings w) c r' new →
    rx_step w (RxDone c) (RxWorld (put_trace (rw_world w) new) r' (rw_up w)).

(** What may enter. *)
Definition rx_enabled (allowed : rx_world → callback → Prop) (w : rx_world) (i : rx_input) : Prop :=
  match i with
  | RxIn i _ => enabled (λ _, allowed w) (rw_world w) i
  | RxDone c => ready (rw_rings w) c
  end.

Definition rx_move (P : rx_input → Prop) (allowed : rx_world → callback → Prop) (w w' : rx_world) : Prop :=
  ∃ i, rx_enabled allowed w i ∧ P i ∧ rx_step w i w'.

Definition rx_beginning (d : Dev.t) : rx_world :=
  RxWorld (beginning d) (Rings (replicate (length (Dev.rx_urbs d)) false) false 0) None.
(** [P] restricts the inputs further. *)
Definition rx_reachable P allowed (d : Dev.t) : rx_world → Prop :=
  rtc (rx_move P allowed) (rx_beginning d).
End reception.

(** ** Invariants *)

Record rx_inv `{Ieee80211} (w : rx_world) : Prop := {
  ri_accounts : accounts (rw_world w);
  ri_rings : rings_ok (w_dev (rw_world w)) (rw_rings w);
  ri_stopped : Dev.running (w_dev (rw_world w)) = false → silent (rw_rings w);
  ri_up : rw_up w = None → silent (rw_rings w);
  ri_ret : ∀ ret, rw_up w = Some ret → ret = 0 ∨ ret = ENOMEM
}.

Section off.
Context `{Ieee80211} (K : kernel) (p : profile).

Lemma kfree_skb_off : logs off_ring dev_kfree_skb_any.
Proof. by apply logs_log. Qed.
#[local] Hint Resolve kfree_skb_off : logs.

Lemma tx_off d stack skb info : logs off_ring (mt7603_mac80211_tx K p d stack skb info).
Proof.
  assert (∀ b n, logs off_ring (usb_submit_urb K
    (if b : bool then MT7603_MGMT_BULK_OUT else MT7603_DATA_BULK_OUT) n)) as Hs
    by (intros [] n; by apply submit_urb_logs).
  unfold mt7603_mac80211_tx, tx_transfer, tx_submit, tx_replace, skb_copy_expand, skb_realloc_headroom.
  cbv zeta. logs.
Qed.
Lemma tx_complete_off d u status : logs off_ring (mt7603_tx_complete d u status).
Proof. unfold mt7603_tx_complete. logs. Qed.
#[local] Hint Resolve tx_off tx_complete_off : logs.
Lemma kill_anchored_off d fl : logs off_ring (kill_anchored d fl).
Proof. induction fl; cbn [kill_anchored]; logs. Qed.
Lemma beacon_work_off stack d b us : logs off_ring (mt7603_beacon_work K p stack d b us).
Proof. unfold mt7603_beacon_work, call_kernel. cbv zeta. logs. Qed.
End off.

Lemma logs_run {A} P (m : io A) tr a new : logs P m → m tr = Done (a, tr ++ new) → forallb P new = true.
Proof. intros Hm Heq. destruct (Hm _ _ _ Heq) as (n & E & Hn). by apply app_inv_head in E as ->. Qed.
Lemma drives_run {A} (m : io A) Q r tr a new :
  drives m Q r → m tr = Done (a, tr ++ new) → Q a (foldl ring_step r new).
Proof. intros Hm Heq. destruct (Hm _ _ _ Heq) as (n & E & Hn). by apply app_inv_head in E as ->. Qed.

Section rx_proofs.
Context `{Ieee80211Laws} (K : kernel) (p : profile).
Context (stack : nat → list Z) (ops : nat → list RegWriteOp).
Context (HK : kernel_ok K) (Hstack : ∀ n, length (stack n) = n) (Hops : ∀ n, length (ops n) = n).

(** The rings after a base entry. *)
Lemma step_rings r (w : world) i w' new :
  accounts w → (∀ cb, i = InCallback cb → callback_wf cb) → rings_ok (w_dev w) r →
  step K p stack ops w i w' → w_trace w' = w_trace w ++ new →
  let r' := entry_step r new in
  rings_ok (w_dev w') r' ∧
  (∀ cb, i = InCallback cb → stops cb = true → silent r') ∧
  (i = InCallback CbStart → reliable K → listening r' ∧ (Dev.cmd_urb (w_dev w) = false → rg_cmd r' = true)) ∧
  ((∀ cb, i = InCallback cb → cb ≠ CbStart ∧ stops cb = false) →
    rg_rx r' = rg_rx r ∧ rg_cmd r' = rg_cmd r).
Proof.
  intros Hac Hwf Hr Hst Hnew r'. pose proof (ac_inv _ Hac) as Hi.
  set (r0 := Rings (rg_rx r) (rg_cmd r) 0).
  assert (rings_ok (w_dev w) r0) as Hr0 by by apply (rings_ok_same (w_dev w) _ r).
  assert (∀ {A} (m : io A) tr a n, logs off_ring m → m tr = Done (a, tr ++ n) → foldl ring_step r0 n = r0) as Hoff.
  { intros A m tr a n Hm Heq. apply off_ring_step. by eapply logs_run. }
  unfold r', entry_step. fold r0.
  destruct Hst as [cb ret dev' new0 Hcb Hrun|cb ret dev' new0 fl rs new' Hcb Hrun _ Hkill
    |skb info u new0 Htx|l1 f l2 status u new0 Hl Hc|beacon us u new0 Hb]; cbn [w_trace w_dev submit] in *.
  - apply app_inv_head in Hnew as <-. pose proof Hrun as Hrun'.
    eapply drives_run in Hrun; [|apply (callback_drives K p stack ops Hstack Hops _ cb r0); auto].
    destruct Hrun as (Hok & _ & Hsame & Hstart). split; [done|]. split; [intros ? [= <-]; congruence|].
    split; [intros [= ->]; by apply Hstart|]. intros Hn. destruct (Hn _ eq_refl). by rewrite Hsame.
  - rewrite <-app_assoc in Hnew. apply app_inv_head in Hnew as <-. rewrite foldl_app.
    eapply drives_run in Hrun; [|apply (callback_drives K p stack ops Hstack Hops _ cb r0); auto].
    destruct Hrun as (Hok & Hsil & _ & _).
    rewrite (off_ring_step new') by (eapply logs_run; [apply kill_anchored_off|done]).
    split; [done|]. split; [by auto|]. split; [intros [= ->]; done|].
    intros Hn. destruct (Hn _ eq_refl). congruence.
  - apply app_inv_head in Hnew as <-. rewrite (Hoff _ _ _ _ _ (tx_off _ _ _ _ _ _) Htx). by split_and!.
  - apply app_inv_head in Hnew as <-. rewrite (Hoff _ _ _ _ _ (tx_complete_off _ _ _) Hc). by split_and!.
  - assert (new = new0) as ->.
    { destruct (beaconing _); [destruct beacon as [[]|]|]; cbn in Hnew; by apply app_inv_head in Hnew. }
    rewrite (Hoff _ _ _ _ _ (beacon_work_off _ _ _ _ _ _) Hb).
    destruct (if beaconing _ then beacon else None) as [[]|]; cbn [w_dev submit]; by split_and!.
Qed.

Lemma put_trace_accounts w new :
  mem (effect_of new) = 0 → Usb.urbs (effect_of new) = 0 → accounts w → accounts (put_trace w new).
Proof.
  intros Hm Hu [? ? ? Hmem Hurb ?]. split; cbn [put_trace w_dev w_flight w_handed w_returned w_freed w_trace];
    try done; rewrite effect_of_app; simpl; lia.
Qed.

Lemma resubmit_run ep n again tr flying new :
  resubmit K ep n again tr = Done (flying, tr ++ new) →
  mem (effect_of new) = 0 ∧ Usb.urbs (effect_of new) = 0 ∧
  (flying = true → again = true) ∧ (reliable K → flying = again).
Proof.
  unfold resubmit. destruct again.
  - intros [= <- Hn]. apply app_inv_head in Hn as <-. cbn. split_and!; [done..|].
    intros HR. apply Z.leb_le. by apply rel_submit_urb.
  - intros [= <- Hn]. rewrite <-(app_nil_r tr) in Hn at 1. by apply app_inv_head in Hn as <-.
Qed.

(** A completion changes the slot of its own URB, and needs a running driver
    to submit it again. *)
Lemma completes_below d tr r c r' new :
  ready r c → completes K d tr r c r' new →
  below r' r ∧ mem (effect_of new) = 0 ∧ Usb.urbs (effect_of new) = 0.
Proof.
  intros Hrd Hc.
  destruct Hc as [k status buf len alloc info es again flying new Hrx Hre|status flying new Hre];
    destruct (resubmit_run _ _ _ _ _ _ Hre) as (Hm & Hu & _); (split; [|done]); cbn [ready] in Hrd.
  - destruct Hrd as (Hk & _). split; cbn; [done|by rewrite length_insert| |done].
    intros j [(-> & _ & _)|[_ Hj]]%list_lookup_insert_Some; done.
  - by split.
Qed.

Lemma weave_below running r es cs r' :
  weave K running r es cs r' → below r' (foldl ring_step r es).
Proof.
  assert (∀ es r1 r2, below r1 r2 → below (foldl ring_step r1 es) (foldl ring_step r2 es)) as Hmono.
  { clear. intros es. induction es as [|e es IH]; intros r1 r2 Hb; [done|]. by apply IH, ring_step_below. }
  induction 1 as [r|r e es cs r' _ IH|d tr r c r1 new es cs r' _ _ Hrd Hc _ IH]; [done|done|].
  etrans; [exact IH|]. apply Hmono. by eapply completes_below.
Qed.

(** Which entries may change the rings or the returned value. *)
Lemma input_cases (i : input) :
  i = InCallback CbStart ∨ (∃ cb, i = InCallback cb ∧ stops cb = true) ∨
  (∀ cb, i = InCallback cb → cb ≠ CbStart ∧ stops cb = false).
Proof.
  destruct i as [cb|skb info|k status|b us]; [|by right; right..].
  destruct (stops cb) eqn:E; [right; left; eauto|]. destruct cb; try (by left); right; right; by intros ? [= <-].
Qed.

(** A start that is entered returns 0 or [-ENOMEM]. *)
Lemma up_after_start w :
  accounts (rw_world w) → ∃ ret, up_after K p stack ops w (InCallback CbStart) = Some ret ∧
    (ret = 0 ∨ ret = ENOMEM) ∧ (reliable K → ret = 0).
Proof.
  intros Hac. pose proof (ac_inv _ Hac) as Hi. cbn [up_after run_callback].
  destruct (start_emits K p (stack CHAN_BUF) (ops 128) (w_dev (rw_world w)) (Hstack _) (Hops _) (di_wf _ Hi)
    (w_trace (rw_world w))) as ([ret d'] & new & -> & (u & cu & cb & dn & _ & _ & Hret) & (wv & _ & _ & Hrel) & _).
  cbn [fst] in *. exists ret. split; [done|]. split; [destruct Hret as [[_ ?]|[_ ?]]; auto|]. intros HR. by apply Hrel.
Qed.

(** Only a stop ends running. *)
Lemma step_running (w : world) i w' :
  accounts w → (∀ cb, i = InCallback cb → callback_wf cb) →
  (∀ cb, i = InCallback cb → cb ≠ CbStart ∧ stops cb = false) →
  step K p stack ops w i w' → Dev.running (w_dev w') = false → Dev.running (w_dev w) = false.
Proof.
  intros Hac Hwf Hno Hst Hrun. destruct i as [cb| | |].
  - destruct (Hno cb eq_refl) as [_ Hcb].
    destruct (step_callback_soft K p stack ops Hstack Hops _ cb _ Hac (Hwf _ eq_refl) Hst) as (Hsoft & _).
    change (as_running (soft (w_dev w)) = false). eapply soft_step_running; [exact Hcb|]. by rewrite <-Hsoft.
  - inversion Hst; by subst.
  - inversion Hst; by subst.
  - inversion Hst; subst. by destruct (if beaconing _ then _ else _) as [[]|].
Qed.

Lemma rx_step_inv allowed w i w' :
  rx_inv w → rx_enabled allowed w i → rx_step K p stack ops w i w' → rx_inv w'.
Proof.
  intros [Hac Hr Hs Hu Hret] Hen Hst.
  destruct Hst as [i cs w1 new r' Hst Htr Hwv|c r' new Hc]; cbn [rx_enabled] in Hen.
  - assert (∀ cb, i = InCallback cb → callback_wf cb) as Hwf by (intros cb ->; apply Hen).
    destruct (step_rings _ _ _ _ _ Hac Hwf Hr Hst Htr) as (Hr' & Hsil & _ & Hsame).
    apply weave_below in Hwv. change (below r' (entry_step (rw_rings w) new)) in Hwv.
    assert (silent (entry_step (rw_rings w) new) → silent r') as Hbs by by apply below_silent.
    destruct (input_cases i) as [-> |[(cb & -> & Hcb)|Hno]].
    + destruct (up_after_start w Hac) as (ret & Hup & Hret' & _).
      destruct (step_callback_soft K p stack ops Hstack Hops _ CbStart _ Hac I Hst) as (Hsoft & _).
      split; cbn [rw_world rw_rings rw_up]; [by eapply step_accounts|by eapply below_ok| |by rewrite Hup|].
      * change (as_running (soft (w_dev w1)) = false → silent r'). by rewrite Hsoft.
      * rewrite Hup. by intros ? [= <-].
    + assert (up_after K p stack ops w (InCallback cb) = None) as Hup by by destruct cb.
      split; cbn [rw_world rw_rings rw_up]; [by eapply step_accounts|by eapply below_ok|by eauto|by eauto|by rewrite Hup].
    + destruct (Hsame Hno) as [E1 E2].
      assert (silent (rw_rings w) → silent (entry_step (rw_rings w) new)) as Hss
        by (unfold silent; by rewrite E1, E2).
      assert (up_after K p stack ops w i = rw_up w) as Hup.
      { destruct i as [cb| | |]; try done. destruct (Hno cb eq_refl) as [Hn Hsc]. by destruct cb. }
      split; cbn [rw_world rw_rings rw_up]; rewrite ?Hup; [by eapply step_accounts|by eapply below_ok| |by auto|done].
      intros Hrun. apply Hbs, Hss, Hs. by eapply step_running.
  - destruct (completes_below _ _ _ _ _ _ Hen Hc) as (Hb & Hm & Hue).
    split; cbn [rw_world rw_rings rw_up put_trace w_dev]; [by apply put_trace_accounts|by eapply below_ok| | |done].
    + intros Hrun. by eapply below_silent, Hs.
    + intros E. by eapply below_silent, Hu.
Qed.

(** ** Every entry runs *)

Lemma step_trace (w : world) i w' : step K p stack ops w i w' → ∃ new, w_trace w' = w_trace w ++ new.
Proof.
  intros [cb ret dev' new|cb ret dev' new fl rs new'|skb info r new|l1 f l2 status r new|beacon us r new];
    cbn [w_trace submit]; rewrite <-?app_assoc; eauto.
  destruct (if beaconing _ then _ else _) as [[]|]; cbn; eauto.
Qed.

Lemma resubmit_done ep n again tr : ∃ flying new, resubmit K ep n again tr = Done (flying, tr ++ new).
Proof. destruct again; cbn; [by eexists _, [_]|]. exists false, []. by rewrite app_nil_r. Qed.

Lemma completes_exists d tr r c : Dev.wf d → ready r c → ∃ r' new, completes K d tr r c r' new.
Proof.
  intros Hwf Hrd. destruct c as [k status buf len alloc info|status]; cbn [ready] in Hrd.
  - destruct Hrd as (_ & Hb & _ & Hl). unfold Dev.wf in Hwf.
    destruct (rx_complete_runs (Dev.rssi_offset_2g d) (Dev.current_channel d) (Dev.running d) alloc info
      status buf len) as (es & again & Hrun & _); [tauto..|].
    destruct (resubmit_done MT7603_DATA_BULK_IN MT7603_RX_BUF_SIZE again tr) as (flying & new & Hre).
    do 2 eexists. eapply CompletesUrb; [|done]. apply Hrun. lia.
  - destruct (resubmit_done MT7603_CMD_RSP_BULK_IN 512 (mt7603_cmd_rsp_complete (Dev.running d) status) tr)
      as (flying & new & Hre).
    do 2 eexists. by eapply CompletesCmd.
Qed.

Lemma weave_calls running r es : weave K running r es [] (foldl ring_step r es).
Proof. revert r. induction es as [|e es IH]; intros r; [apply WeaveNil|]. by apply WeaveCall, IH. Qed.

(** An entry that is not interrupted runs; so does a completion. *)
Definition alone (i : rx_input) : Prop := match i with RxIn _ cs => cs = [] | RxDone _ => True end.

Lemma rx_step_exists allowed w i :
  accounts (rw_world w) → rx_enabled allowed w i → alone i → ∃ w', rx_step K p stack ops w i w'.
Proof.
  intros Hac Hen Hal. destruct i as [i cs|c]; cbn [rx_enabled alone] in *.
  - subst cs. destruct (step_exists K p stack ops HK Hstack Hops _ _ _ Hac Hen) as [w' Hst].
    destruct (step_trace _ _ _ Hst) as [new Hn]. eexists. eapply RxStepIn; [done..|apply weave_calls].
  - destruct (completes_exists (w_dev (rw_world w)) (w_trace (rw_world w)) (rw_rings w) c) as (r' & new & Hc);
      [apply (di_wf _ (ac_inv _ Hac))|done|]. eexists. by eapply RxStepDone.
Qed.

(** An entry can be interrupted by a completion of any URB in flight. *)
Lemma interrupted_exists allowed w i c :
  rx_inv w → rx_enabled allowed w (RxIn i []) → ready (rw_rings w) c →
  ∃ w', rx_step K p stack ops w (RxIn i [c]) w'.
Proof.
  intros [Hac _ _ _ _] Hen Hrd. cbn [rx_enabled] in Hen.
  destruct (step_exists K p stack ops HK Hstack Hops _ _ _ Hac Hen) as [w' Hst].
  destruct (step_trace _ _ _ Hst) as [new Hn].
  assert (accounts w') as Hac' by by eapply step_accounts.
  destruct (completes_exists (w_dev w') (w_trace (rw_world w))
    (Rings (rg_rx (rw_rings w)) (rg_cmd (rw_rings w)) 0) c) as (r1 & new1 & Hc); [apply (di_wf _ (ac_inv _ Hac'))|by destruct c|].
  eexists. eapply RxStepIn; [done..|].
  eapply WeaveDone; [apply (di_wf _ (ac_inv _ Hac'))|done| |exact Hc|apply weave_calls]. by destruct c.
Qed.

Lemma rx_beginning_inv d : driver_inv d → rings_empty d → rx_inv (rx_beginning d).
Proof.
  intros Hd He. destruct (rings_empty_hold d He) as [Hm Hu]. destruct He as (HF & _ & _).
  assert (silent (rw_rings (rx_beginning d))) as Hs by (split; [by apply Forall_replicate|done]).
  split; cbn [rx_beginning rw_world rw_rings rw_up]; [by apply beginning_accounts| |done..].
  split; cbn; [by rewrite length_replicate| | |done].
  - clear -HF. induction HF as [|u urbs -> HF IH]; [done|]. split; [|done]. intros _.
    eapply Forall_impl; [exact HF|]. by intros ? ->.
  - intros j Hj. apply lookup_replicate in Hj as [? _]. done.
Qed.

(** Invariants of the reachable worlds. *)
Lemma rx_reachable_invariant P allowed d (I : rx_world → Prop) w :
  driver_inv d → rings_empty d → I (rx_beginning d) →
  (∀ w i w', rx_inv w → I w → P i → rx_enabled allowed w i → rx_step K p stack ops w i w' → I w') →
  rx_reachable K p stack ops P allowed d w → rx_inv w ∧ I w.
Proof.
  intros Hd He Hb Hstep. unfold rx_reachable. revert w.
  apply (rtc_ind_r (λ w, rx_inv w ∧ I w)); [split; [by apply rx_beginning_inv|done]|].
  intros w1 w2 _ (i & Hen & HP & Hst) [Hinv HI]. split; [by eapply rx_step_inv|by eapply Hstep].
Qed.

(** ** Listening *)

(** A completion that does not report the end of the transfers. *)
Definition calm (c : completion) : Prop :=
  match c with
  | UrbDone _ status _ _ _ _ => status ≠ ENOENT ∧ status ≠ ESHUTDOWN ∧ status ≠ ECONNRESET
  | CmdDone _ => True
  end.
Definition benign (i : rx_input) : Prop :=
  match i with RxIn _ cs => Forall calm cs | RxDone c => calm c end.

(** Rings with the same receive URBs in flight. *)
Definition same_rx (r1 r2 : rings) : Prop := rg_rx r1 = rg_rx r2 ∧ rg_pos r1 = rg_pos r2.

Lemma ring_step_same r1 r2 e : same_rx r1 r2 → same_rx (ring_step r1 e) (ring_step r2 e).
Proof. intros [Hx Hp]. unfold same_rx. destruct e; cbn; rewrite ?Hx, ?Hp; repeat case_match; cbn; by rewrite ?Hx, ?Hp. Qed.

Lemma calm_completes d tr r c r' new :
  reliable K → Dev.running d = true → calm c → ready r c → completes K d tr r c r' new → same_rx r' r.
Proof.
  intros HR Hrun Hcalm Hrd Hc.
  destruct Hc as [k status buf len alloc info es again flying new Hrx Hre|status flying new Hre]; [|done].
  destruct (resubmit_run _ _ _ _ _ _ Hre) as (_ & _ & _ & Hf). apply rx_complete_again in Hrx.
  rewrite Hrun in Hrx. destruct Hcalm as (H1 & H2 & H3). rewrite !(proj2 (Z.eqb_neq _ _)) in Hrx by done.
  split; [|done]. cbn. rewrite (Hf HR), Hrx. apply list_insert_id, Hrd.
Qed.

Lemma calm_weave r es cs r' :
  reliable K → Forall calm cs → weave K true r es cs r' → same_rx r' (foldl ring_step r es).
Proof.
  intros HR Hcs Hwv. remember true as running eqn:Erun.
  assert (∀ es r1 r2, same_rx r1 r2 → same_rx (foldl ring_step r1 es) (foldl ring_step r2 es)) as Hmono.
  { clear. intros es. induction es as [|e es IH]; intros r1 r2 Hb; [done|]. by apply IH, ring_step_same. }
  induction Hwv as [r|r e es cs r' _ IH|d tr r c r1 new es cs r' _ Hrun Hrd Hc _ IH]; [done|by apply IH|].
  apply Forall_cons in Hcs as [Hc1 Hcs]. destruct (IH Hcs) as [E1 E2].
  assert (same_rx (foldl ring_step r1 es) (foldl ring_step r es)) as [E3 E4]
    by (apply Hmono; eapply calm_completes; [done|by subst|done..]).
  split; congruence.
Qed.

Lemma rx_step_listening allowed w i w' :
  reliable K → rx_inv w → (Dev.running (w_dev (rw_world w)) = true → listening (rw_rings w)) →
  benign i → rx_enabled allowed w i → rx_step K p stack ops w i w' →
  Dev.running (w_dev (rw_world w')) = true → listening (rw_rings w').
Proof.
  intros HR [Hac Hr Hs Hu Hret] Hl Hb Hen Hst.
  destruct Hst as [i cs w1 new r' Hst Htr Hwv|c r' new Hc];
    cbn [rx_enabled rw_world rw_rings put_trace w_dev benign] in *; intros Hrun.
  - assert (∀ cb, i = InCallback cb → callback_wf cb) as Hwf by (intros cb ->; apply Hen).
    destruct (step_rings _ _ _ _ _ Hac Hwf Hr Hst Htr) as (_ & Hsil & Hstart & Hsame).
    rewrite Hrun in Hwv. destruct (calm_weave _ _ _ _ HR Hb Hwv) as [Ewv _].
    unfold listening. rewrite Ewv. change (listening (entry_step (rw_rings w) new)).
    destruct (input_cases i) as [-> |[(cb & -> & Hcb)|Hno]].
    + by apply Hstart.
    + exfalso. destruct (step_callback_soft K p stack ops Hstack Hops _ cb _ Hac (Hwf _ eq_refl) Hst) as (Hsoft & _).
      change (as_running (soft (w_dev w1)) = true) in Hrun. rewrite Hsoft in Hrun. by destruct cb.
    + destruct (Hsame Hno) as [E _]. unfold listening. rewrite E. apply Hl.
      destruct i as [cb| | |].
      * destruct (Hno cb eq_refl) as [Hn Hsc].
        destruct (step_callback_soft K p stack ops Hstack Hops _ cb _ Hac (Hwf _ eq_refl) Hst) as (Hsoft & _).
        change (as_running (soft (w_dev w1)) = true) in Hrun. rewrite Hsoft in Hrun.
        change (as_running (soft (w_dev (rw_world w))) = true). by eapply soft_step_runs.
      * inversion Hst; by subst.
      * inversion Hst; by subst.
      * inversion Hst; subst. by destruct (if beaconing _ then _ else _) as [[]|].
  - destruct (calm_completes _ _ _ _ _ _ HR Hrun Hb Hen Hc) as [E _]. unfold listening. rewrite E. by apply Hl.
Qed.
End rx_proofs.

(** ** Properties *)

Section reception_theorems.
Context `{Ieee80211Laws}.

(** C3. Reception is safe under every interleaving, whatever fails: in every
    world that callbacks, transmissions, beacon work and completions of either
    direction can reach - receive completions also in the middle of the other
    entries, wherever they wait for the kernel - a receive URB in flight is
    allocated with its buffer, so the bus never writes to freed memory; a
    driver that is not running, or was stopped, has none in flight; the books
    of Traffic.v hold; every entry that may come next runs; and so does every
    completion of a URB in flight, with any status and any bytes, wherever it
    comes. *)
Theorem reception_safe K p stack ops P allowed d w :
  kernel_ok K → (∀ n, length (stack n) = n) → (∀ n, length (ops n) = n) →
  driver_inv d → rings_empty d → rx_reachable K p stack ops P allowed d w →
  let dev := w_dev (rw_world w) in
  let r := rw_rings w in
  (∀ k, rg_rx r !! k = Some true → Dev.rx_urbs dev !! k = Some (RxUrb true true)) ∧
  (rg_cmd r = true → Dev.cmd_urb dev = true ∧ Dev.cmd_buf dev = true) ∧
  (Dev.running dev = false ∨ rw_up w = None → silent r) ∧
  accounts (rw_world w) ∧
  (∀ i, rx_enabled allowed w i → alone i → ∃ w', rx_step K p stack ops w i w') ∧
  ∀ d' tr r' c, Dev.wf d' → ready r' c → ∃ r1 new, completes K d' tr r' c r1 new.
Proof.
  intros HK Hst Hops Hd He Hr dev r.
  destruct (rx_reachable_invariant K p stack ops HK Hst Hops P allowed d (λ _, True) w) as [Hi _]; [done..|].
  destruct Hi as [Hac [_ _ Hx Hc] Hs Hu _]. split; [done|]. split; [done|]. split; [by intros [|]; auto|].
  split; [done|]. split; [by intros; eapply rx_step_exists|]. intros. by apply completes_exists.
Qed.

(** C7. A running driver keeps listening.  When allocations, transfers and
    submissions succeed and no completion reports the end of the transfers,
    all receive URBs are in flight in every reachable world where the driver
    runs: each completion submits its URB again, also one that interrupts
    another entry, and no callback takes one away. *)
Theorem reception_listens K p stack ops allowed d w :
  kernel_ok K → reliable K → (∀ n, length (stack n) = n) → (∀ n, length (ops n) = n) →
  driver_inv d → rings_empty d → Dev.running d = false →
  rx_reachable K p stack ops benign allowed d w →
  Dev.running (w_dev (rw_world w)) = true →
  rg_rx (rw_rings w) = replicate MT7603_NUM_RX_URBS true.
Proof.
  intros HK HR Hst Hops Hd He Hrd Hr Hrun.
  destruct (rx_reachable_invariant K p stack ops HK Hst Hops benign allowed d
    (λ w, Dev.running (w_dev (rw_world w)) = true → listening (rw_rings w)) w) as [[Hac [Hlen _ _ _] _ _ _] Hl];
    [done..|cbn; congruence| |done|].
  - intros w1 i w2 Hinv Hl HP Hen Hs. by eapply rx_step_listening.
  - specialize (Hl Hrun). unfold listening in Hl.
    assert (length (rg_rx (rw_rings w)) = MT7603_NUM_RX_URBS) as <-
      by (rewrite Hlen; apply (di_wf _ (ac_inv _ Hac))).
    clear -Hl. by induction Hl as [|b l -> _ IH]; [|cbn; rewrite <-IH].
Qed.

(** What mac80211 does: it starts an interface that is not up and stops one
    that is. *)
Definition in_turn (w : rx_world) (cb : callback) : Prop :=
  match cb with
  | CbStart => rw_up w ≠ Some 0
  | CbStop => rw_up w = Some 0
  | _ => True
  end.

(** C17. Only a failed start meets URBs in flight, and a URB that is lost stays
    lost.  A start that finds receive URBs in flight - which it fills and
    submits again under the USB core - follows a start that returned -ENOMEM
    with its rings submitted and its running flag set, and no other history;
    and no entry but a start puts a receive URB back in flight, so one whose
    resubmission failed receives nothing until the driver is started again. *)
Theorem rings_only_started K p stack ops P d w :
  kernel_ok K → (∀ n, length (stack n) = n) → (∀ n, length (ops n) = n) →
  driver_inv d → rings_empty d → rx_reachable K p stack ops P in_turn d w →
  (rx_enabled in_turn w (RxIn (InCallback CbStart) []) → ¬ silent (rw_rings w) → rw_up w = Some ENOMEM) ∧
  ∀ i w' k, rx_enabled in_turn w i → rx_step K p stack ops w i w' →
    (∀ cs, i ≠ RxIn (InCallback CbStart) cs) →
    rg_rx (rw_rings w') !! k = Some true → rg_rx (rw_rings w) !! k = Some true.
Proof.
  intros HK Hst Hops Hd He Hr.
  destruct (rx_reachable_invariant K p stack ops HK Hst Hops P in_turn d (λ _, True) w) as [[Hac Hrk Hs Hu Hret] _];
    [done..|]. split.
  - intros [_ Hup] Hns. destruct (rw_up w) as [ret|] eqn:E; [|by specialize (Hu eq_refl)].
    destruct (Hret ret eq_refl) as [-> | ->]; done.
  - intros i w' k Hen Hstep Hne Hk.
    destruct Hstep as [i cs w1 new r' Hstp Htr Hwv|c r' new Hc]; cbn [rw_rings] in Hk.
    + assert (∀ cb, i = InCallback cb → callback_wf cb) as Hwf by (intros cb ->; apply Hen).
      destruct (step_rings K p stack ops Hst Hops _ _ _ _ _ Hac Hwf Hrk Hstp Htr) as (_ & Hsil & _ & Hsame).
      apply (be_rx _ _ (weave_below _ _ _ _ _ _ Hwv)) in Hk.
      change (rg_rx (entry_step (rw_rings w) new) !! k = Some true) in Hk.
      destruct (input_cases i) as [-> |[(cb & -> & Hcb)|Hno]]; [by destruct (Hne cs)| |].
      * destruct (Hsil _ eq_refl Hcb) as [HF _]. by apply (proj1 (Forall_lookup _ _) HF) in Hk.
      * destruct (Hsame Hno) as [E _]. by rewrite E in Hk.
    + destruct (completes_below _ _ _ _ _ _ _ Hen Hc) as ([_ _ Hx _] & _). by apply Hx.
Qed.
End reception_theorems.

(** Sample lives, on the header functions of TxPath.v. *)
#[local] Existing Instances linux_headers linux_headers_laws.

Lemma rx_sample_step (P : rx_input → Prop) allowed w i :
  rx_inv w → rx_enabled allowed w i → alone i → P i →
  ∃ w', rx_step good_kernel Release some_bytes some_ops w i w' ∧ rx_inv w' ∧
    rx_move good_kernel Release some_bytes some_ops P allowed w w'.
Proof.
  intros Hi Hen Hal HP.
  destruct (rx_step_exists good_kernel Release some_bytes some_ops good_kernel_ok some_bytes_length some_ops_length
    allowed w i (ri_accounts _ Hi) Hen Hal) as [w' Hs].
  exists w'. split; [done|]. split; [|by exists i].
  eapply rx_step_inv; [apply good_kernel_ok|apply some_bytes_length|apply some_ops_length|..]; done.
Qed.

Lemma initial_rx_inv : rx_inv (rx_beginning Dev.initial).
Proof. apply rx_beginning_inv; [apply initial_inv|apply initial_empty]. Qed.

(** After a start every receive URB is in flight. *)
Lemma sample_started :
  ∃ w, rx_move good_kernel Release some_bytes some_ops benign in_turn (rx_beginning Dev.initial) w ∧
    rx_inv w ∧ Dev.running (w_dev (rw_world w)) = true ∧ listening (rw_rings w).
Proof.
  destruct (rx_sample_step benign in_turn _ (RxIn (InCallback CbStart) []) initial_rx_inv) as (w & S & I & M);
    [by repeat split|done|by apply Forall_nil|].
  exists w. split; [done|]. split; [done|].
  assert (Dev.running (w_dev (rw_world w)) = true) as Hrun.
  { inversion S as [i cs w1 new r' Hst Htr Hwv|]; subst. cbn [rw_world].
    destruct (step_callback_soft _ _ _ _ some_bytes_length some_ops_length _ CbStart _ initial_accounts Logic.I Hst) as (Hs & _).
    by injection Hs. }
  split; [done|].
  eapply (rx_step_listening good_kernel Release some_bytes some_ops some_bytes_length some_ops_length in_turn
    (rx_beginning Dev.initial) (RxIn (InCallback CbStart) [])); try done.
  all: first [apply good_kernel_reliable|apply initial_rx_inv|by repeat split|by apply Forall_nil].
Qed.

Definition sample_transfer : list Z := replicate MT7603_RX_BUF_SIZE 0.
Definition sample_done : completion := UrbDone 2 0 sample_transfer 64 (λ _ _, true) RxInfo_default.

Lemma sample_done_enabled w :
  rx_inv w → listening (rw_rings w) → ready (rw_rings w) sample_done.
Proof.
  intros [Hac [Hl _ _ _] _ _ _] HF. split; [|split; [|split]].
  - assert (2 < length (rg_rx (rw_rings w)))%nat as Hlt.
    { rewrite Hl. assert (length (Dev.rx_urbs (w_dev (rw_world w))) = MT7603_NUM_RX_URBS) as ->
        by apply (di_wf _ (ac_inv _ Hac)). apply Nat.ltb_lt. vm_compute. reflexivity. }
    destruct (lookup_lt_is_Some_2 _ _ Hlt) as [b Hb]. rewrite Hb. f_equal.
    apply (proj1 (Forall_lookup _ _) HF _ _ Hb).
  - apply Forall_replicate. vm_decide.
  - apply length_replicate.
  - unfold sample_transfer. rewrite length_replicate. apply Nat.leb_le. vm_compute. reflexivity.
Qed.

(** A stop that a completion of the third receive URB interrupts. *)
Example stop_interrupted :
  ∃ w w', rx_move good_kernel Release some_bytes some_ops benign in_turn (rx_beginning Dev.initial) w ∧
    rx_step good_kernel Release some_bytes some_ops w (RxIn (InCallback CbStop) [sample_done]) w' ∧
    silent (rw_rings w').
Proof.
  destruct sample_started as (w1 & M1 & I1 & R1 & L1). exists w1.
  assert (rx_enabled (λ _ _, True) w1 (RxIn (InCallback CbStop) [])) as En by by repeat split.
  destruct (interrupted_exists good_kernel Release some_bytes some_ops good_kernel_ok some_bytes_length
    some_ops_length (λ _ _, True) w1 (InCallback CbStop) sample_done I1 En (sample_done_enabled _ I1 L1)) as [w' S].
  exists w'. split; [done|]. split; [done|].
  assert (rx_inv w') as I'.
  { eapply (rx_step_inv good_kernel Release some_bytes some_ops good_kernel_ok some_bytes_length some_ops_length
      (λ _ _, True)); [exact I1| |exact S]. exact En. }
  apply (ri_up _ I'). by inversion S.
Qed.

(** A start, then a completion of the third receive URB. *)
Lemma reception_listens_witness :
  ∃ w, rx_reachable good_kernel Release some_bytes some_ops benign in_turn Dev.initial w ∧
    rg_rx (rw_rings w) = replicate MT7603_NUM_RX_URBS true.
Proof.
  destruct sample_started as (w1 & M1 & I1 & R1 & L1).
  destruct (rx_sample_step benign in_turn w1 (RxDone sample_done) I1 (sample_done_enabled _ I1 L1)) as (w2 & S2 & I2 & M2);
    [done|by repeat split|].
  assert (rx_reachable good_kernel Release some_bytes some_ops benign in_turn Dev.initial w2) as Hr
    by (eapply rtc_l; [exact M1|]; by apply rtc_once).
  exists w2. split; [exact Hr|].
  apply (reception_listens good_kernel Release some_bytes some_ops in_turn Dev.initial w2 good_kernel_ok
    good_kernel_reliable some_bytes_length some_ops_length initial_inv initial_empty eq_refl Hr).
  inversion S2; subst. exact R1.
Defined.

Lemma reception_safe_witness :
  ∃ w, rx_reachable good_kernel Release some_bytes some_ops benign in_turn Dev.initial w ∧
    rg_rx (rw_rings w) !! 2%nat = Some true ∧
    Dev.rx_urbs (w_dev (rw_world w)) !! 2%nat = Some (RxUrb true true) ∧
    ∃ w', rx_step good_kernel Release some_bytes some_ops w (RxDone sample_done) w'.
Proof.
  destruct sample_started as (w1 & M1 & I1 & R1 & L1).
  assert (rx_reachable good_kernel Release some_bytes some_ops benign in_turn Dev.initial w1) as Hr
    by by apply rtc_once.
  pose proof (sample_done_enabled _ I1 L1) as En.
  destruct (reception_safe good_kernel Release some_bytes some_ops benign in_turn Dev.initial w1 good_kernel_ok
    some_bytes_length some_ops_length initial_inv initial_empty Hr) as (Hx & _ & _ & _ & Hex & _).
  exists w1. split; [exact Hr|]. split; [apply En|]. split; [apply Hx, En|]. by apply (Hex (RxDone sample_done) En).
Defined.

(** A kernel that refuses the one large buffer of the start. *)
Definition short_kernel : kernel := {|
  k_kmalloc := λ tr n, if bool_decide (n = START_BUF) then None else k_kmalloc good_kernel tr n;
  k_control_in := k_control_in good_kernel;
  k_control_out := k_control_out good_kernel;
  k_bulk_out := k_bulk_out good_kernel;
  k_alloc_urb := k_alloc_urb good_kernel;
  k_submit_urb := k_submit_urb good_kernel;
  k_wait := k_wait good_kernel;
|}.

Lemma short_kernel_ok : kernel_ok short_kernel.
Proof.
  split; [|apply good_kernel_ok]. intros tr n m. cbn [k_kmalloc short_kernel].
  case_bool_decide; [done|]. apply good_kernel_ok.
Qed.

Definition failed_start : outcome (Z * Dev.t * trace) :=
  run_callback short_kernel Release some_bytes some_ops Dev.initial CbStart [].
Definition failed_dev : Dev.t := match failed_start with Done (_, d, _) => d | _ => Dev.initial end.
Definition failed_trace : trace := match failed_start with Done (_, _, tr) => tr | _ => [] end.

Lemma failed_start_runs : failed_start = Done (ENOMEM, failed_dev, failed_trace).
Proof.
  assert (match failed_start with Done (ret, _, _) => ret =? ENOMEM | _ => false end = true) as H
    by (vm_compute; reflexivity).
  unfold failed_dev, failed_trace. destruct failed_start as [[[ret d] tr]| |]; [|done..].
  by apply Z.eqb_eq in H as ->.
Qed.

(** A first start that fails, and the second start that mac80211 then makes. *)
Lemma rings_only_started_witness :
  ∃ w, rx_reachable short_kernel Release some_bytes some_ops (λ _, True) in_turn Dev.initial w ∧
    rx_enabled in_turn w (RxIn (InCallback CbStart) []) ∧ rw_up w = Some ENOMEM ∧
    rg_rx (rw_rings w) = replicate MT7603_NUM_RX_URBS true.
Proof.
  set (w0 := rx_beginning Dev.initial).
  set (w1 := World failed_dev [] (work false failed_trace) [] [] [] failed_trace).
  set (w := RxWorld w1 (entry_step (rw_rings w0) failed_trace)
    (up_after short_kernel Release some_bytes some_ops w0 (InCallback CbStart))).
  assert (rx_step short_kernel Release some_bytes some_ops w0 (RxIn (InCallback CbStart) []) w) as S.
  { apply (RxStepIn short_kernel Release some_bytes some_ops w0 _ [] w1 failed_trace); [|reflexivity|apply weave_calls].
    apply (StepCallback short_kernel Release some_bytes some_ops (beginning Dev.initial) CbStart ENOMEM
      failed_dev failed_trace); [reflexivity|]. exact failed_start_runs. }
  assert (rw_up w = Some ENOMEM) as Hup.
  { cbn [rw_up w up_after]. change (match failed_start with Done (ret, _, _) => Some ret | _ => None end = Some ENOMEM).
    rewrite failed_start_runs. reflexivity. }
  assert (rg_rx (rw_rings w) = replicate MT7603_NUM_RX_URBS true) as Hrx by (vm_compute; reflexivity).
  assert (rx_reachable short_kernel Release some_bytes some_ops (λ _, True) in_turn Dev.initial w) as Hr.
  { apply rtc_once. exists (RxIn (InCallback CbStart) []). split; [by repeat split|]. by split. }
  assert (rx_enabled in_turn w (RxIn (InCallback CbStart) [])) as Hen by (repeat split; cbn [in_turn]; by rewrite Hup).
  exists w. split; [exact Hr|]. split; [exact Hen|]. split; [|exact Hrx].
  apply (rings_only_started short_kernel Release some_bytes some_ops (λ _, True) Dev.initial w short_kernel_ok
    some_bytes_length some_ops_length initial_inv initial_empty Hr); [exact Hen|].
  intros [HF _]. rewrite Hrx in HF. by apply Forall_inv in HF.
Defined.
