(* ===== verification/Secure.v ===== *)
(** * A station, its key and its frames (sta_add, set_key and tx together)

    mac80211 registers a station, offloads its pairwise key, and then passes
    frames that name the key ([hw_key]).  The driver connects the three by the
    slot number 1 only: the table entry sta_add writes, the key memory set_key
    writes, and the station index in the descriptor of a unicast frame.  This
    file composes the three on the registers. *)

From S2P Require Import Prelude Rust Ffi Regmap Mac Tx Sta Entry Usb Device Cmd Plan Dev Driver Bank Keys Vif RxPath TxPath.
From stdpp Require Import functions.
Local Open Scope Z_scope.
Local Open Scope rust_scope.

(** What the encryption engine finds in slot [w]: the entry's validity,
    address, key-valid bit and cipher suite, and the key memory. *)
Record slot := Slot {
  s_valid : bool; s_addr : list Z; s_key_valid : bool; s_cipher : Z; s_key : list Z
}.
Definition slot_of (h : Z → Z) (w : Z) : slot :=
  let base := WTBL1_BASE + 32 * w in
  let key i := u32_to_le_bytes (h (WTBL3_KEY_BASE + 64 * w + 4 * i)) in {|
  s_valid := Z.testbit (h base) 28;
  s_addr := u32_to_le_bytes (h (base + 4)) ++ [bits 0 8 (h base); bits 8 8 (h base)];
  s_key_valid := Z.testbit (h base) 26;
  s_cipher := bits 3 4 (h (base + 8));
  s_key := key 0 ++ key 1 ++ key 2 ++ key 3 |}.

(** The slot the descriptor of a transfer names. *)
Definition wire_slot (wire : list Z) : Z := f_wlan_idx (decode_txd (take 32 wire)).

(** *** The station's entry *)

Section secure.
Context (K : kernel) (p : profile) (h0 : Z → Z).
Context (HK : reliable K) (Hok : kernel_ok K) (HT : table_memory K h0 station_table).

(** The interface does not matter for the entry. *)
Lemma sta_add_slot stack ops d v a entry h :
  length stack = CHAN_BUF → length ops = 32%nat → driver_inv d →
  length a = 6%nat → Forall is_u8 a → is_zero_ether_addr a = false →
  wp h0 (mt7603_mac80211_sta_add K p stack ops d v a entry)
    (λ _ h', ∃ h1, h' = writes (slot_ops a) h1 ∧
       ∀ x, x ≠ RMAC_CHFREQ → x ∉ addr <$> bssid_ops a → h1 x = h x) h.
Proof.
  intros Hst Hl Hd Ha H8 Hz.
  eapply wp_weaken; [by apply sta_add_wp|]. cbn beta. intros r h' (_ & h1 & Hh1 & ->).
  exists (writes (if is_ap v then [] else bssid_ops a) h1). split; [unfold join_ops; by rewrite writes_app|].
  intros x Hx Hn. rewrite writes_other by (by destruct (is_ap v); [apply not_elem_of_nil|]).
  destruct Hh1 as [-> | [_ ->]]; [done|by apply fn_ne].
Qed.

Lemma slot_written a h :
  length a = 6%nat → Forall is_u8 a →
  let h' := writes (slot_ops a) h in
  h' (WTBL1_BASE + 32) = dw0_ap (nth 4 a 0) (nth 5 a 0) ∧
  u32_to_le_bytes (h' (WTBL1_BASE + 32 + 4)) ++ drop 4 a = a ∧
  h' (WTBL1_BASE + 32 + 8) = dw2_ap ∧
  ∀ i, 0 ≤ i < 4 → h' (WTBL3_KEY_BASE + 64 + 4 * i) = h (WTBL3_KEY_BASE + 64 + 4 * i).
Proof.
  intros Hl H8. do 6 (destruct a as [|? a]; [simpl in Hl; lia|]). destruct a; [|simpl in Hl; lia].
  rewrite !Forall_cons_iff in H8. destruct H8 as (?&?&?&?&?&?&_). cbv zeta.
  assert (∀ x, writes (slot_ops [z; z0; z1; z2; z3; z4]) h x = (<[0x0004007C := 0]>
    (writes (wtbl_sta_ops [z; z0; z1; z2; z3; z4]) h)) x) as Hs
    by (intros x; unfold slot_ops; by rewrite writes_app).
  rewrite !Hs. split; [|split; [|split]].
  - rewrite fn_ne by done. cbn [writes foldl wtbl_sta_ops addr val nth]. by reg_lookup.
  - rewrite fn_ne by done. cbn [writes foldl wtbl_sta_ops addr val nth]. reg_lookup.
    by rewrite u32_to_from.
  - rewrite fn_ne by done. cbn [writes foldl wtbl_sta_ops addr val nth]. by reg_lookup.
  - intros i Hi. rewrite Hs, fn_ne by (unfold WTBL3_KEY_BASE; lia). apply writes_other.
    cbn [wtbl_sta_ops fmap list_fmap addr]. unfold WTBL1_BASE, WTBL1_ENTRY_SIZE, WTBL1OR, WTBL3_KEY_BASE.
    rewrite !not_elem_of_cons. split_and!; try lia. apply not_elem_of_nil.
Qed.

(** A field outside the changed mask is kept. *)
Lemma kept_field lo w m x y :
  bits lo w m = 0 → Z.ldiff x m = Z.ldiff y m → bits lo w x = bits lo w y.
Proof.
  intros Hm Hxy. apply (f_equal (bits lo w)) in Hxy. by rewrite !bits_ldiff, Hm, !Z.ldiff_0_r in Hxy.
Qed.

Lemma key_slot key h h' :
  key_installed 1 true key h h' → (16 ≤ length (k_key key))%nat →
  slot_of h' 1 = Slot true (s_addr (slot_of h 1)) true 4 (take 16 (k_key key)).
Proof.
  intros [Hb _ H0 H2 _ Hf] Hl. cbv zeta in H0, H2. destruct H0 as (_ & Hrkv & _ & _ & Hv & Hk0).
  destruct H2 as (Hc & _ & _). unfold slot_of. cbn [s_addr]. cbv zeta.
  change (32 * 1) with 32 in *. change (64 * 1) with 64 in *.
  rewrite !(testbit_field _ 28), !(testbit_field _ 26), Hv, Hrkv, Hc by lia.
  rewrite (Hf (WTBL1_BASE + 32 + 4)).
  2: { apply station_table_mapped. left. unfold WTBL1_BASE. lia. }
  2: vm_decide.
  rewrite (kept_field 0 8 KEY_DW0 _ _ eq_refl Hk0), (kept_field 8 8 KEY_DW0 _ _ eq_refl Hk0).
  pose proof (Hb 0%nat ltac:(lia)) as B0. pose proof (Hb 1%nat ltac:(lia)) as B1.
  pose proof (Hb 2%nat ltac:(lia)) as B2. pose proof (Hb 3%nat ltac:(lia)) as B3.
  change (Z.of_nat 0) with 0 in B0. change (Z.of_nat 1) with 1 in B1.
  change (Z.of_nat 2) with 2 in B2. change (Z.of_nat 3) with 3 in B3.
  rewrite B0, B1, B2, B3. f_equal. generalize (k_key key) Hl. intros k Hk.
  do 16 (destruct k as [|? k]; [simpl in Hk; lia|]). done.
Qed.

Lemma dw0_ap_keyless b4 b5 : is_u8 b4 → is_u8 b5 → bits 26 1 (dw0_ap b4 b5) = 0.
Proof. intros. unfold dw0_ap. by bitfield. Qed.

Lemma station_slot a h :
  length a = 6%nat → Forall is_u8 a →
  slot_of (writes (slot_ops a) h) 1 = Slot true a false 0 (s_key (slot_of h 1)).
Proof.
  intros Hl H8. destruct (slot_written a h Hl H8) as (E0 & E1 & E2 & E3).
  assert (is_u8 (nth 4 a 0) ∧ is_u8 (nth 5 a 0)) as [H4 H5] by (split; by apply Forall_nth_u8).
  destruct (dw0_ap_fields (nth 4 a 0) (nth 5 a 0) H4 H5) as (F28 & _ & _ & _ & F0 & F8).
  pose proof (dw0_ap_keyless _ _ H4 H5) as F26.
  unfold slot_of. cbn [s_key]. cbv zeta. change (32 * 1) with 32. change (64 * 1) with 64.
  rewrite E0, E2, !(testbit_field _ 28), !(testbit_field _ 26), F28, F26, F0, F8, !E3 by lia.
  f_equal. rewrite <-E1 at 3. f_equal.
  do 6 (destruct a as [|? a]; [simpl in Hl; lia|]). destruct a; [done|simpl in Hl; lia].
Qed.

(** ** The composition *)

Section frames.
Context `{Ieee80211Laws}.

(** A frame to the station [a], as the driver sends it from the state [d]. *)
Definition sent_to (d : Dev.t) (frame : list Z) (info : tx_info) : list Z :=
  tx_wire (ieee80211_is_mgmt (frame_fc frame)) (frame_params d frame info) frame.

Definition frame_to (d : Dev.t) (a frame : list Z) (info : tx_info) : Prop :=
  Dev.wf d ∧ frame_ok frame info ∧ Z.of_nat (length frame) ≤ 65000 ∧
  take 6 (drop 4 frame) = a ∧ Z.testbit (nth 0 a 0) 0 = false ∧
  tx_is_injected d info = false ∧ hw_key info = true.

Lemma frame_slot d a frame info :
  frame_to d a frame info →
  wire_slot (sent_to d frame info) = 1 ∧ f_protect_frm (decode_txd (take 32 (sent_to d frame info))) = 1.
Proof.
  intros (Hd & Hf & Hl & <- & Hu & Hi & Hk).
  destruct (tx_wire_fields d frame info Hd Hf Hl) as (_ & _ & _ & _ & _ & _ & _ & _ & _ & _ & Hp & Hrest).
  rewrite Hi, Hk in *. destruct Hrest as (_ & Hw & _). split; [|exact Hp]. unfold wire_slot, sent_to.
  rewrite Hw. unfold frame_group. assert (nth 0 (take 6 (drop 4 frame)) 0 = nth 4 frame 0) as <-; [|by rewrite Hu].
  by do 5 (destruct frame as [|? frame]; [done|]).
Qed.
End frames.

Lemma sta_add_key stack ops d v a entry key h :
  length stack = CHAN_BUF → length ops = 32%nat → driver_inv d →
  length a = 6%nat → Forall is_u8 a → is_zero_ether_addr a = false →
  k_cipher key = WLAN_CIPHER_SUITE_CCMP → (16 ≤ length (k_key key))%nat → Forall is_u8 (k_key key) →
  wp h0 (_ ← mt7603_mac80211_sta_add K p stack ops d v a entry;
         mt7603_mac80211_set_key K p true v (Some a) key)
    (λ r h', r = (0, Some 1) ∧ slot_of h' 1 = Slot true a true 4 (take 16 (k_key key))) h.
Proof.
  intros Hst Hl Hd Ha H8 Hz Hc Hkl Hk. eapply wp_bind; [by apply sta_add_slot|]. cbn beta.
  intros _ h1 (h2 & -> & _). eapply wp_weaken; [by apply (set_key_wp K p h0 HK Hok HT v (Some a) key)|].
  cbn beta. assert (key_wcid key (Some a) = 1) as -> by (unfold key_wcid, has_addr; rewrite Hz; by destruct (k_pairwise key)).
  intros r h' [Hr Hi]. split; [exact Hr|]. cbn [Z.eqb negb orb] in Hi.
  rewrite (key_slot _ _ _ Hi Hkl). by rewrite station_slot.
Qed.
End secure.

(** ** Properties *)

Section secure_theorems.
Context `{Ieee80211Laws}.

(** C10. From association to encryption, in either interface type.  After sta_add
    and the installation of the station's CCMP key, on a device whose
    transfers succeed, a unicast frame for which mac80211 named a hardware key
    carries a descriptor that asks for protection and names a slot which is
    valid, addressed to the receiver of the frame, marked as keyed with CCMP,
    and holds exactly the sixteen bytes of the key. *)
Theorem protected_frame_finds_key K p h0 stack ops d v a entry key h dtx frame info :
  reliable K → kernel_ok K → table_memory K h0 station_table →
  length stack = CHAN_BUF → length ops = 32%nat → driver_inv d →
  length a = 6%nat → Forall is_u8 a → is_zero_ether_addr a = false →
  k_cipher key = WLAN_CIPHER_SUITE_CCMP → (16 ≤ length (k_key key))%nat → Forall is_u8 (k_key key) →
  frame_to dtx a frame info →
  let wire := sent_to dtx frame info in
  wp h0 (_ ← mt7603_mac80211_sta_add K p stack ops d v a entry;
         mt7603_mac80211_set_key K p true v (Some a) key) (λ r h',
    r = (0, Some (wire_slot wire)) ∧ f_protect_frm (decode_txd (take 32 wire)) = 1 ∧
    slot_of h' (wire_slot wire)
      = Slot true (take 6 (drop 4 frame)) true 4 (take 16 (k_key key))) h.
Proof.
  intros HK Hok HT Hst Hl Hd Ha H8 Hz Hc Hkl Hk Hf wire. destruct (frame_slot _ _ _ _ Hf) as [Hw Hp].
  fold wire in Hw, Hp. rewrite Hw, Hp. destruct Hf as (_ & _ & _ & -> & _).
  eapply wp_weaken; [by apply sta_add_key|]. by intros r h' [-> ->].
Qed.

(** A second station takes the first one's place.  There is one slot for
    stations: after another station [b] is added - an access point's second
    client - a frame to [a] still names the slot, which is now addressed to
    [b] and no longer keyed, although mac80211 was told that the hardware
    encrypts for [a]. *)
Theorem second_station_displaces K p h0 stack ops d v a entry key h dtx frame info b entry_b db :
  reliable K → kernel_ok K → table_memory K h0 station_table →
  length stack = CHAN_BUF → length ops = 32%nat → driver_inv d → driver_inv db →
  length a = 6%nat → Forall is_u8 a → is_zero_ether_addr a = false →
  length b = 6%nat → Forall is_u8 b → is_zero_ether_addr b = false →
  k_cipher key = WLAN_CIPHER_SUITE_CCMP → (16 ≤ length (k_key key))%nat → Forall is_u8 (k_key key) →
  frame_to dtx a frame info →
  let wire := sent_to dtx frame info in
  wp h0 (_ ← (_ ← mt7603_mac80211_sta_add K p stack ops d v a entry;
              mt7603_mac80211_set_key K p true v (Some a) key);
         mt7603_mac80211_sta_add K p stack ops db v b entry_b) (λ _ h',
    f_protect_frm (decode_txd (take 32 wire)) = 1 ∧
    s_addr (slot_of h' (wire_slot wire)) = b ∧
    s_key_valid (slot_of h' (wire_slot wire)) = false ∧ s_cipher (slot_of h' (wire_slot wire)) = 0) h.
Proof.
  intros HK Hok HT Hst Hl Hd Hdb Ha H8 Hz Hb Hb8 Hbz Hc Hkl Hk Hf wire.
  destruct (frame_slot _ _ _ _ Hf) as [Hw Hp]. fold wire in Hw, Hp. rewrite Hw, Hp.
  eapply (wp_bind h0); [by apply sta_add_key|]. intros r h1 _.
  eapply wp_weaken; [by apply sta_add_slot|]. cbn beta. intros _ h' (h2 & -> & _).
  by rewrite station_slot.
Qed.
End secure_theorems.

(** A client, its key and a frame to it, on a device of memory. *)
#[local] Existing Instances linux_headers linux_headers_laws.

Definition sample_station : list Z := [2; 4; 6; 8; 10; 12].
Definition other_station : list Z := [2; 4; 6; 8; 10; 14].
Definition running_initial : Dev.t := Dev.set_running Dev.initial true.

Lemma sample_frame_to : frame_to running_initial sample_station sample_frame sample_info.
Proof. split; [vm_decide|]. split; [|by split_and!; vm_decide]. vm_decide. Qed.

Lemma protected_frame_finds_key_witness :
  let wire := sent_to running_initial sample_frame sample_info in
  wire_slot wire = 1 ∧
  ∃ tr h', (_ ← mt7603_mac80211_sta_add (bank_kernel erased) Release (replicate CHAN_BUF 0)
        (replicate 32 (0 ↤ 0)) Dev.initial (Some (Vif 7 AP (replicate 6 2) None)) sample_station None;
      mt7603_mac80211_set_key (bank_kernel erased) Release true (Some (Vif 7 AP (replicate 6 2) None))
        (Some sample_station) sample_key) [] = Done ((0, Some 1), tr) ∧
    slot_of h' 1 = Slot true sample_station true 4 [1; 2; 3; 4; 5; 6; 7; 8; 9; 10; 11; 12; 13; 14; 15; 16].
Proof.
  intros wire. assert (wire_slot wire = 1) as Hw by (vm_compute; reflexivity). split; [exact Hw|].
  destruct erased_kernel as (HK & Hok & HT).
  destruct (protected_frame_finds_key (bank_kernel erased) Release erased (replicate CHAN_BUF 0)
    (replicate 32 (0 ↤ 0)) Dev.initial (Some (Vif 7 AP (replicate 6 2) None)) sample_station None sample_key erased
    running_initial sample_frame sample_info HK Hok HT (length_replicate _ _) (length_replicate _ _) initial_inv
    eq_refl ltac:(vm_decide) eq_refl eq_refl ltac:(simpl; lia) ltac:(vm_decide) sample_frame_to
    [] (λ _ _, eq_refl)) as (r & tr & h' & Heq & _ & Hr & _ & Hs).
  exists tr, h'. fold wire in Hr, Hs. rewrite Hw in Hr, Hs. rewrite Hr in Heq. split; [exact Heq|exact Hs].
Defined.

Lemma second_station_displaces_witness :
  let wire := sent_to running_initial sample_frame sample_info in
  let v := Some (Vif 7 AP (replicate 6 2) None) in
  ∃ r tr h', (_ ← (_ ← mt7603_mac80211_sta_add (bank_kernel erased) Release (replicate CHAN_BUF 0)
        (replicate 32 (0 ↤ 0)) Dev.initial v sample_station None;
      mt7603_mac80211_set_key (bank_kernel erased) Release true v (Some sample_station) sample_key);
      mt7603_mac80211_sta_add (bank_kernel erased) Release (replicate CHAN_BUF 0)
        (replicate 32 (0 ↤ 0)) Dev.initial v other_station None) [] = Done (r, tr) ∧
    s_addr (slot_of h' (wire_slot wire)) = other_station ∧ s_key_valid (slot_of h' (wire_slot wire)) = false.
Proof.
  intros wire v. destruct erased_kernel as (HK & Hok & HT).
  destruct (second_station_displaces (bank_kernel erased) Release erased (replicate CHAN_BUF 0)
    (replicate 32 (0 ↤ 0)) Dev.initial v sample_station None sample_key erased
    running_initial sample_frame sample_info other_station None Dev.initial HK Hok HT (length_replicate _ _)
    (length_replicate _ _) initial_inv initial_inv
    eq_refl ltac:(vm_decide) eq_refl eq_refl ltac:(vm_decide) eq_refl eq_refl ltac:(simpl; lia) ltac:(vm_decide)
    sample_frame_to [] (λ _ _, eq_refl)) as (r & tr & h' & Heq & _ & _ & Ha & Hv & _).
  exists r, tr, h'. split; [exact Heq|]. split; [exact Ha|exact Hv].
Defined.
