(* ===== verification/Rates.v ===== *)
(** * Rates, from mac80211 to mac80211

    mac80211 picks a rate by its index in the driver's band table
    ([mt7603_rates_2ghz]) or as an MCS; the driver turns it into the rate field
    of the descriptor, and a receiver running the same driver turns what its
    PHY reports back into an index or an MCS.  This file composes the two
    directions with the table and with the rate codes of 802.11. *)

From S2P Require Import Prelude Rust Ffi Rx Tx Dev Vif RxPath TxPath.
Local Open Scope Z_scope.
Local Open Scope rust_scope.

(** ** What a rate code means

    The codes of the rate field's low six bits: the long and short preamble
    rates of 802.11b, and the SIGNAL field's RATE codes of 802.11 OFDM; in
    units of 100 kbit/s. *)
Definition code_bitrate (mode code : Z) : option Z :=
  if mode =? MODE_CCK then
    match code with
    | 0 => Some 10 | 1 => Some 20 | 2 => Some 55 | 3 => Some 110
    | 5 => Some 20 | 6 => Some 55 | 7 => Some 110
    | _ => None
    end
  else if mode =? MODE_OFDM then
    match code with
    | 11 => Some 60 | 15 => Some 90 | 10 => Some 120 | 14 => Some 180
    | 9 => Some 240 | 13 => Some 360 | 8 => Some 480 | 12 => Some 540
    | _ => None
    end
  else None.

(** The descriptor's rate field, and the status a receiver makes of a vector
    that carries its mode, code, width and guard interval. *)
Definition field_code (d : TxdFields) : Z := bits 0 6 (f_tx_rate d).
Definition field_mode (d : TxdFields) : Z := bits 6 3 (f_tx_rate d).
Definition received_rate (d : TxdFields) : rx_encoding * Z * rate_info_bw * bool :=
  rx_set_rate (rate_encode (field_code d) (field_mode d) (bits 0 2 (f_bw d)) (f_gi d)).

(** ** The rate numbers *)

Definition rate_word (mode mcs pre : Z) : Z :=
  match tx_rate_to_tmi Release mode mcs 0 (txd_nss mode mcs) pre with Done r => r | _ => 0 end.
Definition gi_bit (mode pre : Z) : Z := if is_ht mode && negb (Z.land pre 2 =? 0) then 1 else 0.

(** What is received of a frame sent with these parameters. *)
Definition received (mode mcs pre bw : Z) : rx_encoding * Z * rate_info_bw * bool :=
  let r := bits 0 12 (rate_word mode mcs (Z.land pre 1)) in
  rx_set_rate (rate_encode (bits 0 6 r) (bits 6 3 r) (bits 0 2 (4 + bits 0 2 bw)) (gi_bit mode pre)).
Definition sent_bitrate (mode mcs pre : Z) : option Z :=
  let r := bits 0 12 (rate_word mode mcs (Z.land pre 1)) in code_bitrate (bits 6 3 r) (bits 0 6 r).

(** The index that arrives: 1 Mbit/s has no short preamble. *)
Definition arriving (idx : Z) (short : bool) : Z := if (idx =? 0) && short then 1 else idx.

Lemma cck_arrives (idx : Z) (short : bool) :
  0 ≤ idx < 4 →
  let pre := if short then 0 else 1 in
  sent_bitrate 0 idx pre = mt7603_rates_2ghz !! Z.to_nat (arriving idx short) ∧
  received 0 idx pre 0 = (RX_ENC_LEGACY, arriving idx short, RATE_INFO_BW_20, false).
Proof. intros Hi. destruct short; pattern idx; (eapply (range_forall _ 0 4); [by vm_compute|lia]). Qed.

Lemma ofdm_arrives idx :
  4 ≤ idx < 12 →
  sent_bitrate 1 (Z.land (idx - 4) 0x07) 1 = mt7603_rates_2ghz !! Z.to_nat idx ∧
  received 1 (Z.land (idx - 4) 0x07) 1 0 = (RX_ENC_LEGACY, idx, RATE_INFO_BW_20, false).
Proof. intros Hi. pattern idx. eapply (range_forall _ 4 8); [by vm_compute|lia]. Qed.

Lemma mcs_arrives mcs bw (sgi : bool) :
  0 ≤ mcs < 16 → 0 ≤ bw ≤ 1 →
  received 2 mcs (if sgi then 2 else 0) bw
  = (RX_ENC_HT, mcs, if bw =? 1 then RATE_INFO_BW_40 else RATE_INFO_BW_20, sgi).
Proof.
  intros Hm Hb. assert (bw = 0 ∨ bw = 1) as [-> | ->] by lia; destruct sgi; pattern mcs;
    (eapply (range_forall _ 0 16); [by vm_compute|lia]).
Qed.

Section rates.
Context `{Ieee80211Laws}.

(** The rate fields of a transfer are those of the parameters. *)
Lemma wire_rate dev frame info :
  Dev.wf dev → frame_ok frame info → Z.of_nat (length frame) ≤ 65000 →
  let is_mgmt := ieee80211_is_mgmt (frame_fc frame) in
  let d := decode_txd (take 32 (tx_wire is_mgmt (frame_params dev frame info) frame)) in
  let '(mode, mcs, pre, bw) := tx_select_rate dev is_mgmt info in
  received_rate d = received mode mcs pre bw ∧
  code_bitrate (field_mode d) (field_code d) = sent_bitrate mode mcs pre.
Proof.
  intros Hdev Hf Hl is_mgmt d.
  destruct (frame_params_ok dev Hdev frame info Hf) as (Hwf & _ & Hhl & Hpkt).
  set (params := frame_params dev frame info) in *. pose proof (hdrlen_range (frame_fc frame)).
  assert (f_tx_rate d = bits 0 12 (tmi_rate params) ∧ f_bw d = 4 + bits 0 2 (TxParams.bw params) ∧
    f_gi d = txd_gi params) as (E1 & E2 & E3).
  { unfold d, tx_wire. rewrite take_app_length' by by rewrite length_tx_descriptor.
    rewrite decode_tx_descriptor, decode_txd_frame; [done|done|rewrite Hhl; lia|rewrite Hhl; apply hdrlen_even|rewrite Hpkt; lia]. }
  unfold received_rate, field_mode, field_code. rewrite E1, E2, E3. unfold tmi_rate, txd_tx_rate, txd_gi, params, frame_params, tx_params.
  fold is_mgmt. destruct (tx_select_rate dev is_mgmt info) as [[[mode mcs] pre] bw].
  cbn [TxParams.rate_mode TxParams.rate_mcs TxParams.preamble TxParams.bw].
  unfold received, sent_bitrate, rate_word, gi_bit.
  by destruct (tx_rate_to_tmi Release mode mcs 0 (txd_nss mode mcs) (Z.land pre 1)).
Qed.

(** C15. A rate arrives as it was asked for.  For a data frame at a rate mac80211
    picked, the descriptor of the transfer carries the bit rate that the
    driver's table announces under that index, and a receiver running the same
    driver reports the same index, or the same MCS with the width and the
    guard interval asked for.  The one exception is 1 Mbit/s with a short
    preamble, which 802.11 does not have and the table offers: it is sent, and
    received, as 2 Mbit/s. *)
Theorem rate_arrives dev frame info :
  driver_inv dev → frame_ok frame info → Z.of_nat (length frame) ≤ 65000 →
  ieee80211_is_mgmt (frame_fc frame) = false → 0 ≤ rate0_idx info →
  let d := decode_txd (take 32 (tx_wire false (frame_params dev frame info) frame)) in
  let i := arriving (rate0_idx info) (rc_use_short_preamble info) in
  (rc_mcs info = true →
    received_rate d = (RX_ENC_HT, rate0_idx info mod 16,
      if rc_40_mhz_width info || (Dev.current_bw dev =? 1) then RATE_INFO_BW_40 else RATE_INFO_BW_20,
      rc_short_gi info)) ∧
  (rc_mcs info = false → rate0_idx info < Z.of_nat (length mt7603_rates_2ghz) →
    code_bitrate (field_mode d) (field_code d) = mt7603_rates_2ghz !! Z.to_nat i ∧
    received_rate d = (RX_ENC_LEGACY, i, RATE_INFO_BW_20, false)).
Proof.
  intros Hd Hf Hl Hm Hi d i. pose proof (wire_rate dev frame info (di_wf _ Hd) Hf Hl) as Hw.
  cbv zeta in Hw. rewrite Hm in Hw. fold d in Hw. unfold tx_select_rate in Hw. cbn [negb andb] in Hw.
  rewrite (proj2 (Z.leb_le _ _) Hi) in Hw. destruct (di_channel _ Hd) as [_ Hbw].
  split; intros Hr; rewrite Hr in Hw.
  - destruct Hw as [-> _]. change 0x0f with (Z.ones 4). rewrite Z.land_ones by lia. change (2 ^ 4) with 16.
    rewrite mcs_arrives; [|apply Z.mod_pos_bound; lia|destruct (rc_40_mhz_width info); lia].
    by destruct (rc_40_mhz_width info).
  - intros Hlt. change (Z.of_nat (length mt7603_rates_2ghz)) with 12 in Hlt. unfold i.
    destruct (Z.ltb_spec (rate0_idx info) 4); destruct Hw as [-> ->].
    + destruct (cck_arrives (rate0_idx info) (rc_use_short_preamble info)) as [-> ->]; [lia|done].
    + destruct (ofdm_arrives (rate0_idx info)) as [-> ->]; [lia|].
      unfold arriving. destruct (Z.eqb_spec (rate0_idx info) 0); [lia|done].
Qed.
End rates.

(** 24 Mbit/s, index 8. *)
#[local] Existing Instances linux_headers linux_headers_laws.
Definition legacy_info : tx_info := {|
  ctl_injected := false; ctl_no_ack := false; hw_key := false; rate0_idx := 8; rc_mcs := false;
  rc_40_mhz_width := false; rc_short_gi := false; rc_use_short_preamble := false |}.

Lemma rate_arrives_witness :
  let d := decode_txd (take 32 (tx_wire false (frame_params Dev.initial sample_frame legacy_info) sample_frame)) in
  code_bitrate (field_mode d) (field_code d) = Some 240 ∧
  received_rate d = (RX_ENC_LEGACY, 8, RATE_INFO_BW_20, false).
Proof.
  destruct (rate_arrives Dev.initial sample_frame legacy_info) as [_ Hr];
    [apply initial_inv|vm_decide|vm_decide|reflexivity|vm_decide|].
  by apply Hr.
Defined.
